(* ===== verification/_CoqProject ===== *)
-Q . S2P
Prelude.v
GoStrings.v
Buffer.v
HeaderFields.v
AuthenFields.v
AuthorFields.v
Args.v
Attributes.v
Header.v
Codec.v
Authenticate.v
Authorize.v
Accounting.v
MD5.v
Proxy.v
Crypt.v
Crypter.v
Sessions.v
Response.v
Server.v
Metrics.v
Client.v
ClientPrograms.v
Config.v
Stringy.v
AAA.v
Handlers.v
SecretProviders.v
Loader.v
Listener.v
ConfigFiles.v
System.v
Logging.v
Generator.v
MainProgram.v
Scenarios.v
Counters.v
WireTheorems.v
ConnTheorems.v
HandlerSafety.v
ServerTheorems.v
ReplyTheorems.v
HandlerTheorems.v
EndToEnd.v
SessionTheorems.v
AuthzTheorems.v
LoaderTheorems.v
ConfigFileTheorems.v
SystemTheorems.v
MetricsTheorems.v
CounterTheorems.v
LogTheorems.v
MainTheorems.v
ClientTheorems.v
ScenarioTheorems.v
GeneratorTheorems.v
DeploymentTheorems.v
