(* ===== verification/Prelude.v ===== *)
(** * tacquito: a verified model of the TACACS+ server

    This library models the core of the repository, a TACACS+ (RFC 8907) server
    written in Go, as executable Rocq definitions, and proves what makes them
    correct. Paths are relative to src/.

    ** The program

    A server accepts connections (server.go, [Serve]). A goroutine per
    connection (server.go, [handle]) reads packets from the obfuscated
    connection (crypt.go), finds the session of the packet (sessions.go), calls
    its handler, or the handler the configuration names for new sessions, and
    keeps the handler that is to get the next packet of the session. Handlers
    (cmds/server/handlers) decode the body of the request (authenticate.go,
    authorize.go, accounting.go), look up the user (cmds/server/config), pass
    the request on to the authenticator, authorizer or accounter of the user,
    and reply through the response they are given (handlers.go).

    ** The files

    - Prelude: bytes as [Byte.byte] with a [Z] view, machine integers as [Z]
      with their wrap-around ([u8], [u16], [u32]), the result of fallible code
      ([outcome]: a value, an error, or a panic), the state monad [SM], and the
      lemmas and tactics all files share. GoStrings: what the code uses of the
      package strings.
    - Buffer: the reader of packet.go ([readBuffer]), as a reader monad.
      HeaderFields, AuthenFields, AuthorFields: the field types of
      header_fields.go, authenticate_fields.go, authorize_fields.go and
      accounting_fields.go. Args: [Arg] and [Args] of authorize_fields.go.
    - Header: header.go and [Packet] of packet.go. Codec: the interface
      [EncoderDecoder], and the class [Codec] of its laws, which the bodies in
      Authenticate, Authorize and Accounting are instances of; a client of the
      class gets its exactness and round-trip theorems from there.
    - MD5: the class [Hash], which crypt.go needs, and MD5 as its executable
      instance. Crypt: [crypt] of crypt.go. Proxy: proxy/readerwriter.go.
      Crypter: [read] and [write] of crypt.go over a connection, which is the
      bytes still to be read, the error after them, the writes so far and the
      errors of the next writes; the detection of bad secrets.
    - Sessions: sessions.go. Response: handlers.go, with the classes [Writer]
      and [Handler] and the laws a handler promises to the server. Server: the
      loop of server.go, as one function per turn ([serve_packet]), as a
      fixpoint ([serve]), and as a step relation in which the cancellation of
      the context may come before every turn ([step], [reachable]).
    - Config: cmds/server/config/types.go. Stringy: the evaluation of
      cmds/server/config/authorizers/stringy. AAA: the handlers of one user:
      aaa.go, provider.go, the bcrypt authenticator, the stringy authorizer and
      the local and syslog accounters. Handlers: the packet handlers of
      cmds/server/handlers, as an inductive type of handlers with one function
      ([handler_Handle]), and Record of cmds/server/log.go.
    - Client: [Send] of client.go, and an exchange of a client with the server
      loop. ClientPrograms: dialling, and the program of cmds/client with its
      two logins, against any peer; the server loop is one ([server_peer]).
    - SecretProviders: the prefix and the DNS provider and the keychain of
      cmds/server/config/secret. Loader: cmds/server/loader: from a
      configuration to secret providers, users and handlers, the prefix filters,
      the loop over updates and queries, and what main.go registers. Listener:
      [NewServer] and [Serve] of server.go as a step relation over the turns of
      the accept loop and the ends of the goroutines it starts. ConfigFiles: the
      decoders and the watcher of cmds/server/loader/json, yaml and fsnotify,
      and the pipeline from the file to the loader.
    - System: the running process, as one step relation over all of these: the
      accept loop, a connection loop per goroutine, the watcher, the loader,
      the metrics exporter and the interrupt ([process_step], [process_run]).
      MainProgram: cmds/server/main.go up to the call of [Serve], and
      support.go. Logging: the default logger of cmds/server/log.go and the text
      of a record. Metrics: the collectors of the five stats.go files, how they
      are registered, and the gauges of the sessions and the handlers.
      Counters: what every other function that counts does to them.
      Generator: the program that makes and checks bcrypt hashes. Scenarios: the
      login tests of cmds/server/test, with their packets and checks, the
      sample configuration and the server the mocks build from it.
    - Attributes: the attribute types of authorization and accounting.
    - WireTheorems, ConnTheorems, HandlerSafety, ServerTheorems, ReplyTheorems,
      HandlerTheorems, EndToEnd, SessionTheorems, AuthzTheorems,
      LoaderTheorems, ConfigFileTheorems, SystemTheorems, MetricsTheorems,
      CounterTheorems, LogTheorems, MainTheorems, ClientTheorems,
      ScenarioTheorems, GeneratorTheorems, DeploymentTheorems: the properties,
      each file after those it builds on.

    ** What is proved

    - The wire format: every decoder accepts exactly the encodings of valid
      packets that fit their length fields, followed by anything, but for one
      byte that may be missing at the end of an authentication reply; headers and
      packets make the round trip; exactly which slices, with the capacity behind
      them, make the decoder of packets panic; what the truncated length bytes
      break.
    - The connection: [crypt] is the obfuscation of RFC 8907 and its own
      inverse; what one end writes, the other reads; reading arbitrary bytes
      does not panic; packets under a wrong secret are answered; proxy lines are
      removed.
    - The server: the loop ends on every input; no input makes it panic, for the
      configurations [handler_safe] describes; sessions are well formed and do
      not disturb each other; bad sequence numbers close the connection; replies
      are delivered; what happens at sequence number 255.
    - The handlers: the ASCII login refines an abstract state machine; logins
      succeed exactly with the right password, unknown users are refused; which
      passwords of 256 bytes or more are taken for others; of a password nothing
      is printed but its length, unless it is one of these; accounting requests
      are logged before they are answered.
    - Authorization: the first command entry that applies decides; sessions get
      exactly the values of the services that apply, each once; how a client
      chooses the scope in which they apply.
    - The loader: which secret config a connection gets, which users a scope
      has and what they take from their groups; the order of a map does not
      matter; queries are answered from the latest configuration; reloads reach
      the loader in order; the prefix filters have no effect; what a reload
      keeps of the previous file; a server that is told to stop does.
    - The process: every connection is a run of the server loop on its own,
      under one configuration the loader had received; a connection is accepted
      under the latest one; the log is an interleaving of what the connections
      write; a cancelled process ends; when it starts and when it does not;
      without the exporter there is no server; no goroutine panics, for
      configurations that are checked user by user.
    - The whole: the command line client, dialled to the server that main sets
      up for a configuration, prints the right verdict on a PAP password
      (ClientTheorems.v, the end of a chain that runs through EndToEnd.v,
      ReplyTheorems.v, ConnTheorems.v and the handlers); its ASCII login sends
      the wrong string. Commands and sessions are authorized exactly as the
      entries of the user and of its groups in the configuration say, and
      accounting records are in the log when the reply arrives
      (DeploymentTheorems.v). What the generator prints, the server accepts.
      A conversation of an ASCII login over the wire, with aborts, bodies of up to
      64000 bytes that need not decode and odd numbers that may be skipped, is the
      run of the abstract machine on its bodies, up to the first packet that the
      server takes for one of a wrong secret, which gets the error reply and
      closes the connection (SessionTheorems.v), and the server passes the login
      tests of the repository (ScenarioTheorems.v).
    - Logs and metrics: records are printed in one order; values are not
      escaped, so lines can be forged; metrics register without failure; where
      the gauge of active sessions drifts. The counters of the loader balance;
      every read of a packet is counted under one outcome, but for the end of
      the stream and lengths that are too long; the gauge of accepted
      connections is the number of their goroutines; every verdict of the
      authorizer is counted under its status.

    ** Fuel

    [pad_loop] runs at most the length of the packet many turns, since every
    turn adds at least one byte ([hash_sum] gives 16); [pad_loop_spec] has no
    hypothesis on the fuel beyond that. [serve] is given one turn per byte of
    the input and one more; a turn that does not end the loop consumes at least
    the twelve bytes of a header, so the fuel is enough (serve_terminates).

    ** Parameters

    Code outside src/ is an argument: regular expressions ([Regexp]), bcrypt and
    JSON ([Platform]), the dialled connection of the span handler ([Dialer]),
    the hash ([Hash]), networks, the resolver and lists of strings in JSON
    ([Net], whose one law is that the text of a network is parsed to it), the
    dialler of the client ([Dial]), the decoder of configuration files
    ([decoder]), the registry of prometheus ([Registry], which takes new names)
    and the generation of bcrypt hashes ([Bcrypt], with [BcryptLaws]: a hash
    matches its password). External calls that can fail take their results from a
    list in [env], and what they did is a list of events there.

    ** What is not modelled

    The durations that summaries observe; the time and the place the package log
    adds to a line; the HTTP side of the exporter; deadlines, other than as an
    error at the end of the input; the part of a packet that a write may send
    before it fails; the expansion of the verbs in a format that is made from a
    request, as in the accounting log, where the format itself is recorded; what the mocks of the tests print, and the
    text of the sample configuration, which is the struct it denotes. The
    counters of a function are given next to it, function by function, and not
    composed over the calls of an interface. Goroutines interleave at the
    granularity of the steps of System.v, where a turn of a loop is one step;
    data races below that, as on the count of
    active connections, are listed as findings and not modelled. The clock is
    the order of events: that events of other files restart the ticker of the
    watcher is not visible. Texts of errors are kept as the format string
    of the call that makes them, and errors are compared only where the code
    looks at them ([io.EOF], [BadSecretErr]).*)
From Stdlib Require Export ZArith Lia.
From Stdlib Require Strings.Byte Strings.String.
From stdpp Require Export base tactics list gmap strings pretty.
Export Corelib.Init.Byte(byte(..)).

#[export] Set Default Proof Using "Type".
#[export] Set Warnings "-clear-no-such-hyp".

(** ** Machine integers and bytes

    A Go [uint8] (and every named type over it) is a [byte]; wider integers
    are [Z], wrapped explicitly where the code converts them. *)

Definition b2z (b : byte) : Z := Z.of_N (Byte.to_N b).

(** Go's conversion [uint8(z)] / [byte(z)]: the low eight bits. *)
Definition u8 (z : Z) : byte :=
  match Byte.of_N (Z.to_N (z mod 256)) with Some b => b | None => x00 end.

Definition u16 (z : Z) : Z := z mod 65536.
Definition u32 (z : Z) : Z := z mod 4294967296.

#[export] Instance byte_eq_dec : EqDecision byte := Byte.byte_eq_dec.

#[export] Program Instance byte_countable : Countable byte :=
  inj_countable Byte.to_N Byte.of_N _.
Next Obligation. intros b. apply Byte.of_to_N. Qed.

Open Scope Z_scope.

Lemma b2z_range b : 0 <= b2z b < 256.
Proof. unfold b2z. pose proof (Byte.to_N_bounded b). lia. Qed.

Lemma b2z_inj a b : b2z a = b2z b → a = b.
Proof.
  unfold b2z. intros H%N2Z.inj.
  pose proof (Byte.of_to_N a) as Ha. pose proof (Byte.of_to_N b) as Hb.
  congruence.
Qed.

Lemma b2z_u8 z : b2z (u8 z) = z mod 256.
Proof.
  unfold u8, b2z. pose proof (Z.mod_pos_bound z 256 eq_refl).
  destruct (Byte.of_N (Z.to_N (z mod 256))) as [b|] eqn:E.
  - apply Byte.to_of_N in E. rewrite E, Z2N.id; lia.
  - apply Byte.of_N_None_iff in E. lia.
Qed.

Lemma b2z_u8_small z : 0 <= z < 256 → b2z (u8 z) = z.
Proof. intros. rewrite b2z_u8. by apply Z.mod_small. Qed.

Lemma u8_b2z b : u8 (b2z b) = b.
Proof. apply b2z_inj, b2z_u8_small, b2z_range. Qed.

Lemma u8_eq a b : a mod 256 = b mod 256 → u8 a = u8 b.
Proof. intros. apply b2z_inj. by rewrite !b2z_u8. Qed.

(** Go's bit operators on [uint8]. *)
Definition band (a b : byte) : byte := u8 (Z.land (b2z a) (b2z b)).
Definition bor (a b : byte) : byte := u8 (Z.lor (b2z a) (b2z b)).
Definition bxor (a b : byte) : byte := u8 (Z.lxor (b2z a) (b2z b)).
Definition bandnot (a b : byte) : byte := u8 (Z.ldiff (b2z a) (b2z b)).

(** [z mod 256] by its bits: the form in which the bit operators of bytes
    are compared. *)
Lemma testbit_b2z_u8 z n :
  0 <= n → Z.testbit (b2z (u8 z)) n = (n <? 8) && Z.testbit z n.
Proof.
  intros Hn. rewrite b2z_u8. change 256 with (2 ^ 8).
  rewrite Z.testbit_mod_pow2 by lia. done.
Qed.

Lemma testbit_b2z_high b n : 8 <= n → Z.testbit (b2z b) n = false.
Proof.
  intros Hn. rewrite <- (u8_b2z b), testbit_b2z_u8 by lia.
  destruct (Z.ltb_spec n 8); [lia|done].
Qed.

(** Solves an equation between bytes built from the bit operators. *)
Ltac byte_bits :=
  apply b2z_inj; apply Z.bits_inj'; let n := fresh "n" in let Hn := fresh "Hn" in
  intros n Hn;
  unfold band, bor, bxor, bandnot;
  repeat (rewrite ?(testbit_b2z_u8 _ n) by exact Hn;
          rewrite ?Z.land_spec, ?Z.lor_spec, ?Z.lxor_spec, ?Z.ldiff_spec);
  destruct (Z.ltb_spec n 8); rewrite ?(testbit_b2z_high _ n) by lia; simpl;
  repeat match goal with
         | |- context [Z.testbit ?a n] => destruct (Z.testbit a n)
         end; try done.

Lemma bxor_involutive a k : bxor (bxor a k) k = a.
Proof. byte_bits. Qed.


(** ** Go strings and slices *)

(** A Go [string] or [[]byte] is its bytes. *)
Abbreviation gostring := (list byte).

(** A string literal of the source. *)
Definition str (s : string) : gostring := String.list_byte_of_string s.

(** Go's [len], an [int]. *)
Definition len {A} (l : list A) : Z := Z.of_nat (length l).

#[global] Arguments len : simpl never.
#[global] Arguments u8 : simpl never.
#[global] Arguments b2z : simpl never.

(** [%d] / [fmt.Sprint] of an integer. *)
Definition fmt_d (z : Z) : gostring := str (pretty z).

Lemma len_nonneg {A} (l : list A) : 0 <= len l.
Proof. unfold len. lia. Qed.

Lemma len_nil {A} : len (@nil A) = 0.
Proof. done. Qed.

Lemma len_cons {A} (x : A) l : len (x :: l) = 1 + len l.
Proof. unfold len. simpl length. lia. Qed.

Lemma len_app {A} (l k : list A) : len (l ++ k) = len l + len k.
Proof. unfold len. rewrite length_app. lia. Qed.

Lemma len_take {A} n (l : list A) : len (take n l) = Z.min (Z.of_nat n) (len l).
Proof. unfold len. rewrite length_take. lia. Qed.

Lemma len_drop {A} n (l : list A) : len (drop n l) = Z.max 0 (len l - Z.of_nat n).
Proof. unfold len. rewrite length_drop. lia. Qed.

Lemma len_zip_with {A B C} (f : A → B → C) l k :
  len (zip_with f l k) = Z.min (len l) (len k).
Proof. unfold len. rewrite length_zip_with. lia. Qed.

Lemma len_fmap {A B} (f : A → B) l : len (f <$> l) = len l.
Proof. unfold len. by rewrite length_fmap. Qed.

(** Lengths of lists, normalised for [lia]. *)
Create Rewrite HintDb golen.
#[export] Hint Rewrite @len_nil @len_cons @len_app @len_take @len_drop
  @len_zip_with @len_fmap : golen.

Ltac len_lia :=
  autorewrite with golen in *;
  repeat match goal with
         | l : list ?A |- _ =>
           lazymatch goal with
           | _ : 0 <= len l |- _ => fail
           | _ => pose proof (len_nonneg l)
           end
         | |- context [len ?l] =>
           lazymatch goal with
           | _ : 0 <= len l |- _ => fail
           | _ => pose proof (len_nonneg l)
           end
         end; lia.

(** ** Errors, panics and the effects of the code

    [error] is the dynamic type of the [error] values of the code that some
    caller distinguishes; an error made by [fmt.Errorf] is its format string.
    A Go function either returns a value, returns an error, or panics. *)
Inductive error :=
| BadSecretErr (msg : string)
| Errorf (format : string)
| EOF
| ErrUnexpectedEOF
| ConnErr (code : Z).

#[export] Instance error_eq_dec : EqDecision error.
Proof. solve_decision. Defined.

Inductive outcome (A : Type) : Type :=
| Ok (a : A)
| Err (e : error)
| Panic.
Arguments Ok {A} a.
Arguments Err {A} e.
Arguments Panic {A}.

#[export] Instance outcome_ret : MRet outcome := @Ok.
#[export] Instance outcome_bind : MBind outcome := λ A B k m,
  match m with Ok a => k a | Err e => Err e | Panic => Panic end.

Definition returns {A} (m : outcome A) : Prop := m ≠ Panic.
Definition is_ok {A} (m : outcome A) : bool :=
  match m with Ok _ => true | _ => false end.

(** [if !ok { return err }] *)
Definition require (ok : bool) (e : error) : outcome unit :=
  if ok then Ok tt else Err e.

Lemma Ok_inj {A} (a b : A) : Ok a = Ok b → a = b.
Proof. congruence. Qed.

Lemma require_ok ok e u : require ok e = Ok u ↔ ok = true.
Proof. destruct ok, u; simpl; naive_solver. Qed.

Lemma bind_ok {A B} (m : outcome A) (k : A → outcome B) b :
  (m ≫= k) = Ok b ↔ ∃ a, m = Ok a ∧ k a = Ok b.
Proof. destruct m; cbn; naive_solver. Qed.

Lemma bind_returns {A B} (m : outcome A) (k : A → outcome B) :
  returns m → (∀ a, m = Ok a → returns (k a)) → returns (m ≫= k).
Proof. destruct m; cbn; unfold returns; naive_solver. Qed.

Lemma require_returns ok e : returns (require ok e).
Proof. by destruct ok. Qed.

Lemma ok_returns {A} (a : A) : returns (Ok a).
Proof. done. Qed.

Lemma err_returns {A} e : returns (@Err A e).
Proof. done. Qed.

Create HintDb outcome discriminated.
#[export] Hint Resolve bind_returns require_returns ok_returns err_returns : outcome.

(** Splits every [m ≫= k = Ok _] and [require _ _ = Ok _] of the context. *)
Ltac outcome_inv :=
  repeat match goal with
         | H : (_ ≫= _) = Ok _ |- _ =>
           apply bind_ok in H; let a := fresh "a" in destruct H as (a & ? & H)
         | H : require _ _ = Ok _ |- _ => apply require_ok in H
         | H : Ok _ = Ok _ |- _ => injection H as H
         | H : Err _ = Ok _ |- _ => discriminate H
         | H : Panic = Ok _ |- _ => discriminate H
         end.

(** State passing over a mutable object [S] (a connection): the state is kept
    when the operation fails. *)
Definition SM (S A : Type) : Type := S → outcome A * S.
#[export] Instance sm_ret S : MRet (SM S) := λ A a s, (Ok a, s).
#[export] Instance sm_bind S : MBind (SM S) := λ A B k m s,
  match m s with
  | (Ok a, s') => k a s'
  | (Err e, s') => (Err e, s')
  | (Panic, s') => (Panic, s')
  end.

Definition sm_get {S} : SM S S := λ s, (Ok s, s).
Definition sm_put {S} (s : S) : SM S unit := λ _, (Ok tt, s).
Definition sm_err {S A} (e : error) : SM S A := λ s, (Err e, s).
Definition sm_lift {S A} (m : outcome A) : SM S A := λ s, (m, s).

Lemma sm_bind_ok {S A B} (m : SM S A) (k : A → SM S B) s b s' :
  (m ≫= k) s = (Ok b, s') ↔ ∃ a s1, m s = (Ok a, s1) ∧ k a s1 = (Ok b, s').
Proof. unfold mbind, sm_bind. destruct (m s) as [[] ?]; naive_solver. Qed.

(** A [switch] on constants: membership, and the string attached to a case. *)
Definition in_cases (t : byte) (cases : list byte) : bool :=
  bool_decide (t ∈ cases).

Fixpoint switch_string (t : byte) (cases : list (byte * string)) (default : gostring) : gostring :=
  match cases with
  | [] => default
  | (c, s) :: rest => if decide (t = c) then str s else switch_string t rest default
  end.

Lemma in_cases_spec t cases : in_cases t cases = true ↔ t ∈ cases.
Proof. unfold in_cases. by rewrite bool_decide_eq_true. Qed.

(** ** Lists *)

Lemma take_len_app {A} (l k : list A) : take (Z.to_nat (len l)) (l ++ k) = l.
Proof. unfold len. rewrite Nat2Z.id. apply take_app_length. Qed.

Lemma drop_len_app {A} (l k : list A) : drop (Z.to_nat (len l)) (l ++ k) = k.
Proof. unfold len. rewrite Nat2Z.id. apply drop_app_length. Qed.
