(* ===== verification/GoStrings.v ===== *)
(** The functions of Go's [strings] package the source calls, on byte
    strings. *)
From S2P Require Import Prelude.

(** [strings.Join]. *)
Fixpoint strings_Join (elems : list gostring) (sep : gostring) : gostring :=
  match elems with
  | [] => []
  | [e] => e
  | e :: rest => e ++ sep ++ strings_Join rest sep
  end.

(** [strings.IndexAny] for ASCII [chars]: the first index of a byte of the
    set, or -1. *)
Fixpoint strings_IndexAny (s : gostring) (chars : gostring) : Z :=
  match s with
  | [] => -1
  | c :: s =>
    if in_cases c chars then 0
    else let i := strings_IndexAny s chars in if i <? 0 then -1 else i + 1
  end.

(** [unicode.IsSpace] on the UTF-8 encodings of one, two and three bytes. *)
Definition space1 (c : byte) : bool := in_cases c [x09; x0a; x0b; x0c; x0d; x20].
Definition space2 (c1 c2 : byte) : bool :=
  bool_decide (c1 = xc2) && in_cases c2 [x85; xa0].
Definition space3 (c1 c2 c3 : byte) : bool :=
  bool_decide (c1 = xe1 ∧ c2 = x9a ∧ c3 = x80) ||
  bool_decide (c1 = xe2 ∧ c2 = x80) && in_cases c3
    [x80; x81; x82; x83; x84; x85; x86; x87; x88; x89; x8a; xa8; xa9; xaf] ||
  bool_decide (c1 = xe2 ∧ c2 = x81 ∧ c3 = x9f) ||
  bool_decide (c1 = xe3 ∧ c2 = x80 ∧ c3 = x80).

(** Drops leading space runes, given the tests for the encodings of one, two
    and three bytes. *)
Section Trim.
Context (sp1 : byte → bool) (sp2 : byte → byte → bool) (sp3 : byte → byte → byte → bool).

Fixpoint trimBy (s : gostring) : gostring :=
  match s with
  | [] => []
  | c1 :: r1 =>
    if sp1 c1 then trimBy r1
    else match r1 with
         | [] => s
         | c2 :: r2 =>
           if sp2 c1 c2 then trimBy r2
           else match r2 with
                | [] => s
                | c3 :: r3 => if sp3 c1 c2 c3 then trimBy r3 else s
                end
         end
  end.

(** Trimming drops a prefix. *)
Lemma trimBy_suffix s : ∃ p, s = p ++ trimBy s.
Proof.
  remember (length s) as n eqn:Hn. revert s Hn.
  induction n as [n IH] using (well_founded_induction lt_wf). intros s ->.
  assert (∀ x r, (length r < length s)%nat → s = x ++ r → ∃ p, s = p ++ trimBy r) as Hstep.
  { intros x r Hr ->. destruct (IH _ Hr r eq_refl) as [p Hp].
    exists (x ++ p). by rewrite <- app_assoc, <- Hp. }
  destruct s as [|c1 r1]; [by exists []|].
  change (trimBy (c1 :: r1)) with
    (if sp1 c1 then trimBy r1 else match r1 with
     | [] => c1 :: r1
     | c2 :: r2 => if sp2 c1 c2 then trimBy r2 else match r2 with
       | [] => c1 :: r1
       | c3 :: r3 => if sp3 c1 c2 c3 then trimBy r3 else c1 :: r1
       end
     end).
  destruct (sp1 c1); [apply (Hstep [c1]); [simpl; lia|done]|].
  destruct r1 as [|c2 r2]; [by exists []|].
  destruct (sp2 c1 c2); [apply (Hstep [c1; c2]); [simpl; lia|done]|].
  destruct r2 as [|c3 r3]; [by exists []|].
  destruct (sp3 c1 c2 c3); [apply (Hstep [c1; c2; c3]); [simpl; lia|done]|by exists []].
Qed.
End Trim.

(** [strings.TrimSpace]: trim on the left, then on the right, where the bytes
    of a rune are met last first. *)
Definition trimLeftSpace : gostring → gostring := trimBy space1 space2 space3.
Definition trimSpaceRev : gostring → gostring :=
  trimBy space1 (λ c2 c1, space2 c1 c2) (λ c3 c2 c1, space3 c1 c2 c3).

Definition strings_TrimSpace (s : gostring) : gostring :=
  reverse (trimSpaceRev (reverse (trimLeftSpace s))).

(** ** Facts *)

Lemma strings_IndexAny_spec s chars :
  (strings_IndexAny s chars = -1 ∧ Forall (λ c, c ∉ chars) s) ∨
  (∃ a c v, s = a ++ c :: v ∧ c ∈ chars ∧ Forall (λ c, c ∉ chars) a ∧
            strings_IndexAny s chars = len a).
Proof.
  induction s as [|c s IH]; [by left|]. cbn [strings_IndexAny].
  destruct (in_cases c chars) eqn:E.
  - right. exists [], c, s. apply in_cases_spec in E. done.
  - assert (c ∉ chars) as Hc.
    { intros H%in_cases_spec. congruence. }
    destruct IH as [[-> IH] | (a & d & v & -> & Hd & Ha & ->)].
    + left. by split; [|constructor].
    + right. exists (c :: a), d, v. split_and!; try done; [by constructor|].
      rewrite len_cons. pose proof (len_nonneg a).
      destruct (Z.ltb_spec (len a) 0); lia.
Qed.

(** Trimming keeps a contiguous part of the string. *)
Lemma strings_TrimSpace_infix s : ∃ p q, s = p ++ strings_TrimSpace s ++ q.
Proof.
  destruct (trimBy_suffix space1 space2 space3 s) as [p Hp].
  destruct (trimBy_suffix space1 (λ c2 c1, space2 c1 c2) (λ c3 c2 c1, space3 c1 c2 c3)
              (reverse (trimLeftSpace s))) as [q Hq].
  exists p, (reverse q). unfold strings_TrimSpace.
  rewrite <- reverse_app. unfold trimSpaceRev. rewrite <- Hq, reverse_involutive. done.
Qed.

(** [strings.LastIndex] of a one-byte string. *)
Fixpoint strings_LastIndexByte (s : gostring) (c : byte) : Z :=
  match s with
  | [] => -1
  | b :: s =>
    let i := strings_LastIndexByte s c in
    if 0 <=? i then i + 1 else if decide (b = c) then 0 else -1
  end.

Lemma strings_LastIndexByte_spec s c :
  (strings_LastIndexByte s c = -1 ∧ c ∉ s) ∨
  (∃ a b, s = a ++ c :: b ∧ (c ∉ b) ∧ strings_LastIndexByte s c = len a).
Proof.
  induction s as [|b s IH]; [left; set_solver|]. cbn [strings_LastIndexByte].
  destruct IH as [[-> Hc]|(a & d & -> & Hd & ->)].
  - cbn. case_decide as Hb; [|left; set_solver].
    right. exists [], s. by rewrite Hb.
  - right. exists (b :: a), d. pose proof (len_nonneg a). rewrite len_cons.
    destruct (Z.leb_spec 0 (len a)); [|lia]. split_and!; [done|done|lia].
Qed.
