(* ===== verification/Buffer.v ===== *)
(** The byte-level helpers of the codec: the [readBuffer] cursor, [appendUint16]
    and [isAllASCII] of packet.go, and the big-endian [uint32] of
    [encoding/binary] that header.go and header_fields.go use. *)
From S2P Require Import Prelude.

(** ** encoding/binary *)

(** [binary.BigEndian.PutUint32]: the four bytes written. *)
Definition be_PutUint32 (v : Z) : list byte :=
  [u8 (Z.shiftr v 24); u8 (Z.shiftr v 16); u8 (Z.shiftr v 8); u8 v].

#[global] Arguments be_PutUint32 : simpl never.

(** [binary.BigEndian.Uint32]; it panics on a slice shorter than four bytes. *)
Definition be_Uint32 (b : list byte) : outcome Z :=
  match b with
  | b0 :: b1 :: b2 :: b3 :: _ =>
    Ok (Z.lor (b2z b3) (Z.lor (Z.shiftl (b2z b2) 8)
         (Z.lor (Z.shiftl (b2z b1) 16) (Z.shiftl (b2z b0) 24))))
  | _ => Panic
  end.

(** ** readBuffer

    A method with a pointer receiver returns its result and the remaining
    buffer: [reader A] is a state monad over the bytes left. *)
Definition readBuffer : Type := list byte.
Definition reader (A : Type) : Type := readBuffer → A * readBuffer.

#[export] Instance reader_ret : MRet reader := λ A a b, (a, b).
#[export] Instance reader_bind : MBind reader := λ A B k m b,
  let '(a, b') := m b in k a b'.

Definition readBuffer_byte : reader byte := λ s,
  match s with
  | [] => (x00, s)
  | c :: rest => (c, rest)
  end.

Definition readBuffer_int : reader Z := λ s,
  let '(c, rest) := readBuffer_byte s in (b2z c, rest).

Definition readBuffer_uint16 : reader Z := λ s,
  match s with
  | [_] => readBuffer_int s
  | s0 :: s1 :: rest => (Z.lor (Z.shiftl (b2z s0) 8) (b2z s1), rest)
  | [] => (0, s)
  end.

Definition readBuffer_string (n : Z) : reader gostring := λ s,
  if len s <? 1 then ([], s)
  else
    let n := if len s <? n then len s else n in
    (take (Z.to_nat n) s, drop (Z.to_nat n) s).

#[global] Arguments readBuffer_string : simpl never.

(** The loops [for i := 0; i < argCnt; i++ { ... buf.int() ... }] and
    [for _, n := range argLens { ... buf.string(n) ... }] that the three
    bodies with arguments share. *)
Fixpoint read_ints (n : nat) : reader (list Z) :=
  match n with
  | O => mret []
  | S n => x ← readBuffer_int; xs ← read_ints n; mret (x :: xs)
  end.

Fixpoint read_strings (lens : list Z) : reader (list gostring) :=
  match lens with
  | [] => mret []
  | n :: lens => x ← readBuffer_string n; xs ← read_strings lens; mret (x :: xs)
  end.

(** [appendUint16]. *)
Definition appendUint16 (b : list byte) (i : Z) : list byte :=
  b ++ [u8 (Z.shiftr i 8); u8 i].

(** [isAllASCII]; [unicode.MaxASCII] is 0x7f. *)
Definition is_ascii (c : byte) : bool := negb (127 <? b2z c).
Definition isAllASCII (s : gostring) : bool := forallb is_ascii s.

(** [sum += x] over a slice of lengths. *)
Definition sumZ (l : list Z) : Z := foldr Z.add 0 l.
#[global] Arguments sumZ : simpl never.

(** ** Big-endian integers *)

Lemma be_PutUint32_length v : length (be_PutUint32 v) = 4%nat.
Proof. done. Qed.

Lemma shift_u8_bit v k n :
  0 <= n → 0 <= k → Z.testbit (Z.shiftl (b2z (u8 (Z.shiftr v k))) k) n
           = (k <=? n) && (n <? k + 8) && Z.testbit v n.
Proof.
  intros. rewrite Z.shiftl_spec by lia.
  destruct (Z.leb_spec k n).
  - rewrite testbit_b2z_u8, Z.shiftr_spec by lia.
    replace (n - k + k) with n by lia.
    destruct (Z.ltb_spec (n - k) 8), (Z.ltb_spec n (k + 8)); lia || done.
  - rewrite Z.testbit_neg_r by lia. done.
Qed.

Lemma be_Uint32_Put v rest :
  be_Uint32 (be_PutUint32 v ++ rest) = Ok (u32 v).
Proof.
  unfold be_Uint32, be_PutUint32, u32. simpl app. f_equal.
  apply Z.bits_inj'. intros n Hn. change 4294967296 with (2 ^ 32).
  rewrite !Z.lor_spec, Z.testbit_mod_pow2 by lia.
  rewrite !shift_u8_bit by lia. rewrite testbit_b2z_u8 by lia.
  destruct (Z.testbit v n); rewrite ?andb_false_r, ?andb_true_r; [|done].
  apply Bool.eq_iff_eq_true. rewrite !orb_true_iff, !andb_true_iff. lia.
Qed.

Lemma be_Put_Uint32 b v : length b = 4%nat → be_Uint32 b = Ok v → be_PutUint32 v = b.
Proof.
  destruct b as [|b0 [|b1 [|b2 [|b3 [|]]]]]; try done. intros _ [= <-].
  unfold be_PutUint32.
  assert (∀ (i : Z) (b : byte) n,
    0 <= n → 0 <= i → Z.testbit (Z.shiftl (b2z b) i) n = Z.testbit (b2z b) (n - i)) as Hs.
  { intros. by rewrite Z.shiftl_spec. }
  assert (∀ (b : byte) n, (n < 0 ∨ 8 <= n) → Z.testbit (b2z b) n = false) as Ho.
  { intros b n [?|?]; [by rewrite Z.testbit_neg_r | by rewrite testbit_b2z_high]. }
  repeat f_equal; apply b2z_inj; apply Z.bits_inj'; intros n Hn;
    rewrite testbit_b2z_u8 by lia;
    rewrite ?Z.shiftr_spec, !Z.lor_spec, !Hs by lia;
    (destruct (Z.ltb_spec n 8); [|simpl; by rewrite Ho by lia]); simpl.
  all: repeat match goal with
         | |- context [Z.testbit (b2z ?b) (?n + ?k - ?j)] =>
             first [ replace (n + k - j) with n by lia
                   | rewrite (Ho b (n + k - j)) by lia ]
         | |- context [Z.testbit (b2z ?b) (?n + ?k)] => rewrite (Ho b (n + k)) by lia
         | |- context [Z.testbit (b2z ?b) (?n - ?k)] => rewrite (Ho b (n - k)) by lia
         end; rewrite ?orb_false_r; done.
Qed.

Lemma be_Uint32_range b v : be_Uint32 b = Ok v → 0 <= v < 4294967296.
Proof.
  destruct b as [|b0 [|b1 [|b2 [|b3 l]]]]; try done. intros H.
  assert (be_PutUint32 v = [b0; b1; b2; b3]) as Hp
    by (apply be_Put_Uint32; [done|by injection H as <-]).
  pose proof (be_Uint32_Put v []) as Hq. rewrite Hp in Hq. simpl in H, Hq.
  rewrite H in Hq. injection Hq as Hq. rewrite Hq. apply Z.mod_pos_bound. lia.
Qed.

(** ** The cursor reads back what was appended *)

Lemma readBuffer_int_u8 z rest :
  0 <= z < 256 → readBuffer_int (u8 z :: rest) = (z, rest).
Proof. intros. unfold readBuffer_int. simpl. by rewrite b2z_u8_small. Qed.

Lemma uint16_of_bytes i :
  0 <= i < 65536 → Z.lor (Z.shiftl (b2z (u8 (Z.shiftr i 8))) 8) (b2z (u8 i)) = i.
Proof.
  intros Hi. apply Z.bits_inj'. intros n Hn.
  rewrite Z.lor_spec, shift_u8_bit, testbit_b2z_u8 by lia.
  assert (16 <= n → Z.testbit i n = false) as Hhi.
  { intros ?. rewrite <- (Z.mod_small i (2 ^ 16)) by lia.
    rewrite Z.testbit_mod_pow2 by lia. destruct (Z.ltb_spec n 16); [lia|done]. }
  destruct (Z.leb_spec 8 n), (Z.ltb_spec n (8 + 8)), (Z.ltb_spec n 8);
    simpl; rewrite ?orb_false_r; try lia; try done; by rewrite Hhi by lia.
Qed.

Lemma readBuffer_uint16_app i rest :
  0 <= i < 65536 →
  readBuffer_uint16 (u8 (Z.shiftr i 8) :: u8 i :: rest) = (i, rest).
Proof. intros. simpl. by rewrite uint16_of_bytes. Qed.

Lemma readBuffer_string_app s rest :
  readBuffer_string (len s) (s ++ rest) = (s, rest).
Proof.
  unfold readBuffer_string. rewrite len_app.
  pose proof (len_nonneg s). pose proof (len_nonneg rest).
  destruct (Z.ltb_spec (len s + len rest) 1) as [?|?].
  - assert (length s = 0%nat ∧ length rest = 0%nat) as [->%nil_length_inv ->%nil_length_inv]
      by (unfold len in *; lia). done.
  - destruct (Z.ltb_spec (len s + len rest) (len s)); [lia|].
    by rewrite take_len_app, drop_len_app.
Qed.

Lemma read_ints_app (ls : list gostring) rest :
  Forall (λ s, len s < 256) ls →
  read_ints (length ls) (((λ s, u8 (len s)) <$> ls) ++ rest) = (len <$> ls, rest).
Proof.
  induction 1 as [|s ls Hs _ IH]; [done|].
  rewrite !fmap_cons. cbn [length read_ints app].
  unfold mbind, reader_bind, mret, reader_ret.
  rewrite readBuffer_int_u8 by (pose proof (len_nonneg s); lia).
  by rewrite IH.
Qed.

Lemma read_strings_app (ls : list gostring) rest :
  read_strings (len <$> ls) (concat ls ++ rest) = (ls, rest).
Proof.
  induction ls as [|s ls IH]; [done|]. rewrite fmap_cons. cbn [concat read_strings].
  unfold mbind, reader_bind, mret, reader_ret.
  rewrite <- app_assoc, readBuffer_string_app. by rewrite IH.
Qed.

Lemma readBuffer_string_nil n : readBuffer_string n [] = ([], []).
Proof. done. Qed.

(** ** What a read took from the buffer *)

Lemma readBuffer_string_split n b s rest :
  0 <= n → readBuffer_string n b = (s, rest) →
  b = s ++ rest ∧ len s = Z.min n (len b).
Proof.
  unfold readBuffer_string. intros Hn.
  destruct (Z.ltb_spec (len b) 1) as [?|?].
  - intros [= <- <-]. rewrite len_nil. pose proof (len_nonneg b). split; [done|lia].
  - destruct (Z.ltb_spec (len b) n); intros [= <- <-];
      (split; [by rewrite take_drop|]); rewrite len_take; unfold len in *; lia.
Qed.

Lemma read_ints_split n b xs rest :
  read_ints n b = (xs, rest) →
  length xs = n ∧ Forall (λ x, 0 <= x < 256) xs ∧
  ((n <= length b)%nat → b = (u8 <$> xs) ++ rest) ∧
  ((length b < n)%nat → rest = [] ∧ 0 ∈ xs).
Proof.
  revert b xs. induction n as [|n IH]; intros b xs.
  { intros [= <- <-]. split_and!; try done. lia. }
  cbn [read_ints]. unfold mbind, reader_bind, mret, reader_ret.
  destruct (readBuffer_int b) as [x b1] eqn:E1.
  destruct (read_ints n b1) as [ys b2] eqn:E2. intros [= <- <-].
  destruct (IH _ _ E2) as (<- & Hr & Hfit & Hover).
  destruct b as [|c b]; injection E1 as <- <-.
  - split_and!; [done|constructor; [by vm_compute|done]| |].
    + intros Hle. simpl in Hle. lia.
    + intros _. destruct ys as [|y ys]; [|destruct Hover; [simpl; lia|]; set_solver].
      simpl in E2. injection E2 as <-. set_solver.
  - split_and!; [done|constructor; [apply b2z_range|done]| |].
    + intros Hle. simpl in Hle. cbn. rewrite u8_b2z. f_equal. apply Hfit. lia.
    + intros Hlt. simpl in Hlt. destruct Hover; [lia|]. set_solver.
Qed.

Lemma read_ints_nonneg n b xs rest :
  read_ints n b = (xs, rest) → Forall (λ x, 0 <= x) xs.
Proof.
  intros (_ & H & _)%read_ints_split. eapply Forall_impl; [exact H|]. cbn. lia.
Qed.

Lemma read_strings_split lens b ss rest :
  Forall (λ x, 0 <= x) lens → read_strings lens b = (ss, rest) →
  b = concat ss ++ rest ∧ Forall2 (λ s n, len s <= n) ss lens.
Proof.
  intros H. revert b ss. induction H as [|n lens Hn _ IH]; intros b ss.
  { intros [= <- <-]. split; [done|constructor]. }
  cbn [read_strings]. unfold mbind, reader_bind, mret, reader_ret.
  destruct (readBuffer_string n b) as [s b1] eqn:E1.
  destruct (read_strings lens b1) as [ts b2] eqn:E2. intros [= <- <-].
  apply readBuffer_string_split in E1 as [-> Hs]; [|done].
  apply IH in E2 as [-> ?]. split; [cbn [concat]; by rewrite <- app_assoc|].
  constructor; [lia|done].
Qed.

Lemma sumZ_cons x l : sumZ (x :: l) = x + sumZ l.
Proof. done. Qed.

Lemma sumZ_app l k : sumZ (l ++ k) = sumZ l + sumZ k.
Proof. induction l as [|x l IH]; [done|]. cbn [app]. rewrite !sumZ_cons, IH. lia. Qed.

#[export] Instance sumZ_Permutation : Proper ((≡ₚ) ==> (=)) sumZ.
Proof. intros l k. induction 1; rewrite ?sumZ_cons; lia. Qed.

Lemma sumZ_nonneg l : Forall (λ x, 0 <= x) l → 0 <= sumZ l.
Proof. induction 1; [done|]. rewrite sumZ_cons. lia. Qed.

(** A part of some sizes adds up to no more than all of them. *)
Lemma sumZ_submseteq l k : l ⊆+ k → Forall (λ x, 0 <= x) k → sumZ l <= sumZ k.
Proof.
  intros [k' Hp]%submseteq_Permutation. rewrite Hp, Forall_app, sumZ_app. intros [_ Hk].
  pose proof (sumZ_nonneg k' Hk). lia.
Qed.

Lemma sumZ_forall2_le (ss : list gostring) lens :
  Forall2 (λ s n, len s <= n) ss lens → sumZ (len <$> ss) <= sumZ lens.
Proof.
  induction 1; [done|]. rewrite fmap_cons, !sumZ_cons. lia.
Qed.

(** Lengths that are bounded one by one and agree in sum agree. *)
Lemma sumZ_forall2_eq (ss : list gostring) lens :
  Forall2 (λ s n, len s <= n) ss lens → sumZ lens <= sumZ (len <$> ss) →
  lens = len <$> ss.
Proof.
  induction 1 as [|s n ss lens Hs HF IH]; [done|].
  rewrite fmap_cons, !sumZ_cons. intros Hsum.
  pose proof (sumZ_forall2_le _ _ HF). rewrite <- IH by lia. f_equal. lia.
Qed.

(** The length bytes of an argument list, from the arguments read back: no
    argument is empty, so none of the length bytes was missing. *)
Lemma read_ints_args n b lens rest (args : list gostring) :
  read_ints n b = (lens, rest) →
  Forall2 (λ s n, len s <= n) args lens →
  sumZ lens <= sumZ (len <$> args) → Forall (λ s, 2 <= len s) args →
  lens = len <$> args ∧ length args = n ∧ Forall (λ s, len s < 256) args ∧
  b = ((λ s, u8 (len s)) <$> args) ++ rest.
Proof.
  intros (Hlen & Hrange & Hfit & Hover)%read_ints_split HF Hsum Hargs.
  apply sumZ_forall2_eq in HF as ->; [|done].
  rewrite length_fmap in Hlen. rewrite Forall_fmap in Hrange.
  split_and!; [done|done| |].
  - eapply Forall_impl; [exact Hrange|]. cbn. lia.
  - rewrite Hfit; [by rewrite <- list_fmap_compose|].
    destruct (decide (n <= length b)%nat) as [|Hlt]; [done|].
    destruct Hover as [_ Hin]; [lia|]. exfalso.
    apply list_elem_of_fmap in Hin as (s & Hs & Hin).
    rewrite Forall_forall in Hargs. specialize (Hargs _ Hin). lia.
Qed.

Lemma appendUint16_app b i : appendUint16 b i = b ++ [u8 (Z.shiftr i 8); u8 i].
Proof. done. Qed.

Lemma isAllASCII_app s t : isAllASCII (s ++ t) = isAllASCII s && isAllASCII t.
Proof. apply forallb_app. Qed.

(** The two bytes of a length field, from the value read from them. *)
Lemma uint16_bytes s0 s1 n :
  n = Z.lor (Z.shiftl (b2z s0) 8) (b2z s1) →
  0 <= n < 65536 ∧ u8 (Z.shiftr n 8) = s0 ∧ u8 n = s1.
Proof.
  intros ->. pose proof (b2z_range s0). pose proof (b2z_range s1).
  assert (Z.lor (Z.shiftl (b2z s0) 8) (b2z s1) = 256 * b2z s0 + b2z s1) as ->.
  { assert (Z.land (Z.shiftl (b2z s0) 8) (b2z s1) = 0) as Hland.
    { apply Z.bits_inj'. intros k Hk. rewrite Z.land_spec, Z.bits_0.
      rewrite Z.shiftl_spec by lia. destruct (Z.ltb_spec k 8).
      - by rewrite Z.testbit_neg_r by lia.
      - by rewrite (testbit_b2z_high s1), andb_false_r by lia. }
    pose proof (Z.add_lor_land (Z.shiftl (b2z s0) 8) (b2z s1)) as Hadd.
    rewrite Hland, Z.add_0_r in Hadd. rewrite Hadd.
    rewrite Z.shiftl_mul_pow2 by lia. change (2 ^ 8) with 256. lia. }
  split; [lia|]. rewrite Z.shiftr_div_pow2 by lia. change (2 ^ 8) with 256.
  split; apply b2z_inj; rewrite b2z_u8; Z.div_mod_to_equations; lia.
Qed.
