(* ===== verification/HeaderFields.v ===== *)
(** The [Field] interface of packet.go and the header fields of
    header_fields.go: version, session id, packet type, sequence numbers and
    flags. *)
From S2P Require Import Prelude.
From S2P Require Import GoStrings.
From S2P Require Import Buffer.

(** ** The Field interface

    The argument of [Validate] is an [interface{}]: [nil], or one of the two
    dynamic types some implementation looks for. *)
Inductive condition :=
| CondNil
| CondAuthenType (t : byte)
| CondSequenceNumber (n : Z).

(** An interface value: the methods of the field it holds. *)
Record Field := mkField {
  Field_Validate : condition → outcome unit;
  Field_Len : Z;
  Field_String : gostring;
}.

(** [for _, t := range fields { if err := t.Validate(c); err != nil { return err } }] *)
Fixpoint validate_fields (c : condition) (fields : list Field) : outcome unit :=
  match fields with
  | [] => Ok tt
  | t :: rest => Field_Validate t c ;; validate_fields c rest
  end.

(** ** Version *)
Definition MajorVersion : byte := x0c.
Definition MinorVersionDefault : byte := x00.
Definition MinorVersionOne : byte := x01.
Definition HeaderMaxSequence : Z := 255.

Record Version := mkVersion {
  Version_MajorVersion : byte;
  Version_MinorVersion : byte;
}.

#[export] Instance Version_eq_dec : EqDecision Version.
Proof. solve_decision. Defined.

Definition Version_Validate (v : Version) (_ : condition) : outcome unit :=
  if negb (bool_decide (Version_MajorVersion v = MajorVersion)) then
    Err (Errorf "invalid MajorVersion: [%v]")
  else if in_cases (Version_MinorVersion v) [MinorVersionDefault; MinorVersionOne] then
    Ok tt
  else Err (Errorf "invalid MinorVersion: [%v]").

Definition Version_Len (v : Version) : Z := 1.

Definition Version_String (v : Version) : gostring :=
  str "major:" ++ fmt_d (b2z (Version_MajorVersion v)) ++
  str ",minor:" ++ fmt_d (b2z (Version_MinorVersion v)).

Definition Version_MarshalBinary (v : Version) : outcome (list byte) :=
  Version_Validate v CondNil ;;
  Ok [bor (u8 (Z.shiftl (b2z (Version_MajorVersion v)) 4)) (Version_MinorVersion v)].

(** [data[0]] panics on an empty slice. *)
Definition Version_UnmarshalBinary (data : list byte) : outcome Version :=
  match data with
  | [] => Panic
  | d :: _ => Ok (mkVersion (u8 (Z.shiftr (b2z d) 4)) (band d x0f))
  end.

Definition Version_Field (v : Version) : Field :=
  mkField (Version_Validate v) (Version_Len v) (Version_String v).

(** ** SessionID, a [uint32] *)
Abbreviation SessionID := Z (only parsing).

Definition SessionID_MarshalBinary (s : SessionID) : outcome (list byte) :=
  Ok (be_PutUint32 s).

(** The method writes the receiver into [data] instead of reading it:
    [binary.BigEndian.PutUint32(data, uint32(s))]. It returns [data] as it
    leaves it, and panics when [data] is too short. *)
Definition SessionID_UnmarshalBinary (s : SessionID) (data : list byte) : outcome (list byte) :=
  if len data <? 4 then Panic else Ok (be_PutUint32 s ++ drop 4 data).

Definition SessionID_String (s : SessionID) : gostring := fmt_d s.

(** ** HeaderType *)
Abbreviation HeaderType := byte (only parsing).
Definition Authenticate : HeaderType := x01.
Definition Authorize : HeaderType := x02.
Definition Accounting : HeaderType := x03.

Definition HeaderType_Validate (t : HeaderType) (_ : condition) : outcome unit :=
  require (in_cases t [Authenticate; Authorize; Accounting])
    (Errorf "unknown HeaderType value [%v]").

Definition HeaderType_Len (t : HeaderType) : Z := 1.

Definition HeaderType_String (t : HeaderType) : gostring :=
  switch_string t
    [(Authenticate, "Authenticate"); (Authorize, "Authorize"); (Accounting, "Accounting")]
    (str "unknown HeaderType[" ++ fmt_d (b2z t) ++ str "]").

Definition HeaderType_Field (t : HeaderType) : Field :=
  mkField (HeaderType_Validate t) (HeaderType_Len t) (HeaderType_String t).

(** ** Sequence numbers: [SequenceNumber] is a [uint16]; the two checks on what
    a client sends convert it to [uint8] first. *)
Abbreviation SequenceNumber := Z (only parsing).
Abbreviation ClientSequenceNumber := byte (only parsing).
Abbreviation LastSequence := byte (only parsing).

Definition SequenceNumber_Len (t : SequenceNumber) : Z := 1.
Definition SequenceNumber_String (t : SequenceNumber) : gostring := fmt_d (b2z (u8 t)).
Definition SequenceNumber_Inc (t : SequenceNumber) : Z := t + 1.

Definition SequenceNumber_Validate (t : SequenceNumber) (_ : condition) : outcome unit :=
  if t <? 1 then Err (Errorf "sequence number must be greater than zero, [%v]")
  else if HeaderMaxSequence <? t then Err (Errorf "headerMaxSequence exceeded [%v]")
  else Ok tt.

Definition SequenceNumber_Field (t : SequenceNumber) : Field :=
  mkField (SequenceNumber_Validate t) (SequenceNumber_Len t) (SequenceNumber_String t).

Definition ClientSequenceNumber_Validate (t : ClientSequenceNumber) (_ : condition) : outcome unit :=
  if b2z t mod 2 =? 0 then Err (Errorf "client sent an even sequence number")
  else Ok tt.

Definition LastSequence_Validate (t : LastSequence) (c : condition) : outcome unit :=
  match c with
  | CondSequenceNumber v =>
    let current := u8 v in
    if b2z current <=? b2z t then
      Err (Errorf "the last sequence number is >= to the current sequence")
    else Ok tt
  | _ => Err (Errorf "invalid type passed as a condition, it must be a SequenceNumber")
  end.

(** ** HeaderFlag *)
Abbreviation HeaderFlag := byte (only parsing).
Definition UnencryptedFlag : HeaderFlag := x01.
Definition SingleConnect : HeaderFlag := x04.

Definition HeaderFlag_Set (b f : HeaderFlag) : HeaderFlag := bor b f.
Definition HeaderFlag_Clear (b f : HeaderFlag) : HeaderFlag := bandnot b f.
Definition HeaderFlag_Toggle (b f : HeaderFlag) : HeaderFlag := bxor b f.
Definition HeaderFlag_Has (b f : HeaderFlag) : bool := negb (bool_decide (band b f = x00)).


Definition HeaderFlag_String (b : HeaderFlag) : gostring :=
  let flags := [] in
  let flags := if HeaderFlag_Has b UnencryptedFlag
               then flags ++ [str "UnencryptedFlag"] else flags in
  let flags := if HeaderFlag_Has b SingleConnect
               then flags ++ [str "SingleConnect"] else flags in
  strings_Join flags (str "|").

(** ** Facts *)

Lemma validate_fields_ok c fields :
  validate_fields c fields = Ok tt ↔
  Forall (λ t, Field_Validate t c = Ok tt) fields.
Proof.
  induction fields as [|t fields IH]; simpl; [by split|].
  rewrite Forall_cons, <- IH, bind_ok. split.
  - intros ([] & ? & ?). done.
  - intros [? ?]. by exists tt.
Qed.

Lemma validate_fields_returns c fields :
  (∀ t, t ∈ fields → returns (Field_Validate t c)) → returns (validate_fields c fields).
Proof.
  induction fields as [|t fields IH]; simpl; intros H; [done|].
  apply bind_returns; [apply H; set_solver|]. intros _ _. apply IH. set_solver.
Qed.

Lemma Version_Validate_spec v c :
  Version_Validate v c = Ok tt ↔
  Version_MajorVersion v = MajorVersion ∧
  (Version_MinorVersion v = MinorVersionDefault ∨ Version_MinorVersion v = MinorVersionOne).
Proof.
  unfold Version_Validate. destruct (bool_decide_reflect (Version_MajorVersion v = MajorVersion));
    simpl; [|naive_solver].
  destruct (in_cases _ _) eqn:E.
  - apply in_cases_spec in E. set_solver.
  - split; [done|]. intros [_ H]. exfalso.
    assert (in_cases (Version_MinorVersion v) [MinorVersionDefault; MinorVersionOne] = true)
      by (apply in_cases_spec; set_solver). congruence.
Qed.

(** The two halves of the version byte round-trip for every value a valid
    [Version] takes, and for every byte. *)
Lemma Version_Unmarshal_Marshal v p rest :
  Version_MarshalBinary v = Ok p → Version_UnmarshalBinary (p ++ rest) = Ok v.
Proof.
  unfold Version_MarshalBinary. intros H. outcome_inv.
  match goal with u : unit |- _ => destruct u end.
  match goal with H : Version_Validate _ _ = _ |- _ =>
    apply Version_Validate_spec in H as [Hmaj Hmin] end.
  subst p. destruct v as [maj min]; simpl in *; subst maj.
  by destruct Hmin as [-> | ->].
Qed.

Lemma Version_Marshal_Unmarshal d rest v :
  Version_UnmarshalBinary (d :: rest) = Ok v → Version_Validate v CondNil = Ok tt →
  Version_MarshalBinary v = Ok [d].
Proof.
  intros [= <-] Hv. unfold Version_MarshalBinary. rewrite Hv. simpl. do 2 f_equal.
  clear Hv rest. by destruct d.
Qed.

Lemma HeaderType_Validate_spec t c :
  HeaderType_Validate t c = Ok tt ↔ t = Authenticate ∨ t = Authorize ∨ t = Accounting.
Proof. unfold HeaderType_Validate. rewrite require_ok, in_cases_spec. set_solver. Qed.

Lemma SequenceNumber_Validate_spec t c :
  SequenceNumber_Validate t c = Ok tt ↔ 1 <= t <= 255.
Proof.
  unfold SequenceNumber_Validate, HeaderMaxSequence.
  destruct (Z.ltb_spec t 1), (Z.ltb_spec 255 t); split; (lia || done).
Qed.

Lemma ClientSequenceNumber_Validate_spec t c :
  ClientSequenceNumber_Validate t c = Ok tt ↔ Z.Odd (b2z t).
Proof.
  unfold ClientSequenceNumber_Validate. destruct (Z.eqb_spec (b2z t mod 2) 0) as [E|E].
  - split; [done|]. intros [m Hm]. exfalso. Z.div_mod_to_equations. lia.
  - split; [|done]. intros _. exists (b2z t / 2). Z.div_mod_to_equations. lia.
Qed.

Lemma LastSequence_Validate_spec t n :
  LastSequence_Validate t (CondSequenceNumber n) = Ok tt ↔ b2z t < n mod 256.
Proof.
  unfold LastSequence_Validate. rewrite b2z_u8.
  destruct (Z.leb_spec (n mod 256) (b2z t)); split; (lia || done).
Qed.

Lemma HeaderFlag_Has_Set b f : f ≠ x00 → HeaderFlag_Has (HeaderFlag_Set b f) f = true.
Proof.
  intros Hf. unfold HeaderFlag_Has, HeaderFlag_Set.
  replace (band (bor b f) f) with f by byte_bits.
  by rewrite bool_decide_eq_false_2.
Qed.

(** The validators, for the tactic that shows that none of them panics. *)
Create HintDb validators discriminated.
#[export] Hint Unfold Version_Validate HeaderType_Validate SequenceNumber_Validate
  ClientSequenceNumber_Validate LastSequence_Validate : validators.

Ltac validator_returns :=
  cbn; autounfold with validators; repeat case_match;
  first [done | apply require_returns].

(** A list of fields none of whose validators panics. *)
Ltac fields_return :=
  apply validate_fields_returns;
  let t := fresh "t" in let Ht := fresh "Ht" in
  intros t Ht; rewrite ?elem_of_cons, ?elem_of_nil in Ht;
  repeat destruct Ht as [->|Ht]; [validator_returns ..|done].
