(* ===== verification/AuthenFields.v ===== *)
(** The fields of the authentication packets, authenticate_fields.go. *)
From S2P Require Import Prelude.
From S2P Require Import Buffer.
From S2P Require Import HeaderFields.

(** ** AuthenAction *)
Abbreviation AuthenAction := byte (only parsing).
Definition AuthenActionLogin : AuthenAction := x01.
Definition AuthenActionPass : AuthenAction := x02.
Definition AuthenActionSendAuth : AuthenAction := x04.

Definition AuthenAction_Validate (t : AuthenAction) (_ : condition) : outcome unit :=
  require
    (in_cases t
      [AuthenActionLogin; AuthenActionPass; AuthenActionSendAuth])
    (Errorf "unknown AuthenAction value [%v]").

Definition AuthenAction_Len (t : AuthenAction) : Z := 1.

Definition AuthenAction_String (t : AuthenAction) : gostring :=
  switch_string t
    [(AuthenActionLogin, "AuthenActionLogin");
     (AuthenActionPass, "AuthenActionPass");
     (AuthenActionSendAuth, "AuthenActionSendAuth")]
    (str "unknown AuthenAction[" ++ fmt_d (b2z t) ++ str "]").

Definition AuthenAction_Field (t : AuthenAction) : Field :=
  mkField (AuthenAction_Validate t) (AuthenAction_Len t) (AuthenAction_String t).

(** ** PrivLvl *)
Abbreviation PrivLvl := byte (only parsing).
Definition PrivLvlMin : PrivLvl := x00.
Definition PrivLvlUser : PrivLvl := x01.
Definition PrivLvlRoot : PrivLvl := x0f.
Definition PrivLvlMax : PrivLvl := x0f.

Definition PrivLvl_Len (t : PrivLvl) : Z := 1.

Definition PrivLvl_Validate (t : PrivLvl) (_ : condition) : outcome unit :=
  require (b2z t <=? 15) (Errorf "invalid PrivLvl: [%v]").

Definition PrivLvl_String (t : PrivLvl) : gostring :=
  switch_string t
    [(PrivLvlMin, "PrivLvlMin"); (PrivLvlUser, "PrivLvlUser"); (PrivLvlRoot, "PrivLvlRoot")]
    (str "unknown PrivLvl[" ++ fmt_d (b2z t) ++ str "]").

Definition PrivLvl_Field (t : PrivLvl) : Field :=
  mkField (PrivLvl_Validate t) (PrivLvl_Len t) (PrivLvl_String t).

(** ** AuthenType *)
Abbreviation AuthenType := byte (only parsing).
Definition AuthenTypeNotSet : AuthenType := x00.
Definition AuthenTypeASCII : AuthenType := x01.
Definition AuthenTypePAP : AuthenType := x02.
Definition AuthenTypeCHAP : AuthenType := x03.
Definition AuthenTypeARAP : AuthenType := x04.
Definition AuthenTypeMSCHAP : AuthenType := x05.
Definition AuthenTypeMSCHAPV2 : AuthenType := x06.

Definition AuthenType_Validate (t : AuthenType) (_ : condition) : outcome unit :=
  require
    (in_cases t
      [AuthenTypeNotSet; AuthenTypeASCII; AuthenTypePAP; AuthenTypeCHAP;
       AuthenTypeARAP; AuthenTypeMSCHAP; AuthenTypeMSCHAPV2])
    (Errorf "unknown AuthenType value [%v]").

Definition AuthenType_Len (t : AuthenType) : Z := 1.

Definition AuthenType_String (t : AuthenType) : gostring :=
  switch_string t
    [(AuthenTypeNotSet, "AuthenTypeNotSet");
     (AuthenTypeASCII, "AuthenTypeASCII"); (AuthenTypePAP, "AuthenTypePAP");
     (AuthenTypeCHAP, "AuthenTypeCHAP"); (AuthenTypeARAP, "AuthenTypeARAP");
     (AuthenTypeMSCHAP, "AuthenTypeMSCHAP");
     (AuthenTypeMSCHAPV2, "AuthenTypeMSCHAPV2")]
    (str "unknown AuthenType[" ++ fmt_d (b2z t) ++ str "]").

Definition AuthenType_Field (t : AuthenType) : Field :=
  mkField (AuthenType_Validate t) (AuthenType_Len t) (AuthenType_String t).

(** ** AuthenService *)
Abbreviation AuthenService := byte (only parsing).
Definition AuthenServiceNone : AuthenService := x00.
Definition AuthenServiceLogin : AuthenService := x01.
Definition AuthenServiceEnable : AuthenService := x02.
Definition AuthenServicePPP : AuthenService := x03.
Definition AuthenServiceARAP : AuthenService := x04.
Definition AuthenServicePT : AuthenService := x05.
Definition AuthenServiceRCMD : AuthenService := x06.
Definition AuthenServiceX25 : AuthenService := x07.
Definition AuthenServiceNASI : AuthenService := x08.
Definition AuthenServiceFwProxy : AuthenService := x09.

Definition AuthenService_Validate (t : AuthenService) (_ : condition) : outcome unit :=
  require
    (in_cases t
      [AuthenServiceNone; AuthenServiceLogin; AuthenServiceEnable;
       AuthenServicePPP; AuthenServiceARAP; AuthenServicePT; AuthenServiceRCMD;
       AuthenServiceX25; AuthenServiceNASI; AuthenServiceFwProxy])
    (Errorf "unknown AuthenService value [%v]").

Definition AuthenService_Len (t : AuthenService) : Z := 1.

Definition AuthenService_String (t : AuthenService) : gostring :=
  switch_string t
    [(AuthenServiceNone, "AuthenServiceNone");
     (AuthenServiceLogin, "AuthenServiceLogin");
     (AuthenServiceEnable, "AuthenServiceEnable");
     (AuthenServicePPP, "AuthenServicePPP");
     (AuthenServiceARAP, "AuthenServiceARAP");
     (AuthenServicePT, "AuthenServicePT");
     (AuthenServiceRCMD, "AuthenServiceRCMD");
     (AuthenServiceX25, "AuthenServiceX25");
     (AuthenServiceNASI, "AuthenServiceNASI");
     (AuthenServiceFwProxy, "AuthenServiceFwProxy")]
    (str "unknown AuthenService[" ++ fmt_d (b2z t) ++ str "]").

Definition AuthenService_Field (t : AuthenService) : Field :=
  mkField (AuthenService_Validate t) (AuthenService_Len t) (AuthenService_String t).

(** ** AuthenStatus *)
Abbreviation AuthenStatus := byte (only parsing).
Definition AuthenStatusPass : AuthenStatus := x01.
Definition AuthenStatusFail : AuthenStatus := x02.
Definition AuthenStatusGetData : AuthenStatus := x03.
Definition AuthenStatusGetUser : AuthenStatus := x04.
Definition AuthenStatusGetPass : AuthenStatus := x05.
Definition AuthenStatusRestart : AuthenStatus := x06.
Definition AuthenStatusError : AuthenStatus := x07.

Definition AuthenStatus_Validate (t : AuthenStatus) (_ : condition) : outcome unit :=
  require
    (in_cases t
      [AuthenStatusPass; AuthenStatusFail; AuthenStatusGetData;
       AuthenStatusGetUser; AuthenStatusGetPass; AuthenStatusRestart;
       AuthenStatusError])
    (Errorf "unknown AuthenStatus value [%v]").

Definition AuthenStatus_Len (t : AuthenStatus) : Z := 1.

Definition AuthenStatus_String (t : AuthenStatus) : gostring :=
  switch_string t
    [(AuthenStatusPass, "AuthenStatusPass");
     (AuthenStatusFail, "AuthenStatusFail");
     (AuthenStatusGetData, "AuthenStatusGetData");
     (AuthenStatusGetUser, "AuthenStatusGetUser");
     (AuthenStatusGetPass, "AuthenStatusGetPass");
     (AuthenStatusRestart, "AuthenStatusRestart");
     (AuthenStatusError, "AuthenStatusError")]
    (str "unknown AuthenStatus[" ++ fmt_d (b2z t) ++ str "]").

Definition AuthenStatus_Field (t : AuthenStatus) : Field :=
  mkField (AuthenStatus_Validate t) (AuthenStatus_Len t) (AuthenStatus_String t).

(** ** AuthenServerMsg: never rejected *)
Abbreviation AuthenServerMsg := gostring (only parsing).

Definition AuthenServerMsg_Validate (t : AuthenServerMsg) (_ : condition) : outcome unit := Ok tt.
Definition AuthenServerMsg_Len (t : AuthenServerMsg) : Z := len t.
Definition AuthenServerMsg_String (t : AuthenServerMsg) : gostring := t.

(** ** AuthenUserMessage *)
Abbreviation AuthenUserMessage := gostring (only parsing).

Definition AuthenUserMessage_Validate (t : AuthenUserMessage) (_ : condition) : outcome unit :=
  require (isAllASCII t) (Errorf "AuthenUserMessage is not all ascii, but it must be, [%v]").

Definition AuthenUserMessage_Len (t : AuthenUserMessage) : Z := len t.
Definition AuthenUserMessage_String (t : AuthenUserMessage) : gostring := t.

Definition AuthenUserMessage_Field (t : AuthenUserMessage) : Field :=
  mkField (AuthenUserMessage_Validate t) (AuthenUserMessage_Len t) (AuthenUserMessage_String t).

(** ** AuthenData: ASCII only in an ASCII login *)
Abbreviation AuthenData := gostring (only parsing).

Definition AuthenData_Len (t : AuthenData) : Z := len t.

Definition AuthenData_Validate (t : AuthenData) (c : condition) : outcome unit :=
  match c with
  | CondAuthenType atype =>
    if decide (atype = AuthenTypeASCII) then
      require (isAllASCII t)
        (Errorf "AuthenData is not all ascii, but it must be for AuthenTypeASCII, [%v]")
    else Ok tt
  | _ => Ok tt
  end.

Definition AuthenData_String (t : AuthenData) : gostring := t.

Definition AuthenData_Field (t : AuthenData) : Field :=
  mkField (AuthenData_Validate t) (AuthenData_Len t) (AuthenData_String t).

(** ** AuthenUser *)
Abbreviation AuthenUser := gostring (only parsing).

Definition AuthenUser_Validate (t : AuthenUser) (_ : condition) : outcome unit :=
  require (isAllASCII t) (Errorf "AuthenUser is not all ascii, but it must be, [%v]").

Definition AuthenUser_Len (t : AuthenUser) : Z := len t.
Definition AuthenUser_String (t : AuthenUser) : gostring := t.

Definition AuthenUser_Field (t : AuthenUser) : Field :=
  mkField (AuthenUser_Validate t) (AuthenUser_Len t) (AuthenUser_String t).

(** ** AuthenPort *)
Abbreviation AuthenPort := gostring (only parsing).

Definition AuthenPort_Validate (t : AuthenPort) (_ : condition) : outcome unit :=
  require (isAllASCII t) (Errorf "AuthenPort is not all ascii, but it must be, [%v]").

Definition AuthenPort_Len (t : AuthenPort) : Z := len t.
Definition AuthenPort_String (t : AuthenPort) : gostring := t.

Definition AuthenPort_Field (t : AuthenPort) : Field :=
  mkField (AuthenPort_Validate t) (AuthenPort_Len t) (AuthenPort_String t).

(** ** AuthenRemAddr *)
Abbreviation AuthenRemAddr := gostring (only parsing).

Definition AuthenRemAddr_Validate (t : AuthenRemAddr) (_ : condition) : outcome unit :=
  require (isAllASCII t) (Errorf "AuthenRemAddr is not all ascii, but it must be, [%v]").

Definition AuthenRemAddr_Len (t : AuthenRemAddr) : Z := len t.
Definition AuthenRemAddr_String (t : AuthenRemAddr) : gostring := t.

Definition AuthenRemAddr_Field (t : AuthenRemAddr) : Field :=
  mkField (AuthenRemAddr_Validate t) (AuthenRemAddr_Len t) (AuthenRemAddr_String t).

(** ** AuthenReplyFlag *)
Abbreviation AuthenReplyFlag := byte (only parsing).
Definition AuthenReplyFlagNoEcho : AuthenReplyFlag := x01.

Definition AuthenReplyFlag_Set (b f : AuthenReplyFlag) : AuthenReplyFlag := bor b f.
Definition AuthenReplyFlag_Clear (b f : AuthenReplyFlag) : AuthenReplyFlag := bandnot b f.
Definition AuthenReplyFlag_Toggle (b f : AuthenReplyFlag) : AuthenReplyFlag := bxor b f.
Definition AuthenReplyFlag_Has (b f : AuthenReplyFlag) : bool := negb (bool_decide (band b f = x00)).

Definition AuthenReplyFlag_String (b : AuthenReplyFlag) : gostring :=
  if AuthenReplyFlag_Has b AuthenReplyFlagNoEcho then str "AuthenReplyFlagNoEcho" else [].

(** ** AuthenContinueFlag *)
Abbreviation AuthenContinueFlag := byte (only parsing).
Definition AuthenContinueFlagAbort : AuthenContinueFlag := x01.

Definition AuthenContinueFlag_Set (b f : AuthenContinueFlag) : AuthenContinueFlag := bor b f.
Definition AuthenContinueFlag_Clear (b f : AuthenContinueFlag) : AuthenContinueFlag := bandnot b f.
Definition AuthenContinueFlag_Toggle (b f : AuthenContinueFlag) : AuthenContinueFlag := bxor b f.
Definition AuthenContinueFlag_Has (b f : AuthenContinueFlag) : bool := negb (bool_decide (band b f = x00)).

Definition AuthenContinueFlag_String (b : AuthenContinueFlag) : gostring :=
  if AuthenContinueFlag_Has b AuthenContinueFlagAbort then str "AuthenContinueFlagAbort" else [].

#[export] Hint Unfold AuthenAction_Validate PrivLvl_Validate AuthenType_Validate
  AuthenService_Validate AuthenStatus_Validate AuthenServerMsg_Validate
  AuthenUserMessage_Validate AuthenData_Validate AuthenUser_Validate
  AuthenPort_Validate AuthenRemAddr_Validate : validators.
