(* ===== verification/AuthorFields.v ===== *)
(** The fields of the authorization and accounting packets, authorize_fields.go
    and accounting_fields.go, but for [Arg] and [Args], which Args.v holds. *)
From S2P Require Import Prelude.
From S2P Require Import GoStrings.
From S2P Require Import Buffer.
From S2P Require Import HeaderFields.

(** ** AuthenMethod *)
Abbreviation AuthenMethod := byte (only parsing).
Definition AuthenMethodNotSet : AuthenMethod := x00.
Definition AuthenMethodNone : AuthenMethod := x01.
Definition AuthenMethodKrb5 : AuthenMethod := x02.
Definition AuthenMethodLine : AuthenMethod := x03.
Definition AuthenMethodEnable : AuthenMethod := x04.
Definition AuthenMethodLocal : AuthenMethod := x05.
Definition AuthenMethodTacacsPlus : AuthenMethod := x06.
Definition AuthenMethodGuest : AuthenMethod := x08.
Definition AuthenMethodRadius : AuthenMethod := x10.

Definition AuthenMethod_Validate (t : AuthenMethod) (_ : condition) : outcome unit :=
  require
    (in_cases t
      [AuthenMethodNotSet; AuthenMethodNone; AuthenMethodKrb5;
       AuthenMethodLine; AuthenMethodEnable; AuthenMethodLocal;
       AuthenMethodTacacsPlus; AuthenMethodGuest; AuthenMethodRadius])
    (Errorf "unknown AuthenMethod value [%v]").

Definition AuthenMethod_Len (t : AuthenMethod) : Z := 1.

Definition AuthenMethod_String (t : AuthenMethod) : gostring :=
  switch_string t
    [(AuthenMethodNotSet, "AuthenMethodNotSet");
     (AuthenMethodNone, "AuthenMethodNone");
     (AuthenMethodKrb5, "AuthenMethodKrb5");
     (AuthenMethodLine, "AuthenMethodLine");
     (AuthenMethodEnable, "AuthenMethodEnable");
     (AuthenMethodLocal, "AuthenMethodLocal");
     (AuthenMethodTacacsPlus, "AuthenMethodTacacsPlus");
     (AuthenMethodGuest, "AuthenMethodGuest");
     (AuthenMethodRadius, "AuthenMethodRadius")]
    (str "unknown AuthenMethod[" ++ fmt_d (b2z t) ++ str "]").

Definition AuthenMethod_Field (t : AuthenMethod) : Field :=
  mkField (AuthenMethod_Validate t) (AuthenMethod_Len t) (AuthenMethod_String t).

(** ** AuthorStatus *)
Abbreviation AuthorStatus := byte (only parsing).
Definition AuthorStatusPassAdd : AuthorStatus := x01.
Definition AuthorStatusPassRepl : AuthorStatus := x02.
Definition AuthorStatusFail : AuthorStatus := x10.
Definition AuthorStatusError : AuthorStatus := x11.

Definition AuthorStatus_Validate (t : AuthorStatus) (_ : condition) : outcome unit :=
  require
    (in_cases t
      [AuthorStatusPassAdd; AuthorStatusPassRepl; AuthorStatusFail;
       AuthorStatusError])
    (Errorf "unknown AuthorStatus value [%v]").

Definition AuthorStatus_Len (t : AuthorStatus) : Z := 1.

Definition AuthorStatus_String (t : AuthorStatus) : gostring :=
  switch_string t
    [(AuthorStatusPassAdd, "AuthorStatusPassAdd");
     (AuthorStatusPassRepl, "AuthorStatusPassRepl");
     (AuthorStatusFail, "AuthorStatusFail");
     (AuthorStatusError, "AuthorStatusError")]
    (str "unknown AuthorStatus[" ++ fmt_d (b2z t) ++ str "]").

Definition AuthorStatus_Field (t : AuthorStatus) : Field :=
  mkField (AuthorStatus_Validate t) (AuthorStatus_Len t) (AuthorStatus_String t).

(** ** AuthorServerMsg *)
Abbreviation AuthorServerMsg := gostring (only parsing).

Definition AuthorServerMsg_Validate (t : AuthorServerMsg) (_ : condition) : outcome unit :=
  require (isAllASCII t) (Errorf "AuthorServerMsg is not all ascii, but it must be, [%v]").

Definition AuthorServerMsg_Len (t : AuthorServerMsg) : Z := len t.
Definition AuthorServerMsg_String (t : AuthorServerMsg) : gostring := t.

Definition AuthorServerMsg_Field (t : AuthorServerMsg) : Field :=
  mkField (AuthorServerMsg_Validate t) (AuthorServerMsg_Len t) (AuthorServerMsg_String t).

(** ** AuthorData *)
Abbreviation AuthorData := gostring (only parsing).

Definition AuthorData_Validate (t : AuthorData) (_ : condition) : outcome unit :=
  require (isAllASCII t) (Errorf "AuthorData is not all ascii, but it must be, [%v]").

Definition AuthorData_Len (t : AuthorData) : Z := len t.
Definition AuthorData_String (t : AuthorData) : gostring := t.

Definition AuthorData_Field (t : AuthorData) : Field :=
  mkField (AuthorData_Validate t) (AuthorData_Len t) (AuthorData_String t).

(** ** AcctReplyStatus *)
Abbreviation AcctReplyStatus := byte (only parsing).
Definition AcctReplyStatusSuccess : AcctReplyStatus := x01.
Definition AcctReplyStatusError : AcctReplyStatus := x02.

Definition AcctReplyStatus_Validate (t : AcctReplyStatus) (_ : condition) : outcome unit :=
  require
    (in_cases t
      [AcctReplyStatusSuccess; AcctReplyStatusError])
    (Errorf "unknown AcctReplyStatus value [%v]").

Definition AcctReplyStatus_Len (t : AcctReplyStatus) : Z := 1.

Definition AcctReplyStatus_String (t : AcctReplyStatus) : gostring :=
  switch_string t
    [(AcctReplyStatusSuccess, "AcctReplyStatusSuccess");
     (AcctReplyStatusError, "AcctReplyStatusError")]
    (str "unknown AcctReplyStatus[" ++ fmt_d (b2z t) ++ str "]").

Definition AcctReplyStatus_Field (t : AcctReplyStatus) : Field :=
  mkField (AcctReplyStatus_Validate t) (AcctReplyStatus_Len t) (AcctReplyStatus_String t).

(** ** AcctServerMsg *)
Abbreviation AcctServerMsg := gostring (only parsing).

Definition AcctServerMsg_Validate (t : AcctServerMsg) (_ : condition) : outcome unit :=
  require (isAllASCII t) (Errorf "AcctServerMsg is not all ascii, but it must be, [%v]").

Definition AcctServerMsg_Len (t : AcctServerMsg) : Z := len t.
Definition AcctServerMsg_String (t : AcctServerMsg) : gostring := t.

Definition AcctServerMsg_Field (t : AcctServerMsg) : Field :=
  mkField (AcctServerMsg_Validate t) (AcctServerMsg_Len t) (AcctServerMsg_String t).

(** ** AcctData *)
Abbreviation AcctData := gostring (only parsing).

Definition AcctData_Validate (t : AcctData) (_ : condition) : outcome unit :=
  require (isAllASCII t) (Errorf "AcctData is not all ascii, but it must be, [%v]").

Definition AcctData_Len (t : AcctData) : Z := len t.
Definition AcctData_String (t : AcctData) : gostring := t.

Definition AcctData_Field (t : AcctData) : Field :=
  mkField (AcctData_Validate t) (AcctData_Len t) (AcctData_String t).

(** ** AcctRequestFlag *)
Abbreviation AcctRequestFlag := byte (only parsing).
Definition AcctFlagStart : AcctRequestFlag := x02.
Definition AcctFlagStop : AcctRequestFlag := x04.
Definition AcctFlagWatchdog : AcctRequestFlag := x08.
Definition AcctFlagWatchdogWithUpdate : AcctRequestFlag := x0a.

Definition AcctRequestFlag_Set (b f : AcctRequestFlag) : AcctRequestFlag := bor b f.
Definition AcctRequestFlag_Clear (b f : AcctRequestFlag) : AcctRequestFlag := bandnot b f.
Definition AcctRequestFlag_Toggle (b f : AcctRequestFlag) : AcctRequestFlag := bxor b f.
Definition AcctRequestFlag_Has (b f : AcctRequestFlag) : bool := negb (bool_decide (band b f = x00)).

Definition AcctRequestFlag_String (t : AcctRequestFlag) : gostring :=
  let flags := [] in
  let flags := if AcctRequestFlag_Has t AcctFlagStart
               then flags ++ [str "AcctFlagStart"] else flags in
  let flags := if AcctRequestFlag_Has t AcctFlagStop
               then flags ++ [str "AcctFlagStop"] else flags in
  let flags := if AcctRequestFlag_Has t AcctFlagWatchdog
               then flags ++ [str "AcctFlagWatchdog"] else flags in
  let flags := if AcctRequestFlag_Has t AcctFlagWatchdogWithUpdate
               then flags ++ [str "AcctFlagWatchdogWithUpdate"] else flags in
  strings_Join flags (str "|").

Definition AcctRequestFlag_Validate (t : AcctRequestFlag) (_ : condition) : outcome unit :=
  if AcctRequestFlag_Has t AcctFlagStop && AcctRequestFlag_Has t AcctFlagWatchdog then
    Err (Errorf "stop and watchdog flags are both set")
  else Ok tt.

Definition AcctRequestFlag_Len (t : AcctRequestFlag) : Z := 1.

Definition AcctRequestFlag_Field (t : AcctRequestFlag) : Field :=
  mkField (AcctRequestFlag_Validate t) (AcctRequestFlag_Len t) (AcctRequestFlag_String t).

#[export] Hint Unfold AuthenMethod_Validate AuthorStatus_Validate
  AuthorServerMsg_Validate AuthorData_Validate AcctReplyStatus_Validate
  AcctServerMsg_Validate AcctData_Validate AcctRequestFlag_Validate :
  validators.
