(* ===== verification/Args.v ===== *)
(** The argument list of authorization and accounting packets: [Arg] and
    [Args] of authorize_fields.go, which split attribute-value pairs and look
    the well-known attributes up. *)
From S2P Require Import Prelude.
From S2P Require Import GoStrings.
From S2P Require Import Buffer.
From S2P Require Import HeaderFields.

(** ** Arg *)
Abbreviation Arg := gostring (only parsing).

Definition Arg_Validate (t : Arg) (_ : condition) : outcome unit :=
  if negb (isAllASCII t) then
    Err (Errorf "Arg is not all ascii, but it must be, [%v]")
  else if (len t <? 2) || (255 <? len t) then
    Err (Errorf "invalid arg length. valid range [2-255], found [%v]")
  else Ok tt.

Definition Arg_Len (t : Arg) : Z := len t.

Definition Arg_String (t : Arg) : gostring := strings_TrimSpace t.

Definition Arg_Field (t : Arg) : Field :=
  mkField (Arg_Validate t) (Arg_Len t) (Arg_String t).

(** Attribute, separator and value. *)
Definition Arg_ASV (t : Arg) : gostring * gostring * gostring :=
  let s := Arg_String t in
  let i := strings_IndexAny s (str "=*") in
  if i <? 0 then ([], [], [])
  else (take (Z.to_nat i) s, take 1 (drop (Z.to_nat i) s), drop (S (Z.to_nat i)) s).

(** ** Args *)
Abbreviation Args := (list gostring) (only parsing).

Definition Args_Len (t : Args) : Z := len t.

Fixpoint Args_Validate (t : Args) (c : condition) : outcome unit :=
  match t with
  | [] => Ok tt
  | arg :: t =>
    if negb (isAllASCII arg) then Err (Errorf "Args are not all ASCII")
    else Args_Validate t c
  end.

Fixpoint Args_String (t : Args) : gostring :=
  match t with
  | [] => []
  | arg :: t => Arg_String arg ++ str ", " ++ Args_String t
  end.

(** The value of the first [service] attribute. *)
Fixpoint Args_Service (t : Args) : gostring :=
  match t with
  | [] => []
  | arg :: t =>
    let '(a, _, v) := Arg_ASV arg in
    if decide (a = str "service") then v else Args_Service t
  end.

Fixpoint Args_CommandSplit (t : Args) : gostring * gostring * gostring :=
  match t with
  | [] => ([], [], [])
  | arg :: t =>
    let '(a, s, v) := Arg_ASV arg in
    if decide (a = str "cmd") then (a, s, v) else Args_CommandSplit t
  end.

Fixpoint Args_Command (t : Args) : gostring :=
  match t with
  | [] => []
  | arg :: t =>
    let '(a, _, v) := Arg_ASV arg in
    if decide (a = str "cmd") then v else Args_Command t
  end.

(** The loop of [CommandArgs]: the values of the [cmd-arg] attributes. *)
Fixpoint cmd_arg_values (t : Args) : list gostring :=
  match t with
  | [] => []
  | arg :: t =>
    let '(a, _, v) := Arg_ASV arg in
    if decide (a = str "cmd-arg") then v :: cmd_arg_values t else cmd_arg_values t
  end.

Definition Args_CommandArgs (t : Args) : gostring :=
  strings_Join (cmd_arg_values t) (str " ").

(** The loop of [Unique], with the map [seen] of the strings met. *)
Fixpoint unique_loop (seen : gset gostring) (t : Args) : Args :=
  match t with
  | [] => []
  | arg :: t =>
    let asv := Arg_String arg in
    if decide (asv ∈ seen) then unique_loop seen t
    else arg :: unique_loop ({[asv]} ∪ seen) t
  end.

Definition Args_Unique (t : Args) : Args := unique_loop ∅ t.

Definition Args_Args (t : Args) : list gostring := Arg_String <$> Args_Unique t.

Definition Args_Append (t : Args) (args : list gostring) : Args := t ++ args.

#[export] Hint Unfold Arg_Validate : validators.

(** ** Facts *)

Lemma Arg_Validate_spec t c :
  Arg_Validate t c = Ok tt ↔ isAllASCII t = true ∧ 2 <= len t <= 255.
Proof.
  unfold Arg_Validate. destruct (isAllASCII t); simpl; [|naive_solver].
  destruct (Z.ltb_spec (len t) 2), (Z.ltb_spec 255 (len t)); simpl; split;
    (lia || naive_solver).
Qed.

Definition is_sep (c : byte) : Prop := c ∈ str "=*".

(** [ASV] cuts the trimmed argument at its first separator. *)
Lemma Arg_ASV_spec t :
  (Arg_ASV t = ([], [], []) ∧ Forall (λ c, ¬ is_sep c) (Arg_String t)) ∨
  (∃ a c v, Arg_ASV t = (a, [c], v) ∧ Arg_String t = a ++ c :: v ∧ is_sep c ∧
            Forall (λ c, ¬ is_sep c) a).
Proof.
  unfold Arg_ASV.
  destruct (strings_IndexAny_spec (Arg_String t) (str "=*"))
    as [[-> H] | (a & c & v & Hs & Hc & Ha & ->)]; [by left|right].
  exists a, c, v. pose proof (len_nonneg a).
  destruct (Z.ltb_spec (len a) 0); [lia|]. split_and!; try done.
  rewrite Hs. rewrite take_len_app, drop_len_app. cbn [take].
  replace (S (Z.to_nat (len a))) with (Z.to_nat (len (a ++ [c])))
    by (rewrite len_app, len_cons, len_nil; lia).
  by rewrite (cons_middle c a v), app_assoc, drop_len_app.
Qed.

Lemma unique_loop_spec seen t :
  NoDup (Arg_String <$> unique_loop seen t) ∧
  (∀ x, x ∈ Arg_String <$> unique_loop seen t ↔ x ∈ Arg_String <$> t ∧ x ∉ seen) ∧
  unique_loop seen t `sublist_of` t.
Proof.
  revert seen. induction t as [|arg t IH]; intros seen; cbn [unique_loop].
  { split_and!; [constructor|set_solver|done]. }
  destruct (decide (Arg_String arg ∈ seen)) as [Hin|Hout].
  - destruct (IH seen) as (Hd & He & Hs). split_and!; [done| |by constructor].
    intros x. rewrite He, fmap_cons. set_solver.
  - destruct (IH ({[Arg_String arg]} ∪ seen)) as (Hd & He & Hs).
    rewrite fmap_cons. split_and!.
    + constructor; [|done]. rewrite He. set_solver.
    + intros x. rewrite elem_of_cons, He, fmap_cons, elem_of_cons.
      destruct (decide (x = Arg_String arg)); set_solver.
    + by constructor.
Qed.

(** What [Validate] ensures of each argument of a packet. *)
Definition args_valid (t : Args) : Prop :=
  Forall (λ a, isAllASCII a = true ∧ 2 <= len a <= 255) t.

Lemma args_valid_spec t : validate_fields CondNil (Arg_Field <$> t) = Ok tt ↔ args_valid t.
Proof.
  rewrite validate_fields_ok, Forall_fmap. unfold args_valid.
  apply Forall_iff. intros a. apply Arg_Validate_spec.
Qed.

Lemma args_valid_bounds t :
  args_valid t → Forall (λ a, 2 <= len a) t ∧ Forall (λ a, len a < 256) t.
Proof.
  intros H. split; (eapply Forall_impl; [exact H|]); cbn; intros a [_ ?]; lia.
Qed.

Lemma args_count (t : Args) : Z.to_nat (len t) = length t.
Proof. unfold len. lia. Qed.

Lemma args_validate_returns t : returns (validate_fields CondNil (Arg_Field <$> t)).
Proof.
  apply validate_fields_returns. intros f (a & -> & _)%list_elem_of_fmap.
  validator_returns.
Qed.
