(* ===== verification/Attributes.v ===== *)
(** The types of the attributes a request for authorization or accounting can
    carry, RFC 8907 sections 8.2 and 8.3: authorize_fields.go from
    [AuthorService] on, and accounting_fields.go from [AcctStartTime] to
    [AcctPaksOut]. Each is a [Field]. *)
From S2P Require Import Prelude.
From S2P Require Import GoStrings.
From S2P Require Import Buffer.
From S2P Require Import HeaderFields.

(** [strconv.FormatBool]. *)
Definition FormatBool (b : bool) : gostring := if b then str "true" else str "false".

(** ** AuthorService *)
Abbreviation AuthorService := gostring (only parsing).

Definition AuthorService_Validate (t : AuthorService) (_ : condition) : outcome unit :=
  require (isAllASCII t) (Errorf "AuthorService is not all ascii, but it must be, [%v]").
Definition AuthorService_Len (t : AuthorService) : Z := len t.
Definition AuthorService_String (t : AuthorService) : gostring := t.
Definition AuthorService_Field (t : AuthorService) : Field :=
  mkField (AuthorService_Validate t) (AuthorService_Len t) (AuthorService_String t).

(** ** AuthorProtocol *)
Abbreviation AuthorProtocol := gostring (only parsing).

Definition AuthorProtocol_Validate (t : AuthorProtocol) (_ : condition) : outcome unit :=
  require (isAllASCII t) (Errorf "AuthorProtocol is not all ascii, but it must be, [%v]").
Definition AuthorProtocol_Len (t : AuthorProtocol) : Z := len t.
Definition AuthorProtocol_String (t : AuthorProtocol) : gostring := t.
Definition AuthorProtocol_Field (t : AuthorProtocol) : Field :=
  mkField (AuthorProtocol_Validate t) (AuthorProtocol_Len t) (AuthorProtocol_String t).

(** ** AuthorCmd *)
Abbreviation AuthorCmd := gostring (only parsing).

Definition AuthorCmd_Validate (t : AuthorCmd) (_ : condition) : outcome unit :=
  require (isAllASCII t) (Errorf "AuthorCmd is not all ascii, but it must be, [%v]").
Definition AuthorCmd_Len (t : AuthorCmd) : Z := len t.
Definition AuthorCmd_String (t : AuthorCmd) : gostring := t.
Definition AuthorCmd_Field (t : AuthorCmd) : Field :=
  mkField (AuthorCmd_Validate t) (AuthorCmd_Len t) (AuthorCmd_String t).

(** ** AuthorCmdArg *)
Abbreviation AuthorCmdArg := gostring (only parsing).

Definition AuthorCmdArg_Validate (t : AuthorCmdArg) (_ : condition) : outcome unit :=
  require (isAllASCII t) (Errorf "AuthorCmdArg is not all ascii, but it must be, [%v]").
Definition AuthorCmdArg_Len (t : AuthorCmdArg) : Z := len t.
Definition AuthorCmdArg_String (t : AuthorCmdArg) : gostring := t.
Definition AuthorCmdArg_Field (t : AuthorCmdArg) : Field :=
  mkField (AuthorCmdArg_Validate t) (AuthorCmdArg_Len t) (AuthorCmdArg_String t).

(** ** AuthorACL *)
Abbreviation AuthorACL := Z (only parsing).

Definition AuthorACL_Validate (t : AuthorACL) (_ : condition) : outcome unit := Ok tt.
Definition AuthorACL_Len (t : AuthorACL) : Z := 1.
Definition AuthorACL_String (t : AuthorACL) : gostring := fmt_d t.
Definition AuthorACL_Field (t : AuthorACL) : Field :=
  mkField (AuthorACL_Validate t) (AuthorACL_Len t) (AuthorACL_String t).

(** ** AuthorInACL *)
Abbreviation AuthorInACL := gostring (only parsing).

Definition AuthorInACL_Validate (t : AuthorInACL) (_ : condition) : outcome unit :=
  require (isAllASCII t) (Errorf "AuthorInACL is not all ascii, but it must be, [%v]").
Definition AuthorInACL_Len (t : AuthorInACL) : Z := len t.
Definition AuthorInACL_String (t : AuthorInACL) : gostring := t.
Definition AuthorInACL_Field (t : AuthorInACL) : Field :=
  mkField (AuthorInACL_Validate t) (AuthorInACL_Len t) (AuthorInACL_String t).

(** ** AuthorOutACL *)
Abbreviation AuthorOutACL := gostring (only parsing).

Definition AuthorOutACL_Validate (t : AuthorOutACL) (_ : condition) : outcome unit :=
  require (isAllASCII t) (Errorf "AuthorOutACL is not all ascii, but it must be, [%v]").
Definition AuthorOutACL_Len (t : AuthorOutACL) : Z := len t.
Definition AuthorOutACL_String (t : AuthorOutACL) : gostring := t.
Definition AuthorOutACL_Field (t : AuthorOutACL) : Field :=
  mkField (AuthorOutACL_Validate t) (AuthorOutACL_Len t) (AuthorOutACL_String t).

(** ** AuthorAddr *)
Abbreviation AuthorAddr := (list byte) (only parsing).

Definition AuthorAddr_Validate (t : AuthorAddr) (_ : condition) : outcome unit := Ok tt.
Definition AuthorAddr_Len (t : AuthorAddr) : Z := len t.
Definition AuthorAddr_String (t : AuthorAddr) : gostring := t.
Definition AuthorAddr_Field (t : AuthorAddr) : Field :=
  mkField (AuthorAddr_Validate t) (AuthorAddr_Len t) (AuthorAddr_String t).

(** ** AuthorAddrPool *)
Abbreviation AuthorAddrPool := gostring (only parsing).

Definition AuthorAddrPool_Validate (t : AuthorAddrPool) (_ : condition) : outcome unit :=
  require (isAllASCII t) (Errorf "AuthorAddrPool is not all ascii, but it must be, [%v]").
Definition AuthorAddrPool_Len (t : AuthorAddrPool) : Z := len t.
Definition AuthorAddrPool_String (t : AuthorAddrPool) : gostring := t.
Definition AuthorAddrPool_Field (t : AuthorAddrPool) : Field :=
  mkField (AuthorAddrPool_Validate t) (AuthorAddrPool_Len t) (AuthorAddrPool_String t).

(** ** AuthorTimeout *)
Abbreviation AuthorTimeout := Z (only parsing).

Definition AuthorTimeout_Validate (t : AuthorTimeout) (_ : condition) : outcome unit := Ok tt.
Definition AuthorTimeout_Len (t : AuthorTimeout) : Z := 1.
Definition AuthorTimeout_String (t : AuthorTimeout) : gostring := fmt_d t.
Definition AuthorTimeout_Field (t : AuthorTimeout) : Field :=
  mkField (AuthorTimeout_Validate t) (AuthorTimeout_Len t) (AuthorTimeout_String t).

(** ** AuthorIdleTime *)
Abbreviation AuthorIdleTime := Z (only parsing).

Definition AuthorIdleTime_Validate (t : AuthorIdleTime) (_ : condition) : outcome unit := Ok tt.
Definition AuthorIdleTime_Len (t : AuthorIdleTime) : Z := 1.
Definition AuthorIdleTime_String (t : AuthorIdleTime) : gostring := fmt_d t.
Definition AuthorIdleTime_Field (t : AuthorIdleTime) : Field :=
  mkField (AuthorIdleTime_Validate t) (AuthorIdleTime_Len t) (AuthorIdleTime_String t).

(** ** AuthorAutoCmd *)
Abbreviation AuthorAutoCmd := gostring (only parsing).

Definition AuthorAutoCmd_Validate (t : AuthorAutoCmd) (_ : condition) : outcome unit :=
  require (isAllASCII t) (Errorf "AuthorAutoCmd is not all ascii, but it must be, [%v]").
Definition AuthorAutoCmd_Len (t : AuthorAutoCmd) : Z := len t.
Definition AuthorAutoCmd_String (t : AuthorAutoCmd) : gostring := t.
Definition AuthorAutoCmd_Field (t : AuthorAutoCmd) : Field :=
  mkField (AuthorAutoCmd_Validate t) (AuthorAutoCmd_Len t) (AuthorAutoCmd_String t).

(** ** AuthorNoEscape *)
Abbreviation AuthorNoEscape := bool (only parsing).

Definition AuthorNoEscape_Validate (t : AuthorNoEscape) (_ : condition) : outcome unit := Ok tt.
Definition AuthorNoEscape_Len (t : AuthorNoEscape) : Z := 1.
Definition AuthorNoEscape_String (t : AuthorNoEscape) : gostring := FormatBool t.
Definition AuthorNoEscape_Field (t : AuthorNoEscape) : Field :=
  mkField (AuthorNoEscape_Validate t) (AuthorNoEscape_Len t) (AuthorNoEscape_String t).

(** ** AuthorNoHangup *)
Abbreviation AuthorNoHangup := bool (only parsing).

Definition AuthorNoHangup_Validate (t : AuthorNoHangup) (_ : condition) : outcome unit := Ok tt.
Definition AuthorNoHangup_Len (t : AuthorNoHangup) : Z := 1.
Definition AuthorNoHangup_String (t : AuthorNoHangup) : gostring := FormatBool t.
Definition AuthorNoHangup_Field (t : AuthorNoHangup) : Field :=
  mkField (AuthorNoHangup_Validate t) (AuthorNoHangup_Len t) (AuthorNoHangup_String t).

(** ** AcctStartTime *)
Abbreviation AcctStartTime := Z (only parsing).

Definition AcctStartTime_Validate (t : AcctStartTime) (_ : condition) : outcome unit := Ok tt.
Definition AcctStartTime_Len (t : AcctStartTime) : Z := 1.
Definition AcctStartTime_String (t : AcctStartTime) : gostring := fmt_d t.
Definition AcctStartTime_Field (t : AcctStartTime) : Field :=
  mkField (AcctStartTime_Validate t) (AcctStartTime_Len t) (AcctStartTime_String t).

(** ** AcctStopTime *)
Abbreviation AcctStopTime := Z (only parsing).

Definition AcctStopTime_Validate (t : AcctStopTime) (_ : condition) : outcome unit := Ok tt.
Definition AcctStopTime_Len (t : AcctStopTime) : Z := 1.
Definition AcctStopTime_String (t : AcctStopTime) : gostring := fmt_d t.
Definition AcctStopTime_Field (t : AcctStopTime) : Field :=
  mkField (AcctStopTime_Validate t) (AcctStopTime_Len t) (AcctStopTime_String t).

(** ** AcctTaskID *)
Abbreviation AcctTaskID := gostring (only parsing).

Definition AcctTaskID_Validate (t : AcctTaskID) (_ : condition) : outcome unit :=
  require (isAllASCII t) (Errorf "AcctTaskID is not all ascii, but it must be, [%v]").
Definition AcctTaskID_Len (t : AcctTaskID) : Z := len t.
Definition AcctTaskID_String (t : AcctTaskID) : gostring := t.
Definition AcctTaskID_Field (t : AcctTaskID) : Field :=
  mkField (AcctTaskID_Validate t) (AcctTaskID_Len t) (AcctTaskID_String t).

(** ** AcctTimezone *)
Abbreviation AcctTimezone := gostring (only parsing).

Definition AcctTimezone_Validate (t : AcctTimezone) (_ : condition) : outcome unit :=
  require (isAllASCII t) (Errorf "AcctTimezone is not all ascii, but it must be, [%v]").
Definition AcctTimezone_Len (t : AcctTimezone) : Z := len t.
Definition AcctTimezone_String (t : AcctTimezone) : gostring := t.
Definition AcctTimezone_Field (t : AcctTimezone) : Field :=
  mkField (AcctTimezone_Validate t) (AcctTimezone_Len t) (AcctTimezone_String t).

(** ** AcctEvent *)
Abbreviation AcctEvent := gostring (only parsing).

Definition AcctEvent_Validate (t : AcctEvent) (_ : condition) : outcome unit :=
  require (isAllASCII t) (Errorf "AcctEvent is not all ascii, but it must be, [%v]").
Definition AcctEvent_Len (t : AcctEvent) : Z := len t.
Definition AcctEvent_String (t : AcctEvent) : gostring := t.
Definition AcctEvent_Field (t : AcctEvent) : Field :=
  mkField (AcctEvent_Validate t) (AcctEvent_Len t) (AcctEvent_String t).

(** ** AcctReason *)
Abbreviation AcctReason := gostring (only parsing).

Definition AcctReason_Validate (t : AcctReason) (_ : condition) : outcome unit :=
  require (isAllASCII t) (Errorf "AcctReason is not all ascii, but it must be, [%v]").
Definition AcctReason_Len (t : AcctReason) : Z := len t.
Definition AcctReason_String (t : AcctReason) : gostring := t.
Definition AcctReason_Field (t : AcctReason) : Field :=
  mkField (AcctReason_Validate t) (AcctReason_Len t) (AcctReason_String t).

(** ** AcctErrMsg *)
Abbreviation AcctErrMsg := gostring (only parsing).

Definition AcctErrMsg_Validate (t : AcctErrMsg) (_ : condition) : outcome unit :=
  require (isAllASCII t) (Errorf "AcctErrMsg is not all ascii, but it must be, [%v]").
Definition AcctErrMsg_Len (t : AcctErrMsg) : Z := len t.
Definition AcctErrMsg_String (t : AcctErrMsg) : gostring := t.
Definition AcctErrMsg_Field (t : AcctErrMsg) : Field :=
  mkField (AcctErrMsg_Validate t) (AcctErrMsg_Len t) (AcctErrMsg_String t).

(** ** AcctElapsedTime *)
Abbreviation AcctElapsedTime := Z (only parsing).

Definition AcctElapsedTime_Validate (t : AcctElapsedTime) (_ : condition) : outcome unit := Ok tt.
Definition AcctElapsedTime_Len (t : AcctElapsedTime) : Z := 1.
Definition AcctElapsedTime_String (t : AcctElapsedTime) : gostring := fmt_d t.
Definition AcctElapsedTime_Field (t : AcctElapsedTime) : Field :=
  mkField (AcctElapsedTime_Validate t) (AcctElapsedTime_Len t) (AcctElapsedTime_String t).

(** ** AcctBytes *)
Abbreviation AcctBytes := Z (only parsing).

Definition AcctBytes_Validate (t : AcctBytes) (_ : condition) : outcome unit := Ok tt.
Definition AcctBytes_Len (t : AcctBytes) : Z := 1.
Definition AcctBytes_String (t : AcctBytes) : gostring := fmt_d t.
Definition AcctBytes_Field (t : AcctBytes) : Field :=
  mkField (AcctBytes_Validate t) (AcctBytes_Len t) (AcctBytes_String t).

(** ** AcctBytesIn *)
Abbreviation AcctBytesIn := Z (only parsing).

Definition AcctBytesIn_Validate (t : AcctBytesIn) (_ : condition) : outcome unit := Ok tt.
Definition AcctBytesIn_Len (t : AcctBytesIn) : Z := 1.
Definition AcctBytesIn_String (t : AcctBytesIn) : gostring := fmt_d t.
Definition AcctBytesIn_Field (t : AcctBytesIn) : Field :=
  mkField (AcctBytesIn_Validate t) (AcctBytesIn_Len t) (AcctBytesIn_String t).

(** ** AcctBytesOut *)
Abbreviation AcctBytesOut := Z (only parsing).

Definition AcctBytesOut_Validate (t : AcctBytesOut) (_ : condition) : outcome unit := Ok tt.
Definition AcctBytesOut_Len (t : AcctBytesOut) : Z := 1.
Definition AcctBytesOut_String (t : AcctBytesOut) : gostring := fmt_d t.
Definition AcctBytesOut_Field (t : AcctBytesOut) : Field :=
  mkField (AcctBytesOut_Validate t) (AcctBytesOut_Len t) (AcctBytesOut_String t).

(** ** AcctPaks *)
Abbreviation AcctPaks := Z (only parsing).

Definition AcctPaks_Validate (t : AcctPaks) (_ : condition) : outcome unit := Ok tt.
Definition AcctPaks_Len (t : AcctPaks) : Z := 1.
Definition AcctPaks_String (t : AcctPaks) : gostring := fmt_d t.
Definition AcctPaks_Field (t : AcctPaks) : Field :=
  mkField (AcctPaks_Validate t) (AcctPaks_Len t) (AcctPaks_String t).

(** ** AcctPaksIn *)
Abbreviation AcctPaksIn := Z (only parsing).

Definition AcctPaksIn_Validate (t : AcctPaksIn) (_ : condition) : outcome unit := Ok tt.
Definition AcctPaksIn_Len (t : AcctPaksIn) : Z := 1.
Definition AcctPaksIn_String (t : AcctPaksIn) : gostring := fmt_d t.
Definition AcctPaksIn_Field (t : AcctPaksIn) : Field :=
  mkField (AcctPaksIn_Validate t) (AcctPaksIn_Len t) (AcctPaksIn_String t).

(** ** AcctPaksOut *)
Abbreviation AcctPaksOut := Z (only parsing).

Definition AcctPaksOut_Validate (t : AcctPaksOut) (_ : condition) : outcome unit := Ok tt.
Definition AcctPaksOut_Len (t : AcctPaksOut) : Z := 1.
Definition AcctPaksOut_String (t : AcctPaksOut) : gostring := fmt_d t.
Definition AcctPaksOut_Field (t : AcctPaksOut) : Field :=
  mkField (AcctPaksOut_Validate t) (AcctPaksOut_Len t) (AcctPaksOut_String t).
