(* ===== verification/Header.v ===== *)
(** The packet header and the packet: header.go and the first half of
    packet.go. A [*Header] that may be nil is an [option]; a [[]byte] whose
    nilness is tested is an [option (list byte)]. *)
From S2P Require Import Prelude.
From S2P Require Import Buffer.
From S2P Require Import HeaderFields.

(** ** Header *)
Definition MaxHeaderLength : Z := 12.
Definition MaxBodyLength : Z := 65536.

Record Header := mkHeader {
  Header_Version : Version;
  Header_Type : HeaderType;
  Header_SeqNo : SequenceNumber;
  Header_SessionID : SessionID;
  Header_Flags : HeaderFlag;
  Header_Length : Z;
}.

#[export] Instance Header_eq_dec : EqDecision Header.
Proof. solve_decision. Defined.

(** The zero value of the struct. *)
Definition zero_Header : Header := mkHeader (mkVersion x00 x00) x00 0 0 x00 0.

Definition HeaderOption : Type := Header → Header.

Definition SetHeaderVersion (v : Version) : HeaderOption := λ h,
  mkHeader v (Header_Type h) (Header_SeqNo h) (Header_SessionID h) (Header_Flags h) (Header_Length h).
Definition SetHeaderType (v : HeaderType) : HeaderOption := λ h,
  mkHeader (Header_Version h) v (Header_SeqNo h) (Header_SessionID h) (Header_Flags h) (Header_Length h).
(** The argument is an [int]; the conversion to [SequenceNumber] keeps 16 bits. *)
Definition SetHeaderSeqNo (v : Z) : HeaderOption := λ h,
  mkHeader (Header_Version h) (Header_Type h) (u16 v) (Header_SessionID h) (Header_Flags h) (Header_Length h).
Definition SetHeaderFlag (v : HeaderFlag) : HeaderOption := λ h,
  mkHeader (Header_Version h) (Header_Type h) (Header_SeqNo h) (Header_SessionID h) v (Header_Length h).
Definition SetHeaderSessionID (v : SessionID) : HeaderOption := λ h,
  mkHeader (Header_Version h) (Header_Type h) (Header_SeqNo h) v (Header_Flags h) (Header_Length h).
(** The argument is what [rand.Uint32] returns. *)
Definition SetHeaderRandomSessionID (rand : Z) : HeaderOption := SetHeaderSessionID (u32 rand).
Definition SetHeaderLen (v : Z) : HeaderOption := λ h,
  mkHeader (Header_Version h) (Header_Type h) (Header_SeqNo h) (Header_SessionID h) (Header_Flags h) (u32 v).

Definition NewHeader (opts : list HeaderOption) : Header :=
  foldl (λ h opt, opt h) zero_Header ([SetHeaderSeqNo 1; SetHeaderFlag x00] ++ opts).

Definition Header_Validate (h : Header) : outcome unit :=
  validate_fields CondNil
    [Version_Field (Header_Version h); HeaderType_Field (Header_Type h);
     SequenceNumber_Field (Header_SeqNo h)] ;;
  if MaxBodyLength <? Header_Length h then
    Err (Errorf "length field is too large, max size is 2^(16)")
  else Ok tt.

Definition Header_MarshalBinary (h : Header) : outcome (list byte) :=
  Header_Validate h ;;
  version ← Version_MarshalBinary (Header_Version h);
  match version with
  | [] => Panic
  | v0 :: _ =>
    Ok ([v0; Header_Type h; u8 (Header_SeqNo h); Header_Flags h] ++
        be_PutUint32 (Header_SessionID h) ++ be_PutUint32 (Header_Length h))
  end.

Definition Header_UnmarshalBinary (data : list byte) : outcome Header :=
  if len data <? MaxHeaderLength then
    Err (Errorf "Header size [%v] is not matched to expected size [%v]")
  else
    version ← Version_UnmarshalBinary data;
    match data with
    | _ :: d1 :: d2 :: d3 :: rest4 =>
      sessionID ← be_Uint32 rest4;
      length ← be_Uint32 (drop 4 rest4);
      let seqNo := b2z d2 in
      let flags := if seqNo =? 2 then HeaderFlag_Set d3 SingleConnect else d3 in
      let h := mkHeader version d1 seqNo sessionID flags length in
      Header_Validate h ;; Ok h
    | _ => Panic
    end.

Definition Header_Fields (h : Header) : gmap gostring gostring :=
  list_to_map
    [(str "header-version", Version_String (Header_Version h));
     (str "header-type", HeaderType_String (Header_Type h));
     (str "header-seq-no", SequenceNumber_String (Header_SeqNo h));
     (str "header-session-id", SessionID_String (Header_SessionID h));
     (str "header-flags", HeaderFlag_String (Header_Flags h));
     (str "header-length", fmt_d (Header_Length h))].

(** ** Packet *)
Record Packet := mkPacket {
  Packet_Header : option Header;
  Packet_Body : option (list byte);
}.

Definition PacketOption : Type := Packet → Packet.

Definition set_Length (h : Header) (n : Z) : Header :=
  mkHeader (Header_Version h) (Header_Type h) (Header_SeqNo h) (Header_SessionID h) (Header_Flags h) n.

Definition SetPacketHeader (v : Header) : PacketOption := λ p,
  mkPacket (Some v) (Packet_Body p).

Definition SetPacketBody (v : list byte) : PacketOption := λ p,
  mkPacket ((λ h, set_Length h (u32 (len v))) <$> Packet_Header p) (Some v).

Definition NewPacket (opts : list PacketOption) : Packet :=
  foldl (λ p opt, opt p) (mkPacket None None) opts.

Definition Packet_MarshalBinary (p : Packet) : outcome (list byte) :=
  match Packet_Header p, Packet_Body p with
  | None, _ => Err (Errorf "header is nil, cannot MarshalBinary")
  | _, None => Err (Errorf "body is nil, cannot MarshalBinary")
  | Some h, Some body =>
    if MaxBodyLength <? Header_Length h then
      Err (Errorf "indicated size is too large to marshal; max allowed [%v] reported [%v]")
    else
      head ← Header_MarshalBinary h;
      Ok (head ++ body)
  end.

(** A slice of bytes: its elements, and those of its array behind them, up to its
    capacity. *)
Record bytes_slice := mkSlice {
  sl_elems : list byte;
  sl_spare : list byte;
}.

Definition full_slice (b : list byte) : bytes_slice := mkSlice b [].

(** A slice expression [v[i:j]] reaches into the spare capacity of [v], and
    panics past it. *)
Definition slice (v : bytes_slice) (i j : Z) : outcome (list byte) :=
  let array := sl_elems v ++ sl_spare v in
  if (0 <=? i) && (i <=? j) && (j <=? len array)
  then Ok (take (Z.to_nat (j - i)) (drop (Z.to_nat i) array)) else Panic.

Definition Packet_UnmarshalBinary (v : option bytes_slice) : outcome Packet :=
  match v with
  | None => Err (Errorf "cannot unmarshal a nil slice")
  | Some v =>
    head ← slice v 0 MaxHeaderLength;
    match Header_UnmarshalBinary head with
    | Ok h =>
      if MaxBodyLength <? Header_Length h then
        Err (Errorf "indicated size is too large to unmarshal; max allowed [%v] reported [%v]")
      else
        body ← slice v MaxHeaderLength (MaxHeaderLength + Header_Length h);
        Ok (mkPacket (Some h) (Some body))
    | Err _ => Err (Errorf "failed header unmarshal: [%w]")
    | Panic => Panic
    end
  end.

(** ** What a header must satisfy *)

Definition header_valid (h : Header) : Prop :=
  Version_Validate (Header_Version h) CondNil = Ok tt ∧
  HeaderType_Validate (Header_Type h) CondNil = Ok tt ∧
  1 <= Header_SeqNo h <= 255 ∧ Header_Length h <= MaxBodyLength.

(** The range of the unsigned fields of the struct. *)
Definition header_typed (h : Header) : Prop :=
  0 <= Header_SeqNo h < 65536 ∧ 0 <= Header_SessionID h < 4294967296 ∧
  0 <= Header_Length h < 4294967296.

Lemma Header_Validate_spec h : Header_Validate h = Ok tt ↔ header_valid h.
Proof.
  unfold Header_Validate, header_valid. rewrite bind_ok. split.
  - intros ([] & Hf & Hl). apply validate_fields_ok in Hf.
    apply Forall_cons in Hf as [Hv Hf]. apply Forall_cons in Hf as [Ht Hf].
    apply Forall_cons in Hf as [Hs _]. cbn in Hv, Ht, Hs.
    rewrite SequenceNumber_Validate_spec in Hs.
    destruct (Z.ltb_spec MaxBodyLength (Header_Length h)); [done|].
    split_and!; done || lia.
  - intros (Hv & Ht & Hs & Hl). exists tt. rewrite validate_fields_ok. split.
    + repeat constructor; cbn; try done. by apply SequenceNumber_Validate_spec.
    + destruct (Z.ltb_spec MaxBodyLength (Header_Length h)); [lia|done].
Qed.

(** Sequence number 2 carries the single-connect flag once decoded. *)
Definition header_decoded (h : Header) : Header :=
  if Header_SeqNo h =? 2
  then SetHeaderFlag (HeaderFlag_Set (Header_Flags h) SingleConnect) h else h.

Lemma Header_MarshalBinary_valid h :
  header_valid h → ∃ v0,
  Version_MarshalBinary (Header_Version h) = Ok [v0] ∧
  Header_MarshalBinary h = Ok ([v0; Header_Type h; u8 (Header_SeqNo h); Header_Flags h] ++
        be_PutUint32 (Header_SessionID h) ++ be_PutUint32 (Header_Length h)).
Proof.
  intros H. pose proof H as (Hv & _). apply Header_Validate_spec in H.
  unfold Header_MarshalBinary, Version_MarshalBinary. rewrite H, Hv. simpl. by eexists.
Qed.

Lemma Header_MarshalBinary_ok h p :
  Header_MarshalBinary h = Ok p → header_valid h ∧ length p = 12%nat.
Proof.
  intros H. assert (header_valid h) as Hv.
  { unfold Header_MarshalBinary in H. outcome_inv.
    apply Header_Validate_spec. by destruct (Header_Validate h) as [[]| |]. }
  destruct (Header_MarshalBinary_valid h Hv) as (v0 & _ & He).
  rewrite He in H. injection H as <-. by split.
Qed.

Lemma SeqNo_b2z h : header_valid h → b2z (u8 (Header_SeqNo h)) = Header_SeqNo h.
Proof. intros (_ & _ & Hs & _). apply b2z_u8_small. lia. Qed.

Lemma header_decoded_valid h : header_valid h → header_valid (header_decoded h).
Proof. unfold header_decoded. by destruct (Header_SeqNo h =? 2). Qed.

(** Decoding what [MarshalBinary] wrote, whatever follows it. *)
Lemma Header_Unmarshal_Marshal h p rest :
  header_typed h → Header_MarshalBinary h = Ok p →
  Header_UnmarshalBinary (p ++ rest) = Ok (header_decoded h).
Proof.
  intros (_ & Hid & Hlen) Hp.
  pose proof (Header_MarshalBinary_ok _ _ Hp) as [Hv _].
  destruct (Header_MarshalBinary_valid h Hv) as (v0 & Hv0 & He).
  rewrite He in Hp. apply Ok_inj in Hp as <-.
  pose proof (Version_Unmarshal_Marshal _ _
    ([Header_Type h; u8 (Header_SeqNo h); Header_Flags h] ++
      (be_PutUint32 (Header_SessionID h) ++ be_PutUint32 (Header_Length h)) ++ rest) Hv0) as Hver.
  unfold Header_UnmarshalBinary. rewrite <- !app_assoc. cbn [app].
  rewrite !len_cons, !len_app.
  change (len (be_PutUint32 (Header_SessionID h))) with 4.
  change (len (be_PutUint32 (Header_Length h))) with 4.
  pose proof (len_nonneg rest). unfold MaxHeaderLength.
  destruct (Z.ltb_spec (1 + (1 + (1 + (1 + (4 + (4 + len rest)))))) 12); [lia|].
  cbn [app] in Hver. rewrite <- app_assoc in Hver. rewrite Hver. cbn [mbind outcome_bind].
  rewrite be_Uint32_Put. cbn [mbind outcome_bind].
  replace (drop 4 _) with (be_PutUint32 (Header_Length h) ++ rest) by done.
  rewrite be_Uint32_Put. cbn [mbind outcome_bind].
  rewrite SeqNo_b2z by done. unfold u32. rewrite !Z.mod_small by lia.
  replace (mkHeader _ _ _ _ _ _) with (header_decoded h).
  - assert (header_valid (header_decoded h)) as Hd%Header_Validate_spec
      by by apply header_decoded_valid. by rewrite Hd.
  - unfold header_decoded. by destruct h, (_ =? 2).
Qed.

(** The decoder neither panics nor accepts an invalid header. *)
Lemma Header_UnmarshalBinary_cases data :
  (∃ e, Header_UnmarshalBinary data = Err e) ∨
  (∃ h, Header_UnmarshalBinary data = Ok h ∧ header_valid h ∧ header_typed h ∧
        12 <= len data ∧
        ∃ d0 d1 d2 d3 d4 d5 d6 d7 d8 d9 d10 d11 rest,
          data = [d0; d1; d2; d3; d4; d5; d6; d7; d8; d9; d10; d11] ++ rest ∧
          Version_UnmarshalBinary data = Ok (Header_Version h) ∧
          Header_Type h = d1 ∧ Header_SeqNo h = b2z d2 ∧
          Header_Flags h = (if b2z d2 =? 2 then HeaderFlag_Set d3 SingleConnect else d3) ∧
          be_Uint32 [d4; d5; d6; d7] = Ok (Header_SessionID h) ∧
          be_Uint32 [d8; d9; d10; d11] = Ok (Header_Length h)).
Proof.
  unfold Header_UnmarshalBinary. destruct (Z.ltb_spec (len data) MaxHeaderLength) as [|Hlen];
    [left; by eexists|]. unfold MaxHeaderLength in Hlen.
  destruct data as [|d0 [|d1 [|d2 [|d3 [|d4 [|d5 [|d6 [|d7 [|d8 [|d9 [|d10 [|d11 rest]]]]]]]]]]]];
    try (unfold len in Hlen; simpl in Hlen; lia).
  cbn [Version_UnmarshalBinary mbind outcome_bind drop].
  destruct (be_Uint32 (d4 :: d5 :: d6 :: d7 :: _)) as [sid| |] eqn:Esid; [|done|done].
  cbn [mbind outcome_bind].
  destruct (be_Uint32 (d8 :: d9 :: d10 :: d11 :: rest)) as [ln| |] eqn:Eln; [|done|done].
  cbn [mbind outcome_bind].
  set (h := mkHeader _ _ _ _ _ _).
  destruct (Header_Validate h) as [[]|e|] eqn:Hv; [right|left; by eexists|exfalso].
  - exists h. apply Header_Validate_spec in Hv.
    pose proof (b2z_range d2). apply be_Uint32_range in Esid as ?. apply be_Uint32_range in Eln as ?.
    split_and!; try done.
    { unfold header_typed, h; simpl. lia. }
    by exists d0, d1, d2, d3, d4, d5, d6, d7, d8, d9, d10, d11, rest.
  - revert Hv. unfold Header_Validate. apply bind_returns.
    + fields_return.
    + intros _ _. by destruct (_ <? _).
Qed.

Lemma be_Uint32_app b v rest : be_Uint32 b = Ok v → be_Uint32 (b ++ rest) = Ok v.
Proof. by destruct b as [|? [|? [|? [|? ?]]]]. Qed.

Lemma Header_UnmarshalBinary_returns data : returns (Header_UnmarshalBinary data).
Proof. destruct (Header_UnmarshalBinary_cases data) as [[e ->]|(h & -> & _)]; done. Qed.

Lemma Header_UnmarshalBinary_valid data h :
  Header_UnmarshalBinary data = Ok h → header_valid h ∧ header_typed h ∧ 12 <= len data.
Proof.
  intros H. destruct (Header_UnmarshalBinary_cases data) as [[e He]|(h' & He & ? & ? & ? & _)];
    [congruence|]. rewrite H in He. by apply Ok_inj in He as <-.
Qed.

(** Encoding a decoded header gives back the bytes it was decoded from: the
    only byte that may differ is the flag byte of a packet with sequence
    number 2, which gains the single-connect flag. *)
Lemma Header_Marshal_Unmarshal data h :
  Header_UnmarshalBinary data = Ok h →
  ∃ p, Header_MarshalBinary h = Ok p ∧ length p = 12%nat ∧
       take 3 p = take 3 data ∧ drop 4 p = take 8 (drop 4 data) ∧
       (Header_SeqNo h ≠ 2 → p = take 12 data).
Proof.
  intros H. destruct (Header_UnmarshalBinary_cases data)
    as [[e He]|(h' & He & Hv & Ht & _ & d0 & d1 & d2 & d3 & d4 & d5 & d6 & d7 & d8 & d9
                & d10 & d11 & rest & -> & Hver & Htype & Hseq & Hfl & Hsid & Hln)];
    [congruence|].
  rewrite H in He. apply Ok_inj in He as <-.
  destruct (Header_MarshalBinary_valid h Hv) as (v0 & Hv0 & ->).
  destruct Hv as (Hver' & _ & Hrange & _).
  apply Version_Marshal_Unmarshal in Hver; [|done].
  rewrite Hv0 in Hver. apply Ok_inj in Hver as [= ->].
  apply be_Put_Uint32 in Hsid; [|done]. apply be_Put_Uint32 in Hln; [|done].
  rewrite Htype, Hseq, u8_b2z, Hsid, Hln, Hfl.
  eexists. split_and!; try done.
  intros Hne. destruct (Z.eqb_spec (b2z d2) 2); [congruence|done].
Qed.

(** ** The packet *)

Lemma slice_app a b c spare :
  slice (mkSlice (a ++ b ++ c) spare) (len a) (len a + len b) = Ok b.
Proof.
  unfold slice. cbn [sl_elems sl_spare]. rewrite <- !app_assoc, !len_app.
  pose proof (len_nonneg a). pose proof (len_nonneg b). pose proof (len_nonneg c). pose proof (len_nonneg spare).
  destruct (Z.leb_spec 0 (len a)), (Z.leb_spec (len a) (len a + len b)),
    (Z.leb_spec (len a + len b) (len a + (len b + (len c + len spare)))); try lia. simpl.
  rewrite drop_len_app. replace (len a + len b - len a) with (len b) by lia.
  by rewrite take_len_app.
Qed.

Lemma slice_0 a c spare : slice (mkSlice (a ++ c) spare) 0 (len a) = Ok a.
Proof. apply (slice_app [] a c). Qed.

Lemma slice_cases v i j :
  0 <= i <= j →
  let array := sl_elems v ++ sl_spare v in
  (len array < j ∧ slice v i j = Panic) ∨
  (j <= len array ∧ slice v i j = Ok (take (Z.to_nat (j - i)) (drop (Z.to_nat i) array))).
Proof.
  intros Hij. cbv zeta. unfold slice.
  destruct (Z.leb_spec 0 i), (Z.leb_spec i j), (Z.leb_spec j (len (sl_elems v ++ sl_spare v))); simpl;
    (by left) || (by right) || lia.
Qed.

(** A packet whose header announces the length of its body. *)
Definition packet_wf (h : Header) (body : list byte) : Prop :=
  header_typed h ∧ Header_Length h = len body.

Lemma Packet_Unmarshal_Marshal h body b :
  packet_wf h body →
  Packet_MarshalBinary (mkPacket (Some h) (Some body)) = Ok b →
  Packet_UnmarshalBinary (Some (full_slice b)) = Ok (mkPacket (Some (header_decoded h)) (Some body)).
Proof.
  intros [Ht Hl]. unfold Packet_MarshalBinary. cbn [Packet_Header Packet_Body].
  destruct (Z.ltb_spec MaxBodyLength (Header_Length h)); [done|].
  intros Hb. apply bind_ok in Hb as (p & Hp & Hb). apply Ok_inj in Hb as <-.
  pose proof (Header_MarshalBinary_ok _ _ Hp) as [Hv Hlen].
  assert (MaxHeaderLength = len p) as Hm by (unfold len; by rewrite Hlen).
  unfold Packet_UnmarshalBinary, full_slice. rewrite Hm, slice_0. cbn [mbind outcome_bind].
  pose proof (Header_Unmarshal_Marshal h p [] Ht Hp) as Hu. rewrite app_nil_r in Hu.
  rewrite Hu. assert (Header_Length (header_decoded h) = Header_Length h) as ->
    by (unfold header_decoded; by destruct (_ =? 2)).
  destruct (Z.ltb_spec MaxBodyLength (Header_Length h)); [lia|].
  rewrite Hl. pose proof (slice_app p body [] []) as Hs. rewrite app_nil_r in Hs. by rewrite Hs.
Qed.

Lemma Packet_MarshalBinary_valid h body p :
  Packet_MarshalBinary (mkPacket (Some h) (Some body)) = Ok p → header_valid h.
Proof.
  unfold Packet_MarshalBinary. cbn [Packet_Header Packet_Body].
  destruct (MaxBodyLength <? Header_Length h); [done|]. intros Hp.
  apply bind_ok in Hp as (hb & Hm & _). by apply Header_MarshalBinary_ok in Hm as [? _].
Qed.
