(* ===== verification/Codec.v ===== *)
(** The [EncoderDecoder] interface of packet.go, the laws every packet body
    obeys as an encoder and decoder, and the tactics that prove them. *)
From S2P Require Import Prelude.
From S2P Require Import Buffer.
From S2P Require Import HeaderFields.

(** ** The interface *)
Class EncoderDecoder (T : Type) := {
  MarshalBinary : T → outcome (list byte);
  UnmarshalBinary : list byte → outcome T;
  Fields : T → gmap gostring gostring;
}.

(** [Unmarshal(v, &t)]; the callers never pass a nil [t]. *)
Definition Unmarshal {T} `{EncoderDecoder T} (v : list byte) : outcome T := UnmarshalBinary v.

(** What one component promises about a packet body to the others: a body
    whose strings fit their length fields decodes to itself, from its encoding
    and whatever follows it; the decoder never panics; and an accepted body is
    encodable, by the bytes it was read from if it is [canonical]. *)
Class Codec (T : Type) `{EncoderDecoder T} := {
  encodable : T → Prop;
  canonical : list byte → Prop;
  codec_roundtrip a p rest :
    encodable a → MarshalBinary a = Ok p → UnmarshalBinary (p ++ rest) = Ok a;
  codec_returns data : returns (UnmarshalBinary (T := T) data);
  codec_accepted data a :
    UnmarshalBinary data = Ok a →
    encodable a ∧ ∃ p, MarshalBinary a = Ok p ∧
      (canonical data → ∃ rest, data = p ++ rest);
}.

(** Encoding is injective on encodable bodies. *)
Lemma codec_injective {T} `{Codec T} (a b : T) p :
  encodable a → encodable b →
  MarshalBinary a = Ok p → MarshalBinary b = Ok p → a = b.
Proof.
  intros Ha Hb Hpa Hpb.
  apply (codec_roundtrip a p []) in Hpa; [|done].
  apply (codec_roundtrip b p []) in Hpb; [|done]. congruence.
Qed.

(** Decoding after encoding after decoding changes nothing. *)
Lemma codec_stable {T} `{Codec T} data (a : T) :
  UnmarshalBinary data = Ok a →
  ∃ p, MarshalBinary a = Ok p ∧ UnmarshalBinary p = Ok a.
Proof.
  intros (He & p & Hp & _)%codec_accepted. exists p. split; [done|].
  pose proof (codec_roundtrip a p [] He Hp) as Hr. by rewrite app_nil_r in Hr.
Qed.

(** The decoder accepts exactly the encodings of encodable bodies, whatever
    follows them. *)
Lemma codec_exact {T} `{Codec T} data (a : T) :
  canonical data →
  UnmarshalBinary data = Ok a ↔
  encodable a ∧ ∃ p rest, MarshalBinary a = Ok p ∧ data = p ++ rest.
Proof.
  intros Hc. split.
  - intros (He & p & Hp & Hd)%codec_accepted. destruct (Hd Hc) as [rest ->].
    split; [done|]. by exists p, rest.
  - intros (He & p & rest & Hp & ->). by apply codec_roundtrip.
Qed.

(** An encoding is read back as what was encoded only if that was encodable. *)
Lemma codec_readback {T} `{Codec T} (a : T) p :
  MarshalBinary a = Ok p → UnmarshalBinary p = Ok a ↔ encodable a.
Proof.
  intros Hp. split; [by intros (He & _)%codec_accepted|].
  intros He. pose proof (codec_roundtrip a p [] He Hp) as Hr. by rewrite app_nil_r in Hr.
Qed.

(** ** Tactics *)
Create HintDb codec discriminated.


(** A string fits a one-byte, or a two-byte, length field. *)
Definition fits8 (s : gostring) : Prop := len s < 256.
Definition fits16 (s : gostring) : Prop := len s < 65536.

Ltac fits :=
  unfold fits8, fits16 in *;
  repeat match goal with
         | H : len ?s < _ |- _ =>
           lazymatch goal with
           | _ : 0 <= len s |- _ => fail
           | _ => pose proof (len_nonneg s)
           end
         end; lia.

(** Runs a cursor over bytes that were appended field by field. *)
Ltac read_back :=
  unfold mbind, reader_bind, mret, reader_ret;
  repeat first
    [ rewrite readBuffer_int_u8 by fits
    | rewrite readBuffer_uint16_app by fits
    | rewrite read_ints_app by assumption
    | rewrite read_strings_app
    | rewrite readBuffer_string_app ].

(** The bytes at hand are enough for the minimum length. *)
Ltac len_enough :=
  match goal with
  | |- context [len ?l <? ?n] =>
    replace (len l <? n) with false by (symmetry; apply Z.ltb_ge; len_lia)
  end.

Ltac head_of t := lazymatch t with ?f _ => head_of f | _ => t end.

(** A byte slice of at least [n] bytes starts with [n] bytes; [data]
    becomes the rest. *)
Ltac take_bytes H data n :=
  lazymatch n with
  | O => idtac
  | S ?m =>
    let d := fresh "d" in
    destruct data as [|d data];
    [exfalso; clear -H; unfold len in H; simpl in H; lia | take_bytes H data m]
  end.

Lemma u16_nonneg d0 d1 : 0 <= Z.lor (Z.shiftl (b2z d0) 8) (b2z d1).
Proof. by destruct (uint16_bytes d0 d1 _ eq_refl) as [? _]; lia. Qed.

(** Runs the cursor program of the goal, keeping for each [readBuffer_string]
    how it splits the buffer; ends with the result as an equation. *)
Ltac run_reader :=
  match goal with
  | |- context [let '(_, _) := ?m in _] =>
    let a := fresh "a" in let n := fresh "n" in let E := fresh "E" in
    destruct m as [a n] eqn:E; revert E
  end;
  match goal with |- fst (?f _) = _ → _ => 
    let g := head_of f in unfold g, mbind, reader_bind, mret, reader_ret; cbn end;
  repeat match goal with
  | |- context [readBuffer_string ?n ?b] =>
    let s := fresh "s" in let r := fresh "r" in let E := fresh "E" in
    destruct (readBuffer_string n b) as [s r] eqn:E;
    apply readBuffer_string_split in E as [-> E];
    [|by first [apply b2z_range | apply u16_nonneg]]
  | |- context [read_ints ?n ?b] =>
    let ns := fresh "ns" in let r := fresh "r" in let E := fresh "Eints" in
    destruct (read_ints n b) as [ns r] eqn:E;
    pose proof (read_ints_nonneg _ _ _ _ E)
  | |- context [read_strings ?ns ?b] =>
    let ss := fresh "args" in let r := fresh "r" in let E := fresh "Eargs" in
    destruct (read_strings ns b) as [ss r] eqn:E;
    apply read_strings_split in E as [-> E]; [|done]
  end;
  intros [= <- <-].

Lemma u8_len_b2z (s : gostring) b : len s = b2z b → u8 (len s) = b.
Proof. intros ->. apply u8_b2z. Qed.

Lemma fits8_b2z (s : gostring) b : len s = b2z b → fits8 s.
Proof. unfold fits8. intros ->. apply b2z_range. Qed.

#[export] Hint Resolve fits8_b2z : codec.

(** The same for a two-byte length field. *)
Lemma u16_len_bytes (s : gostring) d0 d1 :
  len s = Z.lor (Z.shiftl (b2z d0) 8) (b2z d1) →
  fits16 s ∧ u8 (Z.shiftr (len s) 8) = d0 ∧ u8 (len s) = d1.
Proof. unfold fits16. intros H%uint16_bytes. naive_solver lia. Qed.
