(* ===== verification/Authenticate.v ===== *)
(** The authentication packet bodies, authenticate.go: [AuthenStart],
    [AuthenContinue] and [AuthenReply], with their validation, encoding and
    decoding. *)
From S2P Require Import Prelude.
From S2P Require Import Buffer.
From S2P Require Import HeaderFields.
From S2P Require Import AuthenFields.
From S2P Require Import Codec.

(** ** AuthenStart *)
Definition AuthenStartLen : Z := 8.

Record AuthenStart := mkAuthenStart {
  AuthenStart_Action : AuthenAction;
  AuthenStart_PrivLvl : PrivLvl;
  AuthenStart_Type : AuthenType;
  AuthenStart_Service : AuthenService;
  AuthenStart_User : AuthenUser;
  AuthenStart_Port : AuthenPort;
  AuthenStart_RemAddr : AuthenRemAddr;
  AuthenStart_Data : AuthenData;
}.

#[export] Instance AuthenStart_eq_dec : EqDecision AuthenStart.
Proof. solve_decision. Defined.

(** The options of [NewAuthenStart]. *)
Definition AuthenStartOption : Type := AuthenStart → AuthenStart.
Definition SetAuthenStartAction (v : AuthenAction) : AuthenStartOption := λ a,
  mkAuthenStart v (AuthenStart_PrivLvl a) (AuthenStart_Type a) (AuthenStart_Service a)
    (AuthenStart_User a) (AuthenStart_Port a) (AuthenStart_RemAddr a) (AuthenStart_Data a).
Definition SetAuthenStartPrivLvl (v : PrivLvl) : AuthenStartOption := λ a,
  mkAuthenStart (AuthenStart_Action a) v (AuthenStart_Type a) (AuthenStart_Service a)
    (AuthenStart_User a) (AuthenStart_Port a) (AuthenStart_RemAddr a) (AuthenStart_Data a).
Definition SetAuthenStartType (v : AuthenType) : AuthenStartOption := λ a,
  mkAuthenStart (AuthenStart_Action a) (AuthenStart_PrivLvl a) v (AuthenStart_Service a)
    (AuthenStart_User a) (AuthenStart_Port a) (AuthenStart_RemAddr a) (AuthenStart_Data a).
Definition SetAuthenStartService (v : AuthenService) : AuthenStartOption := λ a,
  mkAuthenStart (AuthenStart_Action a) (AuthenStart_PrivLvl a) (AuthenStart_Type a) v
    (AuthenStart_User a) (AuthenStart_Port a) (AuthenStart_RemAddr a) (AuthenStart_Data a).
Definition SetAuthenStartUser (v : AuthenUser) : AuthenStartOption := λ a,
  mkAuthenStart (AuthenStart_Action a) (AuthenStart_PrivLvl a) (AuthenStart_Type a)
    (AuthenStart_Service a) v (AuthenStart_Port a) (AuthenStart_RemAddr a) (AuthenStart_Data a).
Definition SetAuthenStartPort (v : AuthenPort) : AuthenStartOption := λ a,
  mkAuthenStart (AuthenStart_Action a) (AuthenStart_PrivLvl a) (AuthenStart_Type a)
    (AuthenStart_Service a) (AuthenStart_User a) v (AuthenStart_RemAddr a) (AuthenStart_Data a).
Definition SetAuthenStartRemAddr (v : AuthenRemAddr) : AuthenStartOption := λ a,
  mkAuthenStart (AuthenStart_Action a) (AuthenStart_PrivLvl a) (AuthenStart_Type a)
    (AuthenStart_Service a) (AuthenStart_User a) (AuthenStart_Port a) v (AuthenStart_Data a).
Definition SetAuthenStartData (v : AuthenData) : AuthenStartOption := λ a,
  mkAuthenStart (AuthenStart_Action a) (AuthenStart_PrivLvl a) (AuthenStart_Type a)
    (AuthenStart_Service a) (AuthenStart_User a) (AuthenStart_Port a) (AuthenStart_RemAddr a) v.

Definition NewAuthenStart (opts : list AuthenStartOption) : AuthenStart :=
  foldl (λ a opt, opt a) (mkAuthenStart x00 x00 x00 x00 [] [] [] []) opts.

Definition AuthenStart_Validate (a : AuthenStart) : outcome unit :=
  if decide (AuthenStart_Type a = AuthenTypeNotSet) then
    Err (Errorf "bad value for AuthenType; AuthenTypeNotSet not allowed for AuthenStart packets")
  else
    validate_fields (CondAuthenType (AuthenStart_Type a))
      [AuthenAction_Field (AuthenStart_Action a); PrivLvl_Field (AuthenStart_PrivLvl a);
       AuthenType_Field (AuthenStart_Type a); AuthenService_Field (AuthenStart_Service a);
       AuthenUser_Field (AuthenStart_User a); AuthenPort_Field (AuthenStart_Port a);
       AuthenRemAddr_Field (AuthenStart_RemAddr a); AuthenData_Field (AuthenStart_Data a)].

Definition AuthenStart_MarshalBinary (a : AuthenStart) : outcome (list byte) :=
  AuthenStart_Validate a ;;
  Ok ([AuthenStart_Action a; AuthenStart_PrivLvl a; AuthenStart_Type a; AuthenStart_Service a;
       u8 (AuthenUser_Len (AuthenStart_User a)); u8 (AuthenPort_Len (AuthenStart_Port a));
       u8 (AuthenRemAddr_Len (AuthenStart_RemAddr a)); u8 (AuthenData_Len (AuthenStart_Data a))] ++
      AuthenStart_User a ++ AuthenStart_Port a ++ AuthenStart_RemAddr a ++ AuthenStart_Data a).

Definition AuthenStart_Len (a : AuthenStart) : Z :=
  AuthenUser_Len (AuthenStart_User a) + AuthenPort_Len (AuthenStart_Port a) +
  AuthenRemAddr_Len (AuthenStart_RemAddr a) + AuthenData_Len (AuthenStart_Data a).

(** The cursor over [data[4:]]: the body, and the length it announces. *)
Definition AuthenStart_read (d0 d1 d2 d3 : byte) : reader (AuthenStart * Z) :=
  userLen ← readBuffer_int;
  portLen ← readBuffer_int;
  remAddrLen ← readBuffer_int;
  dataLen ← readBuffer_int;
  user ← readBuffer_string userLen;
  port ← readBuffer_string portLen;
  remAddr ← readBuffer_string remAddrLen;
  data ← readBuffer_string dataLen;
  mret (mkAuthenStart d0 d1 d2 d3 user port remAddr data,
        userLen + portLen + remAddrLen + dataLen).

Definition AuthenStart_UnmarshalBinary (data : list byte) : outcome AuthenStart :=
  if len data <? AuthenStartLen then
    Err (Errorf "authenStart size [%v] is too small for the minimum size [%v]")
  else match data with
  | d0 :: d1 :: d2 :: d3 :: rest4 =>
    let '(a, announced) := (AuthenStart_read d0 d1 d2 d3 rest4).1 in
    if negb (AuthenStart_Len a =? announced) then
      Err (BadSecretErr "bad secret detected authenstart")
    else
      AuthenStart_Validate a ;; Ok a
  | _ => Panic
  end.

Definition AuthenStart_Fields (a : AuthenStart) : gmap gostring gostring :=
  list_to_map
    [(str "packet-type", str "AuthenStart");
     (str "action", AuthenAction_String (AuthenStart_Action a));
     (str "priv-lvl", PrivLvl_String (AuthenStart_PrivLvl a));
     (str "type", AuthenType_String (AuthenStart_Type a));
     (str "service", AuthenService_String (AuthenStart_Service a));
     (str "user", AuthenUser_String (AuthenStart_User a));
     (str "port", AuthenPort_String (AuthenStart_Port a));
     (str "rem-addr", AuthenRemAddr_String (AuthenStart_RemAddr a));
     (str "data", AuthenData_String (AuthenStart_Data a))].

#[export] Instance AuthenStart_EncoderDecoder : EncoderDecoder AuthenStart := {
  MarshalBinary := AuthenStart_MarshalBinary;
  UnmarshalBinary := AuthenStart_UnmarshalBinary;
  Fields := AuthenStart_Fields;
}.

(** Every string fits its one-byte length field. *)
Definition AuthenStart_fits (a : AuthenStart) : Prop :=
  fits8 (AuthenStart_User a) ∧ fits8 (AuthenStart_Port a) ∧
  fits8 (AuthenStart_RemAddr a) ∧ fits8 (AuthenStart_Data a).

Lemma AuthenStart_roundtrip_gen a p rest :
  AuthenStart_fits a → AuthenStart_MarshalBinary a = Ok p →
  AuthenStart_UnmarshalBinary (p ++ rest) = Ok a.
Proof.
  destruct a as [act pl ty sv user port addr dat].
  intros (Hu & Hp & Hr & Hd) Hm. simpl in *.
  apply bind_ok in Hm as ([] & Hv & Hm). apply Ok_inj in Hm as <-.
  unfold AuthenStart_UnmarshalBinary, AuthenStartLen. cbn. len_enough.
  unfold AuthenStart_read. rewrite <- !app_assoc.
  unfold AuthenUser_Len, AuthenPort_Len, AuthenRemAddr_Len, AuthenData_Len.
  read_back. cbn. rewrite Z.eqb_refl. cbn. by rewrite Hv.
Qed.

Lemma AuthenStart_accepted data a :
  AuthenStart_UnmarshalBinary data = Ok a →
  AuthenStart_fits a ∧ ∃ p, AuthenStart_MarshalBinary a = Ok p ∧
    (True → ∃ rest, data = p ++ rest).
Proof.
  unfold AuthenStart_UnmarshalBinary.
  destruct (Z.ltb_spec (len data) AuthenStartLen) as [|Hlen]; [done|].
  unfold AuthenStartLen in Hlen. take_bytes Hlen data 8%nat.
  run_reader. unfold AuthenStart_Len. cbn.
  unfold AuthenUser_Len, AuthenPort_Len, AuthenRemAddr_Len, AuthenData_Len.
  match goal with |- context [?x =? ?y] => destruct (Z.eqb_spec x y) as [Hsum|] end; [|done].
  cbn. intros H. apply bind_ok in H as ([] & Hv & H). apply Ok_inj in H as <-.
  assert (len s = b2z d3 ∧ len s0 = b2z d4 ∧ len s1 = b2z d5 ∧ len s2 = b2z d6)
    as (H1 & H2 & H3 & H4) by lia.
  split; [by split_and!; eauto with codec|].
  unfold AuthenStart_MarshalBinary. rewrite Hv. cbn. eexists. split; [done|].
  intros _. eexists. cbn.
  unfold AuthenUser_Len, AuthenPort_Len, AuthenRemAddr_Len, AuthenData_Len.
  rewrite (u8_len_b2z _ _ H1), (u8_len_b2z _ _ H2), (u8_len_b2z _ _ H3), (u8_len_b2z _ _ H4).
  by rewrite <- !app_assoc.
Qed.

Lemma AuthenStart_Validate_returns a : returns (AuthenStart_Validate a).
Proof. unfold AuthenStart_Validate. case_decide; [done|]. fields_return. Qed.

Lemma AuthenStart_UnmarshalBinary_returns data : returns (AuthenStart_UnmarshalBinary data).
Proof.
  unfold AuthenStart_UnmarshalBinary, AuthenStartLen.
  destruct (Z.ltb_spec (len data) 8) as [|Hlen]; [done|]. take_bytes Hlen data 8%nat.
  run_reader. case_match; [done|].
  apply bind_returns; [apply AuthenStart_Validate_returns|done].
Qed.

#[export] Instance AuthenStart_Codec : Codec AuthenStart := {
  encodable := AuthenStart_fits;
  canonical _ := True;
  codec_roundtrip := AuthenStart_roundtrip_gen;
  codec_returns := AuthenStart_UnmarshalBinary_returns;
  codec_accepted := AuthenStart_accepted;
}.

(** ** AuthenContinue *)
Definition AuthenContinueLen : Z := 5.

Record AuthenContinue := mkAuthenContinue {
  AuthenContinue_Flags : AuthenContinueFlag;
  AuthenContinue_UserMessage : AuthenUserMessage;
  AuthenContinue_Data : AuthenData;
}.

#[export] Instance AuthenContinue_eq_dec : EqDecision AuthenContinue.
Proof. solve_decision. Defined.

(** The options of [NewAuthenContinue]. *)
Definition AuthenContinueOption : Type := AuthenContinue → AuthenContinue.
Definition SetAuthenContinueFlag (v : AuthenContinueFlag) : AuthenContinueOption := λ a,
  mkAuthenContinue v (AuthenContinue_UserMessage a) (AuthenContinue_Data a).
Definition SetAuthenContinueUserMessage (v : AuthenUserMessage) : AuthenContinueOption := λ a,
  mkAuthenContinue (AuthenContinue_Flags a) v (AuthenContinue_Data a).
Definition SetAuthenContinueData (v : AuthenData) : AuthenContinueOption := λ a,
  mkAuthenContinue (AuthenContinue_Flags a) (AuthenContinue_UserMessage a) v.

Definition NewAuthenContinue (opts : list AuthenContinueOption) : AuthenContinue :=
  foldl (λ a opt, opt a) (mkAuthenContinue x00 [] []) opts.

Definition AuthenContinue_Validate (a : AuthenContinue) : outcome unit :=
  validate_fields CondNil
    [AuthenUserMessage_Field (AuthenContinue_UserMessage a);
     AuthenData_Field (AuthenContinue_Data a)].

#[global] Arguments AuthenContinue_Validate : simpl never.

Definition AuthenContinue_MarshalBinary (a : AuthenContinue) : outcome (list byte) :=
  AuthenContinue_Validate a ;;
  let buf := [] in
  let buf := appendUint16 buf (AuthenUserMessage_Len (AuthenContinue_UserMessage a)) in
  let buf := appendUint16 buf (AuthenData_Len (AuthenContinue_Data a)) in
  let buf := buf ++ [AuthenContinue_Flags a] in
  Ok (buf ++ AuthenContinue_UserMessage a ++ AuthenContinue_Data a).

Definition AuthenContinue_Len (a : AuthenContinue) : Z :=
  AuthenUserMessage_Len (AuthenContinue_UserMessage a) + AuthenData_Len (AuthenContinue_Data a).

Definition AuthenContinue_read : reader (AuthenContinue * Z) :=
  userMessageLen ← readBuffer_uint16;
  dataLen ← readBuffer_uint16;
  flags ← readBuffer_byte;
  userMessage ← readBuffer_string userMessageLen;
  data ← readBuffer_string dataLen;
  mret (mkAuthenContinue flags userMessage data, userMessageLen + dataLen).

Definition AuthenContinue_UnmarshalBinary (data : list byte) : outcome AuthenContinue :=
  if len data <? AuthenContinueLen then
    Err (Errorf "authenContinue size [%v] is too small for the minimum size [%v]")
  else
    let '(a, announced) := (AuthenContinue_read data).1 in
    if negb (AuthenContinue_Len a =? announced) then
      Err (BadSecretErr "bad secret detected authencontinue")
    else
      AuthenContinue_Validate a ;; Ok a.

Definition AuthenContinue_Fields (a : AuthenContinue) : gmap gostring gostring :=
  list_to_map
    [(str "packet-type", str "AuthenContinue");
     (str "flags", AuthenContinueFlag_String (AuthenContinue_Flags a));
     (str "user-msg", AuthenUserMessage_String (AuthenContinue_UserMessage a));
     (str "data", AuthenData_String (AuthenContinue_Data a))].

#[export] Instance AuthenContinue_EncoderDecoder : EncoderDecoder AuthenContinue := {
  MarshalBinary := AuthenContinue_MarshalBinary;
  UnmarshalBinary := AuthenContinue_UnmarshalBinary;
  Fields := AuthenContinue_Fields;
}.

Definition AuthenContinue_fits (a : AuthenContinue) : Prop :=
  fits16 (AuthenContinue_UserMessage a) ∧ fits16 (AuthenContinue_Data a).

Lemma AuthenContinue_roundtrip_gen a p rest :
  AuthenContinue_fits a → AuthenContinue_MarshalBinary a = Ok p →
  AuthenContinue_UnmarshalBinary (p ++ rest) = Ok a.
Proof.
  destruct a as [fl msg dat]. intros (Hm & Hd) Hp. simpl in *.
  apply bind_ok in Hp as ([] & Hv & Hp). apply Ok_inj in Hp as <-.
  unfold AuthenContinue_UnmarshalBinary, AuthenContinueLen. cbn. len_enough.
  unfold AuthenContinue_read. rewrite <- !app_assoc.
  unfold AuthenUserMessage_Len, AuthenData_Len.
  read_back. cbn [readBuffer_byte]. read_back. cbn. unfold AuthenContinue_Len. cbn.
  rewrite Z.eqb_refl. cbn. by rewrite Hv.
Qed.

Lemma AuthenContinue_accepted data a :
  AuthenContinue_UnmarshalBinary data = Ok a →
  AuthenContinue_fits a ∧ ∃ p, AuthenContinue_MarshalBinary a = Ok p ∧
    (True → ∃ rest, data = p ++ rest).
Proof.
  unfold AuthenContinue_UnmarshalBinary.
  destruct (Z.ltb_spec (len data) AuthenContinueLen) as [|Hlen]; [done|].
  unfold AuthenContinueLen in Hlen. take_bytes Hlen data 5%nat.
  run_reader. unfold AuthenContinue_Len. cbn. unfold AuthenUserMessage_Len, AuthenData_Len.
  match goal with |- context [?x =? ?y] => destruct (Z.eqb_spec x y) as [Hsum|] end; [|done].
  cbn. intros H. apply bind_ok in H as ([] & Hv & H). apply Ok_inj in H as <-.
  destruct (u16_len_bytes s d d0) as (? & H1 & H2); [lia|].
  destruct (u16_len_bytes s0 d1 d2) as (? & H3 & H4); [lia|].
  split; [done|].
  unfold AuthenContinue_MarshalBinary. rewrite Hv. cbn. eexists. split; [done|].
  intros _. eexists. cbn. unfold AuthenUserMessage_Len, AuthenData_Len.
  rewrite H1, H2, H3, H4. by rewrite <- !app_assoc.
Qed.

Lemma AuthenContinue_UnmarshalBinary_returns data :
  returns (AuthenContinue_UnmarshalBinary data).
Proof.
  unfold AuthenContinue_UnmarshalBinary. case_match; [done|].
  destruct (AuthenContinue_read data).1 as [a n]. case_match; [done|].
  apply bind_returns; [unfold AuthenContinue_Validate; fields_return|done].
Qed.

#[export] Instance AuthenContinue_Codec : Codec AuthenContinue := {
  encodable := AuthenContinue_fits;
  canonical _ := True;
  codec_roundtrip := AuthenContinue_roundtrip_gen;
  codec_returns := AuthenContinue_UnmarshalBinary_returns;
  codec_accepted := AuthenContinue_accepted;
}.

(** ** AuthenReply *)

(** The declared minimum; the fixed part is really six bytes long. *)
Definition AuthenReplyLen : Z := 5.

Record AuthenReply := mkAuthenReply {
  AuthenReply_Status : AuthenStatus;
  AuthenReply_Flags : AuthenReplyFlag;
  AuthenReply_ServerMsg : AuthenServerMsg;
  AuthenReply_Data : AuthenData;
}.

#[export] Instance AuthenReply_eq_dec : EqDecision AuthenReply.
Proof. solve_decision. Defined.

(** The options of [NewAuthenReply]. *)
Definition AuthenReplyOption : Type := AuthenReply → AuthenReply.
Definition SetAuthenReplyStatus (v : AuthenStatus) : AuthenReplyOption := λ a,
  mkAuthenReply v (AuthenReply_Flags a) (AuthenReply_ServerMsg a) (AuthenReply_Data a).
Definition SetAuthenReplyFlag (v : AuthenReplyFlag) : AuthenReplyOption := λ a,
  mkAuthenReply (AuthenReply_Status a) v (AuthenReply_ServerMsg a) (AuthenReply_Data a).
Definition SetAuthenReplyServerMsg (v : gostring) : AuthenReplyOption := λ a,
  mkAuthenReply (AuthenReply_Status a) (AuthenReply_Flags a) v (AuthenReply_Data a).
Definition SetAuthenReplyData (v : AuthenData) : AuthenReplyOption := λ a,
  mkAuthenReply (AuthenReply_Status a) (AuthenReply_Flags a) (AuthenReply_ServerMsg a) v.

Definition NewAuthenReply (opts : list AuthenReplyOption) : AuthenReply :=
  foldl (λ a opt, opt a) (mkAuthenReply x00 x00 [] []) opts.

Definition AuthenReply_Validate (a : AuthenReply) : outcome unit :=
  validate_fields CondNil [AuthenStatus_Field (AuthenReply_Status a)].
#[global] Arguments AuthenReply_Validate : simpl never.

Definition AuthenReply_MarshalBinary (a : AuthenReply) : outcome (list byte) :=
  AuthenReply_Validate a ;;
  let buf := [AuthenReply_Status a; AuthenReply_Flags a] in
  let buf := appendUint16 buf (AuthenServerMsg_Len (AuthenReply_ServerMsg a)) in
  let buf := appendUint16 buf (AuthenData_Len (AuthenReply_Data a)) in
  Ok (buf ++ AuthenReply_ServerMsg a ++ AuthenReply_Data a).

Definition AuthenReply_Len (a : AuthenReply) : Z :=
  AuthenServerMsg_Len (AuthenReply_ServerMsg a) + AuthenData_Len (AuthenReply_Data a).

Definition AuthenReply_read (d0 d1 : byte) : reader (AuthenReply * Z) :=
  serverMsgLen ← readBuffer_uint16;
  dataLen ← readBuffer_uint16;
  serverMsg ← readBuffer_string serverMsgLen;
  data ← readBuffer_string dataLen;
  mret (mkAuthenReply d0 d1 serverMsg data, serverMsgLen + dataLen).

Definition AuthenReply_UnmarshalBinary (data : list byte) : outcome AuthenReply :=
  if len data <? AuthenReplyLen then
    Err (Errorf "authenReply size [%v] is too small for the minimum size [%v]")
  else match data with
  | d0 :: d1 :: rest2 =>
    let '(a, announced) := (AuthenReply_read d0 d1 rest2).1 in
    if negb (AuthenReply_Len a =? announced) then
      Err (BadSecretErr "bad secret detected authenreply")
    else
      AuthenReply_Validate a ;; Ok a
  | _ => Panic
  end.

Definition AuthenReply_Fields (a : AuthenReply) : gmap gostring gostring :=
  list_to_map
    [(str "packet-type", str "AuthenReply");
     (str "status", AuthenStatus_String (AuthenReply_Status a));
     (str "flags", AuthenReplyFlag_String (AuthenReply_Flags a));
     (str "server-msg", AuthenServerMsg_String (AuthenReply_ServerMsg a));
     (str "data", AuthenData_String (AuthenReply_Data a))].

#[export] Instance AuthenReply_EncoderDecoder : EncoderDecoder AuthenReply := {
  MarshalBinary := AuthenReply_MarshalBinary;
  UnmarshalBinary := AuthenReply_UnmarshalBinary;
  Fields := AuthenReply_Fields;
}.

Definition AuthenReply_fits (a : AuthenReply) : Prop :=
  fits16 (AuthenReply_ServerMsg a) ∧ fits16 (AuthenReply_Data a).

Lemma AuthenReply_roundtrip_gen a p rest :
  AuthenReply_fits a → AuthenReply_MarshalBinary a = Ok p →
  AuthenReply_UnmarshalBinary (p ++ rest) = Ok a.
Proof.
  destruct a as [st fl msg dat]. intros (Hm & Hd) Hp. simpl in *.
  apply bind_ok in Hp as ([] & Hv & Hp). apply Ok_inj in Hp as <-.
  unfold AuthenReply_UnmarshalBinary, AuthenReplyLen. cbn. len_enough.
  unfold AuthenReply_read. rewrite <- !app_assoc.
  unfold AuthenServerMsg_Len, AuthenData_Len.
  read_back. cbn. unfold AuthenReply_Len. cbn.
  rewrite Z.eqb_refl. cbn. by rewrite Hv.
Qed.

(** A five-byte body is read as six bytes, the last one missing: it is
    accepted when its three last bytes are zero, and re-encodes as six bytes. *)
Lemma AuthenReply_accepted data a :
  AuthenReply_UnmarshalBinary data = Ok a →
  AuthenReply_fits a ∧ ∃ p, AuthenReply_MarshalBinary a = Ok p ∧
    (6 <= len data → ∃ rest, data = p ++ rest).
Proof.
  unfold AuthenReply_UnmarshalBinary.
  destruct (Z.ltb_spec (len data) AuthenReplyLen) as [|Hlen]; [done|].
  unfold AuthenReplyLen in Hlen. take_bytes Hlen data 5%nat.
  destruct data as [|d4 data].
  - unfold AuthenReply_read, mbind, reader_bind, mret, reader_ret, AuthenReply_Len. cbn.
    rewrite !readBuffer_string_nil. cbn.
    match goal with |- context [?x =? ?y] => destruct (Z.eqb_spec x y) as [Hsum|] end; [|done].
    cbn. intros H. apply bind_ok in H as ([] & Hv & H). apply Ok_inj in H as <-.
    split; [done|]. unfold AuthenReply_MarshalBinary. rewrite Hv. cbn. eexists. split; [done|].
    rewrite !len_cons, len_nil. lia.
  - run_reader. unfold AuthenReply_Len. cbn. unfold AuthenServerMsg_Len, AuthenData_Len.
    match goal with |- context [?x =? ?y] => destruct (Z.eqb_spec x y) as [Hsum|] end; [|done].
    cbn. intros H. apply bind_ok in H as ([] & Hv & H). apply Ok_inj in H as <-.
    destruct (u16_len_bytes s d1 d2) as (? & H1 & H2); [lia|].
    destruct (u16_len_bytes s0 d3 d4) as (? & H3 & H4); [lia|].
    split; [done|].
    unfold AuthenReply_MarshalBinary. rewrite Hv. cbn. eexists. split; [done|].
    intros _. eexists. cbn. unfold AuthenServerMsg_Len, AuthenData_Len.
    rewrite H1, H2, H3, H4. by rewrite <- !app_assoc.
Qed.

Lemma AuthenReply_UnmarshalBinary_returns data :
  returns (AuthenReply_UnmarshalBinary data).
Proof.
  unfold AuthenReply_UnmarshalBinary, AuthenReplyLen.
  destruct (Z.ltb_spec (len data) 5) as [|Hlen]; [done|]. take_bytes Hlen data 5%nat.
  destruct (AuthenReply_read d d0 _).1 as [a n]. case_match; [done|].
  apply bind_returns; [unfold AuthenReply_Validate; fields_return|done].
Qed.

#[export] Instance AuthenReply_Codec : Codec AuthenReply := {
  encodable := AuthenReply_fits;
  canonical data := 6 <= len data;
  codec_roundtrip := AuthenReply_roundtrip_gen;
  codec_returns := AuthenReply_UnmarshalBinary_returns;
  codec_accepted := AuthenReply_accepted;
}.
