(* ===== verification/Authorize.v ===== *)
(** The authorization packet bodies, authorize.go: [AuthorRequest] and
    [AuthorReply]. *)
From S2P Require Import Prelude.
From S2P Require Import Buffer.
From S2P Require Import HeaderFields.
From S2P Require Import AuthenFields.
From S2P Require Import AuthorFields.
From S2P Require Import Args.
From S2P Require Import Codec.

(** ** AuthorRequest *)
Definition AuthorRequestLen : Z := 8.

Record AuthorRequest := mkAuthorRequest {
  AuthorRequest_Method : AuthenMethod;
  AuthorRequest_PrivLvl : PrivLvl;
  AuthorRequest_Type : AuthenType;
  AuthorRequest_Service : AuthenService;
  AuthorRequest_User : AuthenUser;
  AuthorRequest_Port : AuthenPort;
  AuthorRequest_RemAddr : AuthenRemAddr;
  AuthorRequest_Args : Args;
}.

#[export] Instance AuthorRequest_eq_dec : EqDecision AuthorRequest.
Proof. solve_decision. Defined.

(** The options of [NewAuthorRequest]. *)
Definition AuthorRequestOption : Type := AuthorRequest → AuthorRequest.
Definition SetAuthorRequestMethod (v : AuthenMethod) : AuthorRequestOption := λ a,
  mkAuthorRequest v (AuthorRequest_PrivLvl a) (AuthorRequest_Type a) (AuthorRequest_Service a)
    (AuthorRequest_User a) (AuthorRequest_Port a) (AuthorRequest_RemAddr a) (AuthorRequest_Args a).
Definition SetAuthorRequestPrivLvl (v : PrivLvl) : AuthorRequestOption := λ a,
  mkAuthorRequest (AuthorRequest_Method a) v (AuthorRequest_Type a) (AuthorRequest_Service a)
    (AuthorRequest_User a) (AuthorRequest_Port a) (AuthorRequest_RemAddr a) (AuthorRequest_Args a).
Definition SetAuthorRequestType (v : AuthenType) : AuthorRequestOption := λ a,
  mkAuthorRequest (AuthorRequest_Method a) (AuthorRequest_PrivLvl a) v (AuthorRequest_Service a)
    (AuthorRequest_User a) (AuthorRequest_Port a) (AuthorRequest_RemAddr a) (AuthorRequest_Args a).
Definition SetAuthorRequestService (v : AuthenService) : AuthorRequestOption := λ a,
  mkAuthorRequest (AuthorRequest_Method a) (AuthorRequest_PrivLvl a) (AuthorRequest_Type a) v
    (AuthorRequest_User a) (AuthorRequest_Port a) (AuthorRequest_RemAddr a) (AuthorRequest_Args a).
Definition SetAuthorRequestUser (v : AuthenUser) : AuthorRequestOption := λ a,
  mkAuthorRequest (AuthorRequest_Method a) (AuthorRequest_PrivLvl a) (AuthorRequest_Type a)
    (AuthorRequest_Service a) v (AuthorRequest_Port a) (AuthorRequest_RemAddr a)
    (AuthorRequest_Args a).
Definition SetAuthorRequestPort (v : AuthenPort) : AuthorRequestOption := λ a,
  mkAuthorRequest (AuthorRequest_Method a) (AuthorRequest_PrivLvl a) (AuthorRequest_Type a)
    (AuthorRequest_Service a) (AuthorRequest_User a) v (AuthorRequest_RemAddr a)
    (AuthorRequest_Args a).
Definition SetAuthorRequestRemAddr (v : AuthenRemAddr) : AuthorRequestOption := λ a,
  mkAuthorRequest (AuthorRequest_Method a) (AuthorRequest_PrivLvl a) (AuthorRequest_Type a)
    (AuthorRequest_Service a) (AuthorRequest_User a) (AuthorRequest_Port a) v
    (AuthorRequest_Args a).
Definition SetAuthorRequestArgs (v : Args) : AuthorRequestOption := λ a,
  mkAuthorRequest (AuthorRequest_Method a) (AuthorRequest_PrivLvl a) (AuthorRequest_Type a)
    (AuthorRequest_Service a) (AuthorRequest_User a) (AuthorRequest_Port a)
    (AuthorRequest_RemAddr a) v.

Definition NewAuthorRequest (opts : list AuthorRequestOption) : AuthorRequest :=
  foldl (λ a opt, opt a) (mkAuthorRequest x00 x00 x00 x00 [] [] [] []) opts.

Definition AuthorRequest_Validate (a : AuthorRequest) : outcome unit :=
  validate_fields (CondAuthenType (AuthorRequest_Type a))
    [AuthenMethod_Field (AuthorRequest_Method a); PrivLvl_Field (AuthorRequest_PrivLvl a);
     AuthenType_Field (AuthorRequest_Type a); AuthenService_Field (AuthorRequest_Service a);
     AuthenUser_Field (AuthorRequest_User a); AuthenPort_Field (AuthorRequest_Port a);
     AuthenRemAddr_Field (AuthorRequest_RemAddr a)] ;;
  validate_fields CondNil (Arg_Field <$> AuthorRequest_Args a).
#[global] Arguments AuthorRequest_Validate : simpl never.

Definition AuthorRequest_MarshalBinary (a : AuthorRequest) : outcome (list byte) :=
  AuthorRequest_Validate a ;;
  let buf := [AuthorRequest_Method a; AuthorRequest_PrivLvl a; AuthorRequest_Type a;
              AuthorRequest_Service a;
              u8 (AuthenUser_Len (AuthorRequest_User a));
              u8 (AuthenPort_Len (AuthorRequest_Port a));
              u8 (AuthenRemAddr_Len (AuthorRequest_RemAddr a));
              u8 (len (AuthorRequest_Args a))] in
  let buf := buf ++ ((λ arg, u8 (Arg_Len arg)) <$> AuthorRequest_Args a) in
  Ok (buf ++ AuthorRequest_User a ++ AuthorRequest_Port a ++ AuthorRequest_RemAddr a ++
      concat (AuthorRequest_Args a)).

Definition AuthorRequest_Len (a : AuthorRequest) : Z :=
  AuthenUser_Len (AuthorRequest_User a) + AuthenPort_Len (AuthorRequest_Port a) +
  AuthenRemAddr_Len (AuthorRequest_RemAddr a) + sumZ (Arg_Len <$> AuthorRequest_Args a).

Definition AuthorRequest_read (d0 d1 d2 d3 : byte) : reader (AuthorRequest * Z) :=
  userLen ← readBuffer_int;
  portLen ← readBuffer_int;
  remAddrLen ← readBuffer_int;
  argCnt ← readBuffer_int;
  argLens ← read_ints (Z.to_nat argCnt);
  user ← readBuffer_string userLen;
  port ← readBuffer_string portLen;
  remAddr ← readBuffer_string remAddrLen;
  args ← read_strings argLens;
  mret (mkAuthorRequest d0 d1 d2 d3 user port remAddr args,
        userLen + portLen + remAddrLen + sumZ argLens).

Definition AuthorRequest_UnmarshalBinary (data : list byte) : outcome AuthorRequest :=
  if len data <? AuthorRequestLen then
    Err (Errorf "authorRequest size [%v] is too small for the minimum size [%v]")
  else match data with
  | d0 :: d1 :: d2 :: d3 :: rest4 =>
    let '(a, announced) := (AuthorRequest_read d0 d1 d2 d3 rest4).1 in
    if negb (AuthorRequest_Len a =? announced) then
      Err (BadSecretErr "bad secret detected authorrequest")
    else
      AuthorRequest_Validate a ;; Ok a
  | _ => Panic
  end.

Definition AuthorRequest_Fields (a : AuthorRequest) : gmap gostring gostring :=
  list_to_map
    [(str "packet-type", str "AuthorRequest");
     (str "method", AuthenMethod_String (AuthorRequest_Method a));
     (str "priv-lvl", PrivLvl_String (AuthorRequest_PrivLvl a));
     (str "type", AuthenType_String (AuthorRequest_Type a));
     (str "service", AuthenService_String (AuthorRequest_Service a));
     (str "user", AuthenUser_String (AuthorRequest_User a));
     (str "port", AuthenPort_String (AuthorRequest_Port a));
     (str "rem-addr", AuthenRemAddr_String (AuthorRequest_RemAddr a));
     (str "args", Args_String (AuthorRequest_Args a))].

#[export] Instance AuthorRequest_EncoderDecoder : EncoderDecoder AuthorRequest := {
  MarshalBinary := AuthorRequest_MarshalBinary;
  UnmarshalBinary := AuthorRequest_UnmarshalBinary;
  Fields := AuthorRequest_Fields;
}.

(** The strings and the number of arguments fit one byte; the validation
    bounds the length of an argument. *)
Definition AuthorRequest_fits (a : AuthorRequest) : Prop :=
  fits8 (AuthorRequest_User a) ∧ fits8 (AuthorRequest_Port a) ∧
  fits8 (AuthorRequest_RemAddr a) ∧ len (AuthorRequest_Args a) < 256.

Lemma AuthorRequest_Validate_args a :
  AuthorRequest_Validate a = Ok tt → args_valid (AuthorRequest_Args a).
Proof. unfold AuthorRequest_Validate. rewrite bind_ok. intros (_ & _ & H). by apply args_valid_spec. Qed.

Lemma AuthorRequest_roundtrip_gen a p rest :
  AuthorRequest_fits a → AuthorRequest_MarshalBinary a = Ok p →
  AuthorRequest_UnmarshalBinary (p ++ rest) = Ok a.
Proof.
  destruct a as [me pl ty sv user port addr args].
  intros (Hu & Hp & Hr & Ha) Hm. simpl in *.
  apply bind_ok in Hm as ([] & Hv & Hm). apply Ok_inj in Hm as <-.
  pose proof (args_valid_bounds _ (AuthorRequest_Validate_args _ Hv)) as [_ Hargs]. cbn in Hargs.
  unfold AuthorRequest_UnmarshalBinary, AuthorRequestLen. cbn. len_enough.
  unfold AuthorRequest_read. rewrite <- !app_assoc.
  unfold AuthenUser_Len, AuthenPort_Len, AuthenRemAddr_Len. change Arg_Len with (@len byte).
  read_back. rewrite args_count by done. read_back. cbn.
  rewrite Z.eqb_refl. cbn. by rewrite Hv.
Qed.

Lemma AuthorRequest_accepted data a :
  AuthorRequest_UnmarshalBinary data = Ok a →
  AuthorRequest_fits a ∧ ∃ p, AuthorRequest_MarshalBinary a = Ok p ∧
    (True → ∃ rest, data = p ++ rest).
Proof.
  unfold AuthorRequest_UnmarshalBinary.
  destruct (Z.ltb_spec (len data) AuthorRequestLen) as [|Hlen]; [done|].
  unfold AuthorRequestLen in Hlen. take_bytes Hlen data 8%nat.
  run_reader. unfold AuthorRequest_Len. cbn.
  unfold AuthenUser_Len, AuthenPort_Len, AuthenRemAddr_Len. change Arg_Len with (@len byte).
  match goal with |- context [?x =? ?y] => destruct (Z.eqb_spec x y) as [Hsum|] end; [|done].
  cbn. intros Hok. apply bind_ok in Hok as ([] & Hv & Hok). apply Ok_inj in Hok as <-.
  pose proof (args_valid_bounds _ (AuthorRequest_Validate_args _ Hv)) as [Hmin _]. cbn in Hmin.
  pose proof (sumZ_forall2_le _ _ Eargs).
  assert (len s = b2z d3 ∧ len s0 = b2z d4 ∧ len s1 = b2z d5) as (H1 & H2 & H3) by lia.
  destruct (read_ints_args _ _ _ _ _ Eints Eargs) as (_ & Hcnt & _ & ->); [lia|done|].
  assert (len args = b2z d6) as H4.
  { unfold len. rewrite Hcnt. pose proof (b2z_range d6). lia. }
  split; [split_and!; cbn; eauto with codec; rewrite H4; apply b2z_range|].
  unfold AuthorRequest_MarshalBinary. rewrite Hv. cbn. eexists. split; [done|].
  intros _. eexists. cbn.
  unfold AuthenUser_Len, AuthenPort_Len, AuthenRemAddr_Len. change Arg_Len with (@len byte).
  rewrite (u8_len_b2z _ _ H1), (u8_len_b2z _ _ H2), (u8_len_b2z _ _ H3), H4, u8_b2z.
  by rewrite <- !app_assoc.
Qed.

Lemma AuthorRequest_UnmarshalBinary_returns data :
  returns (AuthorRequest_UnmarshalBinary data).
Proof.
  unfold AuthorRequest_UnmarshalBinary, AuthorRequestLen.
  destruct (Z.ltb_spec (len data) 8) as [|Hlen]; [done|]. take_bytes Hlen data 8%nat.
  destruct (AuthorRequest_read d d0 d1 d2 _).1 as [a n]. case_match; [done|].
  apply bind_returns; [|done]. unfold AuthorRequest_Validate.
  apply bind_returns; [fields_return|intros; apply args_validate_returns].
Qed.

#[export] Instance AuthorRequest_Codec : Codec AuthorRequest := {
  encodable := AuthorRequest_fits;
  canonical _ := True;
  codec_roundtrip := AuthorRequest_roundtrip_gen;
  codec_returns := AuthorRequest_UnmarshalBinary_returns;
  codec_accepted := AuthorRequest_accepted;
}.

(** ** AuthorReply *)
Definition AuthorReplyLen : Z := 6.

Record AuthorReply := mkAuthorReply {
  AuthorReply_Status : AuthorStatus;
  AuthorReply_Args : Args;
  AuthorReply_ServerMsg : AuthorServerMsg;
  AuthorReply_Data : AuthorData;
}.

#[export] Instance AuthorReply_eq_dec : EqDecision AuthorReply.
Proof. solve_decision. Defined.

(** The options of [NewAuthorReply]. *)
Definition AuthorReplyOption : Type := AuthorReply → AuthorReply.
Definition SetAuthorReplyStatus (v : AuthorStatus) : AuthorReplyOption := λ a,
  mkAuthorReply v (AuthorReply_Args a) (AuthorReply_ServerMsg a) (AuthorReply_Data a).
Definition SetAuthorReplyArgs (args : list gostring) : AuthorReplyOption := λ a,
  mkAuthorReply (AuthorReply_Status a) args (AuthorReply_ServerMsg a) (AuthorReply_Data a).
Definition SetAuthorReplyServerMsg (v : gostring) : AuthorReplyOption := λ a,
  mkAuthorReply (AuthorReply_Status a) (AuthorReply_Args a) v (AuthorReply_Data a).
Definition SetAuthorReplyData (v : AuthorData) : AuthorReplyOption := λ a,
  mkAuthorReply (AuthorReply_Status a) (AuthorReply_Args a) (AuthorReply_ServerMsg a) v.

Definition NewAuthorReply (opts : list AuthorReplyOption) : AuthorReply :=
  foldl (λ a opt, opt a) (mkAuthorReply x00 [] [] []) opts.

Definition AuthorReply_Validate (a : AuthorReply) : outcome unit :=
  validate_fields CondNil
    [AuthorStatus_Field (AuthorReply_Status a); AuthorServerMsg_Field (AuthorReply_ServerMsg a);
     AuthorData_Field (AuthorReply_Data a)] ;;
  validate_fields CondNil (Arg_Field <$> AuthorReply_Args a).
#[global] Arguments AuthorReply_Validate : simpl never.

Definition AuthorReply_MarshalBinary (a : AuthorReply) : outcome (list byte) :=
  AuthorReply_Validate a ;;
  let buf := [AuthorReply_Status a; u8 (len (AuthorReply_Args a))] in
  let buf := appendUint16 buf (AuthorServerMsg_Len (AuthorReply_ServerMsg a)) in
  let buf := appendUint16 buf (AuthorData_Len (AuthorReply_Data a)) in
  let buf := buf ++ ((λ arg, u8 (Arg_Len arg)) <$> AuthorReply_Args a) in
  Ok (buf ++ AuthorReply_ServerMsg a ++ AuthorReply_Data a ++ concat (AuthorReply_Args a)).

Definition AuthorReply_Len (a : AuthorReply) : Z :=
  AuthorServerMsg_Len (AuthorReply_ServerMsg a) + AuthorData_Len (AuthorReply_Data a) +
  sumZ (Arg_Len <$> AuthorReply_Args a).

Definition AuthorReply_read : reader (AuthorReply * Z) :=
  status ← readBuffer_byte;
  argCnt ← readBuffer_int;
  serverMsgLen ← readBuffer_uint16;
  dataLen ← readBuffer_uint16;
  argLens ← read_ints (Z.to_nat argCnt);
  serverMsg ← readBuffer_string serverMsgLen;
  data ← readBuffer_string dataLen;
  args ← read_strings argLens;
  mret (mkAuthorReply status args serverMsg data, serverMsgLen + dataLen + sumZ argLens).

Definition AuthorReply_UnmarshalBinary (data : list byte) : outcome AuthorReply :=
  if len data <? AuthorReplyLen then
    Err (Errorf "authorReply size [%v] is too small for the minimum size [%v]")
  else
    let '(a, announced) := (AuthorReply_read data).1 in
    if negb (AuthorReply_Len a =? announced) then
      Err (BadSecretErr "bad secret detected authorreply")
    else
      AuthorReply_Validate a ;; Ok a.

(** [NewAuthorReplyFromBytes], for the callers that drop the value of a
    failed decoding. *)
Definition NewAuthorReplyFromBytes (data : list byte) : outcome AuthorReply :=
  AuthorReply_UnmarshalBinary data.

Definition AuthorReply_Fields (a : AuthorReply) : gmap gostring gostring :=
  list_to_map
    [(str "packet-type", str "AuthorReply");
     (str "status", AuthorStatus_String (AuthorReply_Status a));
     (str "args", Args_String (AuthorReply_Args a));
     (str "server-msg", AuthorServerMsg_String (AuthorReply_ServerMsg a));
     (str "data", AuthorData_String (AuthorReply_Data a))].

#[export] Instance AuthorReply_EncoderDecoder : EncoderDecoder AuthorReply := {
  MarshalBinary := AuthorReply_MarshalBinary;
  UnmarshalBinary := AuthorReply_UnmarshalBinary;
  Fields := AuthorReply_Fields;
}.

Definition AuthorReply_fits (a : AuthorReply) : Prop :=
  len (AuthorReply_Args a) < 256 ∧ fits16 (AuthorReply_ServerMsg a) ∧ fits16 (AuthorReply_Data a).

Lemma AuthorReply_Validate_args a :
  AuthorReply_Validate a = Ok tt → args_valid (AuthorReply_Args a).
Proof. unfold AuthorReply_Validate. rewrite bind_ok. intros (_ & _ & H). by apply args_valid_spec. Qed.

Lemma AuthorReply_roundtrip_gen a p rest :
  AuthorReply_fits a → AuthorReply_MarshalBinary a = Ok p →
  AuthorReply_UnmarshalBinary (p ++ rest) = Ok a.
Proof.
  destruct a as [st args msg dat]. intros (Ha & Hm & Hd) Hp. simpl in *.
  apply bind_ok in Hp as ([] & Hv & Hp). apply Ok_inj in Hp as <-.
  pose proof (args_valid_bounds _ (AuthorReply_Validate_args _ Hv)) as [_ Hargs]. cbn in Hargs.
  unfold AuthorReply_UnmarshalBinary, AuthorReplyLen. cbn. len_enough.
  unfold AuthorReply_read. rewrite <- !app_assoc.
  unfold AuthorServerMsg_Len, AuthorData_Len. change Arg_Len with (@len byte).
  unfold mbind at 1, reader_bind at 1. cbn [readBuffer_byte].
  read_back. rewrite args_count by done. read_back. cbn.
  unfold AuthorReply_Len. cbn. rewrite Z.eqb_refl. cbn. by rewrite Hv.
Qed.

Lemma AuthorReply_accepted data a :
  AuthorReply_UnmarshalBinary data = Ok a →
  AuthorReply_fits a ∧ ∃ p, AuthorReply_MarshalBinary a = Ok p ∧
    (True → ∃ rest, data = p ++ rest).
Proof.
  unfold AuthorReply_UnmarshalBinary.
  destruct (Z.ltb_spec (len data) AuthorReplyLen) as [|Hlen]; [done|].
  unfold AuthorReplyLen in Hlen. take_bytes Hlen data 6%nat.
  run_reader. unfold AuthorReply_Len. cbn. unfold AuthorServerMsg_Len, AuthorData_Len. change Arg_Len with (@len byte).
  match goal with |- context [?x =? ?y] => destruct (Z.eqb_spec x y) as [Hsum|] end; [|done].
  cbn. intros Hok. apply bind_ok in Hok as ([] & Hv & Hok). apply Ok_inj in Hok as <-.
  pose proof (args_valid_bounds _ (AuthorReply_Validate_args _ Hv)) as [Hmin _]. cbn in Hmin.
  pose proof (sumZ_forall2_le _ _ Eargs).
  destruct (u16_len_bytes s d1 d2) as (Hf1 & H1 & H2); [lia|].
  destruct (u16_len_bytes s0 d3 d4) as (Hf2 & H3 & H4); [lia|].
  destruct (read_ints_args _ _ _ _ _ Eints Eargs) as (_ & Hcnt & _ & ->); [lia|done|].
  assert (len args = b2z d0) as H5.
  { unfold len. rewrite Hcnt. pose proof (b2z_range d0). lia. }
  split; [split_and!; cbn; try done; rewrite H5; apply b2z_range|].
  unfold AuthorReply_MarshalBinary. rewrite Hv. cbn. eexists. split; [done|].
  intros _. eexists. cbn. unfold AuthorServerMsg_Len, AuthorData_Len, Arg_Len.
  rewrite H1, H2, H3, H4, H5, u8_b2z. by rewrite <- !app_assoc.
Qed.

Lemma AuthorReply_UnmarshalBinary_returns data :
  returns (AuthorReply_UnmarshalBinary data).
Proof.
  unfold AuthorReply_UnmarshalBinary. case_match; [done|].
  destruct (AuthorReply_read data).1 as [a n]. case_match; [done|].
  apply bind_returns; [|done]. unfold AuthorReply_Validate.
  apply bind_returns; [fields_return|intros; apply args_validate_returns].
Qed.

#[export] Instance AuthorReply_Codec : Codec AuthorReply := {
  encodable := AuthorReply_fits;
  canonical _ := True;
  codec_roundtrip := AuthorReply_roundtrip_gen;
  codec_returns := AuthorReply_UnmarshalBinary_returns;
  codec_accepted := AuthorReply_accepted;
}.
