(* ===== verification/Accounting.v ===== *)
(** The accounting packet bodies, accounting.go: [AcctRequest] and
    [AcctReply]. *)
From S2P Require Import Prelude.
From S2P Require Import Buffer.
From S2P Require Import HeaderFields.
From S2P Require Import AuthenFields.
From S2P Require Import AuthorFields.
From S2P Require Import Args.
From S2P Require Import Codec.

(** ** AcctRequest *)
Definition AcctRequestLen : Z := 9.

Record AcctRequest := mkAcctRequest {
  AcctRequest_Flags : AcctRequestFlag;
  AcctRequest_Method : AuthenMethod;
  AcctRequest_PrivLvl : PrivLvl;
  AcctRequest_Type : AuthenType;
  AcctRequest_Service : AuthenService;
  AcctRequest_User : AuthenUser;
  AcctRequest_Port : AuthenPort;
  AcctRequest_RemAddr : AuthenRemAddr;
  AcctRequest_Args : Args;
}.

#[export] Instance AcctRequest_eq_dec : EqDecision AcctRequest.
Proof. solve_decision. Defined.

(** The options of [NewAcctRequest]. *)
Definition AcctRequestOption : Type := AcctRequest → AcctRequest.
Definition SetAcctRequestFlag (v : AcctRequestFlag) : AcctRequestOption := λ a,
  mkAcctRequest v (AcctRequest_Method a) (AcctRequest_PrivLvl a) (AcctRequest_Type a)
    (AcctRequest_Service a) (AcctRequest_User a) (AcctRequest_Port a) (AcctRequest_RemAddr a)
    (AcctRequest_Args a).
Definition SetAcctRequestMethod (v : AuthenMethod) : AcctRequestOption := λ a,
  mkAcctRequest (AcctRequest_Flags a) v (AcctRequest_PrivLvl a) (AcctRequest_Type a)
    (AcctRequest_Service a) (AcctRequest_User a) (AcctRequest_Port a) (AcctRequest_RemAddr a)
    (AcctRequest_Args a).
Definition SetAcctRequestPrivLvl (v : PrivLvl) : AcctRequestOption := λ a,
  mkAcctRequest (AcctRequest_Flags a) (AcctRequest_Method a) v (AcctRequest_Type a)
    (AcctRequest_Service a) (AcctRequest_User a) (AcctRequest_Port a) (AcctRequest_RemAddr a)
    (AcctRequest_Args a).
Definition SetAcctRequestType (v : AuthenType) : AcctRequestOption := λ a,
  mkAcctRequest (AcctRequest_Flags a) (AcctRequest_Method a) (AcctRequest_PrivLvl a) v
    (AcctRequest_Service a) (AcctRequest_User a) (AcctRequest_Port a) (AcctRequest_RemAddr a)
    (AcctRequest_Args a).
Definition SetAcctRequestService (v : AuthenService) : AcctRequestOption := λ a,
  mkAcctRequest (AcctRequest_Flags a) (AcctRequest_Method a) (AcctRequest_PrivLvl a)
    (AcctRequest_Type a) v (AcctRequest_User a) (AcctRequest_Port a) (AcctRequest_RemAddr a)
    (AcctRequest_Args a).
Definition SetAcctRequestUser (v : AuthenUser) : AcctRequestOption := λ a,
  mkAcctRequest (AcctRequest_Flags a) (AcctRequest_Method a) (AcctRequest_PrivLvl a)
    (AcctRequest_Type a) (AcctRequest_Service a) v (AcctRequest_Port a) (AcctRequest_RemAddr a)
    (AcctRequest_Args a).
Definition SetAcctRequestPort (v : AuthenPort) : AcctRequestOption := λ a,
  mkAcctRequest (AcctRequest_Flags a) (AcctRequest_Method a) (AcctRequest_PrivLvl a)
    (AcctRequest_Type a) (AcctRequest_Service a) (AcctRequest_User a) v (AcctRequest_RemAddr a)
    (AcctRequest_Args a).
Definition SetAcctRequestRemAddr (v : AuthenRemAddr) : AcctRequestOption := λ a,
  mkAcctRequest (AcctRequest_Flags a) (AcctRequest_Method a) (AcctRequest_PrivLvl a)
    (AcctRequest_Type a) (AcctRequest_Service a) (AcctRequest_User a) (AcctRequest_Port a) v
    (AcctRequest_Args a).
Definition SetAcctRequestArgs (v : Args) : AcctRequestOption := λ a,
  mkAcctRequest (AcctRequest_Flags a) (AcctRequest_Method a) (AcctRequest_PrivLvl a)
    (AcctRequest_Type a) (AcctRequest_Service a) (AcctRequest_User a) (AcctRequest_Port a)
    (AcctRequest_RemAddr a) v.

Definition NewAcctRequest (opts : list AcctRequestOption) : AcctRequest :=
  foldl (λ a opt, opt a) (mkAcctRequest x00 x00 x00 x00 x00 [] [] [] []) opts.

Definition AcctRequest_Validate (a : AcctRequest) : outcome unit :=
  validate_fields CondNil
    [AuthenMethod_Field (AcctRequest_Method a); PrivLvl_Field (AcctRequest_PrivLvl a);
     AuthenType_Field (AcctRequest_Type a); AuthenService_Field (AcctRequest_Service a);
     AuthenUser_Field (AcctRequest_User a); AuthenPort_Field (AcctRequest_Port a);
     AuthenRemAddr_Field (AcctRequest_RemAddr a); AcctRequestFlag_Field (AcctRequest_Flags a)] ;;
  validate_fields CondNil (Arg_Field <$> AcctRequest_Args a).
#[global] Arguments AcctRequest_Validate : simpl never.

Definition AcctRequest_MarshalBinary (a : AcctRequest) : outcome (list byte) :=
  AcctRequest_Validate a ;;
  let buf := [AcctRequest_Flags a; AcctRequest_Method a; AcctRequest_PrivLvl a;
              AcctRequest_Type a; AcctRequest_Service a;
              u8 (AuthenUser_Len (AcctRequest_User a));
              u8 (AuthenPort_Len (AcctRequest_Port a));
              u8 (AuthenRemAddr_Len (AcctRequest_RemAddr a));
              u8 (len (AcctRequest_Args a))] in
  let buf := buf ++ ((λ arg, u8 (Arg_Len arg)) <$> AcctRequest_Args a) in
  Ok (buf ++ AcctRequest_User a ++ AcctRequest_Port a ++ AcctRequest_RemAddr a ++
      concat (AcctRequest_Args a)).

Definition AcctRequest_Len (a : AcctRequest) : Z :=
  AuthenUser_Len (AcctRequest_User a) + AuthenPort_Len (AcctRequest_Port a) +
  AuthenRemAddr_Len (AcctRequest_RemAddr a) + sumZ (Arg_Len <$> AcctRequest_Args a).

(** The cursor over [data[9:]]; the first nine bytes are read by index. *)
Definition AcctRequest_read (d0 d1 d2 d3 d4 : byte) (userLen portLen remAddrLen argCnt : Z)
    : reader (AcctRequest * Z) :=
  argLens ← read_ints (Z.to_nat argCnt);
  user ← readBuffer_string userLen;
  port ← readBuffer_string portLen;
  remAddr ← readBuffer_string remAddrLen;
  args ← read_strings argLens;
  mret (mkAcctRequest d0 d1 d2 d3 d4 user port remAddr args,
        userLen + portLen + remAddrLen + sumZ argLens).

Definition AcctRequest_UnmarshalBinary (data : list byte) : outcome AcctRequest :=
  if len data <? AcctRequestLen then
    Err (Errorf "acctRequest size [%v] is too small for the minimum size [%v]")
  else match data with
  | d0 :: d1 :: d2 :: d3 :: d4 :: d5 :: d6 :: d7 :: d8 :: rest9 =>
    let '(a, announced) :=
      (AcctRequest_read d0 d1 d2 d3 d4 (b2z d5) (b2z d6) (b2z d7) (b2z d8) rest9).1 in
    if negb (AcctRequest_Len a =? announced) then
      Err (BadSecretErr "bad secret detected acctrequest")
    else
      AcctRequest_Validate a ;; Ok a
  | _ => Panic
  end.

(** [NewAccountingRequestFromBytes], for the callers that drop the value of a
    failed decoding. *)
Definition NewAccountingRequestFromBytes (data : list byte) : outcome AcctRequest :=
  AcctRequest_UnmarshalBinary data.

Definition AcctRequest_Fields (a : AcctRequest) : gmap gostring gostring :=
  list_to_map
    [(str "packet-type", str "AcctRequest");
     (str "flags", AcctRequestFlag_String (AcctRequest_Flags a));
     (str "method", AuthenMethod_String (AcctRequest_Method a));
     (str "priv-lvl", PrivLvl_String (AcctRequest_PrivLvl a));
     (str "type", AuthenType_String (AcctRequest_Type a));
     (str "service", AuthenService_String (AcctRequest_Service a));
     (str "user", AuthenUser_String (AcctRequest_User a));
     (str "port", AuthenPort_String (AcctRequest_Port a));
     (str "rem-addr", AuthenRemAddr_String (AcctRequest_RemAddr a));
     (str "args", Args_String (AcctRequest_Args a))].

#[export] Instance AcctRequest_EncoderDecoder : EncoderDecoder AcctRequest := {
  MarshalBinary := AcctRequest_MarshalBinary;
  UnmarshalBinary := AcctRequest_UnmarshalBinary;
  Fields := AcctRequest_Fields;
}.

Definition AcctRequest_fits (a : AcctRequest) : Prop :=
  fits8 (AcctRequest_User a) ∧ fits8 (AcctRequest_Port a) ∧
  fits8 (AcctRequest_RemAddr a) ∧ len (AcctRequest_Args a) < 256.

Lemma AcctRequest_Validate_args a :
  AcctRequest_Validate a = Ok tt → args_valid (AcctRequest_Args a).
Proof. unfold AcctRequest_Validate. rewrite bind_ok. intros (_ & _ & H). by apply args_valid_spec. Qed.

Lemma AcctRequest_roundtrip_gen a p rest :
  AcctRequest_fits a → AcctRequest_MarshalBinary a = Ok p →
  AcctRequest_UnmarshalBinary (p ++ rest) = Ok a.
Proof.
  destruct a as [fl me pl ty sv user port addr args].
  intros (Hu & Hp & Hr & Ha) Hm. simpl in *.
  apply bind_ok in Hm as ([] & Hv & Hm). apply Ok_inj in Hm as <-.
  pose proof (args_valid_bounds _ (AcctRequest_Validate_args _ Hv)) as [_ Hargs]. cbn in Hargs.
  unfold AcctRequest_UnmarshalBinary, AcctRequestLen. cbn. len_enough.
  unfold AcctRequest_read. rewrite <- !app_assoc.
  unfold AuthenUser_Len, AuthenPort_Len, AuthenRemAddr_Len. change Arg_Len with (@len byte).
  rewrite !b2z_u8_small by fits. rewrite args_count by done. read_back. cbn.
  unfold AcctRequest_Len. cbn.
  rewrite Z.eqb_refl. cbn. by rewrite Hv.
Qed.

Lemma AcctRequest_accepted data a :
  AcctRequest_UnmarshalBinary data = Ok a →
  AcctRequest_fits a ∧ ∃ p, AcctRequest_MarshalBinary a = Ok p ∧
    (True → ∃ rest, data = p ++ rest).
Proof.
  unfold AcctRequest_UnmarshalBinary.
  destruct (Z.ltb_spec (len data) AcctRequestLen) as [|Hlen]; [done|].
  unfold AcctRequestLen in Hlen. take_bytes Hlen data 9%nat.
  run_reader. unfold AcctRequest_Len. cbn.
  unfold AuthenUser_Len, AuthenPort_Len, AuthenRemAddr_Len. change Arg_Len with (@len byte).
  match goal with |- context [?x =? ?y] => destruct (Z.eqb_spec x y) as [Hsum|] end; [|done].
  cbn. intros Hok. apply bind_ok in Hok as ([] & Hv & Hok). apply Ok_inj in Hok as <-.
  pose proof (args_valid_bounds _ (AcctRequest_Validate_args _ Hv)) as [Hmin _]. cbn in Hmin.
  pose proof (sumZ_forall2_le _ _ Eargs).
  assert (len s = b2z d4 ∧ len s0 = b2z d5 ∧ len s1 = b2z d6) as (H1 & H2 & H3) by lia.
  destruct (read_ints_args _ _ _ _ _ Eints Eargs) as (_ & Hcnt & _ & ->); [lia|done|].
  assert (len args = b2z d7) as H4.
  { unfold len. rewrite Hcnt. pose proof (b2z_range d7). lia. }
  split; [split_and!; cbn; eauto with codec; rewrite H4; apply b2z_range|].
  unfold AcctRequest_MarshalBinary. rewrite Hv. cbn. eexists. split; [done|].
  intros _. eexists. cbn.
  unfold AuthenUser_Len, AuthenPort_Len, AuthenRemAddr_Len. change Arg_Len with (@len byte).
  rewrite (u8_len_b2z _ _ H1), (u8_len_b2z _ _ H2), (u8_len_b2z _ _ H3), H4, u8_b2z.
  by rewrite <- !app_assoc.
Qed.

Lemma AcctRequest_UnmarshalBinary_returns data : returns (AcctRequest_UnmarshalBinary data).
Proof.
  unfold AcctRequest_UnmarshalBinary, AcctRequestLen.
  destruct (Z.ltb_spec (len data) 9) as [|Hlen]; [done|]. take_bytes Hlen data 9%nat.
  destruct (AcctRequest_read d d0 d1 d2 _ _ _ _ _ _).1 as [a n]. case_match; [done|].
  apply bind_returns; [|done]. unfold AcctRequest_Validate.
  apply bind_returns; [fields_return|intros; apply args_validate_returns].
Qed.

#[export] Instance AcctRequest_Codec : Codec AcctRequest := {
  encodable := AcctRequest_fits;
  canonical _ := True;
  codec_roundtrip := AcctRequest_roundtrip_gen;
  codec_returns := AcctRequest_UnmarshalBinary_returns;
  codec_accepted := AcctRequest_accepted;
}.

(** ** AcctReply *)
Definition AcctReplyLen : Z := 5.

Record AcctReply := mkAcctReply {
  AcctReply_Status : AcctReplyStatus;
  AcctReply_ServerMsg : AcctServerMsg;
  AcctReply_Data : AcctData;
}.

#[export] Instance AcctReply_eq_dec : EqDecision AcctReply.
Proof. solve_decision. Defined.

(** The options of [NewAcctReply]. *)
Definition AcctReplyOption : Type := AcctReply → AcctReply.
Definition SetAcctReplyStatus (v : AcctReplyStatus) : AcctReplyOption := λ a,
  mkAcctReply v (AcctReply_ServerMsg a) (AcctReply_Data a).
Definition SetAcctReplyServerMsg (v : gostring) : AcctReplyOption := λ a,
  mkAcctReply (AcctReply_Status a) v (AcctReply_Data a).
Definition SetAcctReplyData (v : AcctData) : AcctReplyOption := λ a,
  mkAcctReply (AcctReply_Status a) (AcctReply_ServerMsg a) v.

Definition NewAcctReply (opts : list AcctReplyOption) : AcctReply :=
  foldl (λ a opt, opt a) (mkAcctReply x00 [] []) opts.

Definition AcctReply_Validate (a : AcctReply) : outcome unit :=
  validate_fields CondNil
    [AcctReplyStatus_Field (AcctReply_Status a); AcctServerMsg_Field (AcctReply_ServerMsg a);
     AcctData_Field (AcctReply_Data a)].
#[global] Arguments AcctReply_Validate : simpl never.

Definition AcctReply_MarshalBinary (a : AcctReply) : outcome (list byte) :=
  AcctReply_Validate a ;;
  let buf := [] in
  let buf := appendUint16 buf (AcctServerMsg_Len (AcctReply_ServerMsg a)) in
  let buf := appendUint16 buf (AcctData_Len (AcctReply_Data a)) in
  let buf := buf ++ [AcctReply_Status a] in
  Ok (buf ++ AcctReply_ServerMsg a ++ AcctReply_Data a).

Definition AcctReply_Len (a : AcctReply) : Z :=
  AcctServerMsg_Len (AcctReply_ServerMsg a) + AcctData_Len (AcctReply_Data a).

Definition AcctReply_read : reader (AcctReply * Z) :=
  serverMsgLen ← readBuffer_uint16;
  dataLen ← readBuffer_uint16;
  status ← readBuffer_byte;
  serverMsg ← readBuffer_string serverMsgLen;
  data ← readBuffer_string dataLen;
  mret (mkAcctReply status serverMsg data, serverMsgLen + dataLen).

Definition AcctReply_UnmarshalBinary (data : list byte) : outcome AcctReply :=
  if len data <? AcctReplyLen then
    Err (Errorf "acctReply size [%v] is too small for the minimum size [%v]")
  else
    let '(a, announced) := (AcctReply_read data).1 in
    if negb (AcctReply_Len a =? announced) then
      Err (BadSecretErr "bad secret detected acctreply")
    else
      AcctReply_Validate a ;; Ok a.

(** [NewAccountingReplyFromBytes]. *)
Definition NewAccountingReplyFromBytes (data : list byte) : outcome AcctReply :=
  AcctReply_UnmarshalBinary data.

Definition AcctReply_Fields (a : AcctReply) : gmap gostring gostring :=
  list_to_map
    [(str "packet-type", str "AcctReply");
     (str "status", AcctReplyStatus_String (AcctReply_Status a));
     (str "server-msg", AcctServerMsg_String (AcctReply_ServerMsg a));
     (str "data", AcctData_String (AcctReply_Data a))].

#[export] Instance AcctReply_EncoderDecoder : EncoderDecoder AcctReply := {
  MarshalBinary := AcctReply_MarshalBinary;
  UnmarshalBinary := AcctReply_UnmarshalBinary;
  Fields := AcctReply_Fields;
}.

Definition AcctReply_fits (a : AcctReply) : Prop :=
  fits16 (AcctReply_ServerMsg a) ∧ fits16 (AcctReply_Data a).

Lemma AcctReply_roundtrip_gen a p rest :
  AcctReply_fits a → AcctReply_MarshalBinary a = Ok p →
  AcctReply_UnmarshalBinary (p ++ rest) = Ok a.
Proof.
  destruct a as [st msg dat]. intros (Hm & Hd) Hp. simpl in *.
  apply bind_ok in Hp as ([] & Hv & Hp). apply Ok_inj in Hp as <-.
  unfold AcctReply_UnmarshalBinary, AcctReplyLen. cbn. len_enough.
  unfold AcctReply_read. rewrite <- !app_assoc.
  unfold AcctServerMsg_Len, AcctData_Len.
  read_back. cbn [readBuffer_byte]. read_back. cbn. unfold AcctReply_Len. cbn.
  rewrite Z.eqb_refl. cbn. by rewrite Hv.
Qed.

Lemma AcctReply_accepted data a :
  AcctReply_UnmarshalBinary data = Ok a →
  AcctReply_fits a ∧ ∃ p, AcctReply_MarshalBinary a = Ok p ∧
    (True → ∃ rest, data = p ++ rest).
Proof.
  unfold AcctReply_UnmarshalBinary.
  destruct (Z.ltb_spec (len data) AcctReplyLen) as [|Hlen]; [done|].
  unfold AcctReplyLen in Hlen. take_bytes Hlen data 5%nat.
  run_reader. unfold AcctReply_Len. cbn. unfold AcctServerMsg_Len, AcctData_Len.
  match goal with |- context [?x =? ?y] => destruct (Z.eqb_spec x y) as [Hsum|] end; [|done].
  cbn. intros H. apply bind_ok in H as ([] & Hv & H). apply Ok_inj in H as <-.
  destruct (u16_len_bytes s d d0) as (? & H1 & H2); [lia|].
  destruct (u16_len_bytes s0 d1 d2) as (? & H3 & H4); [lia|].
  split; [done|].
  unfold AcctReply_MarshalBinary. rewrite Hv. cbn. eexists. split; [done|].
  intros _. eexists. cbn. unfold AcctServerMsg_Len, AcctData_Len.
  rewrite H1, H2, H3, H4. by rewrite <- !app_assoc.
Qed.

Lemma AcctReply_UnmarshalBinary_returns data : returns (AcctReply_UnmarshalBinary data).
Proof.
  unfold AcctReply_UnmarshalBinary. case_match; [done|].
  destruct (AcctReply_read data).1 as [a n]. case_match; [done|].
  apply bind_returns; [unfold AcctReply_Validate; fields_return|done].
Qed.

#[export] Instance AcctReply_Codec : Codec AcctReply := {
  encodable := AcctReply_fits;
  canonical _ := True;
  codec_roundtrip := AcctReply_roundtrip_gen;
  codec_returns := AcctReply_UnmarshalBinary_returns;
  codec_accepted := AcctReply_accepted;
}.
