(* ===== verification/MD5.v ===== *)
(** The hash the obfuscation of packet bodies is built on. crypt.go calls
    [crypto/md5] of Go's standard library: the development is written against
    the interface [Hash], and [MD5] is its implementation, RFC 1321. *)
From S2P Require Import Prelude.

(** [hash.Reset(); hash.Write(m); hash.Sum(nil)]. *)
Class Hash := {
  hash_sum : list byte → list byte;
  hash_sum_length m : length (hash_sum m) = 16%nat;
}.

(** ** Words *)
Definition not32 (z : Z) : Z := 4294967295 - z.
Definition add32 (x y : Z) : Z := u32 (x + y).
Definition rotl32 (z s : Z) : Z := Z.lor (u32 (Z.shiftl z s)) (Z.shiftr z (32 - s)).

Definition le_bytes32 (z : Z) : list byte :=
  [u8 z; u8 (Z.shiftr z 8); u8 (Z.shiftr z 16); u8 (Z.shiftr z 24)].

(** The little-endian words of a block. *)
Fixpoint le_words (b : list byte) : list Z :=
  match b with
  | b0 :: b1 :: b2 :: b3 :: rest =>
    b2z b0 + 256 * b2z b1 + 65536 * b2z b2 + 16777216 * b2z b3 :: le_words rest
  | _ => []
  end.

(** ** The compression function *)
Definition md5_K : list Z :=
  [3614090360; 3905402710; 606105819; 3250441966; 4118548399; 1200080426;
   2821735955; 4249261313; 1770035416; 2336552879; 4294925233; 2304563134;
   1804603682; 4254626195; 2792965006; 1236535329; 4129170786; 3225465664;
   643717713; 3921069994; 3593408605; 38016083; 3634488961; 3889429448;
   568446438; 3275163606; 4107603335; 1163531501; 2850285829; 4243563512;
   1735328473; 2368359562; 4294588738; 2272392833; 1839030562; 4259657740;
   2763975236; 1272893353; 4139469664; 3200236656; 681279174; 3936430074;
   3572445317; 76029189; 3654602809; 3873151461; 530742520; 3299628645;
   4096336452; 1126891415; 2878612391; 4237533241; 1700485571; 2399980690;
   4293915773; 2240044497; 1873313359; 4264355552; 2734768916; 1309151649;
   4149444226; 3174756917; 718787259; 3951481745].

Definition md5_shift : list Z :=
  [7; 12; 17; 22; 7; 12; 17; 22; 7; 12; 17; 22; 7; 12; 17; 22;
   5; 9; 14; 20; 5; 9; 14; 20; 5; 9; 14; 20; 5; 9; 14; 20;
   4; 11; 16; 23; 4; 11; 16; 23; 4; 11; 16; 23; 4; 11; 16; 23;
   6; 10; 15; 21; 6; 10; 15; 21; 6; 10; 15; 21; 6; 10; 15; 21].

Record md5_state := mkMd5 { md5_a : Z; md5_b : Z; md5_c : Z; md5_d : Z }.

Definition md5_init : md5_state := mkMd5 1732584193 4023233417 2562383102 271733878.

Definition md5_step (words : list Z) (st : md5_state) (i : Z) : md5_state :=
  let '(mkMd5 a b c d) := st in
  let '(f, g) :=
    if i <? 16 then (Z.lor (Z.land b c) (Z.land (not32 b) d), i)
    else if i <? 32 then (Z.lor (Z.land d b) (Z.land (not32 d) c), (5 * i + 1) mod 16)
    else if i <? 48 then (Z.lxor (Z.lxor b c) d, (3 * i + 5) mod 16)
    else (Z.lxor c (Z.lor b (not32 d)), (7 * i) mod 16) in
  let f := u32 (f + a + nth (Z.to_nat i) md5_K 0 + nth (Z.to_nat g) words 0) in
  mkMd5 d (add32 b (rotl32 f (nth (Z.to_nat i) md5_shift 0))) b c.

Definition md5_block (st : md5_state) (block : list byte) : md5_state :=
  let words := le_words block in
  let st' := foldl (md5_step words) st (Z.of_nat <$> seq 0 64) in
  mkMd5 (add32 (md5_a st) (md5_a st')) (add32 (md5_b st) (md5_b st'))
        (add32 (md5_c st) (md5_c st')) (add32 (md5_d st) (md5_d st')).

(** ** Padding and blocks *)
Definition md5_pad (m : list byte) : list byte :=
  m ++ [x80] ++ replicate (Z.to_nat ((55 - len m) mod 64)) x00 ++
  le_bytes32 (u32 (8 * len m)) ++ le_bytes32 (u32 (Z.shiftr (8 * len m) 32)).

Fixpoint md5_blocks (n : nat) (st : md5_state) (m : list byte) : md5_state :=
  match n with
  | O => st
  | S n => md5_blocks n (md5_block st (take 64 m)) (drop 64 m)
  end.

Definition md5_sum (m : list byte) : list byte :=
  let p := md5_pad m in
  let st := md5_blocks (length p / 64) md5_init p in
  le_bytes32 (md5_a st) ++ le_bytes32 (md5_b st) ++
  le_bytes32 (md5_c st) ++ le_bytes32 (md5_d st).

Lemma md5_sum_length m : length (md5_sum m) = 16%nat.
Proof. done. Qed.

Definition MD5 : Hash := {| hash_sum := md5_sum; hash_sum_length := md5_sum_length |}.

(** The padded message is a whole number of blocks. *)
Lemma md5_pad_blocks m : (length (md5_pad m) mod 64 = 0)%nat.
Proof.
  unfold md5_pad. rewrite !length_app, length_replicate. simpl length.
  apply Nat2Z.inj. rewrite Nat2Z.inj_mod, !Nat2Z.inj_add.
  pose proof (Z.mod_pos_bound (55 - len m) 64 eq_refl).
  rewrite Z2Nat.id by lia. unfold len in *. Z.div_mod_to_equations. lia.
Qed.

(** The test suite of RFC 1321. *)
Example md5_empty : md5_sum [] =
  [xd4; x1d; x8c; xd9; x8f; x00; xb2; x04; xe9; x80; x09; x98; xec; xf8; x42; x7e].
Proof. vm_compute. reflexivity. Qed.

Example md5_abc : md5_sum (str "abc") =
  [x90; x01; x50; x98; x3c; xd2; x4f; xb0; xd6; x96; x3f; x7d; x28; xe1; x7f; x72].
Proof. vm_compute. reflexivity. Qed.
