(* ===== verification/Proxy.v ===== *)
(** The ASCII PROXY header of proxy/readerwriter.go: the line a proxy writes in
    front of a connection and its parser. The text form of a [net.IP] is made
    by Go's [net] package; an address carries that text ([None] for a nil IP). *)
From S2P Require Import Prelude.
From S2P Require Import GoStrings.

(** ** Go's [bytes] and [strings] functions of this file *)

Fixpoint is_prefix (p s : gostring) : bool :=
  match p, s with
  | [], _ => true
  | a :: p, b :: s => bool_decide (a = b) && is_prefix p s
  | _, [] => false
  end.

(** [bytes.Contains]. *)
Fixpoint bytes_Contains (b sub : gostring) : bool :=
  is_prefix sub b || match b with [] => false | _ :: b => bytes_Contains b sub end.

(** [bytes.TrimSuffix]. *)
Definition bytes_TrimSuffix (s suffix : gostring) : gostring :=
  if is_prefix (reverse suffix) (reverse s)
  then take (length s - length suffix) s else s.

(** [strings.Split] with a separator of one byte. *)
Fixpoint strings_Split (s : gostring) (sep : byte) : list gostring :=
  match s with
  | [] => [[]]
  | c :: s =>
    if decide (c = sep) then [] :: strings_Split s sep
    else match strings_Split s sep with
         | [] => [[c]]
         | w :: ws => (c :: w) :: ws
         end
  end.

(** [strings.ToLower] and [strings.ToUpper] on ASCII letters. *)
Definition ascii_lower (c : byte) : byte :=
  if (65 <=? b2z c) && (b2z c <=? 90) then u8 (b2z c + 32) else c.
Definition ascii_upper (c : byte) : byte :=
  if (97 <=? b2z c) && (b2z c <=? 122) then u8 (b2z c - 32) else c.
Definition strings_ToLower (s : gostring) : gostring := ascii_lower <$> s.
Definition strings_ToUpper (s : gostring) : gostring := ascii_upper <$> s.

(** ** Addresses *)

(** The dynamic types of a [net.Addr] that the code tells apart: a
    [*net.TCPAddr], the [addr] of this package, anything else. *)
Inductive Addr :=
| TCPAddr (ip : option gostring) (port : Z)
| addr (network address port : gostring)
| OtherAddr (network text : gostring).

#[export] Instance Addr_eq_dec : EqDecision Addr.
Proof. solve_decision. Defined.

Definition Addr_Network (a : Addr) : gostring :=
  match a with
  | TCPAddr _ _ => str "tcp"
  | addr network _ _ => network
  | OtherAddr network _ => network
  end.

Definition getIPPort (a : Addr) : option gostring * Z :=
  match a with
  | TCPAddr ip port => (ip, port)
  | _ => (None, 0)
  end.

(** [net.JoinHostPort]: a host with a colon or a zone goes in brackets. *)
Definition net_JoinHostPort (host port : gostring) : gostring :=
  if bool_decide (x3a ∈ host) then [x5b] ++ host ++ [x5d; x3a] ++ port
  else host ++ [x3a] ++ port.

Definition addr_String (a : Addr) : gostring :=
  match a with
  | TCPAddr (Some ip) port => net_JoinHostPort ip (fmt_d port)
  | TCPAddr None port => net_JoinHostPort [] (fmt_d port)
  | addr _ address port => net_JoinHostPort address port
  | OtherAddr _ text => text
  end.

(** ** Header *)
Record ProxyHeader := mkProxyHeader {
  ProxyHeader_client : Addr;
  ProxyHeader_remote : Addr;
}.

Definition proxy_NewHeader (client remote : Addr) : ProxyHeader := mkProxyHeader client remote.

Definition line_end : gostring := [x0d; x0a; x00].

Definition proxyHeader (h : ProxyHeader) : option gostring :=
  let network := strings_ToUpper (Addr_Network (ProxyHeader_client h)) in
  let '(clientIP, clientPort) := getIPPort (ProxyHeader_client h) in
  let '(proxyIP, proxyPort) := getIPPort (ProxyHeader_remote h) in
  match clientIP, proxyIP with
  | Some clientIP, Some proxyIP =>
    Some (str "PROXY " ++ network ++ [x20] ++ clientIP ++ [x20] ++ proxyIP ++ [x20] ++
          fmt_d clientPort ++ [x20] ++ fmt_d proxyPort ++ line_end)
  | _, _ => None
  end.

(** [Read] into a buffer of [n] bytes: the number of bytes copied and the
    bytes. *)
Definition ProxyHeader_Read (h : ProxyHeader) (n : Z) : outcome (Z * gostring) :=
  let header := default [] (proxyHeader h) in
  if n <? len header then Err (Errorf "short buffer") else Ok (len header, header).

(** [Write]: the length it reports and the header it leaves. *)
Definition ProxyHeader_Write (h : ProxyHeader) (b : list byte) : outcome (Z * ProxyHeader) :=
  if negb (bytes_Contains b (str "PROXY")) then
    Err (Errorf "no proxy prefix detected on header")
  else
    let b := bytes_TrimSuffix b line_end in
    match strings_Split b x20 with
    | [_; c1; c2; c3; c4; c5] =>
      let network := strings_ToLower c1 in
      if bool_decide (network ∈ [str "tcp"; str "tcp6"; str "tcp4"])
      then Ok (len b, mkProxyHeader (addr network c2 c4) (addr network c3 c5))
      else Err (Errorf "%v")
    | _ => Err (Errorf "proxy line [%v] is malformed. expected len==6, got [%v]; after split; %v")
    end.

(** ** Facts *)

Lemma is_prefix_app p s : is_prefix p (p ++ s) = true.
Proof. induction p as [|a p IH]; [done|]. simpl. by rewrite bool_decide_eq_true_2, IH. Qed.

Lemma bytes_Contains_prefix p s : bytes_Contains (p ++ s) p = true.
Proof. pose proof (is_prefix_app p s) as H. destruct (p ++ s); simpl; by rewrite H. Qed.

Lemma bytes_TrimSuffix_app s suffix : bytes_TrimSuffix (s ++ suffix) suffix = s.
Proof.
  unfold bytes_TrimSuffix. rewrite reverse_app, is_prefix_app, length_app.
  rewrite Nat.add_sub. by rewrite take_app_length.
Qed.

Lemma strings_Split_nosep s sep : sep ∉ s → strings_Split s sep = [s].
Proof.
  induction s as [|c s IH]; [done|]. intros H. apply not_elem_of_cons in H as [Hc Hs].
  cbn [strings_Split]. destruct (decide (c = sep)) as [->|]; [done|]. by rewrite IH.
Qed.

Lemma strings_Split_app s sep rest :
  sep ∉ s → strings_Split (s ++ [sep] ++ rest) sep = s :: strings_Split rest sep.
Proof.
  induction s as [|c s IH]; intros H.
  - cbn. by rewrite decide_True.
  - apply not_elem_of_cons in H as [Hc Hs]. cbn [app strings_Split] in *.
    destruct (decide (c = sep)) as [->|]; [done|]. by rewrite IH.
Qed.

(** The parts [strings.Split] returns hold no separator and join back to the
    string. *)
Lemma strings_Split_join s sep :
  strings_Split s sep ≠ [] ∧ Forall (λ w, sep ∉ w) (strings_Split s sep) ∧
  strings_Join (strings_Split s sep) [sep] = s.
Proof.
  induction s as [|c s (Hne & Hall & Hj)]; [by repeat constructor; set_solver|].
  cbn [strings_Split]. destruct (decide (c = sep)) as [->|Hc].
  - split_and!; [done|constructor; [set_solver|done]|].
    cbn [strings_Join]. destruct (strings_Split s sep); [done|]. cbn [app]. by rewrite Hj.
  - destruct (strings_Split s sep) as [|w ws]; [done|].
    apply Forall_cons in Hall as [Hw Hws].
    split_and!; [done|constructor; [set_solver|done]|].
    destruct ws; cbn [strings_Join app] in *; by rewrite <- Hj.
Qed.

(** Decides a closed membership. *)
Ltac decide_elem := apply (bool_decide_unpack _); vm_compute; exact I.

(** A decimal number is made of digits and a sign. *)
Definition decimal : gostring := str "-0123456789".

Lemma pretty_N_go_decimal x s :
  str s ⊆ decimal → str (pretty_N_go x s) ⊆ decimal.
Proof.
  revert s. induction (N.lt_wf_0 x) as [x _ IH]; intros s Hs.
  destruct (decide (x = 0)%N) as [->|Hx]; [by rewrite pretty_N_go_0|].
  rewrite pretty_N_go_step by lia. apply IH.
  - apply N.div_lt; lia.
  - unfold str in *. cbn [String.list_byte_of_string String.list_ascii_of_string map].
    intros c [->|Hc]%elem_of_cons; [|by apply Hs].
    unfold pretty_N_char.
    destruct (x `mod` 10)%N as [|[[[|[]|]|[[]|[]|]|]|[[|[]|]|[[]|[]|]|]|]]; decide_elem.
Qed.

Lemma fmt_d_decimal z : fmt_d z ⊆ decimal.
Proof.
  unfold fmt_d, pretty, pretty_Z.
  assert (∀ n : N, str (pretty n) ⊆ decimal) as HN.
  { intros n. unfold pretty, pretty_N. destruct (decide (n = 0)%N); [decide_elem|].
    apply pretty_N_go_decimal. decide_elem. }
  destruct z as [|p|p]; [decide_elem|apply (HN (N.pos p))|].
  change (str ("-" +:+ pretty (N.pos p))) with (x2d :: str (pretty (N.pos p))).
  intros c [->|Hc]%elem_of_cons; [decide_elem|by apply (HN (N.pos p))].
Qed.

(** A number below [10 ^ k] has at most [k] digits. *)
Lemma pretty_N_go_len k x s :
  (x < 10 ^ N.of_nat k)%N → len (str (pretty_N_go x s)) <= len (str s) + Z.of_nat k.
Proof.
  revert x s. induction k as [|k IH]; intros x s Hx.
  { assert (x = 0)%N as -> by (change (10 ^ N.of_nat 0)%N with 1%N in Hx; lia).
    rewrite pretty_N_go_0. lia. }
  destruct (decide (x = 0)%N) as [->|Hx0]; [rewrite pretty_N_go_0; lia|].
  rewrite pretty_N_go_step by lia. etrans; [apply IH|].
  - rewrite Nat2N.inj_succ, N.pow_succ_r' in Hx. apply N.Div0.div_lt_upper_bound; lia.
  - match goal with |- context [str (String ?c s)] =>
      change (str (String c s)) with (Ascii.byte_of_ascii c :: str s) end.
    rewrite len_cons. lia.
Qed.

Lemma fmt_d_len k z : 0 <= z < 10 ^ Z.of_nat k → len (fmt_d z) <= Z.max 1 (Z.of_nat k).
Proof.
  intros Hz. unfold fmt_d, pretty, pretty_Z.
  assert (∀ n : N, (n < 10 ^ N.of_nat k)%N → len (str (pretty n)) <= Z.max 1 (Z.of_nat k)) as HN.
  { intros n Hn. unfold pretty, pretty_N. destruct (decide (n = 0)%N); [change (len (str "0")) with 1; lia|].
    etrans; [by apply (pretty_N_go_len k)|]. change (len (str "")) with 0. lia. }
  destruct z as [|p|p]; [change (len (str "0")) with 1; lia|apply (HN (N.pos p))|lia].
  apply N2Z.inj_lt. rewrite N2Z.inj_pow, nat_N_Z. lia.
Qed.

Lemma fmt_d_notin c z : c ∉ decimal → c ∉ fmt_d z.
Proof. intros Hc Hin. by apply Hc, (fmt_d_decimal z). Qed.

Lemma fmt_d_nospace z : x20 ∉ fmt_d z.
Proof. apply fmt_d_notin. decide_elem. Qed.

(** The line written for two TCP endpoints, and what the parser reads back. *)
Lemma proxyHeader_Write_gen h0 ip1 p1 ip2 p2 line :
  x20 ∉ ip1 → x20 ∉ ip2 →
  proxyHeader (mkProxyHeader (TCPAddr (Some ip1) p1) (TCPAddr (Some ip2) p2)) = Some line →
  ProxyHeader_Write h0 line =
    Ok (len line - 3, mkProxyHeader (addr (str "tcp") ip1 (fmt_d p1)) (addr (str "tcp") ip2 (fmt_d p2))).
Proof.
  intros H1 H2. cbn [proxyHeader ProxyHeader_client ProxyHeader_remote getIPPort]. intros Heq. apply (inj Some) in Heq as <-.
  unfold ProxyHeader_Write.
  change (str "PROXY ") with (str "PROXY" ++ [x20]). rewrite <- !app_assoc.
  change (strings_ToUpper (Addr_Network (TCPAddr (Some ip1) p1))) with (str "TCP").
  rewrite bytes_Contains_prefix. cbn [negb].
  rewrite !app_assoc, bytes_TrimSuffix_app, <- !app_assoc.
  rewrite strings_Split_app by decide_elem.
  rewrite strings_Split_app by decide_elem.
  rewrite !strings_Split_app by (done || apply fmt_d_nospace).
  rewrite strings_Split_nosep by apply fmt_d_nospace. cbv zeta.
  replace (bool_decide _) with true by done.
  repeat f_equal. autorewrite with golen. unfold line_end. autorewrite with golen. lia.
Qed.
