(* ===== verification/Crypt.v ===== *)
(** The obfuscation of packet bodies and the connection that reads and writes
    packets: crypt.go. *)
From S2P Require Import Prelude.
From S2P Require Import Buffer.
From S2P Require Import HeaderFields.
From S2P Require Import AuthenFields.
From S2P Require Import AuthorFields.
From S2P Require Import Header.
From S2P Require Import Codec.
From S2P Require Import Authenticate.
From S2P Require Import Authorize.
From S2P Require Import Accounting.
From S2P Require Import MD5.
From S2P Require Import Proxy.

(** ** The pad *)
Section Pad.
Context {HH : Hash}.

(** The loop of [crypt] that fills [pad] up to [n] bytes: [seed] is what is
    written to the hash before [lastHash]. Every turn adds at least one
    byte, so [n] turns are enough. *)
Fixpoint pad_loop (fuel : nat) (seed : list byte) (n : Z) (lastHash pad : list byte) : list byte :=
  match fuel with
  | O => pad
  | S fuel =>
    if len pad <? n then
      let lastHash := hash_sum (seed ++ lastHash) in
      let pad := pad ++ lastHash in
      let pad := if n <? len pad then take (Z.to_nat n) pad else pad in
      pad_loop fuel seed n lastHash pad
    else pad
  end.

(** [for i, b := range p.Body { p.Body[i] = b ^ pad[i] }] panics when the pad
    is the shorter one. *)
Fixpoint xor_body (body pad : list byte) : outcome (list byte) :=
  match body, pad with
  | [], _ => Ok []
  | b :: body, k :: pad => rest ← xor_body body pad; Ok (bxor b k :: rest)
  | _ :: _, [] => Panic
  end.

Definition crypt (secret : list byte) (p : Packet) : outcome Packet :=
  match Packet_Header p with
  | None => Panic
  | Some h =>
    if HeaderFlag_Has (Header_Flags h) UnencryptedFlag then Ok p
    else
      sessionID ← SessionID_MarshalBinary (Header_SessionID h);
      version ← Version_MarshalBinary (Header_Version h);
      let seed := sessionID ++ secret ++ version ++ [u8 (Header_SeqNo h)] in
      let pad := pad_loop (Z.to_nat (Header_Length h)) seed (Header_Length h) [] [] in
      match Packet_Body p with
      | None => Ok p
      | Some body => body ← xor_body body pad; Ok (mkPacket (Some h) (Some body))
      end
  end.

(** The pad as RFC 8907, section 4.5 and the comment above [crypt] define it:
    a chain of hashes, concatenated and truncated. *)
Fixpoint md5_chain (seed last : list byte) (k : nat) : list (list byte) :=
  match k with
  | O => []
  | S k => let next := hash_sum (seed ++ last) in next :: md5_chain seed next k
  end.

Definition pseudo_pad (seed : list byte) (n : Z) : list byte :=
  take (Z.to_nat n) (concat (md5_chain seed [] (Z.to_nat n))).

Lemma md5_chain_length seed last k : length (concat (md5_chain seed last k)) = (16 * k)%nat.
Proof.
  revert last. induction k as [|k IH]; intros last; [done|].
  cbn [md5_chain concat]. rewrite length_app, IH, hash_sum_length. lia.
Qed.

(** The chain prefix does not depend on how far the chain is unrolled. *)
Lemma md5_chain_take seed last k j n :
  (k <= j)%nat → (n <= 16 * k)%nat →
  take n (concat (md5_chain seed last k)) = take n (concat (md5_chain seed last j)).
Proof.
  revert last j n. induction k as [|k IH]; intros last j n Hkj Hn.
  - assert (n = 0)%nat as -> by lia. done.
  - destruct j as [|j]; [lia|]. cbn [md5_chain concat].
    rewrite !take_app, hash_sum_length. f_equal. apply IH; lia.
Qed.

Lemma pad_loop_done fuel seed n last pad :
  n <= len pad → pad_loop fuel seed n last pad = pad.
Proof. destruct fuel; [done|]. intros. simpl. destruct (Z.ltb_spec (len pad) n); [lia|done]. Qed.

Lemma hash_sum_len m : len (hash_sum m) = 16.
Proof. unfold len. by rewrite hash_sum_length. Qed.

Lemma pad_loop_spec fuel seed n last pad :
  len pad <= n → n - len pad <= Z.of_nat fuel →
  pad_loop fuel seed n last pad =
  pad ++ take (Z.to_nat (n - len pad)) (concat (md5_chain seed last fuel)).
Proof.
  revert last pad. induction fuel as [|fuel IH]; intros last pad Hle Hf.
  { replace (Z.to_nat (n - len pad)) with 0%nat by lia. simpl. by rewrite app_nil_r. }
  cbn [pad_loop]. destruct (Z.ltb_spec (len pad) n) as [Hlt|Hge].
  2:{ replace (Z.to_nat (n - len pad)) with 0%nat by lia. by rewrite app_nil_r. }
  cbn [md5_chain concat]. set (h := hash_sum (seed ++ last)). cbv zeta.
  assert (len h = 16) as Hh by apply hash_sum_len.
  rewrite len_app, Hh.
  destruct (Z.ltb_spec n (len pad + 16)) as [Hcut|Hfit].
  - rewrite pad_loop_done by (rewrite len_take, len_app; lia).
    rewrite !take_app. f_equal.
    { apply take_ge. unfold len in *. lia. }
    replace (Z.to_nat n - length pad)%nat with (Z.to_nat (n - len pad)) by (unfold len; lia).
    replace (Z.to_nat (n - len pad) - length h)%nat with 0%nat by (unfold len in *; lia).
    by rewrite app_nil_r.
  - rewrite IH by (rewrite len_app; lia). rewrite <- app_assoc. f_equal.
    rewrite take_app, (take_ge h) by (unfold len in *; lia). f_equal.
    rewrite len_app, Hh. f_equal. unfold len in *. lia.
Qed.

Lemma pad_loop_pseudo_pad seed n :
  0 <= n → pad_loop (Z.to_nat n) seed n [] [] = pseudo_pad seed n.
Proof.
  intros. rewrite pad_loop_spec by (rewrite len_nil; lia).
  rewrite len_nil, Z.sub_0_r. done.
Qed.

Lemma pseudo_pad_len seed n : 0 <= n → len (pseudo_pad seed n) = n.
Proof.
  intros. unfold pseudo_pad. rewrite len_take. unfold len at 1.
  rewrite md5_chain_length. lia.
Qed.

(** A longer pad extends a shorter one. *)
Lemma pseudo_pad_prefix seed m n :
  0 <= m <= n → pseudo_pad seed m = take (Z.to_nat m) (pseudo_pad seed n).
Proof.
  intros. unfold pseudo_pad. rewrite take_take, Nat.min_l by lia.
  apply md5_chain_take; lia.
Qed.

Lemma xor_body_spec body pad :
  xor_body body pad =
  if len body <=? len pad then Ok (zip_with bxor body pad) else Panic.
Proof.
  revert pad. induction body as [|b body IH]; intros pad.
  { pose proof (len_nonneg pad). rewrite len_nil.
    destruct (Z.leb_spec 0 (len pad)); [done|lia]. }
  destruct pad as [|k pad]; cbn [xor_body].
  - destruct (Z.leb_spec (len (b :: body)) (len (@nil byte))); [len_lia|done].
  - rewrite IH, !len_cons.
    destruct (Z.leb_spec (len body) (len pad)),
      (Z.leb_spec (1 + len body) (1 + len pad)); try lia; done.
Qed.

Lemma zip_bxor_involutive body pad :
  len body <= len pad → zip_with bxor (zip_with bxor body pad) pad = body.
Proof.
  revert pad. induction body as [|b body IH]; intros pad Hl; [done|].
  destruct pad as [|k pad]; [len_lia|].
  cbn. rewrite bxor_involutive, IH; [done|]. len_lia.
Qed.

(** The seed of the pad of a packet. *)
Definition pad_seed (secret : list byte) (h : Header) : list byte :=
  be_PutUint32 (Header_SessionID h) ++ secret ++
  default [] (match Version_MarshalBinary (Header_Version h) with Ok v => Some v | _ => None end) ++
  [u8 (Header_SeqNo h)].

(** What [crypt] does to a packet whose body is as long as announced. *)
Definition obfuscate (secret : list byte) (h : Header) (body : list byte) : list byte :=
  if HeaderFlag_Has (Header_Flags h) UnencryptedFlag then body
  else zip_with bxor body (pseudo_pad (pad_seed secret h) (Header_Length h)).

Lemma crypt_eq secret h body :
  header_valid h → 0 <= Header_Length h → len body <= Header_Length h →
  crypt secret (mkPacket (Some h) (Some body)) =
  Ok (mkPacket (Some h) (Some (obfuscate secret h body))).
Proof.
  intros Hv H0 Hl. unfold crypt, obfuscate. cbn [Packet_Header Packet_Body].
  destruct (HeaderFlag_Has _ _); [done|].
  destruct (Header_MarshalBinary_valid h Hv) as (v0 & Hver & _).
  unfold pad_seed. rewrite Hver. cbn [SessionID_MarshalBinary mbind outcome_bind].
  rewrite pad_loop_pseudo_pad, xor_body_spec, pseudo_pad_len by done.
  destruct (Z.leb_spec (len body) (Header_Length h)); [done|lia].
Qed.

Lemma obfuscate_len secret h body :
  0 <= Header_Length h → len body <= Header_Length h → len (obfuscate secret h body) = len body.
Proof.
  intros. unfold obfuscate. case_match; [done|].
  rewrite len_zip_with, pseudo_pad_len by done. lia.
Qed.

Lemma obfuscate_involutive secret h body :
  0 <= Header_Length h → len body <= Header_Length h →
  obfuscate secret h (obfuscate secret h body) = body.
Proof.
  intros. unfold obfuscate. case_match; [done|].
  apply zip_bxor_involutive. by rewrite pseudo_pad_len.
Qed.

(** The single-connect flag a decoder adds has no part in the pad. *)
Lemma header_decoded_Unencrypted h :
  HeaderFlag_Has (Header_Flags (header_decoded h)) UnencryptedFlag =
  HeaderFlag_Has (Header_Flags h) UnencryptedFlag.
Proof.
  unfold header_decoded. destruct (Header_SeqNo h =? 2); [|done].
  unfold HeaderFlag_Has. cbn [SetHeaderFlag Header_Flags]. unfold HeaderFlag_Set.
  replace (band (bor (Header_Flags h) SingleConnect) UnencryptedFlag)
    with (band (Header_Flags h) UnencryptedFlag); [done|].
  by destruct (Header_Flags h).
Qed.

Lemma obfuscate_decoded secret h body :
  obfuscate secret (header_decoded h) body = obfuscate secret h body.
Proof.
  unfold obfuscate. rewrite header_decoded_Unencrypted.
  unfold header_decoded. by destruct (Header_SeqNo h =? 2).
Qed.
End Pad.
