(* ===== verification/Crypter.v ===== *)
(** The [crypter] of crypt.go: a connection with a buffered reader, the shared
    secret of the peer, and the reads and writes of whole packets. *)
From S2P Require Import Prelude.
From S2P Require Import Buffer.
From S2P Require Import HeaderFields.
From S2P Require Import AuthenFields.
From S2P Require Import AuthorFields.
From S2P Require Import Header.
From S2P Require Import Codec.
From S2P Require Import Authenticate.
From S2P Require Import Authorize.
From S2P Require Import Accounting.
From S2P Require Import MD5.
From S2P Require Import Proxy.
From S2P Require Import Crypt.

(** ** The connection

    The bytes the peer sends before the connection ends, and the error a read
    gets then ([io.EOF], or what the connection fails with); the writes that
    reached the peer, and what the next writes will return. The two addresses
    of the connection do not change. *)
Record crypter := mkCrypter {
  c_secret : list byte;
  c_proxy : bool;
  c_local : Addr;
  c_remote : Addr;
  c_in : list byte;
  c_in_end : error;
  c_out : list (list byte);
  c_write_errs : list (option error);
}.

Definition newCrypter (secret : list byte) (local remote : Addr) (input : list byte)
    (input_end : error) (write_errs : list (option error)) (proxy : bool) : crypter :=
  mkCrypter secret proxy local remote input input_end [] write_errs.

Definition set_in (c : crypter) (input : list byte) : crypter :=
  mkCrypter (c_secret c) (c_proxy c) (c_local c) (c_remote c) input (c_in_end c)
    (c_out c) (c_write_errs c).

Definition set_out (c : crypter) (out : list (list byte)) (errs : list (option error)) : crypter :=
  mkCrypter (c_secret c) (c_proxy c) (c_local c) (c_remote c) (c_in c) (c_in_end c) out errs.

(** [io.ReadFull] of [n] bytes: no byte at all gives the error of the
    connection, a part of them turns [io.EOF] into [io.ErrUnexpectedEOF]. *)
Definition ReadFull (n : Z) : SM crypter (list byte) := λ c,
  if n <=? len (c_in c) then
    (Ok (take (Z.to_nat n) (c_in c)), set_in c (drop (Z.to_nat n) (c_in c)))
  else
    (Err (if bool_decide (c_in c = []) then c_in_end c
          else if bool_decide (c_in_end c = EOF) then ErrUnexpectedEOF else c_in_end c),
     set_in c []).

(** The input up to and including the delimiter, and the rest. *)
Fixpoint split_at_byte (delim : byte) (s : list byte) : option (list byte * list byte) :=
  match s with
  | [] => None
  | b :: s =>
    if decide (b = delim) then Some ([b], s)
    else match split_at_byte delim s with
         | Some (line, rest) => Some (b :: line, rest)
         | None => None
         end
  end.

(** [bufio.Reader.ReadBytes]. *)
Definition ReadBytes (delim : byte) : SM crypter (list byte) := λ c,
  match split_at_byte delim (c_in c) with
  | Some (line, rest) => (Ok line, set_in c rest)
  | None => (Err (c_in_end c), set_in c [])
  end.

(** [net.Conn.Write]. *)
Definition conn_Write (b : list byte) : SM crypter Z := λ c,
  match c_write_errs c with
  | Some e :: errs => (Err e, set_out c (c_out c) errs)
  | errs => (Ok (len b), set_out c (c_out c ++ [b]) (tail errs))
  end.

(** ** Bad secrets *)

(** [if err := Unmarshal(p.Body, &t); errors.As(err, &badSecret) { errCnt++ }] *)
Definition bad_secret_cnt (T : Type) `{EncoderDecoder T} (body : list byte) : outcome Z :=
  match Unmarshal (T := T) body with
  | Err (BadSecretErr _) => Ok 1
  | Panic => Panic
  | _ => Ok 0
  end.

(** [b, err := NewXReply(...).MarshalBinary()], then the header reset; the
    header is the one of the packet that was read. *)
Definition badSecretReply (h : Header) : outcome Packet :=
  b ← (if decide (Header_Type h = Authenticate) then
         MarshalBinary (NewAuthenReply [SetAuthenReplyStatus AuthenStatusError;
                                        SetAuthenReplyServerMsg (str "bad secret")])
       else if decide (Header_Type h = Authorize) then
         MarshalBinary (NewAuthorReply [SetAuthorReplyStatus AuthorStatusError;
                                        SetAuthorReplyServerMsg (str "bad secret")])
       else if decide (Header_Type h = Accounting) then
         MarshalBinary (NewAcctReply [SetAcctReplyStatus AcctReplyStatusError;
                                      SetAcctReplyServerMsg (str "bad secret")])
       else Err (Errorf "unknown header type [%v]"));
  let h := SetHeaderSeqNo 1 h in
  Ok (NewPacket [SetPacketHeader h; SetPacketBody b]).

Definition detectBadSecret (p : Packet) : outcome (option Packet) :=
  match Packet_Header p with
  | None => Panic
  | Some h =>
    let body := default [] (Packet_Body p) in
    if HeaderFlag_Has (Header_Flags h) UnencryptedFlag then Ok None
    else if decide (Header_Type h = Authenticate) then
      n1 ← bad_secret_cnt AuthenStart body;
      n2 ← bad_secret_cnt AuthenContinue body;
      n3 ← bad_secret_cnt AuthenReply body;
      if n1 + n2 + n3 =? 3 then r ← badSecretReply h; Ok (Some r) else Ok None
    else if decide (Header_Type h = Authorize) then
      n1 ← bad_secret_cnt AuthorRequest body;
      n2 ← bad_secret_cnt AuthorReply body;
      if n1 + n2 =? 2 then r ← badSecretReply h; Ok (Some r) else Ok None
    else if decide (Header_Type h = Accounting) then
      n1 ← bad_secret_cnt AcctRequest body;
      n2 ← bad_secret_cnt AcctReply body;
      if n1 + n2 =? 2 then r ← badSecretReply h; Ok (Some r) else Ok None
    else Ok None
  end.

(** ** Packets *)
Section Packets.
Context {HH : Hash}.

(** [write]: the length is set, the body obfuscated, the packet encoded and
    sent. The packet the caller passed holds the obfuscated body afterwards;
    no caller uses it again. *)
Definition crypter_write (p : option Packet) : SM crypter Z :=
  match p with
  | None => sm_err (Errorf "handler error, packet cannot be nil")
  | Some p =>
    match Packet_Body p, Packet_Header p with
    | None, _ => sm_err (Errorf "handler error, packet.Body cannot be nil")
    | _, None => sm_lift Panic
    | Some body, Some h =>
      let p := mkPacket (Some (set_Length h (u32 (len body)))) (Some body) in
      c ← sm_get;
      p ← sm_lift (crypt (c_secret c) p);
      b ← sm_lift (Packet_MarshalBinary p);
      conn_Write b
    end
  end.

(** The error of a read of the proxy line: [io.EOF] is passed on as it is. *)
Definition wrap_proxy_err (e : error) : error :=
  if decide (e = EOF) then EOF else Errorf "unable to read header proxy line; %w".

Definition strip_proxy : SM crypter unit := λ c,
  match ReadBytes x00 c with
  | (Ok line, c') =>
    match ProxyHeader_Write (proxy_NewHeader (c_local c) (c_remote c)) line with
    | Ok _ => (Ok tt, c')
    | Err _ => (Err (Errorf "unable to extract proxy header; %w"), c')
    | Panic => (Panic, c')
    end
  | (Err e, c') => (Err (wrap_proxy_err e), c')
  | (Panic, c') => (Panic, c')
  end.

(** Both errors that end the read of a packet with a bad secret. *)
Definition report_bad_secret (reply : Packet) : SM crypter Packet := λ c,
  match crypter_write (Some reply) c with
  | (Ok _, c') => (Err (Errorf "bad secret detected for sessionID [%v]"), c')
  | (Err _, c') => (Err (Errorf "bad secret, crypt write fail for session [%v]: %v"), c')
  | (Panic, c') => (Panic, c')
  end.

(** The body of [read] below the proxy line. The capacity that [append] leaves
    behind the bytes is of no consequence (Packet_UnmarshalBinary_spare). *)
Definition read_packet : SM crypter Packet :=
  h ← ReadFull MaxHeaderLength;
  s ← sm_lift (be_Uint32 (drop 8 h));
  if MaxBodyLength <? s then
    sm_err (Errorf "max header length exceeded in crypt read, aborting")
  else
    b ← ReadFull s;
    p ← sm_lift (Packet_UnmarshalBinary (Some (full_slice (h ++ b))));
    c ← sm_get;
    p ← sm_lift (crypt (c_secret c) p);
    reply ← sm_lift (detectBadSecret p);
    match reply with
    | Some reply => report_bad_secret reply
    | None => mret p
    end.

Definition crypter_read : SM crypter Packet :=
  c ← sm_get;
  (if c_proxy c then strip_proxy else mret tt) ;;
  read_packet.
End Packets.

#[global] Arguments ReadFull : simpl never.
#[global] Arguments read_packet : simpl never.
#[global] Arguments crypter_read : simpl never.
#[global] Arguments crypter_write : simpl never.

(** ** Facts *)

Lemma split_at_byte_app delim line rest :
  delim ∉ line → split_at_byte delim ((line ++ [delim]) ++ rest) = Some (line ++ [delim], rest).
Proof.
  induction line as [|b line IH]; intros Hd; cbn [app split_at_byte].
  - by rewrite decide_True.
  - apply not_elem_of_cons in Hd as [? ?]. rewrite decide_False by done. by rewrite IH.
Qed.

Lemma split_at_byte_suffix delim s line rest :
  split_at_byte delim s = Some (line, rest) → s = line ++ rest.
Proof.
  revert line. induction s as [|b s IH]; intros line; [done|]. cbn [split_at_byte].
  case_decide; [by intros [= <- <-]|].
  destruct (split_at_byte delim s) as [[l r]|]; [|done]. intros [= <- <-]. by rewrite (IH l).
Qed.

Lemma ReadFull_app c b rest :
  c_in c = b ++ rest → ReadFull (len b) c = (Ok b, set_in c rest).
Proof.
  intros E. unfold ReadFull. rewrite E, len_app.
  pose proof (len_nonneg rest).
  destruct (Z.leb_spec (len b) (len b + len rest)); [|lia].
  by rewrite take_len_app, drop_len_app.
Qed.

Lemma ReadFull_ok n c b c' :
  0 <= n → ReadFull n c = (Ok b, c') → c_in c = b ++ c_in c' ∧ len b = n ∧ c' = set_in c (c_in c').
Proof.
  unfold ReadFull. intros Hn. destruct (Z.leb_spec n (len (c_in c))); [|done].
  intros [= <- <-]. split_and!; [by cbn; rewrite take_drop| |done].
  rewrite len_take. unfold len in *. lia.
Qed.

(** No packet body can make the search for a bad secret panic. *)
Lemma bad_secret_cnt_ok {T} `{Codec T} body :
  ∃ n, bad_secret_cnt T body = Ok n ∧ (n = 0 ∨ n = 1).
Proof.
  unfold bad_secret_cnt, Unmarshal. pose proof (codec_returns (T := T) body) as Hr.
  destruct (UnmarshalBinary body) as [a|[]|]; eauto. done.
Qed.

Lemma bad_secret_cnt_accepts {T} `{Codec T} body (a : T) :
  UnmarshalBinary body = Ok a → bad_secret_cnt T body = Ok 0.
Proof. unfold bad_secret_cnt, Unmarshal. by intros ->. Qed.

(** The reply to a bad secret: the same session and flags, sequence number 1. *)
Lemma badSecretReply_cases h :
  (∃ b, badSecretReply h = Ok (mkPacket (Some (set_Length (SetHeaderSeqNo 1 h) (len b))) (Some b)) ∧
        len b <= 65535) ∨
  (∃ e, badSecretReply h = Err e).
Proof.
  unfold badSecretReply. repeat case_decide.
  1-3: left; lazymatch goal with
       | |- context [MarshalBinary ?x] =>
         let b := eval vm_compute in (MarshalBinary x) in
         replace (MarshalBinary x) with b by (vm_compute; reflexivity);
         lazymatch b with Ok ?b => exists b end
       end; split; [reflexivity|]; vm_compute; discriminate.
  right. by eexists.
Qed.

Lemma badSecretReply_returns h : returns (badSecretReply h).
Proof. destruct (badSecretReply_cases h) as [(b & -> & _)|[e ->]]; done. Qed.

Lemma detectBadSecret_returns h body :
  returns (detectBadSecret (mkPacket (Some h) body)).
Proof.
  unfold detectBadSecret. cbn [Packet_Header Packet_Body].
  set (d := default [] body).
  assert (∀ h, returns (r ← badSecretReply h; Ok (Some r))) as Hr.
  { intros h'. apply bind_returns; [apply badSecretReply_returns|done]. }
  destruct (@bad_secret_cnt_ok AuthenStart _ _ d) as (n1 & -> & _).
  destruct (@bad_secret_cnt_ok AuthenContinue _ _ d) as (n2 & -> & _).
  destruct (@bad_secret_cnt_ok AuthenReply _ _ d) as (n3 & -> & _).
  destruct (@bad_secret_cnt_ok AuthorRequest _ _ d) as (n4 & -> & _).
  destruct (@bad_secret_cnt_ok AuthorReply _ _ d) as (n5 & -> & _).
  destruct (@bad_secret_cnt_ok AcctRequest _ _ d) as (n6 & -> & _).
  destruct (@bad_secret_cnt_ok AcctReply _ _ d) as (n7 & -> & _).
  cbn [mbind outcome_bind]. repeat case_match; auto; done.
Qed.

Section PacketFacts.
Context {HH : Hash}.

(** *** Writing *)

Definition sized (h : Header) (body : list byte) : Header := set_Length h (len body).

(** A packet with a valid header and a body of at most 65536 bytes is sent
    as one write: the encoded header, then the obfuscated body. *)
Lemma crypter_write_valid c h body :
  header_valid (sized h body) →
  ∃ hb, Header_MarshalBinary (sized h body) = Ok hb ∧
    crypter_write (Some (mkPacket (Some h) (Some body))) c =
    conn_Write (hb ++ obfuscate (c_secret c) (sized h body) body) c.
Proof.
  intros Hv. pose proof Hv as (_ & _ & _ & Hlen).
  destruct (Header_MarshalBinary_valid _ Hv) as (v0 & _ & Hm).
  eexists. split; [exact Hm|].
  unfold crypter_write. cbn [Packet_Header Packet_Body].
  unfold u32. unfold sized in *. cbn [Header_Length set_Length] in Hlen. unfold MaxBodyLength in Hlen.
  pose proof (len_nonneg body). rewrite Z.mod_small by lia.
  unfold sm_get, sm_lift, mbind, sm_bind.
  rewrite crypt_eq by (done || cbn; lia).
  unfold Packet_MarshalBinary. cbn [Packet_Header Packet_Body Header_Length set_Length].
  destruct (Z.ltb_spec MaxBodyLength (len body)); [unfold MaxBodyLength in *; lia|].
  by rewrite Hm.
Qed.

(** The length that was set before is of no consequence. *)
Lemma crypter_write_valid_sized c h body :
  header_valid (sized h body) →
  crypter_write (Some (mkPacket (Some (sized h body)) (Some body))) c =
  crypter_write (Some (mkPacket (Some h) (Some body))) c.
Proof. done. Qed.

Lemma crypt_err_or_body secret h body :
  (∃ e, crypt secret (mkPacket (Some h) (Some body)) = Err e) ∨
  (∃ body', crypt secret (mkPacket (Some h) (Some body)) = Ok (mkPacket (Some h) (Some body'))) ∨
  (len body > Header_Length h ∨ Header_Length h < 0).
Proof.
  unfold crypt. cbn [Packet_Header Packet_Body].
  destruct (HeaderFlag_Has _ _); [right; left; by eexists|].
  cbn [SessionID_MarshalBinary mbind outcome_bind].
  destruct (Version_MarshalBinary (Header_Version h)) as [v|e|] eqn:Hver; [|left; by eexists|].
  - destruct (Z_lt_le_dec (Header_Length h) 0) as [|H0]; [by right; right; right|].
    cbn [mbind outcome_bind].
    rewrite pad_loop_pseudo_pad, xor_body_spec, pseudo_pad_len by done.
    destruct (Z.leb_spec (len body) (Header_Length h)); right; [left; by eexists|right; left; lia].
  - exfalso. revert Hver. apply bind_returns; [validator_returns|done].
Qed.

(** An invalid packet is reported and nothing is sent. *)
Lemma crypter_write_invalid c h body :
  len body < 4294967296 → ¬ header_valid (sized h body) →
  ∃ e, crypter_write (Some (mkPacket (Some h) (Some body))) c = (Err e, c).
Proof.
  intros Hlen Hv. unfold crypter_write. cbn [Packet_Header Packet_Body].
  unfold u32. pose proof (len_nonneg body). rewrite Z.mod_small by lia.
  change (set_Length h (len body)) with (sized h body).
  unfold sm_get, sm_lift, mbind, sm_bind.
  destruct (crypt_err_or_body (c_secret c) (sized h body) body)
    as [[e ->]|[[b' ->]|Hbad]]; [by eexists| |cbn in Hbad; lia].
  unfold Packet_MarshalBinary. cbn [Packet_Header Packet_Body].
  destruct (MaxBodyLength <? _); [by eexists|].
  assert (∃ e, Header_MarshalBinary (sized h body) = Err e) as [e ->]; [|by eexists].
  destruct (Header_Validate (sized h body)) as [[]|e|] eqn:Hval.
  - by apply Header_Validate_spec in Hval.
  - exists e. unfold Header_MarshalBinary. by rewrite Hval.
  - exfalso. revert Hval. apply bind_returns; [fields_return|]. intros _ _. by case_match.
Qed.

Lemma header_valid_dec h : {header_valid h} + {¬ header_valid h}.
Proof.
  destruct (Header_Validate h) as [[]|e|] eqn:E.
  - left. by apply Header_Validate_spec.
  - right. intros Hv%Header_Validate_spec. congruence.
  - right. intros Hv%Header_Validate_spec. congruence.
Qed.

Lemma conn_Write_fst b c : returns (conn_Write b c).1.
Proof. unfold conn_Write. by destruct (c_write_errs c) as [|[]]. Qed.

Lemma crypter_write_returns c h body :
  len body < 4294967296 → returns (crypter_write (Some (mkPacket (Some h) (Some body))) c).1.
Proof.
  intros. destruct (header_valid_dec (sized h body)) as [Hv|Hv].
  - destruct (crypter_write_valid c h body Hv) as (hb & _ & ->). apply conn_Write_fst.
  - by destruct (crypter_write_invalid c h body) as [e ->].
Qed.

(** *** Reading *)

(** A slice that holds a whole packet is decoded without its spare capacity. *)
Lemma Packet_UnmarshalBinary_spare hb h eb spare :
  Header_UnmarshalBinary hb = Ok h → len hb = 12 → Header_Length h = len eb →
  Packet_UnmarshalBinary (Some (mkSlice (hb ++ eb) spare)) = Ok (mkPacket (Some h) (Some eb)).
Proof.
  intros Hh H12 Hl. pose proof (Header_UnmarshalBinary_valid _ _ Hh) as ((_ & _ & _ & Hmax) & _).
  unfold Packet_UnmarshalBinary. change MaxHeaderLength with 12. rewrite <- H12, slice_0.
  cbn [mbind outcome_bind]. rewrite Hh.
  destruct (Z.ltb_spec MaxBodyLength (Header_Length h)); [lia|].
  rewrite Hl. pose proof (slice_app hb eb [] spare) as Hs. rewrite app_nil_r in Hs. by rewrite Hs.
Qed.

Lemma Packet_UnmarshalBinary_app hb h eb :
  Header_UnmarshalBinary hb = Ok h → len hb = 12 → Header_Length h = len eb →
  Packet_UnmarshalBinary (Some (full_slice (hb ++ eb))) = Ok (mkPacket (Some h) (Some eb)).
Proof. apply Packet_UnmarshalBinary_spare. Qed.

Lemma be_Uint32_Length hb h :
  Header_UnmarshalBinary hb = Ok h → be_Uint32 (drop 8 hb) = Ok (Header_Length h).
Proof.
  intros Hh. destruct (Header_UnmarshalBinary_cases hb)
    as [[e He]|(h' & He & _ & _ & _ & d0 & d1 & d2 & d3 & d4 & d5 & d6 & d7 & d8 & d9
              & d10 & d11 & rest & -> & _ & _ & _ & _ & _ & Hln)]; [congruence|].
  rewrite Hh in He. apply Ok_inj in He as <-.
  by apply (be_Uint32_app _ _ rest) in Hln.
Qed.

(** What a read does once a whole packet with a readable header is there. *)
Lemma read_packet_gen c hb h eb rest :
  Header_UnmarshalBinary hb = Ok h → len hb = 12 → Header_Length h = len eb →
  c_in c = hb ++ eb ++ rest →
  read_packet c =
  match detectBadSecret (mkPacket (Some h) (Some (obfuscate (c_secret c) h eb))) with
  | Ok None => (Ok (mkPacket (Some h) (Some (obfuscate (c_secret c) h eb))), set_in c rest)
  | Ok (Some reply) => report_bad_secret reply (set_in c rest)
  | Err e => (Err e, set_in c rest)
  | Panic => (Panic, set_in c rest)
  end.
Proof.
  intros Hh H12 Hl Hin. pose proof (Header_UnmarshalBinary_valid _ _ Hh) as (Hv & _ & _).
  pose proof Hv as (_ & _ & _ & Hmax).
  unfold read_packet, mbind, sm_bind, sm_lift. change MaxHeaderLength with 12.
  rewrite <- H12, (ReadFull_app c hb (eb ++ rest)) by done.
  rewrite (be_Uint32_Length _ _ Hh).
  destruct (Z.ltb_spec MaxBodyLength (Header_Length h)); [lia|].
  rewrite Hl, (ReadFull_app (set_in c (eb ++ rest)) eb rest) by done.
  rewrite (Packet_UnmarshalBinary_app hb h eb) by done. unfold sm_get.
  change (c_secret (set_in (set_in c (eb ++ rest)) rest)) with (c_secret c).
  change (set_in (set_in c (eb ++ rest)) rest) with (set_in c rest).
  pose proof (len_nonneg eb). rewrite crypt_eq by (done || lia).
  destruct (detectBadSecret _) as [[]| |]; done.
Qed.

(** Otherwise the read fails, and nothing is written. *)
Lemma read_packet_cases c :
  (∃ hb h eb rest, c_in c = hb ++ eb ++ rest ∧ Header_UnmarshalBinary hb = Ok h ∧
      len hb = 12 ∧ Header_Length h = len eb) ∨
  (∃ e rest, read_packet c = (Err e, set_in c rest)).
Proof.
  unfold read_packet, mbind, sm_bind, sm_lift, sm_err.
  destruct (ReadFull MaxHeaderLength c) as [[hb|e|] c1] eqn:E1.
  2:{ right. unfold ReadFull in E1. case_match; [done|]. injection E1 as <- <-. by eexists _, _. }
  2:{ unfold ReadFull in E1. by case_match. }
  apply ReadFull_ok in E1 as (Hin1 & H12 & Hc1); [|done]. unfold MaxHeaderLength in H12.
  destruct (be_Uint32 (drop 8 hb)) as [s|e|] eqn:Es.
  2-3: exfalso; destruct hb as [|? [|? [|? [|? [|? [|? [|? [|? [|? [|? [|? [|? ?]]]]]]]]]]]];
    try (unfold len in H12; simpl in H12; lia); done.
  destruct (Z.ltb_spec MaxBodyLength s); [right; rewrite Hc1; by eexists _, _|].
  pose proof (be_Uint32_range _ _ Es) as Hs.
  destruct (ReadFull s c1) as [[eb|e|] c2] eqn:E2.
  2:{ right. unfold ReadFull in E2. case_match; [done|]. injection E2 as <- <-.
      rewrite Hc1. by eexists _, _. }
  2:{ unfold ReadFull in E2. by case_match. }
  apply ReadFull_ok in E2 as (Hin2 & Hlen & Hc2); [|lia].
  destruct (Header_UnmarshalBinary hb) as [h|e|] eqn:Eh.
  - left. exists hb, h, eb, (c_in c2). split_and!; try done; [by rewrite Hin1, Hin2|].
    rewrite (be_Uint32_Length _ _ Eh) in Es. injection Es as ->. done.
  - right. unfold Packet_UnmarshalBinary, full_slice. change MaxHeaderLength with 12.
    rewrite <- H12, slice_0. cbn [mbind outcome_bind]. rewrite Eh.
    rewrite Hc2, Hc1. by eexists _, _.
  - by apply Header_UnmarshalBinary_returns in Eh.
Qed.

Lemma report_bad_secret_returns h body c :
  len body < 4294967296 → returns (report_bad_secret (mkPacket (Some h) (Some body)) c).1.
Proof.
  intros Hl. pose proof (crypter_write_returns c h body Hl) as Hr.
  unfold report_bad_secret. by destruct (crypter_write _ c) as [[] ?].
Qed.

(** A reply, when there is one, is the one for a bad secret. *)
Lemma detectBadSecret_reply h body r :
  detectBadSecret (mkPacket (Some h) (Some body)) = Ok (Some r) → badSecretReply h = Ok r.
Proof.
  unfold detectBadSecret. cbn [Packet_Header Packet_Body].
  assert (∀ h, (r' ← badSecretReply h; Ok (Some r')) = Ok (Some r) → badSecretReply h = Ok r) as Hr.
  { intros h' Hb. apply bind_ok in Hb as (r' & -> & [= ->]). done. }
  case_match; [done|].
  repeat case_decide; intros Hb; outcome_inv;
    repeat (apply bind_ok in Hb as (? & ? & Hb)); try done;
    revert Hb; case_match; try done; apply Hr.
Qed.

Lemma read_packet_returns c : returns (read_packet c).1.
Proof.
  destruct (read_packet_cases c) as [(hb & h & eb & rest & Hin & Hh & H12 & Hl)|(e & rest & ->)];
    [|done].
  rewrite (read_packet_gen c hb h eb rest) by done.
  pose proof (detectBadSecret_returns h (Some (obfuscate (c_secret c) h eb))) as Hd.
  destruct (detectBadSecret _) as [[r|]| |] eqn:Er; try done.
  apply detectBadSecret_reply in Er.
  destruct (badSecretReply_cases h) as [(b & Hb & Hlen)|[e He]]; [|congruence].
  rewrite Er in Hb. apply Ok_inj in Hb as ->. apply report_bad_secret_returns. lia.
Qed.
End PacketFacts.

(** *** What the server relies on *)
Section ServerFacts.
Context {HH : Hash}.

Lemma strip_proxy_cases c :
  (∃ rest, strip_proxy c = (Ok tt, set_in c rest) ∧ len rest <= len (c_in c)) ∨
  (∃ e rest, strip_proxy c = (Err e, set_in c rest)).
Proof.
  unfold strip_proxy, ReadBytes.
  destruct (split_at_byte x00 (c_in c)) as [[line rest]|] eqn:E; [|right; by eexists _, _].
  apply split_at_byte_suffix in E.
  destruct (ProxyHeader_Write _ line) as [a|e|] eqn:Ew; [left|right; by eexists _, _|].
  - exists rest. split; [done|]. rewrite E. len_lia.
  - exfalso. revert Ew. unfold ProxyHeader_Write. repeat case_match; done.
Qed.

Lemma crypter_read_noproxy c : c_proxy c = false → crypter_read c = read_packet c.
Proof. intros Hp. unfold crypter_read, mbind, sm_bind, sm_get. by rewrite Hp. Qed.

Lemma strip_proxy_line c line rest a :
  x00 ∉ line → c_in c = (line ++ [x00]) ++ rest →
  ProxyHeader_Write (proxy_NewHeader (c_local c) (c_remote c)) (line ++ [x00]) = Ok a →
  strip_proxy c = (Ok tt, set_in c rest).
Proof.
  intros Hz Hin Hw. unfold strip_proxy, ReadBytes. rewrite Hin.
  rewrite split_at_byte_app by done. by rewrite Hw.
Qed.

(** A read that returns a packet has consumed at least a header and has
    written nothing; the header is valid and announces the body's length. *)
Definition packet_read (c : crypter) (p : Packet) (c' : crypter) : Prop :=
  ∃ h body rest, p = mkPacket (Some h) (Some body) ∧ c' = set_in c rest ∧
    header_valid h ∧ header_typed h ∧ Header_Length h = len body ∧
    len rest + 12 <= len (c_in c).

Lemma report_bad_secret_err reply c : ∀ p c', report_bad_secret reply c ≠ (Ok p, c').
Proof. intros p c'. unfold report_bad_secret. by destruct (crypter_write _ c) as [[] ?]. Qed.

Lemma read_packet_ok c p c' : read_packet c = (Ok p, c') → packet_read c p c'.
Proof.
  destruct (read_packet_cases c) as [(hb & h & eb & rest & Hin & Hh & H12 & Hl)|(e & rest & ->)];
    [|done].
  rewrite (read_packet_gen c hb h eb rest) by done.
  destruct (detectBadSecret _) as [[r|]| |]; try done.
  { intros Hr. by apply report_bad_secret_err in Hr. }
  intros [= <- <-]. apply Header_UnmarshalBinary_valid in Hh as (Hv & Ht & _).
  exists h, (obfuscate (c_secret c) h eb), rest. pose proof (len_nonneg eb).
  rewrite obfuscate_len by lia. rewrite Hin, !len_app.
  split_and!; done || lia.
Qed.

Lemma crypter_read_ok c p c' : crypter_read c = (Ok p, c') → packet_read c p c'.
Proof.
  unfold crypter_read, mbind, sm_bind, sm_get. destruct (c_proxy c); [|apply read_packet_ok].
  destruct (strip_proxy_cases c) as [(rest & -> & Hlen)|(e & rest & ->)]; [|done].
  intros (h & body & rest' & -> & -> & Hv & Ht & Hl & Hrest)%read_packet_ok.
  exists h, body, rest'. cbn in Hrest. split_and!; done || lia.
Qed.

Lemma crypter_read_returns c : returns (crypter_read c).1.
Proof.
  unfold crypter_read, mbind, sm_bind, sm_get. destruct (c_proxy c); [|apply read_packet_returns].
  destruct (strip_proxy_cases c) as [(rest & -> & _)|(e & rest & ->)]; [|done].
  apply read_packet_returns.
Qed.

(** Writing leaves the input and the identity of the connection alone. *)
Definition same_input (c c' : crypter) : Prop :=
  c_in c' = c_in c ∧ c_in_end c' = c_in_end c ∧ c_secret c' = c_secret c ∧
  c_proxy c' = c_proxy c ∧ c_local c' = c_local c ∧ c_remote c' = c_remote c.

Lemma conn_Write_same_input b c : same_input c (conn_Write b c).2.
Proof. unfold conn_Write. by destruct (c_write_errs c) as [|[]]. Qed.

Lemma crypter_write_same_input p c : same_input c (crypter_write p c).2.
Proof.
  unfold crypter_write. destruct p as [[[h|] [body|]]|]; try done.
  unfold sm_get, sm_lift, mbind, sm_bind. cbn [Packet_Body Packet_Header].
  destruct (crypt _ _) as [p|e|]; [|done|done].
  destruct (Packet_MarshalBinary p) as [b|e|]; [|done|done].
  apply conn_Write_same_input.
Qed.
End ServerFacts.

#[export] Instance same_input_preorder : PreOrder same_input.
Proof.
  split; [done|]. intros a b c (?&?&?&?&?&?) (?&?&?&?&?&?). unfold same_input. intuition congruence.
Qed.

(** *** Detection of bad secrets *)

(** A decoder that reports a bad secret. *)
Definition refused (T : Type) `{EncoderDecoder T} (body : list byte) : Prop :=
  ∃ msg, UnmarshalBinary (T := T) body = Err (BadSecretErr msg).

Definition accepted (T : Type) `{EncoderDecoder T} (body : list byte) : Prop :=
  ∃ a : T, UnmarshalBinary body = Ok a.

(** Every body the packet type allows is refused; some is accepted. *)
Definition all_refused (t : HeaderType) (body : list byte) : Prop :=
  (t = Authenticate ∧ refused AuthenStart body ∧ refused AuthenContinue body ∧ refused AuthenReply body) ∨
  (t = Authorize ∧ refused AuthorRequest body ∧ refused AuthorReply body) ∨
  (t = Accounting ∧ refused AcctRequest body ∧ refused AcctReply body).

Definition some_accepted (t : HeaderType) (body : list byte) : Prop :=
  (t = Authenticate ∧ (accepted AuthenStart body ∨ accepted AuthenContinue body ∨ accepted AuthenReply body)) ∨
  (t = Authorize ∧ (accepted AuthorRequest body ∨ accepted AuthorReply body)) ∨
  (t = Accounting ∧ (accepted AcctRequest body ∨ accepted AcctReply body)).

Lemma bad_secret_cnt_spec {T} `{Codec T} body :
  (refused T body ∧ bad_secret_cnt T body = Ok 1) ∨ (¬ refused T body ∧ bad_secret_cnt T body = Ok 0).
Proof.
  unfold bad_secret_cnt, Unmarshal, refused. pose proof (codec_returns (T := T) body) as Hr.
  destruct (UnmarshalBinary body) as [a|[msg|f| | |code]|]; [..|done];
    [right|left; split; [by eexists|done]|right..]; (split; [intros [? ?]; congruence|done]).
Qed.

Lemma accepted_not_refused {T} `{Codec T} body : accepted T body → ¬ refused T body.
Proof. intros [a Ha] [msg Hm]. congruence. Qed.

(** The reply of [detectBadSecret], by the verdict of the decoders. *)
Lemma detectBadSecret_refused h body :
  HeaderFlag_Has (Header_Flags h) UnencryptedFlag = false → all_refused (Header_Type h) body →
  detectBadSecret (mkPacket (Some h) (Some body)) = (r ← badSecretReply h; Ok (Some r)).
Proof.
  intros Hf Hr. unfold detectBadSecret. cbn [Packet_Header Packet_Body from_option id]. rewrite Hf.
  destruct Hr as [(-> & H1 & H2 & H3)|[(-> & H1 & H2)|(-> & H1 & H2)]].
  - rewrite decide_True by done.
    destruct (@bad_secret_cnt_spec AuthenStart _ _ body) as [[_ ->]|[? _]]; [|done].
    destruct (@bad_secret_cnt_spec AuthenContinue _ _ body) as [[_ ->]|[? _]]; [|done].
    by destruct (@bad_secret_cnt_spec AuthenReply _ _ body) as [[_ ->]|[? _]].
  - rewrite decide_False, decide_True by done.
    destruct (@bad_secret_cnt_spec AuthorRequest _ _ body) as [[_ ->]|[? _]]; [|done].
    by destruct (@bad_secret_cnt_spec AuthorReply _ _ body) as [[_ ->]|[? _]].
  - rewrite !decide_False, decide_True by done.
    destruct (@bad_secret_cnt_spec AcctRequest _ _ body) as [[_ ->]|[? _]]; [|done].
    by destruct (@bad_secret_cnt_spec AcctReply _ _ body) as [[_ ->]|[? _]].
Qed.

Lemma detectBadSecret_not_refused h body :
  HeaderFlag_Has (Header_Flags h) UnencryptedFlag = true ∨ ¬ all_refused (Header_Type h) body →
  detectBadSecret (mkPacket (Some h) (Some body)) = Ok None.
Proof.
  intros Hr. unfold detectBadSecret. cbn [Packet_Header Packet_Body from_option id].
  destruct (HeaderFlag_Has _ _); [done|]. destruct Hr as [|Hr]; [done|]. unfold all_refused in Hr.
  destruct (decide (Header_Type h = Authenticate)) as [Et|_];
    [|destruct (decide (Header_Type h = Authorize)) as [Et|_];
      [|destruct (decide (Header_Type h = Accounting)) as [Et|_]; [|done]]].
  - destruct (@bad_secret_cnt_spec AuthenStart _ _ body) as [[? ->]|[_ ->]],
      (@bad_secret_cnt_spec AuthenContinue _ _ body) as [[? ->]|[_ ->]],
      (@bad_secret_cnt_spec AuthenReply _ _ body) as [[? ->]|[_ ->]]; try done.
    exfalso. apply Hr. by left.
  - destruct (@bad_secret_cnt_spec AuthorRequest _ _ body) as [[? ->]|[_ ->]],
      (@bad_secret_cnt_spec AuthorReply _ _ body) as [[? ->]|[_ ->]]; try done.
    exfalso. apply Hr. right. by left.
  - destruct (@bad_secret_cnt_spec AcctRequest _ _ body) as [[? ->]|[_ ->]],
      (@bad_secret_cnt_spec AcctReply _ _ body) as [[? ->]|[_ ->]]; try done.
    exfalso. apply Hr. right. by right.
Qed.

Lemma some_accepted_not_refused t body : some_accepted t body → ¬ all_refused t body.
Proof.
  unfold some_accepted, all_refused.
  intros Ha Hr. pose proof (@accepted_not_refused AuthenStart _ _ body).
  pose proof (@accepted_not_refused AuthenContinue _ _ body).
  pose proof (@accepted_not_refused AuthenReply _ _ body).
  pose proof (@accepted_not_refused AuthorRequest _ _ body).
  pose proof (@accepted_not_refused AuthorReply _ _ body).
  pose proof (@accepted_not_refused AcctRequest _ _ body).
  pose proof (@accepted_not_refused AcctReply _ _ body).
  assert (Authenticate ≠ Authorize ∧ Authenticate ≠ Accounting ∧ Authorize ≠ Accounting) as (?&?&?) by done.
  destruct Ha as [[-> ?]|[[-> ?]|[-> ?]]]; intuition congruence.
Qed.

(** What the check lets through: a body sent in the clear, or one that some
    decoder does not refuse. *)
Definition passes (h : Header) (body : list byte) : Prop :=
  HeaderFlag_Has (Header_Flags h) UnencryptedFlag = true ∨ ¬ all_refused (Header_Type h) body.

Lemma some_accepted_passes h body : some_accepted (Header_Type h) body → passes h body.
Proof. intros Ha. right. by apply some_accepted_not_refused. Qed.

Lemma header_decoded_Type h : Header_Type (header_decoded h) = Header_Type h.
Proof. unfold header_decoded. by destruct (_ =? 2). Qed.

Lemma header_decoded_SessionID h : Header_SessionID (header_decoded h) = Header_SessionID h.
Proof. unfold header_decoded. by destruct (_ =? 2). Qed.

Lemma passes_decoded h body : passes (header_decoded h) body ↔ passes h body.
Proof. unfold passes. by rewrite header_decoded_Unencrypted, header_decoded_Type. Qed.

(** *** The reply to a bad secret *)

(** The decoded body of the reply, by packet type. *)
Definition bad_secret_body (t : HeaderType) (b : list byte) : Prop :=
  (t = Authenticate →
     UnmarshalBinary b = Ok (mkAuthenReply AuthenStatusError x00 (str "bad secret") [])) ∧
  (t = Authorize →
     UnmarshalBinary b = Ok (mkAuthorReply AuthorStatusError [] (str "bad secret") [])) ∧
  (t = Accounting →
     UnmarshalBinary b = Ok (mkAcctReply AcctReplyStatusError (str "bad secret") [])).

Lemma badSecretReply_ok h :
  header_valid h →
  ∃ b, badSecretReply h = Ok (mkPacket (Some (set_Length (SetHeaderSeqNo 1 h) (len b))) (Some b)) ∧
    len b <= 65535 ∧ bad_secret_body (Header_Type h) b ∧ some_accepted (Header_Type h) b.
Proof.
  intros (_ & Ht & _). apply HeaderType_Validate_spec in Ht.
  unfold badSecretReply, bad_secret_body, some_accepted.
  destruct Ht as [->|[->| ->]];
    [rewrite decide_True by done|rewrite decide_False, decide_True by done
    |rewrite !decide_False, decide_True by done];
    lazymatch goal with
    | |- context [MarshalBinary ?x] =>
      let b := eval vm_compute in (MarshalBinary x) in
      replace (MarshalBinary x) with b by (vm_compute; reflexivity);
      lazymatch b with Ok ?b => exists b end
    end; (split; [reflexivity|]; split; [vm_compute; discriminate|]; split;
      [split_and!; intros [=]; vm_compute; reflexivity|]).
  - left. split; [done|]. right. right. eexists. vm_compute. reflexivity.
  - right. left. split; [done|]. right. eexists. vm_compute. reflexivity.
  - right. right. split; [done|]. right. eexists. vm_compute. reflexivity.
Qed.
