(* ===== verification/Sessions.v ===== *)
(** The sessions of a connection: sessions.go. The map holds, per session id,
    the last header and the handler of the next packet; the handlers are a
    parameter. Mutex and timers have no part in the results. *)
From S2P Require Import Prelude.
From S2P Require Import HeaderFields.
From S2P Require Import Header.

Section Sessions.
Context {H : Type}.

(** A [Handler] of the source may be nil. *)
Record sessionContext := mkSessionContext {
  sc_header : Header;
  sc_Handler : option H;
}.

Local Abbreviation sessions := (gmap Z sessionContext).

Definition newSessionProvider : sessions := ∅.

Definition sessions_delete (s : sessions) (session : SessionID) : sessions := delete session s.

(** [get]: the handler, or nil for an unknown session, and the sessions left. *)
Definition sessions_get (s : sessions) (h : Header) : outcome (option H) * sessions :=
  match ClientSequenceNumber_Validate (u8 (Header_SeqNo h)) CondNil with
  | Ok _ =>
    match s !! Header_SessionID h with
    | None => (Ok None, s)
    | Some sc =>
      match LastSequence_Validate (u8 (Header_SeqNo (sc_header sc)))
              (CondSequenceNumber (Header_SeqNo h)) with
      | Ok _ => (Ok (sc_Handler sc), s)
      | Err _ => (Err (Errorf "sessionID [%v] sequence number is mismatched; %v"), s)
      | Panic => (Panic, s)
      end
    end
  | Err _ =>
    (Err (Errorf "sessionID [%v] sequence number is corrupted; %v"),
     sessions_delete s (Header_SessionID h))
  | Panic => (Panic, s)
  end.

Definition sessions_set (s : sessions) (h : Header) (n : option H) : sessions :=
  <[Header_SessionID h := mkSessionContext h n]> s.

Definition sessions_update (s : sessions) (h : Header) (n : option H) : sessions :=
  match s !! Header_SessionID h with
  | None => s
  | Some _ => <[Header_SessionID h := mkSessionContext h n]> s
  end.

(** ** Facts *)

(** The result of [get], on every branch. *)
Lemma sessions_get_cases s h :
  let id := Header_SessionID h in
  (¬ Z.Odd (Header_SeqNo h mod 256) ∧
   ∃ e, sessions_get s h = (Err e, delete id s)) ∨
  (Z.Odd (Header_SeqNo h mod 256) ∧ s !! id = None ∧ sessions_get s h = (Ok None, s)) ∨
  (∃ sc, Z.Odd (Header_SeqNo h mod 256) ∧ s !! id = Some sc ∧
    ((Header_SeqNo (sc_header sc) mod 256 < Header_SeqNo h mod 256 ∧
      sessions_get s h = (Ok (sc_Handler sc), s)) ∨
     (Header_SeqNo h mod 256 <= Header_SeqNo (sc_header sc) mod 256 ∧
      ∃ e, sessions_get s h = (Err e, s)))).
Proof.
  intros id. unfold sessions_get. subst id.
  destruct (ClientSequenceNumber_Validate _ _) as [[]|e|] eqn:Ec.
  - apply ClientSequenceNumber_Validate_spec in Ec. rewrite b2z_u8 in Ec. right.
    destruct (s !! Header_SessionID h) as [sc|] eqn:Es; [right; exists sc|by left].
    split; [done|]. split; [done|].
    destruct (LastSequence_Validate _ _) as [[]|e|] eqn:El.
    + apply LastSequence_Validate_spec in El. rewrite b2z_u8 in El. by left.
    + right. split; [|by eexists]. destruct (Z_lt_le_dec
        (Header_SeqNo (sc_header sc) mod 256) (Header_SeqNo h mod 256)) as [Hlt|]; [|done].
      rewrite <- b2z_u8 in Hlt at 1. apply LastSequence_Validate_spec in Hlt. congruence.
    + exfalso. revert El. validator_returns.
  - left. split; [|by eexists]. rewrite <- b2z_u8. intros Hodd.
    eapply (ClientSequenceNumber_Validate_spec _ CondNil) in Hodd. congruence.
  - exfalso. revert Ec. validator_returns.
Qed.

(** The invariant of the loop that serves a connection: every session in the
    map has a handler and is filed under the session id of its header. *)
Definition sessions_ok (s : sessions) : Prop :=
  map_Forall (λ id sc, Header_SessionID (sc_header sc) = id ∧ is_Some (sc_Handler sc)) s.

Lemma sessions_ok_empty : sessions_ok newSessionProvider.
Proof. apply map_Forall_empty. Qed.

Lemma sessions_ok_delete s id : sessions_ok s → sessions_ok (sessions_delete s id).
Proof. apply map_Forall_delete. Qed.

Lemma sessions_ok_get s h r s' : sessions_get s h = (r, s') → sessions_ok s → sessions_ok s'.
Proof.
  destruct (sessions_get_cases s h) as [[_ [e ->]]|[(_ & _ & ->)|(sc & _ & _ & [[_ ->]|[_ [e ->]]])]];
    intros [= <- <-] Hok; [by apply sessions_ok_delete|done..].
Qed.

Lemma sessions_ok_update s h n :
  sessions_ok (delete (Header_SessionID h) s) → sessions_ok (sessions_update s h (Some n)).
Proof.
  intros Hs. unfold sessions_update. destruct (s !! Header_SessionID h) eqn:E.
  - rewrite <- insert_delete_eq. apply map_Forall_insert_2; [|done]. split; [done|by eexists].
  - by rewrite delete_id in Hs.
Qed.
End Sessions.

Arguments sessionContext : clear implicits.
Abbreviation sessions H := (gmap Z (sessionContext H)).
