(* ===== verification/Response.v ===== *)
(** The interface between the server and its handlers: handlers.go and
    ctx_keys.go. A handler is called with a request and a response; what it
    does to the response is a state transformer. *)
From S2P Require Import Prelude.
From S2P Require Import Buffer.
From S2P Require Import HeaderFields.
From S2P Require Import AuthenFields.
From S2P Require Import AuthorFields.
From S2P Require Import Header.
From S2P Require Import Codec.
From S2P Require Import Authenticate.
From S2P Require Import Authorize.
From S2P Require Import Accounting.
From S2P Require Import MD5.
From S2P Require Import Crypt.
From S2P Require Import Crypter.

(** ** Requests *)
Abbreviation fields := (gmap gostring gostring).

Definition ContextReqID : gostring := str "reqID".
Definition ContextSessionID : gostring := str "session-id".
Definition ContextConnRemoteAddr : gostring := str "conn-remote-addr".

(** The values of a [context.Context] the code looks up are strings. *)
Record Request := mkRequest {
  Request_Header : Header;
  Request_Body : list byte;
  Request_Context : option fields;
}.

(** [merge(a, b)]: the entries of [b] over those of [a]. *)
Definition merge (a b : fields) : fields := b ∪ a.

(** [if err := Unmarshal(r.Body, &t); err == nil { merge(allFields, t.Fields()); return allFields }] *)
Definition merge_fields (T : Type) `{EncoderDecoder T} (body : list byte) (allFields : fields)
    (otherwise : option fields) : option fields :=
  match Unmarshal (T := T) body with
  | Ok t => Some (merge allFields (Fields t))
  | _ => otherwise
  end.

(** [nil] is [None]: no decoder accepted the body. *)
Definition Request_Fields (r : Request) (keys : list gostring) : option fields :=
  let allFields := Header_Fields (Request_Header r) in
  let allFields :=
    match Request_Context r with
    | None => allFields
    | Some ctx => foldl (λ m key, match ctx !! key with Some v => <[key := v]> m | None => m end)
                        allFields keys
    end in
  let body := Request_Body r in
  let t := Header_Type (Request_Header r) in
  if decide (t = Authenticate) then
    merge_fields AuthenStart body allFields
      (merge_fields AuthenContinue body allFields
        (merge_fields AuthenReply body allFields None))
  else if decide (t = Authorize) then
    merge_fields AuthorRequest body allFields
      (merge_fields AuthorReply body allFields None)
  else if decide (t = Accounting) then
    merge_fields AcctRequest body allFields
      (merge_fields AcctReply body allFields None)
  else None.

(** ** What handlers do to the world besides replying *)
Inductive event :=
| EvRecord (r : option fields) (obscure : list gostring)  (* loggerProvider.Record *)
| EvSink (format : gostring)                              (* the accounting log *)
| EvSyslog (line : gostring)                              (* the system log *)
| EvSpan (b : list byte).                                 (* the span connection *)

(** The effects so far, and the errors the next external calls will report. *)
Record env := mkEnv {
  env_events : list event;
  env_answers : list (option error);
}.

Definition emit (e : event) (w : env) : env := mkEnv (env_events w ++ [e]) (env_answers w).

Definition env_Record (r : option fields) (obscure : list gostring) : env → env :=
  emit (EvRecord r obscure).

(** An external call: its error, if any. *)
Definition env_call (w : env) : option error * env :=
  match env_answers w with
  | [] => (None, w)
  | a :: rest => (a, mkEnv (env_events w) rest)
  end.

(** An [io.Writer] registered with a response. *)
Class Writer (W : Type) := writer_Write : W → list byte → SM env Z.

(** What has happened stays: effects are added to those before. *)
Definition grows (w w' : env) : Prop := env_events w `prefix_of` env_events w'.

Class WriterLaws (W : Type) `{Writer W} :=
  Write_grows mw b w : grows w (writer_Write mw b w).2.

(** The dynamic types of the [EncoderDecoder]s that are passed to [Reply]. *)
Inductive reply :=
| RAuthen (r : AuthenReply)
| RAuthor (r : AuthorReply)
| RAcct (r : AcctReply).

Definition reply_MarshalBinary (v : reply) : outcome (list byte) :=
  match v with
  | RAuthen r => MarshalBinary r
  | RAuthor r => MarshalBinary r
  | RAcct r => MarshalBinary r
  end.

(** ** Responses *)
Section Response.
Context {HH : Hash} {H W : Type} {WW : Writer W}.

Record response := mkResponse {
  r_crypter : crypter;
  r_next : option H;
  r_header : Header;
  r_writers : list W;
  r_ctx : option fields;
  r_env : env;
}.

Definition set_crypter (r : response) (c : crypter) : response :=
  mkResponse c (r_next r) (r_header r) (r_writers r) (r_ctx r) (r_env r).
Definition set_header (r : response) (h : Header) : response :=
  mkResponse (r_crypter r) (r_next r) h (r_writers r) (r_ctx r) (r_env r).
Definition set_env (r : response) (w : env) : response :=
  mkResponse (r_crypter r) (r_next r) (r_header r) (r_writers r) (r_ctx r) w.

Definition response_Write (p : option Packet) : SM response Z := λ r,
  let '(n, c) := crypter_write p (r_crypter r) in (n, set_crypter r c).

Definition response_Next (next : option H) : SM response unit := λ r,
  (Ok tt, mkResponse (r_crypter r) next (r_header r) (r_writers r) (r_ctx r) (r_env r)).

Definition response_RegisterWriter (mw : W) : SM response unit := λ r,
  (Ok tt, mkResponse (r_crypter r) (r_next r) (r_header r) (r_writers r ++ [mw]) (r_ctx r) (r_env r)).

(** [for _, mw := range r.writers { mw.Write(pbytes) }]: an error is only
    logged. *)
Fixpoint write_all (ws : list W) (b : list byte) : SM env unit :=
  match ws with
  | [] => mret tt
  | mw :: ws => λ w,
    match writer_Write mw b w with
    | (Panic, w') => (Panic, w')
    | (_, w') => write_all ws b w'
    end
  end.

Definition reply_seqNo (h : Header) (v : reply) : Z :=
  let seqNo := Header_SeqNo h in
  match v with
  | RAuthen t => if decide (AuthenReply_Status t = AuthenStatusRestart) then 1 else seqNo + 1
  | _ => seqNo + 1
  end.

Definition reply_header (h : Header) (v : reply) : Header :=
  NewHeader [SetHeaderVersion (Header_Version h);
             SetHeaderType (Header_Type h);
             SetHeaderSeqNo (reply_seqNo h v);
             SetHeaderFlag (Header_Flags h);
             SetHeaderSessionID (Header_SessionID h)].

Definition response_Reply (v : reply) : SM response Z := λ r,
  let header := reply_header (r_header r) v in
  match reply_MarshalBinary v with
  | Err e => (Err e, r)
  | Panic => (Panic, r)
  | Ok b =>
    let r := set_header r header in
    let p := NewPacket [SetPacketHeader header; SetPacketBody b] in
    match Packet_MarshalBinary p with
    | Panic => (Panic, r)
    | Err _ => response_Write (Some p) r
    | Ok pbytes =>
      let '(o, w) := write_all (r_writers r) pbytes (r_env r) in
      let r := set_env r w in
      match o with
      | Panic => (Panic, r)
      | _ => response_Write (Some p) r
      end
    end
  end.

(** A handler ignores what [Reply] returns. *)
Definition reply_ (v : reply) : SM response unit := λ r,
  match response_Reply v r with
  | (Panic, r') => (Panic, r')
  | (_, r') => (Ok tt, r')
  end.

(** [loggerProvider.Record]. *)
Definition record (r : option fields) (obscure : list gostring) : SM response unit := λ rs,
  (Ok tt, set_env rs (env_Record r obscure (r_env rs))).
End Response.

Arguments response : clear implicits.
#[global] Arguments response_Reply : simpl never.
#[global] Arguments response_Write : simpl never.

(** ** Handlers

    What the handlers promise to the server that calls them: they do not touch
    the input of the connection, they leave the session of the response alone,
    and what they do to the world is added to what was done before. *)
Class Handler (H W : Type) := Handle : H → Request → SM (response H W) unit.

Class HandlerLaws (H W : Type) `{Handler H W} := {
  Handle_input h req r :
    same_input (r_crypter r) (r_crypter (Handle h req r).2);
  Handle_session h req r :
    Header_SessionID (r_header (Handle h req r).2) = Header_SessionID (r_header r);
  Handle_grows h req r : grows (r_env r) (r_env (Handle h req r).2);
}.

(** ** Facts *)

(** The header of a reply: the next sequence number in the session of the
    request, all other fields copied. *)
Lemma reply_header_fields h v :
  Header_Version (reply_header h v) = Header_Version h ∧
  Header_Type (reply_header h v) = Header_Type h ∧
  Header_SeqNo (reply_header h v) = u16 (reply_seqNo h v) ∧
  Header_SessionID (reply_header h v) = Header_SessionID h ∧
  Header_Flags (reply_header h v) = Header_Flags h ∧
  Header_Length (reply_header h v) = 0.
Proof. done. Qed.

#[export] Instance grows_preorder : PreOrder grows.
Proof. split; [intros w; unfold grows; reflexivity|]. intros a b c. unfold grows. by etrans. Qed.

Lemma emit_grows e w : grows w (emit e w).
Proof. by exists [e]. Qed.

Lemma env_call_grows w : grows w (env_call w).2.
Proof. unfold env_call, grows. by destruct (env_answers w); cbn. Qed.

Section ResponseFacts.
Context {HH : Hash} {H W : Type} {WW : Writer W} {WL : WriterLaws W}.
Implicit Types r : response H W.

(** The parts of a response that the writes to it keep, and its effects. *)
Definition same_session (r r' : response H W) : Prop :=
  same_input (r_crypter r) (r_crypter r') ∧
  Header_SessionID (r_header r') = Header_SessionID (r_header r) ∧
  grows (r_env r) (r_env r').

#[export] Instance same_session_preorder : PreOrder same_session.
Proof.
  split; [by intros r; split_and!|]. intros a b c (? & ? & ?) (? & ? & ?).
  split_and!; [by etrans|congruence|by etrans].
Qed.

(** A computation on a response that keeps them. *)
Definition keeps {A} (m : SM (response H W) A) : Prop := ∀ r, same_session r (m r).2.

Lemma keeps_ret {A} (a : A) : keeps (mret a).
Proof. by intros r. Qed.

Lemma keeps_bind {A B} (m : SM (response H W) A) (k : A → SM (response H W) B) :
  keeps m → (∀ a, keeps (k a)) → keeps (m ≫= k).
Proof.
  intros Hm Hk r. unfold mbind, sm_bind. specialize (Hm r).
  destruct (m r) as [[a|e|] r'] eqn:E; [|done|done]. cbn in Hm. etrans; [done|apply Hk].
Qed.

Lemma keeps_lift {A} (o : outcome A) : keeps (sm_lift o).
Proof. by intros r. Qed.

Lemma keeps_get : keeps sm_get.
Proof. by intros r. Qed.

Lemma keeps_Write p : keeps (response_Write p).
Proof.
  intros r. unfold response_Write.
  pose proof (crypter_write_same_input p (r_crypter r)) as Hs.
  by destruct (crypter_write p (r_crypter r)) as [n c].
Qed.

Lemma keeps_Next n : keeps (response_Next n).
Proof. by intros r. Qed.

Lemma keeps_RegisterWriter mw : keeps (response_RegisterWriter mw).
Proof. by intros r. Qed.

Lemma keeps_record f o : keeps (record f o).
Proof. intros r. split_and!; [done..|]. apply emit_grows. Qed.

Lemma write_all_grows ws b w : grows w (write_all ws b w).2.
Proof using WL.
  revert w. induction ws as [|mw ws IH]; intros w; [done|]. cbn [write_all].
  pose proof (Write_grows mw b w) as Hw. destruct (writer_Write mw b w) as [[n|e|] w1]; [| |done];
    (etrans; [exact Hw|apply IH]).
Qed.

Lemma keeps_Reply v : keeps (response_Reply v).
Proof using WL.
  intros r. unfold response_Reply.
  destruct (reply_MarshalBinary v) as [b|e|]; [|done|done].
  assert (∀ w, grows (r_env r) w →
    same_session r (set_env (set_header r (reply_header (r_header r) v)) w)) as Hr
    by (intros w Hw; by split_and!).
  destruct (Packet_MarshalBinary _) as [pbytes|e|]; [| |done].
  - pose proof (write_all_grows (r_writers r) pbytes (r_env r)) as Hw.
    destruct (write_all _ _ _) as [[[]|e|] w]; [| |exact (Hr w Hw)];
      (etrans; [exact (Hr w Hw)|apply keeps_Write]).
  - etrans; [exact (Hr (r_env r) (reflexivity _))|apply keeps_Write].
Qed.

Lemma keeps_reply_ v : keeps (reply_ v).
Proof using WL.
  intros r. unfold reply_. pose proof (keeps_Reply v r) as Hk.
  by destruct (response_Reply v r) as [[] r'].
Qed.
End ResponseFacts.

Create HintDb keeps discriminated.
#[export] Hint Resolve keeps_ret keeps_bind keeps_lift keeps_get keeps_Write keeps_Next
  keeps_RegisterWriter keeps_record keeps_Reply keeps_reply_ : keeps.
#[export] Hint Extern 0 (WriterLaws _) => typeclasses eauto : keeps.
