(* ===== verification/Server.v ===== *)
(** The loop that serves a connection: server.go. One turn of the loop reads a
    packet, finds the handler of its session, calls it and keeps or drops the
    session. The listener is in Listener.v, the gauges in Metrics.v;
    deadlines are not modelled. *)
From S2P Require Import Prelude.
From S2P Require Import GoStrings.
From S2P Require Import HeaderFields.
From S2P Require Import Header.
From S2P Require Import MD5.
From S2P Require Import Proxy.
From S2P Require Import Crypt.
From S2P Require Import Crypter.
From S2P Require Import Sessions.
From S2P Require Import Response.

(** [stripPort]. *)
Definition stripPort (ip : gostring) : gostring :=
  let i := strings_LastIndexByte ip x3a in
  if negb (i =? -1) then take (Z.to_nat i) ip else ip.

Section Server.
Context {HH : Hash} {H W : Type} {WW : Writer W} {HS : Handler H W}.

(** What [handle] keeps between two packets. *)
Record conn_state := mkConn {
  cs_crypter : crypter;
  cs_known : sessions H;
  cs_env : env;
}.

(** The loop goes on, has returned, or a panic has ended the process. *)
Inductive conn :=
| Open (s : conn_state)
| Closed (s : conn_state)
| Crashed (s : conn_state).

Definition newRequest (ctx : fields) (c : crypter) (p : Packet) : option Request :=
  let remoteAddrCtx := <[ContextConnRemoteAddr := stripPort (addr_String (c_remote c))]> ctx in
  match Packet_Header p with
  | None => None
  | Some h => Some (mkRequest h (default [] (Packet_Body p)) (Some remoteAddrCtx))
  end.

(** The part of a turn after the handler has returned. *)
Definition end_turn (known : sessions H) (req : Request) (resp : response H W) : conn :=
  let known :=
    match r_next resp with
    | None => sessions_delete known (Header_SessionID (Request_Header req))
    | Some n => sessions_update known (r_header resp) (Some n)
    end in
  Open (mkConn (r_crypter resp) known (r_env resp)).

(** One turn of the loop; [h] is the handler of a new session. *)
Definition serve_packet (h : H) (ctx : fields) (s : conn_state) : conn :=
  match crypter_read (cs_crypter s) with
  | (Panic, c) => Crashed (mkConn c (cs_known s) (cs_env s))
  | (Err _, c) => Closed (mkConn c (cs_known s) (cs_env s))
  | (Ok packet, c) =>
    match newRequest ctx c packet with
    | None => Crashed (mkConn c (cs_known s) (cs_env s))
    | Some req =>
      let resp := mkResponse c None (Request_Header req) [] (Request_Context req) (cs_env s) in
      match sessions_get (cs_known s) (Request_Header req) with
      | (Panic, known) => Crashed (mkConn c known (cs_env s))
      | (Err _, known) => Closed (mkConn c known (cs_env s))
      | (Ok state, known) =>
        let '(state, known) :=
          match state with
          | Some st => (st, known)
          | None => (h, sessions_set known (Request_Header req) None)
          end in
        match Handle state req resp with
        | (Panic, resp) => Crashed (mkConn (r_crypter resp) known (r_env resp))
        | (_, resp) => end_turn known req resp
        end
      end
    end
  end.

(** [handle], up to [fuel] turns; [None] when they were not enough. *)
Fixpoint serve (fuel : nat) (h : H) (ctx : fields) (s : conn) : option conn :=
  match s with
  | Open st =>
    match fuel with
    | O => None
    | S fuel => serve fuel h ctx (serve_packet h ctx st)
    end
  | _ => Some s
  end.

Definition new_conn (c : crypter) (w : env) : conn := Open (mkConn c newSessionProvider w).

(** The loop with the cancellation of its context, which may come before any
    turn. *)
Inductive step (h : H) (ctx : fields) : conn → conn → Prop :=
| step_cancel s : step h ctx (Open s) (Closed s)
| step_packet s : step h ctx (Open s) (serve_packet h ctx s).

Definition reachable (h : H) (ctx : fields) (c : crypter) (w : env) : conn → Prop :=
  rtc (step h ctx) (new_conn c w).

(** ** Facts *)

Definition conn_st (s : conn) : conn_state :=
  match s with Open s | Closed s | Crashed s => s end.

Lemma newRequest_read ctx c p c' :
  packet_read c p c' →
  ∃ h body, p = mkPacket (Some h) (Some body) ∧
    newRequest ctx c' p =
      Some (mkRequest h body (Some (<[ContextConnRemoteAddr := stripPort (addr_String (c_remote c'))]> ctx))).
Proof. intros (h & body & rest & -> & _). by exists h, body. Qed.

(** Every way a turn can end, by what was read and what the session says. *)
Lemma serve_packet_cases h ctx s :
  (∃ c' e, crypter_read (cs_crypter s) = (Err e, c') ∧
    serve_packet h ctx s = Closed (mkConn c' (cs_known s) (cs_env s))) ∨
  (∃ hd body c',
    crypter_read (cs_crypter s) = (Ok (mkPacket (Some hd) (Some body)), c') ∧
    packet_read (cs_crypter s) (mkPacket (Some hd) (Some body)) c' ∧
    let req := mkRequest hd body (Some (<[ContextConnRemoteAddr := stripPort (addr_String (c_remote c'))]> ctx)) in
    let resp := mkResponse c' None hd [] (Request_Context req) (cs_env s) in
    ((∃ e known, sessions_get (cs_known s) hd = (Err e, known) ∧
        serve_packet h ctx s = Closed (mkConn c' known (cs_env s))) ∨
     (∃ state st known, sessions_get (cs_known s) hd = (Ok state, cs_known s) ∧
        st = default h state ∧
        known = match state with Some _ => cs_known s | None => sessions_set (cs_known s) hd None end ∧
        ((∃ resp', Handle st req resp = (Panic, resp') ∧
            serve_packet h ctx s = Crashed (mkConn (r_crypter resp') known (r_env resp'))) ∨
         (returns (Handle st req resp).1 ∧
            serve_packet h ctx s = end_turn known req (Handle st req resp).2))))).
Proof.
  unfold serve_packet. pose proof (crypter_read_returns (cs_crypter s)) as Hret.
  destruct (crypter_read (cs_crypter s)) as [[p|e|] c'] eqn:Hr; [right|left; by eexists _, _|done].
  apply crypter_read_ok in Hr as Hp. destruct (newRequest_read ctx _ _ _ Hp) as (hd & body & -> & ->).
  exists hd, body, c'. split; [done|]. split; [done|]. cbv zeta. cbn [Request_Header Request_Context].
  destruct (sessions_get (cs_known s) hd) as [[state|e|] known] eqn:Hg.
  - right. assert (known = cs_known s) as ->.
    { destruct (sessions_get_cases (cs_known s) hd)
        as [[_ [e He]]|[(_ & _ & He)|(sc & _ & _ & [[_ He]|[_ [e He]]])]]; congruence. }
    exists state, (default h state).
    destruct state as [st|]; (eexists; split; [done|]; split; [done|]; split; [done|]; cbn [from_option id];
      match goal with |- context [Handle ?a ?b ?c] => destruct (Handle a b c) as [[u|e|] resp'] eqn:E end;
      [by right|by right|by left; eexists]).
  - left. by eexists _, _.
  - exfalso. destruct (sessions_get_cases (cs_known s) hd)
        as [[_ [e He]]|[(_ & _ & He)|(sc & _ & _ & [[_ He]|[_ [e He]]])]]; congruence.
Qed.
End Server.

Arguments conn_state : clear implicits.
Arguments conn : clear implicits.

(** What holds of the loop for every handler that keeps its promises. *)
Section ServerFacts.
Context {HH : Hash} {H W : Type} {WW : Writer W} {HS : Handler H W} {HL : HandlerLaws H W}.

(** The sessions a turn that goes on leaves: those of other ids are the ones
    it found, and the map stays well formed. *)
Lemma end_turn_sessions known known' req (resp : response H W) s' :
  end_turn known req resp = Open s' →
  Header_SessionID (r_header resp) = Header_SessionID (Request_Header req) →
  delete (Header_SessionID (Request_Header req)) known =
    delete (Header_SessionID (Request_Header req)) known' →
  sessions_ok known' →
  sessions_ok (cs_known s') ∧
  delete (Header_SessionID (Request_Header req)) (cs_known s') =
    delete (Header_SessionID (Request_Header req)) known'.
Proof.
  set (id := Header_SessionID (Request_Header req)).
  intros [= <-] Hid Hd Hok. cbn [cs_known].
  assert (sessions_ok (delete id known)) as Hok' by (rewrite Hd; by apply sessions_ok_delete).
  destruct (r_next resp) as [n|].
  - split; [apply sessions_ok_update; by rewrite Hid|].
    unfold sessions_update. rewrite Hid, <- Hd. fold id. destruct (known !! id); [|done].
    apply delete_insert_eq.
  - split; [done|]. unfold sessions_delete. fold id. rewrite delete_delete_eq. done.
Qed.

(** What a turn that goes on has done: it consumed a packet, kept the
    sessions well formed and those of other ids as they were. *)
Lemma serve_packet_open h ctx s s' :
  serve_packet h ctx s = Open s' → sessions_ok (cs_known s) →
  len (c_in (cs_crypter s')) + 12 <= len (c_in (cs_crypter s)) ∧
  sessions_ok (cs_known s') ∧
  ∃ hd body c',
    crypter_read (cs_crypter s) = (Ok (mkPacket (Some hd) (Some body)), c') ∧
    delete (Header_SessionID hd) (cs_known s') = delete (Header_SessionID hd) (cs_known s).
Proof using HL.
  intros Hs Hok.
  destruct (serve_packet_cases h ctx s) as [(c' & e & _ & He)|(hd & body & c' & Hread & Hp & Hc)];
    [congruence|].
  cbv zeta in Hc.
  destruct Hc as [(e & known & _ & He)|(state & st & known & Hg & -> & Hknown & [(r' & _ & He)|[_ He]])];
    [congruence..|].
  rewrite Hs in He. symmetry in He.
  match type of He with end_turn _ ?rq (Handle ?st ?rq ?rs).2 = _ =>
    pose proof (Handle_input st rq rs) as Hin; pose proof (Handle_session st rq rs) as Hsess;
    set (req := rq) in *; set (resp := (Handle st rq rs).2) in *
  end.
  assert (delete (Header_SessionID hd) known = delete (Header_SessionID hd) (cs_known s)) as Hd.
  { rewrite Hknown. destruct state; [done|]. apply delete_insert_eq. }
  pose proof (end_turn_sessions known (cs_known s) req resp s' He Hsess Hd Hok) as [Hok' Hd'].
  split_and!; [|done|by exists hd, body, c'].
  injection He as <-. cbn [cs_crypter]. destruct Hin as (Hin & _).
  destruct Hp as (h' & b' & rest & _ & Hc' & _ & _ & _ & Hlen).
  match goal with |- len (c_in ?x) + 12 <= _ =>
    replace (c_in x) with (c_in c') by (symmetry; exact Hin) end.
  by rewrite Hc'.
Qed.

(** A turn adds to what the connection has done to the world. *)
Lemma serve_packet_grows h ctx s : grows (cs_env s) (cs_env (conn_st (serve_packet h ctx s))).
Proof using HL.
  destruct (serve_packet_cases h ctx s) as [(c' & e & _ & ->)|(hd & body & c' & _ & _ & Hc)]; [done|].
  cbv zeta in Hc.
  destruct Hc as [(e & known & _ & ->)|(state & st & known & _ & _ & _ & Hc)]; [done|].
  match type of Hc with context [Handle st ?rq ?rs] => pose proof (Handle_grows st rq rs) as Hg end.
  destruct Hc as [(r' & He & ->)|[_ ->]]; [by rewrite He in Hg|exact Hg].
Qed.

(** Enough fuel is one turn per byte of input, and one more. *)
Lemma serve_total h ctx fuel s :
  sessions_ok (cs_known s) → len (c_in (cs_crypter s)) < Z.of_nat fuel →
  ∃ s', serve fuel h ctx (Open s) = Some s' ∧ ∀ st, s' ≠ Open st.
Proof using HL.
  revert s. induction fuel as [|fuel IH]; intros s Hok Hf.
  { pose proof (len_nonneg (c_in (cs_crypter s))). lia. }
  cbn [serve]. destruct (serve_packet h ctx s) as [s1|s1|s1] eqn:E.
  - apply serve_packet_open in E as (Hlen & Hok1 & _); [|done].
    apply IH; [done|]. pose proof (len_nonneg (c_in (cs_crypter s1))). lia.
  - exists (Closed s1). by destruct fuel.
  - exists (Crashed s1). by destruct fuel.
Qed.

(** A run of the loop is a path of the step relation. *)
Lemma serve_rtc fuel h ctx s s' : serve fuel h ctx s = Some s' → rtc (step h ctx) s s'.
Proof.
  revert s. induction fuel as [|fuel IH]; intros [s|s|s] E; try (injection E as <-; done).
  { done. }
  cbn [serve] in E. eapply rtc_l; [apply step_packet|]. by apply IH.
Qed.

(** Rule induction for a property of the running loop. *)
Lemma reachable_ind (P : conn_state H → Prop) h ctx c w :
  P (mkConn c newSessionProvider w) →
  (∀ s s', P s → serve_packet h ctx s = Open s' → P s') →
  ∀ s, reachable h ctx c w (Open s) → P s.
Proof.
  intros H0 Hstep s Hr.
  change (match Open s with Open s => P s | _ => True end). revert Hr. generalize (Open s).
  apply rtc_ind_r; [done|]. intros y z _ Hyz IH. inversion Hyz as [|y' Hy Hz]; subst; [done|].
  destruct (serve_packet h ctx y') as [s'| |] eqn:E; [|done..]. by apply (Hstep y').
Qed.

Lemma reachable_sessions_ok h ctx c w s :
  reachable h ctx c w (Open s) → sessions_ok (cs_known s).
Proof using HL.
  apply (reachable_ind (λ s, sessions_ok (cs_known s))); [apply sessions_ok_empty|].
  intros s1 s2 Hok Hs. by apply serve_packet_open in Hs as (_ & ? & _).
Qed.
End ServerFacts.
