(* ===== verification/Metrics.v ===== *)
(** The metrics of the program: the collectors the five stats.go files declare
    and register, and the gauges that the sessions, the handlers and the wait
    group of a server keep; the other counters are in Counters.v. *)
From S2P Require Import Prelude.
From S2P Require Import GoStrings.
From S2P Require Import Buffer.
From S2P Require Import HeaderFields.
From S2P Require Import Header.

From S2P Require Import MD5.
From S2P Require Import Proxy.
From S2P Require Import Crypter.
From S2P Require Import Sessions.
From S2P Require Import Response.
From S2P Require Import Server.

(** ** Collectors

    What [prometheus.NewGauge], [NewCounter] and [NewSummary] are given: the
    namespace, the name and the help text. The objectives of the summaries are
    all the same. *)
Inductive collector :=
| Gauge (namespace name help : string)
| Counter (namespace name help : string)
| Summary (namespace name help : string).

#[export] Instance collector_eq_dec : EqDecision collector.
Proof. solve_decision. Defined.

Definition collector_name (c : collector) : string * string :=
  match c with Gauge ns n _ | Counter ns n _ | Summary ns n _ => (ns, n) end.

Definition tacquito_stats : list (string * collector) :=
  [("serveAccepted", Gauge "tacquito" "serve_accepted"
      "number of accepted connections within the server");
   ("serveAcceptedError", Counter "tacquito" "serve_accepted_error"
      "number of accepted connection errors within the server");
   ("handlers", Gauge "tacquito" "handle_handlers"
      "number of handlers running within the server");
   ("crypterRead", Counter "tacquito" "crypter_read"
      "number of crypt reads within the server");
   ("crypterReadError", Counter "tacquito" "crypter_read_error"
      "number of crypt read errors within the server");
   ("crypterWrite", Counter "tacquito" "crypter_write"
      "number of crypt writes within the server");
   ("crypterWriteError", Counter "tacquito" "crypter_write_error"
      "number of crypt write errors within the server");
   ("crypterBadSecret", Counter "tacquito" "crypter_badSecret"
      "number of bad secrets");
   ("crypterUnmarshalError", Counter "tacquito" "crypter_unmarshal_error"
      "number of errors unmarshalling in crypter");
   ("crypterCryptError", Counter "tacquito" "crypter_crypt_error"
      "number of errors in crypter crypt()");
   ("crypterMarshalError", Counter "tacquito" "crypter_marshal_error"
      "number of errors marshalling in crypter");
   ("waitgroupActive", Gauge "tacquito" "waitgroup_handle_routines_active"
      "number of active waitgroup go routines within the server");
   ("sessionsActive", Gauge "tacquito" "sessions_active"
      "number of active sessions within the server");
   ("sessionsGetHit", Counter "tacquito" "sessions_get_hit"
      "number of session cache hits within the server");
   ("sessionsGetMiss", Counter "tacquito" "sessions_get_miss"
      "number of session cache misses within the server");
   ("sessionsSet", Counter "tacquito" "sessions_set"
      "number of session set in the cache");
   ("sessionDurations", Summary "tacquito" "sessions_duration_milliseconds"
      "the time a session is a live within tacquito, in milliseconds");
   ("connectionDuration", Summary "tacquito" "serve_connection_duration_milliseconds"
      "total time time of a net.Conn, including overhead, in milliseconds")]%string.

Definition tacquito_init : list string :=
  ["serveAccepted"; "serveAcceptedError"; "handlers"; "crypterRead"; "crypterReadError";
   "crypterWrite"; "crypterWriteError"; "crypterBadSecret"; "crypterUnmarshalError";
   "crypterMarshalError"; "crypterCryptError"; "waitgroupActive"; "sessionsActive"; "sessionsGetHit";
   "sessionsGetMiss"; "sessionsSet"; "sessionDurations"; "connectionDuration"]%string.

(** The login handlers, then authorization, accounting and the span handler. *)
Definition login_stats : list (string * collector) :=
  [("startAuthenticate", Counter "tacquito" "start_handle_authenticate"
      "number of authenticate handlers called");
   ("startAuthorize", Counter "tacquito" "start_handle_authorize"
      "number of authorize handlers called");
   ("startAccounting", Counter "tacquito" "start_handle_accounting"
      "number of accounting handlers called");
   ("authenStartHandleUnexpectedPacket", Counter "tacquito" "authenstart_unexpected_packet"
      "number of authenstart unexpected packets");
   ("authenStartHandleError", Counter "tacquito" "authenstart_handle_error"
      "number of authenstart errors");
   ("authenStartHandlePAP", Counter "tacquito" "authenstart_handle_pap"
      "number of authenstart pap flows");
   ("authenASCIIContinueStop", Counter "tacquito" "authenascii_handle_continuestop"
      "number of authen ascii continuestop packets");
   ("authenASCIIHandleUnexpectedPacket", Counter "tacquito" "authenascii_handle_unexpected_packet"
      "number of authen ascii unexpected packets");
   ("authenASCIIHandleAuthenFail", Counter "tacquito" "authenascii_handle_authen_fail"
      "number of authen ascii authen fail packets");
   ("authenASCIIHandleAuthenError", Counter "tacquito" "authenascii_handle_authen_error"
      "number of authen ascii authen error packets");
   ("authenASCIIHandleNeedUsername", Counter "tacquito" "authenascii_handle_need_username"
      "number of authen ascii packets that require asking for username");
   ("authenASCIIGetUsernameUnexpectedPacket", Counter "tacquito" "authenascii_getUsername_unexpected_packet"
      "number of authen ascii unexpected packets in getUsername call");
   ("authenASCIIGetUsernameAuthenFail", Counter "tacquito" "authenascii_getUsername_authen_fail"
      "number of authen ascii authen fail packets");
   ("authenASCIIGetUsernameAuthenError", Counter "tacquito" "authenascii_getUsername_authen_error"
      "number of authen ascii authen error packets");
   ("authenASCIIGetUsernameMissingUsername", Counter "tacquito" "authenascii_getUsername_missing_username"
      "number of authen ascii packets where a username is not in the received packet");
   ("authenASCIIGetPasswordUnexpectedPacket", Counter "tacquito" "authenascii_getPassword_unexpected_packet"
      "number of authen ascii unexpected packets in the getPassword call");
   ("authenASCIIGetPasswordAuthenFail", Counter "tacquito" "authenascii_getPassword_authen_fail"
      "number of authen ascii authen fail packets");
   ("authenASCIIGetPasswordAuthenError", Counter "tacquito" "authenascii_getPassword_authen_error"
      "number of authen ascii authen error packets");
   ("authenASCIIGetPasswordMissingPassword", Counter "tacquito" "authenascii_getPassword_missing_password_error"
      "number of authen ascii packets where a password is not in the received packet");
   ("authenPAPHandleUnexpectedPacket", Counter "tacquito" "authenpap_handle_unexpected_packet"
      "number of authen pap unexpected packets");
   ("authenPAPHandleAuthenFail", Counter "tacquito" "authenpap_handle_authen_fail"
      "number of authen pap authen fail packets");
   ("authenPAPHandleAuthenError", Counter "tacquito" "authenpap_handle_authen_error"
      "number of authen pap authen error packets");
   ("authenPAPHandleMissingPassword", Counter "tacquito" "authenpap_handle_missing_password_error"
      "number of authen pap packets where a password is not in the received packet");
   ("authenPAPHandleMissingUsername", Counter "tacquito" "authenpap_handle_missing_username"
      "number of authen pap packets where a username is not in the received packet");
   ("authenPAPHandleAuthenticatorNil", Counter "tacquito" "authenpap_handle_authenticator_nil_error"
      "number of authen pap packets where we dont have an authetnicator for the user")]%string.

Definition request_stats : list (string * collector) :=
  [("authorizerHandleUnexpectedPacket", Counter "tacquito" "authorizerequest_handle_unexpected_packet"
      "number of authorize unexpected packets");
   ("authorizerHandleError", Counter "tacquito" "authorizerequest_handle_error"
      "number of authorize error packets");
   ("authorizerHandleAuthorizerNil", Counter "tacquito" "authorizerequest_handle_authorizer_nil_error"
      "number of authorize handlers with nil authorizers for expected user");
   ("accountingHandleUnexpectedPacket", Counter "tacquito" "accountingrequest_handle_unexpected_packet"
      "number of accounting unexpected packets");
   ("accountingHandleAccounterNil", Counter "tacquito" "accountingrequest_handle_accounter_nil"
      "number of accounting handlers with nil authorizers for expected user");
   ("accountingHandleError", Counter "tacquito" "accountingrequest_handle_accounter_error"
      "number of accounting error packets");
   ("spanHandle", Counter "tacquito" "span_handle"
      "number of span handle packets");
   ("spanHandleWriteSuccess", Counter "tacquito" "span_handle_write_success"
      "number of span handle write success");
   ("spanHandleWriteError", Counter "tacquito" "span_handle_write_error"
      "number of span handle write error");
   ("spanHandleError", Counter "tacquito" "span_handle_error"
      "number of span handle errors");
   ("spanDurations", Summary "tacquito" "span_handle_duration_milliseconds"
      "the time spent on a given span handle call, in milliseconds")]%string.

Definition handlers_stats : list (string * collector) := login_stats ++ request_stats.

Definition handlers_init : list string :=
  ["startAuthenticate"; "startAuthorize"; "startAccounting"; "authenStartHandleUnexpectedPacket";
   "authenStartHandleError"; "authenStartHandlePAP"; "authenASCIIContinueStop";
   "authenASCIIHandleUnexpectedPacket"; "authenASCIIHandleAuthenFail"; "authenASCIIHandleAuthenError";
   "authenASCIIHandleNeedUsername"; "authenASCIIGetUsernameUnexpectedPacket";
   "authenASCIIGetUsernameAuthenFail"; "authenASCIIGetUsernameAuthenError";
   "authenASCIIGetUsernameMissingUsername"; "authenASCIIGetPasswordUnexpectedPacket";
   "authenASCIIGetPasswordAuthenFail"; "authenASCIIGetPasswordAuthenError";
   "authenASCIIGetPasswordMissingPassword"; "authenPAPHandleUnexpectedPacket";
   "authenPAPHandleAuthenFail"; "authenPAPHandleAuthenError"; "authenPAPHandleMissingPassword";
   "authenPAPHandleMissingUsername"; "authenPAPHandleAuthenticatorNil";
   "authorizerHandleAuthorizerNil"; "authorizerHandleUnexpectedPacket"; "authorizerHandleError";
   "accountingHandleUnexpectedPacket"; "accountingHandleAccounterNil"; "accountingHandleError";
   "spanHandle"; "spanHandleError"; "spanHandleWriteSuccess"; "spanHandleWriteError"; "spanDurations"]%string.

Definition loader_stats : list (string * collector) :=
  [("secretKnown", Counter "tacquito" "loader_get_secret_known"
      "number of known secret providers in loader.get calls");
   ("secretUnknown", Counter "tacquito" "loader_get_secret_unknown"
      "number of unknown secret providers in loader.get calls");
   ("scope", Counter "tacquito" "loader_build_scope"
      "number of scopes processed");
   ("userScopeDuplicate", Counter "tacquito" "loader_build_user_scope_duplicate"
      "number of duplicate user scopes encountered");
   ("userAuthorizerUnassigned", Counter "tacquito" "loader_build_user_authorizer_unassigned"
      "number of user with unassigned authorizers");
   ("userAuthorizerBadConfigRef", Counter "tacquito" "loader_build_user_authorizer_bad_configref"
      "number of user with bad config ref authorizer");
   ("userAuthenticatorUnassigned", Counter "tacquito" "loader_build_user_authenticator_unassigned"
      "number of user with unassigned authenticators");
   ("userAuthenticatorBadConfigRef", Counter "tacquito" "loader_build_user_authenticator_bad_configref"
      "number of user with bad config ref authenticators");
   ("userAccounterUnassigned", Counter "tacquito" "loader_build_user_accounter_unassigned"
      "number of user with unassigned accounters");
   ("userAccounterBadConfigRef", Counter "tacquito" "loader_build_user_accounter_bad_configref_error"
      "number of user with bad config ref accounters");
   ("userTotal", Counter "tacquito" "loader_build_user_total"
      "number of users processed in a cycle");
   ("userScopeUnassigned", Counter "tacquito" "loader_build_user_scope_unassigned"
      "number of user scopes unassigned");
   ("secretProviderMissing", Counter "tacquito" "loader_build_secret_provider_missing"
      "number of missing secret providers");
   ("providerFactoryMissing", Counter "tacquito" "loader_build_user_provider_factory_missing"
      "number of missing user provider factory");
   ("secretProviderGet", Gauge "tacquito" "loader_build_secret_provider_get"
      "number of active secret provider queries");
   ("buildUpdate", Counter "tacquito" "loader_update_build"
      "number of builds on config updates");
   ("buildGet", Counter "tacquito" "loader_update_get"
      "number of config get calls from updates");
   ("userOverrideAuthenticator", Counter "tacquito" "loader_loader_reduceAuthenticatorAccounterFromGroups_user_override_authenticator"
      "number of user overrides for authenticator");
   ("userOverrideAccounter", Counter "tacquito" "loader_loader_reduceAuthenticatorAccounterFromGroups_user_override_accounter"
      "number of user overrides for accounter");
   ("prefixFilterAllowed", Counter "tacquito" "prefixFilter_allowed"
      "when prefixFilter allows a remote net.Addr, this is incremented");
   ("prefixFilterDenied", Counter "tacquito" "prefixFilter_denied"
      "when prefixFilter denies a remote net.Addr, this is incremented")]%string.

Definition loader_init : list string :=
  ["secretKnown"; "secretUnknown"; "scope"; "userScopeDuplicate"; "userAuthorizerUnassigned";
   "userAuthorizerBadConfigRef"; "userAuthenticatorUnassigned"; "userAuthenticatorBadConfigRef";
   "userAccounterUnassigned"; "userAccounterBadConfigRef"; "userTotal"; "userScopeUnassigned";
   "secretProviderMissing"; "providerFactoryMissing"; "secretProviderGet"; "buildUpdate"; "buildGet";
   "userOverrideAuthenticator"; "userOverrideAccounter"; "prefixFilterAllowed"; "prefixFilterDenied"]%string.

Definition stringy_stats : list (string * collector) :=
  [("stringyHandleAuthorizeAcceptPassReplace", Counter "tacquito" "stringy_handle_authorize_accept_pass_replace"
      "number of stringy authorize accept pass replace packets");
   ("stringyHandleAuthorizeAcceptPassAdd", Counter "tacquito" "stringy_handle_authorize_accept_pass_add"
      "number of stringy authorize accept pass add packets");
   ("stringyHandleAuthorizeFail", Counter "tacquito" "stringy_handle_authorize_fail"
      "number of stringy authorize fail packets");
   ("stringyHandleAuthorizeError", Counter "tacquito" "stringy_handle_authorize_error"
      "number of stringy authorize error packets");
   ("stringyHandleUnexpectedPacket", Counter "tacquito" "stringy_handle_unexpected_packet"
      "number of stringy handle unexpected packets")]%string.

Definition stringy_init : list string :=
  ["stringyHandleAuthorizeAcceptPassReplace"; "stringyHandleAuthorizeAcceptPassAdd";
   "stringyHandleAuthorizeFail"; "stringyHandleAuthorizeError"; "stringyHandleUnexpectedPacket"]%string.

Definition dns_stats : list (string * collector) :=
  [("dnsGetMatch", Counter "tacquito" "secret_provider_dns_get_match"
      "number of dns secret provider matches");
   ("dnsError", Counter "tacquito" "secret_provider_dns_get_error"
      "the number of errors encountered when resolving dns");
   ("dnsDurations", Summary "tacquito" "secret_provider_dns_query_duration_milliseconds"
      "the time it takes for dns queries to respond, in milliseconds")]%string.

Definition dns_init : list string :=
  ["dnsGetMatch"; "dnsError"; "dnsDurations"]%string.

(** The packages with metrics. *)
Inductive package := Tacquito | Handlers | Loader | Stringy | DNS.

#[export] Instance package_eq_dec : EqDecision package.
Proof. solve_decision. Defined.

Definition stats (p : package) : list (string * collector) :=
  match p with
  | Tacquito => tacquito_stats
  | Handlers => handlers_stats
  | Loader => loader_stats
  | Stringy => stringy_stats
  | DNS => dns_stats
  end.

Definition inits (p : package) : list string :=
  match p with
  | Tacquito => tacquito_init
  | Handlers => handlers_init
  | Loader => loader_init
  | Stringy => stringy_init
  | DNS => dns_init
  end.

(** The names prometheus takes: letters, digits, underscores and colons. *)
Definition name_char (c : Ascii.ascii) : bool :=
  let n := Z.of_nat (Ascii.nat_of_ascii c) in
  ((97 <=? n) && (n <=? 122)) || ((65 <=? n) && (n <=? 90)) || ((48 <=? n) && (n <=? 57)) ||
  (n =? 95) || (n =? 58).
Fixpoint name_chars (s : string) : bool :=
  match s with String.EmptyString => true | String.String c s => name_char c && name_chars s end.

(** The default registry of prometheus, and the collectors the program has added
    to it. It takes a collector with a good name if no other in the same namespace
    has that name. *)
Class Registry := {
  registry : Type;
  DefaultRegisterer : registry;
  registered : registry → list collector;
  Register : collector → registry → option registry;
  registered_default : registered DefaultRegisterer = [];
  Register_new c r :
    name_chars (collector_name c).1 = true → name_chars (collector_name c).2 = true →
    Forall (λ c', (collector_name c').1 = (collector_name c).1 ∧
                  (collector_name c').2 ≠ (collector_name c).2) (registered r) →
    ∃ r', Register c r = Some r' ∧ registered r' = registered r ++ [c];
}.

Section Init.
Context {RG : Registry}.

(** [prometheus.MustRegister]. *)
Definition MustRegister (c : collector) (r : registry) : outcome registry :=
  match Register c r with Some r => Ok r | None => Panic end.

(** The [init] function of a package; its collectors have been made before. *)
Fixpoint init_vars (decls : list (string * collector)) (vars : list string) (r : registry) : outcome registry :=
  match vars with
  | [] => Ok r
  | v :: vars =>
    match list_find (λ d, d.1 = v) decls with
    | None => Panic
    | Some (_, (_, c)) => r ← MustRegister c r; init_vars decls vars r
    end
  end.

Definition init (p : package) (r : registry) : outcome registry := init_vars (stats p) (inits p) r.

(** The initialisation of a program that links some of the packages. *)
Fixpoint init_all (ps : list package) (r : registry) : outcome registry :=
  match ps with
  | [] => Ok r
  | p :: ps => r ← init p r; init_all ps r
  end.
End Init.

(** The collectors a package registers. *)
Definition resolve (decls : list (string * collector)) (v : string) : option collector :=
  (λ d, d.2.2) <$> list_find (λ d, d.1 = v) decls.
Definition collectors (p : package) : list collector := omap (resolve (stats p)) (inits p).

Definition good_name (c : collector) : Prop :=
  (collector_name c).1 = "tacquito"%string ∧ name_chars (collector_name c).2 = true.

(** ** The gauges of a server

    What is done to the collectors, by the names of their variables. *)
Inductive metric_op :=
| Inc (v : string)
| Dec (v : string)
| Observed (v : string).

(** The value of a gauge that starts at zero. *)
Definition op_value (v : string) (o : metric_op) : Z :=
  match o with
  | Inc v' => if decide (v' = v) then 1 else 0
  | Dec v' => if decide (v' = v) then -1 else 0
  | Observed _ => 0
  end.
Definition gauge (v : string) (ops : list metric_op) : Z := sumZ (op_value v <$> ops).

Lemma gauge_nil v : gauge v [] = 0.
Proof. done. Qed.

Lemma gauge_app v ops ops' : gauge v (ops ++ ops') = gauge v ops + gauge v ops'.
Proof. unfold gauge. rewrite fmap_app. apply sumZ_app. Qed.

Section Gauges.
Context {HH : Hash} {H W : Type} {WW : Writer W} {HS : Handler H W}.

(** What the methods of sessions.go do to them. *)
Definition sessions_delete_ops (s : sessions H) (session : SessionID) : list metric_op :=
  Dec "sessionsActive" :: match s !! session with Some _ => [Observed "sessionDurations"] | None => [] end.

Definition sessions_get_ops (s : sessions H) (h : Header) : list metric_op :=
  match ClientSequenceNumber_Validate (u8 (Header_SeqNo h)) CondNil with
  | Ok _ =>
    match s !! Header_SessionID h with
    | None => [Inc "sessionsGetMiss"]
    | Some sc =>
      match LastSequence_Validate (u8 (Header_SeqNo (sc_header sc)))
              (CondSequenceNumber (Header_SeqNo h)) with
      | Ok _ => [Inc "sessionsGetHit"]
      | _ => []
      end
    end
  | Err _ => sessions_delete_ops s (Header_SessionID h)
  | Panic => []
  end.

Definition sessions_set_ops : list metric_op := [Inc "sessionsActive"; Inc "sessionsSet"].

Definition sessions_update_ops (s : sessions H) (h : Header) : list metric_op :=
  match s !! Header_SessionID h with None => [Inc "sessionsGetMiss"] | Some _ => [] end.

Definition sessions_close_ops (s : sessions H) : list metric_op :=
  (λ _, Observed "sessionDurations") <$> map_to_list s.

(** What a turn of the loop of server.go does to them. *)
Definition end_turn_ops (known : sessions H) (req : Request) (resp : response H W) : list metric_op :=
  match r_next resp with
  | None => sessions_delete_ops known (Header_SessionID (Request_Header req))
  | Some _ => sessions_update_ops known (r_header resp)
  end.

Definition serve_packet_ops (h : H) (ctx : fields) (s : conn_state H) : list metric_op :=
  match crypter_read (cs_crypter s) with
  | (Ok packet, c) =>
    match newRequest ctx c packet with
    | None => []
    | Some req =>
      let resp := mkResponse c None (Request_Header req) [] (Request_Context req) (cs_env s) in
      sessions_get_ops (cs_known s) (Request_Header req) ++
      match sessions_get (cs_known s) (Request_Header req) with
      | (Ok state, known) =>
        let '(state, known, set) :=
          match state with
          | Some st => (st, known, [])
          | None => (h, sessions_set known (Request_Header req) None, sessions_set_ops)
          end in
        set ++ [Inc "handlers"] ++
        match Handle state req resp with
        | (Panic, _) => []
        | (_, resp) => [Dec "handlers"] ++ end_turn_ops known req resp
        end
      | _ => []
      end
    end
  | _ => []
  end.

(** The deferred calls at the end of [handle]. *)
Definition closing_ops (s : conn H) : list metric_op :=
  match s with Closed st => sessions_close_ops (cs_known st) | _ => [] end.

(** The states of a connection with what was done to the collectors so far. *)
Inductive metered (h : H) (ctx : fields) : conn H → list metric_op → Prop :=
| metered_start c w : metered h ctx (new_conn c w) []
| metered_cancel s ops :
    metered h ctx (Open s) ops → metered h ctx (Closed s) (ops ++ closing_ops (Closed s))
| metered_packet s ops :
    metered h ctx (Open s) ops →
    metered h ctx (serve_packet h ctx s)
      (ops ++ serve_packet_ops h ctx s ++ closing_ops (serve_packet h ctx s)).
End Gauges.
