(* ===== verification/Client.v ===== *)
(** The client: client.go. [Send] writes a packet and reads the answer; the
    bytes that arrive in between are what the peer answers to the bytes that
    were sent. [exchange] is a [Send] whose peer is the server loop. *)
From S2P Require Import Prelude.
From S2P Require Import Header.
From S2P Require Import MD5.
From S2P Require Import Crypter.
From S2P Require Import Sessions.
From S2P Require Import Response.
From S2P Require Import Server.

(** What was written to the connection between two states of it. *)
Definition sent (c c' : crypter) : list byte := concat (drop (length (c_out c)) (c_out c')).

(** Bytes that arrive. *)
Definition arrive (c : crypter) (b : list byte) : crypter := set_in c (c_in c ++ b).

Section Client.
Context {HH : Hash}.

(** [Client.Send]. *)
Definition Client_Send (peer : list byte → list byte) (p : option Packet) : SM crypter Packet := λ c,
  match crypter_write p c with
  | (Ok _, c') => crypter_read (arrive c' (peer (sent c c')))
  | (Err e, c') => (Err e, c')
  | (Panic, c') => (Panic, c')
  end.

Context {H W : Type} {WW : Writer W} {HS : Handler H W}.

(** The server gets the bytes and takes a turn. *)
Definition server_turn (h : H) (ctx : fields) (s : conn_state H) (b : list byte) : conn H :=
  serve_packet h ctx (mkConn (arrive (cs_crypter s) b) (cs_known s) (cs_env s)).

Definition server_answer (h : H) (ctx : fields) (s : conn_state H) (b : list byte) : list byte :=
  sent (cs_crypter s) (cs_crypter (conn_st (server_turn h ctx s b))).

(** One packet of the client and the answer of the server: what [Send]
    returns, and both ends after it. *)
Definition exchange (h : H) (ctx : fields) (p : Packet) (c : crypter) (s : conn_state H)
    : outcome Packet * crypter * conn H :=
  (Client_Send (server_answer h ctx s) (Some p) c,
   server_turn h ctx s (sent c (crypter_write (Some p) c).2)).

(** Both ends of an idle connection: the same secret, nothing in flight. *)
Definition linked (c : crypter) (s : conn_state H) : Prop :=
  c_secret c = c_secret (cs_crypter s) ∧
  c_proxy c = false ∧ c_proxy (cs_crypter s) = false ∧
  c_in c = [] ∧ c_in (cs_crypter s) = [] ∧
  c_write_errs c = [] ∧ c_write_errs (cs_crypter s) = [].
End Client.
