(* ===== verification/ClientPrograms.v ===== *)
(** The command line client: cmds/client. Its flags, the packets it builds, and
    the two logins it performs, against any peer that answers bytes with
    bytes. *)
From S2P Require Import Prelude.
From S2P Require Import GoStrings.
From S2P Require Import Buffer.
From S2P Require Import HeaderFields.
From S2P Require Import AuthenFields.
From S2P Require Import Header.
From S2P Require Import Codec.
From S2P Require Import Authenticate.
From S2P Require Import MD5.
From S2P Require Import Proxy.
From S2P Require Import Crypter.
From S2P Require Import Sessions.
From S2P Require Import Response.
From S2P Require Import Server.
From S2P Require Import Client.

(** ** client.go: dialling

    A connection as [newCrypter] takes it. *)
Record netconn := mkNetconn {
  nc_local : Addr;
  nc_remote : Addr;
  nc_in : list byte;
  nc_end : error;
  nc_write_errs : list (option error);
}.

(** [net.ResolveTCPAddr] and [net.DialTCP]; an error is [None], and so is a nil
    address. *)
Class Dial := {
  net_ResolveTCPAddr : gostring → gostring → option Addr;
  net_DialTCP : gostring → option Addr → Addr → option netconn;
}.

(** [Client]; its [crypter] is nil until an option sets it. *)
Definition Client : Type := option crypter.
Definition ClientOption : Type := Client → option Client.

Definition client_crypter (secret : list byte) (conn : netconn) : Client :=
  Some (newCrypter secret (nc_local conn) (nc_remote conn) (nc_in conn) (nc_end conn)
    (nc_write_errs conn) false).

Section Dialling.
Context {DI : Dial}.

Definition SetClientDialer (network address : gostring) (secret : list byte) : ClientOption := λ c,
  match net_ResolveTCPAddr network address with
  | None => None
  | Some tcpAddr =>
    match net_DialTCP network None tcpAddr with
    | None => None
    | Some conn => Some (client_crypter secret conn)
    end
  end.

(** A local address that cannot be resolved is dialled from as nil. *)
Definition SetClientDialerWithLocalAddr (network raddr laddr : gostring) (secret : list byte)
    : ClientOption := λ c,
  let localAddr := net_ResolveTCPAddr network laddr in
  match net_ResolveTCPAddr network raddr with
  | None => None
  | Some tcpAddr =>
    match net_DialTCP network localAddr tcpAddr with
    | None => None
    | Some conn => Some (client_crypter secret conn)
    end
  end.

Definition NewClient (opts : list ClientOption) : option Client :=
  foldl (λ c opt, match c with None => None | Some c => opt c end) (Some None) opts.
End Dialling.

(** [SetPacketBodyUnsafe], applied: it panics when the body cannot be encoded. *)
Definition SetPacketBodyUnsafe {T} `{EncoderDecoder T} (v : T) (p : Packet) : outcome Packet :=
  match MarshalBinary v with
  | Ok b => Ok (SetPacketBody b p)
  | _ => Panic
  end.

(** ** The program *)

(** The flags of main.go. *)
Record client_flags := mkFlags {
  f_username : gostring;
  f_password : gostring;
  f_privLvl : Z;
  f_network : gostring;
  f_address : gostring;
  f_port : gostring;
  f_remAddr : gostring;
  f_secret : gostring;
  f_authenMode : gostring;
}.

(** How the program ends: with [os.Exit(1)], with a panic, or normally, after
    it printed a reply or that it does not know the mode. *)
Inductive ending :=
| Exit1
| Crash
| PrintedReply (body : AuthenReply)
| PrintedInvalidMode.

(** [newPAPRequest] of authen_pap.go; [rand] is the random session id. *)
Definition newPAPRequest (f : client_flags) (rand : Z) (password : gostring) : outcome Packet :=
  SetPacketBodyUnsafe
    (NewAuthenStart
      [SetAuthenStartType AuthenTypePAP; SetAuthenStartAction AuthenActionLogin;
       SetAuthenStartPrivLvl (u8 (f_privLvl f)); SetAuthenStartPort (f_port f);
       SetAuthenStartRemAddr (f_remAddr f); SetAuthenStartUser (f_username f);
       SetAuthenStartData password])
    (NewPacket [SetPacketHeader (NewHeader
      [SetHeaderVersion (mkVersion MajorVersion MinorVersionOne); SetHeaderType Authenticate;
       SetHeaderRandomSessionID rand])]).

(** A packet, and the check of the answer to it: [None] when it passes. *)
Record asciiSequence := mkAscii {
  as_packet : Packet;
  as_validate : gostring → option ending;
}.

(** The three checks of authen_ascii.go differ in the status they want. *)
Definition validate_status (status : AuthenStatus) (response : gostring) : option ending :=
  match Unmarshal (T := AuthenReply) response with
  | Err _ => Some Exit1
  | Panic => Some Crash
  | Ok body => if decide (AuthenReply_Status body ≠ status) then Some Exit1 else None
  end.

(** [newASCIIAuthenSequence]. Its argument [password] is not used. *)
Definition newASCIIAuthenSequence (f : client_flags) (password : gostring) : outcome (list asciiSequence) :=
  let version := SetHeaderVersion (mkVersion MajorVersion MinorVersionDefault) in
  authenRequest ← SetPacketBodyUnsafe
    (NewAuthenStart
      [SetAuthenStartAction AuthenActionLogin; SetAuthenStartPrivLvl PrivLvlUser;
       SetAuthenStartType AuthenTypeASCII; SetAuthenStartService AuthenServiceLogin;
       SetAuthenStartPort (str "tty0"); SetAuthenStartRemAddr (str "devvm2515")])
    (NewPacket [SetPacketHeader (NewHeader
      [version; SetHeaderType Authenticate; SetHeaderSessionID 12345])]);
  authenContinueUsername ← SetPacketBodyUnsafe
    (NewAuthenContinue [SetAuthenContinueUserMessage (f_username f)])
    (NewPacket [SetPacketHeader (NewHeader
      [version; SetHeaderType Authenticate; SetHeaderSeqNo 3; SetHeaderSessionID 12345])]);
  authenContinuePassword ← SetPacketBodyUnsafe
    (NewAuthenContinue [SetAuthenContinueUserMessage (f_username f)])
    (NewPacket [SetPacketHeader (NewHeader
      [version; SetHeaderType Authenticate; SetHeaderSeqNo 5; SetHeaderSessionID 12345])]);
  Ok [mkAscii authenRequest (validate_status AuthenStatusGetUser);
      mkAscii authenContinueUsername (validate_status AuthenStatusGetPass);
      mkAscii authenContinuePassword (validate_status AuthenStatusPass)].

(** [printPAPResponse] and [printASCIIResponse], on the body of the response. *)
Definition printResponse (response : gostring) : ending :=
  match Unmarshal (T := AuthenReply) response with
  | Ok body => PrintedReply body
  | Err _ => Exit1
  | Panic => Crash
  end.

(** [getPassword]; [terminal] is what is typed. *)
Definition getPassword_flag (f : client_flags) (terminal : option gostring) : option gostring :=
  if decide (f_password f ≠ []) then Some (f_password f) else terminal.

Definition verifyFlags (f : client_flags) : bool :=
  negb (bool_decide (f_username f = [])) && negb (bool_decide (f_secret f = [])).

Section Programs.
Context {HH : Hash}.

(** What a peer in some state answers to bytes, and its state then. *)
Context {P : Type} (answer : P → list byte → list byte * P).

(** [c.Send], with the state of the peer. *)
Definition send (p : Packet) : SM (crypter * P) Packet := λ '(c, x),
  let '(o, c') := Client_Send (λ b, (answer x b).1) (Some p) c in
  (o, (c', (answer x (sent c (crypter_write (Some p) c).2)).2)).

(** [pap]. *)
Definition pap (f : client_flags) (rand : Z) (terminal : option gostring) (st : crypter * P)
    : ending * (crypter * P) :=
  match getPassword_flag f terminal with
  | None => (Exit1, st)
  | Some password =>
    match newPAPRequest f rand password with
    | Ok req =>
      match send req st with
      | (Ok resp, st) => (printResponse (default [] (Packet_Body resp)), st)
      | (Err _, st) => (Exit1, st)
      | (Panic, st) => (Crash, st)
      end
    | _ => (Crash, st)
    end
  end.

(** The loop of [ascii], and its end; [resp] is the last response. *)
Fixpoint ascii_loop (seq : list asciiSequence) (resp : option Packet) (st : crypter * P)
    : ending * (crypter * P) :=
  match seq with
  | [] =>
    match resp with
    | None => (Crash, st)
    | Some resp => (printResponse (default [] (Packet_Body resp)), st)
    end
  | s :: seq =>
    match send (as_packet s) st with
    | (Ok resp, st) =>
      match as_validate s (default [] (Packet_Body resp)) with
      | Some e => (e, st)
      | None => ascii_loop seq (Some resp) st
      end
    | (Err _, st) => (Exit1, st)
    | (Panic, st) => (Crash, st)
    end
  end.

Definition ascii (f : client_flags) (terminal : option gostring) (st : crypter * P)
    : ending * (crypter * P) :=
  match getPassword_flag f terminal with
  | None => (Exit1, st)
  | Some password =>
    match newASCIIAuthenSequence f password with
    | Ok seq => ascii_loop seq None st
    | _ => (Crash, st)
    end
  end.

(** [main]. *)
Definition client_main `{Dial} (f : client_flags) (rand : Z) (terminal : option gostring) (x : P) : ending :=
  if negb (verifyFlags f) then Exit1
  else
    match NewClient [SetClientDialer (f_network f) (f_address f) (f_secret f)] with
    | Some (Some c) =>
      if decide (f_authenMode f = str "pap") then (pap f rand terminal (c, x)).1
      else if decide (f_authenMode f = str "ascii") then (ascii f terminal (c, x)).1
      else PrintedInvalidMode
    | Some None => Crash
    | None => Exit1
    end.
End Programs.

(** The server loop as a peer: when its connection is closed, nothing more
    comes. *)
Section Peer.
Context {HH : Hash} {H W : Type} {WW : Writer W} {HS : Handler H W}.

Definition server_peer (h : H) (ctx : fields) (x : conn H) (b : list byte) : list byte * conn H :=
  match x with
  | Open s => (server_answer h ctx s b, server_turn h ctx s b)
  | _ => ([], x)
  end.

(** One [send] to it is an [exchange]. *)
Lemma send_exchange h ctx p c s :
  send (server_peer h ctx) p (c, Open s) =
  let '(o, c', s') := exchange h ctx p c s in (o, (c', s')).
Proof. unfold send, exchange. cbn. by destruct (Client_Send _ _ _). Qed.
End Peer.
