(* ===== verification/Config.v ===== *)
(** The configuration of the server: cmds/server/config/types.go. *)
From S2P Require Import Prelude.
From S2P Require Import GoStrings.

(** Named integers of the source; the values a config may hold are not limited
    to the constants. *)
Abbreviation Action := Z (only parsing).
Abbreviation AuthenticatorType := Z (only parsing).
Abbreviation AccounterType := Z (only parsing).
Abbreviation ProviderType := Z (only parsing).
Abbreviation HandlerType := Z (only parsing).

Definition DENY : Action := 1.
Definition PERMIT : Action := 2.
Definition BCRYPT : AuthenticatorType := 1.
Definition SHA512 : AuthenticatorType := 2.
Definition STDERR : AccounterType := 1.
Definition SYSLOG : AccounterType := 2.
Definition FILE : AccounterType := 3.
Definition PREFIX : ProviderType := 1.
Definition DNS : ProviderType := 2.
Definition START : HandlerType := 1.
Definition SPAN : HandlerType := 2.

(** [map[string]string]; a missing key reads as the empty string. *)
Abbreviation options := (gmap gostring gostring).
Definition option_get (o : options) (key : gostring) : gostring := default [] (o !! key).

Record Value := mkValue {
  Value_Name : gostring;
  Value_Values : list gostring;
  Value_Optional : bool;
}.

Definition Value_TrimSpace (v : Value) : Value :=
  mkValue (strings_TrimSpace (Value_Name v)) (strings_TrimSpace <$> Value_Values v) (Value_Optional v).

Definition Value_String (v : Value) : gostring :=
  let sep := if Value_Optional v then str "*" else str "=" in
  Value_Name v ++ sep ++ strings_Join (Value_Values v) (str " ").

Record Service := mkService {
  Service_Name : gostring;
  Service_Match : list Value;
  Service_SetValues : list Value;
  Service_Optional : bool;
}.

Definition Service_TrimSpace (s : Service) : Service :=
  mkService (strings_TrimSpace (Service_Name s)) (Service_Match s) (Service_SetValues s) (Service_Optional s).

Record Command := mkCommand {
  Command_Name : gostring;
  Command_Match : list gostring;
  Command_Action : Action;
}.

Definition Command_TrimSpace (c : Command) : Command :=
  mkCommand (strings_TrimSpace (Command_Name c)) (strings_TrimSpace <$> Command_Match c) (Command_Action c).

Record Authenticator := mkAuthenticator {
  Authenticator_Type : AuthenticatorType;
  Authenticator_Options : options;
}.

Record Accounter := mkAccounter {
  Accounter_Name : gostring;
  Accounter_Type : AccounterType;
  Accounter_Options : options;
}.

(** A nil pointer is [None]. *)
Record Group := mkGroup {
  Group_Name : gostring;
  Group_Services : list Service;
  Group_Commands : list Command;
  Group_Authenticator : option Authenticator;
  Group_Accounter : option Accounter;
}.

Record User := mkUser {
  User_Name : gostring;
  User_Scopes : list gostring;
  User_Groups : list Group;
  User_Services : list Service;
  User_Commands : list Command;
  User_Authenticator : option Authenticator;
  User_Accounter : option Accounter;
}.

Fixpoint has_scope (scopes : list gostring) (scope : gostring) : bool :=
  match scopes with
  | [] => false
  | s :: scopes => if decide (scope = s) then true else has_scope scopes scope
  end.

Definition User_HasScope (u : User) (scope : gostring) : bool := has_scope (User_Scopes u) scope.

Definition User_LocalizeToScope (u : User) (scope : gostring) : User :=
  mkUser (User_Name u) [scope] (User_Groups u) (User_Services u) (User_Commands u)
    (User_Authenticator u) (User_Accounter u).

Definition User_GetLocalizedScope (u : User) : gostring :=
  match User_Scopes u with
  | s :: _ => str "scope=" ++ s
  | [] => str "scope=no-scope-set"
  end.

Record Keychain := mkKeychain {
  Keychain_Group : gostring;
  Keychain_Key : gostring;
}.

Record HandlerConfig := mkHandlerConfig {
  HandlerConfig_Type : HandlerType;
  HandlerConfig_Options : options;
}.

Record SecretConfig := mkSecretConfig {
  SecretConfig_Name : gostring;
  SecretConfig_Secret : Keychain;
  SecretConfig_Handler : HandlerConfig;
  SecretConfig_Type : ProviderType;
  SecretConfig_Options : options;
}.

Record ServerConfig := mkServerConfig {
  ServerConfig_Secrets : list SecretConfig;
  ServerConfig_Users : list User;
  ServerConfig_PrefixDeny : list gostring;
  ServerConfig_PrefixAllow : list gostring;
}.

(** ** Facts *)

Lemma User_HasScope_spec u scope : User_HasScope u scope = true ↔ scope ∈ User_Scopes u.
Proof.
  unfold User_HasScope. induction (User_Scopes u) as [|s l IH]; cbn [has_scope]; [set_solver|].
  case_decide; [set_solver|]. rewrite IH. set_solver.
Qed.
