(* ===== verification/Stringy.v ===== *)
(** The string and regexp based authorizer: the package
    cmds/server/config/authorizers/stringy. [evaluate] is a pure function of
    the request's arguments and the user; the replies built from it are in
    UserHandlers.v. *)
From S2P Require Import Prelude.
From S2P Require Import GoStrings.
From S2P Require Import AuthorFields.
From S2P Require Import Args.
From S2P Require Import Config.
From S2P Require Import Authorize.

(** [regexp.MatchString(pattern, s)] of Go's standard library: [None] when the
    pattern does not compile. *)
Class Regexp := regexp_MatchString : gostring → gostring → option bool.

(** [ReduceAll]: group services and commands follow those of the user. *)
Definition ReduceAll (u : User) : User :=
  foldl (λ u g,
    mkUser (User_Name u) (User_Scopes u) (User_Groups u)
      (User_Services u ++ Group_Services g) (User_Commands u ++ Group_Commands g)
      (User_Authenticator u) (User_Accounter u)) u (User_Groups u).

(** ** Command based authorization *)

(** [NewCommandBasedAuthorizer] returns nil unless this holds. *)
Definition command_based (b : AuthorRequest) : bool :=
  let args := AuthorRequest_Args b in
  if negb (bool_decide (Args_Service args = str "shell")) then false
  else
    let '(a, s, v) := Args_CommandSplit args in
    bool_decide (a = str "cmd" ∧ s = str "=" ∧ v ≠ []).

Definition returnBool (c : Action) : bool := bool_decide (c = PERMIT).

Section Commands.
Context {RE : Regexp}.

(** The inner loop over [c.Match]: [None] goes on to the next command. *)
Fixpoint match_regexes (regexes : list gostring) (args : gostring) (action : Action) : option bool :=
  match regexes with
  | [] => None
  | regexish :: regexes =>
    match regexp_MatchString regexish args with
    | None => Some false
    | Some true => Some (returnBool action)
    | Some false => match_regexes regexes args action
    end
  end.

Fixpoint evaluate_commands (commands : list Command) (cmd args : gostring) : bool :=
  match commands with
  | [] => false
  | c :: commands =>
    let c := Command_TrimSpace c in
    if decide (Command_Name c = str "*") then returnBool (Command_Action c)
    else if decide (Command_Name c ≠ cmd) then evaluate_commands commands cmd args
    else match Command_Match c with
         | [] => returnBool (Command_Action c)
         | _ =>
           match match_regexes (Command_Match c) args (Command_Action c) with
           | Some b => b
           | None => evaluate_commands commands cmd args
           end
         end
  end.

(** [CommandBasedAuthorizer.evaluate]. *)
Definition command_evaluate (b : AuthorRequest) (u : User) : bool :=
  let args := AuthorRequest_Args b in
  evaluate_commands (User_Commands u) (Args_Command args) (Args_CommandArgs args).
End Commands.

(** ** Session based authorization *)

(** [serviceMatcher]: every match condition names an attribute of the request
    all of whose listed values equal the request's. *)
Definition args_map (args : list gostring) : gmap gostring gostring :=
  foldl (λ kvs arg, let '(a, _, v) := Arg_ASV arg in <[a := v]> kvs) ∅ args.

Fixpoint match_conditions (kvs : gmap gostring gostring) (matchers : list Value) : bool :=
  match matchers with
  | [] => true
  | m :: matchers =>
    match kvs !! Value_Name m with
    | None => false
    | Some argV =>
      if forallb (λ v, bool_decide (argV = v)) (Value_Values m)
      then match_conditions kvs matchers else false
    end
  end.

Definition serviceMatcher (args : list gostring) (matchers : list Value) : bool :=
  match_conditions (args_map args) matchers.

(** [collateAVPs]. *)
Definition collateAVPs (c : Service) : list gostring * bool :=
  (Value_String <$> Service_SetValues c, existsb Value_Optional (Service_SetValues c)).

(** The loop of [serviceMatcherModifier] over [args]; [all] is the whole list,
    which the match conditions look at. *)
Fixpoint modifier_loop (all args : list gostring) (c : Service) (avps : list gostring)
    (optional : bool) : list gostring * bool :=
  match args with
  | [] => (avps, optional)
  | avp :: args =>
    let '(a, s, v) := Arg_ASV avp in
    if decide (a ≠ Service_Name c ∧ v ≠ Service_Name c)
    then modifier_loop all args c avps optional
    else
      let optional := optional || bool_decide (a ≠ str "cmd" ∧ s = str "*") in
      let '(unfiltered, isOptional) := collateAVPs c in
      if decide (Service_Match c = [])
      then modifier_loop all args c (avps ++ unfiltered) (optional || isOptional)
      else if serviceMatcher all (Service_Match c)
      then modifier_loop all args c (avps ++ unfiltered) (optional || isOptional)
      else modifier_loop all args c avps optional
  end.

Definition serviceMatcherModifier (args : list gostring) (c : Service) : list gostring * bool :=
  modifier_loop args args c [] false.

(** The loop of [evaluate] over the user's services. *)
Fixpoint evaluate_services (services : list Service) (args : list gostring)
    (responseArgs : list gostring) (status : AuthorStatus) : list gostring * AuthorStatus :=
  match services with
  | [] => (Args_Args responseArgs, status)
  | s :: services =>
    let s := Service_TrimSpace s in
    let '(matched, optional) := serviceMatcherModifier args s in
    evaluate_services services args (Args_Append responseArgs matched)
      (if optional then AuthorStatusPassRepl else status)
  end.

(** [SessionBasedAuthorizer.evaluate]: the scope of the user is appended to
    the arguments of the request. *)
Definition session_evaluate (b : AuthorRequest) (u : User) : list gostring * AuthorStatus :=
  let args := AuthorRequest_Args b ++ [User_GetLocalizedScope u] in
  evaluate_services (User_Services u) (Args_Args args) [] AuthorStatusPassAdd.
