(* ===== verification/AAA.v ===== *)
(** The handlers of one user: the AAA grouping with its default handlers
    (cmds/server/config/aaa.go, provider.go), the bcrypt authenticator
    (config/authenticators), the stringy authorizer's replies
    (config/authorizers/stringy) and the local and syslog accounters
    (config/accounters). *)
From S2P Require Import Prelude.
From S2P Require Import Buffer.
From S2P Require Import HeaderFields.
From S2P Require Import AuthenFields.
From S2P Require Import AuthorFields.
From S2P Require Import Header.
From S2P Require Import Codec.
From S2P Require Import Authenticate.
From S2P Require Import Authorize.
From S2P Require Import Accounting.
From S2P Require Import MD5.
From S2P Require Import Response.
From S2P Require Import Config.
From S2P Require Import Stringy.

(** [bcrypt.CompareHashAndPassword] of golang.org/x/crypto (true: no error),
    and [json.Marshal] of an accounting request. *)
Class Platform := {
  bcrypt_matches : list byte → list byte → bool;
  json_Marshal : AcctRequest → option gostring;
}.

(** ** hex.DecodeString *)
Definition fromHexChar (c : byte) : option Z :=
  let z := b2z c in
  if (48 <=? z) && (z <=? 57) then Some (z - 48)
  else if (97 <=? z) && (z <=? 102) then Some (z - 97 + 10)
  else if (65 <=? z) && (z <=? 70) then Some (z - 65 + 10)
  else None.

Fixpoint hex_DecodeString (s : gostring) : option (list byte) :=
  match s with
  | [] => Some []
  | [_] => None
  | a :: b :: s =>
    match fromHexChar a, fromHexChar b, hex_DecodeString s with
    | Some a, Some b, Some rest => Some (u8 (Z.lor (Z.shiftl a 4) b) :: rest)
    | _, _, _ => None
    end
  end.

(** ** The replies of this package *)
Definition authen_reply (status : AuthenStatus) (msg : gostring) : reply :=
  RAuthen (NewAuthenReply [SetAuthenReplyStatus status; SetAuthenReplyServerMsg msg]).
Definition author_reply (status : AuthorStatus) (msg : gostring) : reply :=
  RAuthor (NewAuthorReply [SetAuthorReplyStatus status; SetAuthorReplyServerMsg msg]).
Definition acct_reply (status : AcctReplyStatus) (msg : gostring) : reply :=
  RAcct (NewAcctReply [SetAcctReplyStatus status; SetAcctReplyServerMsg msg]).

(** ** authenticators/shared.go *)
Definition getAuthenStart (r : Request) : option AuthenStart :=
  match Unmarshal (T := AuthenStart) (Request_Body r) with Ok b => Some b | _ => None end.
Definition getAuthenContinue (r : Request) : option AuthenContinue :=
  match Unmarshal (T := AuthenContinue) (Request_Body r) with Ok b => Some b | _ => None end.

(** [Methods.GetFields]. *)
Definition Methods_GetFields (r : Request) : option fields :=
  match getAuthenStart r with
  | Some body => Some (AuthenStart_Fields body)
  | None => AuthenContinue_Fields <$> getAuthenContinue r
  end.

Definition GetPassword (r : Request) : outcome gostring :=
  match getAuthenStart r with
  | Some body => Ok (AuthenStart_Data body)
  | None =>
    match getAuthenContinue r with
    | Some body => Ok (AuthenContinue_UserMessage body)
    | None => Err (Errorf "missing password")
    end
  end.

(** ** authenticators/bcrypt *)
Record supportedOptions := mkSupportedOptions {
  so_hash : gostring;
  so_group : gostring;
  so_key : gostring;
}.

Definition newSupportedOptions (username : gostring) (o : options) : supportedOptions :=
  let key := option_get o (str "key") in
  mkSupportedOptions (option_get o (str "hash")) (option_get o (str "group"))
    (if decide (key = []) then username else key).

Definition setKey (s : supportedOptions) (username : gostring) : supportedOptions :=
  if decide (so_key s = []) then mkSupportedOptions (so_hash s) (so_group s) username else s.

Definition supportedOptions_validate (s : supportedOptions) : outcome unit :=
  if bool_decide (so_hash s = [] ∧ so_key s = []) then
    Err (Errorf "missing required option keys for bcrypt authenticator; %v")
  else Ok tt.

(** The [getSecret] interface the type embeds; nil is [None]. *)
Definition getSecret : Type := gostring → gostring → outcome (list byte).

Record BcryptAuthenticator := mkBcrypt {
  ba_username : gostring;
  ba_options : supportedOptions;
  ba_getSecret : option getSecret;
}.

(** The package function [New(l, s)] drops its argument [s]. *)
Definition bcrypt_New (s : getSecret) : BcryptAuthenticator :=
  mkBcrypt [] (mkSupportedOptions [] [] []) None.

(** The method [New]; it builds a fresh struct. *)
Definition BcryptAuthenticator_New (a : BcryptAuthenticator) (username : gostring) (o : options)
    : outcome BcryptAuthenticator :=
  let opts := newSupportedOptions username o in
  supportedOptions_validate opts ;;
  Ok (mkBcrypt username opts None).

Section UserHandlers.
Context {HH : Hash} {RE : Regexp} {PL : Platform} {H W : Type} {WW : Writer W}.
Local Abbreviation M := (SM (response H W) unit) (only parsing).

(** The comparison at the end of [Handle]. *)
Definition bcrypt_finish (expectedHash : list byte) (password : gostring) : M :=
  if bcrypt_matches expectedHash password
  then reply_ (authen_reply AuthenStatusPass (str "login success"))
  else reply_ (authen_reply AuthenStatusFail (str "login failure")).

Definition BcryptAuthenticator_Handle (a : BcryptAuthenticator) (request : Request) : M :=
  match GetPassword request with
  | Err (Errorf e) => reply_ (authen_reply AuthenStatusError (str e))
  | Err _ => reply_ (authen_reply AuthenStatusError [])
  | Panic => sm_lift Panic
  | Ok password =>
    if 0 <? len (so_hash (ba_options a)) then
      match hex_DecodeString (so_hash (ba_options a)) with
      | None => reply_ (authen_reply AuthenStatusFail (str "login failure"))
      | Some secret => bcrypt_finish secret password
      end
    else
      match ba_getSecret a with
      | None => sm_lift Panic
      | Some get =>
        match get (ba_username a) (so_group (ba_options a)) with
        | Panic => sm_lift Panic
        | Err _ =>
          reply_ (authen_reply AuthenStatusFail (str "login failure")) ;;
          bcrypt_finish [] password
        | Ok secret => bcrypt_finish secret password
        end
      end
  end.

(** ** authorizers/stringy *)
Definition command_Handle (b : AuthorRequest) (u : User) : M :=
  if command_evaluate b u
  then reply_ (author_reply AuthorStatusPassAdd (str "authorization approved"))
  else reply_ (author_reply AuthorStatusFail (str "not authorized")).

Definition session_Handle (b : AuthorRequest) (u : User) : M :=
  let '(args, status) := session_evaluate b u in
  if 0 <? len args then
    reply_ (RAuthor (NewAuthorReply
      [SetAuthorReplyStatus status;
       SetAuthorReplyServerMsg (str "authorization approved");
       SetAuthorReplyArgs args]))
  else reply_ (author_reply AuthorStatusFail (str "not authorized")).

(** [NewSessionBasedAuthorizer] never returns nil, so the refusal at the end
    of [Handle] is not reached. After the reply for a request of another user
    the evaluation goes on. *)
Definition stringy_Handle (user : User) (request : Request) : M :=
  match Unmarshal (T := AuthorRequest) (Request_Body request) with
  | Err _ => reply_ (author_reply AuthorStatusError (str "unable to decode AuthorRequest packet"))
  | Panic => sm_lift Panic
  | Ok body =>
    (if decide (User_Name user ≠ AuthorRequest_User body)
     then reply_ (author_reply AuthorStatusFail (str "not authorized"))
     else mret tt) ;;
    if command_based body then command_Handle body user else session_Handle body user
  end.

(** ** accounters: the reply for the flags of a request is the same in both *)
Definition acct_flags_reply (flags : AcctRequestFlag) (seqNo : SequenceNumber) : reply :=
  if decide (flags = AcctFlagStart) then
    acct_reply AcctReplyStatusSuccess (str "success, logging started")
  else if decide (flags = AcctFlagStop) then
    acct_reply AcctReplyStatusSuccess (str "success, logging stopped")
  else if decide (flags = AcctFlagWatchdog) then
    if negb (seqNo =? 1) then acct_reply AcctReplyStatusError (str "invalid sequence number")
    else acct_reply AcctReplyStatusSuccess (str "success, watchdog")
  else if decide (flags = AcctFlagWatchdogWithUpdate) then
    if seqNo <? 3 then acct_reply AcctReplyStatusError (str "invalid sequence number")
    else acct_reply AcctReplyStatusSuccess (str "success, watchdog update")
  else acct_reply AcctReplyStatusError (str "unexpected accounting flag").

(** [a.sink.Printf(string(jsonLog))]: the record is the format string. *)
Definition sink_Printf (format : gostring) : M := λ r,
  (Ok tt, set_env r (emit (EvSink format) (r_env r))).

Definition local_Handle (request : Request) : M :=
  match Unmarshal (T := AcctRequest) (Request_Body request) with
  | Err _ => reply_ (acct_reply AcctReplyStatusError (str "accounting failure"))
  | Panic => sm_lift Panic
  | Ok body =>
    match json_Marshal body with
    | None => reply_ (acct_reply AcctReplyStatusError (str "failed to log accounting message"))
    | Some jsonLog =>
      sink_Printf jsonLog ;;
      reply_ (acct_flags_reply (AcctRequest_Flags body) (Header_SeqNo (Request_Header request)))
    end
  end.

(** [a.Write(jsonLog)] of the embedded [*syslog.Writer]: its error, if any. *)
Definition syslog_Write (line : gostring) : SM (response H W) (option error) := λ r,
  let '(e, w) := env_call (r_env r) in
  (Ok e, set_env r (match e with None => emit (EvSyslog line) w | Some _ => w end)).

Definition syslog_Handle (request : Request) : M :=
  match Unmarshal (T := AcctRequest) (Request_Body request) with
  | Err _ => reply_ (acct_reply AcctReplyStatusError (str "accounting failure"))
  | Panic => sm_lift Panic
  | Ok body =>
    match json_Marshal body with
    | None => reply_ (acct_reply AcctReplyStatusError (str "failed to log accounting message"))
    | Some jsonLog =>
      e ← syslog_Write jsonLog;
      match e with
      | Some _ => reply_ (acct_reply AcctReplyStatusError (str "failed to log accounting message"))
      | None =>
        reply_ (acct_flags_reply (AcctRequest_Flags body) (Header_SeqNo (Request_Header request)))
      end
    end
  end.
End UserHandlers.

(** ** The AAA grouping *)

(** The handler types that are injected into an [AAA]. *)
Inductive user_handler :=
| DefaultAuthenticator
| DefaultAuthorizer
| DefaultAccounter
| HBcrypt (a : BcryptAuthenticator)
| HStringy (user : User)
| HLocal
| HSyslog.

Record AAA := mkAAA {
  AAA_User : option User;
  AAA_Authenticate : user_handler;
  AAA_Authorizer : user_handler;
  AAA_Accounting : user_handler;
}.

Definition AAAOption : Type := AAA → AAA.
Definition SetAAAUser (u : User) : AAAOption := λ a,
  mkAAA (Some u) (AAA_Authenticate a) (AAA_Authorizer a) (AAA_Accounting a).
Definition SetAAAAuthenticator (h : user_handler) : AAAOption := λ a,
  mkAAA (AAA_User a) h (AAA_Authorizer a) (AAA_Accounting a).
Definition SetAAAAuthorizer (h : user_handler) : AAAOption := λ a,
  mkAAA (AAA_User a) (AAA_Authenticate a) h (AAA_Accounting a).
Definition SetAAAAccounter (h : user_handler) : AAAOption := λ a,
  mkAAA (AAA_User a) (AAA_Authenticate a) (AAA_Authorizer a) h.

Definition NewAAA (opts : list AAAOption) : AAA :=
  foldl (λ a opt, opt a) (mkAAA None DefaultAuthenticator DefaultAuthorizer DefaultAccounter) opts.

(** [config.Provider]: [map[string]*AAA]. *)
Definition Provider : Type := gmap gostring AAA.
Definition Provider_GetUser (s : Provider) (username : gostring) : option AAA := s !! username.

Section UserHandle.
Context {HH : Hash} {RE : Regexp} {PL : Platform} {H W : Type} {WW : Writer W} {WL : WriterLaws W}.

Definition user_Handle (h : user_handler) (request : Request) : SM (response H W) unit :=
  match h with
  | DefaultAuthenticator => reply_ (authen_reply AuthenStatusFail (str "authentication denied"))
  | DefaultAuthorizer => reply_ (author_reply AuthorStatusFail (str "authorization denied"))
  | DefaultAccounter => reply_ (acct_reply AcctReplyStatusError (str "accounting denied"))
  | HBcrypt a => BcryptAuthenticator_Handle a request
  | HStringy u => stringy_Handle u request
  | HLocal => local_Handle request
  | HSyslog => syslog_Handle request
  end.

Lemma keeps_user_Handle h request : keeps (user_Handle h request).
Proof using WL.
  destruct h; cbn [user_Handle]; auto with keeps.
  - unfold BcryptAuthenticator_Handle, bcrypt_finish. repeat case_match; auto with keeps.
  - unfold stringy_Handle, command_Handle, session_Handle.
    destruct (Unmarshal _); auto with keeps.
    apply keeps_bind; [case_decide; auto with keeps|].
    intros _. repeat case_match; auto with keeps.
  - unfold local_Handle. repeat case_match; auto with keeps.
    apply keeps_bind; auto with keeps. intros r. split_and!; [done..|apply emit_grows].
  - unfold syslog_Handle. repeat case_match; auto with keeps.
    apply keeps_bind; [|intros [e|]; auto with keeps].
    intros r. unfold syslog_Write. pose proof (env_call_grows (r_env r)) as Hg.
    destruct (env_call (r_env r)) as [[e|] w]; split_and!; try done.
    etrans; [exact Hg|apply emit_grows].
Qed.
End UserHandle.
