(* ===== verification/Handlers.v ===== *)
(** The packet handlers of cmds/server/handlers: the entry point, the
    authentication router, the ASCII and PAP flows, authorization, accounting,
    the response logger and the span handler. *)
From S2P Require Import Prelude.
From S2P Require Import GoStrings.
From S2P Require Import Buffer.
From S2P Require Import HeaderFields.
From S2P Require Import AuthenFields.
From S2P Require Import AuthorFields.
From S2P Require Import Header.
From S2P Require Import Codec.
From S2P Require Import Authenticate.
From S2P Require Import Authorize.
From S2P Require Import Accounting.
From S2P Require Import MD5.
From S2P Require Import Proxy.
From S2P Require Import Crypter.
From S2P Require Import Response.
From S2P Require Import Config.
From S2P Require Import Stringy.
From S2P Require Import AAA.

(** The text of the address a dialled connection ends at. *)
Class Dialer := dial_remote : gostring → gostring.

(** ** The handlers and writers that outlive a call

    An [AuthenticateASCII] is created per start packet and reached through one
    handler at a time, so its [username] is a parameter of the handler. The
    users' own handlers are in AAA.v. *)
Record Span := mkSpan {
  span_provider : Provider;
  span_destination : gostring;
  span_switchAddr : gostring;
  span_remAddr : gostring;
  span_packetType : HeaderType;
}.

Inductive handler :=
| HStart (c : Provider)
| HGetUsername (c : Provider) (username : gostring)
| HGetPassword (c : Provider) (username : gostring)
| HResponseLogger (next : handler)
| HSpan (s : Span)
| HSecretConfig (h : handler)       (* the handler a secretConfig embeds *)
| HNil.                             (* a nil handler that is embedded so *)

Inductive writer :=
| WResponseLogger
| WSpan (remote switchAddr remAddr : gostring) (packetType : HeaderType).

(** [defaultLogger.Record] of cmds/server/log.go: what is printed of a record. *)
Definition obscured : gostring := str "<obscured>".
Definition defaultLogger_Record (r : option fields) (obscure : list gostring) : option fields :=
  (λ r, foldl (λ r key, match r !! key with Some _ => <[key := obscured]> r | None => r end) r obscure)
  <$> r.

(** [ResponseLogger.Write]. *)
Definition ResponseLogger_Write (p : list byte) : SM env Z := λ w,
  match Packet_UnmarshalBinary (Some (full_slice p)) with
  | Err e => (Err e, w)
  | Panic => (Panic, w)
  | Ok packet =>
    match Packet_Header packet with
    | None => (Panic, w)
    | Some h =>
      let request := mkRequest h (default [] (Packet_Body packet)) None in
      (Ok 0, env_Record (Request_Fields request []) [] w)
    end
  end.

(** [writer.Write] of span.go. A packet that does not decode leaves the header
    nil, which is looked at when a filter is set. *)
Definition span_Write (remote switchAddr remAddr : gostring) (packetType : HeaderType)
    (p : list byte) : SM env Z := λ w,
  if bool_decide (switchAddr ≠ [] ∧ remote ≠ switchAddr) then
    (Err (Errorf "Skipping packet, switchAddr don't match, actual addr %v vs configured addr %v"), w)
  else
    let send : outcome Z * env :=
      match env_call w with
      | (Some e, w) => (Err e, w)
      | (None, w) => (Ok (len p), emit (EvSpan p) w)
      end in
    let by_remAddr (h : Header) (body : list byte) : outcome Z * env :=
      if decide (remAddr = []) then send
      else
        match (Request_Fields (mkRequest h body None) []) ≫= (λ f, f !! str "rem-addr") with
        | Some f =>
          if decide (f ≠ remAddr) then
            (Err (Errorf "Skipping packet, client IPs don't match, actual client IP %v vs configured IP %v"), w)
          else send
        | None => send
        end in
    match Packet_UnmarshalBinary (Some (full_slice p)) with
    | Panic => (Panic, w)
    | Err _ =>
      if decide (packetType ≠ x00 ∨ remAddr ≠ []) then (Panic, w) else send
    | Ok packet =>
      match Packet_Header packet with
      | None => (Panic, w)
      | Some h =>
        if bool_decide (packetType ≠ x00 ∧ Header_Type h ≠ packetType) then
          (Err (Errorf "Skipping packet, Packet types don't match, actual type %v vs configured type %v"), w)
        else by_remAddr h (default [] (Packet_Body packet))
      end
    end.

#[export] Instance writer_Writer : Writer writer := λ mw,
  match mw with
  | WResponseLogger => ResponseLogger_Write
  | WSpan remote switchAddr remAddr packetType => span_Write remote switchAddr remAddr packetType
  end.

Lemma span_Write_grows remote switchAddr remAddr packetType p w :
  grows w (span_Write remote switchAddr remAddr packetType p w).2.
Proof.
  unfold span_Write. pose proof (env_call_grows w) as Hg. destruct (env_call w) as [[e|] w'];
    repeat case_match; simplify_eq; try done.
  all: etrans; [exact Hg|apply emit_grows].
Qed.

#[export] Instance writer_WriterLaws : WriterLaws writer.
Proof.
  intros [|remote switchAddr remAddr packetType] b w; [|apply span_Write_grows].
  cbn. unfold ResponseLogger_Write. repeat case_match; try done. apply emit_grows.
Qed.

Section Handlers.
Context {HH : Hash} {RE : Regexp} {PL : Platform} {DL : Dialer}.
Local Abbreviation M := (SM (response handler writer) unit) (only parsing).

(** [defer d]: [d] runs whatever the body does. *)
Definition defer (d m : M) : M := λ r,
  let '(o, r) := m r in let '(_, r) := d r in (o, r).

(** [a.Record(request.Context, request.Fields(tq.ContextConnRemoteAddr), obscure...)] *)
Definition Record_request (request : Request) (obscure : list gostring) : M :=
  record (Request_Fields request [ContextConnRemoteAddr]) obscure.

(** ** authen_ascii.go *)

(** [authenticateContinueStop]. *)
Definition authenticateContinueStop (request : Request) : option reply :=
  match Unmarshal (T := AuthenContinue) (Request_Body request) with
  | Ok body =>
    if AuthenContinueFlag_Has (AuthenContinue_Flags body) AuthenContinueFlagAbort
    then Some (authen_reply AuthenStatusFail
                 (str "ending per client request flag AuthenContinueFlagAbort"))
    else None
  | _ => None
  end.

(** The end of [getUsername]: ask for the password of [username]. *)
Definition askPassword (c : Provider) (username : gostring) : M :=
  response_Next (Some (HResponseLogger (HGetPassword c username))) ;;
  reply_ (RAuthen (NewAuthenReply
    [SetAuthenReplyStatus AuthenStatusGetPass;
     SetAuthenReplyServerMsg (str "password:");
     SetAuthenReplyFlag AuthenReplyFlagNoEcho])).

Definition getUsername (c : Provider) (username : gostring) (request : Request) : M :=
  defer (Record_request request [])
    (match authenticateContinueStop request with
     | Some rep => reply_ rep
     | None =>
       if decide (username = []) then
         match Unmarshal (T := AuthenContinue) (Request_Body request) with
         | Err _ =>
           reply_ (authen_reply AuthenStatusError
                     (str "expected authenticate continue packet for AuthenStatusGetUser"))
         | Panic => sm_lift Panic
         | Ok body =>
           if len (AuthenContinue_UserMessage body) =? 0 then
             reply_ (authen_reply AuthenStatusError
                       (str "missing UserMessage, containing the username"))
           else askPassword c (AuthenContinue_UserMessage body)
         end
       else askPassword c username
     end).

Definition getPassword (c : Provider) (username : gostring) (request : Request) : M :=
  defer (Record_request request [str "user-msg"])
    (match authenticateContinueStop request with
     | Some rep => reply_ rep
     | None =>
       match Unmarshal (T := AuthenContinue) (Request_Body request) with
       | Err _ =>
         reply_ (authen_reply AuthenStatusError
                   (str "expected authenticate continue packet for AuthenStatusGetPass"))
       | Panic => sm_lift Panic
       | Ok body =>
         if len (AuthenContinue_UserMessage body) =? 0 then
           reply_ (authen_reply AuthenStatusError (str "unknown username or password"))
         else
           match Provider_GetUser c username with
           | None =>
             reply_ (authen_reply AuthenStatusFail
                       (str "authentication denied [" ++ username ++ str "]"))
           | Some u => user_Handle (AAA_Authenticate u) request
           end
       end
     end).

(** [AuthenticateASCII.Handle]. *)
Definition AuthenticateASCII_Handle (c : Provider) (username : gostring) (request : Request) : M :=
  match authenticateContinueStop request with
  | Some rep => Record_request request [] ;; reply_ rep
  | None =>
    if decide (username = []) then
      Record_request request [] ;;
      response_Next (Some (HResponseLogger (HGetUsername c username))) ;;
      reply_ (authen_reply AuthenStatusGetUser (str "username:"))
    else getUsername c username request
  end.

(** ** authen_pap.go *)
Definition AuthenticatePAP_Handle (c : Provider) (request : Request) : M :=
  Record_request request [str "data"] ;;
  match Unmarshal (T := AuthenStart) (Request_Body request) with
  | Err _ => reply_ (authen_reply AuthenStatusError (str "unable to decode authenticate start packet"))
  | Panic => sm_lift Panic
  | Ok body =>
    if len (AuthenStart_User body) =? 0 then
      reply_ (authen_reply AuthenStatusError (str "missing username"))
    else if len (AuthenStart_Data body) =? 0 then
      reply_ (authen_reply AuthenStatusError (str "missing password"))
    else
      match Provider_GetUser c (AuthenStart_User body) with
      | None =>
        reply_ (authen_reply AuthenStatusFail
                  (str "authentication denied [" ++ AuthenStart_User body ++ str "]"))
      | Some u => user_Handle (AAA_Authenticate u) request
      end
  end.

(** ** authen.go *)
Record authenActionStart := mkAction {
  aas_action : AuthenAction;
  aas_atype : AuthenType;
  aas_service : AuthenService;
  aas_minorVersion : byte;
}.

#[export] Instance authenActionStart_eq_dec : EqDecision authenActionStart.
Proof. solve_decision. Defined.

(** The map literal; a nil handler is [None]. A field a key leaves out is
    zero. *)
Definition authenRouter (c : Provider) (user : gostring)
    : list (authenActionStart * option (Request → M)) :=
  [(mkAction AuthenActionLogin x00 AuthenServiceEnable MinorVersionOne,
    Some (AuthenticateASCII_Handle c user));
   (mkAction AuthenActionLogin AuthenTypeASCII x00 MinorVersionDefault,
    Some (AuthenticateASCII_Handle c user));
   (mkAction AuthenActionLogin AuthenTypePAP x00 MinorVersionOne,
    Some (AuthenticatePAP_Handle c));
   (mkAction AuthenActionLogin AuthenTypeCHAP x00 MinorVersionOne, None);
   (mkAction AuthenActionLogin AuthenTypeMSCHAP x00 MinorVersionOne, None);
   (mkAction AuthenActionLogin AuthenTypeMSCHAPV2 x00 MinorVersionOne, None)].

Fixpoint router_lookup (router : list (authenActionStart * option (Request → M)))
    (key : authenActionStart) : option (Request → M) :=
  match router with
  | [] => None
  | (k, h) :: router => if decide (k = key) then h else router_lookup router key
  end.

Definition AuthenticateStart_Handle (c : Provider) (request : Request) : M :=
  match Unmarshal (T := AuthenStart) (Request_Body request) with
  | Err _ =>
    reply_ (authen_reply AuthenStatusError
              (str "expected authenticate start packet for sessionID [" ++
               fmt_d (Header_SessionID (Request_Header request)) ++ str "]"))
  | Panic => sm_lift Panic
  | Ok body =>
    let key := mkAction (AuthenStart_Action body) (AuthenStart_Type body) x00
                 (Version_MinorVersion (Header_Version (Request_Header request))) in
    match router_lookup (authenRouter c (AuthenStart_User body)) key with
    | Some h => h request
    | None =>
      Record_request request [str "user-msg"] ;;
      reply_ (authen_reply AuthenStatusError (str "unknown authenticate start packet type"))
    end
  end.

(** ** author.go *)
Definition AuthorizeRequest_Handle (c : Provider) (request : Request) : M :=
  match Unmarshal (T := AuthorRequest) (Request_Body request) with
  | Err _ => reply_ (author_reply AuthorStatusError (str "invalid AuthorRequest packet"))
  | Panic => sm_lift Panic
  | Ok body =>
    match Provider_GetUser c (AuthorRequest_User body) with
    | None =>
      reply_ (author_reply AuthorStatusFail
                (str "authorization denied for user [" ++ AuthorRequest_User body ++ str "]"))
    | Some u => user_Handle (AAA_Authorizer u) request
    end
  end.

(** ** acct.go *)
Definition AccountingRequest_Handle (c : Provider) (request : Request) : M :=
  match Unmarshal (T := AcctRequest) (Request_Body request) with
  | Err _ => reply_ (acct_reply AcctReplyStatusError (str "expected accounting request packet"))
  | Panic => sm_lift Panic
  | Ok body =>
    match Provider_GetUser c (AcctRequest_User body) with
    | None =>
      reply_ (acct_reply AcctReplyStatusError
                (str "failed to lookup user [" ++ AcctRequest_User body ++
                 str "] for accounting login"))
    | Some u => user_Handle (AAA_Accounting u) request
    end
  end.

(** ** start.go *)
Definition Start_Handle (c : Provider) (request : Request) : M :=
  let t := Header_Type (Request_Header request) in
  if decide (t = Authenticate) then AuthenticateStart_Handle c request
  else if decide (t = Authorize) then
    Record_request request [] ;; AuthorizeRequest_Handle c request
  else if decide (t = Accounting) then
    Record_request request [] ;; AccountingRequest_Handle c request
  else mret tt.

Definition Start_New (c : Provider) : handler := HResponseLogger (HStart c).

(** ** span.go *)
Definition strToHeaderType (packetType : gostring) : HeaderType :=
  let packetType := strings_ToLower packetType in
  if decide (packetType = str "authenticate") then Authenticate
  else if decide (packetType = str "authorize") then Authorize
  else if decide (packetType = str "accounting") then Accounting
  else x00.

Definition Span_New (c : Provider) (o : options) : option handler :=
  match o !! str "destination" with
  | None => None
  | Some destination =>
    Some (HSpan (mkSpan c destination (option_get o (str "switchAddr"))
                   (option_get o (str "remAddr"))
                   (strToHeaderType (option_get o (str "packetType")))))
  end.

(** [dialHost]. *)
Definition dialHost : SM (response handler writer) (option error) := λ r,
  let '(e, w) := env_call (r_env r) in (Ok e, set_env r w).

(** A write whose result is ignored. *)
Definition writer_Write_ (mw : writer) (b : list byte) : M := λ r,
  match writer_Write mw b (r_env r) with
  | (Panic, w) => (Panic, set_env r w)
  | (_, w) => (Ok tt, set_env r w)
  end.

(** [callNextHandler]: the response logger around a new start handler. *)
Definition callNextHandler (s : Span) (request : Request) : M :=
  response_RegisterWriter WResponseLogger ;; Start_Handle (span_provider s) request.

Definition Span_Handle (s : Span) (request : Request) : M :=
  e ← dialHost;
  match e with
  | Some _ => callNextHandler s request
  | None =>
    let w := WSpan (dial_remote (span_destination s)) (span_switchAddr s) (span_remAddr s)
               (span_packetType s) in
    match Packet_MarshalBinary (mkPacket (Some (Request_Header request)) (Some (Request_Body request))) with
    | Err _ => callNextHandler s request
    | Panic => sm_lift Panic
    | Ok reqBytes =>
      writer_Write_ w reqBytes ;;
      response_RegisterWriter w ;;
      callNextHandler s request
    end
  end.

(** ** Handle, of each type of handler *)
Fixpoint handler_Handle (h : handler) (request : Request) : M :=
  match h with
  | HStart c => Start_Handle c request
  | HGetUsername c username => getUsername c username request
  | HGetPassword c username => getPassword c username request
  | HResponseLogger next =>
    response_RegisterWriter WResponseLogger ;; handler_Handle next request
  | HSpan s => Span_Handle s request
  | HSecretConfig h => handler_Handle h request
  | HNil => sm_lift Panic
  end.

#[export] Instance handler_Handler : Handler handler writer := handler_Handle.

(** ** The promises to the server *)

Lemma keeps_defer d m : keeps d → keeps m → keeps (defer d m).
Proof.
  intros Hd Hm r. unfold defer. specialize (Hm r). destruct (m r) as [o r1].
  specialize (Hd r1). destruct (d r1) as [o' r2]. by etrans.
Qed.

Lemma keeps_Record_request q o : keeps (Record_request q o).
Proof. apply keeps_record. Qed.

Lemma keeps_askPassword c u : keeps (askPassword c u).
Proof. unfold askPassword. auto with keeps. Qed.

Local Hint Resolve keeps_defer keeps_Record_request keeps_askPassword keeps_user_Handle : keeps.

Lemma keeps_getUsername c u q : keeps (getUsername c u q).
Proof. unfold getUsername. apply keeps_defer; [auto with keeps|]. repeat case_match; auto with keeps. Qed.

Lemma keeps_getPassword c u q : keeps (getPassword c u q).
Proof. unfold getPassword. apply keeps_defer; [auto with keeps|]. repeat case_match; auto with keeps. Qed.

Local Hint Resolve keeps_getUsername keeps_getPassword : keeps.

Lemma keeps_ASCII c u q : keeps (AuthenticateASCII_Handle c u q).
Proof. unfold AuthenticateASCII_Handle. repeat case_match; auto 6 with keeps. Qed.

Lemma keeps_PAP c q : keeps (AuthenticatePAP_Handle c q).
Proof.
  unfold AuthenticatePAP_Handle. apply keeps_bind; [auto with keeps|]. intros _.
  repeat case_match; auto with keeps.
Qed.

Local Hint Resolve keeps_ASCII keeps_PAP : keeps.

Lemma keeps_AuthenticateStart c q : keeps (AuthenticateStart_Handle c q).
Proof.
  unfold AuthenticateStart_Handle. destruct (Unmarshal _) as [body|e|]; [|auto with keeps..].
  cbv zeta. cbn [router_lookup authenRouter].
  repeat case_decide; auto with keeps.
Qed.

Lemma keeps_Start c q : keeps (Start_Handle c q).
Proof.
  unfold Start_Handle. repeat case_decide; [apply keeps_AuthenticateStart| | |auto with keeps];
    (apply keeps_bind; [auto with keeps|]; intros _;
     unfold AuthorizeRequest_Handle, AccountingRequest_Handle;
     repeat case_match; auto with keeps).
Qed.

Lemma keeps_writer_Write_ mw b : keeps (writer_Write_ mw b).
Proof.
  intros r. unfold writer_Write_. pose proof (Write_grows mw b (r_env r)) as Hg.
  by destruct (writer_Write mw b (r_env r)) as [[] w].
Qed.

Lemma keeps_dialHost : keeps dialHost.
Proof.
  intros r. unfold dialHost. pose proof (env_call_grows (r_env r)) as Hg. by destruct (env_call (r_env r)).
Qed.

Local Hint Resolve keeps_Start keeps_writer_Write_ keeps_dialHost : keeps.

Lemma keeps_Span s q : keeps (Span_Handle s q).
Proof.
  unfold Span_Handle, callNextHandler. apply keeps_bind; [auto with keeps|]. intros [e|];
    repeat case_match; auto 8 with keeps.
Qed.

Lemma keeps_handler h q : keeps (handler_Handle h q).
Proof.
  induction h; cbn [handler_Handle]; auto using keeps_Span with keeps.
Qed.

#[export] Instance handler_HandlerLaws : HandlerLaws handler writer.
Proof. split; intros h q r; apply (keeps_handler h q r). Qed.
End Handlers.
