(* ===== verification/SecretProviders.v ===== *)
(** How a connection gets its secret and its handler: the prefix and the DNS
    provider of cmds/server/config/secret, and the default keychain. *)
From S2P Require Import Prelude.
From S2P Require Import GoStrings.
From S2P Require Import Proxy.
From S2P Require Import Response.
From S2P Require Import Config.
From S2P Require Import AAA.
From S2P Require Import Handlers.

(** ** What is used of the packages net and encoding/json

    A network as [net.ParseCIDR] returns it, with its text and the test for an
    address, which is known by its text. The text of a network that was parsed
    is parsed to that network again. [net_LookupAddr] is what the resolver
    answers; [json_Unmarshal_strings] decodes a list of strings. *)
Class Net := {
  IPNet : Type;
  net_ParseCIDR : gostring → option IPNet;
  IPNet_String : IPNet → gostring;
  IPNet_Contains : IPNet → gostring → bool;
  net_ParseCIDR_String : ∀ s n, net_ParseCIDR s = Some n → net_ParseCIDR (IPNet_String n) = Some n;
  net_LookupAddr : gostring → option (list gostring);
  json_Unmarshal_strings : gostring → option (list gostring);
}.

(** The text of a nil [net.IP]; it is in no network. *)
Definition nil_IP : gostring := str "<nil>".

(** ** The interface *)

(** [tq.SecretProvider]'s [Get] returns a secret, a handler and an error, all
    of which can be nil. *)
Record got := mkGot {
  got_secret : option (list byte);
  got_handler : option handler;
  got_err : option error;
}.

Definition no_secret (e : error) : got := mkGot None None (Some e).

(** [func(context.Context, string) ([]byte, error)]. *)
Definition secretFunc : Type := gostring → option (list byte) * option error.

(** [Keychain.Add] of keychain.go. The conversion of an empty string is an
    empty slice, not a nil one. *)
Definition Keychain_Add (kc : Keychain) : secretFunc := λ _, (Some (Keychain_Key kc), None).

(** The struct with the embedded [tq.Handler], which may be nil. Both packages
    have the same one. *)
Record secretConfig := mkSecretConf {
  secretConfig_secret : secretFunc;
  secretConfig_Handler : option handler;
}.

(** A [secretConfig] as a [tq.Handler]: it is not nil itself. *)
Definition secretConfig_handler (c : secretConfig) : handler :=
  HSecretConfig (default HNil (secretConfig_Handler c)).

(** [secret, err := c.secret(ctx, name); return secret, c, err]. *)
Definition secretConfig_got (c : secretConfig) (name : gostring) : got :=
  let '(secret, err) := secretConfig_secret c name in
  mkGot secret (Some (secretConfig_handler c)) err.

Section Providers.
Context {NT : Net}.

(** ** The prefix provider *)
Record PrefixProvider := mkPrefixProvider {
  prefix_secrets : gmap gostring secretConfig;
}.

Definition SetPrefixSecret (config : secretConfig) (prefixes : list gostring) (p : PrefixProvider)
    : PrefixProvider :=
  foldl (λ p prefix,
    match net_ParseCIDR prefix with
    | None => p
    | Some ipnet => mkPrefixProvider (<[IPNet_String ipnet := config]> (prefix_secrets p))
    end) p prefixes.

(** The package function [New], with its options. *)
Definition prefix_New (opts : list (PrefixProvider → PrefixProvider)) : PrefixProvider :=
  foldl (λ p opt, opt p) (mkPrefixProvider ∅) opts.

(** The method [New]; a nil provider is [None]. *)
Definition PrefixProvider_New (provider : SecretConfig) (h : option handler) (secret : secretFunc)
    : option PrefixProvider :=
  match json_Unmarshal_strings (option_get (SecretConfig_Options provider) (str "prefixes")) with
  | None => None
  | Some prefixes =>
    if len prefixes =? 0 then None
    else Some (prefix_New [SetPrefixSecret (mkSecretConf secret h) prefixes])
  end.

(** The loop of [Get] over the secrets, in the order it happens to have. *)
Fixpoint prefix_scan (secrets : list (gostring * secretConfig)) (ip : option gostring) : got :=
  match secrets with
  | [] => no_secret (Errorf "no matching prefix secret provider found")
  | (cidr, c) :: secrets =>
    match net_ParseCIDR cidr, ip with
    | Some ipNet, Some ip =>
      if IPNet_Contains ipNet ip then secretConfig_got c ip else prefix_scan secrets (Some ip)
    | _, _ => prefix_scan secrets ip
    end
  end.

(** Go ranges over a map in any order. *)
Definition prefix_Get_in (secrets : list (gostring * secretConfig)) (remote : Addr) : got :=
  match remote with
  | TCPAddr ip _ => prefix_scan secrets ip
  | _ => no_secret (Errorf "unable to assert [%v] is net.TCPAddr")
  end.

Definition PrefixProvider_Get (p : PrefixProvider) (remote : Addr) : got :=
  prefix_Get_in (map_to_list (prefix_secrets p)) remote.

(** ** The DNS provider *)
Record DNSProvider := mkDNSProvider {
  dns_secrets : gmap gostring secretConfig;
}.

Definition SetDNSSecret (config : secretConfig) (hosts : list gostring) (p : DNSProvider) : DNSProvider :=
  foldl (λ p h, mkDNSProvider (<[h := config]> (dns_secrets p))) p hosts.

Definition dns_New (opts : list (DNSProvider → DNSProvider)) : DNSProvider :=
  foldl (λ p opt, opt p) (mkDNSProvider ∅) opts.

Definition DNSProvider_New (provider : SecretConfig) (h : option handler) (secret : secretFunc)
    : option DNSProvider :=
  match json_Unmarshal_strings (option_get (SecretConfig_Options provider) (str "hosts")) with
  | None => None
  | Some hosts =>
    if len hosts =? 0 then None
    else Some (dns_New [SetDNSSecret (mkSecretConf secret h) hosts])
  end.

(** The loop over the names of the address. *)
Fixpoint dns_scan (secrets : gmap gostring secretConfig) (names : list gostring) : got :=
  match names with
  | [] => no_secret (Errorf "no matching dns secret provider found for names %v, for remote [%v]")
  | name :: names =>
    match secrets !! name with
    | Some c => secretConfig_got c name
    | None => dns_scan secrets names
    end
  end.

Definition DNSProvider_Get (p : DNSProvider) (remote : Addr) : got :=
  match remote with
  | TCPAddr ip _ =>
    match net_LookupAddr (default nil_IP ip) with
    | None => no_secret (Errorf "lookup")
    | Some names => dns_scan (dns_secrets p) names
    end
  | _ => no_secret (Errorf "unable to assert [%v] is net.TCPAddr")
  end.

(** ** The providers behind the interface *)
Inductive SecretProvider :=
| SPPrefix (p : PrefixProvider)
| SPDNS (p : DNSProvider).

Definition SecretProvider_Get (sp : SecretProvider) (remote : Addr) : got :=
  match sp with
  | SPPrefix p => PrefixProvider_Get p remote
  | SPDNS p => DNSProvider_Get p remote
  end.
End Providers.
