(* ===== verification/Loader.v ===== *)
(** The loader of cmds/server/loader: from a configuration to the secret
    providers and their handlers, the prefix filters, and the loop that serves
    queries for connections between two configurations; the registrations of
    cmds/server/main.go. *)
From S2P Require Import Prelude.
From S2P Require Import GoStrings.
From S2P Require Import Proxy.
From S2P Require Import Crypter.
From S2P Require Import Response.
From S2P Require Import Config.
From S2P Require Import Stringy.
From S2P Require Import AAA.
From S2P Require Import Handlers.
From S2P Require Import SecretProviders.

Section Loader.
Context {NT : Net}.

(** ** The injected factories

    A [New] that returns an error, or nil, is [None]. *)
Definition authenticatorFactory : Type := gostring → options → option user_handler.
Definition accounterFactory : Type := options → user_handler.
Definition authorizerFactory : Type := User → option user_handler.
Definition handlerFactory : Type := Provider → options → option handler.
Definition secretProviderFactory : Type :=
  SecretConfig → option handler → secretFunc → option SecretProvider.
Definition keychainProvider : Type := Keychain → secretFunc.
Definition providerFactory : Type := Provider → Provider.

(** [Loader], while its options are applied: what was not set is nil. *)
Record Loader := mkLoader {
  l_logger : bool;
  l_keychain : option keychainProvider;
  l_config : option providerFactory;
  l_authorizer : option authorizerFactory;
  l_providerTypes : gmap ProviderType secretProviderFactory;
  l_authenticatorTypes : gmap AuthenticatorType authenticatorFactory;
  l_accounterTypes : gmap AccounterType accounterFactory;
  l_handlerTypes : gmap HandlerType handlerFactory;
}.

Definition LoaderOption : Type := Loader → Loader.

Definition SetLoggerProvider : LoaderOption := λ l,
  mkLoader true (l_keychain l) (l_config l) (l_authorizer l) (l_providerTypes l)
    (l_authenticatorTypes l) (l_accounterTypes l) (l_handlerTypes l).
Definition RegisterHandlerType (t : HandlerType) (h : handlerFactory) : LoaderOption := λ l,
  mkLoader (l_logger l) (l_keychain l) (l_config l) (l_authorizer l) (l_providerTypes l)
    (l_authenticatorTypes l) (l_accounterTypes l) (<[t := h]> (l_handlerTypes l)).
Definition SetKeychainProvider (k : keychainProvider) : LoaderOption := λ l,
  mkLoader (l_logger l) (Some k) (l_config l) (l_authorizer l) (l_providerTypes l)
    (l_authenticatorTypes l) (l_accounterTypes l) (l_handlerTypes l).
Definition SetConfigProvider (c : providerFactory) : LoaderOption := λ l,
  mkLoader (l_logger l) (l_keychain l) (Some c) (l_authorizer l) (l_providerTypes l)
    (l_authenticatorTypes l) (l_accounterTypes l) (l_handlerTypes l).
Definition SetAuthorizerProvider (a : authorizerFactory) : LoaderOption := λ l,
  mkLoader (l_logger l) (l_keychain l) (l_config l) (Some a) (l_providerTypes l)
    (l_authenticatorTypes l) (l_accounterTypes l) (l_handlerTypes l).
Definition RegisterSecretProviderType (t : ProviderType) (sp : secretProviderFactory) : LoaderOption := λ l,
  mkLoader (l_logger l) (l_keychain l) (l_config l) (l_authorizer l) (<[t := sp]> (l_providerTypes l))
    (l_authenticatorTypes l) (l_accounterTypes l) (l_handlerTypes l).
Definition RegisterAuthenticator (t : AuthenticatorType) (a : authenticatorFactory) : LoaderOption := λ l,
  mkLoader (l_logger l) (l_keychain l) (l_config l) (l_authorizer l) (l_providerTypes l)
    (<[t := a]> (l_authenticatorTypes l)) (l_accounterTypes l) (l_handlerTypes l).
Definition RegisterAccounter (t : AccounterType) (a : accounterFactory) : LoaderOption := λ l,
  mkLoader (l_logger l) (l_keychain l) (l_config l) (l_authorizer l) (l_providerTypes l)
    (l_authenticatorTypes l) (<[t := a]> (l_accounterTypes l)) (l_handlerTypes l).

(** A loader with everything it needs. *)
Record ready := mkReady {
  ld : Loader;
  ld_keychain : keychainProvider;
  ld_config : providerFactory;
  ld_authorizer : authorizerFactory;
}.

(** [NewLoader], up to the start of [updates]. *)
Definition NewLoader (opts : list LoaderOption) : outcome ready :=
  let wl := foldl (λ l opt, opt l) (mkLoader false None None None ∅ ∅ ∅ ∅) opts in
  if negb (l_logger wl) then Err (Errorf "please provide a logger")
  else
    match l_keychain wl with
    | None => Err (Errorf "please provide a keychain provider")
    | Some k =>
      match l_config wl with
      | None => Err (Errorf "please provide a config provider")
      | Some c =>
        match l_authorizer wl with
        | None => Err (Errorf "please provide an authorizer provider")
        | Some a => Ok (mkReady wl k c a)
        end
      end
    end.

(** ** Users *)

(** The loop of [reduceAuthenticatorAccounterFromGroups]. *)
Definition set_AA (u : User) (a : option Authenticator) (c : option Accounter) : User :=
  mkUser (User_Name u) (User_Scopes u) (User_Groups u) (User_Services u) (User_Commands u) a c.

Fixpoint reduce_loop (groups : list Group) (u : User) : User :=
  match groups with
  | [] => u
  | g :: groups =>
    let u :=
      match Group_Authenticator g, User_Authenticator u with
      | Some a, None => set_AA u (Some a) (User_Accounter u)
      | _, _ => u
      end in
    let u :=
      match Group_Accounter g, User_Accounter u with
      | Some c, None => set_AA u (User_Authenticator u) (Some c)
      | _, _ => u
      end in
    match User_Authenticator u, User_Accounter u with
    | Some _, Some _ => u
    | _, _ => reduce_loop groups u
    end
  end.

Definition reduceAuthenticatorAccounterFromGroups (u : User) : User :=
  match User_Authenticator u, User_Accounter u with
  | Some _, Some _ => u
  | _, _ => reduce_loop (User_Groups u) u
  end.

(** The turn of the inner loop of [build] for one user: the entry it adds to
    the users of a scope, if any. *)
Definition build_user (l : ready) (scope : gostring) (u : User) : option AAA :=
  if negb (User_HasScope u scope) then None
  else
    let u := User_LocalizeToScope u scope in
    let u := reduceAuthenticatorAccounterFromGroups u in
    let opts := match ld_authorizer l u with Some a => [SetAAAAuthorizer a] | None => [] end in
    let authenticator : option (list AAAOption) :=
      match User_Authenticator u with
      | None => Some []
      | Some a =>
        match l_authenticatorTypes (ld l) !! Authenticator_Type a with
        | None => Some []
        | Some af =>
          match af (User_Name u) (Authenticator_Options a) with
          | None => None
          | Some h => Some [SetAAAAuthenticator h]
          end
        end
      end in
    match authenticator with
    | None => None
    | Some o =>
      let opts := opts ++ o in
      let opts :=
        match User_Accounter u with
        | None => opts
        | Some a =>
          match l_accounterTypes (ld l) !! Accounter_Type a with
          | None => opts
          | Some acf => opts ++ [SetAAAAccounter (acf (Accounter_Options a))]
          end
        end in
      Some (NewAAA opts)
    end.

(** The inner loop: later entries overwrite earlier ones of the same name. *)
Definition build_users (l : ready) (scope : gostring) (users : list User) : Provider :=
  foldl (λ m u, match build_user l scope u with Some a => <[User_Name u := a]> m | None => m end) ∅ users.

(** The turn of the outer loop for one secret config. *)
Definition build_scope (l : ready) (users : list User) (provider : SecretConfig) : option SecretProvider :=
  let users := build_users l (SecretConfig_Name provider) users in
  if decide (users = ∅) then None
  else
    match l_handlerTypes (ld l) !! HandlerConfig_Type (SecretConfig_Handler provider) with
    | None => None
    | Some handlerType =>
      let userConfig := ld_config l users in
      let h := handlerType userConfig (HandlerConfig_Options (SecretConfig_Handler provider)) in
      match l_providerTypes (ld l) !! SecretConfig_Type provider with
      | None => None
      | Some providerType =>
        providerType provider h (ld_keychain l (SecretConfig_Secret provider))
      end
    end.

Definition build (l : ready) (c : ServerConfig) : list SecretProvider :=
  omap (build_scope l (ServerConfig_Users c)) (ServerConfig_Secrets c).

(** ** Queries *)
Fixpoint loader_get (providers : list SecretProvider) (remote : Addr) : got :=
  match providers with
  | [] => no_secret (Errorf "remote [%v] has no secret providers")
  | sp :: providers =>
    let g := SecretProvider_Get sp remote in
    match got_err g, got_secret g, got_handler g with
    | None, Some _, Some _ => g
    | _, _, _ => loader_get providers remote
    end
  end.

(** ** prefix_filter.go *)
Definition prefixFilter : Type := gset gostring.

Definition newPrefixFilter (prefixes : list IPNet) : prefixFilter := list_to_set (IPNet_String <$> prefixes).

Definition prefixFilter_match (p : prefixFilter) (ip : option gostring) : bool :=
  existsb (λ cidr,
    match net_ParseCIDR cidr, ip with
    | Some ipNet, Some ip => IPNet_Contains ipNet ip
    | _, _ => false
    end) (elements p).

Definition prefixFilter_deny (p : prefixFilter) (remote : Addr) : bool :=
  if decide (p = ∅) then false
  else match remote with TCPAddr ip _ => prefixFilter_match p ip | _ => true end.

Definition prefixFilter_allow (p : prefixFilter) (remote : Addr) : bool :=
  if decide (p = ∅) then true
  else match remote with TCPAddr ip _ => prefixFilter_match p ip | _ => false end.

Definition strToIPNet (prefixes : list gostring) : list IPNet := omap net_ParseCIDR prefixes.

Definition createPrefixFilters (c : ServerConfig) : prefixFilter * prefixFilter :=
  (newPrefixFilter (strToIPNet (ServerConfig_PrefixDeny c)),
   newPrefixFilter (strToIPNet (ServerConfig_PrefixAllow c))).

(** ** The loop of [updates] *)
Record updates_state := mkUpdates {
  us_providers : list SecretProvider;
  us_deny : prefixFilter;
  us_allow : prefixFilter;
  us_warm : bool;
}.

(** A receive from one of the two channels of the [select]. *)
Inductive update :=
| NewConfig (c : ServerConfig)
| Query (remote : Addr).

Definition updates_init : updates_state := mkUpdates [] (newPrefixFilter []) (newPrefixFilter []) false.

(** What is logged of a query. *)
Inductive filter_log := DeniedByDeny | DeniedByAllow.

(** One turn: the state after it, what is logged of the filters, and the answer
    to a query. *)
Definition updates_step (l : ready) (s : updates_state) (u : update)
    : updates_state * list filter_log * option got :=
  match u with
  | NewConfig c =>
    let providers := build l c in
    let '(deny, allow) := createPrefixFilters c in
    (mkUpdates providers deny allow true, [], None)
  | Query remote =>
    let log1 := if prefixFilter_deny (us_deny s) remote then [DeniedByDeny] else [] in
    let log2 := if negb (prefixFilter_allow (us_allow s) remote) then [DeniedByAllow] else [] in
    (s, log1 ++ log2, Some (loader_get (us_providers s) remote))
  end.

(** A run: the state at its end, and the answers in the order of the queries. *)
Fixpoint updates (l : ready) (s : updates_state) (us : list update) : updates_state * list got :=
  match us with
  | [] => (s, [])
  | u :: us =>
    let '(s, _, a) := updates_step l s u in
    let '(s, answers) := updates l s us in
    (s, match a with Some g => g :: answers | None => answers end)
  end.

(** [BlockUntilLoaded]: [None] while it blocks. *)
Definition BlockUntilLoaded (s : updates_state) : option unit :=
  if us_warm s then Some tt else None.

(** ** The use of an answer by [Serve] of server.go

    [None]: the connection is closed without a read. *)
Definition Serve_accept (g : got) (local remote : Addr) (input : list byte) (input_end : error)
    (write_errs : list (option error)) (proxy : bool) : option (crypter * handler) :=
  match got_err g, got_secret g, got_handler g with
  | None, Some secret, Some h => Some (newCrypter secret local remote input input_end write_errs proxy, h)
  | _, _, _ => None
  end.

(** ** The factories of the program *)

(** [Authorizer.New] of stringy.go. *)
Definition Stringy_New (u : User) : option user_handler := Some (HStringy (ReduceAll u)).

(** [Authenticator.New] of bcrypt.go, as a factory. *)
Definition Bcrypt_factory (a : BcryptAuthenticator) : authenticatorFactory := λ username o,
  match BcryptAuthenticator_New a username o with
  | Ok b => Some (HBcrypt b)
  | _ => None
  end.

(** [Accounter.New] of local.go and of syslog.go. *)
Definition Local_New : accounterFactory := λ _, HLocal.
Definition Syslog_New : accounterFactory := λ _, HSyslog.

(** [Provider.New] of provider.go. *)
Definition Provider_New : providerFactory := λ users, users.

Definition Start_factory : handlerFactory := λ c _, Some (Start_New c).
Definition Prefix_factory : secretProviderFactory := λ p h s, SPPrefix <$> PrefixProvider_New p h s.
Definition DNS_factory : secretProviderFactory := λ p h s, SPDNS <$> DNSProvider_New p h s.

(** The options [main] passes; [shhh] is the keychain it gives to bcrypt. *)
Definition main_options (shhh : getSecret) : list LoaderOption :=
  [SetLoggerProvider; SetKeychainProvider Keychain_Add; SetConfigProvider Provider_New;
   SetAuthorizerProvider Stringy_New; RegisterSecretProviderType PREFIX Prefix_factory;
   RegisterHandlerType START Start_factory; RegisterAuthenticator BCRYPT (Bcrypt_factory (bcrypt_New shhh));
   RegisterAccounter FILE Local_New].
End Loader.
