(* ===== verification/Listener.v ===== *)
(** The listener of server.go: [NewServer], the loop of [Serve] that accepts
    connections, and the wait group of sessions.go that it waits for when it
    stops. *)
From S2P Require Import Prelude.
From S2P Require Import Proxy.
From S2P Require Import Crypter.
From S2P Require Import Response.
From S2P Require Import Handlers.
From S2P Require Import SecretProviders.
From S2P Require Import Loader.

(** [tq.SecretProvider]. *)
Definition secret_provider : Type := Addr → got.

(** [waitGroup]: [wg_count] is the counter of the embedded [sync.WaitGroup];
    [wg_active] is a [uint]. *)
Record waitGroup := mkWaitGroup {
  wg_count : Z;
  wg_active : Z;
}.

Definition u64 (z : Z) : Z := z mod 18446744073709551616.

Definition waitGroup_Add (delta : Z) (w : waitGroup) : waitGroup :=
  mkWaitGroup (wg_count w + delta) (u64 (wg_active w + 1)).

(** [sync.WaitGroup] panics when its counter gets negative. *)
Definition waitGroup_Done (w : waitGroup) : outcome waitGroup :=
  if wg_count w - 1 <? 0 then Panic
  else Ok (mkWaitGroup (wg_count w - 1) (u64 (wg_active w - 1))).

(** [Server], but for its logger. *)
Record Server := mkServer {
  sv_waitGroup : waitGroup;
  sv_SecretProvider : secret_provider;
  sv_proxy : bool;
}.

Definition Option_ : Type := Server → Server.
Definition SetUseProxy (v : bool) : Option_ := λ s, mkServer (sv_waitGroup s) (sv_SecretProvider s) v.

Definition NewServer (sp : secret_provider) (opts : list Option_) : Server :=
  foldl (λ s opt, opt s) (mkServer (mkWaitGroup 0 0) sp false) opts.

(** A connection that was accepted. *)
Record net_conn := mkNetConn {
  co_local : Addr;
  co_remote : Addr;
  co_in : list byte;
  co_end : error;
  co_write_errs : list (option error);
}.

(** What [listener.Accept] returns: a connection, a [net.OpError] that is
    temporary or not, or another error. *)
Inductive accept_result :=
| Accepted (conn : net_conn)
| AcceptOpError (temporary : bool)
| AcceptError.

(** Where [Serve] is: in its loop, in the [Wait] of its deferred function, or
    done. *)
Inductive serve_phase := Accepting | Stopping | Stopped.

#[export] Instance serve_phase_eq_dec : EqDecision serve_phase.
Proof. solve_decision. Defined.

(** The server with the connections whose goroutines run. *)
Record listening := mkListening {
  ls_server : Server;
  ls_phase : serve_phase;
  ls_running : list (crypter * handler);
}.

Definition listen (s : Server) : listening := mkListening s Accepting [].

Definition set_waitGroup (s : Server) (w : waitGroup) : Server :=
  mkServer w (sv_SecretProvider s) (sv_proxy s).

(** A connection is closed at once, or gets a goroutine. *)
Definition serve_conn (s : listening) (conn : net_conn) : listening :=
  match Serve_accept (sv_SecretProvider (ls_server s) (co_remote conn)) (co_local conn) (co_remote conn)
          (co_in conn) (co_end conn) (co_write_errs conn) (sv_proxy (ls_server s)) with
  | None => s
  | Some ch =>
    mkListening (set_waitGroup (ls_server s) (waitGroup_Add 1 (sv_waitGroup (ls_server s))))
      Accepting (ls_running s ++ [ch])
  end.

(** A turn of the loop, in which the context is done or [Accept] returns. *)
Inductive serve_turn := CtxDone | Accept (r : accept_result).

Definition Serve_iteration (t : serve_turn) (s : listening) : listening :=
  match t with
  | CtxDone => mkListening (ls_server s) Stopping (ls_running s)
  | Accept (Accepted conn) => serve_conn s conn
  | Accept (AcceptOpError false) => mkListening (ls_server s) Stopping (ls_running s)
  | Accept (AcceptOpError true) => s
  | Accept AcceptError => s
  end.

(** The steps of the process: a turn of the loop, the end of a goroutine, and
    the return of [Wait]. *)
Inductive listen_step : listening → listening → Prop :=
| listen_turn s t : ls_phase s = Accepting → listen_step s (Serve_iteration t s)
| listen_done s before ch after w :
    ls_running s = before ++ ch :: after → waitGroup_Done (sv_waitGroup (ls_server s)) = Ok w →
    listen_step s (mkListening (set_waitGroup (ls_server s) w) (ls_phase s) (before ++ after))
| listen_return s :
    ls_phase s = Stopping → wg_count (sv_waitGroup (ls_server s)) = 0 →
    listen_step s (mkListening (ls_server s) Stopped (ls_running s)).

(** ** The count of the connections *)

(** The wait group counts the goroutines, and [Serve] has not returned while
    one of them runs. *)
Definition listening_ok (s : listening) : Prop :=
  wg_count (sv_waitGroup (ls_server s)) = len (ls_running s) ∧
  wg_active (sv_waitGroup (ls_server s)) = u64 (len (ls_running s)) ∧
  (ls_phase s = Stopped → ls_running s = []).

Lemma u64_add z d : u64 (u64 z + d) = u64 (z + d).
Proof. unfold u64. apply Zplus_mod_idemp_l. Qed.

Lemma set_proxy_options sp bs :
  sv_waitGroup (NewServer sp (SetUseProxy <$> bs)) = mkWaitGroup 0 0.
Proof.
  unfold NewServer. generalize false as b. induction bs as [|b' bs IH]; intros b; [done|]. apply IH.
Qed.

Lemma listening_ok_init sp bs : listening_ok (listen (NewServer sp (SetUseProxy <$> bs))).
Proof. split_and!; cbn; rewrite ?set_proxy_options; done. Qed.

Lemma waitGroup_Done_ok w w' :
  waitGroup_Done w = Ok w' → wg_count w' = wg_count w - 1 ∧ wg_active w' = u64 (wg_active w - 1).
Proof. unfold waitGroup_Done. case_match; [done|]. by intros [= <-]. Qed.

Lemma listening_ok_step s s' : listening_ok s → listen_step s s' → listening_ok s'.
Proof.
  intros (Hc & Ha & Hs) Hstep. destruct Hstep as [s t Hp|s before ch after w Hr Hw|s Hp H0].
  - destruct t as [|[conn|[]|]]; [by split_and!| |by split_and!..].
    cbn [Serve_iteration]. unfold serve_conn. destruct (Serve_accept _ _ _ _ _ _ _) as [ch|]; [|by split_and!].
    unfold listening_ok. cbn. rewrite Hc, Ha, len_app, len_cons, len_nil. split_and!; [lia|by rewrite u64_add|done].
  - apply waitGroup_Done_ok in Hw as [H1 H2]. rewrite Hr, len_app, len_cons in Hc, Ha. unfold listening_ok. cbn.
    rewrite H1, H2, Hc, Ha, len_app. split_and!; [lia| |].
    + rewrite <- Z.add_opp_r, u64_add. f_equal. lia.
    + intros Hp. specialize (Hs Hp). rewrite Hs in Hr. by destruct before.
  - split_and!; [done..|]. cbn. intros _. destruct (ls_running s); [done|].
    rewrite len_cons in Hc. pose proof (len_nonneg l). lia.
Qed.

Lemma listening_ok_reachable sp bs s :
  rtc listen_step (listen (NewServer sp (SetUseProxy <$> bs))) s → listening_ok s.
Proof.
  revert s. apply rtc_ind_r; [apply listening_ok_init|]. intros; by eapply listening_ok_step.
Qed.

(** A server that stops takes one step per goroutine, and one more. *)
Lemma stopping_step s s' :
  listening_ok s → ls_phase s ≠ Accepting → listen_step s s' →
  ls_phase s' ≠ Accepting ∧
  (length (ls_running s') + (if decide (ls_phase s' = Stopped) then 0 else 1) <
   length (ls_running s) + (if decide (ls_phase s = Stopped) then 0 else 1))%nat.
Proof.
  intros (_ & _ & Hs) Hp Hstep. destruct Hstep as [s t Ha|s before ch after w Hr Hw|s Ha H0]; [done| |].
  - cbn. rewrite Hr, !length_app. cbn. split; [done|]. case_decide; lia.
  - cbn [ls_phase ls_running]. rewrite Ha, decide_True, decide_False by done. split; [done|]. lia.
Qed.

Lemma stopping_steps n s s' :
  listening_ok s → ls_phase s ≠ Accepting → nsteps listen_step n s s' →
  ls_phase s' ≠ Accepting ∧ listening_ok s' ∧
  (n + length (ls_running s') + (if decide (ls_phase s' = Stopped) then 0 else 1) <=
   length (ls_running s) + (if decide (ls_phase s = Stopped) then 0 else 1))%nat.
Proof.
  intros Hok Hp Hn. revert Hok Hp. induction Hn as [s|n s s1 s' Hstep _ IH]; intros Hok Hp; [split_and!; [done..|lia]|].
  destruct (stopping_step _ _ Hok Hp Hstep) as [Hp1 Hlt].
  destruct (IH (listening_ok_step _ _ Hok Hstep) Hp1) as (H1 & H2 & H3). split_and!; [done..|lia].
Qed.

(** A goroutine that runs can end, and without any the wait is over. *)
Lemma stopping_progress s : listening_ok s → ls_phase s = Stopping → ∃ s', listen_step s s'.
Proof.
  intros (Hc & _) Hp. destruct (ls_running s) as [|ch after] eqn:Hr.
  - eexists. by apply listen_return.
  - eexists. apply (listen_done s [] ch after); [done|]. unfold waitGroup_Done. rewrite Hc, len_cons.
    pose proof (len_nonneg after). destruct (Z.ltb_spec (1 + len after - 1) 0); [lia|done].
Qed.

(** [Serve] returns only when no connection is served any more: in every
    state the server can reach, the wait group and the count in the log are the
    number of goroutines, and if [Serve] has returned there is none. *)
Theorem serve_waits_for_connections sp bs s :
  rtc listen_step (listen (NewServer sp (SetUseProxy <$> bs))) s →
  wg_count (sv_waitGroup (ls_server s)) = len (ls_running s) ∧
  wg_active (sv_waitGroup (ls_server s)) = u64 (len (ls_running s)) ∧
  (ls_phase s = Stopped → ls_running s = []).
Proof. apply listening_ok_reachable. Qed.

(** A server that was told to stop does stop: from then on no step accepts
    a connection, there are at most as many steps as goroutines and one more,
    whatever their order, and the only state in which no step is left is that
    in which all of them have ended and [Serve] has returned. *)
Theorem serve_stops sp bs s n s' :
  rtc listen_step (listen (NewServer sp (SetUseProxy <$> bs))) s → ls_phase s = Stopping →
  nsteps listen_step n s s' →
  (n + length (ls_running s') <= length (ls_running s) + 1)%nat ∧
  ((∃ s'', listen_step s' s'') ∨ (ls_phase s' = Stopped ∧ ls_running s' = [])).
Proof.
  intros Hok%listening_ok_reachable Hp Hn.
  destruct (stopping_steps n s s' Hok ltac:(by rewrite Hp) Hn) as (Hp' & Hok' & Hlen).
  rewrite (decide_False (P := ls_phase s = Stopped)) in Hlen by by rewrite Hp.
  split; [case_decide; lia|].
  destruct (ls_phase s') eqn:E; [done|left; by apply stopping_progress|right].
  split; [done|]. by apply Hok'.
Qed.

(** ** Witnesses: one connection is accepted and the context is cancelled. *)
Definition u_provider : secret_provider := λ _, mkGot (Some (str "key")) (Some HNil) None.
Definition u_conn : net_conn := mkNetConn (OtherAddr [] []) (OtherAddr [] []) [] EOF [].
Definition u_start : listening := listen (NewServer u_provider (SetUseProxy <$> [true])).
Definition u_state : listening := Serve_iteration CtxDone (Serve_iteration (Accept (Accepted u_conn)) u_start).

Lemma u_reachable : rtc listen_step u_start u_state.
Proof.
  eapply rtc_l; [by apply (listen_turn u_start (Accept (Accepted u_conn)))|].
  eapply rtc_l; [by apply (listen_turn _ CtxDone)|]. apply rtc_refl.
Qed.

Lemma serve_waits_for_connections_witness :
  length (ls_running u_state) = 1%nat ∧ wg_count (sv_waitGroup (ls_server u_state)) = 1.
Proof.
  split; [reflexivity|].
  destruct (serve_waits_for_connections u_provider [true] u_state u_reachable) as [H _]. exact H.
Defined.

Lemma serve_stops_witness : ∃ s', listen_step u_state s'.
Proof.
  destruct (serve_stops u_provider [true] u_state 0 u_state u_reachable eq_refl (nsteps_O _ _))
    as [_ [H|[H _]]]; [exact H|discriminate H].
Defined.
