(* ===== verification/ConfigFiles.v ===== *)
(** The configuration files: the two decoders of cmds/server/loader/json and
    cmds/server/loader/yaml, the watcher of cmds/server/loader/fsnotify, and the
    pipeline they form with the loop of the loader. *)
From S2P Require Import Prelude.
From S2P Require Import GoStrings.
From S2P Require Import Proxy.
From S2P Require Import Response.
From S2P Require Import Config.
From S2P Require Import SecretProviders.
From S2P Require Import Loader.

(** [yaml.Unmarshal] and [json.Unmarshal] into a struct that may have been
    decoded into before: the error, if any, and what the struct is then. *)
Definition decoder : Type := list byte → ServerConfig → option error * ServerConfig.

(** What the file system answers to [os.Open] and [io.ReadAll]. *)
Inductive file :=
| OpenFails (e : error)
| ReadFails (e : error)
| Contents (b : list byte).

(** [YAML], and [JSON]: the struct that is decoded into, and the channel with
    room for one config. [fl_sending] is the config a [Load] waits to send, as
    long as the channel is full. *)
Record file_loader := mkFileLoader {
  fl_ServerConfig : ServerConfig;
  fl_config : list ServerConfig;
  fl_sending : option ServerConfig;
}.

Definition zero_ServerConfig : ServerConfig := mkServerConfig [] [] [] [].

(** [New]. *)
Definition file_New : file_loader := mkFileLoader zero_ServerConfig [] None.

(** [l.config <- c]. *)
Definition chan_send (l : file_loader) (c : ServerConfig) : file_loader :=
  match fl_config l with
  | [] => mkFileLoader (fl_ServerConfig l) [c] (fl_sending l)
  | _ => mkFileLoader (fl_ServerConfig l) (fl_config l) (Some c)
  end.

(** A receive from the channel: a send that waits goes through. *)
Definition chan_recv (l : file_loader) : option (ServerConfig * file_loader) :=
  match fl_config l with
  | [] => None
  | c :: cs =>
    Some (c, match fl_sending l with
             | None => mkFileLoader (fl_ServerConfig l) cs None
             | Some d => mkFileLoader (fl_ServerConfig l) (cs ++ [d]) None
             end)
  end.

Section Files.
Context (decode : decoder).

(** [Unmarshal]: the error it returns. *)
Definition YAML_Unmarshal (b : list byte) (l : file_loader) : option error * file_loader :=
  let '(err, c) := decode b (fl_ServerConfig l) in
  let l := mkFileLoader c (fl_config l) (fl_sending l) in
  match err with
  | Some _ => (Some (Errorf "unable to unmarshal server config; %v"), l)
  | None =>
    if len (ServerConfig_Secrets c) <? 1 then
      (Some (Errorf "no secret providers were unmarshalled from config, cannot serve"), l)
    else if len (ServerConfig_Users c) <? 1 then
      (Some (Errorf "no users were unmarshalled from config, cannot serve"), l)
    else (None, chan_send l c)
  end.

(** [Load]. *)
Definition YAML_Load (f : file) (l : file_loader) : option error * file_loader :=
  match f with
  | OpenFails _ => (Some (Errorf "failed to open file: %v"), l)
  | ReadFails _ => (Some (Errorf "failed to read file: %v"), l)
  | Contents b => YAML_Unmarshal b l
  end.

(** The methods of [JSON]: its [Unmarshal] is the same but for the decoder, its
    [Load] passes errors on as they are. *)
Definition JSON_Unmarshal : list byte → file_loader → option error * file_loader := YAML_Unmarshal.

Definition JSON_Load (f : file) (l : file_loader) : option error * file_loader :=
  match f with
  | OpenFails e | ReadFails e => (Some e, l)
  | Contents b => JSON_Unmarshal b l
  end.

(** ** fsnotify.go

    An event of the file system: whether it is a write, its text and the name
    of its file. *)
Record fs_event := mkFsEvent {
  fe_Write : bool;
  fe_String : gostring;
  fe_Name : gostring;
}.

(** [strings.Contains]. *)
Definition strings_Contains (s substr : gostring) : bool :=
  existsb (λ i, bool_decide (take (length substr) (drop i s) = substr)) (seq 0 (S (length s))).

(** [filepath.Ext]: from the last dot of the last element of the path on. *)
Definition filepath_Ext (path : gostring) : gostring :=
  foldl (λ ext c, if decide (c = x2f) then [] else if decide (c = x2e) then [c]
                  else if decide (ext = []) then [] else ext ++ [c]) [] path.

(** What wakes the loop of [watch]. With a tick comes what the file system has
    for the path then. *)
Inductive watch_event :=
| WatchDone
| WatchEvent (ev : fs_event)
| WatchError
| WatchTick (f : file).

(** The loop's state: it runs, and [pending] counts changes. *)
Record watcher := mkWatcher {
  wt_running : bool;
  wt_pending : Z;
}.

(** One turn of [watch], with the error of a reload if there is one. *)
Definition watch_step (base : gostring) (e : watch_event) (w : watcher) (l : file_loader)
    : watcher * file_loader * option error :=
  match e with
  | WatchDone => (mkWatcher false (wt_pending w), l, None)
  | WatchEvent ev =>
    if fe_Write ev then
      if negb (strings_Contains (fe_String ev) base) || bool_decide (filepath_Ext (fe_Name ev) = str ".swp")
      then (w, l, None)
      else (mkWatcher (wt_running w) (wt_pending w + 1), l, None)
    else (w, l, None)
  | WatchError => (w, l, None)
  | WatchTick f =>
    if 0 <? wt_pending w then
      let '(err, l) := YAML_Load f l in (mkWatcher (wt_running w) 0, l, err)
    else (w, l, None)
  end.

(** ** The pipeline *)
Context {NT : Net}.

Record pipeline := mkPipeline {
  pl_watcher : watcher;
  pl_file : file_loader;
  pl_updates : updates_state;
}.

(** [Watcher.Load]: [fs] tells whether [fsnotify.NewWatcher] and [Add] succeed.
    The goroutine of [watch] is started at its end. *)
Definition Watcher_Load (f : file) (fs : bool * bool) (l : file_loader) : outcome file_loader :=
  match YAML_Load f l with
  | (Some _, _) => Err (Errorf "loader failed: %v")
  | (None, l) =>
    if negb fs.1 then Err (Errorf "failed to create file watcher: %v")
    else if negb fs.2 then Err (Errorf "failed watching config: %s")
    else Ok l
  end.

(** [NewLocalConfig], with the watcher over the decoder of [yaml]: the loader
    and the state in which both loops start. *)
Definition NewLocalConfig (f : file) (fs : bool * bool) (opts : list LoaderOption)
    : outcome (ready * pipeline) :=
  l ← Watcher_Load f fs file_New;
  r ← NewLoader opts;
  Ok (r, mkPipeline (mkWatcher true 0) l updates_init).

(** A step of one of the two goroutines. *)
Inductive pl_event :=
| Watch (e : watch_event)
| Receive
| Ask (remote : Addr).

(** [None]: the step cannot be taken. The watcher waits while its send does, and
    a receive waits for a config. *)
Definition pipeline_step (r : ready) (base : gostring) (e : pl_event) (p : pipeline)
    : option (pipeline * option got) :=
  match e with
  | Watch e =>
    if wt_running (pl_watcher p) then
      match fl_sending (pl_file p) with
      | Some _ => None
      | None =>
        let '(w, l, _) := watch_step base e (pl_watcher p) (pl_file p) in
        Some (mkPipeline w l (pl_updates p), None)
      end
    else None
  | Receive =>
    match chan_recv (pl_file p) with
    | None => None
    | Some (c, l) =>
      let '(s, _, _) := updates_step r (pl_updates p) (NewConfig c) in
      Some (mkPipeline (pl_watcher p) l s, None)
    end
  | Ask remote =>
    let '(s, _, a) := updates_step r (pl_updates p) (Query remote) in
    Some (mkPipeline (pl_watcher p) (pl_file p) s, a)
  end.

Fixpoint pipeline_run (r : ready) (base : gostring) (es : list pl_event) (p : pipeline)
    : option (pipeline * list got) :=
  match es with
  | [] => Some (p, [])
  | e :: es =>
    match pipeline_step r base e p with
    | None => None
    | Some (p, a) =>
      match pipeline_run r base es p with
      | None => None
      | Some (p, answers) => Some (p, match a with Some g => g :: answers | None => answers end)
      end
    end
  end.
End Files.
