(* ===== verification/System.v ===== *)
(** The process of the server: the goroutines that [main] of
    cmds/server/main.go starts, interleaved. They are the accept loop of
    server.go over its listener, one [handle] per connection, the watcher of the
    configuration file with the loop of the loader, and the metrics exporter,
    whose end cancels the context of all others. *)
From S2P Require Import Prelude.
From S2P Require Import GoStrings.
From S2P Require Import MD5.
From S2P Require Import Proxy.
From S2P Require Import Crypter.
From S2P Require Import Sessions.
From S2P Require Import Response.
From S2P Require Import Server.
From S2P Require Import Config.
From S2P Require Import Stringy.
From S2P Require Import AAA.
From S2P Require Import Handlers.
From S2P Require Import SecretProviders.
From S2P Require Import Loader.
From S2P Require Import Listener.
From S2P Require Import ConfigFiles.

(** [StartPromHTTP] of exporter.go: its flag, and the error with which
    [http.ListenAndServe] returns, [None] as long as it serves. The result is
    [None] while it runs. *)
Definition StartPromHTTP (exportPromHTTP : bool) (ListenAndServe : option error) : option (option error) :=
  if exportPromHTTP then
    match ListenAndServe with
    | None => None
    | Some e => Some (Some e)
    end
  else Some None.

(** Where the accept loop is: at its [select], or in [Accept]. The list of
    connections is parallel to that of the goroutines in [listening]. What the
    connections log goes to the files and sinks they share. *)
Record process := mkProcess {
  ps_cancelled : bool;
  ps_exporting : bool;
  ps_pipeline : pipeline;
  ps_listening : listening;
  ps_in_accept : bool;
  ps_conns : list (conn handler);
  ps_log : list event;
}.

(** A panic of any goroutine ends the process. *)
Inductive status :=
| Up (p : process)
| Down.

Definition set_cancelled (p : process) : process :=
  mkProcess true (ps_exporting p) (ps_pipeline p) (ps_listening p) (ps_in_accept p) (ps_conns p) (ps_log p).
Definition set_pipeline (pl : pipeline) (p : process) : process :=
  mkProcess (ps_cancelled p) (ps_exporting p) pl (ps_listening p) (ps_in_accept p) (ps_conns p) (ps_log p).
Definition set_listening (l : listening) (in_accept : bool) (p : process) : process :=
  mkProcess (ps_cancelled p) (ps_exporting p) (ps_pipeline p) l in_accept (ps_conns p) (ps_log p).
Definition set_conns (cs : list (conn handler)) (p : process) : process :=
  mkProcess (ps_cancelled p) (ps_exporting p) (ps_pipeline p) (ps_listening p) (ps_in_accept p) cs (ps_log p).

Definition append_log (evs : list event) (p : process) : process :=
  mkProcess (ps_cancelled p) (ps_exporting p) (ps_pipeline p) (ps_listening p) (ps_in_accept p)
    (ps_conns p) (ps_log p ++ evs).

(** What a connection has done to the world so far. *)
Definition conn_events (c : conn handler) : list event := env_events (cs_env (conn_st c)).

(** What can happen next. [PacketServed], [ContextSeen] and
    [HandleReturned] are about the connection of a position. *)
Inductive process_event :=
| Interrupted
| ExporterReturned (ListenAndServe : option error)
| Watched (e : watch_event)
| ConfigReceived
| Selected
| AcceptReturned (r : accept_result) (answers : list (option error))
| PacketServed (i : nat)
| ContextSeen (i : nat)
| HandleReturned (i : nat)
| WaitReturned.

Section System.
Context (decode : decoder) {NT : Net} {HH : Hash} {RE : Regexp} {PL : Platform} {DL : Dialer}.
Context (l : ready) (base : gostring) (exportPromHTTP : bool).

(** [Loader.Get]: the query is sent to the loop of [updates], and the answer
    received from it. *)
Definition Loader_Get (s : updates_state) : secret_provider := λ remote,
  match updates_step l s (Query remote) with
  | (_, _, Some g) => g
  | (_, _, None) => no_secret (Errorf "unreachable")
  end.

(** The server over the loader as it is now. *)
Definition with_loader (s : updates_state) (ls : listening) : listening :=
  mkListening (mkServer (sv_waitGroup (ls_server ls)) (Loader_Get s) (sv_proxy (ls_server ls)))
    (ls_phase ls) (ls_running ls).

(** The goroutines a turn of the accept loop has started. *)
Definition started (before after : listening) : list (crypter * handler) :=
  drop (length (ls_running before)) (ls_running after).

(** [handle] starts without sessions; the context it gets holds no values. *)
Definition handle_start (answers : list (option error)) (ch : crypter * handler) : conn handler :=
  new_conn ch.1 (mkEnv [] answers).

Definition turn (t : serve_turn) (answers : list (option error)) (p : process) : process :=
  let ls := with_loader (pl_updates (ps_pipeline p)) (ps_listening p) in
  let ls' := Serve_iteration t ls in
  set_conns (ps_conns p ++ (handle_start answers <$> started ls ls'))
    (set_listening ls' false p).

(** A step of the process; [None]: it cannot be taken. *)
Definition process_step (e : process_event) (p : process) : option status :=
  if decide (ls_phase (ps_listening p) = Stopped) then None
  else
    match e with
    | Interrupted => Some (Up (set_cancelled p))
    | ExporterReturned r =>
      if ps_exporting p then
        match StartPromHTTP exportPromHTTP r with
        | None => None
        | Some _ =>
          Some (Up (mkProcess true false (ps_pipeline p) (ps_listening p) (ps_in_accept p) (ps_conns p) (ps_log p)))
        end
      else None
    | Watched e =>
      match e, ps_cancelled p with
      | WatchDone, false => None
      | _, _ =>
        match pipeline_step decode l base (Watch e) (ps_pipeline p) with
        | Some (pl, _) => Some (Up (set_pipeline pl p))
        | None => None
        end
      end
    | ConfigReceived =>
      match pipeline_step decode l base Receive (ps_pipeline p) with
      | Some (pl, _) => Some (Up (set_pipeline pl p))
      | None => None
      end
    | Selected =>
      match ls_phase (ps_listening p), ps_in_accept p with
      | Accepting, false =>
        if ps_cancelled p then Some (Up (turn CtxDone [] p))
        else Some (Up (set_listening (ps_listening p) true p))
      | _, _ => None
      end
    | AcceptReturned r answers =>
      match ls_phase (ps_listening p), ps_in_accept p with
      | Accepting, true => Some (Up (turn (Accept r) answers p))
      | _, _ => None
      end
    | PacketServed i =>
      match ls_running (ps_listening p) !! i, ps_conns p !! i with
      | Some (_, h), Some (Open s) =>
        match serve_packet h ∅ s with
        | Crashed _ => Some Down
        | s' =>
          Some (Up (append_log (drop (length (conn_events (Open s))) (conn_events s'))
            (set_conns (<[i := s']> (ps_conns p)) p)))
        end
      | _, _ => None
      end
    | ContextSeen i =>
      match ps_conns p !! i with
      | Some (Open s) =>
        if ps_cancelled p then Some (Up (set_conns (<[i := Closed s]> (ps_conns p)) p)) else None
      | _ => None
      end
    | HandleReturned i =>
      match ps_conns p !! i with
      | Some (Closed _) =>
        match waitGroup_Done (sv_waitGroup (ls_server (ps_listening p))) with
        | Ok w =>
          let ls := ps_listening p in
          let ls := mkListening (set_waitGroup (ls_server ls) w) (ls_phase ls) (delete i (ls_running ls)) in
          Some (Up (set_conns (delete i (ps_conns p)) (set_listening ls (ps_in_accept p) p)))
        | _ => Some Down
        end
      | _ => None
      end
    | WaitReturned =>
      let ls := ps_listening p in
      if decide (ls_phase ls = Stopping ∧ wg_count (sv_waitGroup (ls_server ls)) = 0) then
        Some (Up (set_listening (mkListening (ls_server ls) Stopped (ls_running ls)) (ps_in_accept p) p))
      else None
    end.

(** A run of the process; nothing happens after a panic. *)
Fixpoint process_run (es : list process_event) (s : status) : option status :=
  match es, s with
  | [], _ => Some s
  | _, Down => None
  | e :: es, Up p => process_step e p ≫= process_run es
  end.

(** The process when [Serve] is called. *)
Definition boot (pl : pipeline) (proxy : bool) : process :=
  mkProcess false true pl (listen (NewServer (Loader_Get (pl_updates pl)) [SetUseProxy proxy])) false [] [].
End System.
