(* ===== verification/Logging.v ===== *)
(** The logger of the program: cmds/server/log.go, with the text [fmt] prints of a
    record; what the loggers of the tests print is the same without levels. *)
From stdpp Require Import sorting.
From S2P Require Import Prelude.
From S2P Require Import GoStrings.
From S2P Require Import Response.
From S2P Require Import Handlers.

(** ** fmt.Sprintf of a map *)

(** The order of strings: by bytes, a prefix before the longer string. *)
Fixpoint bytes_leb (a b : gostring) : bool :=
  match a, b with
  | [], _ => true
  | _ :: _, [] => false
  | x :: a, y :: b => (b2z x <? b2z y) || ((b2z x =? b2z y) && bytes_leb a b)
  end.

Definition key_le (a b : gostring * gostring) : Prop := bytes_leb a.1 b.1 = true.

#[export] Instance key_le_dec : RelDecision key_le.
Proof. intros a b. unfold key_le. apply _. Defined.

(** The verb [%v] for a [map[string]string]: the entries in the order of their
    keys. *)
Definition print_entry (kv : gostring * gostring) : gostring := kv.1 ++ str ":" ++ kv.2.
Definition print_entries (l : list (gostring * gostring)) : gostring :=
  str "map[" ++ strings_Join (print_entry <$> l) (str " ") ++ str "]".
Definition Sprint_map (m : fields) : gostring := print_entries (merge_sort key_le (map_to_list m)).

(** ** log.go *)

(** The four loggers, by the text before each of their lines. *)
Inductive log_line := LogLine (prefix text : gostring).

(** [newDefaultLogger]; every logger writes to the standard error. *)
Record defaultLogger := mkDefaultLogger {
  dl_level : Z;
  dl_ErrorLogger : gostring;
  dl_InfoLogger : gostring;
  dl_DebugLogger : gostring;
  dl_FatalLogger : gostring;
}.

Definition newDefaultLogger (level : Z) : defaultLogger :=
  mkDefaultLogger level (str "ERROR: ") (str "INFO: ") (str "DEBUG: ") (str "FATAL: ").

(** The text is what [Sprintf] has made of the format and its arguments; the time
    and the place that [Output] adds are left out. *)
Definition defaultLogger_Errorf (d : defaultLogger) (text : gostring) : list log_line :=
  if 10 <=? dl_level d then [LogLine (dl_ErrorLogger d) text] else [].
Definition defaultLogger_Infof (d : defaultLogger) (text : gostring) : list log_line :=
  if 20 <=? dl_level d then [LogLine (dl_InfoLogger d) text] else [].
Definition defaultLogger_Debugf (d : defaultLogger) (text : gostring) : list log_line :=
  if 30 <=? dl_level d then [LogLine (dl_DebugLogger d) text] else [].
Definition defaultLogger_Fatalf (d : defaultLogger) (text : gostring) : list log_line :=
  [LogLine (dl_FatalLogger d) text].

(** [Record]: a nil map is printed like an empty one. *)
Definition defaultLogger_Record_lines (d : defaultLogger) (r : option fields) (obscure : list gostring)
    : list log_line :=
  defaultLogger_Debugf d (Sprint_map (default ∅ (defaultLogger_Record r obscure))).

(** What is printed of the effects of a connection. *)
Definition event_lines (d : defaultLogger) (e : event) : list log_line :=
  match e with
  | EvRecord r obscure => defaultLogger_Record_lines d r obscure
  | _ => []
  end.

(** ** The order of the keys *)

Lemma bytes_leb_refl a : bytes_leb a a = true.
Proof. induction a as [|x a IH]; [done|]. cbn. by rewrite Z.eqb_refl, IH, orb_true_r. Qed.

Lemma bytes_leb_cons x y a b :
  bytes_leb (x :: a) (y :: b) = true ↔ b2z x < b2z y ∨ (b2z x = b2z y ∧ bytes_leb a b = true).
Proof. cbn. rewrite orb_true_iff, andb_true_iff, Z.ltb_lt, Z.eqb_eq. done. Qed.

Lemma bytes_leb_total a b : bytes_leb a b = true ∨ bytes_leb b a = true.
Proof.
  revert b. induction a as [|x a IH]; intros [|y b]; [by left|by left|by right|].
  rewrite !bytes_leb_cons. destruct (Z.lt_trichotomy (b2z x) (b2z y)) as [|[->|]]; [tauto| |tauto].
  destruct (IH b); tauto.
Qed.

Lemma bytes_leb_trans a b c : bytes_leb a b = true → bytes_leb b c = true → bytes_leb a c = true.
Proof.
  revert b c. induction a as [|x a IH]; intros [|y b] [|z c]; try done.
  rewrite !bytes_leb_cons. intros [H1|[H1 H2]] [H3|[H3 H4]]; [left; lia..|].
  right. split; [congruence|]. by eapply IH.
Qed.

Lemma bytes_leb_antisym a b : bytes_leb a b = true → bytes_leb b a = true → a = b.
Proof.
  revert b. induction a as [|x a IH]; intros [|y b]; try done.
  rewrite !bytes_leb_cons. intros [H1|[H1 H2]] [H3|[H3 H4]]; [lia..|].
  f_equal; [by apply b2z_inj|by apply IH].
Qed.

#[export] Instance key_le_trans : Transitive key_le.
Proof. intros a b c. apply bytes_leb_trans. Qed.

#[export] Instance key_le_total : Total key_le.
Proof. intros a b. apply bytes_leb_total. Qed.
