(* ===== verification/Generator.v ===== *)
(** The program that makes and checks the hashes of the bcrypt authenticator:
    cmds/server/config/authenticators/bcrypt/generator/main.go.

    [GenerateFromPassword] of golang.org/x/crypto/bcrypt is a parameter, with
    what its documentation promises; it salts the hash, so the parameter is what
    it answers in one run of the program. A run reads its passwords from the
    terminal, prints lines and ends with an exit status. *)
From S2P Require Import Prelude.
From S2P Require Import GoStrings.
From S2P Require Import AAA.

(** ** hex.EncodeToString *)
Definition hex_digit (n : Z) : byte := if n <? 10 then u8 (48 + n) else u8 (87 + n).

Definition hex_EncodeToString (src : list byte) : gostring :=
  concat ((λ b, [hex_digit (Z.shiftr (b2z b) 4); hex_digit (Z.land (b2z b) 15)]) <$> src).

(** ** The package bcrypt *)
Class Bcrypt := GenerateFromPassword : list byte → Z → option (list byte).

Definition DefaultCost : Z := 10.

(** "GenerateFromPassword returns the bcrypt hash of the password":
    CompareHashAndPassword accepts it, and it rejects a hash that is too short. *)
Class BcryptLaws `{PL : Platform, BC : Bcrypt} := {
  generated_matches password cost hash :
    GenerateFromPassword password cost = Some hash → bcrypt_matches hash password = true;
  empty_hash_matches password : bcrypt_matches [] password = false;
}.

(** ** The program *)

(** A line of the output; the text of an error of a library is left out. *)
Inductive line :=
| Text (s : gostring)
| TextError (s : gostring).

(** The lines still to be typed at the terminal ([None]: the read fails, as it
    does at the end of the input), and the lines printed. *)
Record console := mkConsole {
  con_input : list (option gostring);
  con_output : list line;
}.

(** [None]: [os.Exit(1)]. *)
Definition program (A : Type) : Type := console → option A * console.

Definition program_ret {A} (a : A) : program A := λ k, (Some a, k).
Definition program_bind {A B} (m : program A) (f : A → program B) : program B := λ k,
  match m k with
  | (Some a, k) => f a k
  | (None, k) => (None, k)
  end.
Definition os_Exit {A} : program A := λ k, (None, k).
Definition fmt_Println (l : line) : program unit := λ k,
  (Some tt, mkConsole (con_input k) (con_output k ++ [l])).
Definition terminal_ReadPassword : program (option gostring) := λ k,
  match con_input k with
  | [] => (Some None, k)
  | raw :: rest => (Some raw, mkConsole rest (con_output k))
  end.

Declare Scope program_scope.
Delimit Scope program_scope with program.
Notation "x ← m ; k" := (program_bind m (λ x, k)) : program_scope.
Notation "m ;; k" := (program_bind m (λ _, k)) : program_scope.

(** [getPassword]. *)
Definition generator_getPassword (msg : gostring) : program gostring :=
  (fmt_Println (Text msg) ;;
   raw ← terminal_ReadPassword ;
   match raw with
   | None => fmt_Println (Text (str "unable to read input")) ;; os_Exit
   | Some raw => program_ret raw
   end)%program.

(** [verifyFlags]. *)
Definition generator_verifyFlags (mode : gostring) : program unit :=
  if decide (mode = [])
  then (fmt_Println
          (Text (str "supported password hashing modes: [bcrypt, verify-bcrypt], please provide one")) ;;
        os_Exit)%program
  else program_ret tt.

Definition prompt_password : gostring := str "Enter Password (echo is off): ".
Definition prompt_hex : gostring := str "Enter hex value (echo is off): ".

(** [main]. *)
Definition generator_main `{PL : Platform, BC : Bcrypt} (mode : gostring) : program unit :=
  (generator_verifyFlags mode ;;
   if decide (mode = str "bcrypt") then
     password ← generator_getPassword prompt_password ;
     match GenerateFromPassword password DefaultCost with
     | None => fmt_Println (TextError (str "hash generation failed: ")) ;; os_Exit
     | Some hash => fmt_Println (Text (str "bcrypt hex value: " ++ hex_EncodeToString hash))
     end
   else if decide (mode = str "verify-bcrypt") then
     password ← generator_getPassword prompt_password ;
     hexpw ← generator_getPassword prompt_hex ;
     match hex_DecodeString hexpw with
     | None => fmt_Println (TextError (str "hash decode from hex failed: ")) ;; os_Exit
     | Some hash =>
       if bcrypt_matches hash password
       then fmt_Println (Text (str "password validation success"))
       else (fmt_Println (TextError (str "password validation failed: ")) ;; os_Exit)
     end
   else fmt_Println (Text (str "unknown mode [" ++ mode ++ str "]")))%program.

(** ** Facts *)
Lemma hex_byte b s :
  hex_DecodeString (hex_digit (Z.shiftr (b2z b) 4) :: hex_digit (Z.land (b2z b) 15) :: s) =
  (λ rest, b :: rest) <$> hex_DecodeString s.
Proof. cbn [hex_DecodeString]. destruct b; cbn; by destruct (hex_DecodeString s). Qed.

Lemma hex_EncodeToString_nil src : hex_EncodeToString src = [] → src = [].
Proof. by destruct src. Qed.

Lemma hex_decode_encode src : hex_DecodeString (hex_EncodeToString src) = Some src.
Proof.
  unfold hex_EncodeToString. induction src as [|b src IH]; [done|].
  rewrite fmap_cons, concat_cons. cbn [app]. by rewrite hex_byte, IH.
Qed.
