(* ===== verification/MainProgram.v ===== *)
(** The start of the program: cmds/server/main.go up to the call of [Serve],
    cmds/server/support.go, and the construction of the local accounter. What
    runs from there on is System.v. *)
From S2P Require Import Prelude.
From S2P Require Import GoStrings.
From S2P Require Import Response.
From S2P Require Import Config.
From S2P Require Import AAA.
From S2P Require Import SecretProviders.
From S2P Require Import Loader.
From S2P Require Import Listener.
From S2P Require Import ConfigFiles.
From S2P Require Import System.
From S2P Require Import Logging.

(** ** local.go

    The sink of an accounter: a file that lines are appended to, each with the
    prefix, or a logger that is given. *)
Inductive acctLogger :=
| FileLogger (path prefix : gostring)
| GivenLogger.

Record LocalAccounter := mkLocalAccounter { la_sink : option acctLogger }.
Definition LocalOption : Type := LocalAccounter → LocalAccounter.

(** [SetLogSinkDefault]; [OpenFile] tells why [os.OpenFile] fails for a path. *)
Definition SetLogSinkDefault (OpenFile : gostring → option error) (path prefix : gostring) : LocalOption := λ a,
  match OpenFile path with
  | Some _ => a
  | None => mkLocalAccounter (Some (FileLogger path prefix))
  end.

Definition SetLogSink (l : acctLogger) : LocalOption := λ _, mkLocalAccounter (Some l).

Definition NewLocalAccounter (opts : list LocalOption) : outcome LocalAccounter :=
  let a := foldl (λ a opt, opt a) (mkLocalAccounter None) opts in
  match la_sink a with
  | None => Err (Errorf "a log backend is required, please call SetLogSinkDefault or SetLogSink")
  | Some _ => Ok a
  end.

(** ** support.go *)
Definition GetSecret : getSecret := λ name group, Ok (str "cisco").

(** ** main.go *)

(** The flags, with that of exporter.go. *)
Record flags := mkFlags {
  flag_network : gostring;
  flag_address : gostring;
  flag_proxy : bool;
  flag_configPath : gostring;
  flag_accountingLogPath : gostring;
  flag_level : Z;
  flag_exportPromHTTP : bool;
}.

Definition default_flags : flags :=
  mkFlags (str "tcp6") (str ":2046") false (str "tacquito.yaml") (str "/tmp/tacquito_accounting.log") 30 true.

(** What the host answers while the program starts: the opening of the log file,
    the content of the configuration file, whether a watcher can be made and
    given a directory, and the listener for a network and an address, [true] if
    it is one for TCP. *)
Record host := mkHost {
  host_OpenFile : gostring → option error;
  host_ReadFile : gostring → file;
  host_fsnotify : bool * bool;
  host_Listen : gostring → gostring → outcome bool;
}.

(** [filepath.Base]. *)
Definition filepath_Base (path : gostring) : gostring :=
  if decide (path = []) then [x2e]
  else
    let fix drop_slashes (s : gostring) : gostring :=
      match s with c :: s' => if decide (c = x2f) then drop_slashes s' else s | [] => [] end in
    let fix until_slash (s : gostring) : gostring :=
      match s with c :: s' => if decide (c = x2f) then [] else c :: until_slash s' | [] => [] end in
    let s := reverse (until_slash (drop_slashes (reverse path))) in
    if decide (s = []) then [x2f] else s.

Section Main.
Context (decode : decoder) {NT : Net}.

(** How [main] goes: it returns, with what was logged and the status of the
    process, or it calls [Serve]. *)
Inductive main_result :=
| Returned (lines : list log_line) (status : Z)
| Serving (lines : list log_line) (l : ready) (base : gostring) (p : process).

Definition main (f : flags) (h : host) : main_result :=
  let logger := newDefaultLogger (flag_level f) in
  let fatal (text : gostring) := Returned (defaultLogger_Fatalf logger text) 0 in
  match NewLocalAccounter [SetLogSinkDefault (host_OpenFile h) (flag_accountingLogPath f) (str "tacquito")] with
  | Ok _ =>
    match NewLocalConfig decode (host_ReadFile h (flag_configPath f)) (host_fsnotify h)
            (main_options GetSecret) with
    | Ok (l, pl) =>
      match host_Listen h (flag_network f) (flag_address f) with
      | Ok true =>
        Serving (defaultLogger_Infof logger (str "serve on %v")) l (filepath_Base (flag_configPath f))
          (boot l pl (flag_proxy f))
      | Ok false => fatal (str "listener must be a tcp based listener")
      | _ => fatal (str "error reading address: %v")
      end
    | _ => fatal (str "error fetching config; %v")
    end
  | _ => fatal (str "error building accounting logger; %v")
  end.
End Main.
