(* ===== verification/Scenarios.v ===== *)
(** The scenarios of the tests: cmds/server/test. The packets and the checks of
    authen_mocks.go, the sample configuration of config_yaml.go as the struct its
    YAML decodes into, the server that mocks.go builds from a configuration, and
    the loop of the tests over a scenario. Random session ids are arguments. *)
From S2P Require Import Prelude.
From S2P Require Import GoStrings.
From S2P Require Import Buffer.
From S2P Require Import HeaderFields.
From S2P Require Import AuthenFields.
From S2P Require Import AuthorFields.
From S2P Require Import Header.
From S2P Require Import Codec.
From S2P Require Import Authenticate.
From S2P Require Import MD5.
From S2P Require Import Proxy.
From S2P Require Import Crypter.
From S2P Require Import Sessions.
From S2P Require Import Response.
From S2P Require Import Server.
From S2P Require Import Client.
From S2P Require Import ClientPrograms.
From S2P Require Import Config.
From S2P Require Import Stringy.
From S2P Require Import AAA.
From S2P Require Import Handlers.
From S2P Require Import SecretProviders.
From S2P Require Import Loader.
From S2P Require Import Listener.
From S2P Require Import ConfigFiles.
From S2P Require Import System.
From S2P Require Import Logging.
From S2P Require Import MainProgram.

(** ** mocks.go

    A scenario: packets, and the checks of the answers to them; a check that is
    nil is [None]. *)
Record Sequence := mkSequence {
  seq_Packet : Packet;
  seq_ValidateHeader : option (Header → outcome unit);
  seq_ValidateBody : gostring → outcome unit;
  seq_Validate : option (Packet → outcome unit);
}.

Record Test := mkTest {
  test_Name : gostring;
  test_Secret : gostring;
  test_Seq : list Sequence;
}.

(** ** authen_mocks.go *)

(** The checks differ in the status they want, and in their error. *)
Definition expect_status (want : AuthenStatus) (failure : string) (response : gostring) : outcome unit :=
  body ← Unmarshal (T := AuthenReply) response;
  if decide (AuthenReply_Status body ≠ want) then Err (Errorf failure) else Ok tt.

Definition expect_GetUser : gostring → outcome unit :=
  expect_status AuthenStatusGetUser "failed to match AuthenStatusGetUser".
Definition expect_GetPass : gostring → outcome unit :=
  expect_status AuthenStatusGetPass "failed to match AuthenStatusGetPass".
Definition expect_Pass : gostring → outcome unit :=
  expect_status AuthenStatusPass "failed to match AuthenStatusPass".
Definition expect_Abort : gostring → outcome unit :=
  expect_status AuthenStatusFail "expecting a authenStatusFail because client sent an abort".

Definition step_of (p : Packet) (check : gostring → outcome unit) : Sequence := mkSequence p None check None.

(** A start packet of the given service, and a continue packet. *)
Definition ascii_start_packet (id : HeaderOption) (service : AuthenService) : outcome Packet :=
  SetPacketBodyUnsafe
    (NewAuthenStart
      [SetAuthenStartAction AuthenActionLogin; SetAuthenStartPrivLvl PrivLvlUser;
       SetAuthenStartType AuthenTypeASCII; SetAuthenStartService service;
       SetAuthenStartPort (str "tty0"); SetAuthenStartRemAddr (str "foo")])
    (NewPacket [SetPacketHeader (NewHeader
      [SetHeaderVersion (mkVersion MajorVersion MinorVersionDefault); SetHeaderType Authenticate; id])]).

Definition continue_packet (seqNo : Z) (id : SessionID) (opts : list AuthenContinueOption) : outcome Packet :=
  SetPacketBodyUnsafe (NewAuthenContinue opts)
    (NewPacket [SetPacketHeader (NewHeader
      [SetHeaderVersion (mkVersion MajorVersion MinorVersionDefault); SetHeaderType Authenticate;
       SetHeaderSeqNo seqNo; SetHeaderSessionID id])]).

(** [startPacket.Header.SessionID]. *)
Definition packet_SessionID (p : Packet) : outcome SessionID :=
  match Packet_Header p with Some h => Ok (Header_SessionID h) | None => Panic end.

Definition BuildASCIIStartPacket (rand : Z) : outcome Packet :=
  ascii_start_packet (SetHeaderRandomSessionID rand) AuthenServiceLogin.

Definition fooman : gostring := str "fooman".
Definition user_name : list AuthenContinueOption := [SetAuthenContinueUserMessage (str "mr_uses_group")].
Definition user_password : list AuthenContinueOption := [SetAuthenContinueUserMessage (str "password")].
Definition abort_with (flag : AuthenContinueFlag) : list AuthenContinueOption :=
  [SetAuthenContinueFlag flag; SetAuthenContinueUserMessage (str "Continue inside");
   SetAuthenContinueData (str "foo")].

Definition ASCIILoginFullFlow (rand : Z) : outcome Test :=
  startPacket ← BuildASCIIStartPacket rand;
  id ← packet_SessionID startPacket;
  username ← continue_packet 3 id user_name;
  password ← continue_packet 5 id user_password;
  Ok (mkTest (str "ascii login full flow") fooman
    [step_of startPacket expect_GetUser; step_of username expect_GetPass; step_of password expect_Pass]).

Definition PapLoginFlow (rand : Z) : outcome Test :=
  packet ← SetPacketBodyUnsafe
    (NewAuthenStart
      [SetAuthenStartType AuthenTypePAP; SetAuthenStartAction AuthenActionLogin; SetAuthenStartPrivLvl x0f;
       SetAuthenStartPort (str "tty0"); SetAuthenStartRemAddr (str "rem port");
       SetAuthenStartUser (str "mr_uses_group"); SetAuthenStartData (str "password")])
    (NewPacket [SetPacketHeader (NewHeader
      [SetHeaderVersion (mkVersion MajorVersion MinorVersionOne); SetHeaderType Authenticate;
       SetHeaderRandomSessionID rand])]);
  Ok (mkTest (str "pap login full flow") fooman [step_of packet expect_Pass]).

Definition ASCIILoginEnable (rand : Z) : outcome Test :=
  startPacket ← BuildASCIIStartPacket rand;
  id ← packet_SessionID startPacket;
  username ← continue_packet 3 id user_name;
  password ← continue_packet 5 id user_password;
  Ok (mkTest (str "ascii enable full flow") fooman
    [step_of startPacket expect_GetUser; step_of username expect_GetPass; step_of password expect_Pass]).

(** The flag of two of the tests is set in a variable that is zero. *)
Definition authenContinueFlag : AuthenContinueFlag := AuthenContinueFlag_Set x00 AuthenContinueFlagAbort.

Definition login_abort_onStart (rand : Z) : outcome Test :=
  startPacket ← BuildASCIIStartPacket rand;
  id ← packet_SessionID startPacket;
  abort ← continue_packet 3 id (abort_with authenContinueFlag);
  Ok (mkTest (str "test authen abort on first client packet") fooman
    [step_of startPacket expect_GetUser; step_of abort expect_Abort]).

Definition login_abort_onUser (rand : Z) : outcome Test :=
  startPacket ← BuildASCIIStartPacket rand;
  id ← packet_SessionID startPacket;
  username ← continue_packet 3 id user_name;
  abort ← continue_packet 5 id (abort_with authenContinueFlag);
  Ok (mkTest (str "test authen abort on user sending username") fooman
    [step_of startPacket expect_GetUser; step_of username expect_GetPass; step_of abort expect_Abort]).

Definition login_abort_onPassword (rand : Z) : outcome Test :=
  startPacket ← BuildASCIIStartPacket rand;
  id ← packet_SessionID startPacket;
  username ← continue_packet 3 id user_name;
  abort ← continue_packet 7 id (abort_with AuthenContinueFlagAbort);
  Ok (mkTest (str "test authen abort on request to send password") fooman
    [step_of startPacket expect_GetUser; step_of username expect_GetPass; step_of abort expect_Abort]).

Definition GetASCIILoginAbortTests (rand1 rand2 rand3 : Z) : outcome (list Test) :=
  onStart ← login_abort_onStart rand1;
  onUser ← login_abort_onUser rand2;
  onPassword ← login_abort_onPassword rand3;
  Ok [onStart; onUser; onPassword].

Definition enable_abort_onStart (rand : Z) : outcome Test :=
  startPacket ← BuildASCIIStartPacket rand;
  id ← packet_SessionID startPacket;
  abort ← continue_packet 3 id (abort_with AuthenContinueFlagAbort);
  Ok (mkTest (str "test authen abort on first client packet") fooman
    [step_of startPacket expect_GetUser; step_of abort expect_Abort]).

Definition enable_abort_onUser : outcome Test :=
  startPacket ← ascii_start_packet (SetHeaderSessionID 12346) AuthenServiceEnable;
  username ← continue_packet 3 12346 user_name;
  abort ← continue_packet 5 12346 (abort_with AuthenContinueFlagAbort);
  Ok (mkTest (str "test authen abort on user sending username") fooman
    [step_of startPacket expect_GetUser; step_of username expect_GetPass; step_of abort expect_Abort]).

Definition enable_abort_onPassword (rand : Z) : outcome Test :=
  startPacket ← BuildASCIIStartPacket rand;
  id ← packet_SessionID startPacket;
  username ← continue_packet 3 id user_name;
  abort ← continue_packet 5 id (abort_with AuthenContinueFlagAbort);
  Ok (mkTest (str "test authen abort on user sending password") fooman
    [step_of startPacket expect_GetUser; step_of username expect_GetPass; step_of abort expect_Abort]).

Definition GetASCIIEnableAbortTests (rand1 rand2 : Z) : outcome (list Test) :=
  onStart ← enable_abort_onStart rand1;
  onUser ← enable_abort_onUser;
  onPassword ← enable_abort_onPassword rand2;
  Ok [onStart; onUser; onPassword].

(** The scenarios of [TestAuthenticate], with the random ids they draw. *)
Definition authenticate_tests (rand : nat → Z) : outcome (list Test) :=
  full ← ASCIILoginFullFlow (rand 0%nat);
  enable ← ASCIILoginEnable (rand 1%nat);
  pap ← PapLoginFlow (rand 2%nat);
  enableAborts ← GetASCIIEnableAbortTests (rand 3%nat) (rand 4%nat);
  loginAborts ← GetASCIILoginAbortTests (rand 5%nat) (rand 6%nat) (rand 7%nat);
  Ok ([full; enable; pap] ++ enableAborts ++ loginAborts).

(** ** config_yaml.go

    What the text of [SampleConfig] denotes: the entries of the document that
    are only anchors are in the places that refer to them. *)
Definition sample_hash : gostring :=
  str "24326124313024614d6761663134486e35366b6a734b2f79564a384b2e577678754c6b34314364586a4d727a6276794a7844304c4371757345765171".
Definition sample_bcrypt : Authenticator := mkAuthenticator BCRYPT {[ str "hash" := sample_hash ]}.
Definition sample_logger_file : Accounter := mkAccounter (str "file") FILE ∅.
Definition sample_cmd : Service :=
  mkService (str "cmd") [] [mkValue (str "priv-lvl") [str "15"] true] true.
Definition sample_cisco_avp : Service :=
  mkService (str "cisco-av-pair") []
    [mkValue (str "shell:roles") [str "admin"] true;
     mkValue (str "shell:roles") [str "network-admin vdc-admin"] true] true.
Definition sample_conf_t : Command := mkCommand (str "configure") [str "terminal"; str "exclusive"] PERMIT.
Definition sample_conf_b : Command := mkCommand (str "configure") [str "batch"] PERMIT.
Definition sample_noc : Group :=
  mkGroup (str "noc") [sample_cisco_avp; sample_cmd] [sample_conf_t; sample_conf_b]
    (Some sample_bcrypt) (Some sample_logger_file).

Definition mr_uses_group : User :=
  mkUser (str "mr_uses_group") [str "localhost"] [sample_noc] [] [] None None.
Definition mr_no_group : User :=
  mkUser (str "mr_no_group") [str "localhost"] [] [sample_cisco_avp] [sample_conf_t]
    (Some sample_bcrypt) (Some sample_logger_file).
Definition ms_commands_only : User :=
  mkUser (str "ms_commands_only") [str "localhost"] [] [] [sample_conf_t] None None.

(** A block of three lines, and the network in it. *)
Definition any_network : gostring := str "::0/0".
Definition sample_prefixes : gostring :=
  [x5b; x0a] ++ str "  " ++ [x22] ++ any_network ++ [x22; x0a; x5d; x0a].
Definition sample_localhost : SecretConfig :=
  mkSecretConfig (str "localhost") (mkKeychain (str "tacquito") fooman) (mkHandlerConfig START ∅)
    PREFIX {[ str "prefixes" := sample_prefixes ]}.

Definition SampleConfig : ServerConfig :=
  mkServerConfig [sample_localhost] [mr_uses_group; mr_no_group; ms_commands_only] [] [].

(** ** The server of the tests *)

(** The loggers of the tests and of the package stringy. The first has levels
    and drops records; the second prints everything. *)
Record test_logger := mkTestLogger {
  tl_level : Z;
  tl_ErrorLogger : gostring;
  tl_InfoLogger : gostring;
  tl_DebugLogger : gostring;
}.

Definition test_NewDefaultLogger (level : Z) : test_logger :=
  mkTestLogger level (str "ERROR: ") (str "INFO: ") (str "DEBUG: ").
Definition test_Record (d : test_logger) (r : option fields) (obscure : list gostring) : list log_line := [].
Definition test_Errorf (d : test_logger) (text : gostring) : list log_line :=
  if 10 <=? tl_level d then [LogLine (tl_ErrorLogger d) text] else [].
Definition test_Infof (d : test_logger) (text : gostring) : list log_line :=
  if 20 <=? tl_level d then [LogLine (tl_InfoLogger d) text] else [].
Definition test_Debugf (d : test_logger) (text : gostring) : list log_line :=
  if 30 <=? tl_level d then [LogLine (tl_DebugLogger d) text] else [].

Record stringy_logger := mkStringyLogger {
  sl_ErrorLogger : gostring;
  sl_InfoLogger : gostring;
  sl_DebugLogger : gostring;
}.

Definition stringy_NewDefaultLogger : stringy_logger :=
  mkStringyLogger (str "ERROR: ") (str "INFO: ") (str "DEBUG: ").
Definition stringy_Errorf (d : stringy_logger) (text : gostring) : list log_line :=
  [LogLine (sl_ErrorLogger d) text].
Definition stringy_Infof (d : stringy_logger) (text : gostring) : list log_line :=
  [LogLine (sl_InfoLogger d) text].
Definition stringy_Debugf (d : stringy_logger) (text : gostring) : list log_line :=
  [LogLine (sl_DebugLogger d) text].

(** [shh.GetSecret] of mocks.go; what it prints is left out. *)
Definition mock_GetSecret : getSecret := λ name group, Ok (str "cisco").

Section Mocks.
Context (decode : decoder) {NT : Net}.

(** [NewLocalConfig] over the decoder of [yaml] itself, without a watcher. *)
Definition yaml_NewLocalConfig (f : file) (opts : list LoaderOption) : outcome (ready * file_loader) :=
  match YAML_Load decode f file_New with
  | (Some e, _) => Err e
  | (None, l) => r ← NewLoader opts; Ok (r, l)
  end.

Definition mock_options : list LoaderOption :=
  [SetLoggerProvider; SetKeychainProvider Keychain_Add; SetConfigProvider Provider_New;
   SetAuthorizerProvider Stringy_New; RegisterSecretProviderType PREFIX Prefix_factory;
   RegisterAuthenticator BCRYPT (Bcrypt_factory (bcrypt_New mock_GetSecret));
   RegisterAccounter FILE Local_New; RegisterHandlerType START Start_factory].

(** [MockSecretProvider]: the loader, and the state of its loop when
    [BlockUntilLoaded] returns; [None] while that blocks. *)
Definition MockSecretProvider (OpenFile : gostring → option error) (f : file)
    : option (outcome (ready * updates_state)) :=
  match NewLocalAccounter [SetLogSinkDefault OpenFile (str "/tmp/tacquito_accounting.log") (str "tacquito")] with
  | Err _ => Some (Err (Errorf "error building accounting logger; %v"))
  | Panic => Some Panic
  | Ok _ =>
    match yaml_NewLocalConfig f mock_options with
    | Err e => Some (Err e)
    | Panic => Some Panic
    | Ok (r, l) =>
      let s :=
        match chan_recv l with
        | Some (c, _) => (updates_step r updates_init (NewConfig c)).1.1
        | None => updates_init
        end in
      (λ _, Ok (r, s)) <$> BlockUntilLoaded s
    end
  end.
End Mocks.

(** ** The loop of the tests

    Every packet is sent, and the body of the answer checked; the results are
    those of the two assertions on a packet. *)
Section Run.
Context {HH : Hash} {RE : Regexp} {PL : Platform} {DL : Dialer}.

Fixpoint run_Seq (h : handler) (ctx : fields) (seq : list Sequence) (cl : crypter) (s : conn handler)
    : list (outcome unit) :=
  match seq, s with
  | [], _ => []
  | q :: seq, Open s =>
    let '((resp, cl), s) := exchange h ctx (seq_Packet q) cl s in
    (resp ← resp; seq_ValidateBody q (default [] (Packet_Body resp))) :: run_Seq h ctx seq cl s
  | q :: seq, s => Err EOF :: run_Seq h ctx seq cl s
  end.

(** A scenario over a connection of its own from [remote]; [None]: the server
    refuses it. *)
Definition run_Test {NT : Net} (sp : Addr → got) (local remote : Addr) (ctx : fields) (w : env) (t : Test)
    : option (list (outcome unit)) :=
  match Serve_accept (sp remote) local remote [] EOF [] false with
  | None => None
  | Some (cr, h) =>
    Some (run_Seq h ctx (test_Seq t) (newCrypter (test_Secret t) remote local [] EOF [] false) (new_conn cr w))
  end.
End Run.
