(* ===== verification/Counters.v ===== *)
(** The counters of the program: what each function does to the collectors of
    its package. A function has its own counters and those of the functions of
    its package that it calls; what is behind an interface (the handler a
    connection calls, the secret providers a loader asks, the writers of a
    response) counts for itself. *)
From S2P Require Import Prelude.
From S2P Require Import GoStrings.
From S2P Require Import Buffer.
From S2P Require Import HeaderFields.
From S2P Require Import AuthenFields.
From S2P Require Import AuthorFields.
From S2P Require Import Header.
From S2P Require Import Codec.
From S2P Require Import Authenticate.
From S2P Require Import Authorize.
From S2P Require Import Accounting.
From S2P Require Import MD5.
From S2P Require Import Proxy.
From S2P Require Import Crypt.
From S2P Require Import Crypter.
From S2P Require Import Response.
From S2P Require Import Metrics.
From S2P Require Import Config.
From S2P Require Import Stringy.
From S2P Require Import AAA.
From S2P Require Import Handlers.
From S2P Require Import SecretProviders.
From S2P Require Import Loader.
From S2P Require Import Listener.

(** How often a counter is incremented. *)
Definition counted (v : string) (ops : list metric_op) : Z :=
  sumZ ((λ o, match o with Inc v' => if decide (v' = v) then 1 else 0 | _ => 0 end) <$> ops).

(** ** crypt.go *)
Section Crypter.
Context {HH : Hash}.

Definition crypter_write_ops (p : option Packet) (c : crypter) : list metric_op :=
  match p with
  | None => []
  | Some p =>
    match Packet_Body p, Packet_Header p with
    | Some body, Some h =>
      match crypt (c_secret c) (mkPacket (Some (set_Length h (u32 (len body)))) (Some body)) with
      | Err _ => [Inc "crypterCryptError"]
      | Panic => []
      | Ok p =>
        match Packet_MarshalBinary p with
        | Err _ => [Inc "crypterMarshalError"]
        | Panic => []
        | Ok b =>
          match conn_Write b c with
          | (Err _, _) => [Inc "crypterWriteError"]
          | (Panic, _) => []
          | (Ok _, _) => [Inc "crypterWrite"]
          end
        end
      end
    | _, _ => []
    end
  end.

(** The three replies of [badSecretReply] are counted if they do not encode. *)
Definition badSecretReply_ops (h : Header) : list metric_op :=
  match badSecretReply h with
  | Err _ =>
    if decide (Header_Type h ∈ [Authenticate; Authorize; Accounting])
    then [Inc "crypterMarshalError"] else []
  | _ => []
  end.

(** The bodies that are refused are as many as the type has. *)
Definition bad_secret_ops (h : Header) (errCnt : outcome Z) (all : Z) : list metric_op :=
  match errCnt with
  | Ok n => if n =? all then Inc "crypterBadSecret" :: badSecretReply_ops h else []
  | _ => []
  end.

Definition detectBadSecret_ops (p : Packet) : list metric_op :=
  match Packet_Header p with
  | None => []
  | Some h =>
    let body := default [] (Packet_Body p) in
    if HeaderFlag_Has (Header_Flags h) UnencryptedFlag then []
    else if decide (Header_Type h = Authenticate) then
      bad_secret_ops h
        (n1 ← bad_secret_cnt AuthenStart body;
         n2 ← bad_secret_cnt AuthenContinue body;
         n3 ← bad_secret_cnt AuthenReply body; Ok (n1 + n2 + n3)) 3
    else if decide (Header_Type h = Authorize) then
      bad_secret_ops h
        (n1 ← bad_secret_cnt AuthorRequest body;
         n2 ← bad_secret_cnt AuthorReply body; Ok (n1 + n2)) 2
    else if decide (Header_Type h = Accounting) then
      bad_secret_ops h
        (n1 ← bad_secret_cnt AcctRequest body;
         n2 ← bad_secret_cnt AcctReply body; Ok (n1 + n2)) 2
    else []
  end.

Definition strip_proxy_ops (c : crypter) : list metric_op :=
  match ReadBytes x00 c with
  | (Ok line, _) =>
    match ProxyHeader_Write (proxy_NewHeader (c_local c) (c_remote c)) line with
    | Err _ => [Inc "crypterReadError"]
    | _ => []
    end
  | (Err e, _) => if decide (e = EOF) then [] else [Inc "crypterReadError"]
  | (Panic, _) => []
  end.

Definition read_packet_ops (c : crypter) : list metric_op :=
  match ReadFull MaxHeaderLength c with
  | (Err e, _) => if decide (e ≠ EOF) then [Inc "crypterReadError"] else []
  | (Panic, _) => []
  | (Ok h, c) =>
    match be_Uint32 (drop 8 h) with
    | Ok s =>
      if MaxBodyLength <? s then []
      else
        match ReadFull s c with
        | (Err _, _) => [Inc "crypterReadError"]
        | (Panic, _) => []
        | (Ok b, c) =>
          match Packet_UnmarshalBinary (Some (full_slice (h ++ b))) with
          | Err _ => [Inc "crypterUnmarshalError"]
          | Panic => []
          | Ok p =>
            match crypt (c_secret c) p with
            | Err _ => [Inc "crypterCryptError"]
            | Panic => []
            | Ok p =>
              detectBadSecret_ops p ++
              match detectBadSecret p with
              | Ok (Some reply) => crypter_write_ops (Some reply) c
              | Ok None => [Inc "crypterRead"]
              | _ => []
              end
            end
          end
        end
    | _ => []
    end
  end.

Definition crypter_read_ops (c : crypter) : list metric_op :=
  if c_proxy c then
    strip_proxy_ops c ++ match strip_proxy c with (Ok _, c) => read_packet_ops c | _ => [] end
  else read_packet_ops c.
End Crypter.

(** ** server.go and sessions.go: the connections *)
Definition waitGroup_Add_ops : list metric_op := [Inc "waitgroupActive"].
Definition waitGroup_Done_ops : list metric_op := [Dec "waitgroupActive"].

Definition serve_conn_ops (s : listening) (conn : net_conn) : list metric_op :=
  match Serve_accept (sv_SecretProvider (ls_server s) (co_remote conn)) (co_local conn) (co_remote conn)
          (co_in conn) (co_end conn) (co_write_errs conn) (sv_proxy (ls_server s)) with
  | None => [Observed "connectionDuration"]
  | Some _ => Inc "serveAccepted" :: waitGroup_Add_ops
  end.

Definition Serve_iteration_ops (t : serve_turn) (s : listening) : list metric_op :=
  match t with
  | CtxDone => []
  | Accept (Accepted conn) => serve_conn_ops s conn
  | Accept (AcceptOpError false) => [Inc "serveAcceptedError"]
  | Accept (AcceptOpError true) => []
  | Accept AcceptError => [Inc "serveAcceptedError"]
  end.

(** The end of the goroutine of a connection. *)
Definition serve_done_ops : list metric_op :=
  waitGroup_Done_ops ++ [Dec "serveAccepted"; Observed "connectionDuration"].

(** The runs of [listen_step] with what was done to the collectors. *)
Inductive listen_metered (s0 : listening) : listening → list metric_op → Prop :=
| listen_metered_init : listen_metered s0 s0 []
| listen_metered_turn s t ops :
    listen_metered s0 s ops → ls_phase s = Accepting →
    listen_metered s0 (Serve_iteration t s) (ops ++ Serve_iteration_ops t s)
| listen_metered_done s before ch after w ops :
    listen_metered s0 s ops →
    ls_running s = before ++ ch :: after → waitGroup_Done (sv_waitGroup (ls_server s)) = Ok w →
    listen_metered s0 (mkListening (set_waitGroup (ls_server s) w) (ls_phase s) (before ++ after))
      (ops ++ serve_done_ops)
| listen_metered_return s ops :
    listen_metered s0 s ops → ls_phase s = Stopping → wg_count (sv_waitGroup (ls_server s)) = 0 →
    listen_metered s0 (mkListening (ls_server s) Stopped (ls_running s)) ops.

(** ** cmds/server/handlers *)
Section Handlers.
Context {HH : Hash} {RE : Regexp} {PL : Platform} {DL : Dialer}.

Definition authenticateContinueStop_ops (request : Request) : list metric_op :=
  match authenticateContinueStop request with Some _ => [Inc "authenASCIIContinueStop"] | None => [] end.

Definition getUsername_ops (username : gostring) (request : Request) : list metric_op :=
  authenticateContinueStop_ops request ++
  match authenticateContinueStop request with
  | Some _ => []
  | None =>
    if decide (username = []) then
      match Unmarshal (T := AuthenContinue) (Request_Body request) with
      | Err _ => [Inc "authenASCIIGetUsernameUnexpectedPacket"; Inc "authenASCIIGetUsernameAuthenError"]
      | Panic => []
      | Ok body =>
        if len (AuthenContinue_UserMessage body) =? 0 then
          [Inc "authenASCIIGetUsernameAuthenError"; Inc "authenASCIIGetUsernameMissingUsername"]
        else []
      end
    else []
  end.

Definition getPassword_ops (c : Provider) (username : gostring) (request : Request) : list metric_op :=
  authenticateContinueStop_ops request ++
  match authenticateContinueStop request with
  | Some _ => []
  | None =>
    match Unmarshal (T := AuthenContinue) (Request_Body request) with
    | Err _ => [Inc "authenASCIIGetPasswordUnexpectedPacket"; Inc "authenASCIIGetPasswordAuthenError"]
    | Panic => []
    | Ok body =>
      if len (AuthenContinue_UserMessage body) =? 0 then
        [Inc "authenASCIIGetPasswordMissingPassword"; Inc "authenASCIIGetPasswordAuthenError"]
      else
        match Provider_GetUser c username with
        | None => [Inc "authenASCIIGetPasswordAuthenFail"]
        | Some _ => []
        end
    end
  end.

Definition AuthenticateASCII_Handle_ops (username : gostring) (request : Request) : list metric_op :=
  authenticateContinueStop_ops request ++
  match authenticateContinueStop request with
  | Some _ => []
  | None =>
    if decide (username = []) then [Inc "authenASCIIHandleNeedUsername"]
    else getUsername_ops username request
  end.

Definition AuthenticatePAP_Handle_ops (c : Provider) (request : Request) : list metric_op :=
  Inc "authenStartHandlePAP" ::
  match Unmarshal (T := AuthenStart) (Request_Body request) with
  | Err _ => [Inc "authenPAPHandleUnexpectedPacket"; Inc "authenASCIIHandleAuthenError"]
  | Panic => []
  | Ok body =>
    if len (AuthenStart_User body) =? 0 then
      [Inc "authenPAPHandleAuthenError"; Inc "authenPAPHandleMissingUsername"]
    else if len (AuthenStart_Data body) =? 0 then
      [Inc "authenPAPHandleMissingPassword"; Inc "authenPAPHandleAuthenError"]
    else
      match Provider_GetUser c (AuthenStart_User body) with
      | None => [Inc "authenPAPHandleAuthenFail"; Inc "authenPAPHandleAuthenticatorNil"]
      | Some _ => []
      end
  end.

(** The counters of the handlers the router has. *)
Definition authenRouter_ops (c : Provider) (user : gostring)
    : list (authenActionStart * option (Request → list metric_op)) :=
  [(mkAction AuthenActionLogin x00 AuthenServiceEnable MinorVersionOne,
    Some (AuthenticateASCII_Handle_ops user));
   (mkAction AuthenActionLogin AuthenTypeASCII x00 MinorVersionDefault,
    Some (AuthenticateASCII_Handle_ops user));
   (mkAction AuthenActionLogin AuthenTypePAP x00 MinorVersionOne,
    Some (AuthenticatePAP_Handle_ops c));
   (mkAction AuthenActionLogin AuthenTypeCHAP x00 MinorVersionOne, None);
   (mkAction AuthenActionLogin AuthenTypeMSCHAP x00 MinorVersionOne, None);
   (mkAction AuthenActionLogin AuthenTypeMSCHAPV2 x00 MinorVersionOne, None)].

Fixpoint router_ops (router : list (authenActionStart * option (Request → list metric_op)))
    (key : authenActionStart) : option (Request → list metric_op) :=
  match router with
  | [] => None
  | (k, h) :: router => if decide (k = key) then h else router_ops router key
  end.

Definition AuthenticateStart_Handle_ops (c : Provider) (request : Request) : list metric_op :=
  match Unmarshal (T := AuthenStart) (Request_Body request) with
  | Err _ => [Inc "authenStartHandleUnexpectedPacket"; Inc "authenStartHandleError"]
  | Panic => []
  | Ok body =>
    let key := mkAction (AuthenStart_Action body) (AuthenStart_Type body) x00
                 (Version_MinorVersion (Header_Version (Request_Header request))) in
    match router_ops (authenRouter_ops c (AuthenStart_User body)) key with
    | Some h => h request
    | None => [Inc "authenStartHandleUnexpectedPacket"; Inc "authenStartHandleError"]
    end
  end.

Definition AuthorizeRequest_Handle_ops (c : Provider) (request : Request) : list metric_op :=
  match Unmarshal (T := AuthorRequest) (Request_Body request) with
  | Err _ => [Inc "authorizerHandleUnexpectedPacket"; Inc "authorizerHandleError"]
  | Panic => []
  | Ok body =>
    match Provider_GetUser c (AuthorRequest_User body) with
    | None => [Inc "authorizerHandleAuthorizerNil"]
    | Some _ => []
    end
  end.

Definition AccountingRequest_Handle_ops (c : Provider) (request : Request) : list metric_op :=
  match Unmarshal (T := AcctRequest) (Request_Body request) with
  | Err _ => [Inc "accountingHandleUnexpectedPacket"; Inc "accountingHandleError"]
  | Panic => []
  | Ok body =>
    match Provider_GetUser c (AcctRequest_User body) with
    | None => [Inc "accountingHandleAccounterNil"]
    | Some _ => []
    end
  end.

Definition Start_Handle_ops (c : Provider) (request : Request) : list metric_op :=
  let t := Header_Type (Request_Header request) in
  if decide (t = Authenticate) then Inc "startAuthenticate" :: AuthenticateStart_Handle_ops c request
  else if decide (t = Authorize) then Inc "startAuthorize" :: AuthorizeRequest_Handle_ops c request
  else if decide (t = Accounting) then Inc "startAccounting" :: AccountingRequest_Handle_ops c request
  else [].

(** span.go: the write of a packet is counted by its outcome. The goroutine
    that would observe the duration ranges over a channel no value is sent on,
    so it ends without. *)
Definition span_Write_ops (mw : writer) (p : list byte) (w : env) : list metric_op :=
  match mw with
  | WResponseLogger => []
  | WSpan _ _ _ _ =>
    match writer_Write mw p w with
    | (Ok _, _) => [Inc "spanHandleWriteSuccess"]
    | (Err _, _) => [Inc "spanHandleWriteError"]
    | (Panic, _) => []
    end
  end.

Definition Span_Handle_ops (s : Span) (request : Request) (r : response handler writer) : list metric_op :=
  Inc "spanHandle" ::
  match dialHost r with
  | (Ok None, r) =>
    let w := WSpan (dial_remote (span_destination s)) (span_switchAddr s) (span_remAddr s)
               (span_packetType s) in
    match Packet_MarshalBinary (mkPacket (Some (Request_Header request)) (Some (Request_Body request))) with
    | Err _ => Start_Handle_ops (span_provider s) request
    | Panic => []
    | Ok reqBytes =>
      span_Write_ops w reqBytes (r_env r) ++
      match writer_Write_ w reqBytes r with
      | (Panic, _) => []
      | _ => Start_Handle_ops (span_provider s) request
      end
    end
  | _ => Inc "spanHandleError" :: Start_Handle_ops (span_provider s) request
  end.

(** ** cmds/server/config/authorizers/stringy *)
Definition command_Handle_ops (b : AuthorRequest) (u : User) : list metric_op :=
  if command_evaluate b u then [Inc "stringyHandleAuthorizeAcceptPassAdd"]
  else [Inc "stringyHandleAuthorizeFail"].

Definition session_Handle_ops (b : AuthorRequest) (u : User) : list metric_op :=
  let '(args, status) := session_evaluate b u in
  if 0 <? len args then
    if decide (status = AuthorStatusPassAdd) then [Inc "stringyHandleAuthorizeAcceptPassAdd"]
    else if decide (status = AuthorStatusPassRepl) then [Inc "stringyHandleAuthorizeAcceptPassReplace"]
    else []
  else [Inc "stringyHandleAuthorizeFail"].

Definition stringy_Handle_ops (user : User) (request : Request) : list metric_op :=
  match Unmarshal (T := AuthorRequest) (Request_Body request) with
  | Err _ => [Inc "stringyHandleUnexpectedPacket"; Inc "stringyHandleAuthorizeError"]
  | Panic => []
  | Ok body =>
    (if decide (User_Name user ≠ AuthorRequest_User body) then [Inc "stringyHandleAuthorizeFail"] else []) ++
    if command_based body then command_Handle_ops body user else session_Handle_ops body user
  end.
End Handlers.

(** ** cmds/server/loader and the DNS provider *)
Section Loader.
Context {NT : Net}.

Definition reduceAuthenticatorAccounterFromGroups_ops (u : User) : list metric_op :=
  match User_Authenticator u with Some _ => [Inc "userOverrideAuthenticator"] | None => [] end ++
  match User_Accounter u with Some _ => [Inc "userOverrideAccounter"] | None => [] end.

(** The turn for one user; [exists_]: the scope has an entry of its name. *)
Definition build_user_ops (l : ready) (scope : gostring) (exists_ : bool) (u : User) : list metric_op :=
  if negb (User_HasScope u scope) then []
  else
    let u := User_LocalizeToScope u scope in
    [Inc "scope"] ++ (if exists_ then [Inc "userScopeDuplicate"] else []) ++
    reduceAuthenticatorAccounterFromGroups_ops u ++
    let u := reduceAuthenticatorAccounterFromGroups u in
    match ld_authorizer l u with Some _ => [] | None => [Inc "userAuthorizerUnassigned"] end ++
    let '(authenticator, skip) :=
      match User_Authenticator u with
      | None => ([], false)
      | Some a =>
        match l_authenticatorTypes (ld l) !! Authenticator_Type a with
        | None => ([Inc "userAuthenticatorUnassigned"], false)
        | Some af =>
          match af (User_Name u) (Authenticator_Options a) with
          | None => ([Inc "userAuthenticatorBadConfigRef"], true)
          | Some _ => ([], false)
          end
        end
      end in
    authenticator ++
    if skip : bool then []
    else
      match User_Accounter u with
      | None => []
      | Some a =>
        match l_accounterTypes (ld l) !! Accounter_Type a with
        | None => [Inc "userAccounterUnassigned"]
        | Some _ => []
        end
      end ++ [Inc "userTotal"].

(** The inner loop, from the users [m] of the scope so far. *)
Fixpoint build_users_ops (l : ready) (scope : gostring) (m : Provider) (users : list User) : list metric_op :=
  match users with
  | [] => []
  | u :: users =>
    build_user_ops l scope (bool_decide (is_Some (m !! User_Name u))) u ++
    build_users_ops l scope
      (match build_user l scope u with Some a => <[User_Name u := a]> m | None => m end) users
  end.

Definition build_scope_ops (l : ready) (users : list User) (provider : SecretConfig) : list metric_op :=
  build_users_ops l (SecretConfig_Name provider) ∅ users ++
  let users := build_users l (SecretConfig_Name provider) users in
  if decide (users = ∅) then [Inc "userScopeUnassigned"]
  else
    match l_handlerTypes (ld l) !! HandlerConfig_Type (SecretConfig_Handler provider) with
    | None => []
    | Some handlerType =>
      let h := handlerType (ld_config l users) (HandlerConfig_Options (SecretConfig_Handler provider)) in
      match l_providerTypes (ld l) !! SecretConfig_Type provider with
      | None => [Inc "secretProviderMissing"]
      | Some providerType =>
        match providerType provider h (ld_keychain l (SecretConfig_Secret provider)) with
        | None => [Inc "providerFactoryMissing"]
        | Some _ => []
        end
      end
    end.

Definition build_ops (l : ready) (c : ServerConfig) : list metric_op :=
  concat (build_scope_ops l (ServerConfig_Users c) <$> ServerConfig_Secrets c).

Fixpoint loader_get_ops (providers : list SecretProvider) (remote : Addr) : list metric_op :=
  match providers with
  | [] => [Inc "secretUnknown"]
  | sp :: providers =>
    let g := SecretProvider_Get sp remote in
    match got_err g, got_secret g, got_handler g with
    | None, Some _, Some _ => [Inc "secretKnown"]
    | _, _, _ => loader_get_ops providers remote
    end
  end.

Definition prefixFilter_deny_ops (p : prefixFilter) (remote : Addr) : list metric_op :=
  if decide (p = ∅) then []
  else
    match remote with
    | TCPAddr ip _ =>
      if prefixFilter_match p ip then [Inc "prefixFilterDenied"] else [Inc "prefixFilterAllowed"]
    | _ => [Inc "prefixFilterDenied"]
    end.

Definition prefixFilter_allow_ops (p : prefixFilter) (remote : Addr) : list metric_op :=
  if decide (p = ∅) then []
  else
    match remote with
    | TCPAddr ip _ =>
      if prefixFilter_match p ip then [Inc "prefixFilterAllowed"] else [Inc "prefixFilterDenied"]
    | _ => [Inc "prefixFilterDenied"]
    end.

Definition updates_step_ops (l : ready) (s : updates_state) (u : update) : list metric_op :=
  match u with
  | NewConfig c => build_ops l c ++ [Inc "buildUpdate"]
  | Query remote =>
    prefixFilter_deny_ops (us_deny s) remote ++ prefixFilter_allow_ops (us_allow s) remote ++
    loader_get_ops (us_providers s) remote ++ [Inc "buildGet"]
  end.

(** [Loader.Get], around the turn of the loop that answers it. *)
Definition Loader_Get_ops : list metric_op := [Inc "secretProviderGet"; Dec "secretProviderGet"].

Fixpoint dns_scan_ops (secrets : gmap gostring secretConfig) (names : list gostring) : list metric_op :=
  match names with
  | [] => []
  | name :: names =>
    match secrets !! name with Some _ => [Inc "dnsGetMatch"] | None => dns_scan_ops secrets names end
  end.

Definition DNSProvider_Get_ops (p : DNSProvider) (remote : Addr) : list metric_op :=
  match remote with
  | TCPAddr ip _ =>
    match net_LookupAddr (default nil_IP ip) with
    | None => [Observed "dnsDurations"; Inc "dnsError"]
    | Some names => Observed "dnsDurations" :: dns_scan_ops (dns_secrets p) names
    end
  | _ => []
  end.
End Loader.
