(* ===== verification/WireTheorems.v ===== *)
(** The properties of the wire format: headers, packets, the seven packet
    bodies and the argument lists they carry. *)
From S2P Require Import Prelude.
From S2P Require Import GoStrings.
From S2P Require Import Buffer.
From S2P Require Import HeaderFields.
From S2P Require Import AuthenFields.
From S2P Require Import AuthorFields.
From S2P Require Import Args.
From S2P Require Import Header.
From S2P Require Import Codec.
From S2P Require Import Authenticate.
From S2P Require Import Authorize.
From S2P Require Import Accounting.

(** ** Bodies *)

(** A reply of five bytes: the length of the data is read from the one byte that
    is left, and the sum of both lengths must be zero. *)
Lemma AuthenReply_short data a :
  len data = 5 →
  AuthenReply_UnmarshalBinary data = Ok a ↔
  AuthenReply_fits a ∧ AuthenReply_MarshalBinary a = Ok (data ++ [x00]).
Proof.
  intros H5. assert (5 <= len data) as Hlen by lia. take_bytes Hlen data 5%nat.
  destruct data as [|d4' data]; [|rewrite !len_cons in H5; pose proof (len_nonneg data); lia]. clear H5 Hlen.
  unfold AuthenReply_UnmarshalBinary, AuthenReply_MarshalBinary. change (len _ <? AuthenReplyLen) with false. cbn iota.
  unfold AuthenReply_read, mbind, reader_bind, mret, reader_ret, AuthenReply_Len. cbn -[AuthenReply_Validate Z.add].
  rewrite !readBuffer_string_nil. cbn -[AuthenReply_Validate Z.add Z.lor Z.shiftl].
  change (AuthenServerMsg_Len [] + AuthenData_Len []) with 0. split.
  - destruct (Z.eqb_spec 0 (Z.lor (Z.shiftl (b2z d1) 8) (b2z d2) + b2z d3)) as [Hsum|]; [|done].
    intros Ha. apply bind_ok in Ha as ([] & Hv & Ha). apply Ok_inj in Ha as <-. split; [done|].
    unfold outcome_bind. rewrite Hv. pose proof (u16_nonneg d1 d2). pose proof (b2z_range d3).
    destruct (u16_len_bytes [] d1 d2) as (_ & <- & <-); [rewrite len_nil; lia|].
    assert (d3 = x00) as ->; [|reflexivity]. apply b2z_inj. change (b2z x00) with 0. lia.
  - destruct a as [st fl msg dat]. cbn [AuthenReply_Status AuthenReply_Flags AuthenReply_ServerMsg AuthenReply_Data].
    intros [_ Ha]. apply bind_ok in Ha as ([] & Hv & Ha). apply Ok_inj in Ha. injection Ha as -> -> H1 H2 H3 H4 H5.
    apply app_eq_nil in H5 as [-> ->]. vm_compute in H1, H2, H3. subst. unfold outcome_bind. by rewrite Hv.
Qed.

(** C8. The decoders of the authentication bodies accept exactly the encodings
    of packets whose fields are valid and fit their length fields, followed by
    anything, and return the packet that was encoded. Only [AuthenReply] accepts
    more: with five bytes, what its encoding is without the last of six bytes, a
    zero. *)
Theorem authen_bodies_decode_exactly data :
  (∀ a, AuthenStart_UnmarshalBinary data = Ok a ↔
        AuthenStart_fits a ∧ ∃ p rest, AuthenStart_MarshalBinary a = Ok p ∧ data = p ++ rest) ∧
  (∀ a, AuthenContinue_UnmarshalBinary data = Ok a ↔
        AuthenContinue_fits a ∧ ∃ p rest, AuthenContinue_MarshalBinary a = Ok p ∧ data = p ++ rest) ∧
  (∀ a, AuthenReply_UnmarshalBinary data = Ok a ↔
        AuthenReply_fits a ∧ ∃ p, AuthenReply_MarshalBinary a = Ok p ∧
          ((∃ rest, data = p ++ rest) ∨ (len data = 5 ∧ p = data ++ [x00]))).
Proof.
  split; [|split]; intros a;
    [exact (codec_exact (T := AuthenStart) data a I)|exact (codec_exact (T := AuthenContinue) data a I)|].
  assert (∀ p, AuthenReply_MarshalBinary a = Ok p → 6 <= len p) as Hmin.
  { intros p Hp. unfold AuthenReply_MarshalBinary in Hp. apply bind_ok in Hp as ([] & _ & Hp). apply Ok_inj in Hp as <-.
    pose proof (len_nonneg (AuthenReply_ServerMsg a)). pose proof (len_nonneg (AuthenReply_Data a)).
    unfold appendUint16. autorewrite with golen. lia. }
  destruct (decide (len data = 5)) as [H5|H5].
  - rewrite (AuthenReply_short data a H5). split; [intros [Hf Hp]; split; [done|]; eexists; split; [done|by right]|].
    intros [Hf (p & Hp & [[rest ->]|[_ ->]])]; [|done]. apply Hmin in Hp. rewrite len_app in H5.
    pose proof (len_nonneg rest). lia.
  - split.
    + intros Ha. apply AuthenReply_accepted in Ha as Hacc. destruct Hacc as (Hf & p & Hp & Hd). split; [done|].
      exists p. split; [done|]. left. apply Hd. unfold AuthenReply_UnmarshalBinary, AuthenReplyLen in Ha.
      destruct (Z.ltb_spec (len data) 5); [done|lia].
    + intros [Hf (p & Hp & [[rest ->]|[? _]])]; [|done]. by apply AuthenReply_roundtrip_gen.
Qed.

(** C35. The same for the bodies of authorization and accounting: the decoders
    accept exactly the encodings of valid bodies that fit their length fields,
    followed by anything. *)
Theorem author_acct_bodies_decode_exactly data :
  (∀ a, AuthorRequest_UnmarshalBinary data = Ok a ↔
        AuthorRequest_fits a ∧ ∃ p rest, AuthorRequest_MarshalBinary a = Ok p ∧ data = p ++ rest) ∧
  (∀ a, AuthorReply_UnmarshalBinary data = Ok a ↔
        AuthorReply_fits a ∧ ∃ p rest, AuthorReply_MarshalBinary a = Ok p ∧ data = p ++ rest) ∧
  (∀ a, AcctRequest_UnmarshalBinary data = Ok a ↔
        AcctRequest_fits a ∧ ∃ p rest, AcctRequest_MarshalBinary a = Ok p ∧ data = p ++ rest) ∧
  (∀ a, AcctReply_UnmarshalBinary data = Ok a ↔
        AcctReply_fits a ∧ ∃ p rest, AcctReply_MarshalBinary a = Ok p ∧ data = p ++ rest).
Proof.
  split_and!; intros a;
    [exact (codec_exact (T := AuthorRequest) data a I)|exact (codec_exact (T := AuthorReply) data a I)
    |exact (codec_exact (T := AcctRequest) data a I)|exact (codec_exact (T := AcctReply) data a I)].
Qed.

(** ** Witness data *)
Definition w_start (user : gostring) : AuthenStart :=
  mkAuthenStart AuthenActionLogin x01 AuthenTypeASCII AuthenServiceLogin
    user (str "tty0") (str "host") [].

Definition w_header : Header :=
  mkHeader (mkVersion MajorVersion MinorVersionOne) Authenticate 2 12345 x00 3.

(** C40. A start packet whose encoding succeeds is read back by the decoder if
    and only if every field fits its one-byte length: a longer field is encoded
    with a truncated length and corrupts the packet instead of being refused. *)
Theorem AuthenStart_overlong_corrupts a p :
  AuthenStart_MarshalBinary a = Ok p →
  AuthenStart_UnmarshalBinary p = Ok a ↔ AuthenStart_fits a.
Proof. exact (codec_readback (T := AuthenStart) a p). Qed.

Lemma AuthenStart_overlong_corrupts_witness :
  ∃ p, AuthenStart_MarshalBinary (w_start (replicate 256 x61)) = Ok p ∧
       AuthenStart_UnmarshalBinary p ≠ Ok (w_start (replicate 256 x61)).
Proof.
  eexists. split; [vm_compute; reflexivity|].
  rewrite AuthenStart_overlong_corrupts by (vm_compute; reflexivity).
  intros [Hu _]. vm_compute in Hu. discriminate Hu.
Defined.

(** The same for the argument count of an authorization reply. *)
Theorem AuthorReply_overlong_corrupts a p :
  AuthorReply_MarshalBinary a = Ok p →
  AuthorReply_UnmarshalBinary p = Ok a ↔ AuthorReply_fits a.
Proof. exact (codec_readback (T := AuthorReply) a p). Qed.

Lemma AuthorReply_overlong_corrupts_witness :
  ∃ p, AuthorReply_MarshalBinary (mkAuthorReply AuthorStatusPassAdd (replicate 256 (str "a=")) [] []) = Ok p ∧
       AuthorReply_UnmarshalBinary p ≠
         Ok (mkAuthorReply AuthorStatusPassAdd (replicate 256 (str "a=")) [] []).
Proof.
  eexists. split; [vm_compute; reflexivity|].
  rewrite AuthorReply_overlong_corrupts by (vm_compute; reflexivity).
  intros [Hu _]. vm_compute in Hu. discriminate Hu.
Defined.

(** ** Headers and packets *)

(** Decoding the twelve bytes [Header.MarshalBinary] writes, whatever
    follows them, gives the header back; with sequence number 2 it gains the
    single-connect flag. *)
Theorem Header_roundtrip h p rest :
  header_typed h → Header_MarshalBinary h = Ok p →
  length p = 12%nat ∧ Header_UnmarshalBinary (p ++ rest) = Ok (header_decoded h).
Proof.
  intros Ht Hp. split; [by apply Header_MarshalBinary_ok in Hp as [_ ?]|].
  by apply Header_Unmarshal_Marshal.
Qed.

Lemma Header_roundtrip_witness :
  ∃ p, Header_MarshalBinary w_header = Ok p ∧
       Header_UnmarshalBinary (p ++ [x00]) =
         Ok (mkHeader (mkVersion MajorVersion MinorVersionOne) Authenticate 2 12345 SingleConnect 3).
Proof.
  eexists. split; [vm_compute; reflexivity|].
  apply (Header_roundtrip w_header); [|vm_compute; reflexivity].
  unfold header_typed; cbn; lia.
Defined.

(** Encoding a decoded header gives back the bytes it was decoded from,
    except for the flag byte of a packet with sequence number 2. *)
Theorem Header_reencode data h :
  Header_UnmarshalBinary data = Ok h →
  ∃ p, Header_MarshalBinary h = Ok p ∧ length p = 12%nat ∧
       take 3 p = take 3 data ∧ drop 4 p = take 8 (drop 4 data) ∧
       (Header_SeqNo h ≠ 2 → p = take 12 data).
Proof. apply Header_Marshal_Unmarshal. Qed.

Lemma Header_reencode_witness :
  ∃ h, Header_UnmarshalBinary [xc1; x01; x01; x00; x00; x00; x30; x39; x00; x00; x00; x2c] = Ok h ∧
       Header_MarshalBinary h = Ok [xc1; x01; x01; x00; x00; x00; x30; x39; x00; x00; x00; x2c].
Proof.
  eexists. split; [vm_compute; reflexivity|].
  destruct (Header_reencode [xc1; x01; x01; x00; x00; x00; x30; x39; x00; x00; x00; x2c] _
              ltac:(vm_compute; reflexivity)) as (p & Hp & _ & _ & _ & Heq).
  rewrite Hp, Heq by (vm_compute; discriminate). reflexivity.
Defined.

(** C36. [Packet.UnmarshalBinary] on any slice: it panics exactly when the array
    behind the slice, spare capacity included, ends before the header or before
    the body a valid header announces; and it accepts exactly the arrays that
    start with a valid header and hold its body, of which it returns the bytes
    after the header, even if they lie behind the end of the slice. *)
Theorem Packet_UnmarshalBinary_panics v :
  let array := sl_elems v ++ sl_spare v in
  (Packet_UnmarshalBinary (Some v) = Panic ↔
   len array < 12 ∨ ∃ h, Header_UnmarshalBinary (take 12 array) = Ok h ∧ len array < 12 + Header_Length h) ∧
  (∀ p, Packet_UnmarshalBinary (Some v) = Ok p ↔
   ∃ h body rest, Header_UnmarshalBinary (take 12 array) = Ok h ∧ Header_Length h = len body ∧
     array = take 12 array ++ body ++ rest ∧ p = mkPacket (Some h) (Some body)).
Proof.
  intros array. unfold Packet_UnmarshalBinary, MaxHeaderLength.
  destruct (slice_cases v 0 12 ltac:(lia)) as [[Hl ->]|[Hl ->]]; fold array in Hl; cbn [mbind outcome_bind].
  { split; [by split; [left|]|]. intros p. split; [done|].
    intros (h & body & rest & Hh & _). apply Header_UnmarshalBinary_valid in Hh as (_ & _ & H12).
    rewrite len_take in H12. lia. }
  fold array. change (take (Z.to_nat (12 - 0)) (drop (Z.to_nat 0) array)) with (take 12 array).
  destruct (Header_UnmarshalBinary (take 12 array)) as [h|e|] eqn:Hu.
  - pose proof (Header_UnmarshalBinary_valid _ _ Hu) as ((_ & _ & _ & Hmax) & (_ & _ & Hr) & _).
    destruct (Z.ltb_spec MaxBodyLength (Header_Length h)); [lia|].
    destruct (slice_cases v 12 (12 + Header_Length h) ltac:(lia)) as [[Hb ->]|[Hb ->]]; fold array in Hb |- *;
      cbn [mbind outcome_bind].
    + split; [split; [by right; exists h|done]|]. intros p. split; [done|].
      intros (h' & body & rest & [= <-] & Hlen & Ha & _). apply (f_equal len) in Ha.
      rewrite !len_app, len_take in Ha. pose proof (len_nonneg rest). lia.
    + split; [split; [done|intros [?|(h' & [= <-] & ?)]; lia]|]. intros p.
      replace (12 + Header_Length h - 12) with (Header_Length h) by lia. change (Z.to_nat 12) with 12%nat. split.
      * intros [= <-]. exists h, (take (Z.to_nat (Header_Length h)) (drop 12 array)),
          (drop (Z.to_nat (Header_Length h)) (drop 12 array)).
        split_and!; [done| |by rewrite !take_drop|done]. rewrite len_take, len_drop. lia.
      * intros (h' & body & rest & [= <-] & Hlen & Ha & ->). do 3 f_equal.
        assert (drop 12 array = body ++ rest) as ->.
        { apply (app_inv_head (take 12 array)). by rewrite take_drop. }
        by rewrite Hlen, take_len_app.
  - split; [split; [done|intros [?|(h & ? & _)]; [lia|done]]|]. intros p. split; [done|]. by intros (h & ? & ? & ? & _).
  - by apply Header_UnmarshalBinary_returns in Hu.
Qed.

(** A packet whose header announces the length of its body is read back
    from its encoding. *)
Theorem Packet_roundtrip h body b :
  packet_wf h body →
  Packet_MarshalBinary (mkPacket (Some h) (Some body)) = Ok b →
  Packet_UnmarshalBinary (Some (full_slice b)) = Ok (mkPacket (Some (header_decoded h)) (Some body)).
Proof. apply Packet_Unmarshal_Marshal. Qed.

Lemma Packet_roundtrip_witness :
  ∃ b, Packet_MarshalBinary (mkPacket (Some w_header) (Some [x61; x62; x63])) = Ok b ∧
       Packet_UnmarshalBinary (Some (full_slice b)) =
         Ok (mkPacket (Some (header_decoded w_header)) (Some [x61; x62; x63])).
Proof.
  eexists. split; [vm_compute; reflexivity|].
  apply Packet_roundtrip; [|vm_compute; reflexivity].
  split; [unfold header_typed; cbn; lia|reflexivity].
Defined.

(** ** Argument lists *)

(** [ASV] cuts the trimmed argument at its first separator: attribute,
    separator and value put together are the argument again, the attribute
    holds no separator, and all three are empty when there is none. *)
Theorem Arg_ASV_cuts_at_separator t :
  match Arg_ASV t with
  | (a, [c], v) => Arg_String t = a ++ [c] ++ v ∧ is_sep c ∧ Forall (λ c, ¬ is_sep c) a
  | (a, _, v) => a = [] ∧ v = [] ∧ Forall (λ c, ¬ is_sep c) (Arg_String t)
  end.
Proof.
  destruct (Arg_ASV_spec t) as [[-> H]|(a & c & v & -> & Hs & Hc & Ha)]; done.
Qed.

(** [Args.Args] lists the trimmed arguments without duplicates, each in
    the place of its first occurrence. *)
Theorem Args_Args_dedup t :
  NoDup (Args_Args t) ∧ (∀ x, x ∈ Args_Args t ↔ ∃ a, a ∈ t ∧ x = Arg_String a) ∧
  Args_Unique t `sublist_of` t.
Proof.
  destruct (unique_loop_spec ∅ t) as (Hd & He & Hs). split; [done|]. split; [|done].
  intros x. unfold Args_Args, Args_Unique. rewrite He, list_elem_of_fmap. set_solver.
Qed.
