(* ===== verification/ConnTheorems.v ===== *)
(** The properties of the obfuscation and of the reads and writes of whole
    packets. *)
From S2P Require Import Prelude.
From S2P Require Import Buffer.
From S2P Require Import HeaderFields.
From S2P Require Import AuthenFields.
From S2P Require Import AuthorFields.
From S2P Require Import Header.
From S2P Require Import Codec.
From S2P Require Import Authenticate.
From S2P Require Import Authorize.
From S2P Require Import Accounting.
From S2P Require Import MD5.
From S2P Require Import Proxy.
From S2P Require Import Crypt.
From S2P Require Import Crypter.

(** ** Witness data: the packet of crypt_test.go, under the secret "fooman" *)
Definition v_body : list byte :=
  [x01; x01; x01; x01; x05; x0b; x14; x00; x61; x64; x6d; x69; x6e; x63; x6f;
   x6d; x6d; x61; x6e; x64; x2d; x61; x70; x69; x32; x30; x30; x31; x3a; x34; x38;
   x36; x30; x3a; x34; x38; x36; x30; x3a; x3a; x38; x38; x38; x38].

Definition v_header : Header :=
  mkHeader (mkVersion MajorVersion MinorVersionOne) Authenticate 1 12345 x00 44.

Definition v_wire : list byte :=
  [xc1; x01; x01; x00; x00; x00; x30; x39; x00; x00; x00; x2c; x9c; xed; x73;
   xaa; x3d; x6d; x2f; x1f; xef; x62; x98; x73; xf0; xac; x2f; x11; x8a; xe2; x89; x8a;
   xcb; x50; x72; xb2; x6d; xd2; xec; xab; xe1; x4e; x22; x64; x4c; x7c; xb2; x0e; x43;
   x0e; x33; x92; x85; x47; xca; xfc].

Definition v_conn (secret : list byte) (proxy : bool) (input : list byte) : crypter :=
  newCrypter secret (TCPAddr (Some (str "::1")) 49) (TCPAddr (Some (str "::2")) 5000)
    input EOF [] proxy.

Lemma v_header_valid : header_valid v_header.
Proof. apply Header_Validate_spec. vm_compute. reflexivity. Qed.

(** ** Obfuscation *)

Section Crypt.
Context {HH : Hash}.

(** C6. [crypt] is the obfuscation of RFC 8907, section 4.5: the body is
    xored with the chain of hashes of session id, secret, version and
    sequence number, each with the previous hash appended, cut to the length
    of the body. *)
Theorem crypt_rfc8907 secret h body :
  header_valid h → Header_Length h = len body →
  HeaderFlag_Has (Header_Flags h) UnencryptedFlag = false →
  ∃ version, Version_MarshalBinary (Header_Version h) = Ok [version] ∧
    let seed := be_PutUint32 (Header_SessionID h) ++ secret ++ [version] ++ [u8 (Header_SeqNo h)] in
    crypt secret (mkPacket (Some h) (Some body)) =
    Ok (mkPacket (Some h) (Some (zip_with bxor body (pseudo_pad seed (len body))))).
Proof.
  intros Hv Hl Hf. destruct (Header_MarshalBinary_valid h Hv) as (version & Hver & _).
  exists version. split; [done|]. pose proof (len_nonneg body).
  rewrite crypt_eq by (done || lia). unfold obfuscate, pad_seed. by rewrite Hf, Hver, Hl.
Qed.

(** Obfuscating twice under one secret gives the packet back. *)
Theorem crypt_involutive secret h body p :
  0 <= Header_Length h →
  crypt secret (mkPacket (Some h) (Some body)) = Ok p →
  crypt secret p = Ok (mkPacket (Some h) (Some body)).
Proof.
  intros H0. unfold crypt at 1. cbn [Packet_Header Packet_Body].
  destruct (HeaderFlag_Has _ _) eqn:Hf.
  { intros [= <-]. unfold crypt. cbn [Packet_Header]. by rewrite Hf. }
  cbn [SessionID_MarshalBinary mbind outcome_bind].
  destruct (Version_MarshalBinary (Header_Version h)) as [v|e|] eqn:Hver; [|done|done].
  cbn [mbind outcome_bind]. rewrite pad_loop_pseudo_pad, xor_body_spec by done.
  destruct (Z.leb_spec (len body) (len (pseudo_pad (be_PutUint32 (Header_SessionID h) ++ secret ++ v ++ [u8 (Header_SeqNo h)]) (Header_Length h)))) as [Hle|]; [|done].
  intros Hp. apply Ok_inj in Hp as <-. unfold crypt. cbn [Packet_Header Packet_Body].
  rewrite Hf. cbn [SessionID_MarshalBinary mbind outcome_bind]. rewrite Hver.
  cbn [mbind outcome_bind]. rewrite pad_loop_pseudo_pad, xor_body_spec by done.
  rewrite len_zip_with. destruct (Z.leb_spec (Z.min (len body)
    (len (pseudo_pad (be_PutUint32 (Header_SessionID h) ++ secret ++ v ++ [u8 (Header_SeqNo h)]) (Header_Length h))))
    (len (pseudo_pad (be_PutUint32 (Header_SessionID h) ++ secret ++ v ++ [u8 (Header_SeqNo h)]) (Header_Length h))));
    [|lia].
  by rewrite zip_bxor_involutive.
Qed.
End Crypt.

(** The hash is MD5, and the result the bytes the test of the source lists. *)
Lemma crypt_rfc8907_witness :
  header_valid v_header ∧
  crypt (HH := MD5) (str "fooman") (mkPacket (Some v_header) (Some v_body)) =
    Ok (mkPacket (Some v_header) (Some (drop 12 v_wire))).
Proof.
  split; [exact v_header_valid|].
  destruct (crypt_rfc8907 (HH := MD5) (str "fooman") v_header v_body
              v_header_valid eq_refl eq_refl) as (version & Hver & Hc).
  vm_compute in Hver. injection Hver as <-. rewrite Hc. vm_compute. reflexivity.
Defined.

Lemma crypt_involutive_witness :
  crypt (HH := MD5) (str "fooman") (mkPacket (Some v_header) (Some (drop 12 v_wire))) =
    Ok (mkPacket (Some v_header) (Some v_body)).
Proof.
  apply (crypt_involutive (HH := MD5) (str "fooman") v_header v_body).
  - vm_compute. discriminate.
  - vm_compute. reflexivity.
Defined.

(** ** Packets over a connection *)

Lemma header_valid_sized_typed h body :
  header_typed h → header_valid (sized h body) → header_typed (sized h body).
Proof.
  intros (? & ? & _) (_ & _ & _ & Hl). pose proof (len_nonneg body).
  unfold header_typed, MaxBodyLength in *. cbn in *. lia.
Qed.

Lemma conn_Write_ok b c n c' :
  conn_Write b c = (Ok n, c') → c_out c' = c_out c ++ [b] ∧ n = len b.
Proof. unfold conn_Write. destruct (c_write_errs c) as [|[]]; [|done|]; by intros [= <- <-]. Qed.

Section Conn.
Context {HH : Hash}.

(** What a write that succeeds sent, as a peer with the secret decodes it. *)
Lemma crypter_write_ok c h body n c' :
  header_typed h → len body < 4294967296 →
  crypter_write (Some (mkPacket (Some h) (Some body))) c = (Ok n, c') →
  ∃ hb, c_out c' = c_out c ++ [hb ++ obfuscate (c_secret c) (sized h body) body] ∧
    n = len (hb ++ obfuscate (c_secret c) (sized h body) body) ∧ len hb = 12 ∧
    header_valid (sized h body) ∧
    Header_UnmarshalBinary hb = Ok (header_decoded (sized h body)).
Proof.
  intros Ht Hl Hw. destruct (header_valid_dec (sized h body)) as [Hv|Hv].
  2:{ destruct (crypter_write_invalid c h body Hl Hv) as [e He]. congruence. }
  destruct (crypter_write_valid c h body Hv) as (hb & Hm & Heq). rewrite Heq in Hw.
  apply conn_Write_ok in Hw as [Hout Hn]. exists hb.
  pose proof (Header_MarshalBinary_ok _ _ Hm) as [_ H12].
  pose proof (Header_Unmarshal_Marshal _ _ [] (header_valid_sized_typed h body Ht Hv) Hm) as Hu.
  rewrite app_nil_r in Hu. unfold len in *. split_and!; [done|done|lia|done|done].
Qed.

Lemma header_decoded_Length h : Header_Length (header_decoded h) = Header_Length h.
Proof. unfold header_decoded. by destruct (_ =? 2). Qed.

(** Reading back bytes that were sent under the same secret. *)
Lemma read_packet_sent c h body hb rest :
  Header_UnmarshalBinary hb = Ok (header_decoded (sized h body)) → len hb = 12 →
  c_in c = (hb ++ obfuscate (c_secret c) (sized h body) body) ++ rest →
  detectBadSecret (mkPacket (Some (header_decoded (sized h body))) (Some body)) = Ok None →
  read_packet c = (Ok (mkPacket (Some (header_decoded (sized h body))) (Some body)), set_in c rest).
Proof.
  intros Hu H12 Hin Hd. pose proof (len_nonneg body).
  assert (Header_Length (sized h body) = len body) as Hsz by done.
  rewrite (read_packet_gen c hb (header_decoded (sized h body))
    (obfuscate (c_secret c) (sized h body) body) rest); [|done|done| |by rewrite app_assoc].
  2:{ rewrite header_decoded_Length, obfuscate_len by lia. done. }
  rewrite obfuscate_decoded, obfuscate_involutive by lia. by rewrite Hd.
Qed.

(** C7. What one end of a connection writes, the other end reads, if both
    have the same secret and the body is one the packet type allows: the same
    packet, with the length set and the bytes after it left unread. *)
Theorem write_then_read c1 c1' c2 h body n rest :
  header_typed h → len body < 4294967296 →
  crypter_write (Some (mkPacket (Some h) (Some body))) c1 = (Ok n, c1') →
  some_accepted (Header_Type h) body →
  c_secret c2 = c_secret c1 → c_proxy c2 = false →
  ∃ w, c_out c1' = c_out c1 ++ [w] ∧ n = len w ∧
    (c_in c2 = w ++ rest →
     crypter_read c2 =
       (Ok (mkPacket (Some (header_decoded (set_Length h (len body)))) (Some body)), set_in c2 rest)).
Proof.
  intros Ht Hl Hw Hacc Hsec Hprox.
  destruct (crypter_write_ok _ _ _ _ _ Ht Hl Hw) as (hb & Hout & Hn & H12 & Hv & Hu).
  eexists. split; [exact Hout|]. split; [exact Hn|]. intros Hin.
  rewrite crypter_read_noproxy by done. rewrite <- Hsec in Hin.
  apply (read_packet_sent c2 h body hb rest); [done|done|done|].
  apply detectBadSecret_not_refused. right. apply some_accepted_not_refused.
  unfold header_decoded. by destruct (_ =? 2).
Qed.

(** C25. Whatever bytes arrive, reading a packet does not panic; a packet that
    is returned has a valid header that announces the length of its body, has
    consumed at least twelve bytes of the input, and nothing was written. *)
Theorem crypter_read_safe c :
  returns (crypter_read c).1 ∧
  ∀ p c', crypter_read c = (Ok p, c') →
    ∃ h body rest, p = mkPacket (Some h) (Some body) ∧ c' = set_in c rest ∧
      header_valid h ∧ header_typed h ∧ Header_Length h = len body ∧
      len rest + 12 <= len (c_in c).
Proof. split; [apply crypter_read_returns|]. intros p c'. apply crypter_read_ok. Qed.
End Conn.

Lemma write_then_read_witness :
  crypter_read (HH := MD5) (v_conn (str "fooman") false (v_wire ++ [x00])) =
    (Ok (mkPacket (Some v_header) (Some v_body)), v_conn (str "fooman") false [x00]).
Proof.
  destruct (write_then_read (HH := MD5) (v_conn (str "fooman") false [])
    (set_out (v_conn (str "fooman") false []) [v_wire] [])
    (v_conn (str "fooman") false (v_wire ++ [x00])) v_header v_body 56 [x00])
    as (w & Hw & _ & Hr).
  - unfold header_typed; cbn; lia.
  - vm_compute. reflexivity.
  - vm_compute. reflexivity.
  - left. split; [reflexivity|]. left. eexists. vm_compute. reflexivity.
  - reflexivity.
  - reflexivity.
  - injection Hw as <-. exact (Hr eq_refl).
Defined.

Section BadSecret.
Context {HH : Hash}.

(** A packet all of whose possible bodies are refused: the read sends one packet
    before it fails, which an end with the secret reads as the error reply. *)
Lemma bad_secret_read c1 hb h eb rest :
  c_proxy c1 = false → c_in c1 = hb ++ eb ++ rest →
  Header_UnmarshalBinary hb = Ok h → len hb = 12 → Header_Length h = len eb →
  HeaderFlag_Has (Header_Flags h) UnencryptedFlag = false →
  all_refused (Header_Type h) (obfuscate (c_secret c1) h eb) →
  c_write_errs c1 = [] →
  ∃ w e h' b, crypter_read c1 = (Err e, set_out (set_in c1 rest) (c_out c1 ++ [w]) []) ∧
    Header_SeqNo h' = 1 ∧ Header_SessionID h' = Header_SessionID h ∧
    Header_Type h' = Header_Type h ∧ bad_secret_body (Header_Type h) b ∧
    ∀ c2 rest2, c_secret c2 = c_secret c1 → c_proxy c2 = false → c_in c2 = w ++ rest2 →
      crypter_read c2 = (Ok (mkPacket (Some h') (Some b)), set_in c2 rest2).
Proof.
  intros Hp1 Hin Hh H12 Hl Hf Href Herr.
  pose proof (Header_UnmarshalBinary_valid _ _ Hh) as (Hv & Ht & _).
  destruct (badSecretReply_ok h Hv) as (b & Hb & Hlen & Hbody & Hacc).
  pose proof (len_nonneg b).
  assert (header_valid (sized (SetHeaderSeqNo 1 h) b)) as Hv'.
  { destruct Hv as (? & ? & _). unfold header_valid, MaxBodyLength. cbn.
    change (u16 1) with 1. split_and!; done || lia. }
  assert (header_typed (SetHeaderSeqNo 1 h)) as Ht'.
  { destruct Ht as (_ & ? & ?). unfold header_typed. cbn. change (u16 1) with 1. lia. }
  destruct (crypter_write_valid (set_in c1 rest) _ _ Hv') as (hb' & Hm & Hw).
  eassert (crypter_read c1 = (Err _, _)) as Hread.
  { rewrite crypter_read_noproxy by done.
    rewrite (read_packet_gen c1 hb h eb rest) by done.
    rewrite detectBadSecret_refused, Hb by done. cbn [mbind outcome_bind].
    unfold report_bad_secret.
    change (set_Length (SetHeaderSeqNo 1 h) (len b)) with (sized (SetHeaderSeqNo 1 h) b).
    rewrite (crypter_write_valid_sized _ _ _ Hv'), Hw. unfold conn_Write. cbn [set_in c_write_errs].
    rewrite Herr. reflexivity. }
  eexists _, _, (header_decoded (sized (SetHeaderSeqNo 1 h) b)), b.
  split; [exact Hread|]. split_and!; [done..|]. intros c2 rest2 Hsec Hp2 Hin2.
  pose proof (Header_Unmarshal_Marshal _ _ [] (header_valid_sized_typed _ _ Ht' Hv') Hm) as Hu.
  rewrite app_nil_r in Hu. pose proof (Header_MarshalBinary_ok _ _ Hm) as [_ Hlen12].
  rewrite crypter_read_noproxy by done.
  apply (read_packet_sent c2 (SetHeaderSeqNo 1 h) b hb' rest2 Hu).
  - unfold len. by rewrite Hlen12.
  - rewrite Hsec. exact Hin2.
  - by apply detectBadSecret_not_refused, some_accepted_passes.
Qed.

(** C26. A packet none of whose possible bodies makes sense after decryption
    is answered, before the read fails, with one packet that a client with
    the server's secret reads as an error reply "bad secret" of its session,
    with sequence number 1. *)
Theorem bad_secret_answered c1 c2 hb h eb rest rest2 :
  c_proxy c1 = false → c_in c1 = hb ++ eb ++ rest →
  Header_UnmarshalBinary hb = Ok h → len hb = 12 → Header_Length h = len eb →
  HeaderFlag_Has (Header_Flags h) UnencryptedFlag = false →
  all_refused (Header_Type h) (obfuscate (c_secret c1) h eb) →
  c_write_errs c1 = [] → c_secret c2 = c_secret c1 → c_proxy c2 = false →
  ∃ w e c1', crypter_read c1 = (Err e, c1') ∧ c_out c1' = c_out c1 ++ [w] ∧
    (c_in c2 = w ++ rest2 →
     ∃ h' b, crypter_read c2 = (Ok (mkPacket (Some h') (Some b)), set_in c2 rest2) ∧
       Header_SeqNo h' = 1 ∧ Header_SessionID h' = Header_SessionID h ∧
       Header_Type h' = Header_Type h ∧ bad_secret_body (Header_Type h) b).
Proof.
  intros Hp1 Hin Hh H12 Hl Hf Href Herr Hsec Hp2.
  destruct (bad_secret_read c1 hb h eb rest) as (w & e & h' & b & Hr & Hs & Hid & Ht & Hb & Hread); [done..|].
  exists w, e. eexists. split; [exact Hr|]. split; [done|]. intros Hin2. exists h', b.
  split; [by apply Hread|done].
Qed.
End BadSecret.

Lemma bad_secret_answered_witness :
  ∃ w e c', crypter_read (HH := MD5) (v_conn (str "other") false v_wire) = (Err e, c') ∧
    c_out c' = [w] ∧
    ∃ h' b, crypter_read (HH := MD5) (v_conn (str "other") false w) =
        (Ok (mkPacket (Some h') (Some b)), v_conn (str "other") false []) ∧
      UnmarshalBinary b = Ok (mkAuthenReply AuthenStatusError x00 (str "bad secret") []).
Proof.
  assert (∀ w rest2, c_in (v_conn (str "other") false (w ++ rest2)) = w ++ rest2) as Hin by reflexivity.
  pose proof (λ w, bad_secret_answered (HH := MD5) (v_conn (str "other") false v_wire)
    (v_conn (str "other") false w) (take 12 v_wire) v_header (drop 12 v_wire) [] []
    eq_refl ltac:(vm_compute; reflexivity) ltac:(vm_compute; reflexivity) eq_refl eq_refl
    ltac:(vm_compute; reflexivity)
    ltac:(left; split; [reflexivity|split; [|split]; eexists; vm_compute; reflexivity])
    eq_refl eq_refl eq_refl) as Hbad.
  destruct (Hbad []) as (w & e & c' & Hr & Ho & _).
  destruct (Hbad w) as (w' & e' & c'' & Hr' & Ho' & Hread).
  rewrite Hr in Hr'. injection Hr' as <- <-. rewrite Ho in Ho'.
  change (c_out (v_conn (str "other") false v_wire)) with (@nil (list byte)) in Ho, Ho'.
  injection Ho' as <-. exists w, e, c'. split; [exact Hr|]. split; [exact Ho|].
  destruct Hread as (h' & b & Hc & _ & _ & _ & Hb); [by rewrite app_nil_r|].
  exists h', b. split; [exact Hc|]. by apply Hb.
Defined.

(** ** The proxy line *)

Section ProxyLine.
Context {HH : Hash}.

(** With proxy support on, the line a proxy writes for two TCP endpoints
    (whose address texts hold no space and no zero byte) is removed and the
    packet after it is read as if the line were not there. *)
Theorem proxy_line_stripped c ip1 p1 ip2 p2 line rest :
  x20 ∉ ip1 → x20 ∉ ip2 → x00 ∉ ip1 → x00 ∉ ip2 →
  proxyHeader (mkProxyHeader (TCPAddr (Some ip1) p1) (TCPAddr (Some ip2) p2)) = Some line →
  c_proxy c = true → c_in c = line ++ rest →
  crypter_read c = read_packet (set_in c rest).
Proof.
  intros Hs1 Hs2 Hz1 Hz2 Hline Hp Hin.
  pose proof (proxyHeader_Write_gen (proxy_NewHeader (c_local c) (c_remote c)) _ _ _ _ _ Hs1 Hs2 Hline) as Hw.
  cbn [proxyHeader ProxyHeader_client ProxyHeader_remote getIPPort] in Hline.
  apply (inj Some) in Hline.
  set (body := str "PROXY " ++ strings_ToUpper (Addr_Network (TCPAddr (Some ip1) p1)) ++ [x20] ++ ip1 ++
         [x20] ++ ip2 ++ [x20] ++ fmt_d p1 ++ [x20] ++ fmt_d p2 ++ [x0d; x0a]).
  assert (line = body ++ [x00]) as Hbody.
  { rewrite <- Hline. unfold body, line_end. by rewrite <- !app_assoc. }
  rewrite Hbody in Hw, Hin.
  assert (x00 ∉ body) as Hz.
  { unfold body. rewrite !not_elem_of_app.
    split_and!; try done; (decide_elem || (apply fmt_d_notin; decide_elem)). }
  unfold crypter_read, mbind, sm_bind, sm_get. rewrite Hp.
  by rewrite (strip_proxy_line c body rest _ Hz Hin Hw).
Qed.
End ProxyLine.

Lemma proxy_line_stripped_witness :
  ∃ line, proxyHeader (mkProxyHeader (TCPAddr (Some (str "::1")) 49) (TCPAddr (Some (str "::2")) 80)) = Some line ∧
    crypter_read (HH := MD5) (v_conn (str "fooman") true (line ++ v_wire)) =
      (Ok (mkPacket (Some v_header) (Some v_body)), v_conn (str "fooman") true []).
Proof.
  exists (str "PROXY TCP ::1 ::2 49 80" ++ line_end). split; [vm_compute; reflexivity|].
  rewrite (proxy_line_stripped _ (str "::1") 49 (str "::2") 80
             (str "PROXY TCP ::1 ::2 49 80" ++ line_end) v_wire);
    [|decide_elem|decide_elem|decide_elem|decide_elem|vm_compute; reflexivity|reflexivity|reflexivity].
  vm_compute. reflexivity.
Defined.
