(* ===== verification/HandlerSafety.v ===== *)
(** No handler panics, under the conditions on the configuration that the code
    relies on; and the sessions a handler leaves behind satisfy them again. *)
From S2P Require Import Prelude.
From S2P Require Import GoStrings.
From S2P Require Import Buffer.
From S2P Require Import HeaderFields.
From S2P Require Import AuthenFields.
From S2P Require Import AuthorFields.
From S2P Require Import Args.
From S2P Require Import Header.
From S2P Require Import Codec.
From S2P Require Import Authenticate.
From S2P Require Import Authorize.
From S2P Require Import Accounting.
From S2P Require Import MD5.
From S2P Require Import Proxy.
From S2P Require Import Crypt.
From S2P Require Import Crypter.
From S2P Require Import Response.
From S2P Require Import Config.
From S2P Require Import Stringy.
From S2P Require Import AAA.
From S2P Require Import Handlers.

(** ** Replies that can be encoded without running out of a length *)

(** The bytes of a reply besides its fixed part. *)
Definition reply_size (v : reply) : Z :=
  match v with
  | RAuthen r => len (AuthenReply_ServerMsg r) + len (AuthenReply_Data r)
  | RAuthor r => len (AuthorReply_Args r) + len (AuthorReply_ServerMsg r) +
                 len (AuthorReply_Data r) + sumZ (len <$> AuthorReply_Args r)
  | RAcct r => len (AcctReply_ServerMsg r) + len (AcctReply_Data r)
  end.

Definition small (v : reply) : Prop := reply_size v < 4294960000.

Lemma len_concat (l : list gostring) : len (concat l) = sumZ (len <$> l).
Proof.
  induction l as [|s l IH]; [done|]. cbn [concat]. rewrite len_app, IH, fmap_cons, sumZ_cons. done.
Qed.

Lemma reply_MarshalBinary_returns v : returns (reply_MarshalBinary v).
Proof.
  destruct v as [r|r|r]; cbn; apply bind_returns; try done.
  - unfold AuthenReply_Validate. fields_return.
  - unfold AuthorReply_Validate. apply bind_returns; [fields_return|]. intros _ _.
    apply args_validate_returns.
  - unfold AcctReply_Validate. fields_return.
Qed.

Lemma reply_MarshalBinary_len v b :
  reply_MarshalBinary v = Ok b → small v → len b < 4294967296.
Proof.
  unfold small. destruct v as [r|r|r]; cbn; intros Hb Hs; apply bind_ok in Hb as (? & _ & Hb);
    apply Ok_inj in Hb as <-; unfold appendUint16;
    autorewrite with golen; rewrite ?len_concat; lia.
Qed.

(** ** What a configuration must satisfy *)

(** A bcrypt authenticator needs a hash or a keychain; the arguments a stringy
    authorizer can return must not exceed what a packet length can hold. *)
Definition user_handler_safe (h : user_handler) : Prop :=
  match h with
  | HBcrypt a =>
    so_hash (ba_options a) ≠ [] ∨
    ∃ get, ba_getSecret a = Some get ∧ ∀ user group, returns (get user group)
  | HStringy u =>
    ∀ b, len (session_evaluate b u).1 + sumZ (len <$> (session_evaluate b u).1) < 4294900000
  | _ => True
  end.

Definition AAA_safe (a : AAA) : Prop :=
  user_handler_safe (AAA_Authenticate a) ∧ user_handler_safe (AAA_Authorizer a) ∧
  user_handler_safe (AAA_Accounting a).

Definition provider_safe (c : Provider) : Prop := map_Forall (λ _, AAA_safe) c.

Fixpoint handler_safe (h : handler) : Prop :=
  match h with
  | HStart c => provider_safe c
  | HGetUsername c username => provider_safe c ∧ len username < 4294900000
  | HGetPassword c username => provider_safe c ∧ len username < 4294900000
  | HResponseLogger next => handler_safe next
  | HSpan s => provider_safe (span_provider s)
  | HSecretConfig h => handler_safe h
  | HNil => False
  end.

Lemma provider_safe_user c u a : provider_safe c → Provider_GetUser c u = Some a → AAA_safe a.
Proof. apply map_Forall_lookup_1. Qed.

(** A request as the server makes it from a packet that was read. *)
Definition request_ok (q : Request) : Prop :=
  header_valid (Request_Header q) ∧ header_typed (Request_Header q) ∧
  Header_Length (Request_Header q) = len (Request_Body q).

(** ** Computations that do not panic *)
Section Safe.
Context {HH : Hash} {RE : Regexp} {PL : Platform} {DL : Dialer}.
Local Abbreviation RM A := (SM (response handler writer) A) (only parsing).

Definition resp_ok (r : response handler writer) : Prop :=
  header_typed (r_header r) ∧ ∀ n, r_next r = Some n → handler_safe n.

Definition safe {A} (m : RM A) : Prop :=
  ∀ r, resp_ok r → returns (m r).1 ∧ resp_ok (m r).2.

Lemma safe_ret {A} (a : A) : safe (mret a).
Proof. by intros r. Qed.

Lemma safe_bind {A B} (m : RM A) (k : A → RM B) :
  safe m → (∀ a, safe (k a)) → safe (m ≫= k).
Proof.
  intros Hm Hk r Hr. unfold mbind, sm_bind. destruct (Hm r Hr) as [H1 H2].
  destruct (m r) as [[a|e|] r']; [by apply Hk|done|done].
Qed.

Lemma safe_RegisterWriter mw : safe (response_RegisterWriter mw).
Proof. by intros r. Qed.

Lemma safe_record f o : safe (record f o).
Proof. by intros r. Qed.

Lemma safe_Next n : handler_safe n → safe (response_Next (Some n)).
Proof. intros Hn r [? _]. split; [done|]. split; [done|]. by intros n' [= <-]. Qed.

(** A writer that is given a packet that decodes does not panic. *)
Lemma writer_Write_returns mw p h body w :
  Packet_UnmarshalBinary (Some (full_slice p)) = Ok (mkPacket (Some h) (Some body)) →
  returns (writer_Write mw p w).1.
Proof.
  intros Hp. destruct mw; cbn; unfold ResponseLogger_Write, span_Write; rewrite Hp;
    cbn [Packet_Header Packet_Body]; [done|].
  assert (returns (match env_call w with
            | (Some e, w) => (Err e, w) | (None, w) => (Ok (len p), emit (EvSpan p) w) end).1)
    by (destruct (env_call w) as [[e|] w']; discriminate).
  repeat case_match; done.
Qed.

Lemma write_all_returns ws p h body w :
  Packet_UnmarshalBinary (Some (full_slice p)) = Ok (mkPacket (Some h) (Some body)) →
  returns (write_all ws p w).1.
Proof.
  intros Hp. revert w. induction ws as [|mw ws IH]; intros w; [done|]. cbn [write_all].
  pose proof (writer_Write_returns mw p h body w Hp) as Hw.
  destruct (writer_Write mw p w) as [[n|e|] w']; [apply IH|apply IH|done].
Qed.

Lemma Packet_MarshalBinary_returns h body :
  returns (Packet_MarshalBinary (mkPacket (Some h) (Some body))).
Proof.
  unfold Packet_MarshalBinary. cbn [Packet_Header Packet_Body]. case_match; [done|].
  destruct (header_valid_dec h) as [Hv|Hv].
  - by destruct (Header_MarshalBinary_valid h Hv) as (v0 & _ & ->).
  - apply bind_returns; [|done]. unfold Header_MarshalBinary.
    apply bind_returns; [|intros u Hu; destruct u; by apply Header_Validate_spec in Hu].
    unfold Header_Validate. apply bind_returns; [fields_return|]. intros _ _. by case_match.
Qed.

Lemma safe_reply_ v : small v → safe (reply_ v).
Proof.
  intros Hs r Hr. unfold reply_, response_Reply.
  pose proof (reply_MarshalBinary_returns v) as Hret.
  destruct (reply_MarshalBinary v) as [b|e|] eqn:Hb; [|done|done].
  apply reply_MarshalBinary_len in Hb; [|done].
  set (h := reply_header (r_header r) v).
  assert (header_typed h) as Ht.
  { destruct Hr as ((_ & ? & _) & _). unfold header_typed. cbn. unfold u16.
    pose proof (Z.mod_pos_bound (reply_seqNo (r_header r) v) 65536 eq_refl). lia. }
  pose proof (len_nonneg b).
  assert (NewPacket [SetPacketHeader h; SetPacketBody b] = mkPacket (Some (sized h b)) (Some b)) as ->.
  { unfold NewPacket, SetPacketHeader, SetPacketBody, sized. cbn. unfold u32.
    by rewrite Z.mod_small by lia. }
  assert (∀ w, returns (response_Write (Some (mkPacket (Some (sized h b)) (Some b)))
                (set_env (set_header r h) w)).1 ∧
               resp_ok (response_Write (Some (mkPacket (Some (sized h b)) (Some b)))
                (set_env (set_header r h) w)).2) as Hw.
  { intros w. unfold response_Write. cbn [set_env set_header r_crypter].
    pose proof (crypter_write_returns (r_crypter r) (sized h b) b Hb) as Hc.
    destruct (crypter_write _ (r_crypter r)) as [n c]. split; [done|]. by destruct Hr. }
  assert (∀ r', returns (response_Write (Some (mkPacket (Some (sized h b)) (Some b))) r').1 ∧
               resp_ok (response_Write (Some (mkPacket (Some (sized h b)) (Some b))) r').2 →
          returns (match response_Write (Some (mkPacket (Some (sized h b)) (Some b))) r' with
                   | (Panic, r') => (Panic, r') | (_, r') => (Ok tt, r') end).1 ∧
          resp_ok (match response_Write (Some (mkPacket (Some (sized h b)) (Some b))) r' with
                   | (Panic, r') => (Panic, r') | (_, r') => (Ok tt, r') end).2) as Hfin.
  { intros r' [Hr1 Hr2]. destruct (response_Write _ r') as [[n|e|] r'']; by split. }
  pose proof (Packet_MarshalBinary_returns (sized h b) b) as Hp.
  destruct (Packet_MarshalBinary _) as [p|e|] eqn:Em; [| |done].
  - pose proof (Packet_MarshalBinary_valid _ _ _ Em) as Hv.
    apply Packet_Unmarshal_Marshal in Em; [|split; [|done]].
    2:{ destruct Ht as (? & ? & _), Hv as (_ & _ & _ & Hl).
        unfold header_typed, MaxBodyLength in *. cbn in *. lia. }
    pose proof (write_all_returns (r_writers r) p _ _ (r_env r) Em) as Hwr.
    cbn [set_header r_writers r_env].
    destruct (write_all (r_writers r) p (r_env r)) as [[[]|e|] w]; [| |done]; apply Hfin, Hw.
  - apply Hfin. destruct r. apply (Hw r_env).
Qed.
End Safe.

Create HintDb safe discriminated.
#[export] Hint Resolve safe_ret safe_bind safe_RegisterWriter safe_record safe_Next safe_reply_ : safe.

(** ** The handlers *)

(** A reply with a status and a message is small when its message is. *)
Lemma small_authen s m : len m < 4294950000 → small (authen_reply s m).
Proof. intros. unfold small; cbn. rewrite len_nil. lia. Qed.

Lemma small_author s m : len m < 4294950000 → small (author_reply s m).
Proof. intros. unfold small; cbn. change (sumZ []) with 0.
  rewrite (len_nil (A := gostring)), (len_nil (A := byte)). lia.
Qed.

Lemma small_acct s m : len m < 4294950000 → small (acct_reply s m).
Proof. intros. unfold small; cbn. rewrite len_nil. lia. Qed.

(** The length of a text made of constants and of strings that are bounded in
    the context. *)
Ltac small_text :=
  first [apply small_authen | apply small_author | apply small_acct];
  rewrite ?len_app;
  repeat match goal with
  | |- context [len (str ?s)] =>
    let n := eval vm_compute in (len (str s)) in change (len (str s)) with n
  end;
  unfold fits8, fits16 in *; lia.

Section HandlersSafe.
Context {HH : Hash} {RE : Regexp} {PL : Platform} {DL : Dialer}.
Local Abbreviation M := (SM (response handler writer) unit) (only parsing).

Lemma safe_get_reply (o : option reply) (m : M) :
  (∀ v, o = Some v → small v) → safe m →
  safe (match o with Some v => reply_ v | None => m end).
Proof. intros Hv Hm. destruct o as [v|]; [apply safe_reply_; auto|done]. Qed.

Lemma safe_defer (d m : M) : (∀ r, (d r).1 = Ok tt) → safe d → safe m → safe (defer d m).
Proof.
  intros Hd1 Hd Hm r Hr. unfold defer. destruct (Hm r Hr) as [Ho Hr1].
  destruct (m r) as [o r1]. destruct (Hd r1 Hr1) as [_ Hr2].
  by destruct (d r1) as [o' r2].
Qed.

(** The replies to the flags of an accounting request. *)
Lemma small_acct_flags flags seqNo : small (acct_flags_reply flags seqNo).
Proof. unfold acct_flags_reply. repeat case_match; small_text. Qed.

Lemma safe_bcrypt_finish e p : safe (bcrypt_finish e p : M).
Proof. unfold bcrypt_finish. case_match; apply safe_reply_; small_text. Qed.

Lemma GetPassword_cases q :
  (∃ p, GetPassword q = Ok p) ∨ GetPassword q = Err (Errorf "missing password").
Proof.
  unfold GetPassword. destruct (getAuthenStart q); [left; by eexists|].
  destruct (getAuthenContinue q); [left; by eexists|by right].
Qed.

Lemma safe_bcrypt a q : user_handler_safe (HBcrypt a) → safe (BcryptAuthenticator_Handle a q : M).
Proof.
  intros Hs. unfold BcryptAuthenticator_Handle.
  destruct (GetPassword_cases q) as [[p ->]| ->]; [|apply safe_reply_; small_text].
  destruct (Z.ltb_spec 0 (len (so_hash (ba_options a)))) as [|Hz].
  - destruct (hex_DecodeString _); [apply safe_bcrypt_finish|apply safe_reply_; small_text].
  - destruct Hs as [Hs|(get & -> & Hret)].
    + exfalso. apply Hs. destruct (so_hash (ba_options a)); [done|len_lia].
    + specialize (Hret (ba_username a) (so_group (ba_options a))).
      destruct (get _ _) as [secret|e|]; [apply safe_bcrypt_finish| |done].
      apply safe_bind; [apply safe_reply_; small_text|]. intros _. apply safe_bcrypt_finish.
Qed.

Lemma safe_stringy u q : user_handler_safe (HStringy u) → safe (stringy_Handle u q : M).
Proof.
  intros Hs. unfold stringy_Handle, Unmarshal.
  pose proof (codec_returns (T := AuthorRequest) (Request_Body q)) as Hret.
  destruct (UnmarshalBinary (Request_Body q)) as [body|e|]; [|apply safe_reply_; small_text|done].
  apply safe_bind; [case_decide; [apply safe_reply_; small_text|apply safe_ret]|]. intros _.
  destruct (command_based body).
  - unfold command_Handle. case_match; apply safe_reply_; small_text.
  - unfold session_Handle. specialize (Hs body).
    destruct (session_evaluate body u) as [args status].
    case_match; apply safe_reply_; [|small_text].
    unfold small. change (reply_size _) with (len args + 22 + 0 + sumZ (len <$> args)).
    cbn in Hs. lia.
Qed.

Lemma safe_sink j : safe (sink_Printf j : M).
Proof. by intros r. Qed.

Lemma safe_user_Handle h q : user_handler_safe h → safe (user_Handle h q : M).
Proof.
  intros Hs. destruct h; cbn [user_Handle];
    [apply safe_reply_; small_text..|by apply safe_bcrypt|by apply safe_stringy| |];
    unfold local_Handle, syslog_Handle, Unmarshal;
    pose proof (codec_returns (T := AcctRequest) (Request_Body q)) as Hret;
    (destruct (UnmarshalBinary (Request_Body q)) as [body|e|]; [|apply safe_reply_; small_text|done]);
    (destruct (json_Marshal body); [|apply safe_reply_; small_text]).
  - apply safe_bind; [apply safe_sink|]. intros _. apply safe_reply_, small_acct_flags.
  - apply safe_bind.
    { intros r Hr. unfold syslog_Write. by destruct (env_call (r_env r)). }
    intros [e|]; apply safe_reply_; [small_text|apply small_acct_flags].
Qed.

Lemma safe_Record_request q o : safe (Record_request q o).
Proof. apply safe_record. Qed.

Lemma continueStop_small q v : authenticateContinueStop q = Some v → small v.
Proof.
  unfold authenticateContinueStop. repeat case_match; try done. intros [= <-]. small_text.
Qed.

Lemma safe_askPassword c u : provider_safe c → len u < 4294900000 → safe (askPassword c u).
Proof.
  intros Hc Hu. unfold askPassword. apply safe_bind; [by apply safe_Next|]. intros _.
  apply safe_reply_. unfold small. vm_compute. done.
Qed.

Local Hint Resolve safe_Record_request safe_askPassword safe_user_Handle continueStop_small : safe.

Lemma safe_getUsername c u q : provider_safe c → len u < 4294900000 → safe (getUsername c u q).
Proof.
  intros Hc Hu. unfold getUsername. apply safe_defer; [done|apply safe_Record_request|].
  apply safe_get_reply; [by apply continueStop_small|].
  case_decide; [|by apply safe_askPassword]. unfold Unmarshal.
  pose proof (codec_returns (T := AuthenContinue) (Request_Body q)) as Hret.
  destruct (UnmarshalBinary (Request_Body q)) as [body|e|] eqn:E; [|apply safe_reply_; small_text|done].
  case_match; [apply safe_reply_; small_text|]. apply safe_askPassword; [done|].
  apply (codec_accepted (T := AuthenContinue)) in E as ((Hm & _) & _). unfold fits16 in Hm. lia.
Qed.

Lemma safe_getPassword c u q : provider_safe c → len u < 4294900000 → safe (getPassword c u q).
Proof.
  intros Hc Hu. unfold getPassword. apply safe_defer; [done|apply safe_Record_request|].
  apply safe_get_reply; [by apply continueStop_small|]. unfold Unmarshal.
  pose proof (codec_returns (T := AuthenContinue) (Request_Body q)) as Hret.
  destruct (UnmarshalBinary (Request_Body q)) as [body|e|] eqn:E; [|apply safe_reply_; small_text|done].
  case_match; [apply safe_reply_; small_text|].
  destruct (Provider_GetUser c u) as [a|] eqn:Ea; [|apply safe_reply_; small_text].
  apply safe_user_Handle. by apply (provider_safe_user c u a).
Qed.

Lemma safe_ASCII c u q : provider_safe c → len u < 4294900000 → safe (AuthenticateASCII_Handle c u q).
Proof.
  intros Hc Hu. unfold AuthenticateASCII_Handle.
  destruct (authenticateContinueStop q) as [v|] eqn:Ev.
  - apply safe_bind; [apply safe_Record_request|]. intros _.
    apply safe_reply_. by apply (continueStop_small q).
  - case_decide; [|by apply safe_getUsername].
    apply safe_bind; [apply safe_Record_request|]. intros _.
    apply safe_bind; [by apply safe_Next|]. intros _. apply safe_reply_. small_text.
Qed.

Lemma safe_PAP c q : provider_safe c → safe (AuthenticatePAP_Handle c q).
Proof.
  intros Hc. unfold AuthenticatePAP_Handle. apply safe_bind; [apply safe_Record_request|]. intros _.
  unfold Unmarshal. pose proof (codec_returns (T := AuthenStart) (Request_Body q)) as Hret.
  destruct (UnmarshalBinary (Request_Body q)) as [body|e|] eqn:E; [|apply safe_reply_; small_text|done].
  apply (codec_accepted (T := AuthenStart)) in E as ((Hu & _) & _). unfold fits8 in Hu.
  do 2 (case_match; [apply safe_reply_; small_text|]).
  destruct (Provider_GetUser c _) as [a|] eqn:Ea; [|apply safe_reply_; small_text].
  apply safe_user_Handle. by eapply provider_safe_user.
Qed.

Lemma safe_AuthenticateStart c q :
  request_ok q → provider_safe c → safe (AuthenticateStart_Handle c q).
Proof.
  intros (_ & (_ & Hid & _) & _) Hc. unfold AuthenticateStart_Handle, Unmarshal.
  pose proof (codec_returns (T := AuthenStart) (Request_Body q)) as Hret.
  destruct (UnmarshalBinary (Request_Body q)) as [body|e|] eqn:E; [| |done].
  - apply (codec_accepted (T := AuthenStart)) in E as ((Hu & _) & _). unfold fits8 in Hu.
    assert (len (AuthenStart_User body) < 4294900000) as Hu' by lia.
    cbv zeta. cbn [router_lookup authenRouter].
    repeat case_decide; try (by apply safe_ASCII); try (by apply safe_PAP);
      (apply safe_bind; [apply safe_Record_request|]; intros _; apply safe_reply_; small_text).
  - apply safe_reply_. pose proof (fmt_d_len 10 (Header_SessionID (Request_Header q)) ltac:(lia)). small_text.
Qed.
End HandlersSafe.

Section StartSafe.
Context {HH : Hash} {RE : Regexp} {PL : Platform} {DL : Dialer}.

Lemma safe_Authorize c q : provider_safe c → safe (AuthorizeRequest_Handle c q).
Proof.
  intros Hc. unfold AuthorizeRequest_Handle, Unmarshal.
  pose proof (codec_returns (T := AuthorRequest) (Request_Body q)) as Hret.
  destruct (UnmarshalBinary (Request_Body q)) as [body|e|] eqn:E; [|apply safe_reply_; small_text|done].
  apply (codec_accepted (T := AuthorRequest)) in E as ((Hu & _) & _). unfold fits8 in Hu.
  destruct (Provider_GetUser c _) as [a|] eqn:Ea; [|apply safe_reply_; small_text].
  apply safe_user_Handle. by eapply provider_safe_user.
Qed.

Lemma safe_Accounting c q : provider_safe c → safe (AccountingRequest_Handle c q).
Proof.
  intros Hc. unfold AccountingRequest_Handle, Unmarshal.
  pose proof (codec_returns (T := AcctRequest) (Request_Body q)) as Hret.
  destruct (UnmarshalBinary (Request_Body q)) as [body|e|] eqn:E; [|apply safe_reply_; small_text|done].
  apply (codec_accepted (T := AcctRequest)) in E as ((Hu & _) & _). unfold fits8 in Hu.
  destruct (Provider_GetUser c _) as [a|] eqn:Ea; [|apply safe_reply_; small_text].
  apply safe_user_Handle. by eapply provider_safe_user.
Qed.

Lemma safe_Start c q : request_ok q → provider_safe c → safe (Start_Handle c q).
Proof.
  intros Hq Hc. unfold Start_Handle.
  repeat case_decide; [by apply safe_AuthenticateStart| | |apply safe_ret];
    (apply safe_bind; [apply safe_Record_request|]; intros _);
    [by apply safe_Authorize|by apply safe_Accounting].
Qed.

Lemma safe_Span s q : request_ok q → provider_safe (span_provider s) → safe (Span_Handle s q).
Proof.
  intros Hq Hc. unfold Span_Handle.
  assert (safe (callNextHandler s q)) as Hnext.
  { unfold callNextHandler. apply safe_bind; [apply safe_RegisterWriter|]. intros _. by apply safe_Start. }
  apply safe_bind.
  { intros r Hr. unfold dialHost. by destruct (env_call (r_env r)). }
  intros [e|]; [done|].
  pose proof (Packet_MarshalBinary_returns (Request_Header q) (Request_Body q)) as Hret.
  destruct (Packet_MarshalBinary _) as [p|e|] eqn:Em; [|done|done].
  destruct Hq as (_ & Ht & Hl).
  apply Packet_Unmarshal_Marshal in Em; [|by split].
  apply safe_bind; [|intros _; apply safe_bind; [apply safe_RegisterWriter|done]].
  intros r Hr. unfold writer_Write_.
  match goal with |- context [writer_Write ?mw p ?w] =>
    pose proof (writer_Write_returns mw p _ _ w Em) as Hw; destruct (writer_Write mw p w) as [[]?] end;
    by destruct Hr.
Qed.

Lemma safe_handler h q : request_ok q → handler_safe h → safe (Handle h q).
Proof.
  intros Hq. induction h as [c|c u|c u|n IH|s|h IH|]; cbn [handler_safe]; intros Hs.
  - by apply safe_Start.
  - destruct Hs. by apply safe_getUsername.
  - destruct Hs. by apply safe_getPassword.
  - apply safe_bind; [apply safe_RegisterWriter|]. intros _. by apply IH.
  - by apply safe_Span.
  - by apply IH.
  - done.
Qed.
End StartSafe.
