(* ===== verification/ServerTheorems.v ===== *)
(** The properties of the loop that serves a connection, with the handlers of
    the server program. *)
From S2P Require Import Prelude.
From S2P Require Import GoStrings.
From S2P Require Import Buffer.
From S2P Require Import HeaderFields.
From S2P Require Import AuthenFields.
From S2P Require Import AuthorFields.
From S2P Require Import Header.
From S2P Require Import Codec.
From S2P Require Import Authenticate.
From S2P Require Import Authorize.
From S2P Require Import Accounting.
From S2P Require Import MD5.
From S2P Require Import Proxy.
From S2P Require Import Crypt.
From S2P Require Import Crypter.
From S2P Require Import Sessions.
From S2P Require Import Response.
From S2P Require Import Server.
From S2P Require Import Config.
From S2P Require Import Stringy.
From S2P Require Import AAA.
From S2P Require Import Handlers.
From S2P Require Import HandlerSafety.

Section Safety.
Context {HH : Hash} {RE : Regexp} {PL : Platform} {DL : Dialer}.

(** The handlers of the sessions are safe to call. *)
Definition known_safe (s : sessions handler) : Prop :=
  map_Forall (λ _ sc, ∀ n, sc_Handler sc = Some n → handler_safe n) s.

Lemma serve_packet_safe h ctx s :
  handler_safe h → known_safe (cs_known s) →
  match serve_packet h ctx s with
  | Open s' => known_safe (cs_known s')
  | Closed _ => True
  | Crashed _ => False
  end.
Proof.
  intros Hh Hk.
  destruct (serve_packet_cases h ctx s) as [(c' & e & _ & ->)|(hd & body & c' & Hread & Hp & Hc)];
    [done|].
  cbv zeta in Hc.
  destruct Hc as [(e & known & _ & ->)|(state & st & known & Hg & -> & Hknown & Hc)]; [done|].
  set (req := mkRequest hd body _) in *. set (resp := mkResponse c' None hd [] _ _) in *.
  destruct Hp as (h' & body' & rest & [= <- <-] & _ & Hv & Ht & Hl & _).
  assert (handler_safe (default h state)) as Hst.
  { destruct state as [st|]; [change (handler_safe st)|exact Hh].
    destruct (sessions_get_cases (cs_known s) hd)
      as [[_ [e He]]|[(_ & _ & He)|(sc & _ & Hsc & [[_ He]|[_ [e He]]])]]; rewrite Hg in He; try done.
    injection He as He. by apply (Hk _ _ Hsc). }
  assert (resp_ok resp) as Hr by by split.
  destruct (safe_handler (default h state) req ltac:(done) Hst resp Hr) as [Hret [_ Hnext]].
  destruct Hc as [(r' & He & _)|[_ ->]]; [by rewrite He in Hret|].
  assert (known_safe known) as Hk'.
  { rewrite Hknown. destruct state; [done|]. apply map_Forall_insert_2; [done|]. done. }
  unfold end_turn. cbn [cs_known]. destruct (r_next _) as [n|] eqn:En.
  - unfold sessions_update. destruct (known !! _); [|exact Hk']. apply map_Forall_insert_2; [|done].
    cbn. intros n' [= <-]. by apply Hnext.
  - by apply map_Forall_delete.
Qed.

Lemma reachable_safe h ctx c w s :
  handler_safe h → reachable h ctx c w s →
  match s with Open s => known_safe (cs_known s) | Closed _ => True | Crashed _ => False end.
Proof.
  intros Hh. unfold reachable. revert s. apply rtc_ind_r; [apply map_Forall_empty|].
  intros y z _ Hyz IH. inversion Hyz as [|y' Hy Hz]; subst; [done|]. by apply serve_packet_safe.
Qed.
End Safety.

(** ** The loop *)
Section Loop.
Context {HH : Hash} {RE : Regexp} {PL : Platform} {DL : Dialer}.

(** C20. Serving a connection ends: one turn per byte of the input, and one
    more, are enough for the loop to return, whatever the bytes, the
    handler of new sessions and the results of the external calls. *)
Theorem serve_terminates (h : handler) ctx c w :
  ∃ s, serve (S (length (c_in c))) h ctx (new_conn c w) = Some s ∧ ∀ st, s ≠ Open st.
Proof.
  apply serve_total; [apply sessions_ok_empty|]. unfold len. cbn. lia.
Qed.

(** A panic never ends the server process: if every bcrypt user of the
    configuration has a hash (or a keychain) and no user's arguments exceed
    what a length can hold, no input on a connection makes a turn of the loop
    panic, in any session and whatever the external calls return. *)
Theorem server_never_crashes h ctx c w s :
  handler_safe h → reachable h ctx c w s → ∀ st, s ≠ Crashed st.
Proof. intros Hh Hr st ->. by apply (reachable_safe h ctx c w) in Hr. Qed.

(** C19. Between two packets every session of a connection has a handler and
    is filed under the session id of the last header of its exchange. *)
Theorem sessions_well_formed (h : handler) ctx c w s id sc :
  reachable h ctx c w (Open s) → cs_known s !! id = Some sc →
  Header_SessionID (sc_header sc) = id ∧ is_Some (sc_Handler sc).
Proof. intros Hr Hsc. apply (reachable_sessions_ok h ctx c w s Hr id sc Hsc). Qed.

(** C17. Sessions multiplexed on one connection do not disturb each other: a
    turn changes the entry of the session of its packet at most. *)
Theorem sessions_isolated (h : handler) ctx c w s s' :
  reachable h ctx c w (Open s) → serve_packet h ctx s = Open s' →
  ∃ hd body c', crypter_read (cs_crypter s) = (Ok (mkPacket (Some hd) (Some body)), c') ∧
    ∀ id, id ≠ Header_SessionID hd → cs_known s' !! id = cs_known s !! id.
Proof.
  intros Hr Hs. apply serve_packet_open in Hs as (_ & _ & hd & body & c' & Hread & Hd);
    [|by eapply reachable_sessions_ok].
  exists hd, body, c'. split; [done|]. intros id Hid.
  rewrite <- (lookup_delete_ne (cs_known s') (Header_SessionID hd) id) by done.
  rewrite Hd. by apply lookup_delete_ne.
Qed.

(** C16. A packet with an even sequence number, or one that does not exceed
    the last number of its session, closes the connection: no handler runs
    and nothing is written. *)
Theorem bad_sequence_closes (h : handler) ctx s hd body c' :
  crypter_read (cs_crypter s) = (Ok (mkPacket (Some hd) (Some body)), c') →
  Z.Even (Header_SeqNo hd) ∨
    (∃ sc, cs_known s !! Header_SessionID hd = Some sc ∧
           Header_SeqNo hd <= Header_SeqNo (sc_header sc) mod 256) →
  ∃ known, serve_packet h ctx s = Closed (mkConn c' known (cs_env s)) ∧
    c_out c' = c_out (cs_crypter s).
Proof.
  intros Hread Hbad.
  destruct (serve_packet_cases h ctx s) as [(c1 & e & He & _)|(hd1 & body1 & c1 & Hread1 & Hp & Hc)];
    [congruence|].
  rewrite Hread in Hread1. injection Hread1 as <- <- <-.
  destruct Hp as (h' & b' & rest & [= <- <-] & Hc' & (_ & _ & Hseq & _) & _).
  cbv zeta in Hc. destruct Hc as [(e & known & _ & ->)|(state & st & known & Hg & _)].
  { exists known. by rewrite Hc'. }
  exfalso.
  destruct (sessions_get_cases (cs_known s) hd)
    as [[_ [e He]]|[(Ho & Hn & He)|(sc & Ho & Hsc & [[Hlt He]|[_ [e He]]])]]; try congruence;
    rewrite Z.mod_small in Ho by lia;
    (destruct Hbad as [Heven|(sc' & Hsc' & Hle)];
     [by apply Z.Even_Odd_False in Ho|]).
  - congruence.
  - rewrite Hsc in Hsc'. injection Hsc' as <-.
    rewrite (Z.mod_small (Header_SeqNo hd)) in Hlt by lia. lia.
Qed.
End Loop.

(** ** Witness data: a server with one user, whose password is "cisco", on a
    platform on which a bcrypt hash is the password itself. *)
#[local] Instance w_Hash : Hash := MD5.
#[local] Instance w_Regexp : Regexp := λ pattern s, Some (bool_decide (pattern = s)).
#[local] Instance w_Platform : Platform := {|
  bcrypt_matches hash password := bool_decide (hash = password);
  json_Marshal a := Some (AcctRequest_User a);
|}.
#[local] Instance w_Dialer : Dialer := λ destination, destination.

Definition w_user : User := mkUser (str "cisco") [str "localhost"] [] [] [] None None.
Definition w_bcrypt : BcryptAuthenticator :=
  mkBcrypt (str "cisco") (mkSupportedOptions (str "636973636f") [] (str "cisco")) None.
Definition w_provider : Provider :=
  {[ str "cisco" := NewAAA [SetAAAAuthorizer (HStringy w_user); SetAAAAuthenticator (HBcrypt w_bcrypt);
                            SetAAAAccounter HLocal] ]}.
Definition w_handler : handler := Start_New w_provider.

Definition w_pap : AuthenStart :=
  mkAuthenStart AuthenActionLogin x01 AuthenTypePAP AuthenServiceLogin
    (str "cisco") [] [] (str "cisco").

(** The bytes of a start packet, as a client with the secret sends them. *)
Definition w_packet (minor : byte) (seqNo : Z) (session : Z) (body : list byte) : list byte :=
  concat (c_out (crypter_write (Some (mkPacket
    (Some (mkHeader (mkVersion MajorVersion minor) Authenticate seqNo session x00 0))
    (Some body))) (newCrypter (str "fooman") (OtherAddr [] []) (OtherAddr [] []) [] EOF [] false)).2).

Definition w_pap_bytes : list byte :=
  match AuthenStart_MarshalBinary w_pap with Ok b => b | _ => [] end.

Definition w_server (input : list byte) : crypter :=
  newCrypter (str "fooman") (TCPAddr (Some (str "::1")) 49) (TCPAddr (Some (str "::2")) 5000)
    input EOF [] false.

Lemma w_handler_safe : handler_safe w_handler.
Proof.
  cbn. intros u a Ha. apply lookup_singleton_Some in Ha as [_ <-].
  split_and!; cbn; [by left| |done].
  intros b. unfold session_evaluate. cbn. done.
Qed.

Definition w_state (input : list byte) : conn_state handler :=
  mkConn (w_server input) newSessionProvider (mkEnv [] []).

Lemma server_never_crashes_witness :
  let s := serve_packet w_handler ∅ (w_state (w_packet MinorVersionOne 1 7 w_pap_bytes)) in
  (len (concat (c_out (cs_crypter (conn_st s)))) =? 31) = true ∧ ∀ st, s ≠ Crashed st.
Proof.
  split; [vm_compute; reflexivity|].
  apply (server_never_crashes w_handler ∅ (w_server (w_packet MinorVersionOne 1 7 w_pap_bytes)) (mkEnv [] [])).
  - apply w_handler_safe.
  - eapply rtc_l; [apply step_packet|apply rtc_refl].
Defined.

(** An ASCII login without a user name, which leaves a session behind, and the
    same packet again. *)
Definition w_ascii : AuthenStart :=
  mkAuthenStart AuthenActionLogin x01 AuthenTypeASCII AuthenServiceLogin [] [] [] [].
Definition w_ascii_bytes : list byte :=
  match AuthenStart_MarshalBinary w_ascii with Ok b => b | _ => [] end.
Definition w_ascii_packet : list byte := w_packet MinorVersionDefault 1 7 w_ascii_bytes.

Definition w_state0 : conn_state handler := w_state (w_ascii_packet ++ w_ascii_packet).
Definition w_state1 : conn_state handler := conn_st (serve_packet w_handler ∅ w_state0).

Lemma w_state1_open : serve_packet w_handler ∅ w_state0 = Open w_state1.
Proof. vm_compute. reflexivity. Qed.

Lemma w_state1_reachable :
  reachable w_handler ∅ (w_server (w_ascii_packet ++ w_ascii_packet)) (mkEnv [] []) (Open w_state1).
Proof. rewrite <- w_state1_open. eapply rtc_l; [apply step_packet|apply rtc_refl]. Qed.

Lemma sessions_well_formed_witness :
  ∃ sc, cs_known w_state1 !! 7 = Some sc ∧ Header_SessionID (sc_header sc) = 7 ∧ is_Some (sc_Handler sc).
Proof.
  destruct (cs_known w_state1 !! 7) as [sc|] eqn:E; [|vm_compute in E; discriminate E].
  exists sc. split; [reflexivity|].
  apply (sessions_well_formed w_handler ∅ _ _ w_state1 7 sc w_state1_reachable E).
Defined.

Lemma sessions_isolated_witness :
  ∃ hd body c', crypter_read (cs_crypter w_state0) = (Ok (mkPacket (Some hd) (Some body)), c') ∧
    ∀ id, id ≠ Header_SessionID hd → cs_known w_state1 !! id = cs_known w_state0 !! id.
Proof.
  apply (sessions_isolated w_handler ∅ _ _ w_state0 w_state1 (rtc_refl _ _) w_state1_open).
Defined.

Lemma bad_sequence_closes_witness :
  ∃ s, serve_packet w_handler ∅ w_state1 = Closed s ∧
    c_out (cs_crypter s) = c_out (cs_crypter w_state1).
Proof.
  destruct (crypter_read (cs_crypter w_state1)) as [o c'] eqn:E.
  assert (o = Ok (mkPacket (Some (mkHeader (mkVersion MajorVersion MinorVersionDefault) Authenticate 1 7 x00 8))
                    (Some w_ascii_bytes))) as Ho.
  { change o with (o, c').1. rewrite <- E. vm_compute. reflexivity. }
  rewrite Ho in E.
  destruct (bad_sequence_closes w_handler ∅ w_state1 _ _ c' E) as (known & Hs & Hout).
  - right. destruct (cs_known w_state1 !! 7) as [sc|] eqn:Esc; [|vm_compute in Esc; discriminate Esc].
    exists sc. split; [exact Esc|]. vm_compute in Esc. injection Esc as <-. vm_compute. discriminate.
  - eexists. split; [exact Hs|]. exact Hout.
Defined.
