(* ===== verification/ReplyTheorems.v ===== *)
(** The properties of [response.Reply]: what a client receives, and what
    becomes of the session. *)
From S2P Require Import Prelude.
From S2P Require Import Buffer.
From S2P Require Import HeaderFields.
From S2P Require Import AuthenFields.
From S2P Require Import AuthorFields.
From S2P Require Import Header.
From S2P Require Import Codec.
From S2P Require Import Authenticate.
From S2P Require Import Authorize.
From S2P Require Import Accounting.
From S2P Require Import MD5.
From S2P Require Import Proxy.
From S2P Require Import Crypt.
From S2P Require Import Crypter.
From S2P Require Import Sessions.
From S2P Require Import Response.
From S2P Require Import Config.
From S2P Require Import Stringy.
From S2P Require Import AAA.
From S2P Require Import Handlers.
From S2P Require Import HandlerSafety.
From S2P Require Import ConnTheorems.

(** The packet type a reply belongs to, whether its strings fit their lengths,
    and what its bytes decode to. *)
Definition reply_type (v : reply) : HeaderType :=
  match v with RAuthen _ => Authenticate | RAuthor _ => Authorize | RAcct _ => Accounting end.

Definition reply_fits (v : reply) : Prop :=
  match v with
  | RAuthen r => AuthenReply_fits r
  | RAuthor r => AuthorReply_fits r
  | RAcct r => AcctReply_fits r
  end.

Definition reply_decodes (v : reply) (b : list byte) : Prop :=
  match v with
  | RAuthen r => UnmarshalBinary b = Ok r
  | RAuthor r => UnmarshalBinary b = Ok r
  | RAcct r => UnmarshalBinary b = Ok r
  end.

Lemma reply_MarshalBinary_decodes v b :
  reply_fits v → reply_MarshalBinary v = Ok b → reply_decodes v b.
Proof.
  destruct v as [r|r|r]; cbn; intros Hf Hb;
    rewrite <- (app_nil_r b);
    [exact (codec_roundtrip (T := AuthenReply) r b [] Hf Hb)
    |exact (codec_roundtrip (T := AuthorReply) r b [] Hf Hb)
    |exact (codec_roundtrip (T := AcctReply) r b [] Hf Hb)].
Qed.

Lemma reply_decodes_accepted v b : reply_decodes v b → some_accepted (reply_type v) b.
Proof.
  destruct v as [r|r|r]; cbn; intros Hb; unfold some_accepted.
  - left. split; [done|]. right. right. by exists r.
  - right. left. split; [done|]. right. by exists r.
  - right. right. split; [done|]. right. by exists r.
Qed.

Section Reply.
Context {HH : Hash}.

(** [Reply] with a header that can be encoded: the writers get the packet,
    then the connection. *)
Lemma response_Reply_valid (r : response handler writer) v b :
  reply_MarshalBinary v = Ok b → header_typed (r_header r) →
  header_valid (sized (reply_header (r_header r) v) b) →
  ∃ w, response_Reply v r =
    response_Write (Some (mkPacket (Some (sized (reply_header (r_header r) v) b)) (Some b)))
      (set_env (set_header r (reply_header (r_header r) v)) w).
Proof.
  intros Hb Ht Hv. unfold response_Reply. rewrite Hb.
  set (h := reply_header (r_header r) v) in *.
  pose proof Hv as (_ & _ & _ & Hl). cbn in Hl. unfold MaxBodyLength in Hl. pose proof (len_nonneg b).
  assert (NewPacket [SetPacketHeader h; SetPacketBody b] = mkPacket (Some (sized h b)) (Some b)) as ->.
  { unfold NewPacket, SetPacketHeader, SetPacketBody, sized. cbn. unfold u32.
    by rewrite Z.mod_small by lia. }
  destruct (Header_MarshalBinary_valid _ Hv) as (v0 & _ & Hm).
  assert (∃ p, Packet_MarshalBinary (mkPacket (Some (sized h b)) (Some b)) = Ok p) as [p Hp].
  { unfold Packet_MarshalBinary. cbn [Packet_Header Packet_Body].
    change (Header_Length (sized h b)) with (len b).
    destruct (Z.ltb_spec MaxBodyLength (len b)); [unfold MaxBodyLength in *; lia|].
    rewrite Hm. by eexists. }
  rewrite Hp. apply Packet_Unmarshal_Marshal in Hp.
  - pose proof (write_all_returns (r_writers r) p _ _ (r_env r) Hp) as Hw.
    cbn [set_header r_writers r_env].
    destruct (write_all (r_writers r) p (r_env r)) as [[[]|e|] w]; [by exists w|by exists w|done].
  - destruct Ht as (_ & ? & _). split; [|done]. unfold header_typed. cbn. unfold u16.
    pose proof (Z.mod_pos_bound (reply_seqNo (r_header r) v) 65536 eq_refl). lia.
Qed.

(** [Reply] with a sequence number that has a successor: what it does to the
    response, and what a client with the secret reads. *)
Lemma response_Reply_delivered (r : response handler writer) v b :
  header_valid (r_header r) → header_typed (r_header r) → Header_SeqNo (r_header r) <= 254 →
  Header_Type (r_header r) = reply_type v → reply_fits v →
  reply_MarshalBinary v = Ok b → len b <= MaxBodyLength →
  c_write_errs (r_crypter r) = [] →
  ∃ w e, response_Reply v r =
      (Ok (len w), mkResponse (set_out (r_crypter r) (c_out (r_crypter r) ++ [w]) []) (r_next r)
                     (reply_header (r_header r) v) (r_writers r) (r_ctx r) e) ∧
    ∀ c2 rest, c_secret c2 = c_secret (r_crypter r) → c_proxy c2 = false → c_in c2 = w ++ rest →
      crypter_read c2 =
        (Ok (mkPacket (Some (header_decoded (sized (reply_header (r_header r) v) b))) (Some b)),
         set_in c2 rest).
Proof.
  intros Hv Ht Hs Hty Hfits Hb Hl Herr.
  set (h := reply_header (r_header r) v).
  assert (1 <= reply_seqNo (r_header r) v <= 255) as Hseq.
  { destruct Hv as (_ & _ & ? & _). unfold reply_seqNo. repeat case_match; lia. }
  assert (u16 (reply_seqNo (r_header r) v) = reply_seqNo (r_header r) v) as Hu.
  { unfold u16. apply Z.mod_small. lia. }
  assert (header_valid (sized h b)) as Hv'.
  { destruct Hv as (? & ? & _). split_and!; cbn; rewrite ?Hu; (done || lia). }
  assert (header_typed h) as Ht'.
  { destruct Ht as (_ & ? & _). unfold header_typed. cbn. rewrite Hu. lia. }
  destruct (response_Reply_valid r v b Hb Ht Hv') as [w Hr].
  change (Some (sized h b)) with (Some (sized (sized h b) b)) in Hr. rewrite Hr. fold h.
  destruct (crypter_write_valid (r_crypter r) (sized h b) b Hv') as (hb & Hm & Hw).
  unfold response_Write. cbn [set_env set_header r_crypter].
  change (Some (sized (sized h b) b)) with (Some (sized h b)).
  rewrite Hw. unfold conn_Write. rewrite Herr.
  pose proof (reply_MarshalBinary_decodes v b Hfits Hb) as Hdec.
  eexists _, _. split; [reflexivity|]. intros c2 rest Hsec Hp Hin.
  pose proof (Header_Unmarshal_Marshal _ _ [] (header_valid_sized_typed h b Ht' Hv') Hm) as Hun.
  rewrite app_nil_r in Hun. pose proof (Header_MarshalBinary_ok _ _ Hm) as [_ H12].
  rewrite crypter_read_noproxy by done.
  apply (read_packet_sent c2 h b hb rest Hun).
  - unfold len. by rewrite H12.
  - rewrite Hsec. exact Hin.
  - apply detectBadSecret_not_refused. right. apply some_accepted_not_refused.
    replace (Header_Type (header_decoded (sized h b))) with (reply_type v).
    + by apply reply_decodes_accepted.
    + unfold header_decoded. by destruct (_ =? 2).
Qed.

Lemma reply_header_decoded h v b :
  1 <= reply_seqNo h v <= 255 →
  let h' := header_decoded (sized (reply_header h v) b) in
  Header_SeqNo h' = reply_seqNo h v ∧ Header_SessionID h' = Header_SessionID h ∧
  Header_Type h' = Header_Type h.
Proof.
  intros Hs. cbv zeta. unfold header_decoded.
  assert (u16 (reply_seqNo h v) = reply_seqNo h v) as Hu by (unfold u16; apply Z.mod_small; lia).
  destruct (_ =? 2); (split; [exact Hu|done]).
Qed.

Lemma reply_seqNo_range h v :
  header_valid h → Header_SeqNo h <= 254 → 1 <= reply_seqNo h v <= 255.
Proof. intros (_ & _ & ? & _) ?. unfold reply_seqNo. repeat case_match; lia. Qed.

(** C24. A reply to a request with sequence number at most 254 reaches a
    client that has the secret: one write, which the client reads as a packet
    of the same session and type, with the next sequence number, whose body
    decodes to the reply. *)
Theorem reply_delivered (r : response handler writer) v b c2 rest :
  header_valid (r_header r) → header_typed (r_header r) → Header_SeqNo (r_header r) <= 254 →
  Header_Type (r_header r) = reply_type v → reply_fits v →
  reply_MarshalBinary v = Ok b → len b <= MaxBodyLength →
  c_write_errs (r_crypter r) = [] →
  c_secret c2 = c_secret (r_crypter r) → c_proxy c2 = false →
  ∃ w r', response_Reply v r = (Ok (len w), r') ∧
    c_out (r_crypter r') = c_out (r_crypter r) ++ [w] ∧
    r_next r' = r_next r ∧
    (c_in c2 = w ++ rest →
     ∃ h', crypter_read c2 = (Ok (mkPacket (Some h') (Some b)), set_in c2 rest) ∧
       Header_SeqNo h' = reply_seqNo (r_header r) v ∧
       Header_SessionID h' = Header_SessionID (r_header r) ∧
       Header_Type h' = Header_Type (r_header r) ∧ reply_decodes v b).
Proof.
  intros Hv Ht Hs Hty Hfits Hb Hl Herr Hsec Hp.
  destruct (response_Reply_delivered r v b) as (w & e & Hr & Hread); [done..|].
  exists w. eexists. split; [exact Hr|]. split; [done|]. split; [done|]. intros Hin.
  eexists. split; [by apply Hread|].
  destruct (reply_header_decoded (r_header r) v b) as (? & ? & ?); [by apply reply_seqNo_range|].
  split_and!; [done..|]. by apply reply_MarshalBinary_decodes.
Qed.

(** C37. The reply to a request with sequence number 255 cannot be sent, but
    its header, with number 256, is what the session remembers; its low byte
    is zero, so the session then accepts a packet with number 1 again. *)
Theorem sequence_number_wraps (r : response handler writer) v (known : sessions handler) next hd :
  header_valid (r_header r) → Header_SeqNo (r_header r) = 255 →
  reply_seqNo (r_header r) v ≠ 1 →
  is_Some (known !! Header_SessionID (r_header r)) →
  Header_SessionID hd = Header_SessionID (r_header r) → Header_SeqNo hd = 1 →
  ∀ b, reply_MarshalBinary v = Ok b → len b <= MaxBodyLength →
  ∃ e r', response_Reply v r = (Err e, r') ∧
    c_out (r_crypter r') = c_out (r_crypter r) ∧ Header_SeqNo (r_header r') = 256 ∧
    sessions_get (sessions_update known (r_header r') next) hd =
      (Ok next, sessions_update known (r_header r') next).
Proof.
  intros Hv H255 Hre Hk Hid H1 b Hb Hl. unfold response_Reply. rewrite Hb.
  assert (reply_seqNo (r_header r) v = 256) as Hseq.
  { revert Hre. unfold reply_seqNo. rewrite H255. by repeat case_match. }
  set (h := reply_header (r_header r) v).
  assert (Header_SeqNo h = 256) as Hh by (cbn; by rewrite Hseq).
  assert (¬ header_valid (sized h b)) as Hinv.
  { intros (_ & _ & Hs & _). cbn in Hs. rewrite Hseq in Hs. change (u16 256) with 256 in Hs. lia. }
  pose proof (len_nonneg b). unfold MaxBodyLength in Hl.
  assert (NewPacket [SetPacketHeader h; SetPacketBody b] = mkPacket (Some (sized h b)) (Some b)) as ->.
  { unfold NewPacket, SetPacketHeader, SetPacketBody, sized. cbn. unfold u32.
    by rewrite Z.mod_small by lia. }
  pose proof (Packet_MarshalBinary_returns (sized h b) b) as Hret.
  destruct (Packet_MarshalBinary _) as [p|e|] eqn:Em; [|clear Hret|done].
  { by apply Packet_MarshalBinary_valid in Em. }
  destruct (crypter_write_invalid (r_crypter r) (sized h b) b ltac:(lia) Hinv) as [e' He'].
  unfold response_Write. cbn [set_header r_crypter]. rewrite He'.
  eexists e', _. split; [reflexivity|]. split; [reflexivity|]. split; [done|].
  unfold sessions_update. cbn [set_crypter set_header r_header].
  assert (Header_SessionID h = Header_SessionID (r_header r)) as Hsid by done.
  rewrite Hsid. destruct Hk as [sc ->].
  unfold sessions_get. rewrite H1, Hid, lookup_insert_eq. cbn [sc_header sc_Handler]. by rewrite Hh.
Qed.
End Reply.

(** ** Witnesses *)
Definition y_header (seqNo : Z) : Header :=
  mkHeader (mkVersion MajorVersion MinorVersionOne) Authenticate seqNo 7 x00 0.

Definition y_response (seqNo : Z) : response handler writer :=
  mkResponse (v_conn (str "fooman") false []) None (y_header seqNo) [WResponseLogger] None (mkEnv [] []).

Definition y_reply : reply := authen_reply AuthenStatusPass (str "login success").

Lemma y_header_valid seqNo : 1 <= seqNo <= 255 → header_valid (y_header seqNo).
Proof.
  intros Hs. split_and!; [done|done|cbn; lia|cbn; lia|]. cbn. unfold MaxBodyLength. lia.
Qed.

Lemma reply_delivered_witness :
  ∃ b w, reply_MarshalBinary y_reply = Ok b ∧
    ∃ h', crypter_read (HH := MD5) (v_conn (str "fooman") false w) =
      (Ok (mkPacket (Some h') (Some b)), v_conn (str "fooman") false []) ∧ Header_SeqNo h' = 4.
Proof.
  eexists. 
  assert (∀ b c2, reply_MarshalBinary y_reply = Ok b → len b <= MaxBodyLength →
    c_secret c2 = str "fooman" → c_proxy c2 = false →
    ∃ w, c_out (r_crypter (response_Reply (HH := MD5) y_reply (y_response 3)).2) = [w] ∧
      (c_in c2 = w ++ [] → ∃ h', crypter_read (HH := MD5) c2 = (Ok (mkPacket (Some h') (Some b)), set_in c2 []) ∧
         Header_SeqNo h' = 4)) as Hall.
  { intros b c2 Hb Hl Hs Hp.
    destruct (reply_delivered (HH := MD5) (y_response 3) y_reply b c2 []) as (w & r' & Hr & Hout & _ & Hread).
    - apply y_header_valid. lia.
    - unfold header_typed; cbn; lia.
    - cbn; lia.
    - reflexivity.
    - split; vm_compute; reflexivity.
    - exact Hb.
    - exact Hl.
    - reflexivity.
    - exact Hs.
    - exact Hp.
    - exists w. rewrite Hr. split; [exact Hout|]. intros Hin.
      destruct (Hread Hin) as (h' & Hc & Hsq & _). exists h'. split; [exact Hc|exact Hsq]. }
  destruct (Hall _ (v_conn (str "fooman") false []) ltac:(vm_compute; reflexivity)
    ltac:(vm_compute; discriminate) eq_refl eq_refl) as (w & Hw & _).
  exists w. split; [vm_compute; reflexivity|].
  destruct (Hall _ (v_conn (str "fooman") false w) ltac:(vm_compute; reflexivity)
    ltac:(vm_compute; discriminate) eq_refl eq_refl) as (w' & Hw' & Hread).
  rewrite Hw in Hw'. injection Hw' as <-. apply Hread. by rewrite app_nil_r.
Defined.

Lemma sequence_number_wraps_witness :
  ∃ e r', response_Reply (HH := MD5) y_reply (y_response 255) = (Err e, r') ∧
    c_out (r_crypter r') = [] ∧ Header_SeqNo (r_header r') = 256 ∧
    sessions_get (sessions_update {[ 7 := mkSessionContext (y_header 253) (Some (HStart ∅)) ]} (r_header r')
      (Some (HStart ∅))) (y_header 1) =
      (Ok (Some (HStart ∅)),
       sessions_update {[ 7 := mkSessionContext (y_header 253) (Some (HStart ∅)) ]} (r_header r') (Some (HStart ∅))).
Proof.
  eapply (sequence_number_wraps (HH := MD5) (y_response 255) y_reply
    {[ 7 := mkSessionContext (y_header 253) (Some (HStart ∅)) ]} (Some (HStart ∅)) (y_header 1)).
  - apply y_header_valid. lia.
  - reflexivity.
  - vm_compute. discriminate.
  - eexists. vm_compute. reflexivity.
  - reflexivity.
  - reflexivity.
  - vm_compute. reflexivity.
  - vm_compute. discriminate.
Defined.
