(* ===== verification/HandlerTheorems.v ===== *)
(** The properties of the packet handlers: the login flows, authorization and
    accounting as a client sees them. *)
From S2P Require Import Prelude.
From S2P Require Import GoStrings.
From S2P Require Import Buffer.
From S2P Require Import HeaderFields.
From S2P Require Import AuthenFields.
From S2P Require Import AuthorFields.
From S2P Require Import Args.
From S2P Require Import Header.
From S2P Require Import Codec.
From S2P Require Import Authenticate.
From S2P Require Import Authorize.
From S2P Require Import Accounting.
From S2P Require Import MD5.
From S2P Require Import Proxy.
From S2P Require Import Crypter.
From S2P Require Import Response.
From S2P Require Import Config.
From S2P Require Import Stringy.
From S2P Require Import AAA.
From S2P Require Import Handlers.

(** ** The ASCII login as a state machine

    The abstract specification of the flow: what the server waits for, what a
    packet means to it, and what it does next. *)
Inductive ascii_state :=
| WaitUser
| WaitPassword (username : gostring).

Inductive ascii_input :=
| ClientAbort
| Text (msg : gostring)
| NotContinue.

Inductive ascii_verdict :=
| Answer (v : reply)                       (* the exchange is over *)
| Ask (v : reply) (next : ascii_state)     (* and goes on in that state *)
| Verify (h : user_handler).                (* the user's authenticator decides *)

Definition ascii_classify (q : Request) : ascii_input :=
  match AuthenContinue_UnmarshalBinary (Request_Body q) with
  | Ok body =>
    if AuthenContinueFlag_Has (AuthenContinue_Flags body) AuthenContinueFlagAbort
    then ClientAbort else Text (AuthenContinue_UserMessage body)
  | _ => NotContinue
  end.

Definition ask_password : reply :=
  RAuthen (mkAuthenReply AuthenStatusGetPass AuthenReplyFlagNoEcho (str "password:") []).

Definition ascii_next (c : Provider) (st : ascii_state) (i : ascii_input) : ascii_verdict :=
  match i, st with
  | ClientAbort, _ =>
    Answer (authen_reply AuthenStatusFail (str "ending per client request flag AuthenContinueFlagAbort"))
  | NotContinue, WaitUser =>
    Answer (authen_reply AuthenStatusError (str "expected authenticate continue packet for AuthenStatusGetUser"))
  | NotContinue, WaitPassword _ =>
    Answer (authen_reply AuthenStatusError (str "expected authenticate continue packet for AuthenStatusGetPass"))
  | Text [], WaitUser =>
    Answer (authen_reply AuthenStatusError (str "missing UserMessage, containing the username"))
  | Text [], WaitPassword _ =>
    Answer (authen_reply AuthenStatusError (str "unknown username or password"))
  | Text user, WaitUser => Ask ask_password (WaitPassword user)
  | Text _, WaitPassword user =>
    match c !! user with
    | None => Answer (authen_reply AuthenStatusFail (str "authentication denied [" ++ user ++ str "]"))
    | Some a => Verify (AAA_Authenticate a)
    end
  end.

(** The handler that a state is, and the fields its record hides. *)
Definition ascii_handler (c : Provider) (st : ascii_state) : handler :=
  match st with
  | WaitUser => HResponseLogger (HGetUsername c [])
  | WaitPassword user => HResponseLogger (HGetPassword c user)
  end.

Definition ascii_obscure (st : ascii_state) : list gostring :=
  match st with WaitUser => [] | WaitPassword _ => [str "user-msg"] end.

Section Refinement.
Context {HH : Hash} {RE : Regexp} {PL : Platform} {DL : Dialer}.

(** What a verdict does to the response. *)
Definition perform (c : Provider) (q : Request) (v : ascii_verdict) : SM (response handler writer) unit :=
  match v with
  | Answer v => reply_ v
  | Ask v next => response_Next (Some (ascii_handler c next)) ;; reply_ v
  | Verify h => user_Handle h q
  end.

Lemma unmarshal_continue_returns q : AuthenContinue_UnmarshalBinary q ≠ Panic.
Proof. exact (codec_returns (T := AuthenContinue) q). Qed.

(** The handlers of the flow, in either state. *)
Lemma ascii_handler_eq (c : Provider) st q :
  ∀ r, Handle (ascii_handler c st) q r =
    (response_RegisterWriter WResponseLogger ;;
     defer (Record_request q (ascii_obscure st)) (perform c q (ascii_next c st (ascii_classify q)))) r.
Proof.
  intros r. destruct st as [|user]; cbn [ascii_handler Handle handler_Handler handler_Handle ascii_obscure];
    unfold getUsername, getPassword, authenticateContinueStop, ascii_classify, Unmarshal;
    cbn [UnmarshalBinary AuthenContinue_EncoderDecoder];
    pose proof (unmarshal_continue_returns (Request_Body q)) as Hret;
    destruct (AuthenContinue_UnmarshalBinary (Request_Body q)) as [body|e|]; try done;
    destruct (AuthenContinueFlag_Has _ _); try done;
    (destruct (AuthenContinue_UserMessage body) as [|b msg] eqn:Em; [done|]);
    pose proof (len_nonneg msg); rewrite ?Em, len_cons;
    (destruct (Z.eqb_spec (1 + len msg) 0); [lia|]).
  - done.
  - cbn [ascii_next]. unfold Provider_GetUser. by destruct (c !! user).
Qed.

(** C9. The ASCII login is the state machine [ascii_next]: in either state, a
    continue packet is answered, moves the exchange to the next state, or is
    handed to the user's authenticator as the machine says, after which the
    request is recorded, the password hidden. *)
Theorem ascii_login_refines (c : Provider) st q :
  ∀ r, Handle (ascii_handler c st) q r =
    (response_RegisterWriter WResponseLogger ;;
     defer (Record_request q (ascii_obscure st)) (perform c q (ascii_next c st (ascii_classify q)))) r.
Proof. apply ascii_handler_eq. Qed.
End Refinement.

(** ** Passwords *)

Lemma AuthenStart_first_byte data a :
  AuthenStart_UnmarshalBinary data = Ok a →
  ∃ rest, data = AuthenStart_Action a :: rest ∧
    AuthenStart_Action a ∈ [AuthenActionLogin; AuthenActionPass; AuthenActionSendAuth].
Proof.
  intros (_ & p & Hp & Hd)%AuthenStart_accepted.
  destruct (Hd I) as [rest ->]. apply bind_ok in Hp as ([] & Hv & Hp).
  apply Ok_inj in Hp as <-. eexists. split; [reflexivity|].
  unfold AuthenStart_Validate in Hv. case_decide; [done|].
  apply validate_fields_ok, Forall_cons in Hv as [Hv _]. cbn in Hv.
  by apply require_ok, in_cases_spec in Hv.
Qed.

Lemma AuthenContinue_first_byte data a :
  AuthenContinue_UnmarshalBinary data = Ok a →
  ∃ rest, data = u8 (Z.shiftr (len (AuthenContinue_UserMessage a)) 8) :: rest.
Proof.
  intros (_ & p & Hp & Hd)%AuthenContinue_accepted.
  destruct (Hd I) as [rest ->]. apply bind_ok in Hp as ([] & Hv & Hp).
  apply Ok_inj in Hp as <-. by eexists.
Qed.

(** A continue packet with a user message of less than 256 bytes is not
    mistaken for a start packet: its password is the user message. *)
Lemma continue_not_start data body :
  AuthenContinue_UnmarshalBinary data = Ok body → len (AuthenContinue_UserMessage body) < 256 →
  ∀ a, AuthenStart_UnmarshalBinary data ≠ Ok a.
Proof.
  intros Hb Hl a Ea.
  apply AuthenStart_first_byte in Ea as (rest & Hd & Ha).
  apply AuthenContinue_first_byte in Hb as (rest' & Hd').
  rewrite Hd in Hd'. injection Hd' as Hfirst _.
  assert (Z.shiftr (len (AuthenContinue_UserMessage body)) 8 = 0) as Hz.
  { rewrite Z.shiftr_div_pow2 by lia. change (2 ^ 8) with 256.
    pose proof (len_nonneg (AuthenContinue_UserMessage body)). Z.div_mod_to_equations. lia. }
  rewrite Hz in Hfirst. rewrite Hfirst in Ha. revert Ha. vm_compute. intros Ha.
  repeat (apply elem_of_cons in Ha as [Ha|Ha]; [discriminate|]). by apply elem_of_nil in Ha.
Qed.

Lemma GetPassword_continue q body :
  AuthenContinue_UnmarshalBinary (Request_Body q) = Ok body →
  len (AuthenContinue_UserMessage body) < 256 →
  GetPassword q = Ok (AuthenContinue_UserMessage body).
Proof.
  intros Hb Hl. pose proof (continue_not_start _ _ Hb Hl) as Hno.
  unfold GetPassword, getAuthenStart, getAuthenContinue, Unmarshal.
  cbn [UnmarshalBinary AuthenStart_EncoderDecoder AuthenContinue_EncoderDecoder].
  destruct (AuthenStart_UnmarshalBinary (Request_Body q)) as [a|e|]; [by destruct (Hno a)|by rewrite Hb..].
Qed.

(** Prepares a user whose authenticator is bcrypt with a hash. *)
Definition bcrypt_user (c : Provider) (user : gostring) (hash : list byte) : Prop :=
  ∃ a b, c !! user = Some a ∧ AAA_Authenticate a = HBcrypt b ∧
    so_hash (ba_options b) ≠ [] ∧ hex_DecodeString (so_hash (ba_options b)) = Some hash.

Section Passwords.
Context {HH : Hash} {RE : Regexp} {PL : Platform} {DL : Dialer}.

Definition login_reply (hash password : list byte) : reply :=
  if bcrypt_matches hash password
  then authen_reply AuthenStatusPass (str "login success")
  else authen_reply AuthenStatusFail (str "login failure").

Lemma bcrypt_Handle_password b hash q p :
  so_hash (ba_options b) ≠ [] → hex_DecodeString (so_hash (ba_options b)) = Some hash →
  GetPassword q = Ok p →
  (BcryptAuthenticator_Handle b q : SM (response handler writer) unit) = reply_ (login_reply hash p).
Proof.
  intros Hne Hh Hp. unfold BcryptAuthenticator_Handle, bcrypt_finish, login_reply. rewrite Hp, Hh.
  destruct (Z.ltb_spec 0 (len (so_hash (ba_options b)))); [by case_match|].
  exfalso. apply Hne. destruct (so_hash (ba_options b)); [done|len_lia].
Qed.

(** The password packet of a user with a bcrypt hash: the verdict is that on the
    password [GetPassword] finds in it. *)
Lemma getPassword_verdict c user hash q body password :
  bcrypt_user c user hash →
  AuthenContinue_UnmarshalBinary (Request_Body q) = Ok body →
  AuthenContinueFlag_Has (AuthenContinue_Flags body) AuthenContinueFlagAbort = false →
  AuthenContinue_UserMessage body ≠ [] → GetPassword q = Ok password →
  ∀ r, Handle (HGetPassword c user) q r =
    defer (Record_request q [str "user-msg"]) (reply_ (login_reply hash password)) r.
Proof.
  intros (a & b & Hc & Ha & Hne & Hh) Hb Hf Hm Hp r. cbn [Handle handler_Handler handler_Handle].
  unfold getPassword, authenticateContinueStop, Unmarshal.
  cbn [UnmarshalBinary AuthenContinue_EncoderDecoder]. rewrite Hb, Hf.
  destruct (Z.eqb_spec (len (AuthenContinue_UserMessage body)) 0) as [E|_].
  { destruct (AuthenContinue_UserMessage body) as [|x m]; [done|]. pose proof (len_nonneg m).
    rewrite len_cons in E. lia. }
  unfold Provider_GetUser. rewrite Hc, Ha. cbn [user_Handle].
  by rewrite (bcrypt_Handle_password b hash q _ Hne Hh Hp).
Qed.

Lemma getPassword_checked c user hash q body :
  bcrypt_user c user hash →
  AuthenContinue_UnmarshalBinary (Request_Body q) = Ok body →
  AuthenContinueFlag_Has (AuthenContinue_Flags body) AuthenContinueFlagAbort = false →
  0 < len (AuthenContinue_UserMessage body) < 256 →
  ∀ r, Handle (HGetPassword c user) q r =
    defer (Record_request q [str "user-msg"])
      (reply_ (login_reply hash (AuthenContinue_UserMessage body))) r.
Proof.
  intros Hu Hb Hf [H0 Hl]. apply (getPassword_verdict c user hash q body); [done..| |by apply GetPassword_continue].
  intros E. rewrite E in H0. done.
Qed.

(** In an ASCII login that waits for the password of a user with a bcrypt
    hash, a continue packet with a message of 1 to 255 bytes is answered with
    exactly one reply: success if and only if the message matches the hash. *)
Theorem ascii_password_checked c user hash q body :
  bcrypt_user c user hash →
  AuthenContinue_UnmarshalBinary (Request_Body q) = Ok body →
  AuthenContinueFlag_Has (AuthenContinue_Flags body) AuthenContinueFlagAbort = false →
  0 < len (AuthenContinue_UserMessage body) < 256 →
  ∀ r, Handle (HGetPassword c user) q r =
    defer (Record_request q [str "user-msg"])
      (reply_ (login_reply hash (AuthenContinue_UserMessage body))) r.
Proof. apply getPassword_checked. Qed.

(** The start packet of a PAP login of such a user. *)
Lemma Start_PAP c hash q body :
  AuthenStart_UnmarshalBinary (Request_Body q) = Ok body →
  bcrypt_user c (AuthenStart_User body) hash →
  Header_Type (Request_Header q) = Authenticate →
  Version_MinorVersion (Header_Version (Request_Header q)) = MinorVersionOne →
  AuthenStart_Action body = AuthenActionLogin → AuthenStart_Type body = AuthenTypePAP →
  AuthenStart_User body ≠ [] → AuthenStart_Data body ≠ [] →
  ∀ r, Handle (Start_New c) q r =
    (response_RegisterWriter WResponseLogger ;; Record_request q [str "data"] ;;
     reply_ (login_reply hash (AuthenStart_Data body))) r.
Proof.
  intros Hb (a & b & Hc & Ha & Hne & Hh) Hty Hmin Hact Hpap Hu Hd r.
  cbn [Handle handler_Handler handler_Handle Start_New].
  unfold Start_Handle. rewrite Hty, decide_True by done.
  unfold AuthenticateStart_Handle, Unmarshal.
  cbn [UnmarshalBinary AuthenStart_EncoderDecoder]. rewrite Hb. cbv zeta. rewrite Hmin, Hact, Hpap.
  replace (router_lookup _ _) with (Some (AuthenticatePAP_Handle c)) by reflexivity.
  unfold AuthenticatePAP_Handle, Unmarshal.
  cbn [UnmarshalBinary AuthenStart_EncoderDecoder]. rewrite Hb.
  assert (∀ s : gostring, s ≠ [] → (len s =? 0) = false) as Hlen.
  { intros [|x s] Hs; [done|]. rewrite len_cons. pose proof (len_nonneg s). apply Z.eqb_neq. lia. }
  rewrite !Hlen by done. unfold Provider_GetUser. rewrite Hc, Ha. cbn [user_Handle].
  rewrite (bcrypt_Handle_password b hash q (AuthenStart_Data body) Hne Hh); [done|].
  unfold GetPassword, getAuthenStart, Unmarshal. cbn [UnmarshalBinary AuthenStart_EncoderDecoder].
  by rewrite Hb.
Qed.

(** A PAP login is answered with exactly one reply, from the start packet
    alone: success if and only if its data matches the hash of its user. The
    record of the packet hides the data. *)
Theorem pap_login c hash q body :
  AuthenStart_UnmarshalBinary (Request_Body q) = Ok body →
  bcrypt_user c (AuthenStart_User body) hash →
  Header_Type (Request_Header q) = Authenticate →
  Version_MinorVersion (Header_Version (Request_Header q)) = MinorVersionOne →
  AuthenStart_Action body = AuthenActionLogin → AuthenStart_Type body = AuthenTypePAP →
  AuthenStart_User body ≠ [] → AuthenStart_Data body ≠ [] →
  ∀ r, Handle (Start_New c) q r =
    (response_RegisterWriter WResponseLogger ;; Record_request q [str "data"] ;;
     reply_ (login_reply hash (AuthenStart_Data body))) r.
Proof. apply Start_PAP. Qed.

(** The hash of a bcrypt user is optional by its options' rules, but the
    authenticator that is then built has nothing to get a secret from: it
    panics on every packet that carries a password. *)
Theorem bcrypt_without_hash_panics a username o :
  username ≠ [] → option_get o (str "hash") = [] →
  ∃ b, BcryptAuthenticator_New a username o = Ok b ∧
    ∀ q p (r : response handler writer), GetPassword q = Ok p →
      BcryptAuthenticator_Handle b q r = (Panic, r).
Proof.
  intros Hu Ho. eexists. split.
  - unfold BcryptAuthenticator_New, supportedOptions_validate. rewrite bool_decide_eq_false_2; [done|].
    unfold newSupportedOptions. cbn. by case_decide as Hk; intros [_ ?].
  - intros q p r Hp. unfold BcryptAuthenticator_Handle. rewrite Hp.
    unfold newSupportedOptions. cbn [so_hash ba_options]. by rewrite Ho.
Qed.

(** A start packet without a user, a port and an address, in the message of a
    continue packet: the two lengths of the continue packet are the four bytes
    before it. *)
Lemma start_in_continue p msg data act priv ty sv password tail :
  AuthenContinue_UnmarshalBinary p = Ok (mkAuthenContinue x00 msg data) →
  AuthenStart_Validate (mkAuthenStart act priv ty sv [] [] [] password) = Ok tt →
  len password < 256 → msg = [x00; x00; u8 (len password)] ++ password ++ tail →
  len msg = 256 * b2z act + b2z priv → len data = 256 * b2z ty + b2z sv →
  AuthenStart_UnmarshalBinary p = Ok (mkAuthenStart act priv ty sv [] [] [] password).
Proof.
  intros Hc Hv Hl Hmsg Hlm Hld. apply AuthenContinue_accepted in Hc as (_ & q & Hq & Hp).
  destruct (Hp I) as [rest ->]. apply bind_ok in Hq as ([] & _ & Hq). apply Ok_inj in Hq as <-.
  assert (∀ a b, u8 (Z.shiftr (256 * b2z a + b2z b) 8) = a ∧ u8 (256 * b2z a + b2z b) = b) as Hu16.
  { intros a b. pose proof (b2z_range a). pose proof (b2z_range b). split; apply b2z_inj; rewrite b2z_u8.
    - rewrite Z.shiftr_div_pow2 by lia. change (2 ^ 8) with 256.
      rewrite (Z.mul_comm 256), Z.div_add_l, (Z.div_small (b2z b)) by lia. rewrite Z.add_0_r. by apply Z.mod_small.
    - rewrite (Z.mul_comm 256), Z.add_comm, Z.mod_add by lia. by apply Z.mod_small. }
  cbn [AuthenContinue_UserMessage AuthenContinue_Data AuthenContinue_Flags].
  unfold AuthenUserMessage_Len, AuthenData_Len, appendUint16. rewrite Hlm, Hld.
  rewrite (proj1 (Hu16 act priv)), (proj2 (Hu16 act priv)), (proj1 (Hu16 ty sv)), (proj2 (Hu16 ty sv)), Hmsg.
  rewrite <- (AuthenStart_roundtrip_gen (mkAuthenStart act priv ty sv [] [] [] password)
    ([act; priv; ty; sv; x00; x00; x00; u8 (len password)] ++ password) (tail ++ data ++ rest)).
  - f_equal. cbn [app]. by rewrite <- !app_assoc.
  - by repeat split.
  - unfold AuthenStart_MarshalBinary. rewrite Hv. reflexivity.
Qed.

(** C38. In an ASCII login that waits for the password of a user with a bcrypt
    hash, the verdict on a continue packet is that on its message, unless the body
    decodes as a start packet, too; then it is that on the data of this start
    packet, whatever the message is. No body with a message of less than 256 bytes
    decodes so. A message that begins with two zero bytes, the length of some
    password and the password is checked as this password, if the two bytes of
    its length and the two of the length of the data are the action, the level, the
    type and the service of a valid start packet. *)
Theorem long_password_misread c user hash q msg data :
  bcrypt_user c user hash → msg ≠ [] →
  AuthenContinue_UnmarshalBinary (Request_Body q) = Ok (mkAuthenContinue x00 msg data) →
  let verdict_on p := ∀ r, Handle (HGetPassword c user) q r =
    defer (Record_request q [str "user-msg"]) (reply_ (login_reply hash p)) r in
  ((∀ a, AuthenStart_UnmarshalBinary (Request_Body q) ≠ Ok a) → verdict_on msg) ∧
  (∀ a, AuthenStart_UnmarshalBinary (Request_Body q) = Ok a → verdict_on (AuthenStart_Data a)) ∧
  (len msg < 256 → ∀ a, AuthenStart_UnmarshalBinary (Request_Body q) ≠ Ok a) ∧
  (∀ act priv ty sv password tail,
    AuthenStart_Validate (mkAuthenStart act priv ty sv [] [] [] password) = Ok tt → len password < 256 →
    msg = [x00; x00; u8 (len password)] ++ password ++ tail →
    len msg = 256 * b2z act + b2z priv → len data = 256 * b2z ty + b2z sv →
    verdict_on password).
Proof.
  intros Hu Hm Hc verdict_on.
  assert (∀ p, GetPassword q = Ok p → verdict_on p) as Hv.
  { intros p Hp r. by apply (getPassword_verdict c user hash q (mkAuthenContinue x00 msg data)). }
  assert (∀ a, AuthenStart_UnmarshalBinary (Request_Body q) = Ok a → verdict_on (AuthenStart_Data a)) as Hs.
  { intros a Ha. apply Hv. unfold GetPassword, getAuthenStart, Unmarshal.
    cbn [UnmarshalBinary AuthenStart_EncoderDecoder]. by rewrite Ha. }
  split_and!; [|done|..].
  - intros Hno. apply Hv. unfold GetPassword, getAuthenStart, getAuthenContinue, Unmarshal.
    cbn [UnmarshalBinary AuthenStart_EncoderDecoder AuthenContinue_EncoderDecoder].
    destruct (AuthenStart_UnmarshalBinary (Request_Body q)) as [a|e|]; [by destruct (Hno a)|by rewrite Hc..].
  - intros Hl. by apply (continue_not_start _ _ Hc).
  - intros act priv ty sv password tail Hval Hl Hmsg Hlm Hld.
    change (verdict_on (AuthenStart_Data (mkAuthenStart act priv ty sv [] [] [] password))).
    by apply Hs, (start_in_continue _ msg data _ _ _ _ _ tail).
Qed.
End Passwords.

(** A request whose body is not looked into by the server before the handler. *)
Definition x_request (minor : byte) (t : HeaderType) (seqNo : Z) (body : list byte) : Request :=
  mkRequest (mkHeader (mkVersion MajorVersion minor) t seqNo 7 x00 (len body)) body (Some ∅).

Section Denials.
Context {HH : Hash} {RE : Regexp} {PL : Platform} {DL : Dialer}.

(** Users the configuration does not know are refused: a PAP login and an
    authorization request with a failure, an accounting request with an
    error, each with exactly one reply. *)
Theorem unknown_user_refused c q :
  (∀ body, AuthenStart_UnmarshalBinary (Request_Body q) = Ok body →
     Header_Type (Request_Header q) = Authenticate →
     Version_MinorVersion (Header_Version (Request_Header q)) = MinorVersionOne →
     AuthenStart_Action body = AuthenActionLogin → AuthenStart_Type body = AuthenTypePAP →
     AuthenStart_User body ≠ [] → AuthenStart_Data body ≠ [] → c !! AuthenStart_User body = None →
     ∀ r, Handle (HStart c) q r =
       (Record_request q [str "data"] ;;
        reply_ (authen_reply AuthenStatusFail
                  (str "authentication denied [" ++ AuthenStart_User body ++ str "]"))) r) ∧
  (∀ body, AuthorRequest_UnmarshalBinary (Request_Body q) = Ok body →
     Header_Type (Request_Header q) = Authorize → c !! AuthorRequest_User body = None →
     ∀ r, Handle (HStart c) q r =
       (Record_request q [] ;;
        reply_ (author_reply AuthorStatusFail
                  (str "authorization denied for user [" ++ AuthorRequest_User body ++ str "]"))) r) ∧
  (∀ body, AcctRequest_UnmarshalBinary (Request_Body q) = Ok body →
     Header_Type (Request_Header q) = Accounting → c !! AcctRequest_User body = None →
     ∀ r, Handle (HStart c) q r =
       (Record_request q [] ;;
        reply_ (acct_reply AcctReplyStatusError
                  (str "failed to lookup user [" ++ AcctRequest_User body ++ str "] for accounting login"))) r).
Proof.
  split; [|split]; intros body Hb Hty.
  - intros Hmin Hact Hpap Hu Hd Hc r. cbn [Handle handler_Handler handler_Handle].
    unfold Start_Handle. rewrite Hty, decide_True by done.
    unfold AuthenticateStart_Handle, Unmarshal.
    cbn [UnmarshalBinary AuthenStart_EncoderDecoder]. rewrite Hb. cbv zeta. rewrite Hmin, Hact, Hpap.
    replace (router_lookup _ _) with (Some (AuthenticatePAP_Handle c)) by reflexivity.
    unfold AuthenticatePAP_Handle, Unmarshal.
    cbn [UnmarshalBinary AuthenStart_EncoderDecoder]. rewrite Hb.
    assert (∀ s : gostring, s ≠ [] → (len s =? 0) = false) as Hlen.
    { intros [|x s] Hs; [done|]. rewrite len_cons. pose proof (len_nonneg s). apply Z.eqb_neq. lia. }
    rewrite !Hlen by done. unfold Provider_GetUser. by rewrite Hc.
  - intros Hc r. cbn [Handle handler_Handler handler_Handle].
    unfold Start_Handle. rewrite Hty, decide_False, decide_True by done.
    unfold AuthorizeRequest_Handle, Unmarshal.
    cbn [UnmarshalBinary AuthorRequest_EncoderDecoder]. rewrite Hb.
    unfold Provider_GetUser. by rewrite Hc.
  - intros Hc r. cbn [Handle handler_Handler handler_Handle].
    unfold Start_Handle. rewrite Hty, !decide_False, decide_True by done.
    unfold AccountingRequest_Handle, Unmarshal.
    cbn [UnmarshalBinary AcctRequest_EncoderDecoder]. rewrite Hb.
    unfold Provider_GetUser. by rewrite Hc.
Qed.

Lemma router_lookup_spec c user action t minor :
  t ≠ x00 →
  router_lookup (authenRouter c user) (mkAction action t x00 minor) =
  if decide (action = AuthenActionLogin ∧ t = AuthenTypeASCII ∧ minor = MinorVersionDefault)
  then Some (AuthenticateASCII_Handle c user)
  else if decide (action = AuthenActionLogin ∧ t = AuthenTypePAP ∧ minor = MinorVersionOne)
  then Some (AuthenticatePAP_Handle c) else None.
Proof.
  intros Ht. destruct (decide (action = _ ∧ _)) as [(-> & -> & ->)|H1]; [reflexivity|].
  destruct (decide (action = _ ∧ _)) as [(-> & -> & ->)|H2]; [reflexivity|].
  cbn [router_lookup authenRouter].
  repeat (destruct (decide _) as [E|_];
          [first [reflexivity | exfalso; injection E; intros; subst; auto]|]).
  reflexivity.
Qed.

(** The router knows the two login flows only: an ASCII login of the
    default minor version and a PAP login of minor version one. Every other
    start packet, an enable request among them, has no handler and is
    answered with an error. *)
Theorem router_flows c q body :
  AuthenStart_UnmarshalBinary (Request_Body q) = Ok body →
  Header_Type (Request_Header q) = Authenticate →
  let minor := Version_MinorVersion (Header_Version (Request_Header q)) in
  ∀ r, Handle (HStart c) q r =
    (if decide (AuthenStart_Action body = AuthenActionLogin ∧ AuthenStart_Type body = AuthenTypeASCII ∧
                minor = MinorVersionDefault)
     then AuthenticateASCII_Handle c (AuthenStart_User body) q
     else if decide (AuthenStart_Action body = AuthenActionLogin ∧ AuthenStart_Type body = AuthenTypePAP ∧
                     minor = MinorVersionOne)
     then AuthenticatePAP_Handle c q
     else Record_request q [str "user-msg"] ;;
          reply_ (authen_reply AuthenStatusError (str "unknown authenticate start packet type"))) r.
Proof.
  intros Hb Hty minor r. cbn [Handle handler_Handler handler_Handle].
  unfold Start_Handle. rewrite Hty, decide_True by done.
  unfold AuthenticateStart_Handle, Unmarshal.
  cbn [UnmarshalBinary AuthenStart_EncoderDecoder]. rewrite Hb. cbv zeta. fold minor.
  assert (AuthenStart_Type body ≠ x00) as Hne.
  { apply AuthenStart_accepted in Hb as (_ & p & Hp & _). apply bind_ok in Hp as ([] & Hv & _).
    unfold AuthenStart_Validate in Hv. by case_decide. }
  rewrite router_lookup_spec by done. by repeat case_decide.
Qed.
End Denials.

(** ** The log *)

(** Records that differ in the field [k] at most. *)
Definition agree_but (k : gostring) (m m' : fields) : Prop := ∀ i, i ≠ k → m !! i = m' !! i.

Lemma agree_but_insert k i v m m' : agree_but k m m' → agree_but k (<[i := v]> m) (<[i := v]> m').
Proof. intros Hm j Hj. destruct (decide (j = i)) as [->|]; simplify_map_eq; auto. Qed.

Lemma agree_but_insert_self k v v' m m' : agree_but k m m' → agree_but k (<[k := v]> m) (<[k := v']> m').
Proof. intros Hm j Hj. by simplify_map_eq; auto. Qed.

Lemma agree_but_refl k m : agree_but k m m.
Proof. by intros i. Qed.

Lemma agree_but_union k m m' n : agree_but k m m' → agree_but k (m ∪ n) (m' ∪ n).
Proof. intros Hm i Hi. by rewrite !lookup_union, Hm. Qed.

(** The length a header announces is printed, and the rest of the record does not
    depend on it. *)
Definition printed_length (n : Z) : fields → fields := <[str "header-length" := fmt_d n]>.

(** The part of the record that is made of the header and the context. *)
Definition header_fields (h : Header) (ctx : option fields) (keys : list gostring) : fields :=
  match ctx with
  | None => Header_Fields h
  | Some ctx => foldl (λ m key, match ctx !! key with Some v => <[key := v]> m | None => m end)
                      (Header_Fields h) keys
  end.

Lemma Header_Fields_length h n : Header_Fields (set_Length h n) = printed_length n (Header_Fields h).
Proof.
  unfold printed_length, Header_Fields. cbn [list_to_map foldr uncurry fst snd set_Length
    Header_Version Header_Type Header_SeqNo Header_SessionID Header_Flags Header_Length].
  do 5 (rewrite (insert_insert_ne _ (str "header-length")) by done; f_equal).
Qed.

Lemma header_fields_length h n ctx :
  header_fields (set_Length h n) ctx [ContextConnRemoteAddr] =
  printed_length n (header_fields h ctx [ContextConnRemoteAddr]).
Proof.
  unfold header_fields. rewrite Header_Fields_length. destruct ctx as [ctx|]; [|done]. cbn [foldl].
  destruct (ctx !! ContextConnRemoteAddr) as [v|]; [|done]. unfold printed_length. by apply insert_insert_ne.
Qed.

(** What is printed of the start and the continue packets of a login. *)
Lemma Request_Fields_start h ctx keys p body :
  Header_Type h = Authenticate → AuthenStart_UnmarshalBinary p = Ok body →
  Request_Fields (mkRequest h p ctx) keys = Some (AuthenStart_Fields body ∪ header_fields h ctx keys).
Proof.
  intros Hty Hb. unfold Request_Fields. cbn [Request_Header Request_Body Request_Context]. cbv zeta.
  rewrite decide_True by done. unfold merge_fields at 1, Unmarshal at 1.
  cbn [UnmarshalBinary AuthenStart_EncoderDecoder]. by rewrite Hb.
Qed.

Lemma Request_Fields_continue h ctx keys p body :
  Header_Type h = Authenticate → AuthenContinue_UnmarshalBinary p = Ok body →
  (∀ a, AuthenStart_UnmarshalBinary p ≠ Ok a) →
  Request_Fields (mkRequest h p ctx) keys = Some (AuthenContinue_Fields body ∪ header_fields h ctx keys).
Proof.
  intros Hty Hb Hno. unfold Request_Fields. cbn [Request_Header Request_Body Request_Context]. cbv zeta.
  rewrite decide_True by done. unfold merge_fields at 1, Unmarshal at 1.
  cbn [UnmarshalBinary AuthenStart_EncoderDecoder].
  destruct (AuthenStart_UnmarshalBinary p) as [a| |]; [by destruct (Hno a)|..];
    unfold merge_fields at 1, Unmarshal at 1; cbn [UnmarshalBinary AuthenContinue_EncoderDecoder];
    by rewrite Hb.
Qed.

(** The record of a packet of a connection, whose header announces the length of
    the body, with a field obscured. *)
Definition printed (h : Header) (ctx : option fields) (p : list byte) (k : gostring) : option fields :=
  defaultLogger_Record (Request_Fields (mkRequest (set_Length h (len p)) p ctx) [ContextConnRemoteAddr]) [k].

Lemma defaultLogger_Record_obscured (n : Z) (k : gostring) (m : fields) :
  is_Some (m !! k) → k ≠ str "header-length" →
  defaultLogger_Record (Some (printed_length n m)) [k] = Some (printed_length n (<[k := obscured]> m)).
Proof.
  intros [v Hv] Hk. unfold defaultLogger_Record, printed_length. cbn.
  rewrite lookup_insert_ne, Hv by done. by rewrite insert_insert_ne.
Qed.

Lemma union_printed_length (n : Z) (F m : fields) :
  F !! str "header-length" = None → F ∪ printed_length n m = printed_length n (F ∪ m).
Proof. intros Hl. unfold printed_length. by rewrite insert_union_r. Qed.

(** Two packets whose fields agree but for an obscured one. *)
Lemma printed_agree (h : Header) (ctx : option fields) (p p' k : gostring) (F F' : fields) :
  (∀ h, Header_Type h = Authenticate →
    Request_Fields (mkRequest h p ctx) [ContextConnRemoteAddr] = Some (F ∪ header_fields h ctx [ContextConnRemoteAddr])) →
  (∀ h, Header_Type h = Authenticate →
    Request_Fields (mkRequest h p' ctx) [ContextConnRemoteAddr] = Some (F' ∪ header_fields h ctx [ContextConnRemoteAddr])) →
  Header_Type h = Authenticate → agree_but k F F' → is_Some (F !! k) → is_Some (F' !! k) →
  F !! str "header-length" = None → k ≠ str "header-length" →
  printed h ctx p' k = printed_length (len p') <$> printed h ctx p k.
Proof.
  intros HF HF' Hty Hag Hk Hk' Hl Hne. unfold printed. rewrite HF, HF' by done.
  rewrite !header_fields_length, !union_printed_length by (try done; by rewrite <- Hag).
  rewrite !(defaultLogger_Record_obscured _ k) by (by rewrite ?lookup_union_l'; auto).
  cbn [fmap option_fmap option_map]. unfold printed_length. rewrite insert_insert_eq. do 2 f_equal.
  apply map_eq. intros i. destruct (decide (i = k)) as [->|Hi]; [by rewrite !lookup_insert_eq|].
  rewrite !lookup_insert_ne by done. symmetry. by apply (agree_but_union k F F').
Qed.


(** ** Accounting *)
Section AccountingTheorems.
Context {HH : Hash} {RE : Regexp} {PL : Platform} {DL : Dialer}.

Definition acct_accepted (flags : AcctRequestFlag) (seqNo : SequenceNumber) : Prop :=
  flags = AcctFlagStart ∨ flags = AcctFlagStop ∨ (flags = AcctFlagWatchdog ∧ seqNo = 1) ∨
  (flags = AcctFlagWatchdogWithUpdate ∧ 3 <= seqNo).

Lemma acct_flags_reply_spec flags seqNo :
  ∃ v, acct_flags_reply flags seqNo = RAcct v ∧
    (AcctReply_Status v = AcctReplyStatusSuccess ∧ acct_accepted flags seqNo ∨
     AcctReply_Status v = AcctReplyStatusError ∧ ¬ acct_accepted flags seqNo).
Proof.
  unfold acct_flags_reply, acct_accepted.
  destruct (decide (flags = AcctFlagStart)) as [->|N1]; [by eexists; split; auto|].
  destruct (decide (flags = AcctFlagStop)) as [->|N2]; [by eexists; split; auto|].
  destruct (decide (flags = AcctFlagWatchdog)) as [->|N3].
  { destruct (Z.eqb_spec seqNo 1); cbn [negb]; eexists; (split; [reflexivity|]); cbn.
    - left. split; [reflexivity|]. tauto.
    - right. split; [done|]. intros [?|[?|[[_ ?]|[? _]]]]; done. }
  destruct (decide (flags = AcctFlagWatchdogWithUpdate)) as [->|N4].
  { destruct (Z.ltb_spec seqNo 3); eexists; (split; [reflexivity|]); cbn.
    - right. split; [done|]. intros [?|[?|[[? _]|[_ ?]]]]; try done. lia.
    - left. split; [reflexivity|]. tauto. }
  eexists; split; [reflexivity|]. right. split; [done|]. tauto.
Qed.

(** What the handler does with an accounting request: the log, then the reply. *)
Lemma local_accounting c q body a j :
  AcctRequest_UnmarshalBinary (Request_Body q) = Ok body →
  Header_Type (Request_Header q) = Accounting →
  c !! AcctRequest_User body = Some a → AAA_Accounting a = HLocal → json_Marshal body = Some j →
  ∀ r, Handle (HStart c) q r =
    (Record_request q [] ;; sink_Printf j ;;
     reply_ (acct_flags_reply (AcctRequest_Flags body) (Header_SeqNo (Request_Header q)))) r.
Proof.
  intros Hb Hty Hc Ha Hj r. cbn [Handle handler_Handler handler_Handle].
  unfold Start_Handle. rewrite Hty, !decide_False, decide_True by done.
  unfold AccountingRequest_Handle, Unmarshal.
  cbn [UnmarshalBinary AcctRequest_EncoderDecoder]. rewrite Hb.
  unfold Provider_GetUser. rewrite Hc, Ha. cbn [user_Handle].
  unfold local_Handle, Unmarshal. cbn [UnmarshalBinary AcctRequest_EncoderDecoder].
  by rewrite Hb, Hj.
Qed.

(** An accounting request of a user with the local accounter is written
    to the accounting log before it is answered; the one reply is a success
    exactly for a start, a stop, a watchdog with sequence number 1 and a
    watchdog update with sequence number 3 or more, and else an error. *)
Theorem accounting_logged c q body a j :
  AcctRequest_UnmarshalBinary (Request_Body q) = Ok body →
  Header_Type (Request_Header q) = Accounting →
  c !! AcctRequest_User body = Some a → AAA_Accounting a = HLocal → json_Marshal body = Some j →
  ∃ v, (∀ r, Handle (HStart c) q r =
          (Record_request q [] ;; sink_Printf j ;; reply_ (RAcct v)) r) ∧
    (AcctReply_Status v = AcctReplyStatusSuccess ∧
       acct_accepted (AcctRequest_Flags body) (Header_SeqNo (Request_Header q)) ∨
     AcctReply_Status v = AcctReplyStatusError ∧
       ¬ acct_accepted (AcctRequest_Flags body) (Header_SeqNo (Request_Header q))).
Proof.
  intros Hb Hty Hc Ha Hj.
  destruct (acct_flags_reply_spec (AcctRequest_Flags body) (Header_SeqNo (Request_Header q)))
    as (v & Ev & Hv).
  exists v. split; [|exact Hv]. intros r. rewrite <- Ev. by apply (local_accounting c q body a j).
Qed.
End AccountingTheorems.

(** ** Witness data: one user, whose password is "cisco", on a platform on
    which a bcrypt hash is the password itself. *)
Section Witness.
Local Instance x_Hash : Hash := MD5.
Local Instance x_Regexp : Regexp := λ pattern s, Some (bool_decide (pattern = s)).
Local Instance x_Platform : Platform := {|
  bcrypt_matches hash password := bool_decide (hash = password);
  json_Marshal a := Some (AcctRequest_User a);
|}.
Local Instance x_Dialer : Dialer := λ destination, destination.

Definition x_bcrypt : BcryptAuthenticator :=
  mkBcrypt (str "cisco") (mkSupportedOptions (str "636973636f") [] (str "cisco")) None.
Definition x_aaa : AAA := NewAAA [SetAAAAuthenticator (HBcrypt x_bcrypt); SetAAAAccounter HLocal].
Definition x_provider : Provider := {[ str "cisco" := x_aaa ]}.

Definition x_response : response handler writer :=
  mkResponse (newCrypter (str "fooman") (OtherAddr [] []) (OtherAddr [] []) [] EOF [] false) None
    (Request_Header (x_request MinorVersionDefault Authenticate 1 [])) [] (Some ∅) (mkEnv [] []).

Lemma x_bcrypt_user : bcrypt_user x_provider (str "cisco") (str "cisco").
Proof. exists x_aaa, x_bcrypt. split_and!; [reflexivity|reflexivity|discriminate|reflexivity]. Qed.

Lemma x_success :
  login_reply (str "cisco") (str "cisco") = authen_reply AuthenStatusPass (str "login success").
Proof. vm_compute. reflexivity. Qed.
Lemma x_failure :
  login_reply (str "cisco") (str "guess") = authen_reply AuthenStatusFail (str "login failure").
Proof. vm_compute. reflexivity. Qed.

Definition x_continue : AuthenContinue := mkAuthenContinue x00 (str "cisco") [].
Definition x_continue_bytes : list byte :=
  match AuthenContinue_MarshalBinary x_continue with Ok b => b | _ => [] end.

Lemma ascii_password_checked_witness :
  Handle (HGetPassword x_provider (str "cisco"))
    (x_request MinorVersionDefault Authenticate 3 x_continue_bytes) x_response =
    defer (Record_request (x_request MinorVersionDefault Authenticate 3 x_continue_bytes) [str "user-msg"])
      (reply_ (authen_reply AuthenStatusPass (str "login success"))) x_response.
Proof.
  rewrite <- x_success.
  apply (ascii_password_checked x_provider (str "cisco") (str "cisco")
           (x_request MinorVersionDefault Authenticate 3 x_continue_bytes) x_continue x_bcrypt_user);
    [vm_compute; reflexivity|reflexivity|split; reflexivity].
Defined.

(** A message of 257 bytes that is not the password, and passes for it. *)
Definition x_confusing_msg : gostring := [x00; x00; x05] ++ str "cisco" ++ replicate 249 x61.
Definition x_confusing_data : gostring := replicate 257 x62.
Definition x_confusing_bytes : list byte :=
  match AuthenContinue_MarshalBinary (mkAuthenContinue x00 x_confusing_msg x_confusing_data) with
  | Ok b => b
  | _ => []
  end.

Lemma long_password_misread_witness :
  len x_confusing_msg = 257 ∧
  Handle (HGetPassword x_provider (str "cisco"))
    (x_request MinorVersionDefault Authenticate 5 x_confusing_bytes) x_response =
    defer (Record_request (x_request MinorVersionDefault Authenticate 5 x_confusing_bytes) [str "user-msg"])
      (reply_ (authen_reply AuthenStatusPass (str "login success"))) x_response.
Proof.
  split; [reflexivity|]. rewrite <- x_success.
  destruct (long_password_misread x_provider (str "cisco") (str "cisco")
    (x_request MinorVersionDefault Authenticate 5 x_confusing_bytes) x_confusing_msg x_confusing_data x_bcrypt_user)
    as (_ & _ & _ & H); [discriminate|vm_compute; reflexivity|].
  apply (H x01 x01 x01 x01 (str "cisco") (replicate 249 x61)); vm_compute; reflexivity.
Defined.

Definition x_pap : AuthenStart :=
  mkAuthenStart AuthenActionLogin x01 AuthenTypePAP AuthenServiceLogin (str "cisco") [] [] (str "guess").
Definition x_pap_bytes : list byte :=
  match AuthenStart_MarshalBinary x_pap with Ok b => b | _ => [] end.

Lemma pap_login_witness :
  Handle (Start_New x_provider) (x_request MinorVersionOne Authenticate 1 x_pap_bytes) x_response =
    (response_RegisterWriter WResponseLogger ;;
     Record_request (x_request MinorVersionOne Authenticate 1 x_pap_bytes) [str "data"] ;;
     reply_ (authen_reply AuthenStatusFail (str "login failure"))) x_response.
Proof.
  rewrite <- x_failure.
  apply (pap_login x_provider (str "cisco") (x_request MinorVersionOne Authenticate 1 x_pap_bytes) x_pap);
    try reflexivity; try discriminate; apply x_bcrypt_user.
Defined.

Lemma bcrypt_without_hash_panics_witness :
  ∃ b, BcryptAuthenticator_New (bcrypt_New (λ _ _, Ok [])) (str "cisco") ∅ = Ok b ∧
    ∀ r : response handler writer,
      BcryptAuthenticator_Handle b (x_request MinorVersionOne Authenticate 1 x_pap_bytes) r = (Panic, r).
Proof.
  destruct (bcrypt_without_hash_panics (bcrypt_New (λ _ _, Ok [])) (str "cisco") ∅) as (b & Hb & Hp);
    [discriminate|reflexivity|].
  exists b. split; [exact Hb|]. intros r. apply (Hp _ (str "guess")). vm_compute. reflexivity.
Defined.

Lemma router_flows_witness :
  Handle (HStart x_provider) (x_request MinorVersionDefault Authenticate 1 x_pap_bytes) x_response =
    (Record_request (x_request MinorVersionDefault Authenticate 1 x_pap_bytes) [str "user-msg"] ;;
     reply_ (authen_reply AuthenStatusError (str "unknown authenticate start packet type"))) x_response.
Proof.
  apply (router_flows x_provider (x_request MinorVersionDefault Authenticate 1 x_pap_bytes) x_pap);
    [vm_compute; reflexivity|reflexivity].
Defined.

Definition x_hidden (p : list byte) (k : gostring) : option fields :=
  printed (Request_Header (x_request MinorVersionOne Authenticate 1 [])) (Some ∅) p k.
Definition x_pap_new : AuthenStart :=
  mkAuthenStart AuthenActionLogin x01 AuthenTypePAP AuthenServiceLogin (str "cisco") [] [] (str "new").
Definition x_pap_new_bytes : list byte :=
  match AuthenStart_MarshalBinary x_pap_new with Ok b => b | _ => [] end.


Definition x_acct : AcctRequest :=
  mkAcctRequest AcctFlagStart AuthenMethodTacacsPlus x01 AuthenTypeASCII AuthenServiceLogin
    (str "cisco") [] [] [].
Definition x_acct_bytes : list byte :=
  match AcctRequest_MarshalBinary x_acct with Ok b => b | _ => [] end.

Lemma accounting_logged_witness :
  ∃ v, (∀ r, Handle (HStart x_provider) (x_request MinorVersionDefault Accounting 1 x_acct_bytes) r =
          (Record_request (x_request MinorVersionDefault Accounting 1 x_acct_bytes) [] ;;
           sink_Printf (str "cisco") ;; reply_ (RAcct v)) r) ∧
    AcctReply_Status v = AcctReplyStatusSuccess.
Proof.
  destruct (accounting_logged x_provider (x_request MinorVersionDefault Accounting 1 x_acct_bytes)
              x_acct x_aaa (str "cisco")) as (v & Hv & [[Hs _]|[_ Hn]]);
    [vm_compute; reflexivity|reflexivity..| |].
  - exists v. split; [exact Hv|exact Hs].
  - destruct Hn. left. reflexivity.
Defined.
End Witness.
