(* ===== verification/EndToEnd.v ===== *)
(** Whole logins: a client and the server exchange obfuscated packets, from the
    start packet of the client to the verdict it decodes. *)
From S2P Require Import Prelude.
From S2P Require Import GoStrings.
From S2P Require Import Buffer.
From S2P Require Import HeaderFields.
From S2P Require Import AuthenFields.
From S2P Require Import AuthorFields.
From S2P Require Import Header.
From S2P Require Import Codec.
From S2P Require Import Authenticate.
From S2P Require Import Authorize.
From S2P Require Import Accounting.
From S2P Require Import MD5.
From S2P Require Import Proxy.
From S2P Require Import Crypt.
From S2P Require Import Crypter.
From S2P Require Import Sessions.
From S2P Require Import Response.
From S2P Require Import Server.
From S2P Require Import Client.
From S2P Require Import Config.
From S2P Require Import Stringy.
From S2P Require Import AAA.
From S2P Require Import Handlers.
From S2P Require Import ConnTheorems.
From S2P Require Import HandlerSafety.
From S2P Require Import ReplyTheorems.
From S2P Require Import HandlerTheorems.

Section Exchange.
Context {HH : Hash} {RE : Regexp} {PL : Platform} {DL : Dialer}.

(** A handler that answers a request with one reply, and leaves a handler for
    the next packet of the session; it may register writers and log. *)
Definition answers (m : SM (response handler writer) unit) (v : reply) (next : option handler) : Prop :=
  ∀ r, r_next r = None →
    ∃ ws e,
      let r' := reply_ v (mkResponse (r_crypter r) next (r_header r) ws (r_ctx r) e) in
      (m r).1 = r'.1 ∧ r_crypter (m r).2 = r_crypter r'.2 ∧ r_next (m r).2 = r_next r'.2 ∧
      r_header (m r).2 = r_header r'.2.

Lemma answers_ext m m' v n : (∀ r, m r = m' r) → answers m' v n → answers m v n.
Proof. intros He Hm r Hn. destruct (Hm r Hn) as (ws & e & H). exists ws, e. by rewrite He. Qed.

Lemma answers_reply v : answers (reply_ v) v None.
Proof. intros r Hn. exists (r_writers r), (r_env r). destruct r; cbn in *; by subst. Qed.

Lemma answers_next v n : answers (response_Next (Some n) ;; reply_ v) v (Some n).
Proof. intros r Hn. by exists (r_writers r), (r_env r). Qed.

Lemma answers_record f o m v n : answers m v n → answers (record f o ;; m) v n.
Proof. intros Hm r Hn. apply (Hm (set_env r (env_Record f o (r_env r))) Hn). Qed.

Lemma answers_RegisterWriter w m v n : answers m v n → answers (response_RegisterWriter w ;; m) v n.
Proof.
  intros Hm r Hn.
  apply (Hm (mkResponse (r_crypter r) (r_next r) (r_header r) (r_writers r ++ [w]) (r_ctx r) (r_env r)) Hn).
Qed.

Lemma answers_defer f o m v n : answers m v n → answers (defer (record f o) m) v n.
Proof.
  intros Hm r Hn. destruct (Hm r Hn) as (ws & e & H). exists ws, e. unfold defer.
  by destruct (m r) as [x r'].
Qed.

(** What an end of a connection writes is what the other one reads. *)
Lemma crypter_write_sent c h body :
  header_typed h → header_valid (sized h body) → passes h body →
  c_write_errs c = [] →
  ∃ w, crypter_write (Some (mkPacket (Some h) (Some body))) c =
      (Ok (len w), set_out c (c_out c ++ [w]) []) ∧
    ∀ c2 rest, c_secret c2 = c_secret c → c_proxy c2 = false → c_in c2 = w ++ rest →
      crypter_read c2 = (Ok (mkPacket (Some (header_decoded (sized h body))) (Some body)), set_in c2 rest).
Proof.
  intros Ht Hv Hacc Herr. destruct (crypter_write_valid c h body Hv) as (hb & Hm & Hw).
  exists (hb ++ obfuscate (c_secret c) (sized h body) body).
  rewrite Hw. unfold conn_Write. rewrite Herr. split; [reflexivity|]. intros c2 rest Hsec Hp Hin.
  pose proof (Header_MarshalBinary_ok _ _ Hm) as [_ H12].
  pose proof (Header_Unmarshal_Marshal _ _ [] (header_valid_sized_typed h body Ht Hv) Hm) as Hu.
  rewrite app_nil_r in Hu. rewrite crypter_read_noproxy by done. rewrite <- Hsec in Hin.
  apply (read_packet_sent c2 h body hb rest); [done|unfold len; by rewrite H12|done|].
  apply detectBadSecret_not_refused. by apply passes_decoded.
Qed.

(** The turn of the server when it takes the packet for one of a wrong secret:
    the client gets the error reply, and the connection is closed. *)
Lemma exchange_refused (h : handler) ctx hd body c s :
  linked c s → header_typed hd → header_valid (sized hd body) →
  HeaderFlag_Has (Header_Flags hd) UnencryptedFlag = false → all_refused (Header_Type hd) body →
  ∃ h' b c' s', exchange h ctx (mkPacket (Some hd) (Some body)) c s =
      ((Ok (mkPacket (Some h') (Some b)), c'), Closed s') ∧
    Header_SeqNo h' = 1 ∧ Header_SessionID h' = Header_SessionID hd ∧
    Header_Type h' = Header_Type hd ∧ bad_secret_body (Header_Type hd) b ∧
    cs_known s' = cs_known s ∧ cs_env s' = cs_env s.
Proof.
  intros (Hsec & Hpc & Hps & Hic & His & Hec & Hes) Ht Hv Hf Href.
  destruct (crypter_write_valid c hd body Hv) as (hb & Hm & Hw).
  pose proof (Header_MarshalBinary_ok _ _ Hm) as [_ H12].
  pose proof (Header_Unmarshal_Marshal _ _ [] (header_valid_sized_typed hd body Ht Hv) Hm) as Hu.
  rewrite app_nil_r in Hu. set (hs := sized hd body) in *. pose proof (len_nonneg body).
  assert (Header_Length hs = len body) as Hsz by done.
  set (w := hb ++ obfuscate (c_secret c) hs body) in *.
  destruct (bad_secret_read (arrive (cs_crypter s) w) hb (header_decoded hs) (obfuscate (c_secret c) hs body) [])
    as (a & e & h' & b & Hr & Hs & Hid & Hty & Hb & Hread).
  { exact Hps. }
  { cbn. by rewrite His, app_nil_r. }
  { exact Hu. }
  { unfold len. by rewrite H12. }
  { rewrite header_decoded_Length, obfuscate_len by lia. done. }
  { by rewrite header_decoded_Unencrypted. }
  { rewrite header_decoded_Type. change (c_secret (arrive (cs_crypter s) w)) with (c_secret (cs_crypter s)). rewrite <- Hsec.
    rewrite obfuscate_decoded, obfuscate_involutive by lia. exact Href. }
  { exact Hes. }
  rewrite header_decoded_SessionID in Hid. rewrite header_decoded_Type in Hty, Hb.
  assert (sent c (set_out c (c_out c ++ [w]) []) = w) as Hsent.
  { unfold sent. cbn. rewrite drop_app_length. cbn. apply app_nil_r. }
  unfold exchange, Client_Send, server_answer, server_turn. rewrite Hw. unfold conn_Write. rewrite Hec. cbn [snd tail].
  rewrite Hsent. unfold serve_packet. cbn [cs_crypter cs_known cs_env]. rewrite Hr. cbn [conn_st cs_crypter].
  assert (∀ x, sent (cs_crypter s) (set_out x (c_out (cs_crypter s) ++ [a]) []) = a) as Hsent'.
  { intros x. unfold sent. cbn. rewrite drop_app_length. cbn. apply app_nil_r. }
  cbn [arrive c_out]. rewrite Hsent'.
  rewrite (Hread _ []); [|exact Hsec|exact Hpc|by cbn; rewrite Hic, app_nil_r].
  eexists _, _, _, _. split; [reflexivity|]. done.
Qed.

Lemma header_decoded_odd h : Z.Odd (Header_SeqNo h) → header_decoded h = h.
Proof.
  intros [k Hk]. unfold header_decoded. destruct (Z.eqb_spec (Header_SeqNo h) 2); [lia|done].
Qed.

(** The handler of the session a packet belongs to, if its number is in order. *)
Definition session_handler (h : handler) (known : sessions handler) (hd : Header) (st : handler) : Prop :=
  match known !! Header_SessionID hd with
  | None => st = h
  | Some sc => sc_Handler sc = Some st ∧ 0 <= Header_SeqNo (sc_header sc) < Header_SeqNo hd
  end.

(** What a turn makes of the response of a handler: both cases of the session
    give the same map. *)
Lemma end_turn_session known hd body ctx (r : response handler writer) known' :
  Header_SessionID (r_header r) = Header_SessionID hd →
  known' = known ∧ is_Some (known !! Header_SessionID hd) ∨ known' = sessions_set known hd None →
  end_turn known' (mkRequest hd body ctx) r =
  Open (mkConn (r_crypter r)
    (match r_next r with
     | None => delete (Header_SessionID hd) known
     | Some n => <[Header_SessionID hd := mkSessionContext (r_header r) (Some n)]> known
     end) (r_env r)).
Proof.
  intros Hid Hk. unfold end_turn, sessions_update, sessions_delete. cbn [Request_Header].
  destruct (r_next r) as [n|]; destruct Hk as [[-> [sc Hsc]]| ->]; unfold sessions_set; rewrite ?Hid.
  - by rewrite Hsc.
  - by rewrite lookup_insert_eq, insert_insert_eq.
  - done.
  - by rewrite delete_insert_eq.
Qed.

(** A turn of the server, when that handler answers. *)
Lemma serve_packet_answered h ctx s hd body c st v next :
  crypter_read (cs_crypter s) = (Ok (mkPacket (Some hd) (Some body)), c) →
  Z.Odd (Header_SeqNo hd) → 0 <= Header_SeqNo hd < 256 →
  session_handler h (cs_known s) hd st →
  (∀ ctx', answers (Handle st (mkRequest hd body ctx')) v next) →
  ∃ ws ctx' e e', let r' := reply_ v (mkResponse c next hd ws ctx' e) in
    r'.1 ≠ Panic →
    serve_packet h ctx s = Open (mkConn (r_crypter r'.2)
      (match r_next r'.2 with
       | None => delete (Header_SessionID hd) (cs_known s)
       | Some n => <[Header_SessionID hd := mkSessionContext (r_header r'.2) (Some n)]> (cs_known s)
       end) e').
Proof.
  intros Hread Hodd Hrange Hst Hans. unfold serve_packet. rewrite Hread. cbn [newRequest Packet_Header Packet_Body].
  cbn [from_option id default]. set (rctx := Some _ : option fields). cbn [Request_Header Request_Context].
  assert (∃ state known', sessions_get (cs_known s) hd = (Ok state, cs_known s) ∧
    (match state with Some x => (x, cs_known s) | None => (h, sessions_set (cs_known s) hd None) end) = (st, known') ∧
    (known' = cs_known s ∧ is_Some (cs_known s !! Header_SessionID hd) ∨ known' = sessions_set (cs_known s) hd None))
    as (state & known' & -> & -> & Hk).
  { unfold session_handler in Hst.
    destruct (sessions_get_cases (cs_known s) hd)
      as [[Hn _]|[(_ & Hn & ->)|(sc & _ & Hsc & [[_ ->]|[Hle _]])]].
    - by rewrite Z.mod_small in Hn.
    - rewrite Hn in Hst. subst st. eexists _, _. split; [done|]. split; [done|]. by right.
    - rewrite Hsc in Hst. destruct Hst as [-> _]. eexists _, _. split; [done|]. split; [done|]. left. eauto.
    - rewrite Hsc in Hst. destruct Hst as [_ Hlt]. rewrite !Z.mod_small in Hle by lia. lia. }
  destruct (Hans rctx (mkResponse c None hd [] rctx (cs_env s)) eq_refl) as (ws & e & Ho & Hc & Hn & Hh).
  cbn [r_crypter r_header r_ctx] in *.
  eexists ws, rctx, e, (r_env (Handle st (mkRequest hd body rctx) (mkResponse c None hd [] rctx (cs_env s))).2).
  cbv zeta. intros Hret. rewrite <- Hc, <- Hn, <- Hh.
  assert (Header_SessionID (r_header (Handle st (mkRequest hd body rctx) (mkResponse c None hd [] rctx (cs_env s))).2)
          = Header_SessionID hd) as Hid.
  { rewrite Hh. apply (keeps_reply_ v (mkResponse c next hd ws rctx e)). }
  rewrite <- (end_turn_session (cs_known s) hd body rctx _ known' Hid Hk).
  revert Ho Hret. destruct (Handle st _ _) as [[x|er|] rr]; cbn [fst snd]; intros Ho Hret; [done|done|].
  by rewrite <- Ho in Hret.
Qed.

(** One exchange with a handler that answers. *)
Lemma exchange_answered h ctx hd body c s st v b next :
  linked c s →
  header_typed hd → header_valid (sized hd body) →
  Z.Odd (Header_SeqNo hd) → Header_SeqNo hd <= 253 →
  passes hd body →
  session_handler h (cs_known s) hd st →
  (∀ ctx', answers (Handle st (mkRequest (sized hd body) body ctx')) v next) →
  reply_type v = Header_Type hd → reply_fits v → reply_MarshalBinary v = Ok b → len b <= MaxBodyLength →
  ∃ h' c' s', exchange h ctx (mkPacket (Some hd) (Some body)) c s =
      ((Ok (mkPacket (Some h') (Some b)), c'), Open s') ∧
    Header_SeqNo h' = reply_seqNo hd v ∧ Header_SessionID h' = Header_SessionID hd ∧
    Header_Type h' = Header_Type hd ∧ reply_decodes v b ∧ linked c' s' ∧
    cs_known s' =
      match next with
      | None => delete (Header_SessionID hd) (cs_known s)
      | Some n => <[Header_SessionID hd :=
                      mkSessionContext (reply_header (sized hd body) v) (Some n)]> (cs_known s)
      end.
Proof.
  intros (Hsec & Hpc & Hps & Hic & His & Hec & Hes) Ht Hv Hodd H253 Hacc Hst Hans Hty Hfits Hb Hl.
  set (hs := sized hd body) in *.
  destruct (crypter_write_sent c hd body Ht Hv Hacc Hec) as (w & Hw & Hread).
  assert (header_typed hs) as Hts by by apply header_valid_sized_typed.
  set (s1 := mkConn (arrive (cs_crypter s) w) (cs_known s) (cs_env s)).
  assert (crypter_read (cs_crypter s1) = (Ok (mkPacket (Some hs) (Some body)), cs_crypter s)) as Hr1.
  { rewrite (Hread _ []); [|done|done|by cbn; rewrite His, app_nil_r].
    rewrite header_decoded_odd by done. f_equal. unfold arrive, set_in, s1. cbn. rewrite <- His.
    by destruct (cs_crypter s). }
  assert (0 <= Header_SeqNo hd < 256) as Hrange by (destruct Hv as (_ & _ & ? & _); cbn in *; lia).
  destruct (serve_packet_answered h ctx s1 hs body (cs_crypter s) st v next Hr1 Hodd Hrange Hst Hans)
    as (ws & rctx & e & e' & Hserve).
  destruct (response_Reply_delivered (mkResponse (cs_crypter s) next hs ws rctx e) v b)
    as (a & e2 & Hrep & Hcl); [done|done|cbn; lia|done..|].
  unfold reply_ in Hserve. rewrite Hrep in Hserve. cbv zeta in Hserve. cbn [fst snd r_crypter r_next r_header] in Hserve.
  specialize (Hserve ltac:(done)).
  unfold exchange, Client_Send, server_answer. rewrite Hw. cbn [snd].
  assert (sent c (set_out c (c_out c ++ [w]) []) = w) as Hsent.
  { unfold sent. cbn. rewrite drop_app_length. cbn. apply app_nil_r. }
  rewrite Hsent. unfold server_turn. fold s1. rewrite Hserve. cbn [conn_st cs_crypter].
  assert (sent (cs_crypter s) (set_out (cs_crypter s) (c_out (cs_crypter s) ++ [a]) []) = a) as Hsent'.
  { unfold sent. cbn. rewrite drop_app_length. cbn. apply app_nil_r. }
  rewrite Hsent', (Hcl _ []); [|done|done|by cbn; rewrite Hic, app_nil_r].
  cbn [r_header].
  destruct (reply_header_decoded hs v b) as (H1 & H2 & H3); [by apply reply_seqNo_range; cbn; lia || done|].
  eexists _, _, _. split; [reflexivity|]. split_and!; [exact H1|exact H2|exact H3| |done..|].
  - by apply reply_MarshalBinary_decodes.
  - done.
Qed.

(** ** The packets of a login *)
Definition login_header (minor flags : byte) (id seqNo : Z) : Header :=
  mkHeader (mkVersion MajorVersion minor) Authenticate seqNo id flags 0.

Lemma login_header_ok minor flags id seqNo body :
  minor = MinorVersionDefault ∨ minor = MinorVersionOne → 0 <= id < 4294967296 → 1 <= seqNo <= 255 →
  len body <= MaxBodyLength →
  header_typed (login_header minor flags id seqNo) ∧ header_valid (sized (login_header minor flags id seqNo) body).
Proof.
  intros Hm Hid Hs Hl. unfold header_typed, header_valid. cbn. split_and!; try lia; try done.
  by destruct Hm as [-> | ->].
Qed.

Lemma AuthenStart_sent a p :
  AuthenStart_fits a → AuthenStart_MarshalBinary a = Ok p →
  AuthenStart_UnmarshalBinary p = Ok a ∧ some_accepted Authenticate p ∧ len p <= MaxBodyLength.
Proof.
  intros Hf Hp. pose proof (AuthenStart_roundtrip_gen a p [] Hf Hp) as Hu. rewrite app_nil_r in Hu.
  split; [done|]. split; [left; split; [done|]; left; by exists a|].
  destruct Hf as (H1 & H2 & H3 & H4). unfold AuthenStart_MarshalBinary in Hp.
  apply bind_ok in Hp as ([] & _ & Hp). apply Ok_inj in Hp as <-.
  unfold fits8, MaxBodyLength in *. rewrite !len_app, !len_cons, len_nil. lia.
Qed.

Lemma AuthenContinue_sent flags msg p :
  0 < len msg < 256 → AuthenContinue_MarshalBinary (mkAuthenContinue flags msg []) = Ok p →
  AuthenContinue_UnmarshalBinary p = Ok (mkAuthenContinue flags msg []) ∧
  some_accepted Authenticate p ∧ len p <= MaxBodyLength.
Proof.
  intros Hl Hp. assert (AuthenContinue_fits (mkAuthenContinue flags msg [])) as Hf.
  { split; unfold fits16; cbn [AuthenContinue_UserMessage AuthenContinue_Data]; [lia|by rewrite len_nil]. }
  pose proof (AuthenContinue_roundtrip_gen _ p [] Hf Hp) as Hu. rewrite app_nil_r in Hu.
  split; [done|]. split; [left; split; [done|]; right; left; by eexists|].
  unfold AuthenContinue_MarshalBinary in Hp. apply bind_ok in Hp as ([] & _ & Hp). apply Ok_inj in Hp as <-.
  unfold MaxBodyLength. cbn [AuthenContinue_UserMessage AuthenContinue_Data AuthenContinue_Flags appendUint16].
  unfold appendUint16. rewrite !len_app, !len_cons, !len_nil. lia.
Qed.

(** ** The handlers of the two flows answer *)
Lemma answers_PAP c hash q body :
  AuthenStart_UnmarshalBinary (Request_Body q) = Ok body →
  bcrypt_user c (AuthenStart_User body) hash →
  Header_Type (Request_Header q) = Authenticate →
  Version_MinorVersion (Header_Version (Request_Header q)) = MinorVersionOne →
  AuthenStart_Action body = AuthenActionLogin → AuthenStart_Type body = AuthenTypePAP →
  AuthenStart_User body ≠ [] → AuthenStart_Data body ≠ [] →
  answers (Handle (Start_New c) q) (login_reply hash (AuthenStart_Data body)) None.
Proof.
  intros. eapply answers_ext; [by apply (Start_PAP c hash q body)|].
  apply answers_RegisterWriter, answers_record, answers_reply.
Qed.

Lemma answers_password c user hash q body :
  bcrypt_user c user hash →
  AuthenContinue_UnmarshalBinary (Request_Body q) = Ok body →
  AuthenContinueFlag_Has (AuthenContinue_Flags body) AuthenContinueFlagAbort = false →
  0 < len (AuthenContinue_UserMessage body) < 256 →
  answers (Handle (HResponseLogger (HGetPassword c user)) q)
    (login_reply hash (AuthenContinue_UserMessage body)) None.
Proof.
  intros Hu Hb Hf Hl. cbn [Handle handler_Handler handler_Handle]. apply answers_RegisterWriter.
  eapply answers_ext; [by apply (getPassword_checked c user hash q body)|].
  apply answers_defer, answers_reply.
Qed.

Lemma answers_username c q body :
  AuthenContinue_UnmarshalBinary (Request_Body q) = Ok body →
  AuthenContinueFlag_Has (AuthenContinue_Flags body) AuthenContinueFlagAbort = false →
  0 < len (AuthenContinue_UserMessage body) →
  answers (Handle (HResponseLogger (HGetUsername c [])) q) ask_password
    (Some (HResponseLogger (HGetPassword c (AuthenContinue_UserMessage body)))).
Proof.
  intros Hb Hf Hl. eapply answers_ext; [apply (ascii_handler_eq c WaitUser q)|].
  apply answers_RegisterWriter, answers_defer. unfold ascii_classify. rewrite Hb, Hf.
  destruct (AuthenContinue_UserMessage body) as [|x m]; [exfalso; by apply Z.lt_irrefl in Hl|]. apply answers_next.
Qed.

(** The start packet of an ASCII login without a user name. It is no continue
    packet that asks to stop: the byte at the place of the flags is the length
    of the user name. *)
Lemma start_no_stop q a :
  AuthenStart_UnmarshalBinary (Request_Body q) = Ok a → AuthenStart_User a = [] →
  authenticateContinueStop q = None.
Proof.
  intros (_ & p & Hp & Hd)%AuthenStart_accepted Hu. destruct (Hd I) as [rest Hq].
  unfold authenticateContinueStop, Unmarshal. cbn [UnmarshalBinary AuthenContinue_EncoderDecoder].
  destruct (AuthenContinue_UnmarshalBinary (Request_Body q)) as [b|e|] eqn:Hb; [|done..].
  apply AuthenContinue_accepted in Hb as (_ & p' & Hp' & Hd'). destruct (Hd' I) as [rest' Hq'].
  unfold AuthenStart_MarshalBinary in Hp. apply bind_ok in Hp as ([] & _ & Hp). apply Ok_inj in Hp as <-.
  unfold AuthenContinue_MarshalBinary in Hp'. apply bind_ok in Hp' as ([] & _ & Hp'). apply Ok_inj in Hp' as <-.
  rewrite Hq, Hu in Hq'. unfold appendUint16 in Hq'. cbn in Hq'. injection Hq' as _ _ _ _ <- _. done.
Qed.

Definition ask_username : reply := authen_reply AuthenStatusGetUser (str "username:").

Lemma answers_ascii_start c q body :
  AuthenStart_UnmarshalBinary (Request_Body q) = Ok body →
  Header_Type (Request_Header q) = Authenticate →
  Version_MinorVersion (Header_Version (Request_Header q)) = MinorVersionDefault →
  AuthenStart_Action body = AuthenActionLogin → AuthenStart_Type body = AuthenTypeASCII →
  AuthenStart_User body = [] →
  answers (Handle (Start_New c) q) ask_username (Some (HResponseLogger (HGetUsername c []))).
Proof.
  intros Hb Hty Hmin Hact Htype Hu. unfold Start_New.
  cbn [Handle handler_Handler handler_Handle]. apply answers_RegisterWriter.
  unfold Start_Handle. rewrite Hty, decide_True by done.
  unfold AuthenticateStart_Handle, Unmarshal. cbn [UnmarshalBinary AuthenStart_EncoderDecoder]. rewrite Hb.
  cbv zeta. rewrite Hmin, Hact, Htype.
  replace (router_lookup _ _) with (Some (AuthenticateASCII_Handle c (AuthenStart_User body))) by reflexivity.
  unfold AuthenticateASCII_Handle. rewrite (start_no_stop q body Hb Hu), Hu.
  rewrite decide_True by done. apply answers_record, answers_next.
Qed.

(** ** Whole logins *)

(** An exchange after which the client holds the reply [rep], with sequence
    number [seqNo], to its packet. *)
Definition gets (h : handler) (ctx : fields) (hd : Header) (body : list byte) (c : crypter)
    (s : conn_state handler) (seqNo : Z) (rep : AuthenReply) (c' : crypter) (s' : conn_state handler) : Prop :=
  ∃ h' b, exchange h ctx (mkPacket (Some hd) (Some body)) c s =
      ((Ok (mkPacket (Some h') (Some b)), c'), Open s') ∧
    Header_SeqNo h' = seqNo ∧ Header_SessionID h' = Header_SessionID hd ∧
    Header_Type h' = Authenticate ∧ AuthenReply_UnmarshalBinary b = Ok rep.

(** The replies the flows send fit and can be encoded. *)
Definition sendable (rep : AuthenReply) : Prop :=
  AuthenReply_fits rep ∧ AuthenReply_Status rep ≠ AuthenStatusRestart ∧
  ∃ b, AuthenReply_MarshalBinary rep = Ok b ∧ len b <= MaxBodyLength.

Lemma login_exchange h ctx minor flags id seqNo body c s st rep next :
  linked c s → minor = MinorVersionDefault ∨ minor = MinorVersionOne → 0 <= id < 4294967296 →
  Z.Odd seqNo → 1 <= seqNo <= 253 →
  passes (login_header minor flags id seqNo) body → len body <= MaxBodyLength →
  session_handler h (cs_known s) (login_header minor flags id seqNo) st →
  (∀ ctx', answers (Handle st (mkRequest (sized (login_header minor flags id seqNo) body) body ctx'))
             (RAuthen rep) next) →
  sendable rep →
  ∃ c' s', gets h ctx (login_header minor flags id seqNo) body c s (seqNo + 1) rep c' s' ∧ linked c' s' ∧
    cs_known s' =
      match next with
      | None => delete id (cs_known s)
      | Some n => <[id := mkSessionContext
                      (reply_header (sized (login_header minor flags id seqNo) body) (RAuthen rep)) (Some n)]> (cs_known s)
      end.
Proof.
  intros Hl Hm Hid Hodd Hseq Hacc Hlen Hst Hans (Hfits & Hre & b & Hb & Hlb).
  destruct (login_header_ok minor flags id seqNo body Hm Hid ltac:(lia) Hlen) as [Ht Hv].
  destruct (exchange_answered h ctx (login_header minor flags id seqNo) body c s st (RAuthen rep) b next
    Hl Ht Hv Hodd ltac:(cbn; lia) Hacc Hst Hans eq_refl Hfits Hb Hlb)
    as (h' & c' & s' & He & Hs & Hsid & Hty & Hdec & Hl' & Hk).
  exists c', s'. split_and!; [|done|done]. exists h', b. split_and!; [done| |done|done|done].
  rewrite Hs. cbn [reply_seqNo]. by rewrite decide_False.
Qed.

(** The session an answered packet leaves takes the next one. *)
Lemma session_handler_next h known minor flags id seqNo body rep n :
  1 <= seqNo <= 253 → AuthenReply_Status rep ≠ AuthenStatusRestart →
  session_handler h (<[id := mkSessionContext
      (reply_header (sized (login_header minor flags id seqNo) body) (RAuthen rep)) (Some n)]> known)
    (login_header minor flags id (seqNo + 2)) n.
Proof.
  intros Hs Hre. unfold session_handler. cbn [login_header Header_SessionID].
  rewrite lookup_insert_eq. cbn [sc_Handler sc_header]. split; [done|].
  destruct (reply_header_fields (sized (login_header minor flags id seqNo) body) (RAuthen rep))
    as (_ & _ & -> & _).
  cbn [reply_seqNo]. rewrite decide_False by done. cbn. unfold u16. rewrite Z.mod_small; lia.
Qed.

Definition verdict (hash password : list byte) : AuthenReply :=
  if bcrypt_matches hash password
  then mkAuthenReply AuthenStatusPass x00 (str "login success") []
  else mkAuthenReply AuthenStatusFail x00 (str "login failure") [].

Lemma login_reply_verdict hash password : login_reply hash password = RAuthen (verdict hash password).
Proof. unfold login_reply, verdict. by destruct (bcrypt_matches hash password). Qed.

Ltac sendable :=
  split; [split; vm_compute; reflexivity|];
  split; [discriminate|];
  eexists; split; [vm_compute; reflexivity|vm_compute; discriminate].

Lemma verdict_sendable hash password : sendable (verdict hash password).
Proof. unfold verdict. destruct (bcrypt_matches hash password); sendable. Qed.

Definition username_reply : AuthenReply := mkAuthenReply AuthenStatusGetUser x00 (str "username:") [].
Definition password_reply : AuthenReply :=
  mkAuthenReply AuthenStatusGetPass AuthenReplyFlagNoEcho (str "password:") [].

Lemma username_sendable : sendable username_reply.
Proof. sendable. Qed.

Lemma password_sendable : sendable password_reply.
Proof. sendable. Qed.

(** A PAP login: whatever the secret, the session id and the flags, obfuscated
    or not, the reply to the one packet of the client decodes to success if and
    only if the password matches the hash, and no session is left. *)
Lemma pap_exchange c hash ctx flags id start body cl s :
  linked cl s → cs_known s !! id = None → 0 <= id < 4294967296 →
  AuthenStart_fits start → AuthenStart_MarshalBinary start = Ok body →
  bcrypt_user c (AuthenStart_User start) hash →
  AuthenStart_Action start = AuthenActionLogin → AuthenStart_Type start = AuthenTypePAP →
  AuthenStart_User start ≠ [] → AuthenStart_Data start ≠ [] →
  ∃ cl' s', gets (Start_New c) ctx (login_header MinorVersionOne flags id 1) body cl s 2
      (verdict hash (AuthenStart_Data start)) cl' s' ∧
    linked cl' s' ∧ cs_known s' = cs_known s.
Proof.
  intros Hl Hk Hid Hf Hp Hu Hact Hty Hne Hd.
  destruct (AuthenStart_sent start body Hf Hp) as (Hun & Hacc & Hlen).
  destruct (login_exchange (Start_New c) ctx MinorVersionOne flags id 1 body cl s (Start_New c)
    (verdict hash (AuthenStart_Data start)) None) as (cl' & s' & Hg & Hl' & Hk');
    [done|by right|done|by exists 0|lia|by apply some_accepted_passes|done| | |apply verdict_sendable|].
  - unfold session_handler. cbn [login_header Header_SessionID]. by rewrite Hk.
  - intros ctx'. rewrite <- login_reply_verdict. by apply (answers_PAP c hash _ start).
  - exists cl', s'. split_and!; [done|done|]. rewrite Hk'. by apply delete_id.
Qed.

(** The three exchanges of an ASCII login. *)
Lemma ascii_exchange c hash ctx flags id start b1 user b2 password b3 cl s :
  linked cl s → cs_known s !! id = None → 0 <= id < 4294967296 →
  AuthenStart_fits start → AuthenStart_MarshalBinary start = Ok b1 →
  AuthenStart_Action start = AuthenActionLogin → AuthenStart_Type start = AuthenTypeASCII →
  AuthenStart_User start = [] →
  0 < len user < 256 → AuthenContinue_MarshalBinary (mkAuthenContinue x00 user []) = Ok b2 →
  0 < len password < 256 → AuthenContinue_MarshalBinary (mkAuthenContinue x00 password []) = Ok b3 →
  bcrypt_user c user hash →
  let hd := login_header MinorVersionDefault flags id in
  ∃ cl1 s1 cl2 s2 cl3 s3,
    gets (Start_New c) ctx (hd 1) b1 cl s 2 username_reply cl1 s1 ∧
    gets (Start_New c) ctx (hd 3) b2 cl1 s1 4 password_reply cl2 s2 ∧
    gets (Start_New c) ctx (hd 5) b3 cl2 s2 6 (verdict hash password) cl3 s3 ∧
    linked cl3 s3 ∧ cs_known s3 = cs_known s.
Proof.
  intros Hl Hk Hid Hf Hp1 Hact Hty Hno Hlu Hp2 Hlp Hp3 Hu hd.
  destruct (AuthenStart_sent start b1 Hf Hp1) as (Hun1 & Hacc1 & Hlen1).
  destruct (AuthenContinue_sent x00 user b2 Hlu Hp2) as (Hun2 & Hacc2 & Hlen2).
  destruct (AuthenContinue_sent x00 password b3 Hlp Hp3) as (Hun3 & Hacc3 & Hlen3).
  destruct (login_exchange (Start_New c) ctx MinorVersionDefault flags id 1 b1 cl s (Start_New c)
    username_reply (Some (HResponseLogger (HGetUsername c [])))) as (cl1 & s1 & Hg1 & Hl1 & Hk1);
    [done|by left|done|by exists 0|lia|by apply some_accepted_passes|done| | |apply username_sendable|].
  { unfold session_handler. cbn [login_header Header_SessionID]. by rewrite Hk. }
  { intros ctx'. by apply (answers_ascii_start c _ start). }
  destruct (login_exchange (Start_New c) ctx MinorVersionDefault flags id 3 b2 cl1 s1
    (HResponseLogger (HGetUsername c [])) password_reply (Some (HResponseLogger (HGetPassword c user))))
    as (cl2 & s2 & Hg2 & Hl2 & Hk2);
    [done|by left|done|by exists 1|lia|by apply some_accepted_passes|done| | |apply password_sendable|].
  { rewrite Hk1. by apply (session_handler_next _ _ _ _ _ 1). }
  { intros ctx'. apply (answers_username c _ (mkAuthenContinue x00 user [])); [done|done|apply Hlu]. }
  destruct (login_exchange (Start_New c) ctx MinorVersionDefault flags id 5 b3 cl2 s2
    (HResponseLogger (HGetPassword c user)) (verdict hash password) None)
    as (cl3 & s3 & Hg3 & Hl3 & Hk3);
    [done|by left|done|by exists 2|lia|by apply some_accepted_passes|done| | |apply verdict_sendable|].
  { rewrite Hk2. by apply (session_handler_next _ _ _ _ _ 3). }
  { intros ctx'. rewrite <- login_reply_verdict.
    by apply (answers_password c user hash _ (mkAuthenContinue x00 password [])). }
  exists cl1, s1, cl2, s2, cl3, s3. split_and!; [done..|].
  rewrite Hk3, Hk2, Hk1, !delete_insert_eq. by apply delete_id.
Qed.

(** The interactive login: a start packet without a user name is answered
    with the prompt for it, the name with the prompt for the password, and the
    password with the verdict, in three exchanges of one session that leave
    every other session of the connection as it was. *)
Theorem ascii_end_to_end c hash ctx flags id start b1 user b2 password b3 cl s :
  linked cl s → cs_known s !! id = None → 0 <= id < 4294967296 →
  AuthenStart_fits start → AuthenStart_MarshalBinary start = Ok b1 →
  AuthenStart_Action start = AuthenActionLogin → AuthenStart_Type start = AuthenTypeASCII →
  AuthenStart_User start = [] →
  0 < len user < 256 → AuthenContinue_MarshalBinary (mkAuthenContinue x00 user []) = Ok b2 →
  0 < len password < 256 → AuthenContinue_MarshalBinary (mkAuthenContinue x00 password []) = Ok b3 →
  bcrypt_user c user hash →
  let hd := login_header MinorVersionDefault flags id in
  ∃ cl1 s1 cl2 s2 cl3 s3,
    gets (Start_New c) ctx (hd 1) b1 cl s 2 username_reply cl1 s1 ∧
    gets (Start_New c) ctx (hd 3) b2 cl1 s1 4 password_reply cl2 s2 ∧
    gets (Start_New c) ctx (hd 5) b3 cl2 s2 6 (verdict hash password) cl3 s3 ∧
    linked cl3 s3 ∧ cs_known s3 = cs_known s.
Proof. apply ascii_exchange. Qed.
End Exchange.

(** ** Witnesses: the user "cisco" of the provider of HandlerTheorems.v *)
#[local] Instance z_Hash : Hash := MD5.
#[local] Instance z_Regexp : Regexp := x_Regexp.
#[local] Instance z_Platform : Platform := x_Platform.
#[local] Instance z_Dialer : Dialer := x_Dialer.

Definition z_client : crypter :=
  newCrypter (str "fooman") (OtherAddr [] []) (OtherAddr [] []) [] EOF [] false.
Definition z_server : conn_state handler := mkConn z_client newSessionProvider (mkEnv [] []).

Lemma z_linked : linked z_client z_server.
Proof. done. Qed.

Definition z_start : AuthenStart :=
  mkAuthenStart AuthenActionLogin x01 AuthenTypeASCII AuthenServiceLogin [] [] [] [].
Definition z_start_bytes : list byte :=
  match AuthenStart_MarshalBinary z_start with Ok b => b | _ => [] end.

Lemma ascii_end_to_end_witness :
  ∃ cl1 s1 cl2 s2 cl3 s3,
    gets (Start_New x_provider) ∅ (login_header MinorVersionDefault x00 7 1) z_start_bytes
      z_client z_server 2 username_reply cl1 s1 ∧
    gets (Start_New x_provider) ∅ (login_header MinorVersionDefault x00 7 3) x_continue_bytes
      cl1 s1 4 password_reply cl2 s2 ∧
    gets (Start_New x_provider) ∅ (login_header MinorVersionDefault x00 7 5) x_continue_bytes
      cl2 s2 6 (mkAuthenReply AuthenStatusPass x00 (str "login success") []) cl3 s3.
Proof.
  destruct (ascii_end_to_end x_provider (str "cisco") ∅ x00 7 z_start z_start_bytes
    (str "cisco") x_continue_bytes (str "cisco") x_continue_bytes z_client z_server)
    as (cl1 & s1 & cl2 & s2 & cl3 & s3 & H1 & H2 & H3 & _);
    [exact z_linked|reflexivity|split; [discriminate|reflexivity]|vm_compute; auto|vm_compute; reflexivity
    |reflexivity|reflexivity|reflexivity|split; reflexivity|vm_compute; reflexivity|split; reflexivity
    |vm_compute; reflexivity|exact x_bcrypt_user|].
  exists cl1, s1, cl2, s2, cl3, s3. split; [exact H1|]. split; [exact H2|exact H3].
Defined.
