(* ===== verification/SessionTheorems.v ===== *)
(** Whole ASCII sessions: any conversation of a client with the server over one
    session is a run of the abstract login machine of HandlerTheorems.v. *)
From S2P Require Import Prelude.
From S2P Require Import GoStrings.
From S2P Require Import Buffer.
From S2P Require Import HeaderFields.
From S2P Require Import AuthenFields.
From S2P Require Import Header.
From S2P Require Import Codec.
From S2P Require Import Authenticate.
From S2P Require Import MD5.
From S2P Require Import Proxy.
From S2P Require Import Crypter.
From S2P Require Import Sessions.
From S2P Require Import Response.
From S2P Require Import Server.
From S2P Require Import Client.
From S2P Require Import Config.
From S2P Require Import Stringy.
From S2P Require Import AAA.
From S2P Require Import Handlers.
From S2P Require Import ConnTheorems.
From S2P Require Import ReplyTheorems.
From S2P Require Import HandlerTheorems.
From S2P Require Import EndToEnd.

Section Sessions.
Context {HH : Hash} {RE : Regexp} {PL : Platform} {DL : Dialer}.

(** ** The machine over the bodies of packets *)

Definition of_body (b : list byte) : Request := mkRequest zero_Header b None.

(** The reply of the authenticator of a user; [None] if it panics, for want of a
    hash. *)
Definition login_verdict (h : user_handler) (b : list byte) : option AuthenReply :=
  match h with
  | DefaultAuthenticator => Some (mkAuthenReply AuthenStatusFail x00 (str "authentication denied") [])
  | HBcrypt a =>
    if 0 <? len (so_hash (ba_options a)) then
      match GetPassword (of_body b) with
      | Ok password =>
        Some match hex_DecodeString (so_hash (ba_options a)) with
             | Some hash => verdict hash password
             | None => mkAuthenReply AuthenStatusFail x00 (str "login failure") []
             end
      | _ => None
      end
    else None
  | _ => None
  end.

(** What the machine replies to the body of a packet, and the state after it;
    no state when the login is over. *)
Definition ascii_reply (c : Provider) (st : ascii_state) (b : list byte)
    : option (AuthenReply * option ascii_state) :=
  match ascii_next c st (ascii_classify (of_body b)) with
  | Answer (RAuthen v) => Some (v, None)
  | Ask (RAuthen v) next => Some (v, Some next)
  | Verify h => (λ v, (v, None)) <$> login_verdict h b
  | _ => None
  end.

(** The replies to a list of packets, none of which comes after the end. *)
Fixpoint machine_run (c : Provider) (st : option ascii_state) (bs : list (list byte))
    : option (list AuthenReply * option ascii_state) :=
  match bs, st with
  | [], _ => Some ([], st)
  | _ :: _, None => None
  | b :: bs, Some st =>
    match ascii_reply c st b with
    | None => None
    | Some (v, st) =>
      match machine_run c st bs with
      | None => None
      | Some (vs, st) => Some (v :: vs, st)
      end
    end
  end.

(** ** A step *)

Lemma answers_verdict h q v :
  login_verdict h (Request_Body q) = Some v → answers (user_Handle h q) (RAuthen v) None.
Proof.
  destruct h as [| | |a| | |]; cbn [login_verdict]; try done.
  - intros [= <-]. apply answers_reply.
  - change (GetPassword (of_body (Request_Body q))) with (GetPassword q). cbn [user_Handle].
    unfold BcryptAuthenticator_Handle.
    destruct (0 <? len (so_hash (ba_options a))); [|done].
    destruct (GetPassword q) as [p|e|]; [|done..]. intros [= <-].
    destruct (hex_DecodeString (so_hash (ba_options a))) as [secret|]; [|apply answers_reply].
    unfold bcrypt_finish, verdict. destruct (bcrypt_matches secret p); apply answers_reply.
Qed.

Lemma answers_ascii c st q v next :
  ascii_reply c st (Request_Body q) = Some (v, next) →
  answers (Handle (ascii_handler c st) q) (RAuthen v) (ascii_handler c <$> next).
Proof.
  intros Hr. eapply answers_ext; [apply (ascii_handler_eq c st q)|].
  apply answers_RegisterWriter, answers_defer. unfold ascii_reply in Hr.
  change (ascii_classify (of_body (Request_Body q))) with (ascii_classify q) in Hr.
  destruct (ascii_next c st (ascii_classify q)) as [[v'| |]|[v'| |] st'|h]; try done; cbn [perform].
  - injection Hr as <- <-. apply answers_reply.
  - injection Hr as <- <-. apply answers_next.
  - apply fmap_Some in Hr as (v' & Hv & [= -> ->]). by apply answers_verdict.
Qed.

(** The machine keeps no more than the user name, so its replies fit. *)
Definition state_len (st : ascii_state) : Z :=
  match st with WaitUser => 0 | WaitPassword user => len user end.

Lemma UserMessage_len b a :
  AuthenContinue_UnmarshalBinary b = Ok a → len (AuthenContinue_UserMessage a) <= len b.
Proof.
  intros (_ & p & Hp & Hd)%AuthenContinue_accepted. destruct (Hd I) as [rest ->].
  apply bind_ok in Hp as ([] & _ & Hp). apply Ok_inj in Hp as <-.
  rewrite !len_app. pose proof (len_nonneg rest). pose proof (len_nonneg (AuthenContinue_Data a)).
  unfold appendUint16. autorewrite with golen. lia.
Qed.

Lemma text_sendable status msg :
  AuthenStatus_Validate status CondNil = Ok tt → status ≠ AuthenStatusRestart → len msg <= 65000 →
  sendable (mkAuthenReply status x00 msg []).
Proof.
  intros Hv Hs Hl. split; [|split; [done|]].
  - split; unfold fits16; cbn; [lia|by rewrite len_nil].
  - unfold AuthenReply_MarshalBinary, AuthenReply_Validate. cbn. rewrite Hv. cbn. eexists. split; [reflexivity|].
    unfold appendUint16, MaxBodyLength. autorewrite with golen. lia.
Qed.

Lemma login_verdict_sendable h b v : login_verdict h b = Some v → sendable v.
Proof.
  destruct h as [| | |a| | |]; cbn [login_verdict]; try done.
  - intros [= <-]. by apply text_sendable; vm_compute.
  - destruct (0 <? len _); [|done]. destruct (GetPassword _) as [p|e|]; [|done..]. intros [= <-].
    destruct (hex_DecodeString _); [apply verdict_sendable|by apply text_sendable; vm_compute].
Qed.

Lemma ascii_reply_sendable c st b v next :
  ascii_reply c st b = Some (v, next) → state_len st <= 64000 → len b <= 64000 →
  sendable v ∧ match next with Some st' => state_len st' <= 64000 | None => True end.
Proof.
  intros Hr Hst Hb. unfold ascii_reply, ascii_classify in Hr. cbn [of_body Request_Body] in Hr.
  destruct (AuthenContinue_UnmarshalBinary b) as [a|e|] eqn:Ea.
  2,3: destruct st; injection Hr as <- <-; (split; [by apply text_sendable; vm_compute|done]).
  apply UserMessage_len in Ea. destruct (AuthenContinueFlag_Has _ _).
  { destruct st; injection Hr as <- <-; (split; [by apply text_sendable; vm_compute|done]). }
  destruct (AuthenContinue_UserMessage a) as [|x msg].
  { destruct st; injection Hr as <- <-; (split; [by apply text_sendable; vm_compute|done]). }
  destruct st as [|user]; cbn [ascii_next] in Hr.
  { injection Hr as <- <-. split; [apply password_sendable|]. cbn [state_len]. lia. }
  destruct (c !! user) as [A|].
  - apply fmap_Some in Hr as (v' & Hv & [= -> ->]). split; [by eapply login_verdict_sendable|done].
  - injection Hr as <- <-. split; [|done]. apply text_sendable; [done|done|].
    assert (len (str "authentication denied [" ++ user ++ str "]") = 24 + len user) as Hl.
    { rewrite !len_app. change (len (str "authentication denied [")) with 23. change (len (str "]")) with 1. lia. }
    cbn [state_len] in Hst. etrans; [apply Z.eq_le_incl; exact Hl|lia].
Qed.

(** ** A conversation *)

(** A packet of the client by the flags of its header, its number and its body,
    and the exchanges a list of them makes. *)
Record turn_packet := mkTurn {
  tp_flags : byte;
  tp_seqNo : Z;
  tp_body : list byte;
}.

Inductive converses (h : handler) (ctx : fields) (id : Z) :
    crypter → conn_state handler → list turn_packet → list AuthenReply →
    crypter → conn_state handler → Prop :=
| converses_nil c s : converses h ctx id c s [] [] c s
| converses_cons c s p ps v vs c1 s1 c' s' :
    gets h ctx (login_header MinorVersionDefault (tp_flags p) id (tp_seqNo p)) (tp_body p) c s
      (tp_seqNo p + 1) v c1 s1 →
    converses h ctx id c1 s1 ps vs c' s' →
    converses h ctx id c s (p :: ps) (v :: vs) c' s'.

(** The server takes the packet for one of its secret: it is sent in the clear, or
    some decoder of authentication bodies does not refuse it. *)
Definition passes_at (p : turn_packet) : Prop :=
  HeaderFlag_Has (tp_flags p) UnencryptedFlag = true ∨ ¬ all_refused Authenticate (tp_body p).

(** The numbers are odd and rise, and no packet is taken for one of a wrong
    secret. *)
Fixpoint in_order (last : Z) (ps : list turn_packet) : Prop :=
  match ps with
  | [] => True
  | p :: ps =>
    last < tp_seqNo p ∧ Z.Odd (tp_seqNo p) ∧ tp_seqNo p <= 253 ∧
    passes_at p ∧ len (tp_body p) <= 64000 ∧
    in_order (tp_seqNo p + 1) ps
  end.

(** The connection holds the session in a state of the machine. *)
Definition session_at (c : Provider) (id last : Z) (st : option ascii_state) (known : sessions handler) : Prop :=
  match st with
  | None => known !! id = None
  | Some st => ∃ hd, known !! id = Some (mkSessionContext hd (Some (ascii_handler c st))) ∧ Header_SeqNo hd = last
  end.

Lemma ascii_conversation c ctx id st ps vs st' last cl s :
  machine_run c (Some st) (tp_body <$> ps) = Some (vs, st') →
  linked cl s → 0 <= id < 4294967296 → 0 <= last → state_len st <= 64000 → in_order last ps →
  session_at c id last (Some st) (cs_known s) →
  ∃ cl' s' last', converses (Start_New c) ctx id cl s ps vs cl' s' ∧ linked cl' s' ∧
    session_at c id last' st' (cs_known s') ∧
    ∀ id', id' ≠ id → cs_known s' !! id' = cs_known s !! id'.
Proof.
  revert st vs last cl s. induction ps as [|p ps IH]; intros st vs last cl s Hr Hl Hid Hlast Hst Hps Hat.
  { injection Hr as <- <-. exists cl, s, last. split; [constructor|]. by split. }
  rewrite fmap_cons in Hr. cbn [machine_run] in Hr.
  destruct (ascii_reply c st (tp_body p)) as [[v next]|] eqn:Ev; [|done].
  destruct (machine_run c next (tp_body <$> ps)) as [[vs1 st1]|] eqn:Er; [|done]. injection Hr as <- <-.
  destruct Hps as (Hlt & Hodd & H253 & Hacc & Hlen & Hps). destruct Hat as (hd & Hk & Hhd).
  destruct (ascii_reply_sendable c st (tp_body p) v next Ev Hst Hlen) as [Hsend Hnext].
  destruct (login_exchange (Start_New c) ctx MinorVersionDefault (tp_flags p) id (tp_seqNo p) (tp_body p) cl s
    (ascii_handler c st) v (ascii_handler c <$> next)) as (cl1 & s1 & Hg & Hl1 & Hk1);
    [done|by left|done|done|lia|exact Hacc|unfold MaxBodyLength; lia| | |done|].
  { unfold session_handler. cbn [login_header Header_SessionID Header_SeqNo]. rewrite Hk. cbn. split; [done|lia]. }
  { intros ctx'. by apply answers_ascii. }
  assert (∀ id', id' ≠ id → cs_known s1 !! id' = cs_known s !! id') as Hother.
  { intros id' Hne. rewrite Hk1. destruct next; cbn; [by rewrite lookup_insert_ne|by rewrite lookup_delete_ne]. }
  assert (session_at c id (tp_seqNo p + 1) next (cs_known s1)) as Hat1.
  { rewrite Hk1. destruct next as [st2|]; cbn [fmap option_fmap option_map session_at]; [|apply lookup_delete_eq].
    eexists. split; [apply lookup_insert_eq|]. destruct Hsend as (_ & Hne & _).
    change (u16 (reply_seqNo (login_header MinorVersionDefault (tp_flags p) id (tp_seqNo p)) (RAuthen v)) = tp_seqNo p + 1).
    cbn [reply_seqNo]. rewrite decide_False by done. cbn. unfold u16. apply Z.mod_small. lia. }
  destruct next as [st2|].
  - destruct (IH st2 vs1 (tp_seqNo p + 1) cl1 s1 Er) as (cl' & s' & last' & Hc & Hl' & Hat' & Ho'); [done..|lia|done|done|done|].
    exists cl', s', last'. split; [by eapply converses_cons|]. split_and!; [done..|].
    intros id' Hne. by rewrite Ho', Hother.
  - destruct ps as [|p2 ps]; [|done]. injection Er as <- <-.
    exists cl1, s1, (tp_seqNo p + 1). split; [eapply converses_cons; [exact Hg|constructor]|]. by split_and!.
Qed.

(** ** The start of a session

    The prompt for the user name, or, if the start packet has one, the prompt for
    its password. *)
Definition start_state (a : AuthenStart) : ascii_state :=
  if decide (AuthenStart_User a = []) then WaitUser else WaitPassword (AuthenStart_User a).
Definition start_prompt (a : AuthenStart) : AuthenReply :=
  if decide (AuthenStart_User a = []) then username_reply else password_reply.

(** A short start packet is no continue packet. *)
Lemma short_start_no_stop q a :
  AuthenStart_UnmarshalBinary (Request_Body q) = Ok a → len (Request_Body q) < 256 →
  authenticateContinueStop q = None.
Proof.
  intros Ha Hl. unfold authenticateContinueStop, Unmarshal. cbn [UnmarshalBinary AuthenContinue_EncoderDecoder].
  destruct (AuthenContinue_UnmarshalBinary (Request_Body q)) as [b|e|] eqn:Hb; [|done..].
  pose proof (UserMessage_len _ _ Hb). by destruct (continue_not_start _ _ Hb ltac:(lia) a).
Qed.

Lemma answers_start c q a :
  AuthenStart_UnmarshalBinary (Request_Body q) = Ok a →
  Header_Type (Request_Header q) = Authenticate →
  Version_MinorVersion (Header_Version (Request_Header q)) = MinorVersionDefault →
  AuthenStart_Action a = AuthenActionLogin → AuthenStart_Type a = AuthenTypeASCII →
  AuthenStart_User a = [] ∨ len (Request_Body q) < 256 →
  answers (Handle (Start_New c) q) (RAuthen (start_prompt a)) (Some (ascii_handler c (start_state a))).
Proof.
  intros Hb Hty Hmin Hact Htype Hu. unfold start_prompt, start_state.
  destruct (decide (AuthenStart_User a = [])) as [E|Hne]; [by apply (answers_ascii_start c q a)|].
  destruct Hu as [?|Hl]; [done|]. unfold Start_New.
  cbn [Handle handler_Handler handler_Handle]. apply answers_RegisterWriter.
  unfold Start_Handle. rewrite Hty, decide_True by done.
  unfold AuthenticateStart_Handle, Unmarshal. cbn [UnmarshalBinary AuthenStart_EncoderDecoder]. rewrite Hb.
  cbv zeta. rewrite Hmin, Hact, Htype.
  replace (router_lookup _ _) with (Some (AuthenticateASCII_Handle c (AuthenStart_User a))) by reflexivity.
  unfold AuthenticateASCII_Handle, getUsername. rewrite (short_start_no_stop q a Hb Hl), !decide_False by done.
  apply answers_defer, answers_next.
Qed.

Lemma ascii_session_run c ctx flags id start b1 ps vs st cl s :
  linked cl s → cs_known s !! id = None → 0 <= id < 4294967296 →
  AuthenStart_fits start → AuthenStart_MarshalBinary start = Ok b1 →
  AuthenStart_Action start = AuthenActionLogin → AuthenStart_Type start = AuthenTypeASCII →
  AuthenStart_User start = [] ∨ len b1 < 256 →
  in_order 2 ps → machine_run c (Some (start_state start)) (tp_body <$> ps) = Some (vs, st) →
  ∃ cl' s' last,
    converses (Start_New c) ctx id cl s (mkTurn flags 1 b1 :: ps) (start_prompt start :: vs) cl' s' ∧
    linked cl' s' ∧ session_at c id last st (cs_known s') ∧
    ∀ id', id' ≠ id → cs_known s' !! id' = cs_known s !! id'.
Proof.
  intros Hl Hk Hid Hf Hp Hact Hty Hu Hps Hr.
  destruct (AuthenStart_sent start b1 Hf Hp) as (Hun & Hacc & Hlen).
  destruct (login_exchange (Start_New c) ctx MinorVersionDefault flags id 1 b1 cl s (Start_New c)
    (start_prompt start) (Some (ascii_handler c (start_state start)))) as (cl1 & s1 & Hg & Hl1 & Hk1);
    [done|by left|done|by exists 0|lia|by apply some_accepted_passes|done| | | |].
  { unfold session_handler. cbn [login_header Header_SessionID]. by rewrite Hk. }
  { intros ctx'. by apply answers_start. }
  { unfold start_prompt. case_decide; [apply username_sendable|apply password_sendable]. }
  destruct (ascii_conversation c ctx id (start_state start) ps vs st 2 cl1 s1)
    as (cl' & s' & last & Hc & Hl' & Hat & Ho); [done..|lia| |done| |].
  { unfold start_state. case_decide; cbn; [lia|]. destruct Hf as (Hfu & _). unfold fits8 in Hfu. lia. }
  { rewrite Hk1. eexists. split; [apply lookup_insert_eq|]. unfold start_prompt. by case_decide. }
  exists cl', s', last. split; [by eapply (converses_cons _ _ _ _ _ (mkTurn flags 1 b1))|]. split_and!; [done..|].
  intros id' Hne. rewrite Ho, Hk1 by done. by rewrite lookup_insert_ne.
Qed.

(** The packet that ends the connection. *)
Lemma refused_turn (h : handler) ctx id p cl s :
  linked cl s → 0 <= id < 4294967296 → 1 <= tp_seqNo p <= 255 → len (tp_body p) <= MaxBodyLength →
  HeaderFlag_Has (tp_flags p) UnencryptedFlag = false → all_refused Authenticate (tp_body p) →
  ∃ h' b cl' s',
    exchange h ctx (mkPacket (Some (login_header MinorVersionDefault (tp_flags p) id (tp_seqNo p))) (Some (tp_body p)))
      cl s = ((Ok (mkPacket (Some h') (Some b)), cl'), Closed s') ∧
    Header_SeqNo h' = 1 ∧ Header_SessionID h' = id ∧
    AuthenReply_UnmarshalBinary b = Ok (mkAuthenReply AuthenStatusError x00 (str "bad secret") []) ∧
    cs_env s' = cs_env s.
Proof.
  intros Hl Hid Hseq Hlen Hf Href.
  destruct (login_header_ok MinorVersionDefault (tp_flags p) id (tp_seqNo p) (tp_body p)) as [Ht Hv]; [by left|done..|].
  destruct (exchange_refused h ctx _ _ cl s Hl Ht Hv Hf Href)
    as (h' & b & cl' & s' & He & Hs & Hi & _ & (Hb & _) & _ & Henv).
  exists h', b, cl', s'. split; [exact He|]. split_and!; [exact Hs|exact Hi|by apply Hb|exact Henv].
Qed.

End Sessions.

(** ** Witness: a login with a body that does not decode, sent in the clear, at the
    prompt for the password, and the same body obfuscated after it *)
#[local] Existing Instances z_Hash z_Regexp z_Platform z_Dialer.

Definition s_garbage : list byte := repeat xff 20.
Definition s_turns : list turn_packet := [mkTurn x00 3 x_continue_bytes; mkTurn UnencryptedFlag 7 s_garbage].
Definition s_expected : AuthenReply :=
  mkAuthenReply AuthenStatusError x00
    (str "expected authenticate continue packet for AuthenStatusGetPass") [].

Lemma s_garbage_refused : all_refused Authenticate s_garbage.
Proof. left. split; [reflexivity|]. split; [|split]; eexists; vm_compute; reflexivity. Qed.

