(* ===== verification/AuthzTheorems.v ===== *)
(** The properties of the stringy authorizer: which commands are permitted and
    which arguments a session is given. *)
From S2P Require Import Prelude.
From S2P Require Import GoStrings.
From S2P Require Import HeaderFields.
From S2P Require Import AuthenFields.
From S2P Require Import AuthorFields.
From S2P Require Import Args.
From S2P Require Import Authorize.
From S2P Require Import Config.
From S2P Require Import Stringy.

(** ** Commands *)
Section Commands.
Context {RE : Regexp}.

(** The name and the patterns of a command as [TrimSpace] leaves them. *)
Definition cmd_name (c : Command) : gostring := strings_TrimSpace (Command_Name c).
Definition cmd_regexes (c : Command) : list gostring := strings_TrimSpace <$> Command_Match c.

(** The first pattern that is bad or matches is good and matches. *)
Definition regex_hit (regexes : list gostring) (args : gostring) : Prop :=
  ∃ before re after, regexes = before ++ re :: after ∧
    Forall (λ re, regexp_MatchString re args = Some false) before ∧
    regexp_MatchString re args = Some true.

Definition permits (cmd args : gostring) (c : Command) : Prop :=
  Command_Action c = PERMIT ∧
  (cmd_name c = str "*" ∨
   cmd_name c = cmd ∧ (Command_Match c = [] ∨ regex_hit (cmd_regexes c) args)).

(** The command says nothing about the request. *)
Definition silent (cmd args : gostring) (c : Command) : Prop :=
  cmd_name c ≠ str "*" ∧
  (cmd_name c ≠ cmd ∨
   Command_Match c ≠ [] ∧ Forall (λ re, regexp_MatchString re args = Some false) (cmd_regexes c)).

Lemma match_regexes_spec regexes args action :
  (match_regexes regexes args action = None ∧
   Forall (λ re, regexp_MatchString re args = Some false) regexes) ∨
  (regex_hit regexes args ∧ match_regexes regexes args action = Some (returnBool action)) ∨
  (¬ regex_hit regexes args ∧ ¬ Forall (λ re, regexp_MatchString re args = Some false) regexes ∧
   match_regexes regexes args action = Some false).
Proof.
  induction regexes as [|re regexes IH]; [by left|]. cbn [match_regexes].
  destruct (regexp_MatchString re args) as [[]|] eqn:E.
  - right. left. split; [|done]. by exists [], re, regexes.
  - destruct IH as [[-> IH]|[[(b & re' & a & -> & Hb & Hre) ->]|(Hn & Hf & ->)]].
    + left. split; [done|by constructor].
    + right. left. split; [|done]. exists (re :: b), re', a. split_and!; [done|by constructor|done].
    + right. right. split_and!; [|by intros [_ ?]%Forall_cons|done].
      intros (b & re' & a & Heq & Hb & Hre). apply Hn. destruct b as [|x b].
      * injection Heq as -> ->. congruence.
      * injection Heq as -> ->. apply Forall_cons in Hb as [_ Hb]. by exists b, re', a.
  - right. right. split_and!; [|by intros [? _]%Forall_cons; congruence|done].
    intros (b & re' & a & Heq & Hb & Hre). destruct b as [|x b].
    + injection Heq as -> ->. congruence.
    + injection Heq as -> ->. apply Forall_cons in Hb as [? _]. congruence.
Qed.

(** What one command does to the evaluation. *)
Lemma evaluate_commands_cons c cs cmd args :
  (silent cmd args c ∧ evaluate_commands (c :: cs) cmd args = evaluate_commands cs cmd args) ∨
  (permits cmd args c ∧ evaluate_commands (c :: cs) cmd args = true) ∨
  (¬ silent cmd args c ∧ ¬ permits cmd args c ∧ evaluate_commands (c :: cs) cmd args = false).
Proof.
  unfold silent, permits. cbn [evaluate_commands Command_TrimSpace Command_Name Command_Match Command_Action].
  fold (cmd_name c). fold (cmd_regexes c). unfold returnBool.
  destruct (decide (cmd_name c = str "*")) as [Hstar|Hstar].
  { case_bool_decide as Hp; right; [left|right]; naive_solver. }
  destruct (decide (cmd_name c ≠ cmd)) as [Hn|Hn]; [left; naive_solver|].
  apply dec_stable in Hn.
  assert (cmd_regexes c = [] ↔ Command_Match c = []) as Hnil.
  { unfold cmd_regexes. by destruct (Command_Match c). }
  destruct (cmd_regexes c) as [|re regexes] eqn:Er.
  { assert (Command_Match c = []) by naive_solver.
    case_bool_decide as Hp; right; [left|right]; naive_solver. }
  assert (Command_Match c ≠ []) by naive_solver.
  destruct (match_regexes_spec (re :: regexes) args (Command_Action c))
    as [[-> HF]|[[Hit ->]|(Hn1 & Hn2 & ->)]].
  - left. naive_solver.
  - unfold returnBool. case_bool_decide as Hp; right; [left; naive_solver|right].
    split_and!; [|naive_solver|done]. intros [_ [?|[_ HF]]]; [done|].
    destruct Hit as (b & re' & a & Heq & _ & Hre). rewrite Heq in HF.
    apply Forall_app in HF as [_ HF]. apply Forall_cons in HF as [HF _]. congruence.
  - right. right. naive_solver.
Qed.

Lemma command_evaluate_spec b u :
  let cmd := Args_Command (AuthorRequest_Args b) in
  let args := Args_CommandArgs (AuthorRequest_Args b) in
  command_evaluate b u = true ↔
  ∃ pre c post, User_Commands u = pre ++ c :: post ∧
    Forall (silent cmd args) pre ∧ permits cmd args c.
Proof.
  cbv zeta. unfold command_evaluate.
  set (cmd := Args_Command _). set (args := Args_CommandArgs _).
  induction (User_Commands u) as [|c cs IH].
  { split; [done|]. intros ([|c0 pre] & c1 & post & ? & _); done. }
  destruct (evaluate_commands_cons c cs cmd args) as [[Hs ->]|[[Hp ->]|(Hns & Hnp & ->)]].
  - rewrite IH. split.
    + intros (pre & c' & post & -> & Hpre & Hp). exists (c :: pre), c', post.
      split_and!; [done|by constructor|done].
    + intros ([|x pre] & c' & post & Heq & Hpre & Hp).
      * injection Heq as -> ->. exfalso. destruct Hs as [Hstar Hs], Hp as (_ & [?|[Hn [?|Hit]]]); [done|naive_solver|].
        destruct Hs as [?|[_ HF]]; [done|]. destruct Hit as (bf & re & a & Hre & _ & Hre').
        rewrite Hre in HF. apply Forall_app in HF as [_ HF]. apply Forall_cons in HF as [HF _]. congruence.
      * injection Heq as -> ->. apply Forall_cons in Hpre as [_ Hpre]. by exists pre, c', post.
  - split; [|done]. intros _. by exists [], c, cs.
  - split; [done|]. intros ([|x pre] & c' & post & Heq & Hpre & Hp).
    + by injection Heq as -> ->.
    + injection Heq as -> ->. by apply Forall_cons in Hpre as [? _].
Qed.

(** A command is authorized if and only if some command of the user
    permits it and every command before that one is silent about it; without
    such a command it is denied. A pattern that does not compile denies. *)
Theorem command_first_match b u :
  let cmd := Args_Command (AuthorRequest_Args b) in
  let args := Args_CommandArgs (AuthorRequest_Args b) in
  command_evaluate b u = true ↔
  ∃ pre c post, User_Commands u = pre ++ c :: post ∧
    Forall (silent cmd args) pre ∧ permits cmd args c.
Proof. apply command_evaluate_spec. Qed.
End Commands.

(** ** Sessions *)

(** An argument names a service by its attribute or by its value. *)
Definition names_service (name : gostring) (avp : gostring) : Prop :=
  (Arg_ASV avp).1.1 = name ∨ (Arg_ASV avp).2 = name.

Definition service_name (s : Service) : gostring := strings_TrimSpace (Service_Name s).

(** Every condition of a service names an attribute of the request, and each
    value it lists is the one the request ends up with. *)
Definition conditions_hold (args : list gostring) (s : Service) : Prop :=
  Forall (λ m, ∃ v, args_map args !! Value_Name m = Some v ∧ Forall (v =.) (Value_Values m))
    (Service_Match s).

Definition selected (args : list gostring) (s : Service) : Prop :=
  (∃ avp, avp ∈ args ∧ names_service (service_name s) avp) ∧ conditions_hold args s.

Lemma match_conditions_spec kvs matchers :
  match_conditions kvs matchers = true ↔
  Forall (λ m, ∃ v, kvs !! Value_Name m = Some v ∧ Forall (v =.) (Value_Values m)) matchers.
Proof.
  induction matchers as [|m matchers IH]; [done|]. cbn [match_conditions]. rewrite Forall_cons, <- IH.
  destruct (kvs !! Value_Name m) as [v|]; [|naive_solver].
  assert (forallb (λ v0, bool_decide (v = v0)) (Value_Values m) = true ↔ Forall (v =.) (Value_Values m)) as Hv.
  { rewrite forallb_forall, Forall_forall. setoid_rewrite bool_decide_eq_true.
    by setoid_rewrite list_elem_of_In. }
  destruct (forallb _ _); naive_solver.
Qed.

Lemma modifier_loop_elem all args s avps optional x :
  x ∈ (modifier_loop all args s avps optional).1 ↔
  x ∈ avps ∨
  ((∃ avp, avp ∈ args ∧ names_service (Service_Name s) avp) ∧ conditions_hold all s ∧
   x ∈ Value_String <$> Service_SetValues s).
Proof.
  revert avps optional. induction args as [|avp args IH]; intros avps optional; cbn [modifier_loop].
  { set_solver. }
  destruct (Arg_ASV avp) as [[a sep] v] eqn:Ea. unfold collateAVPs.
  assert (names_service (Service_Name s) avp ↔ a = Service_Name s ∨ v = Service_Name s) as Hname.
  { unfold names_service. by rewrite Ea. }
  assert ((∃ avp', avp' ∈ avp :: args ∧ names_service (Service_Name s) avp') ↔
          names_service (Service_Name s) avp ∨ ∃ avp', avp' ∈ args ∧ names_service (Service_Name s) avp') as Hex.
  { set_solver. }
  destruct (decide (a ≠ Service_Name s ∧ v ≠ Service_Name s)) as [Hno|Hyes].
  { rewrite IH, Hex. naive_solver. }
  assert (names_service (Service_Name s) avp) as Hn.
  { apply Hname. destruct (decide (a = Service_Name s)); [by left|right].
    apply dec_stable. naive_solver. }
  case_decide as Hm.
  - rewrite IH, elem_of_app, Hex. unfold conditions_hold. rewrite Hm. naive_solver.
  - unfold serviceMatcher. destruct (match_conditions _ _) eqn:Hc.
    + apply match_conditions_spec in Hc. rewrite IH, elem_of_app, Hex. unfold conditions_hold. naive_solver.
    + assert (¬ conditions_hold all s) as Hnc.
      { intros Hh. apply match_conditions_spec in Hh. congruence. }
      rewrite IH, Hex. naive_solver.
Qed.

Lemma evaluate_services_elem services args acc status x :
  x ∈ (evaluate_services services args acc status).1 ↔
  (∃ a, a ∈ acc ∧ x = Arg_String a) ∨
  ∃ s v, s ∈ services ∧ selected args s ∧ v ∈ Service_SetValues s ∧ x = Arg_String (Value_String v).
Proof.
  revert acc status. induction services as [|s services IH]; intros acc status; cbn [evaluate_services].
  { cbn [fst]. destruct (unique_loop_spec ∅ acc) as (_ & He & _).
    unfold Args_Args, Args_Unique. rewrite He, list_elem_of_fmap. set_solver. }
  destruct (serviceMatcherModifier args (Service_TrimSpace s)) as [matched optional] eqn:Em.
  rewrite IH.
  assert (∀ a, a ∈ matched ↔ selected args s ∧ a ∈ Value_String <$> Service_SetValues s) as Ha.
  { intros a. pose proof (modifier_loop_elem args args (Service_TrimSpace s) [] false a) as Hl.
    unfold serviceMatcherModifier in Em. rewrite Em in Hl. cbn [fst] in Hl. rewrite Hl.
    unfold selected, conditions_hold, service_name. cbn. set_solver. }
  unfold Args_Append. setoid_rewrite elem_of_app. setoid_rewrite Ha. setoid_rewrite elem_of_cons.
  setoid_rewrite list_elem_of_fmap. naive_solver.
Qed.

Lemma evaluate_services_NoDup services args acc status :
  NoDup (evaluate_services services args acc status).1.
Proof.
  revert acc status. induction services as [|s services IH]; intros acc status; cbn [evaluate_services].
  - by destruct (unique_loop_spec ∅ acc) as (? & _).
  - destruct (serviceMatcherModifier _ _). apply IH.
Qed.

(** The arguments a session is given are exactly the values set by the
    services of the user that the request selects, each once: nothing the
    client sends becomes part of the reply. A service is selected when an
    argument of the request, or the scope of the user, names it and all its
    conditions hold. *)
Theorem session_arguments b u :
  let args := Args_Args (AuthorRequest_Args b ++ [User_GetLocalizedScope u]) in
  NoDup (session_evaluate b u).1 ∧
  ∀ x, x ∈ (session_evaluate b u).1 ↔
       ∃ s v, s ∈ User_Services u ∧ selected args s ∧ v ∈ Service_SetValues s ∧
              x = Arg_String (Value_String v).
Proof.
  intros args. split; [apply evaluate_services_NoDup|]. intros x.
  unfold session_evaluate. rewrite evaluate_services_elem. set_solver.
Qed.

(** *** The scope of a request *)

(** The conditions of a service on the scope hold of this one. *)
Definition fits_scope (scope : gostring) (s : Service) : Prop :=
  Forall (λ m, Value_Name m = str "scope" → Forall (scope =.) (Value_Values m)) (Service_Match s).

(** It has conditions on the scope only, and they hold of this one. *)
Definition only_scope (scope : gostring) (s : Service) : Prop :=
  Forall (λ m, Value_Name m = str "scope" ∧ Forall (scope =.) (Value_Values m)) (Service_Match s).

Definition scope_arg (scope : gostring) : gostring := str "scope=" ++ scope.

Lemma unique_loop_app seen (l1 l2 : list gostring) :
  unique_loop seen (l1 ++ l2) =
  unique_loop seen l1 ++ unique_loop (seen ∪ list_to_set (Arg_String <$> l1)) l2.
Proof.
  revert seen. induction l1 as [|a l1 IH]; intros seen; cbn [app unique_loop].
  { f_equal. set_solver. }
  rewrite fmap_cons. cbn [list_to_set]. case_decide as Ha; [rewrite IH|cbn [app]; rewrite IH]; do 2 f_equal.
  - set_solver.
  - f_equal. set_solver.
Qed.

Lemma Args_Args_app (l1 l2 : list gostring) :
  Args_Args (l1 ++ l2) =
  Args_Args l1 ++ (Arg_String <$> unique_loop (list_to_set (Arg_String <$> l1)) l2).
Proof.
  unfold Args_Args, Args_Unique. rewrite unique_loop_app, fmap_app. do 3 f_equal. set_solver.
Qed.

(** The last argument of an attribute counts. *)
Lemma args_map_last k a sep v (l1 l2 : list gostring) :
  Arg_ASV a = (k, sep, v) → Forall (λ a, (Arg_ASV a).1.1 ≠ k) l2 → args_map (l1 ++ a :: l2) !! k = Some v.
Proof.
  intros Ha Hl. unfold args_map. rewrite foldl_app. cbn [foldl]. rewrite Ha.
  generalize (foldl (λ (kvs : gmap gostring gostring) arg, let '(a, _, v) := Arg_ASV arg in <[a := v]> kvs) ∅ l1).
  intros kvs. assert (<[k := v]> kvs !! k = Some v) as Hk by apply lookup_insert_eq.
  revert Hk. generalize (<[k := v]> kvs). clear kvs.
  induction Hl as [|b l2 Hb Hl IH]; intros kvs Hk; [done|]. cbn [foldl]. apply IH.
  destruct (Arg_ASV b) as [[k' ?] v']. cbn in Hb. by rewrite lookup_insert_ne.
Qed.

Lemma scope_arg_ASV scope :
  Arg_String (scope_arg scope) = scope_arg scope → Arg_ASV (scope_arg scope) = (str "scope", str "=", scope).
Proof. intros Hs. unfold Arg_ASV. rewrite Hs. by destruct scope. Qed.

(** The scope is the one of the user, if the client does not send it. *)
Lemma own_scope_counts (l : list gostring) own :
  Arg_String (scope_arg own) = scope_arg own → scope_arg own ∉ Arg_String <$> l →
  args_map (Args_Args (l ++ [scope_arg own])) !! str "scope" = Some own.
Proof.
  intros Ho Hn. rewrite Args_Args_app. cbn [unique_loop].
  rewrite Ho, decide_False by set_solver. rewrite fmap_cons, Ho.
  eapply args_map_last; [by apply scope_arg_ASV|constructor].
Qed.

(** It is the one the client sends after it, if it does. *)
Lemma other_scope_counts (pre post : list gostring) own other :
  Arg_String (scope_arg own) = scope_arg own → Arg_String (scope_arg other) = scope_arg other →
  scope_arg own ∈ Arg_String <$> pre → scope_arg other ∉ Arg_String <$> pre →
  Forall (λ a, (Arg_ASV (Arg_String a)).1.1 ≠ str "scope") post →
  args_map (Args_Args ((pre ++ scope_arg other :: post) ++ [scope_arg own])) !! str "scope" = Some other.
Proof.
  intros Ho Ho' Hin Hn Hpost. rewrite <- app_assoc. cbn [app]. rewrite Args_Args_app.
  cbn [unique_loop]. rewrite Ho', decide_False by set_solver. rewrite fmap_cons, Ho'.
  eapply args_map_last; [by apply scope_arg_ASV|]. apply Forall_forall. intros a Ha.
  match type of Ha with _ ∈ _ <$> unique_loop ?seen ?l => destruct (unique_loop_spec seen l) as (_ & He & _) end.
  apply He in Ha as [Ha Hs]. rewrite fmap_app, elem_of_app in Ha. destruct Ha as [Ha|Ha].
  - apply list_elem_of_fmap in Ha as (b & -> & Hb). by eapply Forall_forall in Hpost.
  - exfalso. apply Hs. apply list_elem_of_fmap in Ha as (b & -> & Hb).
    apply list_elem_of_singleton in Hb as ->. rewrite Ho. set_solver.
Qed.

Lemma conditions_fit_scope args s scope :
  args_map args !! str "scope" = Some scope → conditions_hold args s → fits_scope scope s.
Proof.
  intros Hm Hc. eapply Forall_impl; [exact Hc|]. cbn. intros m (v & Hv & Hf) Hn. rewrite Hn in Hv.
  assert (Some v = Some scope) as [= ->]; [|done]. etrans; [symmetry; exact Hv|exact Hm].
Qed.

Lemma only_scope_conditions args s scope :
  args_map args !! str "scope" = Some scope → only_scope scope s → conditions_hold args s.
Proof.
  intros Hm Hc. eapply Forall_impl; [exact Hc|]. cbn. intros m (Hn & Hf). exists scope. rewrite Hn. split; [exact Hm|done].
Qed.

(** C39. A client can choose the scope the services of a session are selected in.
    If it does not send the argument of the user's own scope, the one the server
    appends counts: every value of the reply is one of a service whose conditions
    on the scope hold of it. But if the client sends that argument itself, and
    another scope after it, the appended one is dropped as a duplicate: every
    value of the reply is then one of a service whose conditions on the scope hold
    of the scope of the client, and each service named by an argument of the
    request that has conditions on the scope only, which hold of that one, gives
    all its values. *)
Theorem scope_overridden own b u :
  User_GetLocalizedScope u = scope_arg own → Arg_String (scope_arg own) = scope_arg own →
  let gives_in scope := ∀ x, x ∈ (session_evaluate b u).1 →
    ∃ s v, s ∈ User_Services u ∧ fits_scope scope s ∧ v ∈ Service_SetValues s ∧ x = Arg_String (Value_String v) in
  (scope_arg own ∉ Arg_String <$> AuthorRequest_Args b → gives_in own) ∧
  (∀ other pre post,
    AuthorRequest_Args b = pre ++ scope_arg other :: post → Arg_String (scope_arg other) = scope_arg other →
    scope_arg own ∈ Arg_String <$> pre → scope_arg other ∉ Arg_String <$> pre →
    Forall (λ a, (Arg_ASV (Arg_String a)).1.1 ≠ str "scope") post →
    gives_in other ∧
    ∀ s v, s ∈ User_Services u →
      (∃ avp, avp ∈ Arg_String <$> AuthorRequest_Args b ∧ names_service (service_name s) avp) →
      only_scope other s → v ∈ Service_SetValues s → Arg_String (Value_String v) ∈ (session_evaluate b u).1).
Proof.
  intros Hu Hown gives_in.
  assert (∀ scope, args_map (Args_Args (AuthorRequest_Args b ++ [User_GetLocalizedScope u])) !! str "scope" = Some scope →
    gives_in scope) as Hg.
  { intros scope Hm x Hx. unfold session_evaluate in Hx.
    apply evaluate_services_elem in Hx as [(? & []%not_elem_of_nil & _)|(s & v & Hs & [_ Hc] & Hv & ->)].
    exists s, v. split_and!; [done|by eapply conditions_fit_scope|done|done]. }
  split.
  - intros Hn. apply Hg. rewrite Hu. by apply own_scope_counts.
  - intros other pre post Hb Hother Hin Hn Hpost.
    assert (args_map (Args_Args (AuthorRequest_Args b ++ [User_GetLocalizedScope u])) !! str "scope" = Some other) as Hm.
    { rewrite Hu, Hb. by apply other_scope_counts. }
    split; [by apply Hg|]. intros s v Hs (avp & Havp & Hname) Honly Hv. unfold session_evaluate.
    apply evaluate_services_elem. right. exists s, v. split_and!; [done| |done|done].
    split; [|by eapply only_scope_conditions]. exists avp. split; [|done].
    destruct (unique_loop_spec ∅ (AuthorRequest_Args b ++ [User_GetLocalizedScope u])) as (_ & He & _).
    apply He. rewrite fmap_app. set_solver.
Qed.

(** *** Witness: a user of the scope "prod" with a service for the scope "lab" *)
Definition scope_service : Service :=
  mkService (str "shell") [mkValue (str "scope") [str "lab"] false] [mkValue (str "priv-lvl") [str "15"] false] false.
Definition scope_user : User := mkUser (str "joe") [str "prod"] [] [scope_service] [] None None.
Definition scope_request (args : list gostring) : AuthorRequest :=
  mkAuthorRequest AuthenMethodTacacsPlus x01 AuthenTypeASCII AuthenServiceLogin (str "joe") [] [] args.

(** Asked for a shell, the server gives nothing; with two scopes, the level. *)
Lemma scope_overridden_witness :
  (session_evaluate (scope_request [str "service=shell"]) scope_user).1 = [] ∧
  str "priv-lvl=15" ∈
    (session_evaluate (scope_request [str "service=shell"; str "scope=prod"; str "scope=lab"]) scope_user).1.
Proof.
  split.
  - destruct (scope_overridden (str "prod") (scope_request [str "service=shell"]) scope_user) as [H _];
      [reflexivity|vm_compute; reflexivity|].
    destruct (session_evaluate (scope_request [str "service=shell"]) scope_user).1 as [|x l] eqn:E; [reflexivity|].
    exfalso. destruct (H ltac:(apply (bool_decide_unpack _); vm_compute; exact I) x) as (s & v & Hs & Hc & _).
    + left.
    + apply list_elem_of_singleton in Hs as ->. apply Forall_cons in Hc as [Hc _]. specialize (Hc eq_refl).
      apply Forall_cons in Hc as [Hc _]. discriminate.
  - destruct (scope_overridden (str "prod")
      (scope_request [str "service=shell"; str "scope=prod"; str "scope=lab"]) scope_user) as [_ H];
      [reflexivity|vm_compute; reflexivity|].
    destruct (H (str "lab") [str "service=shell"; str "scope=prod"] []) as [_ Hv];
      [reflexivity|vm_compute; reflexivity|apply (bool_decide_unpack _); vm_compute; exact I
      |apply (bool_decide_unpack _); vm_compute; exact I|constructor|].
    apply (Hv scope_service (mkValue (str "priv-lvl") [str "15"] false)); [left| | |left].
    + exists (str "service=shell"). split; [|right; vm_compute; reflexivity].
      apply (bool_decide_unpack _); vm_compute; exact I.
    + constructor; [|constructor]. split; [reflexivity|]. constructor; [reflexivity|constructor].
Defined.
