(* ===== verification/LoaderTheorems.v ===== *)
(** The properties of the loader: which users a scope has, which connections
    get which secret and handler, and what a loaded server promises. *)
From S2P Require Import Prelude.
From S2P Require Import GoStrings.
From S2P Require Import Buffer.
From S2P Require Import HeaderFields.
From S2P Require Import AuthorFields.
From S2P Require Import Args.
From S2P Require Import Authorize.
From S2P Require Import MD5.
From S2P Require Import Proxy.
From S2P Require Import Crypter.
From S2P Require Import Sessions.
From S2P Require Import Response.
From S2P Require Import Server.
From S2P Require Import Config.
From S2P Require Import Stringy.
From S2P Require Import AAA.
From S2P Require Import Handlers.
From S2P Require Import SecretProviders.
From S2P Require Import Loader.
From S2P Require Import HandlerSafety.
From S2P Require Import ServerTheorems.
From S2P Require Import AuthzTheorems.

(** ** Users of a scope *)

(** The first of some optional settings. *)
Definition first_set {A} (l : list (option A)) : option A := head (omap id l).

Lemma first_set_cons {A} (x : option A) l : first_set (x :: l) = match x with Some a => Some a | None => first_set l end.
Proof. by destruct x. Qed.

Lemma reduce_loop_spec groups u :
  reduce_loop groups u =
  set_AA u (first_set (User_Authenticator u :: (Group_Authenticator <$> groups)))
    (first_set (User_Accounter u :: (Group_Accounter <$> groups))).
Proof.
  revert u. induction groups as [|g groups IH]; intros u; cbn [reduce_loop fmap list_fmap].
  { destruct u as [n s gr sv cm [a|] [c|]]; done. }
  rewrite !first_set_cons.
  destruct u as [n s gr sv cm a c]. cbn [User_Authenticator User_Accounter].
  destruct (Group_Authenticator g) as [ga|], (Group_Accounter g) as [gc|], a as [a|], c as [c|];
    cbn [set_AA User_Authenticator User_Accounter]; rewrite ?IH; done.
Qed.

Lemma reduce_groups u :
  reduceAuthenticatorAccounterFromGroups u =
  set_AA u (first_set (User_Authenticator u :: (Group_Authenticator <$> User_Groups u)))
    (first_set (User_Accounter u :: (Group_Accounter <$> User_Groups u))).
Proof.
  unfold reduceAuthenticatorAccounterFromGroups. rewrite reduce_loop_spec, !first_set_cons.
  destruct u as [n s gr sv cm [a|] [c|]]; done.
Qed.

(** Groups give a user an authenticator and an accounter where it has none:
    each is the user's own, or else that of the first group that has one, and
    nothing else of the user changes; the early ends of the loop do not
    matter. *)
Theorem groups_reduced u :
  reduceAuthenticatorAccounterFromGroups u =
  set_AA u (first_set (User_Authenticator u :: (Group_Authenticator <$> User_Groups u)))
    (first_set (User_Accounter u :: (Group_Accounter <$> User_Groups u))).
Proof. apply reduce_groups. Qed.

Section Scopes.
Context {NT : Net}.

Lemma build_user_scope l scope u a : build_user l scope u = Some a → scope ∈ User_Scopes u.
Proof.
  unfold build_user. intros H. apply User_HasScope_spec. by destruct (User_HasScope u scope).
Qed.

Lemma build_users_snoc l scope users u :
  build_users l scope (users ++ [u]) =
  match build_user l scope u with
  | Some a => <[User_Name u := a]> (build_users l scope users)
  | None => build_users l scope users
  end.
Proof. unfold build_users. by rewrite foldl_app. Qed.

(** The entry of a user is built from the last one of that name that is in the
    scope and can be built. *)
Definition last_entry (l : ready) (scope : gostring) (users : list User) (name : gostring) (a : AAA) : Prop :=
  ∃ pre u post, users = pre ++ u :: post ∧ User_Name u = name ∧ scope ∈ User_Scopes u ∧
    build_user l scope u = Some a ∧
    Forall (λ u', User_Name u' = name → build_user l scope u' = None) post.

Lemma last_entry_snoc l scope users u name a :
  last_entry l scope (users ++ [u]) name a ↔
  (User_Name u = name ∧ build_user l scope u = Some a) ∨
  ((User_Name u = name → build_user l scope u = None) ∧ last_entry l scope users name a).
Proof.
  split.
  - intros (pre & u0 & post & Heq & Hn & Hs & Hb & Hp).
    destruct post as [|x post _] using rev_ind.
    + apply app_inj_tail in Heq as [-> <-]. by left.
    + rewrite app_comm_cons, app_assoc in Heq. apply app_inj_tail in Heq as [-> ->].
      apply Forall_app in Hp as [Hp Hx]. apply Forall_inv in Hx. right. split; [exact Hx|].
      by exists pre, u0, post.
  - intros [[Hn Hb]|[Hx (pre & u0 & post & -> & Hn & Hs & Hb & Hp)]].
    + exists users, u, []. pose proof (build_user_scope _ _ _ _ Hb). by repeat (split; [done|]).
    + exists pre, u0, (post ++ [u]). rewrite <- app_assoc. split_and!; [done..|].
      apply Forall_app. split; [done|]. repeat constructor. exact Hx.
Qed.

Lemma build_users_lookup l scope users name a :
  build_users l scope users !! name = Some a ↔ last_entry l scope users name a.
Proof.
  induction users as [|u users IH] using rev_ind.
  { split; [done|]. intros (pre & u & post & Heq & _). by destruct pre. }
  rewrite build_users_snoc, last_entry_snoc, <- IH. unfold Provider in *.
  destruct (build_user l scope u) as [a'|] eqn:Hb.
  - destruct (decide (User_Name u = name)) as [<-|Hne].
    + rewrite lookup_insert_eq. naive_solver.
    + rewrite lookup_insert_ne by done. naive_solver.
  - naive_solver.
Qed.

(** The users of a scope: a name has an entry exactly if some user of that
    name is in the scope and can be built, and the entry is that of the last
    such user of the configuration; users that cannot be built do not remove
    earlier ones. *)
Theorem scope_users l scope users name a :
  build_users l scope users !! name = Some a ↔ last_entry l scope users name a.
Proof. apply build_users_lookup. Qed.
End Scopes.

(** ** Secrets *)
Section Prefixes.
Context {NT : Net}.

(** Some of the prefixes is a network that contains the address. *)
Definition matches (prefixes : list gostring) (ip : gostring) : Prop :=
  ∃ p n, p ∈ prefixes ∧ net_ParseCIDR p = Some n ∧ IPNet_Contains n ip = true.

Lemma SetPrefixSecret_spec conf prefixes p0 cidr c :
  prefix_secrets (SetPrefixSecret conf prefixes p0) !! cidr = Some c ↔
  (c = conf ∧ ∃ p n, p ∈ prefixes ∧ net_ParseCIDR p = Some n ∧ cidr = IPNet_String n) ∨
  ((¬ ∃ p n, p ∈ prefixes ∧ net_ParseCIDR p = Some n ∧ cidr = IPNet_String n) ∧
   prefix_secrets p0 !! cidr = Some c).
Proof.
  induction prefixes as [|p prefixes IH] using rev_ind.
  { cbn. set_solver. }
  unfold SetPrefixSecret in *. rewrite foldl_app. cbn [foldl].
  setoid_rewrite elem_of_app. setoid_rewrite list_elem_of_singleton.
  destruct (net_ParseCIDR p) as [n|] eqn:Hp.
  - cbn [prefix_secrets]. destruct (decide (cidr = IPNet_String n)) as [->|Hne].
    + rewrite lookup_insert_eq. split.
      * intros [= ->]. left. split; [done|]. exists p, n. auto.
      * intros [[-> _]|[Hno _]]; [done|]. destruct Hno. exists p, n. auto.
    + rewrite lookup_insert_ne by done. rewrite IH. naive_solver.
  - rewrite IH. naive_solver.
Qed.

(** A scan in any order of secrets that all hold one config. *)
Definition scan_hits (l : list (gostring * secretConfig)) (ip : gostring) : Prop :=
  ∃ kc n, kc ∈ l ∧ net_ParseCIDR kc.1 = Some n ∧ IPNet_Contains n ip = true.

Lemma prefix_scan_spec conf l ip :
  Forall (λ kc, kc.2 = conf) l →
  (scan_hits l ip ∧ prefix_scan l (Some ip) = secretConfig_got conf ip) ∨
  (¬ scan_hits l ip ∧
   prefix_scan l (Some ip) = no_secret (Errorf "no matching prefix secret provider found")).
Proof.
  unfold scan_hits. induction l as [|[cidr c] l IH]; intros Hl.
  { right. split; [|done]. intros (kc & n & Hin & _). by apply elem_of_nil in Hin. }
  apply Forall_cons in Hl as [Hc Hl]. cbn in Hc. subst c. cbn [prefix_scan].
  destruct (net_ParseCIDR cidr) as [n|] eqn:Hp; [destruct (IPNet_Contains n ip) eqn:Hn|].
  - left. split; [|done]. exists (cidr, conf), n. split; [left|]. done.
  - destruct (IH Hl) as [[(kc & m & ? & ?) ->]|[Hno ->]]; [left|right]; (split; [|done]).
    + exists kc, m. split; [by right|done].
    + intros (kc & m & Hin & Hm & Hi). apply elem_of_cons in Hin as [->|Hin]; [|naive_solver].
      cbn in Hm. congruence.
  - destruct (IH Hl) as [[(kc & m & ? & ?) ->]|[Hno ->]]; [left|right]; (split; [|done]).
    + exists kc, m. split; [by right|done].
    + intros (kc & m & Hin & Hm & Hi). apply elem_of_cons in Hin as [->|Hin]; [|naive_solver].
      cbn in Hm. congruence.
Qed.

(** The provider that is built for some prefixes, whatever order its map is
    ranged over. *)
Lemma built_prefix_Get conf prefixes l ip port :
  l ≡ₚ map_to_list (prefix_secrets (prefix_New [SetPrefixSecret conf prefixes])) →
  (matches prefixes ip ∧ prefix_Get_in l (TCPAddr (Some ip) port) = secretConfig_got conf ip) ∨
  (¬ matches prefixes ip ∧ prefix_Get_in l (TCPAddr (Some ip) port) =
     no_secret (Errorf "no matching prefix secret provider found")).
Proof.
  intros Hperm. cbn [prefix_New foldl] in Hperm. cbn [prefix_Get_in].
  assert (∀ cidr c, (cidr, c) ∈ l ↔ c = conf ∧ ∃ p n, p ∈ prefixes ∧ net_ParseCIDR p = Some n ∧ cidr = IPNet_String n)
    as Hin.
  { intros cidr c. rewrite Hperm, elem_of_map_to_list, SetPrefixSecret_spec. cbn.
    rewrite lookup_empty. naive_solver. }
  assert (scan_hits l ip ↔ matches prefixes ip) as Hhits.
  { split.
    - intros ([cidr c] & n & Hkc & Hn & Hc). apply Hin in Hkc as (_ & p & m & Hp & Hm & ->).
      cbn in Hn. rewrite (net_ParseCIDR_String _ _ Hm) in Hn. injection Hn as ->. by exists p, n.
    - intros (p & n & Hp & Hn & Hc). exists (IPNet_String n, conf), n. split_and!; [|by eapply net_ParseCIDR_String|done].
      apply Hin. split; [done|]. by exists p, n. }
  destruct (prefix_scan_spec conf l ip) as [[Hh ->]|[Hh ->]].
  - apply Forall_forall. intros [cidr c] [-> _]%Hin. done.
  - left. by rewrite <- Hhits.
  - right. by rewrite <- Hhits.
Qed.

Lemma prefix_scan_nil l :
  prefix_scan l None = no_secret (Errorf "no matching prefix secret provider found").
Proof. induction l as [|[cidr c] l IH]; [done|]. cbn. by destruct (net_ParseCIDR cidr). Qed.

(** Some network of the list contains the address, which is a TCP address. *)
Definition covers (prefixes : list gostring) (remote : Addr) : Prop :=
  ∃ ip port, remote = TCPAddr (Some ip) port ∧ matches prefixes ip.

Lemma built_prefix_remote conf prefixes l remote :
  l ≡ₚ map_to_list (prefix_secrets (prefix_New [SetPrefixSecret conf prefixes])) →
  (∃ ip port, remote = TCPAddr (Some ip) port ∧ matches prefixes ip ∧
     prefix_Get_in l remote = secretConfig_got conf ip) ∨
  (¬ covers prefixes remote ∧ ∃ e, prefix_Get_in l remote = no_secret e).
Proof.
  intros Hperm. destruct remote as [[ip|] port| |].
  - destruct (built_prefix_Get conf prefixes l ip port Hperm) as [[Hm Hg]|[Hm Hg]].
    + left. by exists ip, port.
    + right. split; [intros (? & ? & [= <- <-] & ?); done|]. eexists. exact Hg.
  - right. split; [by intros (? & ? & ? & _)|]. eexists. cbn. by rewrite prefix_scan_nil.
  - right. split; [by intros (? & ? & ? & _)|]. by eexists.
  - right. split; [by intros (? & ? & ? & _)|]. by eexists.
Qed.

(** The order in which Go ranges over the map of a prefix provider does not
    matter: every order gives the same answer to every address, the secret if
    some configured prefix contains the address, and else an error. *)
Theorem prefix_order_irrelevant sc h secret p l remote :
  PrefixProvider_New sc h secret = Some p → l ≡ₚ map_to_list (prefix_secrets p) →
  prefix_Get_in l remote = PrefixProvider_Get p remote.
Proof.
  unfold PrefixProvider_New, PrefixProvider_Get.
  destruct (json_Unmarshal_strings _) as [prefixes|]; [|done].
  destruct (len prefixes =? 0); [done|]. intros [= <-] Hperm.
  destruct remote as [[ip|] port| |]; [| |done..].
  - destruct (built_prefix_Get _ prefixes l ip port Hperm) as [[Hm ->]|[Hm ->]];
      destruct (built_prefix_Get (mkSecretConf secret h) prefixes _ ip port (reflexivity _)) as [[Hm' ->]|[Hm' ->]]; done.
  - cbn. by rewrite !prefix_scan_nil.
Qed.
End Prefixes.

Lemma lookup_one {A} (k t : Z) (a : A) :
  <[k := a]> (∅ : gmap Z A) !! t = if decide (t = k) then Some a else None.
Proof.
  case_decide as H; [subst; by rewrite lookup_insert_eq|by rewrite lookup_insert_ne by done].
Qed.

(** ** The loader of the program *)
Section Program.
Context {NT : Net} (shhh : getSecret).

(** What the options of [main] make of a loader. *)
Definition main_loader : ready :=
  mkReady
    (foldl (λ l opt, opt l) (mkLoader false None None None ∅ ∅ ∅ ∅) (main_options shhh))
    Keychain_Add Provider_New Stringy_New.

Lemma main_loader_New : NewLoader (main_options shhh) = Ok main_loader.
Proof. reflexivity. Qed.

Lemma main_handlerTypes t :
  l_handlerTypes (ld main_loader) !! t = if decide (t = START) then Some Start_factory else None.
Proof. apply lookup_one. Qed.

Lemma main_providerTypes t :
  l_providerTypes (ld main_loader) !! t = if decide (t = PREFIX) then Some Prefix_factory else None.
Proof. apply lookup_one. Qed.

Lemma main_authenticatorTypes t :
  l_authenticatorTypes (ld main_loader) !! t =
  if decide (t = BCRYPT) then Some (Bcrypt_factory (bcrypt_New shhh)) else None.
Proof. apply lookup_one. Qed.

Lemma main_accounterTypes t :
  l_accounterTypes (ld main_loader) !! t = if decide (t = FILE) then Some Local_New else None.
Proof. apply lookup_one. Qed.

(** The users a secret config gives its handler. *)
Definition users_of (c : ServerConfig) (sc : SecretConfig) : Provider :=
  build_users main_loader (SecretConfig_Name sc) (ServerConfig_Users c).

(** A secret config that is used for a remote address: it has users, the types the
    program knows, and a list of prefixes one of which contains the address. *)
Definition serves (c : ServerConfig) (remote : Addr) (sc : SecretConfig) : Prop :=
  users_of c sc ≠ ∅ ∧ HandlerConfig_Type (SecretConfig_Handler sc) = START ∧
  SecretConfig_Type sc = PREFIX ∧
  ∃ prefixes, json_Unmarshal_strings (option_get (SecretConfig_Options sc) (str "prefixes")) = Some prefixes ∧
    covers prefixes remote.

(** What a client of such a config gets: the key, and the start handler over
    the users, in the struct of the provider. *)
Definition granted (c : ServerConfig) (sc : SecretConfig) : got :=
  mkGot (Some (Keychain_Key (SecretConfig_Secret sc)))
    (Some (HSecretConfig (Start_New (users_of c sc)))) None.

Definition not_served : got := no_secret (Errorf "remote [%v] has no secret providers").

Lemma covers_nil remote : ¬ covers [] remote.
Proof. intros (ip & port & _ & p & n & Hp & _). by apply elem_of_nil in Hp. Qed.

(** One secret config. *)
Lemma build_scope_Get c sc remote :
  (serves c remote sc ∧ ∃ sp, build_scope main_loader (ServerConfig_Users c) sc = Some sp ∧
     SecretProvider_Get sp remote = granted c sc) ∨
  (¬ serves c remote sc ∧ ∀ sp, build_scope main_loader (ServerConfig_Users c) sc = Some sp →
     ∃ e, SecretProvider_Get sp remote = no_secret e).
Proof.
  unfold build_scope, serves. fold (users_of c sc). rewrite main_handlerTypes, main_providerTypes.
  repeat case_decide; try (right; split; [naive_solver|done]).
  unfold Prefix_factory, PrefixProvider_New.
  destruct (json_Unmarshal_strings _) as [prefixes|]; [|right; split; [naive_solver|done]].
  destruct (Z.eqb_spec (len prefixes) 0) as [Hl|_].
  { assert (prefixes = []) as -> by (destruct prefixes; [done|rewrite len_cons in Hl; pose proof (len_nonneg prefixes); lia]). right. split; [|done].
    intros (_ & _ & _ & p & [= <-] & Hm). by apply covers_nil in Hm. }
  cbn [fmap option_fmap option_map].
  destruct (built_prefix_remote (mkSecretConf (ld_keychain main_loader (SecretConfig_Secret sc))
    (Start_factory (ld_config main_loader (users_of c sc))
      (HandlerConfig_Options (SecretConfig_Handler sc)))) prefixes _ remote (reflexivity _))
    as [(ip & port & Hr & Hm & Hg)|[Hm [e Hg]]].
  - left. split.
    + split_and!; [done..|]. exists prefixes. split; [done|]. by exists ip, port.
    + eexists. split; [reflexivity|]. exact Hg.
  - right. split; [naive_solver|]. intros sp [= <-]. exists e. exact Hg.
Qed.

Lemma loader_get_cases c scs remote :
  (∃ pre sc post, scs = pre ++ sc :: post ∧ Forall (λ sc, ¬ serves c remote sc) pre ∧ serves c remote sc ∧
     loader_get (omap (build_scope main_loader (ServerConfig_Users c)) scs) remote
     = granted c sc) ∨
  (Forall (λ sc, ¬ serves c remote sc) scs ∧
     loader_get (omap (build_scope main_loader (ServerConfig_Users c)) scs) remote
     = not_served).
Proof.
  induction scs as [|sc scs IH]; [by right|]. cbn [omap list_omap].
  destruct (build_scope_Get c sc remote) as [[Hs (sp & -> & Hg)]|[Hs Hg]].
  { left. exists [], sc, scs. split_and!; [done..|]. cbn [loader_get]. by rewrite Hg. }
  assert (loader_get match build_scope main_loader (ServerConfig_Users c) sc with
          | Some sp => sp :: omap (build_scope main_loader (ServerConfig_Users c)) scs
          | None => omap (build_scope main_loader (ServerConfig_Users c)) scs end remote
          = loader_get (omap (build_scope main_loader (ServerConfig_Users c)) scs) remote) as ->.
  { destruct (build_scope _ _ sc) as [sp|]; [|done]. destruct (Hg sp eq_refl) as [e He].
    cbn [loader_get]. by rewrite He. }
  destruct IH as [(pre & sc' & post & -> & Hpre & Hs' & ->)|[Hscs ->]]; [left|right].
  - exists (sc :: pre), sc', post. split_and!; [done|by constructor|done..].
  - split; [by constructor|done].
Qed.

(** C14. Which secret a connection gets: the server that [main] sets up uses the
    first secret config of the configuration that has users in its scope,
    handler and provider types the program registers, and a prefix that
    contains the TCP address of the client; it answers with the key of that
    config and the start handler over exactly the users of that scope. Without
    such a config the connection is refused. *)
Theorem secret_selected c remote :
  (∃ pre sc post, ServerConfig_Secrets c = pre ++ sc :: post ∧
     Forall (λ sc, ¬ serves c remote sc) pre ∧ serves c remote sc ∧
     loader_get (build main_loader c) remote = granted c sc) ∨
  (Forall (λ sc, ¬ serves c remote sc) (ServerConfig_Secrets c) ∧
     loader_get (build main_loader c) remote = not_served).
Proof. apply loader_get_cases. Qed.

(** ** A server that was loaded *)

(** The bytes of the arguments some services can put into a reply, with their
    length bytes. *)
Definition args_size (services : list Service) : Z :=
  sumZ ((λ v, 1 + len (Arg_String (Value_String v))) <$> concat (Service_SetValues <$> services)).

(** All services of a user and of its groups. *)
Definition all_services (u : User) : list Service :=
  User_Services u ++ concat (Group_Services <$> User_Groups u).

(** A user that cannot bring the server down: bcrypt has a hash wherever it is
    configured, and the services do not set more than a packet can hold. *)
Definition user_ok (u : User) : Prop :=
  (∀ a, Some a ∈ User_Authenticator u :: (Group_Authenticator <$> User_Groups u) →
     Authenticator_Type a = BCRYPT → option_get (Authenticator_Options a) (str "hash") ≠ []) ∧
  args_size (all_services u) < 4294900000.

Definition config_ok (c : ServerConfig) : Prop := Forall user_ok (ServerConfig_Users c).

Lemma first_set_elem {A} (l : list (option A)) a : first_set l = Some a → Some a ∈ l.
Proof.
  induction l as [|x l IH]; [done|]. rewrite first_set_cons. destruct x as [b|].
  - intros [= ->]. left.
  - intros H. right. by apply IH.
Qed.

Lemma ReduceAll_services u : User_Services (ReduceAll u) = all_services u.
Proof.
  unfold ReduceAll, all_services.
  assert (∀ gs u, User_Services (foldl (λ u g,
    mkUser (User_Name u) (User_Scopes u) (User_Groups u)
      (User_Services u ++ Group_Services g) (User_Commands u ++ Group_Commands g)
      (User_Authenticator u) (User_Accounter u)) u gs) =
    User_Services u ++ concat (Group_Services <$> gs)) as H; [|done].
  clear u. induction gs as [|g gs IH]; intros u; cbn [foldl]; [by rewrite app_nil_r|].
  rewrite IH. cbn. by rewrite app_assoc.
Qed.

(** The arguments of a reply are no larger than the values that can be set. *)
Lemma session_evaluate_size b u :
  len (session_evaluate b u).1 + sumZ (len <$> (session_evaluate b u).1) <= args_size (User_Services u).
Proof.
  set (l := (session_evaluate b u).1).
  assert (len l + sumZ (len <$> l) = sumZ ((λ x, 1 + len x) <$> l)) as ->.
  { induction l as [|x l IH]; [done|]. rewrite !fmap_cons, !sumZ_cons, len_cons. lia. }
  set (k := (λ v, Arg_String (Value_String v)) <$> concat (Service_SetValues <$> User_Services u)).
  assert (args_size (User_Services u) = sumZ ((λ x, 1 + len x) <$> k)) as ->.
  { unfold args_size, k. by rewrite <- list_fmap_compose. }
  apply sumZ_submseteq; [apply fmap_submseteq, NoDup_submseteq|].
  - apply evaluate_services_NoDup.
  - intros x. unfold l, session_evaluate. rewrite evaluate_services_elem.
    intros [(a & Ha & _)|(s & v & Hs & _ & Hv & ->)]; [by apply elem_of_nil in Ha|].
    apply list_elem_of_fmap. exists v. split; [done|]. apply list_elem_of_In, in_concat.
    exists (Service_SetValues s). split; [|by apply list_elem_of_In].
    apply list_elem_of_In, list_elem_of_fmap. by exists s.
  - apply Forall_fmap, Forall_true. intros x. cbn. pose proof (len_nonneg x). lia.
Qed.

Lemma build_user_safe scope u a : user_ok u → build_user main_loader scope u = Some a → AAA_safe a.
Proof.
  intros [Hhash Hsize]. unfold build_user. destruct (User_HasScope u scope); [|done]. cbn [negb].
  rewrite reduce_groups. cbn [User_LocalizeToScope User_Authenticator User_Accounter User_Groups set_AA User_Name].
  set (u' := set_AA _ _ _).
  assert (user_handler_safe (HStringy (ReduceAll u'))) as Hauthz.
  { intros b. pose proof (session_evaluate_size b (ReduceAll u')) as H.
    rewrite ReduceAll_services in H. change (all_services u') with (all_services u) in H. lia. }
  assert (∀ opts acct, user_handler_safe acct →
    AAA_safe (foldl (λ a opt, opt a) (mkAAA None DefaultAuthenticator DefaultAuthorizer DefaultAccounter) opts) →
    AAA_safe (NewAAA (opts ++ [SetAAAAccounter acct]))) as Hacct.
  { intros opts acct Hc Ha. unfold NewAAA. rewrite foldl_app. destruct Ha as (? & ? & _). done. }
  cbn [ld_authorizer main_loader Stringy_New].
  assert (∀ o, (o = [] ∨ ∃ h, o = [SetAAAAuthenticator h] ∧ user_handler_safe h) →
    AAA_safe (foldl (λ a opt, opt a) (mkAAA None DefaultAuthenticator DefaultAuthorizer DefaultAccounter)
      ([SetAAAAuthorizer (HStringy (ReduceAll u'))] ++ o))) as Hauth.
  { intros o [->|(h & -> & Hh)]; done. }
  destruct (match first_set (User_Authenticator u :: _) with Some _ => _ | None => _ end) as [o|] eqn:Ho; [|done].
  assert (o = [] ∨ ∃ h, o = [SetAAAAuthenticator h] ∧ user_handler_safe h) as Ho'.
  { destruct (first_set _) as [au|] eqn:Ef; [|injection Ho as <-; by left].
    rewrite main_authenticatorTypes in Ho. case_decide as Ht; [|injection Ho as <-; by left].
    right. unfold Bcrypt_factory, BcryptAuthenticator_New, supportedOptions_validate in Ho.
    case_bool_decide; [done|]. cbn in Ho. injection Ho as <-. eexists. split; [done|]. left.
    cbn. apply Hhash; [|done]. by apply first_set_elem. }
  destruct (first_set (User_Accounter u :: _)) as [ac|]; [rewrite main_accounterTypes; case_decide|];
    intros [= <-].
  - exact (Hacct (_ :: o) HLocal I (Hauth _ Ho')).
  - exact (Hauth _ Ho').
  - exact (Hauth _ Ho').
Qed.

Lemma users_of_safe c sc : config_ok c → provider_safe (users_of c sc).
Proof.
  intros Hc name a Ha. apply build_users_lookup in Ha as (pre & u & post & Heq & _ & _ & Hb & _).
  unfold config_ok in Hc. rewrite Heq, Forall_app, Forall_cons in Hc.
  destruct Hc as (_ & Hu & _). by eapply build_user_safe.
Qed.

(** What an accepted connection is served with. *)
Lemma accepted_granted c remote local input input_end write_errs proxy cr h :
  Serve_accept (loader_get (build main_loader c) remote) local remote input input_end write_errs proxy =
    Some (cr, h) →
  ∃ pre sc post, ServerConfig_Secrets c = pre ++ sc :: post ∧
    Forall (λ sc, ¬ serves c remote sc) pre ∧ serves c remote sc ∧
    cr = newCrypter (Keychain_Key (SecretConfig_Secret sc)) local remote input input_end write_errs proxy ∧
    h = HSecretConfig (Start_New (users_of c sc)).
Proof.
  unfold Serve_accept, build.
  destruct (loader_get_cases c (ServerConfig_Secrets c) remote)
    as [(pre & sc & post & -> & Hpre & Hs & ->)|[_ ->]]; [|done].
  cbn. intros [= <- <-]. by exists pre, sc, post.
Qed.

Section Loaded.
Context {HH : Hash} {RE : Regexp} {PL : Platform} {DL : Dialer}.

(** A configuration that is checked user by user keeps the server up: if
    every bcrypt authenticator of a user or of its groups has a hash, and the
    services of no user set more than a packet can hold, then no connection
    the loaded server accepts, from any address and with any input, makes it
    panic. *)
Theorem loaded_server_never_crashes c remote local input input_end write_errs proxy cr h ctx w s :
  config_ok c →
  Serve_accept (loader_get (build main_loader c) remote) local remote input input_end write_errs proxy =
    Some (cr, h) →
  reachable h ctx cr w s → ∀ st, s ≠ Crashed st.
Proof.
  intros Hc (pre & sc & post & _ & _ & _ & _ & ->)%accepted_granted Hr st ->.
  apply (reachable_safe _ ctx cr w) in Hr; [done|]. by apply users_of_safe.
Qed.
End Loaded.
End Program.

(** ** Queries and new configurations *)
Section Updates.
Context {NT : Net}.

(** The specification: every query is answered from the providers of the last
    configuration before it, and from none before the first. *)
Fixpoint answers_of (l : ready) (latest : option ServerConfig) (us : list update) : list got :=
  match us with
  | [] => []
  | NewConfig c :: us => answers_of l (Some c) us
  | Query remote :: us =>
    match latest with
    | None => no_secret (Errorf "remote [%v] has no secret providers")
    | Some c => loader_get (build l c) remote
    end :: answers_of l latest us
  end.

(** The state of the loop that represents a latest configuration; the filters
    are not constrained. *)
Definition represents (l : ready) (latest : option ServerConfig) (s : updates_state) : Prop :=
  us_providers s = match latest with None => [] | Some c => build l c end.

Lemma updates_refines_gen l latest s us :
  represents l latest s → (updates l s us).2 = answers_of l latest us.
Proof.
  revert latest s. induction us as [|[c|remote] us IH]; intros latest s Hs; [done| |]; cbn [updates answers_of].
  - cbn [updates_step]. destruct (createPrefixFilters c) as [deny allow].
    specialize (IH (Some c) (mkUpdates (build l c) deny allow true) eq_refl).
    by destruct (updates l _ us).
  - cbn [updates_step]. specialize (IH latest s Hs). destruct (updates l s us) as [s' a]. cbn in *.
    rewrite Hs, IH. by destruct latest.
Qed.

(** The loop of the loader implements its specification: in every sequence
    of configurations and queries each query is answered from the latest
    configuration alone; nothing of an earlier one is left over, and before
    the first every query is refused. *)
Theorem updates_refine l us : (updates l updates_init us).2 = answers_of l None us.
Proof. by apply updates_refines_gen. Qed.

(** [BlockUntilLoaded] blocks until there has been a configuration, and never
    again. *)
Theorem BlockUntilLoaded_returns l s us :
  BlockUntilLoaded (updates l s us).1 = Some tt ↔ us_warm s = true ∨ ∃ c, NewConfig c ∈ us.
Proof.
  revert s. induction us as [|u us IH]; intros s.
  - unfold BlockUntilLoaded. cbn. destruct (us_warm s); [by split; [left|]|].
    split; [done|]. intros [?|(c & Hc)]; [done|]. by apply elem_of_nil in Hc.
  - cbn [updates]. destruct (updates_step l s u) as [[s' log] a] eqn:E.
    specialize (IH s'). destruct (updates l s' us) as [s'' answers]. cbn [fst] in *. rewrite IH.
    destruct u as [c|remote]; cbn in E; [destruct (createPrefixFilters c)|]; injection E as <- <- <-; cbn;
      setoid_rewrite elem_of_cons; naive_solver.
Qed.

(** A configuration with other prefix filters. *)
Definition set_filters (f : list gostring * list gostring) (c : ServerConfig) : ServerConfig :=
  mkServerConfig (ServerConfig_Secrets c) (ServerConfig_Users c) f.1 f.2.

(** A run in which each configuration has the filters given for it. *)
Definition refilter (f : ServerConfig → list gostring * list gostring) (u : update) : update :=
  match u with NewConfig c => NewConfig (set_filters (f c) c) | Query remote => Query remote end.

(** The prefix filters of a configuration have no effect but log messages:
    whatever is put into the deny and the allow lists, every query of every run
    gets the answer it gets without them. *)
Theorem prefix_filters_ignored l f us :
  (updates l updates_init (refilter f <$> us)).2 = (updates l updates_init us).2.
Proof.
  rewrite !(updates_refines_gen l None) by done. generalize (None : option ServerConfig) as latest.
  assert (∀ latest latest', (∀ c, latest = Some c → ∃ c', latest' = Some c' ∧ build l c' = build l c) →
    (latest = None → latest' = None) →
    answers_of l latest' (refilter f <$> us) = answers_of l latest us) as H.
  { induction us as [|[c|remote] us IH]; intros latest latest' Hc Hn; [done| |]; cbn.
    - apply IH; [|done]. intros c0 [= <-]. by eexists.
    - rewrite (IH latest latest' Hc Hn). f_equal. destruct latest as [c|]; [|by rewrite Hn].
      destruct (Hc c eq_refl) as (c' & -> & Hb). by rewrite Hb. }
  intros latest. apply H; [|done]. intros c ->. by exists c.
Qed.
End Updates.

(** ** Witnesses: networks are prefixes of the text of an address, and a list of
    two of them is written without a separator. *)
#[local] Instance y_Net : Net := {|
  IPNet := gostring;
  net_ParseCIDR s := Some s;
  IPNet_String n := n;
  IPNet_Contains n ip := bool_decide (take (length n) ip = n);
  net_ParseCIDR_String _ _ _ := eq_refl;
  net_LookupAddr _ := Some [];
  json_Unmarshal_strings s := if decide (s = []) then None else Some [take 2 s; drop 2 s];
|}.
#[local] Instance y_Hash : Hash := MD5.
#[local] Instance y_Regexp : Regexp := w_Regexp.
#[local] Instance y_Platform : Platform := w_Platform.
#[local] Instance y_Dialer : Dialer := w_Dialer.

Definition y_user : User :=
  mkUser (str "cisco") [str "localhost"] [] [] []
    (Some (mkAuthenticator BCRYPT {[ str "hash" := str "636973636f" ]}))
    (Some (mkAccounter (str "file") FILE ∅)).
Definition y_secret : SecretConfig :=
  mkSecretConfig (str "localhost") (mkKeychain (str "tacquito") (str "fooman")) (mkHandlerConfig START ∅)
    PREFIX {[ str "prefixes" := str "::10." ]}.
Definition y_config : ServerConfig := mkServerConfig [y_secret] [y_user] [] [].
Definition y_shhh : getSecret := λ _ _, Err (Errorf "not implemented").
Definition y_remote : Addr := TCPAddr (Some (str "::2")) 5000.

Definition y_provider : option PrefixProvider :=
  PrefixProvider_New y_secret None (Keychain_Add (SecretConfig_Secret y_secret)).

Lemma prefix_order_irrelevant_witness :
  ∃ p, y_provider = Some p ∧ size (prefix_secrets p) = 2%nat ∧
    prefix_Get_in (reverse (map_to_list (prefix_secrets p))) y_remote = PrefixProvider_Get p y_remote.
Proof.
  destruct y_provider as [p|] eqn:E; [|vm_compute in E; discriminate E].
  exists p. split; [reflexivity|]. split.
  - vm_compute in E. injection E as <-. vm_compute. reflexivity.
  - apply (prefix_order_irrelevant _ _ _ p (reverse (map_to_list (prefix_secrets p))) y_remote E).
    apply reverse_Permutation.
Defined.

Lemma y_config_ok : config_ok y_config.
Proof.
  repeat constructor. intros a Ha _. cbn in Ha. apply list_elem_of_singleton in Ha as [= ->].
  vm_compute. discriminate.
Qed.

Lemma loaded_server_never_crashes_witness :
  ∃ cr h, Serve_accept (loader_get (build (main_loader y_shhh) y_config) y_remote) (OtherAddr [] []) y_remote
      (w_packet MinorVersionOne 1 7 w_pap_bytes) EOF [] false = Some (cr, h) ∧
    ∀ st, serve_packet h ∅ (mkConn cr newSessionProvider (mkEnv [] [])) ≠ Crashed st.
Proof.
  destruct (Serve_accept _ _ _ _ _ _ _) as [[cr h]|] eqn:E; [|vm_compute in E; discriminate E].
  exists cr, h. split; [reflexivity|].
  apply (loaded_server_never_crashes y_shhh y_config y_remote _ _ _ _ _ cr h ∅ (mkEnv [] []) _ y_config_ok E).
  eapply rtc_l; [apply step_packet|apply rtc_refl].
Defined.
