(* ===== verification/ConfigFileTheorems.v ===== *)
(** The properties of the configuration files: what reaches the loader, in
    which order, and what a reload keeps. *)
From S2P Require Import Prelude.
From S2P Require Import GoStrings.
From S2P Require Import Proxy.
From S2P Require Import Response.
From S2P Require Import Config.
From S2P Require Import AAA.
From S2P Require Import SecretProviders.
From S2P Require Import Loader.
From S2P Require Import ConfigFiles.
From S2P Require Import LoaderTheorems.

Section Pipeline.
Context (decode : decoder) {NT : Net}.

(** The configs a step loads from the file, and those it takes out of the
    channel. *)
Definition watch_loads (e : watch_event) (w : watcher) (l : file_loader) : list ServerConfig :=
  match e with
  | WatchTick f =>
    if 0 <? wt_pending w then
      match YAML_Load decode f l with
      | (None, l) => [fl_ServerConfig l]
      | _ => []
      end
    else []
  | _ => []
  end.

Definition loads_of (e : pl_event) (p : pipeline) : list ServerConfig :=
  match e with
  | Watch e => watch_loads e (pl_watcher p) (pl_file p)
  | _ => []
  end.

Definition receives_of (e : pl_event) (p : pipeline) : list ServerConfig :=
  match e, chan_recv (pl_file p) with
  | Receive, Some (c, _) => [c]
  | _, _ => []
  end.

(** The states of a program that was started, with all configs loaded and all
    received so far. *)
Inductive history (base : gostring) (r : ready)
    : pipeline → list ServerConfig → list ServerConfig → Prop :=
| history_start f fs opts p :
    NewLocalConfig decode f fs opts = Ok (r, p) →
    history base r p [fl_ServerConfig (pl_file p)] []
| history_step e p p' a loaded received :
    history base r p loaded received → pipeline_step decode r base e p = Some (p', a) →
    history base r p' (loaded ++ loads_of e p) (received ++ receives_of e p).

(** What is on its way from the file to the loader. *)
Definition in_flight (l : file_loader) : list ServerConfig :=
  fl_config l ++ match fl_sending l with Some c => [c] | None => [] end.

(** A send only waits for a full channel, which holds one config. *)
Definition chan_ok (l : file_loader) : Prop :=
  (fl_config l = [] ∧ fl_sending l = None) ∨ ∃ c, fl_config l = [c].

(** A load sends the struct it decoded into, or nothing. *)
Lemma YAML_Load_cases f l :
  (∃ e c, YAML_Load decode f l = (Some e, mkFileLoader c (fl_config l) (fl_sending l))) ∨
  ∃ c, YAML_Load decode f l = (None, chan_send (mkFileLoader c (fl_config l) (fl_sending l)) c).
Proof.
  destruct f as [e|e|b]; cbn [YAML_Load].
  1,2: left; destruct l; by do 2 eexists.
  unfold YAML_Unmarshal. destruct (decode b (fl_ServerConfig l)) as [[e|] c]; [left; by do 2 eexists|].
  repeat case_match; [left; by do 2 eexists..|]. right. by eexists.
Qed.

Lemma chan_send_ok c l :
  chan_ok l → fl_sending l = None → chan_ok (chan_send l c) ∧ in_flight (chan_send l c) = in_flight l ++ [c].
Proof.
  destruct l as [cur ch sd]. unfold chan_ok, in_flight. cbn.
  intros [[-> ->]|[d ->]] Hs; [naive_solver|]. subst sd. cbn. naive_solver.
Qed.

Lemma watch_step_ok base e w l :
  chan_ok l → fl_sending l = None →
  let l' := (watch_step decode base e w l).1.2 in
  chan_ok l' ∧ in_flight l' = in_flight l ++ watch_loads e w l.
Proof.
  intros Hok Hs. destruct e as [|ev| |f]; cbn [watch_step watch_loads].
  1,3: by rewrite app_nil_r.
  - rewrite app_nil_r. by repeat case_match.
  - destruct (0 <? wt_pending w); [|by rewrite app_nil_r].
    destruct (YAML_Load_cases f l) as [(e & c & ->)|(c & ->)]; cbn [fst snd]; [by rewrite app_nil_r|].
    destruct (chan_send_ok c (mkFileLoader c (fl_config l) (fl_sending l)) Hok Hs) as [H1 H2].
    split; [done|]. rewrite H2. unfold in_flight. cbn. by destruct (fl_config l).
Qed.

Lemma chan_recv_ok l c l' :
  chan_ok l → chan_recv l = Some (c, l') → chan_ok l' ∧ in_flight l = c :: in_flight l'.
Proof.
  destruct l as [cur ch sd]. unfold chan_ok, in_flight, chan_recv. cbn.
  intros [[-> ->]|[d ->]]; [done|]. destruct sd as [s|]; intros [= <- <-]; cbn; naive_solver.
Qed.

Lemma history_ok base r p loaded received :
  history base r p loaded received →
  chan_ok (pl_file p) ∧ loaded = received ++ in_flight (pl_file p) ∧
  us_providers (pl_updates p) = match last received with Some c => build r c | None => [] end.
Proof.
  induction 1 as [f fs opts p Hs|e p p' a loaded received _ (Hok & -> & Hp) Hstep].
  - unfold NewLocalConfig, Watcher_Load in Hs.
    destruct (YAML_Load_cases f file_New) as [(e & c & HL)|(c & HL)]; rewrite HL in Hs; [done|].
    destruct (negb fs.1); [done|]. destruct (negb fs.2); [done|]. cbn [mbind outcome_bind] in Hs.
    apply bind_ok in Hs as (r' & _ & Hs). apply Ok_inj in Hs. injection Hs as <- <-. cbn.
    split_and!; [right; by eexists|done..].
  - destruct e as [e| |remote]; cbn [pipeline_step] in Hstep.
    + destruct (wt_running _); [|done]. destruct (fl_sending (pl_file p)) as [|] eqn:Es; [done|].
      pose proof (watch_step_ok base e (pl_watcher p) (pl_file p) Hok Es) as [H1 H2].
      destruct (watch_step _ _ _ _) as [[w l] err]. cbn [fst snd] in H1, H2. injection Hstep as <- <-.
      cbn [pl_file pl_updates loads_of receives_of]. by rewrite H2, !app_nil_r, app_assoc.
    + unfold receives_of. destruct (chan_recv (pl_file p)) as [[c l]|] eqn:Er; [|done].
      apply chan_recv_ok in Er as [H1 H2]; [|done]. cbn [updates_step] in Hstep.
      destruct (createPrefixFilters c) as [deny allow]. injection Hstep as <- <-. cbn [pl_file pl_updates us_providers].
      split_and!; [done| |by rewrite last_snoc]. rewrite H2. cbn [loads_of]. by rewrite app_nil_r, <- app_assoc.
    + cbn [updates_step] in Hstep. injection Hstep as <- <-. cbn [pl_file pl_updates loads_of receives_of].
      by rewrite !app_nil_r.
Qed.

(** C21. From the file to the loader no configuration is lost, repeated or
    overtaken: in every state the program can reach, the configs that were
    loaded are those the loader has received, in the same order, and then at
    most two on their way, one in the channel and one the watcher waits to
    send. The providers are those of the last one received: a file that cannot
    be read or decoded changes nothing. *)
Theorem reloads_in_order base r p loaded received :
  history base r p loaded received →
  loaded = received ++ in_flight (pl_file p) ∧ (length (in_flight (pl_file p)) <= 2)%nat ∧
  us_providers (pl_updates p) = match last received with Some c => build r c | None => [] end.
Proof.
  intros (Hok & Hl & Hp)%history_ok. split_and!; [done| |done].
  destruct (pl_file p) as [cur ch sd]. unfold in_flight, chan_ok in *. cbn in *.
  destruct Hok as [[-> ->]|[c ->]]; [|destruct sd]; cbn; lia.
Qed.
End Pipeline.

(** C34. A list that is removed from the file is not removed from the server: the
    file is decoded into the struct of the previous load, so if the decoder
    leaves a list alone that the document does not mention, a file without
    users, which a fresh server refuses, is accepted on a reload, and the users
    of the previous file are served with it. *)
Theorem removed_users_stay (decode : decoder) b secrets deny allow l :
  (∀ c, decode b c = (None, mkServerConfig secrets (ServerConfig_Users c) deny allow)) →
  secrets ≠ [] → ServerConfig_Users (fl_ServerConfig l) ≠ [] → fl_config l = [] →
  (YAML_Load decode (Contents b) file_New).1 =
    Some (Errorf "no users were unmarshalled from config, cannot serve") ∧
  (YAML_Load decode (Contents b) l).1 = None ∧
  fl_config (YAML_Load decode (Contents b) l).2 =
    [mkServerConfig secrets (ServerConfig_Users (fl_ServerConfig l)) deny allow].
Proof.
  intros Hd Hs Hu Hc. cbn [YAML_Load]. unfold YAML_Unmarshal. rewrite !Hd.
  cbn [ServerConfig_Secrets ServerConfig_Users file_New fl_ServerConfig zero_ServerConfig].
  assert (∀ {A} (x : list A), x ≠ [] → (len x <? 1) = false) as Hlen.
  { intros A [|y x] Hx; [done|]. apply Z.ltb_ge. rewrite len_cons. pose proof (len_nonneg x). lia. }
  rewrite (Hlen _ secrets), (Hlen _ (ServerConfig_Users _)) by done. unfold chan_send. cbn. by rewrite Hc.
Qed.

(** ** Witnesses: a decoder whose documents are a letter for each list they
    set. *)
Definition v_user : User := mkUser (str "joe") [str "lab"] [] [] [] None None.
Definition v_secret : SecretConfig :=
  mkSecretConfig (str "lab") (mkKeychain (str "g") (str "key")) (mkHandlerConfig START ∅) PREFIX ∅.
Definition v_decode : decoder := λ b c,
  if decide (b = str "us") then (None, mkServerConfig [v_secret] [v_user] [] [])
  else if decide (b = str "s") then (None, mkServerConfig [v_secret] (ServerConfig_Users c) [] [])
  else (Some (Errorf "yaml"), c).
#[local] Instance v_Net : Net := {|
  IPNet := unit;
  net_ParseCIDR _ := None;
  IPNet_String _ := [];
  IPNet_Contains _ _ := false;
  net_ParseCIDR_String _ _ H := H;
  net_LookupAddr _ := None;
  json_Unmarshal_strings _ := None;
|}.
Definition v_shhh : getSecret := λ _ _, Err (Errorf "none").
Lemma removed_users_stay_witness :
  fl_config (YAML_Load v_decode (Contents (str "s"))
    (mkFileLoader (mkServerConfig [v_secret] [v_user] [] []) [] None)).2 =
  [mkServerConfig [v_secret] [v_user] [] []].
Proof.
  apply (removed_users_stay v_decode (str "s") [v_secret] [] []
    (mkFileLoader (mkServerConfig [v_secret] [v_user] [] []) [] None));
    [intros c; reflexivity|discriminate|discriminate|reflexivity].
Defined.

(** The first file is received, a write to the file is seen, and the next tick
    reloads it: the states after these steps. *)
Definition v_config : ServerConfig := mkServerConfig [v_secret] [v_user] [] [].
Definition v_r : ready := main_loader v_shhh.
Definition v_base : gostring := str "t.yaml".
Definition v_write : pl_event := Watch (WatchEvent (mkFsEvent true (str "t.yaml: WRITE") (str "t.yaml"))).
Definition v_tick : pl_event := Watch (WatchTick (Contents (str "s"))).
Definition v_p0 : pipeline := mkPipeline (mkWatcher true 0) (mkFileLoader v_config [v_config] None) updates_init.
Definition v_served : updates_state :=
  mkUpdates (build v_r v_config) (createPrefixFilters v_config).1 (createPrefixFilters v_config).2 true.
Definition v_p1 : pipeline := mkPipeline (mkWatcher true 0) (mkFileLoader v_config [] None) v_served.
Definition v_p2 : pipeline := mkPipeline (mkWatcher true 1) (mkFileLoader v_config [] None) v_served.
Definition v_p3 : pipeline := mkPipeline (mkWatcher true 0) (mkFileLoader v_config [v_config] None) v_served.

Lemma v_history : history v_decode v_base v_r v_p3 [v_config; v_config] [v_config].
Proof.
  assert (history v_decode v_base v_r v_p0 [v_config] []) as H0.
  { apply (history_start _ _ _ (Contents (str "us")) (true, true) (main_options v_shhh)). reflexivity. }
  assert (history v_decode v_base v_r v_p1 [v_config] [v_config]) as H1.
  { apply (history_step _ _ _ Receive v_p0 v_p1 None [v_config] [] H0). reflexivity. }
  assert (history v_decode v_base v_r v_p2 [v_config] [v_config]) as H2.
  { apply (history_step _ _ _ v_write v_p1 v_p2 None [v_config] [v_config] H1). reflexivity. }
  apply (history_step _ _ _ v_tick v_p2 v_p3 None [v_config] [v_config] H2). reflexivity.
Qed.

Lemma reloads_in_order_witness :
  [v_config; v_config] = [v_config] ++ in_flight (pl_file v_p3) ∧
  us_providers (pl_updates v_p3) = build v_r v_config.
Proof.
  destruct (reloads_in_order v_decode v_base v_r v_p3 _ _ v_history) as (H1 & _ & H2).
  split; [exact H1|exact H2].
Defined.
