(* ===== verification/SystemTheorems.v ===== *)
(** The properties of the whole process: every connection is a run of the
    connection loop under a configuration the loader has received, the process
    does not panic, and it stops when its context is cancelled. *)
From S2P Require Import Prelude.
From S2P Require Import GoStrings.
From S2P Require Import HeaderFields.
From S2P Require Import MD5.
From S2P Require Import Proxy.
From S2P Require Import Crypter.
From S2P Require Import Sessions.
From S2P Require Import Response.
From S2P Require Import Server.
From S2P Require Import Config.
From S2P Require Import Stringy.
From S2P Require Import AAA.
From S2P Require Import Handlers.
From S2P Require Import SecretProviders.
From S2P Require Import Loader.
From S2P Require Import Listener.
From S2P Require Import ConfigFiles.
From S2P Require Import System.
From S2P Require Import HandlerSafety.
From S2P Require Import ServerTheorems.
From S2P Require Import LoaderTheorems.
From S2P Require Import ConfigFileTheorems.

(** Some streams merged into one: each in its own order. *)
Inductive interleaving {A} : list (list A) → list A → Prop :=
| interleaving_nil : interleaving [] []
| interleaving_new ls out : interleaving ls out → interleaving ([] :: ls) out
| interleaving_app l ls xs out : interleaving (l :: ls) out → interleaving ((l ++ xs) :: ls) (out ++ xs)
| interleaving_perm ls ls' out : ls ≡ₚ ls' → interleaving ls out → interleaving ls' out.

Section Interleaving.
Context {A : Type}.
Implicit Types (l out : list A) (ls : list (list A)).

(** Each of them is in the result in its order, and nothing else is. *)
Lemma interleaving_sublist ls out l : interleaving ls out → l ∈ ls → l `sublist_of` out.
Proof.
  intros H. revert l. induction H as [|ls out _ IH|l' ls xs out _ IH|ls ls' out Hp _ IH]; intros l Hl.
  - by apply elem_of_nil in Hl.
  - apply elem_of_cons in Hl as [->|Hl]; [apply sublist_nil_l|by apply IH].
  - apply elem_of_cons in Hl as [->|Hl].
    + apply sublist_app; [apply IH; left|done].
    + apply sublist_inserts_r, IH. by right.
  - apply IH. by rewrite Hp.
Qed.

Lemma interleaving_concat ls out : interleaving ls out → concat ls ≡ₚ out.
Proof.
  induction 1 as [|ls out _ IH|l ls xs out _ IH|ls ls' out Hp _ IH]; [done|done| |].
  - cbn in *. rewrite <- IH. rewrite <- !app_assoc. f_equiv. apply Permutation_app_comm.
  - rewrite <- IH. symmetry. clear IH. induction Hp as [|x k k' _ IH|x y k|k1 k2 k3 _ IH1 _ IH2]; cbn; [done|by rewrite IH| |by etrans].
    rewrite !app_assoc. f_equiv. apply Permutation_app_comm.
Qed.

Lemma interleaving_insert ls ls' i l xs out :
  ls' !! i = Some l → interleaving (ls ++ ls') out → interleaving (ls ++ <[i := l ++ xs]> ls') (out ++ xs).
Proof.
  intros Hi H. rewrite insert_take_drop by by eapply lookup_lt_Some.
  rewrite <- (take_drop_middle ls' i l Hi) in H.
  eapply interleaving_perm; [|eapply (interleaving_app l (ls ++ take i ls' ++ drop (S i) ls'));
    eapply interleaving_perm; [|exact H]]; rewrite !app_assoc.
  - apply Permutation_middle.
  - symmetry. apply Permutation_middle.
Qed.

Lemma interleaving_more ls ls' out :
  Forall (λ l, l = []) ls' → interleaving ls out → interleaving (ls ++ ls') out.
Proof.
  intros Hn H. eapply interleaving_perm; [apply Permutation_app_comm|].
  induction Hn as [|l ls' -> _ IH]; [done|]. by apply interleaving_new.
Qed.
End Interleaving.

Section Process.
Context (decode : decoder) {NT : Net} {HH : Hash} {RE : Regexp} {PL : Platform} {DL : Dialer}.
Context (l : ready) (base : gostring) (exportPromHTTP : bool).

Local Abbreviation pstep := (process_step decode l base exportPromHTTP).
Local Abbreviation Get_now := (Loader_Get l).
Local Abbreviation do_turn := (turn l).

(** The configs a step moves into the loader, and those it loads. *)
Definition pipeline_event (e : process_event) : option pl_event :=
  match e with
  | Watched e => Some (Watch e)
  | ConfigReceived => Some Receive
  | _ => None
  end.

Definition process_loads (e : process_event) (p : process) : list ServerConfig :=
  match pipeline_event e with Some e => loads_of decode e (ps_pipeline p) | None => [] end.

Definition process_receives (e : process_event) (p : process) : list ServerConfig :=
  match pipeline_event e with Some e => receives_of e (ps_pipeline p) | None => [] end.

(** The states the process can reach, with the configs that were loaded and those
    the loader has received so far. *)
Inductive live : process → list ServerConfig → list ServerConfig → Prop :=
| live_boot f fs opts pl proxy :
    NewLocalConfig decode f fs opts = Ok (l, pl) →
    live (boot l pl proxy) [fl_ServerConfig (pl_file pl)] []
| live_step e p p' loaded received :
    live p loaded received → pstep e p = Some (Up p') →
    live p' (loaded ++ process_loads e p) (received ++ process_receives e p).

(** ** What a step changes *)

Lemma Loader_Get_spec s remote : Get_now s remote = loader_get (us_providers s) remote.
Proof. done. Qed.

(** What a turn of the accept loop does to the list of goroutines. *)
Lemma Serve_iteration_running t ls :
  ls_running (Serve_iteration t ls) = ls_running ls ++ started ls (Serve_iteration t ls) ∧
  Forall (λ ch, ∃ co, t = Accept (Accepted co) ∧
    Serve_accept (sv_SecretProvider (ls_server ls) (co_remote co)) (co_local co) (co_remote co)
      (co_in co) (co_end co) (co_write_errs co) (sv_proxy (ls_server ls)) = Some ch)
    (started ls (Serve_iteration t ls)).
Proof.
  assert (started ls ls = []) as H0 by (unfold started; by rewrite drop_all).
  unfold started. destruct t as [|[co|[]|]]; cbn [Serve_iteration ls_running]; rewrite ?drop_all, ?app_nil_r;
    [by split| |by split..].
  unfold serve_conn. destruct (Serve_accept _ _ _ _ _ _ _) as [ch|] eqn:E; cbn [ls_running].
  - rewrite drop_app_length. split; [done|]. repeat constructor. by exists co.
  - rewrite drop_all, app_nil_r. by split.
Qed.

Lemma Serve_iteration_phase t ls :
  ls_phase ls = Accepting → ls_phase (Serve_iteration t ls) = match t with CtxDone | Accept (AcceptOpError false) => Stopping | _ => Accepting end.
Proof.
  intros Hp. destruct t as [|[co|[]|]]; cbn; try done. unfold serve_conn. by case_match.
Qed.

(** A step that leaves the connections and the accept loop alone. *)
Definition background (e : process_event) : bool :=
  match e with
  | Interrupted | ExporterReturned _ | Watched _ | ConfigReceived => true
  | _ => false
  end.

Definition same_service (p p' : process) : Prop :=
  ps_listening p' = ps_listening p ∧ ps_conns p' = ps_conns p ∧ ps_in_accept p' = ps_in_accept p ∧
  ps_log p' = ps_log p.

(** The steps that are not panics, by what they change. *)
Inductive change (p : process) : process_event → process → Prop :=
| change_background e p' :
    background e = true → same_service p p' →
    (match pipeline_event e with
     | Some e => ∃ a, pipeline_step decode l base e (ps_pipeline p) = Some (ps_pipeline p', a)
     | None => ps_pipeline p' = ps_pipeline p
     end) →
    change p e p'
| change_select :
    ps_in_accept p = false → ps_cancelled p = false → ls_phase (ps_listening p) = Accepting →
    change p Selected (set_listening (ps_listening p) true p)
| change_turn e t answers :
    (e = Selected ∧ t = CtxDone ∧ ps_in_accept p = false ∧ ps_cancelled p = true) ∨
    (∃ r, e = AcceptReturned r answers ∧ t = Accept r ∧ ps_in_accept p = true) →
    ls_phase (ps_listening p) = Accepting →
    change p e (do_turn t answers p)
| change_conn e i s c evs :
    (e = PacketServed i ∨ e = ContextSeen i) → ps_conns p !! i = Some (Open s) →
    (∀ ch, ls_running (ps_listening p) !! i = Some ch → step ch.2 ∅ (Open s) c) →
    (∀ st, c ≠ Crashed st) →
    conn_events c = conn_events (Open s) ++ evs →
    change p e (append_log evs (set_conns (<[i := c]> (ps_conns p)) p))
| change_return i s w :
    ps_conns p !! i = Some (Closed s) →
    waitGroup_Done (sv_waitGroup (ls_server (ps_listening p))) = Ok w →
    change p (HandleReturned i)
      (set_conns (delete i (ps_conns p))
        (set_listening
          (mkListening (set_waitGroup (ls_server (ps_listening p)) w) (ls_phase (ps_listening p))
            (delete i (ls_running (ps_listening p))))
          (ps_in_accept p) p))
| change_wait :
    ls_phase (ps_listening p) = Stopping → wg_count (sv_waitGroup (ls_server (ps_listening p))) = 0 →
    change p WaitReturned
      (set_listening (mkListening (ls_server (ps_listening p)) Stopped (ls_running (ps_listening p)))
        (ps_in_accept p) p).

Lemma process_step_change e p p' :
  pstep e p = Some (Up p') →
  ls_phase (ps_listening p) ≠ Stopped ∧ (ps_cancelled p = true → ps_cancelled p' = true) ∧ change p e p'.
Proof.
  unfold System.process_step. case_decide as Hp; [done|]. intros He. split; [done|].
  destruct e as [|r|e| | |r answers|i|i|i|].
  - injection He as <-. split; [done|]. by constructor.
  - destruct (ps_exporting p); [|done]. destruct (StartPromHTTP _ _); [|done]. injection He as <-.
    split; [done|]. by constructor.
  - destruct (pipeline_step decode l base (Watch e) (ps_pipeline p)) as [[pl a]|] eqn:E;
      [|by destruct e, (ps_cancelled p)].
    assert (p' = set_pipeline pl p) as -> by (destruct e, (ps_cancelled p); congruence).
    split; [done|]. apply change_background; [done..|]. by exists a.
  - destruct (pipeline_step decode l base Receive (ps_pipeline p)) as [[pl a]|] eqn:E; [|done].
    injection He as <-. split; [done|]. apply change_background; [done..|]. by exists a.
  - destruct (ls_phase _) eqn:Ep, (ps_in_accept p) eqn:Ea; try done.
    destruct (ps_cancelled p) eqn:Ec; injection He as <-; (split; [done|]).
    + apply (change_turn p Selected CtxDone []); [by left|done].
    + by apply change_select.
  - destruct (ls_phase _) eqn:Ep, (ps_in_accept p) eqn:Ea; try done. injection He as <-.
    split; [done|]. apply change_turn; [right; by exists r|done].
  - destruct (ls_running _ !! i) as [[cr h]|] eqn:Er; [|done].
    destruct (ps_conns p !! i) as [[s|s|s]|] eqn:Ec; [|done..].
    assert (p' = append_log (drop (length (conn_events (Open s))) (conn_events (serve_packet h ∅ s)))
              (set_conns (<[i := serve_packet h ∅ s]> (ps_conns p)) p) ∧
            ∀ st, serve_packet h ∅ s ≠ Crashed st) as [-> Hn]
      by (destruct (serve_packet h ∅ s); [split; congruence..|done]).
    split; [done|]. eapply change_conn; [by left|done| |done|].
    + intros ch Hch. rewrite Er in Hch. injection Hch as <-. apply step_packet.
    + destruct (serve_packet_grows h ∅ s) as [evs Hevs].
      change (cs_env s) with (cs_env (conn_st (Open s))) in Hevs.
      change (conn_events (serve_packet h ∅ s) = conn_events (Open s) ++ evs) in Hevs.
      by rewrite Hevs, drop_app_length.
  - destruct (ps_conns p !! i) as [[s|s|s]|] eqn:Ec; [|done..].
    destruct (ps_cancelled p) eqn:Ea; [|done]. injection He as <-. split; [done|].
    replace (set_conns _ p) with (append_log [] (set_conns (<[i:=Closed s]> (ps_conns p)) p))
      by (unfold append_log; cbn; by rewrite app_nil_r).
    eapply change_conn; [by right|done| |done|by rewrite app_nil_r]. intros; apply step_cancel.
  - destruct (ps_conns p !! i) as [[s|s|s]|] eqn:Ec; [done| |done..].
    destruct (waitGroup_Done _) as [w|e|] eqn:Ew; [|done..]. injection He as <-. split; [done|].
    by eapply change_return.
  - case_decide as Hd; [|done]. destruct Hd. injection He as <-. split; [done|]. by apply change_wait.
Qed.

(** ** The invariant *)

(** A goroutine with the state of its connection: a run of the loop of
    server.go that has not panicked, over what [Serve_accept] made of the
    answer to one query. *)
Definition goroutine_ok (received : list ServerConfig) (ch : crypter * handler) (c : conn handler) : Prop :=
  (∃ answers, reachable ch.2 ∅ ch.1 (mkEnv [] answers) c) ∧
  (∀ st, c ≠ Crashed st) ∧
  ∃ conf co proxy, conf ∈ received ∧
    Serve_accept (loader_get (build l conf) (co_remote co)) (co_local co) (co_remote co)
      (co_in co) (co_end co) (co_write_errs co) proxy = Some ch.

Record process_ok (p : process) (loaded received : list ServerConfig) : Prop := mkProcessOk {
  ok_history : history decode base l (ps_pipeline p) loaded received;
  ok_listening : listening_ok (ps_listening p);
  ok_goroutines : Forall2 (goroutine_ok received) (ls_running (ps_listening p)) (ps_conns p);
  ok_log : ∃ ended, interleaving (ended ++ (conn_events <$> ps_conns p)) (ps_log p);
}.

Lemma goroutine_ok_mono received received' ch c :
  received ⊆ received' → goroutine_ok received ch c → goroutine_ok received' ch c.
Proof. intros Hs (? & ? & conf & co & proxy & Hin & Ha). split_and!; [done..|]. exists conf, co, proxy. eauto. Qed.

Lemma listening_ok_loader s ls : listening_ok ls → listening_ok (with_loader l s ls).
Proof. done. Qed.

Lemma listening_ok_end ls i ch w :
  listening_ok ls → ls_running ls !! i = Some ch → waitGroup_Done (sv_waitGroup (ls_server ls)) = Ok w →
  listening_ok (mkListening (set_waitGroup (ls_server ls) w) (ls_phase ls) (delete i (ls_running ls))).
Proof.
  intros Hok Hi Hw. apply (listening_ok_step ls); [done|].
  rewrite delete_take_drop. eapply listen_done; [|done]. symmetry. by apply take_drop_middle.
Qed.

(** As long as a goroutine runs, the counter of the wait group is positive. *)
Lemma running_Done ls i ch :
  wg_count (sv_waitGroup (ls_server ls)) = len (ls_running ls) → ls_running ls !! i = Some ch →
  ∃ w, waitGroup_Done (sv_waitGroup (ls_server ls)) = Ok w.
Proof.
  intros Hc Hi. unfold waitGroup_Done. rewrite Hc. apply lookup_lt_Some in Hi. unfold len.
  destruct (Z.ltb_spec (Z.of_nat (length (ls_running ls)) - 1) 0); [lia|by eexists].
Qed.

(** The goroutines a turn starts. *)
Lemma turn_goroutines t answers p loaded received :
  process_ok p loaded received →
  Forall2 (goroutine_ok received)
    (started (with_loader l (pl_updates (ps_pipeline p)) (ps_listening p))
       (Serve_iteration t (with_loader l (pl_updates (ps_pipeline p)) (ps_listening p))))
    (handle_start answers <$>
      started (with_loader l (pl_updates (ps_pipeline p)) (ps_listening p))
        (Serve_iteration t (with_loader l (pl_updates (ps_pipeline p)) (ps_listening p)))).
Proof.
  intros [Hh _ _ _]. apply history_ok in Hh as (_ & _ & Hp).
  set (ls := with_loader _ _ _). destruct (Serve_iteration_running t ls) as [_ Hs].
  apply Forall2_fmap_r, Forall_Forall2_diag. eapply Forall_impl; [exact Hs|].
  intros ch (co & -> & Ha). split_and!; [exists answers; apply rtc_refl|done|].
  cbn [ls ls_server with_loader sv_SecretProvider sv_proxy] in Ha. rewrite Loader_Get_spec, Hp in Ha.
  destruct (last received) as [conf|] eqn:El; [|done].
  exists conf, co, (sv_proxy (ls_server (ps_listening p))). split; [|done].
  apply last_Some in El as [pre ->]. set_solver.
Qed.

(** A goroutine that has just started has no effects. *)
Lemma handle_start_events answers chs :
  Forall (λ evs, evs = []) (conn_events <$> (handle_start answers <$> chs)).
Proof. apply Forall_fmap, Forall_fmap, Forall_true. done. Qed.

Lemma change_ok e p p' loaded received :
  process_ok p loaded received → change p e p' →
  process_ok p' (loaded ++ process_loads e p) (received ++ process_receives e p).
Proof.
  intros Hok Hch. pose proof Hok as [Hh Hl Hg [ended Hlog]].
  destruct Hch as [e p' Hb (Els & Ecs & Ein & Elog) Hpl|Hin Hc Hp|e t answers Ht Hp|e i s c evs He Hi Hs Hn Hc|i s w Hi Hw|Hp Hw].
  - split; rewrite ?Els, ?Ecs, ?Elog; [|done| |by exists ended].
    + unfold process_loads, process_receives. destruct (pipeline_event e) as [pe|].
      * destruct Hpl as [a Ha]. by eapply history_step.
      * by rewrite Hpl, !app_nil_r.
    + eapply Forall2_impl; [exact Hg|]. intros ch c. apply goroutine_ok_mono. set_solver.
  - unfold process_loads, process_receives. cbn. rewrite !app_nil_r. by split; [..|exists ended].
  - assert (process_loads e p = [] ∧ process_receives e p = []) as [-> ->]
      by (by destruct Ht as [(-> & _)|(r & -> & _)]).
    rewrite !app_nil_r. unfold System.turn. set (ls := with_loader _ _ _).
    destruct (Serve_iteration_running t ls) as [Hr _].
    split; cbn [set_conns set_listening ps_listening ps_conns ps_pipeline ps_log]; [done| | |].
    + apply (listening_ok_step ls); [done|]. by apply listen_turn.
    + rewrite Hr. apply Forall2_app; [done|]. by eapply turn_goroutines.
    + exists ended. rewrite fmap_app, app_assoc. apply interleaving_more; [apply handle_start_events|done].
  - assert (process_loads e p = [] ∧ process_receives e p = []) as [-> ->] by (by destruct He as [->| ->]).
    rewrite !app_nil_r. split; cbn; [done..| |].
    + apply Forall2_same_length_lookup_2.
      { rewrite length_insert. by eapply Forall2_length. }
      intros j ch c' Hch Hc'. apply list_lookup_insert_Some in Hc' as [(-> & <- & _)|[Hne Hc']].
      * destruct (Forall2_lookup_lr _ _ _ _ _ _ Hg Hch Hi) as ((answers & Hr) & _ & Ha).
        split_and!; [|done..]. exists answers. eapply rtc_r; [exact Hr|]. by apply Hs.
      * by eapply Forall2_lookup_lr.
    + exists ended. rewrite list_fmap_insert, Hc. apply interleaving_insert; [|done].
      by rewrite list_lookup_fmap, Hi.
  - unfold process_loads, process_receives. cbn. rewrite !app_nil_r. split; cbn; [done| | |].
    + destruct (Forall2_lookup_r _ _ _ _ _ Hg Hi) as (ch & Hch & _). by eapply listening_ok_end.
    + by apply Forall2_delete.
    + exists (ended ++ [conn_events (Closed s)]). eapply interleaving_perm; [|exact Hlog].
      rewrite <- app_assoc. f_equiv. rewrite <- (take_drop_middle _ _ _ Hi) at 1.
      rewrite delete_take_drop, !fmap_app, fmap_cons. symmetry. exact (Permutation_middle _ _ _).
  - unfold process_loads, process_receives. cbn. rewrite !app_nil_r. split; cbn; [done| |done|by exists ended].
    apply (listening_ok_step (ps_listening p)); [done|]. by apply listen_return.
Qed.

Lemma live_ok p loaded received : live p loaded received → process_ok p loaded received.
Proof.
  induction 1 as [f fs opts pl proxy Hn|e p p' loaded received _ IH Hs].
  - split; [by eapply history_start| |by constructor|exists []; constructor].
    exact (listening_ok_init (Get_now (pl_updates pl)) [proxy]).
  - apply process_step_change in Hs as (_ & _ & Hc). by eapply change_ok.
Qed.

(** C3. Every connection of the running process is a run of the loop of
    server.go on its own: whatever the other goroutines have done in between, it
    started with the key and the users of a configuration that the loader had
    received, its state is one the loop reaches from there alone, and no reload
    has changed its handler or its key. *)
Theorem connections_run_alone p loaded received i cr h c :
  live p loaded received →
  ls_running (ps_listening p) !! i = Some (cr, h) → ps_conns p !! i = Some c →
  (∃ answers, reachable h ∅ cr (mkEnv [] answers) c) ∧
  ∃ conf co proxy, conf ∈ received ∧
    Serve_accept (loader_get (build l conf) (co_remote co)) (co_local co) (co_remote co)
      (co_in co) (co_end co) (co_write_errs co) proxy = Some (cr, h).
Proof.
  intros [_ _ Hg _]%live_ok Hr Hc. destruct (Forall2_lookup_lr _ _ _ _ _ _ Hg Hr Hc) as (H1 & _ & H2). done.
Qed.

(** C18. The log is shared fairly: what the connections write to the accounting
    log and the other sinks, those that are open and those that have ended, is
    merged into one log, in which the records of every connection are all
    there, once and in their order, and nothing else is. *)
Theorem log_interleaves p loaded received :
  live p loaded received →
  ∃ ended, let streams := ended ++ (conn_events <$> ps_conns p) in
    interleaving streams (ps_log p) ∧ concat streams ≡ₚ ps_log p ∧
    ∀ evs, evs ∈ streams → evs `sublist_of` ps_log p.
Proof.
  intros [_ _ _ [ended Hlog]]%live_ok. exists ended. split; [done|].
  split; [by apply interleaving_concat|]. intros evs. by apply interleaving_sublist.
Qed.

(** ** The end of the process *)

(** A step of the accept loop or of a connection, after any steps of the other
    goroutines. *)
Definition background_step (p p' : process) : Prop := ∃ e, background e = true ∧ pstep e p = Some (Up p').
Definition work (p p' : process) : Prop :=
  ∃ p1 e, rtc background_step p p1 ∧ background e = false ∧ pstep e p1 = Some (Up p').

(** What is left to do: the stages of the accept loop, and within one of them
    the turns of the connections. *)
Definition stage (p : process) : nat :=
  match ls_phase (ps_listening p), ps_in_accept p with
  | Accepting, true => 3
  | Accepting, false => 2
  | Stopping, _ => 1
  | Stopped, _ => 0
  end.

Definition conn_work (c : conn handler) : nat :=
  match c with Open s => 2 + length (c_in (cs_crypter s)) | _ => 1 end.

Definition conns_work (p : process) : nat := sum_list_with conn_work (ps_conns p).

Lemma conn_work_step h c s answers cr :
  reachable h ∅ cr (mkEnv [] answers) (Open s) → step h ∅ (Open s) c → (conn_work c < conn_work (Open s))%nat.
Proof.
  intros Hr Hs. inversion Hs as [|s' Heq]; subst; cbn [conn_work]; [lia|].
  destruct (serve_packet h ∅ s) as [s'|s'|s'] eqn:E; cbn [conn_work]; [|lia..].
  apply serve_packet_open in E as (Hlen & _); [|by eapply reachable_sessions_ok].
  unfold len in Hlen. lia.
Qed.

Lemma sum_insert (f : conn handler → nat) cs i c c' :
  cs !! i = Some c → (f c' < f c)%nat → (sum_list_with f (<[i:=c']> cs) < sum_list_with f cs)%nat.
Proof.
  intros Hi Hlt. pose proof (lookup_lt_Some _ _ _ Hi). rewrite insert_take_drop by done.
  rewrite <- (take_drop_middle cs i c Hi) at 3. rewrite !sum_list_with_app. cbn. lia.
Qed.

Lemma sum_delete (f : conn handler → nat) cs i c :
  cs !! i = Some c → (0 < f c)%nat → (sum_list_with f (delete i cs) < sum_list_with f cs)%nat.
Proof.
  intros Hi Hlt. rewrite delete_take_drop. rewrite <- (take_drop_middle cs i c Hi) at 3.
  rewrite !sum_list_with_app. cbn. lia.
Qed.

(** A step of the accept loop or of a connection of a cancelled process gets to
    a later stage, or takes a turn off a connection. *)
Lemma change_work e p p' loaded received :
  process_ok p loaded received → ps_cancelled p = true → background e = false → change p e p' →
  (stage p' < stage p)%nat ∨ (stage p' = stage p ∧ conns_work p' < conns_work p)%nat.
Proof.
  intros [_ _ Hg _] Hcan Hb Hch. unfold conns_work.
  destruct Hch as [e p' Hb' _ _|_ Hc _|e t answers Ht Hp|e i s c evs He Hi Hs Hn _|i s w Hi Hw|Hp Hw]; try congruence.
  - left. unfold stage, System.turn. cbn. rewrite Hp, Serve_iteration_phase by done.
    destruct Ht as [(_ & -> & -> & _)|(r & _ & -> & ->)]; [lia|]. repeat case_match; lia.
  - right. split; [done|]. apply sum_insert with (c := Open s); [done|].
    destruct (Forall2_lookup_r _ _ _ _ _ Hg Hi) as (ch & Hch & (answers & Hr) & _).
    eapply conn_work_step; [exact Hr|by apply Hs].
  - right. split; [done|]. apply sum_delete with (c := Closed s); [done|cbn; lia].
  - left. unfold stage. cbn. rewrite Hp. lia.
Qed.

Lemma background_live p p' loaded received :
  live p loaded received → rtc background_step p p' → ∃ loaded' received', live p' loaded' received'.
Proof.
  intros Hl Hr. revert loaded received Hl. induction Hr as [p|p p1 p' (e & _ & He) _ IH]; intros; [by do 2 eexists|].
  eapply IH. by eapply live_step.
Qed.

Lemma background_same p p' :
  rtc background_step p p' → same_service p p' ∧ (ps_cancelled p = true → ps_cancelled p' = true).
Proof.
  induction 1 as [p|p p1 p' (e & Hb & He) _ [(H1 & H2 & H3 & H3') H4]]; [done|].
  apply process_step_change in He as (_ & Hc & Hch).
  assert (same_service p p1) as (? & ? & ? & ?).
  { destruct Hch as [e p1 _ Hs _|_ _ _|e t answers Ht _|e i s c evs He _ _ _ _|i s w _ _|_ _]; [done|done| |  |done..].
    - by destruct Ht as [(-> & _)|(r & -> & _)].
    - by destruct He as [->| ->]. }
  split; [|auto]. split_and!; congruence.
Qed.

Lemma work_lex p p' loaded received :
  live p loaded received → ps_cancelled p = true → work p p' →
  (∃ loaded' received', live p' loaded' received') ∧ ps_cancelled p' = true ∧
  ((stage p' < stage p)%nat ∨ (stage p' = stage p ∧ conns_work p' < conns_work p)%nat).
Proof.
  intros Hl Hc (p1 & e & Hr & Hb & Hs).
  destruct (background_live _ _ _ _ Hl Hr) as (loaded1 & received1 & Hl1).
  destruct (background_same _ _ Hr) as ((E1 & E2 & E3 & _) & Hc1). specialize (Hc1 Hc).
  pose proof (process_step_change _ _ _ Hs) as (_ & Hc' & Hch). split; [by do 2 eexists; eapply live_step|].
  split; [auto|]. destruct (change_work e p1 p' _ _ (live_ok _ _ _ Hl1) Hc1 Hb Hch) as [H|[H H']];
    unfold stage, conns_work in *; rewrite <- E1, <- E2, <- E3; auto.
Qed.

(** Well-founded by the stage, and within a stage by the turns left. *)
Lemma cancelled_sn p loaded received : live p loaded received → ps_cancelled p = true → sn work p.
Proof.
  remember (stage p) as n eqn:En. remember (conns_work p) as m eqn:Em.
  revert m p loaded received En Em. induction (lt_wf n) as [n _ IHn]. intros m.
  induction (lt_wf m) as [m _ IHm]. intros p loaded received -> -> Hl Hc. constructor. intros p' Hw.
  destruct (work_lex _ _ _ _ Hl Hc Hw) as ((loaded' & received' & Hl') & Hc' & [H|[H H']]).
  - by eapply (IHn (stage p') H).
  - by eapply (IHm (conns_work p') H').
Qed.

(** Without a panic a connection that is left can go on, and the accept loop
    can without one. *)
Lemma cancelled_progress p loaded received :
  live p loaded received → ps_cancelled p = true → ls_phase (ps_listening p) ≠ Stopped →
  ∃ e s, background e = false ∧ pstep e p = Some s.
Proof.
  intros Hl Hc Hp. pose proof (live_ok _ _ _ Hl) as [_ (Hcount & _) Hg _].
  destruct (ls_phase (ps_listening p)) eqn:Ep; [| |congruence].
  - destruct (ps_in_accept p) eqn:Ea; [exists (AcceptReturned AcceptError [])|exists Selected];
      unfold System.process_step; rewrite decide_False, Ep, Ea, ?Hc by congruence; by eexists.
  - destruct (ps_conns p) as [|[s|s|s] cs] eqn:Ecs.
    + exists WaitReturned. apply Forall2_nil_inv_r in Hg. rewrite Hg in Hcount.
      unfold System.process_step. rewrite decide_False, decide_True by (by rewrite ?Ep). by eexists.
    + exists (ContextSeen 0). unfold System.process_step. rewrite decide_False, Ecs, Hc by congruence. by eexists.
    + exists (HandleReturned 0). unfold System.process_step. rewrite decide_False, Ecs by congruence.
      cbn. destruct (waitGroup_Done _); by eexists.
    + destruct (Forall2_cons_inv_r _ _ _ _ Hg) as (ch & chs & (_ & Hn & _) & _). by destruct (Hn s).
Qed.

(** C12. A process whose context is cancelled, by an interrupt or by the end of
    the metrics exporter, ends: whatever the watcher and the loader do meanwhile
    there is no infinite sequence of steps of the accept loop and the
    connections, as long as [Serve] has not returned one of them can be taken,
    and when it returns no connection is left. *)
Theorem cancelled_process_ends p loaded received :
  live p loaded received →
  (ps_cancelled p = true → sn work p) ∧
  (ps_cancelled p = true → ls_phase (ps_listening p) ≠ Stopped →
     ∃ e s, background e = false ∧ pstep e p = Some s) ∧
  (ls_phase (ps_listening p) = Stopped → ps_conns p = []).
Proof.
  intros Hl. split_and!; [by eapply cancelled_sn|by eapply cancelled_progress|].
  pose proof (live_ok _ _ _ Hl) as [_ (_ & _ & Hs) Hg _]. intros Hp. rewrite (Hs Hp) in Hg.
  by apply Forall2_nil_inv_l in Hg.
Qed.

(** ** Accepting *)

(** The goroutine of a connection that is accepted under a configuration. *)
Definition accepted (conf : option ServerConfig) (co : net_conn) (proxy : bool) : list (crypter * handler) :=
  match conf with
  | None => []
  | Some conf =>
    option_list (Serve_accept (loader_get (build l conf) (co_remote co)) (co_local co) (co_remote co)
      (co_in co) (co_end co) (co_write_errs co) proxy)
  end.

(** C13. A connection is accepted under the latest configuration: the process
    starts a goroutine for it exactly if the last configuration the loader has
    received has a secret for the address of its peer, with the key and the users
    of that configuration, and before the first configuration it closes every
    connection; the goroutines of earlier connections are left as they were. *)
Theorem accepted_under_latest p loaded received co answers p' :
  live p loaded received → pstep (AcceptReturned (Accepted co) answers) p = Some (Up p') →
  ls_running (ps_listening p') =
    ls_running (ps_listening p) ++ accepted (last received) co (sv_proxy (ls_server (ps_listening p))) ∧
  ps_conns p' =
    ps_conns p ++ (handle_start answers <$> accepted (last received) co (sv_proxy (ls_server (ps_listening p)))).
Proof.
  intros [Hh _ _ _]%live_ok Hs. apply history_ok in Hh as (_ & _ & Hp). revert Hs.
  unfold System.process_step. case_decide; [done|].
  destruct (ls_phase _) eqn:Ep, (ps_in_accept p) eqn:Ea; try done. intros [= <-].
  unfold System.turn. cbn [ps_listening ps_conns set_conns set_listening].
  unfold started. cbn [Serve_iteration]. unfold serve_conn.
  cbn [with_loader ls_server ls_running sv_SecretProvider sv_proxy]. rewrite Loader_Get_spec, Hp.
  destruct (last received) as [conf|]; cbn [accepted]; [destruct (Serve_accept _ _ _ _ _ _ _) as [ch|]|];
    cbn [ls_running option_list]; [|by rewrite drop_all, !app_nil_r..].
  by rewrite drop_app_length.
Qed.

(** ** Runs *)
Fixpoint run_configs (f : process_event → process → list ServerConfig) (es : list process_event) (p : process)
    : list ServerConfig :=
  match es with
  | [] => []
  | e :: es => f e p ++ match pstep e p with Some (Up p) => run_configs f es p | _ => [] end
  end.

Lemma live_run es p p' loaded received :
  live p loaded received → process_run decode l base exportPromHTTP es (Up p) = Some (Up p') →
  live p' (loaded ++ run_configs process_loads es p) (received ++ run_configs process_receives es p).
Proof.
  revert p loaded received. induction es as [|e es IH]; intros p loaded received Hl; cbn.
  - intros [= <-]. by rewrite !app_nil_r.
  - intros Hr. apply bind_Some in Hr as (s & Hs & Hr). rewrite Hs. destruct s as [p1|]; [|by destruct es].
    rewrite !app_assoc. apply IH; [by apply live_step|done].
Qed.
End Process.

(** ** The program with its own factories *)
Section Main.
Context (decode : decoder) {NT : Net} {HH : Hash} {RE : Regexp} {PL : Platform} {DL : Dialer}.
Context (shhh : getSecret) (base : gostring).

Local Abbreviation alive := (live decode (main_loader shhh) base).
Local Abbreviation pstep := (process_step decode (main_loader shhh) base).

(** No step of a goroutine ends the process, if every configuration the loader
    has received is one that keeps the server up. *)
Lemma process_step_safe exportPromHTTP p loaded received e :
  alive exportPromHTTP p loaded received → Forall config_ok received →
  pstep exportPromHTTP e p ≠ Some Down.
Proof.
  intros Hl Hconf. pose proof (live_ok _ _ _ _ _ _ _ Hl) as [_ (Hc & _) Hg _].
  unfold System.process_step. case_decide; [done|].
  destruct e as [|r|e| | |r answers|i|i|i|]; cbv zeta; try (repeat case_match; done).
  - repeat case_match; try done. intros _.
    destruct (Forall2_lookup_lr _ _ _ _ _ _ Hg ltac:(done) ltac:(done)) as ((answers & Hr) & _ & conf & co & proxy & Hin & Ha).
    cbn [fst snd] in *. apply accepted_granted in Ha as (pre & sc & post & _ & _ & _ & _ & ->).
    assert (handler_safe (HSecretConfig (Start_New (users_of shhh conf sc)))) as Hs.
    { apply users_of_safe. rewrite Forall_forall in Hconf. by apply Hconf. }
    apply (reachable_safe _ ∅ _ _ _ Hs) in Hr. pose proof (serve_packet_safe _ ∅ _ Hs Hr) as Hp.
    by case_match.
  - destruct (ps_conns p !! i) as [[s|s|s]|] eqn:Hi; [done| |done..].
    destruct (Forall2_lookup_r _ _ _ _ _ Hg Hi) as (ch & Hch & _).
    destruct (running_Done (ps_listening p) i ch Hc Hch) as [w ->]. done.
Qed.

(** C30. Without the metrics exporter there is no server: when the flag
    -export-promhttp is false the goroutine of the exporter returns at once and
    cancels the context of the server, which stops accepting and ends, while
    with the flag it only does so when the exporter fails. *)
Theorem no_exporter_no_server p loaded received :
  alive false p loaded received → ps_exporting p = true → ls_phase (ps_listening p) ≠ Stopped →
  (∃ p', pstep false (ExporterReturned None) p = Some (Up p') ∧ ps_cancelled p' = true ∧
     sn (work decode (main_loader shhh) base false) p') ∧
  pstep true (ExporterReturned None) p = None.
Proof.
  intros Hl He Hp. split.
  - assert (pstep false (ExporterReturned None) p =
      Some (Up (mkProcess true false (ps_pipeline p) (ps_listening p) (ps_in_accept p) (ps_conns p) (ps_log p)))) as Hs.
    { unfold System.process_step. by rewrite decide_False, He. }
    eexists. split; [exact Hs|]. split; [done|]. eapply cancelled_sn; [|done]. by eapply live_step.
  - unfold System.process_step. by rewrite decide_False, He.
Qed.
End Main.

(** ** Witnesses: the configuration of LoaderTheorems.v is loaded and received, a
    client connects and logs in, and the process is interrupted. *)
#[local] Instance t_Net : Net := y_Net.
#[local] Instance t_Hash : Hash := MD5.
#[local] Instance t_Regexp : Regexp := w_Regexp.
#[local] Instance t_Platform : Platform := w_Platform.
#[local] Instance t_Dialer : Dialer := w_Dialer.

Definition t_decode : decoder := λ b c, (None, y_config).
Definition t_base : gostring := str "tacquito.yaml".
Definition t_pipeline : pipeline :=
  mkPipeline (mkWatcher true 0) (mkFileLoader y_config [y_config] None) updates_init.
Definition t_boot : process := boot (main_loader y_shhh) t_pipeline false.
Definition t_conn : net_conn :=
  mkNetConn (OtherAddr [] []) y_remote (w_packet MinorVersionOne 1 7 w_pap_bytes) EOF [].
Definition t_events : list process_event :=
  [ConfigReceived; Selected; AcceptReturned (Accepted t_conn) []; PacketServed 0].
Definition t_run (export : bool) (es : list process_event) : process :=
  match process_run t_decode (main_loader y_shhh) t_base export es (Up t_boot) with
  | Some (Up p) => p
  | _ => t_boot
  end.
Definition t_process : process := t_run true t_events.
Definition t_stopping : process := t_run true (t_events ++ [Interrupted]).

Lemma t_live_boot export : live t_decode (main_loader y_shhh) t_base export t_boot [y_config] [].
Proof. apply (live_boot _ _ _ _ (Contents []) (true, true) (main_options y_shhh)). reflexivity. Qed.

Lemma t_live export es p :
  process_run t_decode (main_loader y_shhh) t_base export es (Up t_boot) = Some (Up p) →
  ∃ loaded, live t_decode (main_loader y_shhh) t_base export p loaded
    (run_configs t_decode (main_loader y_shhh) t_base export (process_receives) es t_boot).
Proof. intros H. eexists. exact (live_run _ _ _ _ _ _ _ _ _ (t_live_boot export) H). Qed.

Definition is_up (s : option status) : bool := match s with Some (Up _) => true | _ => false end.

Lemma t_run_spec export es :
  is_up (process_run t_decode (main_loader y_shhh) t_base export es (Up t_boot)) = true →
  process_run t_decode (main_loader y_shhh) t_base export es (Up t_boot) = Some (Up (t_run export es)).
Proof. unfold t_run. by destruct (process_run _ _ _ _ _ _) as [[p|]|]. Qed.

Lemma t_process_run :
  process_run t_decode (main_loader y_shhh) t_base true t_events (Up t_boot) = Some (Up t_process).
Proof. apply t_run_spec. vm_compute. reflexivity. Qed.

Lemma t_received export :
  run_configs t_decode (main_loader y_shhh) t_base export process_receives t_events t_boot = [y_config].
Proof. destruct export; vm_compute; reflexivity. Qed.

Definition has {A} (o : option A) : bool := match o with Some _ => true | None => false end.
Definition open_writes (c : option (conn handler)) : nat :=
  match c with Some (Open s) => length (c_out (cs_crypter s)) | _ => 0 end.

Lemma connections_run_alone_witness :
  ∃ cr h s, ls_running (ps_listening t_process) !! 0%nat = Some (cr, h) ∧
    ps_conns t_process !! 0%nat = Some (Open s) ∧ length (c_out (cs_crypter s)) = 1%nat ∧
    ∃ answers, reachable h ∅ cr (mkEnv [] answers) (Open s).
Proof.
  destruct (t_live true t_events t_process t_process_run) as [loaded Hl].
  destruct (ls_running (ps_listening t_process) !! 0%nat) as [[cr h]|] eqn:Er.
  2: apply (f_equal has) in Er; vm_compute in Er; discriminate Er.
  destruct (ps_conns t_process !! 0%nat) as [[s|s|s]|] eqn:Ec.
  2-4: apply (f_equal open_writes) in Ec; vm_compute in Ec; discriminate Ec.
  exists cr, h, s. split; [reflexivity|]. split; [reflexivity|]. split.
  - assert (open_writes (ps_conns t_process !! 0%nat) = 1%nat) as H by (vm_compute; reflexivity).
    rewrite Ec in H. exact H.
  - apply (connections_run_alone t_decode (main_loader y_shhh) t_base true t_process _ _ 0 cr h _ Hl Er Ec).
Defined.

Definition t_stop_events : list process_event := t_events ++ [Interrupted].
Lemma t_stopping_run :
  process_run t_decode (main_loader y_shhh) t_base true t_stop_events (Up t_boot) = Some (Up t_stopping).
Proof. apply t_run_spec. vm_compute. reflexivity. Qed.

Lemma cancelled_process_ends_witness :
  length (ps_conns t_stopping) = 1%nat ∧
  sn (work t_decode (main_loader y_shhh) t_base true) t_stopping.
Proof.
  split; [vm_compute; reflexivity|].
  destruct (t_live true t_stop_events t_stopping t_stopping_run) as [loaded Hl].
  apply (cancelled_process_ends t_decode (main_loader y_shhh) t_base true t_stopping _ _ Hl).
  vm_compute. reflexivity.
Defined.

Lemma accepted_under_latest_witness :
  ∃ p p', process_step t_decode (main_loader y_shhh) t_base true (AcceptReturned (Accepted t_conn) []) p = Some (Up p') ∧
    ls_running (ps_listening p) = [] ∧ length (ls_running (ps_listening p')) = 1%nat ∧
    ls_running (ps_listening p') = accepted (main_loader y_shhh) (Some y_config) t_conn false.
Proof.
  set (p := t_run true [ConfigReceived; Selected]).
  assert (process_run t_decode (main_loader y_shhh) t_base true [ConfigReceived; Selected] (Up t_boot) = Some (Up p))
    as Hr by (apply t_run_spec; vm_compute; reflexivity).
  destruct (t_live true _ p Hr) as [loaded Hl].
  destruct (process_step t_decode (main_loader y_shhh) t_base true (AcceptReturned (Accepted t_conn) []) p)
    as [[p'|]|] eqn:Es.
  2,3: apply (f_equal is_up) in Es; vm_compute in Es; discriminate Es.
  exists p, p'. split; [exact Es|].
  assert (ls_running (ps_listening p) = []) as H0 by (vm_compute; reflexivity).
  destruct (accepted_under_latest t_decode (main_loader y_shhh) t_base true p _ _ t_conn [] p' Hl Es) as [H _].
  rewrite H0 in H. split; [exact H0|]. split; [rewrite H|exact H]; vm_compute; reflexivity.
Defined.

Lemma no_exporter_no_server_witness :
  ∃ p', process_step t_decode (main_loader y_shhh) t_base false (ExporterReturned None) t_boot = Some (Up p') ∧
    ps_cancelled p' = true.
Proof.
  destruct (no_exporter_no_server t_decode y_shhh t_base t_boot _ _ (t_live_boot false) eq_refl)
    as [(p' & Hs & Hc & _) _]; [discriminate|].
  exists p'. split; [exact Hs|exact Hc].
Defined.

Definition t_two_events : list process_event :=
  [ConfigReceived; Selected; AcceptReturned (Accepted t_conn) []; Selected; AcceptReturned (Accepted t_conn) [];
   PacketServed 1; PacketServed 0].

Lemma log_interleaves_witness :
  ∃ ended, interleaving (ended ++ (conn_events <$> ps_conns (t_run true t_two_events)))
      (ps_log (t_run true t_two_events)) ∧
    ((1 <? length (ps_log (t_run true t_two_events)))%nat = true).
Proof.
  assert (process_run t_decode (main_loader y_shhh) t_base true t_two_events (Up t_boot) =
    Some (Up (t_run true t_two_events))) as Hr by (apply t_run_spec; vm_compute; reflexivity).
  destruct (t_live true _ _ Hr) as [loaded Hl].
  destruct (log_interleaves t_decode (main_loader y_shhh) t_base true _ _ _ Hl) as [ended [H _]].
  exists ended. split; [exact H|vm_compute; reflexivity].
Defined.
