(* ===== verification/MetricsTheorems.v ===== *)
(** The properties of the metrics: registration does not fail, and what the
    gauge of the active sessions shows. *)
From S2P Require Import Prelude.
From S2P Require Import GoStrings.
From S2P Require Import Buffer.
From S2P Require Import HeaderFields.
From S2P Require Import Header.
From S2P Require Import MD5.
From S2P Require Import Proxy.
From S2P Require Import Crypter.
From S2P Require Import Sessions.
From S2P Require Import Response.
From S2P Require Import Server.
From S2P Require Import Metrics.
From S2P Require Import Handlers.
From S2P Require Import ServerTheorems.

#[export] Instance good_name_dec c : Decision (good_name c).
Proof. unfold good_name. apply _. Defined.

Section InitFacts.
Context {RG : Registry}.

Lemma length_omap_le {A B} (f : A → option B) (l : list A) : (length (omap f l) <= length l)%nat.
Proof. induction l as [|a l IH]; [done|]. cbn. destruct (f a); cbn; lia. Qed.

Definition registry_ok (r : registry) : Prop := Forall good_name (registered r).

Lemma MustRegister_ok c r :
  registry_ok r → good_name c → (collector_name c).2 ∉ ((λ c, (collector_name c).2) <$> registered r) →
  ∃ r', MustRegister c r = Ok r' ∧ registered r' = registered r ++ [c] ∧ registry_ok r'.
Proof.
  intros Hr [Hns Hn] Hnew. destruct (Register_new c r) as (r' & Hreg & Hr'); [by rewrite Hns|done| |].
  - apply Forall_forall. intros c' Hc'. unfold registry_ok in Hr. rewrite Forall_forall in Hr.
    destruct (Hr c' Hc') as [Hns' _]. split; [congruence|]. intros Heq. apply Hnew. rewrite <- Heq.
    apply list_elem_of_fmap. by exists c'.
  - exists r'. unfold MustRegister, registry_ok. rewrite Hreg, Hr'. split_and!; [done..|].
    apply Forall_app. by repeat constructor.
Qed.

Lemma init_vars_ok decls vars r :
  let cs := omap (resolve decls) vars in
  registry_ok r → length cs = length vars → Forall good_name cs →
  NoDup ((λ c, (collector_name c).2) <$> registered r ++ cs) →
  ∃ r', init_vars decls vars r = Ok r' ∧ registered r' = registered r ++ cs ∧ registry_ok r'.
Proof.
  revert r. induction vars as [|v vars IH]; intros r cs Hr Hlen Hg Hnd; subst cs; cbn in *.
  { exists r. by rewrite app_nil_r. }
  pose proof (length_omap_le (resolve decls) vars) as Hle.
  destruct (resolve decls v) as [c|] eqn:E; cbn in *; [|lia].
  unfold resolve in E. destruct (list_find _ decls) as [[i [v' c']]|]; [|done]. cbn in E. injection E as ->.
  apply Forall_cons in Hg as [Hc Hg]. rewrite fmap_app, fmap_cons in Hnd.
  destruct (MustRegister_ok c r Hr Hc) as (r1 & -> & Hr1 & Hok1).
  { apply NoDup_app in Hnd as (_ & Hd & _). intros Hin. apply (Hd _ Hin). left. }
  destruct (IH r1 Hok1) as (r' & Hi & Hr' & Hok'); [lia|done| |].
  - rewrite Hr1, !fmap_app, <- app_assoc. exact Hnd.
  - exists r'. cbn. rewrite Hr', Hr1, <- app_assoc. done.
Qed.

Definition packages : list package := [Tacquito; Handlers; Loader; Stringy; DNS].
Definition metric_names (p : package) : list string := (λ c, (collector_name c).2) <$> collectors p.

Lemma names_distinct : NoDup (concat (metric_names <$> packages)).
Proof. apply (bool_decide_unpack _). vm_compute. exact I. Qed.

Lemma collectors_good p : length (collectors p) = length (inits p) ∧ Forall good_name (collectors p).
Proof.
  destruct p; (split; [vm_compute; reflexivity|]); apply (bool_decide_unpack _); vm_compute; exact I.
Qed.

Lemma init_all_ok ps r :
  registry_ok r → NoDup (((λ c, (collector_name c).2) <$> registered r) ++ concat (metric_names <$> ps)) →
  ∃ r', init_all ps r = Ok r' ∧ registered r' = registered r ++ concat (collectors <$> ps).
Proof.
  revert r. induction ps as [|p ps IH]; intros r Hr Hnd; cbn in *.
  { exists r. by rewrite app_nil_r. }
  destruct (collectors_good p) as [Hlen Hg]. rewrite app_assoc in Hnd.
  destruct (init_vars_ok (stats p) (inits p) r Hr Hlen Hg) as (r1 & Hi & Hr1 & Hok1).
  { apply NoDup_app in Hnd as (Hnd & _). rewrite fmap_app. exact Hnd. }
  fold (collectors p) in Hr1. fold (init p r) in Hi. rewrite Hi. cbn.
  destruct (IH r1 Hok1) as (r' & -> & Hr'); [by rewrite Hr1, fmap_app|].
  exists r'. by rewrite Hr', Hr1, <- app_assoc.
Qed.

Lemma submseteq_NoDup_l {A} (l k : list A) : NoDup k → l ⊆+ k → NoDup l.
Proof. intros Hk [k' Hp]%submseteq_Permutation. rewrite Hp in Hk. by apply NoDup_app in Hk as [? _]. Qed.

Lemma concat_submseteq {A B} (f : A → list B) (l k : list A) :
  l ⊆+ k → concat (f <$> l) ⊆+ concat (f <$> k).
Proof.
  induction 1 as [|x l k _ IH|x y l|x l k _ IH|l k1 k2 _ IH1 _ IH2]; cbn; [done| | | |by etrans].
  - by apply submseteq_app.
  - rewrite !app_assoc. apply submseteq_app; [|done]. by rewrite Permutation_app_comm.
  - by apply submseteq_inserts_l.
Qed.

(** No program fails when it registers its metrics: whichever packages are
    linked, and in whatever order their [init] functions run, every
    [MustRegister] succeeds with any registry that takes new names, and exactly
    the declared metrics are registered. *)
Theorem metrics_registered ps :
  NoDup ps →
  ∃ r, init_all ps DefaultRegisterer = Ok r ∧ registered r = concat (collectors <$> ps) ∧
    ∀ p, p ∈ ps → (collectors p : list collector) ≡ₚ (stats p).*2.
Proof.
  intros Hnd. destruct (init_all_ok ps DefaultRegisterer) as (r & Hr & Hreg).
  - unfold registry_ok. by rewrite registered_default.
  - rewrite registered_default. cbn. apply (submseteq_NoDup_l _ _ names_distinct).
    apply concat_submseteq, NoDup_submseteq; [done|]. intros p _. destruct p; cbn; set_solver.
  - exists r. rewrite Hreg, registered_default. split_and!; [done..|]. intros p _.
    destruct p; apply (bool_decide_unpack _); vm_compute; exact I.
Qed.
End InitFacts.

Section GaugeFacts.
Context {HH : Hash} {H W : Type} {WW : Writer W} {HS : Handler H W} {HL : HandlerLaws H W}.

(** The header that made a turn close the connection for its sequence number,
    in a session the connection did not have. *)
Definition unknown_bad_sequence (s : conn_state H) : Prop :=
  ∃ hd body c', crypter_read (cs_crypter s) = (Ok (mkPacket (Some hd) (Some body)), c') ∧
    ¬ Z.Odd (Header_SeqNo hd mod 256) ∧ cs_known s !! Header_SessionID hd = None.

Lemma close_gauge v (s : sessions H) : gauge v (sessions_close_ops s) = 0.
Proof.
  unfold gauge, sessions_close_ops. induction (map_to_list s) as [|x l IH]; [done|].
  rewrite !fmap_cons, sumZ_cons, IH. done.
Qed.

Lemma delete_gauge (s : sessions H) id :
  gauge "sessionsActive" (sessions_delete_ops s id) = -1 ∧ gauge "handlers" (sessions_delete_ops s id) = 0.
Proof. unfold sessions_delete_ops. by destruct (s !! id). Qed.

(** The gauge follows the size of the map where the key is there, and falls
    below it where it is not. *)
Lemma delete_size (s : sessions H) id :
  Z.of_nat (size (sessions_delete s id)) = Z.of_nat (size s) - match s !! id with Some _ => 1 | None => 0 end.
Proof.
  unfold sessions_delete. rewrite map_size_delete. destruct (s !! id) eqn:E; cbn; [|lia].
  assert (size s ≠ 0%nat); [|lia]. intros H0%map_size_empty_inv. subst. by rewrite lookup_empty in E.
Qed.

Lemma get_cases (s : sessions H) h :
  (¬ Z.Odd (Header_SeqNo h mod 256) ∧
   (∃ e, sessions_get s h = (Err e, sessions_delete s (Header_SessionID h))) ∧
   sessions_get_ops s h = sessions_delete_ops s (Header_SessionID h)) ∨
  (Z.Odd (Header_SeqNo h mod 256) ∧ (∃ o, sessions_get s h = (o, s)) ∧
   gauge "sessionsActive" (sessions_get_ops s h) = 0 ∧ gauge "handlers" (sessions_get_ops s h) = 0).
Proof.
  assert (Z.Odd (Header_SeqNo h mod 256) → ClientSequenceNumber_Validate (u8 (Header_SeqNo h)) CondNil = Ok tt) as Hodd.
  { intros Ho. apply ClientSequenceNumber_Validate_spec. by rewrite b2z_u8. }
  destruct (sessions_get_cases s h) as [[Ho [e He]]|[(Ho & Hn & He)|(sc & Ho & Hsc & He)]].
  - left. split_and!; [done|by exists e|]. unfold sessions_get_ops.
    destruct (ClientSequenceNumber_Validate _ _) as [[]|e'|] eqn:E; [|done|].
    + destruct Ho. rewrite <- b2z_u8. by eapply ClientSequenceNumber_Validate_spec.
    + exfalso. revert E. validator_returns.
  - right. unfold sessions_get_ops. rewrite Hodd, Hn by done. by eauto.
  - right. unfold sessions_get_ops. rewrite Hodd, Hsc by done.
    split_and!; [done|destruct He as [[_ ->]|[_ [e ->]]]; by eexists|by repeat case_match..].
Qed.

Lemma end_turn_gauge known req (resp : response H W) :
  Header_SessionID (r_header resp) = Header_SessionID (Request_Header req) →
  is_Some (known !! Header_SessionID (Request_Header req)) →
  gauge "handlers" (end_turn_ops known req resp) = 0 ∧
  gauge "sessionsActive" (end_turn_ops known req resp) =
    Z.of_nat (size (cs_known (conn_st (end_turn known req resp)))) - Z.of_nat (size known).
Proof.
  intros Hid [sc Hsc]. unfold end_turn_ops, end_turn. cbn [conn_st cs_known]. destruct (r_next resp) as [n|].
  - unfold sessions_update_ops, sessions_update. rewrite Hid, Hsc.
    rewrite map_size_insert_Some, !gauge_nil by (by eexists). lia.
  - destruct (delete_gauge known (Header_SessionID (Request_Header req))) as [-> ->].
    rewrite delete_size, Hsc. lia.
Qed.

(** The turn from the call of the handler on. *)
Lemma handled_gauge (st : H) req (resp : response H W) known set (s : conn_state H) :
  Header_SessionID (r_header resp) = Header_SessionID (Request_Header req) →
  is_Some (known !! Header_SessionID (Request_Header req)) →
  gauge "handlers" set = 0 →
  gauge "sessionsActive" set = Z.of_nat (size known) - Z.of_nat (size (cs_known s)) →
  (Handle st req resp).1 ≠ Panic →
  let ops := set ++ [Inc "handlers"] ++
    match Handle st req resp with
    | (Panic, _) => []
    | (_, resp) => [Dec "handlers"] ++ end_turn_ops known req resp
    end in
  gauge "handlers" ops = 0 ∧
  gauge "sessionsActive" ops =
    Z.of_nat (size (cs_known (conn_st (end_turn known req (Handle st req resp).2)))) -
    Z.of_nat (size (cs_known s)).
Proof using HL.
  intros Hid Hin Hs1 Hs2 Hnp ops. pose proof (Handle_session st req resp) as Hsess. subst ops.
  rewrite !gauge_app, Hs1, Hs2.
  destruct (Handle st req resp) as [o r']. cbn [fst snd] in *.
  destruct (end_turn_gauge known req r') as [Hh Ha]; [congruence|done|].
  assert (∀ v, gauge v [Inc v] + gauge v [Dec v] = 0) as Hone.
  { intros v. unfold gauge. cbn. rewrite !decide_True by done. done. }
  pose proof (Hone "handlers"%string). pose proof (Hone "sessionsActive"%string).
  assert (∀ v v' : string, v ≠ v' → gauge v' [Inc v] = 0 ∧ gauge v' [Dec v] = 0) as Hno.
  { intros v v' Hv. unfold gauge. cbn. rewrite !decide_False by done. done. }
  destruct (Hno "handlers"%string "sessionsActive"%string) as [E1 E2]; [done|].
  destruct o; [| |done]; rewrite !gauge_app, Hh, Ha, E1, E2; lia.
Qed.

Lemma serve_packet_gauge h ctx s :
  sessions_ok (cs_known s) → (∀ st, serve_packet h ctx s ≠ Crashed st) →
  gauge "handlers" (serve_packet_ops h ctx s) = 0 ∧
  ((unknown_bad_sequence s ∧ (∃ st, serve_packet h ctx s = Closed st) ∧
    gauge "sessionsActive" (serve_packet_ops h ctx s) =
      Z.of_nat (size (cs_known (conn_st (serve_packet h ctx s)))) - Z.of_nat (size (cs_known s)) - 1) ∨
   (¬ unknown_bad_sequence s ∧
    gauge "sessionsActive" (serve_packet_ops h ctx s) =
      Z.of_nat (size (cs_known (conn_st (serve_packet h ctx s)))) - Z.of_nat (size (cs_known s)))).
Proof using HL.
  intros Hok Hnc.
  unfold unknown_bad_sequence, serve_packet_ops. unfold serve_packet in *.
  destruct (crypter_read (cs_crypter s)) as [[p|e|] c'] eqn:Hr.
  2,3: split; [done|]; right; split; [intros (? & ? & ? & ? & _); congruence|];
    rewrite gauge_nil; cbn [conn_st cs_known]; lia.
  apply crypter_read_ok in Hr as Hp. destruct (newRequest_read ctx _ _ _ Hp) as (hd & body & -> & Hq).
  rewrite Hq in *. cbn [Request_Header Request_Context] in *.
  destruct (get_cases (cs_known s) hd) as [(Ho & [e He] & Hops)|(Ho & [o He] & Hg1 & Hg2)].
  - rewrite He, Hops, !app_nil_r. cbn [conn_st cs_known].
    destruct (delete_gauge (cs_known s) (Header_SessionID hd)) as [-> ->]. split; [done|].
    rewrite delete_size. destruct (cs_known s !! Header_SessionID hd) as [sc|] eqn:Esc; [right|left].
    + split; [intros (? & ? & ? & [= <- _ _] & _ & Hn); congruence|]. cbn. lia.
    + split; [by exists hd, body, c'|]. split; [by eexists|]. cbn. lia.
  - assert (¬ ∃ hd0 body0 c0, (Ok (mkPacket (Some hd) (Some body)), c') = (Ok (mkPacket (Some hd0) (Some body0)), c0) ∧
      ¬ Z.Odd (Header_SeqNo hd0 mod 256) ∧ cs_known s !! Header_SessionID hd0 = None) as Hno
      by (intros (? & ? & ? & [= <- _ _] & ? & _); done).
    rewrite He in *. rewrite !gauge_app, Hg1, Hg2.
    destruct o as [state|e|]; [|split; [done|]; right; (split; [done|]); rewrite gauge_nil; cbn [conn_st cs_known]; lia..].
    set (req := mkRequest hd body _) in *. set (resp := mkResponse c' None hd [] _ _) in *.
    destruct state as [st|].
    + assert (is_Some (cs_known s !! Header_SessionID hd)) as Hin.
      { destruct (sessions_get_cases (cs_known s) hd)
          as [[_ [e E]]|[(_ & _ & E)|(sc & _ & Hsc & _)]]; [congruence..|by eexists]. }
      destruct (handled_gauge st req resp (cs_known s) [] s) as [Hh Ha]; [done..|by rewrite gauge_nil; lia| |].
      { intros E. destruct (Handle st req resp) as [o r']. cbn in E. subst o. by eapply Hnc. }
      cbn [app] in *. rewrite Hh, Ha. split; [done|]. right. split; [done|].
      destruct (Handle st req resp) as [[u|e|] r']; [done..|by destruct (Hnc _ eq_refl)].
    + assert (cs_known s !! Header_SessionID hd = None) as Hn.
      { destruct (sessions_get_cases (cs_known s) hd)
          as [[_ [e E]]|[(_ & Hn & _)|(sc & _ & Hsc & [[_ E]|[_ [e E]]])]]; [congruence|done| |congruence].
        destruct (Hok _ _ Hsc) as [_ [n Hs]]. congruence. }
      destruct (handled_gauge h req resp (sessions_set (cs_known s) hd None) sessions_set_ops s) as [Hh Ha]; [done| |done| | |].
      { unfold sessions_set. rewrite lookup_insert_eq. by eexists. }
      { unfold sessions_set. rewrite map_size_insert_None by done.
        change (gauge "sessionsActive" sessions_set_ops) with 1. lia. }
      { intros E. destruct (Handle h req resp) as [o r']. cbn in E. subst o. by eapply Hnc. }
      rewrite Hh, Ha. split; [done|]. right. split; [done|].
      destruct (Handle h req resp) as [[u|e|] r']; [done..|by destruct (Hnc _ eq_refl)].
Qed.

Lemma closing_gauge v (s : conn H) : gauge v (closing_ops s) = 0.
Proof. unfold closing_ops. case_match; [done|apply close_gauge|done]. Qed.

(** While the connection is open. *)
Lemma metered_open h ctx c ops :
  metered h ctx c ops → ∀ s, c = Open s →
  sessions_ok (cs_known s) ∧ gauge "handlers" ops = 0 ∧ gauge "sessionsActive" ops = Z.of_nat (size (cs_known s)).
Proof using HL.
  induction 1 as [cr w|s ops _ _|s ops _ IH]; intros s' E; [|done|].
  - injection E as <-. split; [apply sessions_ok_empty|]. by rewrite !gauge_nil.
  - destruct (IH s eq_refl) as (Hok & Hh & Ha).
    destruct (serve_packet_gauge h ctx s Hok) as [Hh' Ha']; [by rewrite E|].
    destruct (serve_packet_open h ctx s s' E Hok) as (_ & Hok' & _).
    rewrite !gauge_app, !closing_gauge, Hh, Hh', Ha. rewrite E in Ha'. cbn [conn_st] in Ha'.
    split_and!; [done..|]. destruct Ha' as [(_ & [? ?] & _)|[_ ->]]; [done|lia].
Qed.

(** C27. The gauge of active sessions: while a connection is open it is the
    number of its sessions, and no handler is counted as running between two
    turns. Whatever turn comes next, the gauge is the number of the sessions that
    are left after it, also when the connection closes, so these stay counted for
    ever; but if the packet has an even sequence number in a session that is not
    known, the connection closes and the gauge is one less than that. *)
Theorem sessions_gauge h ctx s ops :
  metered h ctx (Open s) ops → (∀ st, serve_packet h ctx s ≠ Crashed st) →
  let left := Z.of_nat (size (cs_known (conn_st (serve_packet h ctx s)))) in
  let turn_ops := ops ++ serve_packet_ops h ctx s ++ closing_ops (serve_packet h ctx s) in
  gauge "handlers" ops = 0 ∧ gauge "sessionsActive" ops = Z.of_nat (size (cs_known s)) ∧
  gauge "sessionsActive" (ops ++ closing_ops (Closed s)) = Z.of_nat (size (cs_known s)) ∧
  gauge "handlers" turn_ops = 0 ∧
  (¬ unknown_bad_sequence s → gauge "sessionsActive" turn_ops = left) ∧
  (unknown_bad_sequence s →
    (∃ st, serve_packet h ctx s = Closed st) ∧ gauge "sessionsActive" turn_ops = left - 1).
Proof using HL.
  intros Hm Hnc left turn_ops. destruct (metered_open h ctx (Open s) ops Hm s eq_refl) as (Hok & Hh & Ha).
  destruct (serve_packet_gauge h ctx s Hok Hnc) as [Hh' Ha']. subst turn_ops left.
  rewrite !gauge_app, !closing_gauge, Hh, Hh', Ha. split_and!; [done|done|lia|done|..].
  - intros Hn. destruct Ha' as [[? _]|[_ ->]]; [done|lia].
  - intros Hb. destruct Ha' as [(_ & Hc & ->)|[? _]]; [|done]. split; [exact Hc|lia].
Qed.
End GaugeFacts.

(** ** Witnesses: a registry that keeps the names, and two connections, one that
    ends during an ASCII login and one with a packet of sequence number 2. *)
#[local] Instance w_Registry : Registry := {|
  registry := list collector;
  DefaultRegisterer := [];
  registered r := r;
  Register c r := Some (r ++ [c]);
  registered_default := eq_refl;
  Register_new c r _ _ _ := ex_intro _ _ (conj eq_refl eq_refl);
|}.

#[local] Instance g_Hash : Hash := MD5.
#[local] Instance g_Regexp : Stringy.Regexp := w_Regexp.
#[local] Instance g_Platform : AAA.Platform := w_Platform.
#[local] Instance g_Dialer : Dialer := w_Dialer.

Lemma metrics_registered_witness :
  ∃ r, init_all [Loader; Tacquito; Handlers] DefaultRegisterer = Ok r ∧ length r = 75%nat.
Proof.
  destruct (metrics_registered [Loader; Tacquito; Handlers]) as (r & Hr & Hreg & _).
  - apply (bool_decide_unpack _). vm_compute. exact I.
  - exists r. split; [exact Hr|]. change r with (registered r). rewrite Hreg. vm_compute. reflexivity.
Defined.

Definition g_even : list byte := w_packet MinorVersionDefault 2 7 w_ascii_bytes.
Definition g_even_state : conn_state handler := w_state g_even.

Lemma g_even_unknown : unknown_bad_sequence g_even_state.
Proof.
  eexists _, _, _. split; [vm_compute; reflexivity|]. split; [|reflexivity].
  intros Ho. apply Z.odd_spec in Ho. vm_compute in Ho. discriminate.
Qed.

(** The first packet of a login, and one of an unknown session with the sequence
    number 2: one session, and minus one. *)
Lemma sessions_gauge_witness :
  gauge "sessionsActive" ([] ++ serve_packet_ops w_handler ∅ w_state0 ++ closing_ops (serve_packet w_handler ∅ w_state0)) = 1 ∧
  gauge "sessionsActive" ([] ++ serve_packet_ops w_handler ∅ g_even_state ++ closing_ops (serve_packet w_handler ∅ g_even_state)) = -1.
Proof.
  split.
  - destruct (sessions_gauge w_handler ∅ w_state0 []) as (_ & _ & _ & _ & H & _).
    + exact (metered_start _ _ _ _).
    + intros st. assert (serve_packet w_handler ∅ w_state0 = Open w_state1) as -> by exact w_state1_open. discriminate.
    + rewrite H; [vm_compute; reflexivity|]. intros (hd & body & c & Hr & Ho & _). apply Ho.
      apply Z.odd_spec. vm_compute in Hr. injection Hr as <- _ _. reflexivity.
  - destruct (sessions_gauge w_handler ∅ g_even_state []) as (_ & _ & _ & _ & _ & H).
    + exact (metered_start _ _ _ _).
    + intros st. vm_compute. discriminate.
    + rewrite (proj2 (H g_even_unknown)). vm_compute. reflexivity.
Defined.
