(* ===== verification/CounterTheorems.v ===== *)
(** The properties of the counters: what is counted of a read of a packet, of a
    build of the loader, of the connections of a server and of the verdicts of
    the stringy authorizer. *)
From S2P Require Import Prelude.
From S2P Require Import GoStrings.
From S2P Require Import Buffer.
From S2P Require Import HeaderFields.
From S2P Require Import AuthenFields.
From S2P Require Import AuthorFields.
From S2P Require Import Header.
From S2P Require Import Codec.
From S2P Require Import Authenticate.
From S2P Require Import Authorize.
From S2P Require Import Accounting.
From S2P Require Import Args.
From S2P Require Import MD5.
From S2P Require Import Proxy.
From S2P Require Import Crypt.
From S2P Require Import Crypter.
From S2P Require Import Response.
From S2P Require Import Metrics.
From S2P Require Import Config.
From S2P Require Import Stringy.
From S2P Require Import AAA.
From S2P Require Import Handlers.
From S2P Require Import SecretProviders.
From S2P Require Import Loader.
From S2P Require Import Listener.
From S2P Require Import Counters.
From S2P Require Import ConnTheorems.

Lemma counted_nil v : counted v [] = 0.
Proof. done. Qed.

Lemma counted_app v ops ops' : counted v (ops ++ ops') = counted v ops + counted v ops'.
Proof. unfold counted. rewrite fmap_app. apply sumZ_app. Qed.

Lemma counted_concat v opss : counted v (concat opss) = sumZ (counted v <$> opss).
Proof.
  induction opss as [|ops opss IH]; [done|]. cbn [concat]. by rewrite counted_app, IH, fmap_cons, sumZ_cons.
Qed.

(** The value of a collector after operations that are known. *)
Ltac count :=
  repeat match goal with
  | |- context [counted ?v (?o :: ?l)] =>
    let n := eval vm_compute in (counted v (o :: l)) in change (counted v (o :: l)) with n
  | |- context [gauge ?v (?o :: ?l)] =>
    let n := eval vm_compute in (gauge v (o :: l)) in change (gauge v (o :: l)) with n
  end.

(** ** The loader *)
Section BuildFacts.
Context {NT : Net}.

(** The counters of one user: in scope it is counted once, and then it is
    either in the total or has an authenticator that cannot be built. *)
Lemma build_user_counts l scope b u :
  let ops := build_user_ops l scope b u in
  counted "scope" ops = (if User_HasScope u scope then 1 else 0) ∧
  counted "userTotal" ops = (match build_user l scope u with Some _ => 1 | None => 0 end) ∧
  counted "userAuthenticatorBadConfigRef" ops = counted "scope" ops - counted "userTotal" ops ∧
  counted "userScopeDuplicate" ops = (if b then counted "scope" ops else 0) ∧
  Forall (λ v, counted v ops = 0) ["userScopeUnassigned"; "secretProviderMissing"; "providerFactoryMissing"]%string.
Proof.
  cbv zeta. unfold build_user_ops, build_user. destruct (User_HasScope u scope); cbn [negb].
  2:{ cbn. destruct b; split_and!; repeat constructor. }
  set (u1 := User_LocalizeToScope u scope). unfold reduceAuthenticatorAccounterFromGroups_ops.
  destruct (ld_authorizer l _), (User_Authenticator u1), (User_Accounter u1); cbn [app];
    destruct (User_Authenticator (reduceAuthenticatorAccounterFromGroups u1)) as [at_|];
    try (destruct (l_authenticatorTypes (ld l) !! Authenticator_Type at_) as [af|];
         [destruct (af _ _)|]); cbn [app];
    destruct (User_Accounter (reduceAuthenticatorAccounterFromGroups u1)) as [ac_|];
    try destruct (l_accounterTypes (ld l) !! Accounter_Type ac_); cbn [app];
    destruct b; split_and!; repeat constructor.
Qed.

(** The counters of a scope, from the users it has so far. *)
Lemma build_users_counts (l : ready) (scope : gostring) (m : Provider) (users : list User) :
  let m' := foldl (λ (m : Provider) (u : User),
    match build_user l scope u with Some a => <[User_Name u := a]> m | None => m end) m users in
  let ops := build_users_ops l scope m users in
  counted "scope" ops = sumZ ((λ u, if User_HasScope u scope then 1 else 0) <$> users) ∧
  counted "userAuthenticatorBadConfigRef" ops = counted "scope" ops - counted "userTotal" ops ∧
  Z.of_nat (size m') <= Z.of_nat (size m) + counted "userTotal" ops ∧
  Z.of_nat (size m) + counted "userTotal" ops - counted "userScopeDuplicate" ops <= Z.of_nat (size m') ∧
  Forall (λ v, counted v ops = 0) ["userScopeUnassigned"; "secretProviderMissing"; "providerFactoryMissing"]%string.
Proof.
  cbv zeta. unfold Provider in *. revert m. induction users as [|u users IH]; intros m.
  { cbn [foldl build_users_ops]. rewrite !counted_nil. split_and!; [done|lia..|repeat constructor]. }
  cbn [foldl build_users_ops]. unfold Provider in *.
  pose proof (build_user_counts l scope (bool_decide (is_Some (m !! User_Name u))) u) as (H1 & H2 & H3 & H4 & H5).
  set (ops1 := build_user_ops _ _ _ _) in *. set (m1 := match build_user l scope u with Some a => _ | None => m end).
  destruct (IH m1) as (I1 & I2 & I3 & I4 & I5). rewrite !counted_app, fmap_cons, sumZ_cons.
  assert (Z.of_nat (size m1) <= Z.of_nat (size m) + counted "userTotal" ops1 ∧
          Z.of_nat (size m) + counted "userTotal" ops1 - counted "userScopeDuplicate" ops1 <= Z.of_nat (size m1)) as [J1 J2].
  { assert (0 <= counted "userTotal" ops1 <= counted "scope" ops1).
    { rewrite H2, H1. unfold build_user. destruct (User_HasScope u scope); cbn; [repeat case_match; lia|lia]. }
    rewrite H4. subst m1. destruct (build_user l scope u) as [a|]; [|rewrite H2 in *; case_bool_decide; lia].
    case_bool_decide as Hm.
    - rewrite map_size_insert_Some by done. lia.
    - rewrite map_size_insert_None by (by apply eq_None_not_Some). lia. }
  split_and!; [lia..|].
  apply Forall_forall. intros v Hv. rewrite Forall_forall in H5, I5. rewrite counted_app, H5, I5 by done. done.
Qed.

(** What became of a secret config that has no provider. *)
Definition no_users (l : ready) (users : list User) (sc : SecretConfig) : Prop :=
  build_users l (SecretConfig_Name sc) users = ∅.
Definition no_handler (l : ready) (sc : SecretConfig) : Prop :=
  l_handlerTypes (ld l) !! HandlerConfig_Type (SecretConfig_Handler sc) = None.

(** The secret configs that are dropped without a trace in the counters. *)
Definition uncounted (l : ready) (users : list User) (sc : SecretConfig) : Prop :=
  ¬ no_users l users sc ∧ no_handler l sc.

#[export] Instance uncounted_dec l users sc : Decision (uncounted l users sc).
Proof. unfold uncounted, no_users, no_handler. apply _. Defined.

Lemma build_scope_counts l users sc :
  let scope := SecretConfig_Name sc in
  let ops := build_scope_ops l users sc in
  counted "scope" ops = sumZ ((λ u, if User_HasScope u scope then 1 else 0) <$> users) ∧
  counted "userAuthenticatorBadConfigRef" ops = counted "scope" ops - counted "userTotal" ops ∧
  Z.of_nat (size (build_users l scope users)) <= counted "userTotal" ops ∧
  counted "userTotal" ops - counted "userScopeDuplicate" ops <= Z.of_nat (size (build_users l scope users)) ∧
  counted "userScopeUnassigned" ops = (if decide (no_users l users sc) then 1 else 0) ∧
  (match build_scope l users sc with Some _ => 1 | None => 0 end) + counted "userScopeUnassigned" ops +
    counted "secretProviderMissing" ops + counted "providerFactoryMissing" ops +
    (if decide (uncounted l users sc) then 1 else 0) = 1.
Proof.
  cbv zeta. destruct (build_users_counts l (SecretConfig_Name sc) ∅ users) as (H1 & H2 & H3 & H4 & H5).
  fold (build_users l (SecretConfig_Name sc) users) in H3, H4. change (Z.of_nat (size ∅)) with 0 in H3, H4.
  apply Forall_cons in H5 as [U1 H5]. apply Forall_cons in H5 as [U2 H5]. apply Forall_cons in H5 as [U3 _].
  unfold build_scope_ops, build_scope, no_users.
  set (ops := build_users_ops _ _ _ _) in *. set (m := build_users l _ users) in *.
  rewrite !counted_app, U1, U2, U3, H1, H2.
  destruct (decide (m = ∅)) as [Em|Em].
  { count. split_and!; [lia..|]. rewrite decide_False by (by intros [? _]). lia. }
  assert (uncounted l users sc ↔ no_handler l sc) as Hu by (unfold uncounted; tauto). unfold no_handler in Hu.
  destruct (l_handlerTypes _ !! _) as [ht|].
  2:{ rewrite !counted_nil, decide_True by (by apply Hu). split_and!; lia. }
  rewrite decide_False by (by intros ?%Hu).
  destruct (l_providerTypes _ !! _) as [pt|]; [destruct (pt _ _ _)|]; count; rewrite ?counted_nil; split_and!; lia.
Qed.

(** C28. The counters of a build balance: every user in scope of a secret config
    is counted once, and then either in the total or as one whose authenticator
    cannot be built; the entries the scopes get are at most the total, and fall
    short of it by at most the duplicates; and every secret config either has a
    provider, or is counted under one of three reasons, or names a handler type
    nobody registered, which is the one reason without a counter. *)
Theorem build_counted l c :
  let ops := build_ops l c in
  let scope_users sc := (λ u, if User_HasScope u (SecretConfig_Name sc) then 1 else 0) <$> ServerConfig_Users c in
  let entries sc := Z.of_nat (size (build_users l (SecretConfig_Name sc) (ServerConfig_Users c))) in
  counted "scope" ops = sumZ ((λ sc, sumZ (scope_users sc)) <$> ServerConfig_Secrets c) ∧
  counted "userTotal" ops + counted "userAuthenticatorBadConfigRef" ops = counted "scope" ops ∧
  counted "userTotal" ops - counted "userScopeDuplicate" ops <= sumZ (entries <$> ServerConfig_Secrets c) ∧
  sumZ (entries <$> ServerConfig_Secrets c) <= counted "userTotal" ops ∧
  len (build l c) + counted "userScopeUnassigned" ops + counted "secretProviderMissing" ops +
    counted "providerFactoryMissing" ops +
    len (filter (uncounted l (ServerConfig_Users c)) (ServerConfig_Secrets c)) = len (ServerConfig_Secrets c).
Proof.
  cbv zeta. unfold build_ops, build. set (users := ServerConfig_Users c).
  induction (ServerConfig_Secrets c) as [|sc scs (IH1 & IH2 & IH3 & IH4 & IH5)]; [done|].
  destruct (build_scope_counts l users sc) as (H1 & H2 & H3 & H4 & _ & H6).
  rewrite !fmap_cons, !sumZ_cons. cbn [concat]. rewrite !counted_app.
  split_and!; [lia..|].
  cbn [omap list_omap]. rewrite filter_cons, (len_cons sc).
  destruct (build_scope l users sc); case_decide; rewrite ?len_cons; lia.
Qed.
End BuildFacts.

(** ** The reads of a connection *)
Section ReadFacts.
Context {HH : Hash}.

(** The end of the stream and a length that is too long are not counted. *)
Definition quiet (e : error) : Prop :=
  e = EOF ∨ e = Errorf "max header length exceeded in crypt read, aborting".

(** A read that fails before there is a whole packet. *)
Definition failure_counted (e : error) (ops : list metric_op) : Prop :=
  (ops = [] ∧ quiet e) ∨ ops = [Inc "crypterReadError"] ∨ ops = [Inc "crypterUnmarshalError"].

Lemma read_packet_ops_cases c :
  (∃ hb h eb rest, c_in c = hb ++ eb ++ rest ∧ Header_UnmarshalBinary hb = Ok h ∧
      len hb = 12 ∧ Header_Length h = len eb) ∨
  (∃ e rest, read_packet c = (Err e, set_in c rest) ∧ failure_counted e (read_packet_ops c)).
Proof.
  unfold read_packet, read_packet_ops, failure_counted, mbind, sm_bind, sm_lift, sm_err.
  destruct (ReadFull MaxHeaderLength c) as [[hb|e|] c1] eqn:E1.
  2:{ right. unfold ReadFull in E1. case_match; [done|]. injection E1 as _ <-.
      eexists _, _. split; [reflexivity|]. unfold quiet. case_decide; [tauto|]. left. split; [done|].
      left. destruct (decide (e = EOF)); [done|tauto]. }
  2:{ unfold ReadFull in E1. by case_match. }
  apply ReadFull_ok in E1 as (Hin1 & H12 & Hc1); [|done]. unfold MaxHeaderLength in H12.
  destruct (be_Uint32 (drop 8 hb)) as [s|e|] eqn:Es.
  2-3: exfalso; destruct hb as [|? [|? [|? [|? [|? [|? [|? [|? [|? [|? [|? [|? ?]]]]]]]]]]]];
    try (unfold len in H12; simpl in H12; lia); done.
  destruct (Z.ltb_spec MaxBodyLength s); [right; rewrite Hc1; eexists _, _; split; [done|unfold quiet; tauto]|].
  pose proof (be_Uint32_range _ _ Es) as Hs.
  destruct (ReadFull s c1) as [[eb|e|] c2] eqn:E2.
  2:{ right. unfold ReadFull in E2. case_match; [done|]. injection E2 as _ <-.
      rewrite Hc1. eexists _, _. split; [reflexivity|tauto]. }
  2:{ unfold ReadFull in E2. by case_match. }
  apply ReadFull_ok in E2 as (Hin2 & Hlen & Hc2); [|lia].
  destruct (Header_UnmarshalBinary hb) as [h|e|] eqn:Eh.
  - left. exists hb, h, eb, (c_in c2). split_and!; try done; [by rewrite Hin1, Hin2|].
    rewrite (be_Uint32_Length _ _ Eh) in Es. injection Es as ->. done.
  - right. unfold Packet_UnmarshalBinary, full_slice. change MaxHeaderLength with 12.
    rewrite <- H12, slice_0. cbn [mbind outcome_bind]. rewrite Eh.
    rewrite Hc2, Hc1. eexists _, _. split; [done|tauto].
  - by apply Header_UnmarshalBinary_returns in Eh.
Qed.

(** A bad secret is counted exactly when it is answered. *)
Lemma detectBadSecret_counted h body :
  header_valid h →
  (detectBadSecret (mkPacket (Some h) (Some body)) = Ok None ∧
   detectBadSecret_ops (mkPacket (Some h) (Some body)) = []) ∨
  (∃ b, detectBadSecret (mkPacket (Some h) (Some body)) =
     Ok (Some (mkPacket (Some (sized (SetHeaderSeqNo 1 h) b)) (Some b))) ∧
   header_valid (sized (SetHeaderSeqNo 1 h) b) ∧
   detectBadSecret_ops (mkPacket (Some h) (Some body)) = [Inc "crypterBadSecret"]).
Proof.
  intros Hv. destruct (badSecretReply_ok h Hv) as (b & Hb & Hlen & _).
  assert (header_valid (sized (SetHeaderSeqNo 1 h) b)) as Hv'.
  { destruct Hv as (? & ? & _). pose proof (len_nonneg b). unfold header_valid, MaxBodyLength. cbn.
    change (u16 1) with 1. split_and!; done || lia. }
  assert (∀ n k, bad_secret_ops h (Ok n) k = if n =? k then [Inc "crypterBadSecret"] else []) as Hops.
  { intros n k. unfold bad_secret_ops, badSecretReply_ops. by rewrite Hb. }
  unfold detectBadSecret, detectBadSecret_ops. cbn [Packet_Header Packet_Body from_option id].
  destruct (@bad_secret_cnt_ok AuthenStart _ _ body) as (n1 & -> & _).
  destruct (@bad_secret_cnt_ok AuthenContinue _ _ body) as (n2 & -> & _).
  destruct (@bad_secret_cnt_ok AuthenReply _ _ body) as (n3 & -> & _).
  destruct (@bad_secret_cnt_ok AuthorRequest _ _ body) as (n4 & -> & _).
  destruct (@bad_secret_cnt_ok AuthorReply _ _ body) as (n5 & -> & _).
  destruct (@bad_secret_cnt_ok AcctRequest _ _ body) as (n6 & -> & _).
  destruct (@bad_secret_cnt_ok AcctReply _ _ body) as (n7 & -> & _).
  cbn [mbind outcome_bind]. rewrite !Hops, Hb. cbn [mbind outcome_bind].
  repeat case_match; try (by left); right; by exists b.
Qed.

(** What a write of a valid packet counts is what reaches the peer. *)
Lemma crypter_write_counted c h body :
  header_valid (sized h body) →
  (∃ w c', crypter_write (Some (mkPacket (Some (sized h body)) (Some body))) c = (Ok (len w), c') ∧
     c_out c' = c_out c ++ [w] ∧
     crypter_write_ops (Some (mkPacket (Some (sized h body)) (Some body))) c = [Inc "crypterWrite"]) ∨
  (∃ e c', crypter_write (Some (mkPacket (Some (sized h body)) (Some body))) c = (Err e, c') ∧
     c_out c' = c_out c ∧
     crypter_write_ops (Some (mkPacket (Some (sized h body)) (Some body))) c = [Inc "crypterWriteError"]).
Proof.
  intros Hv. destruct (crypter_write_valid c h body Hv) as (hb & Hm & Hw).
  rewrite (crypter_write_valid_sized c h body Hv), Hw.
  pose proof Hv as (_ & _ & _ & Hl). cbn [Header_Length sized set_Length] in Hl. unfold MaxBodyLength in Hl.
  pose proof (len_nonneg body). unfold crypter_write_ops. cbn [Packet_Header Packet_Body]. unfold u32.
  rewrite Z.mod_small by lia. change (set_Length (sized h body) (len body)) with (sized h body).
  rewrite crypt_eq by (done || (cbn; lia)). unfold Packet_MarshalBinary.
  cbn [Packet_Header Packet_Body]. change (Header_Length (sized h body)) with (len body).
  destruct (Z.ltb_spec MaxBodyLength (len body)); [unfold MaxBodyLength in *; lia|]. rewrite Hm.
  cbn [mbind outcome_bind]. unfold conn_Write. destruct (c_write_errs c) as [|[e|] errs]; [left|right|left].
  1,3: eexists _, _; done. by eexists _, _.
Qed.

Lemma read_packet_counted c :
  let ops := read_packet_ops c in
  match read_packet c with
  | (Ok _, c') => ops = [Inc "crypterRead"] ∧ c_out c' = c_out c
  | (Err e, c') =>
    (failure_counted e ops ∧ c_out c' = c_out c) ∨
    (ops = [Inc "crypterBadSecret"; Inc "crypterWrite"] ∧ ∃ w, c_out c' = c_out c ++ [w]) ∨
    (ops = [Inc "crypterBadSecret"; Inc "crypterWriteError"] ∧ c_out c' = c_out c)
  | (Panic, _) => False
  end.
Proof.
  cbv zeta. destruct (read_packet_ops_cases c)
    as [(hb & h & eb & rest & Hin & Hh & H12 & Hl)|(e & rest & -> & Hf)]; [|by left].
  pose proof (Header_UnmarshalBinary_valid _ _ Hh) as (Hv & _ & _). pose proof Hv as (_ & _ & _ & Hmax).
  rewrite (read_packet_gen c hb h eb rest) by done.
  unfold read_packet_ops. change MaxHeaderLength with 12.
  rewrite <- H12, (ReadFull_app c hb (eb ++ rest)) by done. rewrite (be_Uint32_Length _ _ Hh).
  destruct (Z.ltb_spec MaxBodyLength (Header_Length h)); [lia|].
  rewrite Hl, (ReadFull_app (set_in c (eb ++ rest)) eb rest) by done.
  rewrite (Packet_UnmarshalBinary_app hb h eb) by done.
  change (c_secret (set_in (set_in c (eb ++ rest)) rest)) with (c_secret c).
  change (set_in (set_in c (eb ++ rest)) rest) with (set_in c rest).
  pose proof (len_nonneg eb). rewrite crypt_eq by (done || lia).
  destruct (detectBadSecret_counted h (obfuscate (c_secret c) h eb) Hv)
    as [[-> ->]|(b & -> & Hv' & ->)]; [done|].
  unfold report_bad_secret.
  destruct (crypter_write_counted (set_in c rest) (SetHeaderSeqNo 1 h) b Hv')
    as [(w & c' & -> & Hout & ->)|(e & c' & -> & Hout & ->)]; right.
  - left. split; [done|]. by exists w.
  - right. by split.
Qed.

(** C29. What is counted of the read of a packet. A packet that is returned is
    counted once, as a read. A read that fails is counted once, as a failed read,
    a packet that does not decode or a bad secret, except the end of the stream
    and a length that is too long; with a bad secret the reply is counted too. No
    read counts a failure of the obfuscation or of an encoding, and the writes
    that are counted are those that reach the peer. *)
Theorem reads_counted c :
  let ops := crypter_read_ops c in
  let '(o, c') := crypter_read c in
  match o with
  | Ok _ => ops = [Inc "crypterRead"]
  | Err e =>
    (ops = [] ∧ (e = EOF ∨ e = Errorf "max header length exceeded in crypt read, aborting")) ∨
    ops ∈ [[Inc "crypterReadError"]; [Inc "crypterUnmarshalError"];
           [Inc "crypterBadSecret"; Inc "crypterWrite"]; [Inc "crypterBadSecret"; Inc "crypterWriteError"]]
  | Panic => False
  end ∧
  len (c_out c') = len (c_out c) + counted "crypterWrite" ops.
Proof.
  cbv zeta. unfold crypter_read_ops, crypter_read, mbind, sm_bind, sm_get.
  assert (∀ ops c1, c_out c1 = c_out c → ops = [] → let '(o, c') := read_packet c1 in
    match o with
    | Ok _ => ops ++ read_packet_ops c1 = [Inc "crypterRead"]
    | Err e =>
      (ops ++ read_packet_ops c1 = [] ∧ quiet e) ∨
      ops ++ read_packet_ops c1 ∈ [[Inc "crypterReadError"]; [Inc "crypterUnmarshalError"];
           [Inc "crypterBadSecret"; Inc "crypterWrite"]; [Inc "crypterBadSecret"; Inc "crypterWriteError"]]
    | Panic => False
    end ∧ len (c_out c') = len (c_out c) + counted "crypterWrite" (ops ++ read_packet_ops c1)) as Hp.
  { intros ops c1 <- ->. cbn [app]. pose proof (read_packet_counted c1) as H. cbv zeta in H.
    destruct (read_packet c1) as [[p|e|] c']; [destruct H as [-> ->]; count; split; [done|lia]| |done].
    destruct H as [[[[-> Hq]|[->| ->]] ->]|[[-> [w ->]]|[-> ->]]]; count; rewrite ?counted_nil, ?len_app, ?len_cons, ?len_nil.
    - split; [by left|lia].
    - split; [right; set_solver|lia].
    - split; [right; set_solver|lia].
    - split; [right; set_solver|lia].
    - split; [right; set_solver|lia]. }
  destruct (c_proxy c); [|apply (Hp []); done].
  unfold strip_proxy_ops. destruct (strip_proxy_cases c) as [(rest & Hs & _)|(e & rest & Hs)];
    rewrite Hs; revert Hs; unfold strip_proxy.
  - destruct (ReadBytes x00 c) as [[line|e|] c1] eqn:Er; [|done|done].
    destruct (ProxyHeader_Write _ line); [|done|done]. intros _. by apply (Hp []).
  - destruct (ReadBytes x00 c) as [[line|e'|] c1] eqn:Er; [| |done].
    + destruct (ProxyHeader_Write _ line); [done| |done]. intros _. split; [|cbn [app]; count; rewrite ?counted_nil; cbn [set_in c_out]; lia]. right. set_solver.
    + intros [= <- ->]. unfold wrap_proxy_err. case_decide; (split; [|cbn [app]; count; rewrite ?counted_nil; cbn [set_in c_out]; lia]); [by left; auto|].
      right. set_solver.
Qed.
End ReadFacts.

(** ** The connections of a server *)

(** The runs with counters are the runs of the server. *)
Lemma listen_metered_runs s0 s : rtc listen_step s0 s ↔ ∃ ops, listen_metered s0 s ops.
Proof.
  split.
  - revert s. apply rtc_ind_r; [eexists; constructor|]. intros s s' _ Hstep [ops Hm].
    destruct Hstep; eexists; econstructor; done.
  - intros [ops Hm]. induction Hm; [done|..]; (eapply rtc_r; [done|]); by econstructor.
Qed.

(** The gauges of the accepted connections and of the wait group are the number
    of the connections whose goroutine runs. *)
Theorem connections_counted sp bs s ops :
  listen_metered (listen (NewServer sp (SetUseProxy <$> bs))) s ops →
  gauge "serveAccepted" ops = len (ls_running s) ∧ gauge "waitgroupActive" ops = len (ls_running s).
Proof.
  induction 1 as [|s t ops _ [IH1 IH2] _|s before ch after w ops _ [IH1 IH2] Hr _|s ops _ IH _ _]; [done| | |done].
  - rewrite !gauge_app, IH1, IH2.
    destruct t as [|[conn|[]|]]; cbn [Serve_iteration Serve_iteration_ops ls_running];
      count; rewrite ?gauge_nil; [lia| |lia..].
    unfold serve_conn, serve_conn_ops, waitGroup_Add_ops.
    destruct (Serve_accept _ _ _ _ _ _ _); cbn [ls_running]; count; rewrite ?len_app, ?len_cons, ?len_nil; lia.
  - rewrite !gauge_app, IH1, IH2, Hr. unfold serve_done_ops, waitGroup_Done_ops. cbn [ls_running app]. count.
    rewrite !len_app, len_cons. lia.
Qed.

(** ** The verdicts of the stringy authorizer *)
Section VerdictFacts.
Context {HH : Hash} {RE : Regexp} {PL : Platform} {H W : Type} {WW : Writer W}.

Lemma evaluate_services_status services args acc status :
  (evaluate_services services args acc status).2 = status ∨
  (evaluate_services services args acc status).2 = AuthorStatusPassRepl.
Proof.
  revert acc status. induction services as [|s services IH]; intros acc status; [by left|].
  cbn [evaluate_services]. destruct (serviceMatcherModifier _ _) as [matched []].
  - right. by destruct (IH (Args_Append acc matched) AuthorStatusPassRepl) as [-> | ->].
  - apply IH.
Qed.

(** The counter of a reply of the authorizer. *)
Definition verdict_counter (rep : reply) : option string :=
  match rep with
  | RAuthor r =>
    if decide (AuthorReply_Status r = AuthorStatusPassAdd) then Some "stringyHandleAuthorizeAcceptPassAdd"%string
    else if decide (AuthorReply_Status r = AuthorStatusPassRepl) then Some "stringyHandleAuthorizeAcceptPassReplace"%string
    else if decide (AuthorReply_Status r = AuthorStatusFail) then Some "stringyHandleAuthorizeFail"%string
    else None
  | _ => None
  end.

(** A request of the user of the authorizer gets one reply, and the counter of
    its status is incremented, and no other. *)
Theorem verdicts_counted user request body :
  Unmarshal (Request_Body request) = Ok body → User_Name user = AuthorRequest_User body →
  ∃ rep v, stringy_Handle (H := H) (W := W) user request = (mret tt ;; reply_ rep) ∧ verdict_counter rep = Some v ∧
    stringy_Handle_ops user request = [Inc v].
Proof.
  intros Hu Hn. unfold stringy_Handle, stringy_Handle_ops. rewrite Hu, !decide_False by (by intros []). cbn [app].
  destruct (command_based body).
  - unfold command_Handle, command_Handle_ops. destruct (command_evaluate _ _); eexists _, _; done.
  - unfold session_Handle, session_Handle_ops, session_evaluate.
    set (args := AuthorRequest_Args body ++ _).
    pose proof (evaluate_services_status (User_Services user) (Args_Args args) [] AuthorStatusPassAdd) as Hs.
    destruct (evaluate_services _ _ _ _) as [out status]. cbn [snd] in Hs.
    destruct (0 <? len out); [|eexists _, _; done].
    destruct Hs as [-> | ->]; eexists _, _; done.
Qed.
End VerdictFacts.
