(* ===== verification/LogTheorems.v ===== *)
(** What a client can do to the debug log of the program. *)
From stdpp Require Import sorting.
From S2P Require Import Prelude.
From S2P Require Import GoStrings.
From S2P Require Import Buffer.
From S2P Require Import HeaderFields.
From S2P Require Import AuthenFields.
From S2P Require Import Header.
From S2P Require Import Codec.
From S2P Require Import Authenticate.
From S2P Require Import Response.
From S2P Require Import Handlers.
From S2P Require Import Logging.
From S2P Require Import HandlerTheorems.

(** ** The text of a record *)

(** [t] is printed somewhere in [s]. *)
Definition within (t s : gostring) : Prop := ∃ pre post, s = pre ++ t ++ post.

Lemma within_refl t : within t t.
Proof. exists [], []. by rewrite app_nil_r. Qed.

Lemma within_app_l t a b : within t a → within t (a ++ b).
Proof. intros (p & q & ->). exists p, (q ++ b). by rewrite <- !app_assoc. Qed.

Lemma within_app_r t a b : within t b → within t (a ++ b).
Proof. intros (p & q & ->). exists (a ++ p), q. by rewrite <- !app_assoc. Qed.

Lemma within_Join t e es sep : e ∈ es → within t e → within t (strings_Join es sep).
Proof.
  intros He Ht. induction es as [|e' es IH]; [by apply elem_of_nil in He|].
  destruct es as [|e2 es].
  - apply list_elem_of_singleton in He as <-. exact Ht.
  - change (strings_Join (e' :: e2 :: es) sep) with (e' ++ sep ++ strings_Join (e2 :: es) sep).
    apply elem_of_cons in He as [<-|He]; [by apply within_app_l|].
    do 2 apply within_app_r. by apply IH.
Qed.

(** Every value of a record is printed as it is. *)
Lemma Sprint_map_value (m : fields) k v : m !! k = Some v → within v (Sprint_map m).
Proof.
  intros Hk. unfold Sprint_map, print_entries. apply within_app_r, within_app_l.
  apply (within_Join _ (print_entry (k, v))).
  - apply list_elem_of_fmap. exists (k, v). split; [done|].
    rewrite merge_sort_Permutation. by apply elem_of_map_to_list.
  - unfold print_entry. cbn [fst snd]. do 2 apply within_app_r. apply within_refl.
Qed.

(** A record is printed in one way: whatever order Go ranges over the map in,
    the entries in the order of their keys are the only ones that can be
    printed. *)
Theorem record_printed_sorted (m : fields) l :
  l ≡ₚ map_to_list m → Sorted key_le l → Sprint_map m = print_entries l.
Proof.
  intros Hp Hs. unfold Sprint_map. f_equal.
  apply (Sorted_unique_strong key_le); [|apply Sorted_merge_sort, _|done|by rewrite merge_sort_Permutation].
  intros [k v] [k' v'] Hin Hin' Hle Hle'. cbn in *.
  rewrite merge_sort_Permutation, elem_of_map_to_list in Hin. rewrite Hp, elem_of_map_to_list in Hin'.
  assert (k = k') as <- by by apply bytes_leb_antisym. congruence.
Qed.

(** A PAP start packet with a user name. *)
Definition forged_start (user : gostring) : AuthenStart :=
  mkAuthenStart AuthenActionLogin x01 AuthenTypePAP AuthenServiceLogin user [] [] (str "x").

Lemma forged_start_decodes user :
  isAllASCII user = true → len user < 256 →
  ∃ p, AuthenStart_MarshalBinary (forged_start user) = Ok p ∧ AuthenStart_UnmarshalBinary p = Ok (forged_start user).
Proof.
  intros Ha Hl.
  assert (AuthenStart_Validate (forged_start user) = Ok tt) as Hv.
  { unfold AuthenStart_Validate, forged_start. cbn -[isAllASCII]. unfold AuthenUser_Validate. rewrite Ha. done. }
  assert (∃ p, AuthenStart_MarshalBinary (forged_start user) = Ok p) as [p Hp]
    by (unfold AuthenStart_MarshalBinary; rewrite Hv; by eexists).
  exists p. split; [exact Hp|]. rewrite <- (app_nil_r p).
  apply AuthenStart_roundtrip_gen; [|exact Hp]. by repeat split.
Qed.

(** C32. A client can forge lines of the debug log: values are printed as they
    are, so for every ASCII text of less than 255 bytes there is a valid PAP start
    packet whose record, with the password obscured, is printed as one line of the
    debug log in which a line break is followed by this text. *)
Theorem log_lines_forged (t : gostring) h ctx :
  isAllASCII t = true → len t < 255 → Header_Type h = Authenticate →
  ∃ p text, AuthenStart_UnmarshalBinary p = Ok (forged_start (x0a :: t)) ∧
    defaultLogger_Record_lines (newDefaultLogger 30)
      (Request_Fields (mkRequest h p ctx) [ContextConnRemoteAddr]) [str "data"] = [LogLine (str "DEBUG: ") text] ∧
    within (x0a :: t) text.
Proof.
  intros Ha Hl Hty. destruct (forged_start_decodes (x0a :: t)) as (p & _ & Hp).
  { cbn. exact Ha. }
  { rewrite len_cons. lia. }
  exists p. eexists. split; [exact Hp|]. split; [reflexivity|].
  rewrite (Request_Fields_start h ctx _ p _ Hty Hp).
  apply (Sprint_map_value _ (str "user")). unfold defaultLogger_Record. cbn [fmap option_fmap option_map default].
  cbn [foldl]. rewrite lookup_union_l' by done. cbn [from_option id].
  change (AuthenStart_Fields (forged_start (x0a :: t)) !! str "data") with (Some (str "x")). cbn iota.
  rewrite lookup_insert_ne by done. rewrite lookup_union_l' by done. done.
Qed.

(** ** Witnesses *)
Lemma record_printed_sorted_witness :
  Sprint_map {[ str "user" := str "joe"; str "action" := str "login" ]} = str "map[action:login user:joe]".
Proof.
  rewrite (record_printed_sorted {[ str "user" := str "joe"; str "action" := str "login" ]}
    [(str "action", str "login"); (str "user", str "joe")]).
  - vm_compute. reflexivity.
  - apply (bool_decide_unpack _). vm_compute. exact I.
  - apply (bool_decide_unpack _). vm_compute. exact I.
Defined.

Definition l_header : Header :=
  mkHeader (mkVersion MajorVersion MinorVersionOne) Authenticate 1 7 x00 0.

(** A client that makes the log tell of a full disk. *)
Lemma log_lines_forged_witness :
  ∃ p text, AuthenStart_UnmarshalBinary p = Ok (forged_start (x0a :: str "ERROR: disk full")) ∧
    defaultLogger_Record_lines (newDefaultLogger 30)
      (Request_Fields (mkRequest l_header p None) [ContextConnRemoteAddr]) [str "data"] =
      [LogLine (str "DEBUG: ") text] ∧
    within (x0a :: str "ERROR: disk full") text.
Proof. exact (log_lines_forged (str "ERROR: disk full") l_header None eq_refl eq_refl eq_refl). Defined.
