(* ===== verification/MainTheorems.v ===== *)
(** The program as a whole: when it starts, and what the process it starts
    promises. *)
From S2P Require Import Prelude.
From S2P Require Import GoStrings.
From S2P Require Import HeaderFields.
From S2P Require Import MD5.
From S2P Require Import Proxy.
From S2P Require Import Response.
From S2P Require Import Config.
From S2P Require Import Stringy.
From S2P Require Import AAA.
From S2P Require Import Handlers.
From S2P Require Import SecretProviders.
From S2P Require Import Loader.
From S2P Require Import Listener.
From S2P Require Import ConfigFiles.
From S2P Require Import System.
From S2P Require Import Logging.
From S2P Require Import MainProgram.
From S2P Require Import ServerTheorems.
From S2P Require Import LoaderTheorems.
From S2P Require Import ConfigFileTheorems.
From S2P Require Import SystemTheorems.

(** ** The start *)
Section Start.
Context (decode : decoder) {NT : Net}.

(** The host lets the program start, with the configuration [c] in its file. *)
Definition starts (f : flags) (h : host) (c : ServerConfig) : Prop :=
  host_OpenFile h (flag_accountingLogPath f) = None ∧
  (∃ b, host_ReadFile h (flag_configPath f) = Contents b ∧ decode b zero_ServerConfig = (None, c)) ∧
  ServerConfig_Secrets c ≠ [] ∧ ServerConfig_Users c ≠ [] ∧
  host_fsnotify h = (true, true) ∧
  host_Listen h (flag_network f) (flag_address f) = Ok true.

(** The pipeline that has loaded [c] and not yet received it. *)
Definition loaded_pipeline (c : ServerConfig) : pipeline :=
  mkPipeline (mkWatcher true 0) (mkFileLoader c [c] None) updates_init.

Lemma len_lt_1 {A} (l : list A) : (len l <? 1) = bool_decide (l = []).
Proof.
  destruct l as [|x l]; [done|]. rewrite len_cons. pose proof (len_nonneg l).
  rewrite bool_decide_false by done. apply Z.ltb_ge. lia.
Qed.

(** What the first load makes of a file. *)
Lemma first_load f :
  (∃ b c, f = Contents b ∧ decode b zero_ServerConfig = (None, c) ∧
     ServerConfig_Secrets c ≠ [] ∧ ServerConfig_Users c ≠ [] ∧
     YAML_Load decode f file_New = (None, mkFileLoader c [c] None)) ∨
  ((¬ ∃ b c, f = Contents b ∧ decode b zero_ServerConfig = (None, c) ∧
     ServerConfig_Secrets c ≠ [] ∧ ServerConfig_Users c ≠ []) ∧
   ∃ e l, YAML_Load decode f file_New = (Some e, l)).
Proof.
  destruct f as [e|e|b]; cbn [YAML_Load].
  1,2: right; split; [intros (? & ? & ? & _); done|by do 2 eexists].
  unfold YAML_Unmarshal. cbn [fl_ServerConfig file_New].
  destruct (decode b zero_ServerConfig) as [[e|] c] eqn:Ed.
  { right. split; [|by do 2 eexists]. intros (? & ? & [= <-] & ? & _). congruence. }
  rewrite !len_lt_1. case_bool_decide as Hs; [|case_bool_decide as Hu].
  1,2: right; split; [|by do 2 eexists]; intros (? & ? & [= <-] & He & ? & ?); rewrite Ed in He;
    injection He as <-; done.
  left. by exists b, c.
Qed.

(** C22. When the program starts: it calls [Serve], with the loader, the pipeline
    and the listener its flags ask for, exactly if its accounting log opens, its
    configuration file holds users and secrets, the file can be watched and the
    address gives a TCP listener; otherwise it prints one fatal line, at every
    log level, and returns, with the status of a success. *)
Theorem program_starts f h :
  (∃ c, starts f h c ∧
     main decode f h =
       Serving (defaultLogger_Infof (newDefaultLogger (flag_level f)) (str "serve on %v"))
         (main_loader GetSecret) (filepath_Base (flag_configPath f))
         (boot (main_loader GetSecret) (loaded_pipeline c) (flag_proxy f))) ∨
  ((¬ ∃ c, starts f h c) ∧ ∃ text, main decode f h = Returned [LogLine (str "FATAL: ") text] 0).
Proof.
  unfold main, NewLocalAccounter, SetLogSinkDefault, starts. cbn [foldl].
  destruct (host_OpenFile h (flag_accountingLogPath f)) as [e|] eqn:Eo; cbn [la_sink].
  { right. split; [intros (c & Hc & _); done|by eexists]. }
  unfold NewLocalConfig, Watcher_Load.
  destruct (first_load (host_ReadFile h (flag_configPath f)))
    as [(b & c & Hf & Hd & Hs & Hu & ->)|[Hno (e & l & ->)]]; cycle 1.
  { right. split; [|by eexists]. intros (c & _ & (b & Hf & Hd) & Hs & Hu & _). apply Hno. eauto 10. }
  destruct (host_fsnotify h) as [[|] [|]]; cbn [negb fst snd].
  2-4: right; split; [intros (? & _ & _ & _ & _ & ? & _); done|by eexists].
  rewrite main_loader_New. cbn [mbind outcome_bind].
  destruct (host_Listen h _ _) as [[|]|e|].
  2-4: right; split; [intros (? & _ & _ & _ & _ & _ & ?); done|by eexists].
  left. exists c. split; [|done]. split_and!; [done|by exists b|done..].
Qed.
End Start.

(** ** The run *)
Section Run.
Context (decode : decoder) {NT : Net} {HH : Hash} {RE : Regexp} {PL : Platform} {DL : Dialer}.

Lemma main_live f h lines l base p :
  main decode f h = Serving lines l base p →
  l = main_loader GetSecret ∧ ∃ c, live decode l base (flag_exportPromHTTP f) p [c] [].
Proof.
  unfold main. destruct (NewLocalAccounter _) as [a|e|]; [|done..].
  destruct (NewLocalConfig _ _ _ _) as [[r pl]|e|] eqn:E; [|done..].
  destruct (host_Listen h _ _) as [[|]|e|]; [|done..]. intros [= _ <- <- <-].
  split; [|eexists; by eapply live_boot].
  unfold NewLocalConfig in E. apply bind_ok in E as (x & _ & E). apply bind_ok in E as (r' & Hr & E).
  rewrite main_loader_New in Hr. injection Hr as <-. by injection E as <- _.
Qed.

Lemma run_safe export base es p loaded received s :
  live decode (main_loader GetSecret) base export p loaded received →
  Forall config_ok (received ++
    run_configs decode (main_loader GetSecret) base export process_receives es p) →
  process_run decode (main_loader GetSecret) base export es (Up p) = Some s → s ≠ Down.
Proof.
  revert p loaded received. induction es as [|e es IH]; intros p loaded received Hl Hc Hr; cbn in Hr.
  { by injection Hr as <-. }
  apply bind_Some in Hr as (s1 & Hs & Hr). cbn [run_configs] in Hc. rewrite Hs in Hc.
  destruct s1 as [p1|].
  - rewrite app_assoc in Hc. eapply (IH p1); [by eapply live_step|exact Hc|exact Hr].
  - exfalso. eapply process_step_safe; [exact Hl| |exact Hs]. by apply Forall_app in Hc as [? _].
Qed.

(** C2. The program does not panic: in every run of the process that [main]
    starts, with any interleaving of its accept loop, its connections, the
    watcher and the loader, and any input on any connection, no goroutine
    panics, provided that every configuration the loader receives during the
    run is one that keeps the server up, checked user by user. *)
Theorem program_never_panics f h lines l base p es s :
  main decode f h = Serving lines l base p →
  Forall config_ok (run_configs decode l base (flag_exportPromHTTP f) process_receives es p) →
  process_run decode l base (flag_exportPromHTTP f) es (Up p) = Some s → s ≠ Down.
Proof.
  intros Hm Hc Hr. destruct (main_live _ _ _ _ _ _ Hm) as [-> [c Hl]]. by eapply (run_safe _ _ es p _ []).
Qed.
End Run.

(** ** Witnesses *)
#[local] Instance m_Net : Net := y_Net.
#[local] Instance m_Hash : Hash := MD5.
#[local] Instance m_Regexp : Regexp := w_Regexp.
#[local] Instance m_Platform : Platform := w_Platform.
#[local] Instance m_Dialer : Dialer := w_Dialer.

Definition m_host : host :=
  mkHost (λ _, None) (λ _, Contents []) (true, true) (λ _ _, Ok true).

Lemma program_never_panics_witness :
  ∃ lines l base p, main t_decode default_flags m_host = Serving lines l base p ∧
    process_run t_decode l base true t_two_events (Up p) ≠ Some Down ∧
    is_up (process_run t_decode l base true t_two_events (Up p)) = true.
Proof.
  destruct (main t_decode default_flags m_host) as [?|lines l base p] eqn:E; [discriminate E|].
  exists lines, l, base, p. split; [reflexivity|].
  assert (l = main_loader GetSecret ∧ base = t_base ∧ p = boot (main_loader GetSecret) t_pipeline false)
    as (-> & -> & ->) by (injection E as _ <- <- <-; split; [reflexivity|split; reflexivity]).
  split; [|vm_compute; reflexivity]. intros Hr.
  apply (program_never_panics t_decode default_flags m_host lines _ _ _ t_two_events Down E); [|exact Hr|reflexivity].
  change (flag_exportPromHTTP default_flags) with true.
  assert (run_configs t_decode (main_loader GetSecret) t_base true process_receives t_two_events
    (boot (main_loader GetSecret) t_pipeline false) = [y_config]) as -> by (vm_compute; reflexivity).
  constructor; [exact y_config_ok|constructor].
Defined.
