(* ===== verification/ClientTheorems.v ===== *)
(** The whole system: the command line client of cmds/client, dialled to the
    server that cmds/server/main.go sets up for a configuration. *)
From S2P Require Import Prelude.
From S2P Require Import GoStrings.
From S2P Require Import Buffer.
From S2P Require Import HeaderFields.
From S2P Require Import AuthenFields.
From S2P Require Import AuthorFields.
From S2P Require Import Header.
From S2P Require Import Codec.
From S2P Require Import Args.
From S2P Require Import Authenticate.
From S2P Require Import Authorize.
From S2P Require Import MD5.
From S2P Require Import Proxy.
From S2P Require Import Crypt.
From S2P Require Import Crypter.
From S2P Require Import Sessions.
From S2P Require Import Response.
From S2P Require Import Server.
From S2P Require Import Client.
From S2P Require Import ClientPrograms.
From S2P Require Import Config.
From S2P Require Import Stringy.
From S2P Require Import AAA.
From S2P Require Import Handlers.
From S2P Require Import SecretProviders.
From S2P Require Import Loader.
From S2P Require Import HandlerTheorems.
From S2P Require Import EndToEnd.
From S2P Require Import AuthzTheorems.
From S2P Require Import LoaderTheorems.

Section Exchanges.
Context {HH : Hash} {RE : Regexp} {PL : Platform} {DL : Dialer}.

(** The struct of a secret provider hands packets to the handler it embeds. *)
Lemma serve_packet_embedded h ctx s : serve_packet (HSecretConfig h) ctx s = serve_packet h ctx s.
Proof.
  unfold serve_packet. destruct (crypter_read _) as [[p|e|] c]; [|done..].
  destruct (newRequest ctx c p) as [q|]; [|done].
  by destruct (sessions_get _ _) as [[[st|]|e|] known].
Qed.

Lemma exchange_embedded h ctx p c s : exchange (HSecretConfig h) ctx p c s = exchange h ctx p c s.
Proof.
  unfold exchange, Client_Send, server_answer, server_turn. rewrite serve_packet_embedded.
  destruct (crypter_write (Some p) c) as [[n|e|] c']; [|done..]. by rewrite serve_packet_embedded.
Qed.

(** The length a packet announces is set when it is written. *)
Lemma exchange_Length h ctx hd n body c s :
  exchange h ctx (mkPacket (Some (set_Length hd n)) (Some body)) c s =
  exchange h ctx (mkPacket (Some hd) (Some body)) c s.
Proof. done. Qed.

(** What the programs see of an exchange. *)
Lemma send_gets h ctx hd n body c s seqNo rep c' s' :
  gets h ctx hd body c s seqNo rep c' s' →
  ∃ h' b, send (server_peer (HSecretConfig h) ctx) (mkPacket (Some (set_Length hd n)) (Some body)) (c, Open s) =
      (Ok (mkPacket (Some h') (Some b)), (c', Open s')) ∧ AuthenReply_UnmarshalBinary b = Ok rep.
Proof.
  intros (h' & b & He & _ & _ & _ & Hb). exists h', b. split; [|done].
  by rewrite send_exchange, exchange_embedded, exchange_Length, He.
Qed.

(** The start packet of the PAP login of the program. *)
Definition pap_start (f : client_flags) (password : gostring) : AuthenStart :=
  mkAuthenStart AuthenActionLogin (u8 (f_privLvl f)) AuthenTypePAP AuthenServiceNone (f_username f)
    (f_port f) (f_remAddr f) password.

(** It can be encoded: the level is one of the sixteen and the texts are
    ASCII. *)
Definition pap_encodable (f : client_flags) : bool :=
  (b2z (u8 (f_privLvl f)) <=? 15) && isAllASCII (f_username f) && isAllASCII (f_port f) &&
  isAllASCII (f_remAddr f).

Lemma pap_start_encodes f password :
  if pap_encodable f then ∃ b, AuthenStart_MarshalBinary (pap_start f password) = Ok b
  else ∃ e, AuthenStart_MarshalBinary (pap_start f password) = Err e.
Proof.
  unfold AuthenStart_MarshalBinary, AuthenStart_Validate, pap_encodable. cbn [AuthenStart_Type pap_start].
  rewrite decide_False by done. cbn.
  unfold PrivLvl_Validate, AuthenUser_Validate, AuthenPort_Validate, AuthenRemAddr_Validate, require.
  destruct (b2z _ <=? 15), (isAllASCII (f_username f)), (isAllASCII (f_port f)), (isAllASCII (f_remAddr f));
    cbn; by eexists.
Qed.

(** The fields of a login fit the packets. *)
Definition flags_fit (f : client_flags) (password : gostring) : Prop :=
  len (f_username f) < 256 ∧ len (f_port f) < 256 ∧ len (f_remAddr f) < 256 ∧ len password < 256.

(** What the program prints for the verdict on a password. *)
Lemma printResponse_decoded b rep :
  AuthenReply_UnmarshalBinary b = Ok rep → printResponse b = PrintedReply rep.
Proof. unfold printResponse, Unmarshal. cbn. by intros ->. Qed.

Lemma pap_run c hash ctx f rand terminal password cl s :
  linked cl s → cs_known s = ∅ →
  getPassword_flag f terminal = Some password → flags_fit f password →
  f_username f ≠ [] → password ≠ [] → bcrypt_user c (f_username f) hash →
  (pap (server_peer (HSecretConfig (Start_New c)) ctx) f rand terminal (cl, Open s)).1 =
  if pap_encodable f then PrintedReply (verdict hash password) else Crash.
Proof.
  intros Hl Hk Hpw (H1 & H2 & H3 & H4) Hu Hp Hb. unfold pap. rewrite Hpw.
  unfold newPAPRequest, SetPacketBodyUnsafe.
  change (NewAuthenStart _) with (pap_start f password). cbn [MarshalBinary AuthenStart_EncoderDecoder].
  pose proof (pap_start_encodes f password) as He. destruct (pap_encodable f); destruct He as [b He]; rewrite He; [|done].
  destruct (pap_exchange c hash ctx x00 (u32 rand) (pap_start f password) b cl s)
    as (cl' & s' & Hg & _); [done|by rewrite Hk|apply Z.mod_pos_bound; lia|by repeat split|done..|].
  apply (send_gets _ _ _ (u32 (len b))) in Hg as (h' & b' & Hs & Hd).
  change (SetPacketBody b (NewPacket _)) with
    (mkPacket (Some (set_Length (login_header MinorVersionOne x00 (u32 rand) 1) (u32 (len b)))) (Some b)).
  rewrite Hs. cbn. by apply printResponse_decoded.
Qed.

Lemma validate_status_decoded status b rep :
  AuthenReply_UnmarshalBinary b = Ok rep →
  validate_status status b = if decide (AuthenReply_Status rep = status) then None else Some Exit1.
Proof.
  unfold validate_status, Unmarshal. cbn. intros ->. by repeat case_decide.
Qed.

(** The packets of the ASCII login of the program: the answer to the prompt for
    the password is the user name. *)
Lemma ascii_run c hash ctx f terminal cl s :
  linked cl s → cs_known s = ∅ →
  is_Some (getPassword_flag f terminal) → 0 < len (f_username f) < 256 → isAllASCII (f_username f) = true →
  bcrypt_user c (f_username f) hash →
  (ascii (server_peer (HSecretConfig (Start_New c)) ctx) f terminal (cl, Open s)).1 =
  if bcrypt_matches hash (f_username f)
  then PrintedReply (mkAuthenReply AuthenStatusPass x00 (str "login success") []) else Exit1.
Proof.
  intros Hl Hk [password Hpw] Hu Ha Hb. unfold ascii. rewrite Hpw. clear Hpw.
  set (start := mkAuthenStart AuthenActionLogin PrivLvlUser AuthenTypeASCII AuthenServiceLogin []
    (str "tty0") (str "devvm2515") []).
  assert (∃ b1, AuthenStart_MarshalBinary start = Ok b1) as [b1 H1] by (vm_compute; eauto).
  set (cont := mkAuthenContinue x00 (f_username f) []).
  assert (∃ b2, AuthenContinue_MarshalBinary cont = Ok b2) as [b2 H2].
  { unfold AuthenContinue_MarshalBinary, AuthenContinue_Validate. cbn.
    unfold AuthenUserMessage_Validate, require. rewrite Ha. cbn. by eexists. }
  destruct (ascii_exchange c hash ctx x00 12345 start b1 (f_username f) b2 (f_username f) b2 cl s)
    as (cl1 & s1 & cl2 & s2 & cl3 & s3 & G1 & G2 & G3 & _);
    [done|by rewrite Hk|done|by repeat split|done..|].
  unfold newASCIIAuthenSequence, SetPacketBodyUnsafe.
  change (NewAuthenStart _) with start. change (NewAuthenContinue _) with cont.
  cbn [MarshalBinary AuthenStart_EncoderDecoder AuthenContinue_EncoderDecoder]. rewrite H1, H2.
  apply (send_gets _ _ _ (u32 (len b1))) in G1 as (h1 & r1 & S1 & D1).
  apply (send_gets _ _ _ (u32 (len b2))) in G2 as (h2 & r2 & S2 & D2).
  apply (send_gets _ _ _ (u32 (len b2))) in G3 as (h3 & r3 & S3 & D3).
  cbn [mbind outcome_bind ascii_loop as_packet as_validate].
  change (SetPacketBody b1 (NewPacket _)) with
    (mkPacket (Some (set_Length (login_header MinorVersionDefault x00 12345 1) (u32 (len b1)))) (Some b1)).
  rewrite S1. cbn [Packet_Body default from_option id]. rewrite (validate_status_decoded _ _ _ D1).
  rewrite decide_True by done.
  change (SetPacketBody b2 (NewPacket [SetPacketHeader (NewHeader [_; _; SetHeaderSeqNo 3; _])])) with
    (mkPacket (Some (set_Length (login_header MinorVersionDefault x00 12345 3) (u32 (len b2)))) (Some b2)).
  rewrite S2. cbn [Packet_Body default from_option id]. rewrite (validate_status_decoded _ _ _ D2).
  rewrite decide_True by done.
  change (SetPacketBody b2 (NewPacket [SetPacketHeader (NewHeader [_; _; SetHeaderSeqNo 5; _])])) with
    (mkPacket (Some (set_Length (login_header MinorVersionDefault x00 12345 5) (u32 (len b2)))) (Some b2)).
  rewrite S3. cbn [Packet_Body default from_option id]. rewrite (validate_status_decoded _ _ _ D3).
  unfold verdict in *. destruct (bcrypt_matches hash (f_username f)); cbn [AuthenReply_Status] in *.
  - rewrite decide_True by done. cbn [fst]. by apply printResponse_decoded.
  - by rewrite decide_False.
Qed.
End Exchanges.

(** ** From the configuration to the login *)
Section Deployment.
Context {NT : Net} {DI : Dial} {HH : Hash} {RE : Regexp} {PL : Platform} {DL : Dialer} (shhh : getSecret).

(** The user [u] of the configuration logs in to the scope of [sc] with a
    bcrypt hash: it is the last of its name and in the scope, and the hash is
    its own, or that of the first of its groups that has an authenticator. *)
Definition configured (c : ServerConfig) (sc : SecretConfig) (u : User) (hash : list byte) : Prop :=
  (∃ pre post, ServerConfig_Users c = pre ++ u :: post ∧ Forall (λ u', User_Name u' ≠ User_Name u) post) ∧
  SecretConfig_Name sc ∈ User_Scopes u ∧
  ∃ a, first_set (User_Authenticator u :: (Group_Authenticator <$> User_Groups u)) = Some a ∧
    Authenticator_Type a = BCRYPT ∧ option_get (Authenticator_Options a) (str "hash") ≠ [] ∧
    hex_DecodeString (option_get (Authenticator_Options a) (str "hash")) = Some hash.

Lemma configured_user c sc u hash :
  configured c sc u hash → bcrypt_user (users_of shhh c sc) (User_Name u) hash.
Proof.
  intros ((pre & post & Hc & Hpost) & Hs & a & Ha & Hty & Hne & Hhex).
  assert (∃ A b, build_user (main_loader shhh) (SecretConfig_Name sc) u = Some A ∧
    AAA_Authenticate A = HBcrypt b ∧
    so_hash (ba_options b) = option_get (Authenticator_Options a) (str "hash")) as (A & b & HA & Hb & Hh).
  { unfold build_user. assert (User_HasScope u (SecretConfig_Name sc) = true) as -> by by apply User_HasScope_spec.
    cbn [negb]. rewrite reduce_groups.
    cbn [User_LocalizeToScope User_Authenticator User_Accounter User_Groups set_AA User_Name].
    rewrite Ha, main_authenticatorTypes, decide_True by done.
    unfold Bcrypt_factory, BcryptAuthenticator_New, supportedOptions_validate.
    rewrite bool_decide_eq_false_2 by (intros [? _]; done). cbn [mbind outcome_bind].
    destruct (first_set (User_Accounter u :: _)) as [ac|]; [destruct (l_accounterTypes _ !! _)|];
      do 2 eexists; (split; [reflexivity|]); (split; [reflexivity|done]). }
  exists A, b. split_and!; [|done|by rewrite Hh|by rewrite Hh].
  apply build_users_lookup. exists pre, u, post. split_and!; [done..|].
  eapply Forall_impl; [exact Hpost|]. intros u' Hne' Heq. done.
Qed.

(** The connection of a client from [remote], in the order things happen: the
    loader answers for the address, and the program runs against the server
    loop. [None]: the server closes the connection. *)
Definition client_session (c : ServerConfig) (local remote : Addr) (ctx : fields) (w : env)
    (f : client_flags) (rand : Z) (terminal : option gostring) : option ending :=
  match Serve_accept (loader_get (build (main_loader shhh) c) remote) local remote [] EOF [] false with
  | Some (cr, h) => Some (client_main (server_peer h ctx) f rand terminal (new_conn cr w))
  | None => None
  end.

(** The client and the server belong together: the config [sc] is the one the
    server uses for the address, the client has its key, and the dialler gives
    it an idle connection. *)
Definition deployed (c : ServerConfig) (sc : SecretConfig) (remote : Addr) (f : client_flags) : Prop :=
  (∃ pre post, ServerConfig_Secrets c = pre ++ sc :: post ∧ Forall (λ sc, ¬ serves shhh c remote sc) pre) ∧
  serves shhh c remote sc ∧ Keychain_Key (SecretConfig_Secret sc) = f_secret f ∧ f_secret f ≠ [] ∧
  ∃ addr conn, net_ResolveTCPAddr (f_network f) (f_address f) = Some addr ∧
    net_DialTCP (f_network f) None addr = Some conn ∧ nc_in conn = [] ∧ nc_write_errs conn = [].

(** Two ways to cut a list at its first hit agree. *)
Lemma first_unique {A} (P : A → Prop) (pre pre' : list A) x x' post post' :
  pre ++ x :: post = pre' ++ x' :: post' → Forall (λ y, ¬ P y) pre → Forall (λ y, ¬ P y) pre' →
  P x → P x' → x = x'.
Proof.
  revert pre'. induction pre as [|y pre IH]; intros [|y' pre'] Heq Hp Hp' Hx Hx'; cbn in Heq; injection Heq as -> Heq.
  - done.
  - by apply Forall_cons in Hp' as [? _].
  - by apply Forall_cons in Hp as [? _].
  - apply Forall_cons in Hp as [_ Hp], Hp' as [_ Hp']. by eapply IH.
Qed.

(** The connection of a client that a secret config serves. *)
Lemma served_accept c sc local remote :
  (∃ pre post, ServerConfig_Secrets c = pre ++ sc :: post ∧ Forall (λ sc, ¬ serves shhh c remote sc) pre) →
  serves shhh c remote sc →
  Serve_accept (loader_get (build (main_loader shhh) c) remote) local remote [] EOF [] false =
  Some (newCrypter (Keychain_Key (SecretConfig_Secret sc)) local remote [] EOF [] false,
        HSecretConfig (Start_New (users_of shhh c sc))).
Proof.
  intros (pre & post & Hc & Hpre) Hs. unfold build.
  destruct (loader_get_cases shhh c (ServerConfig_Secrets c) remote)
    as [(pre' & sc' & post' & Hc' & Hpre' & Hs' & ->)|[Hno _]].
  - assert (sc = sc') as <-; [|done].
    eapply (first_unique (serves shhh c remote)); [by rewrite <- Hc, <- Hc'|done..].
  - rewrite Hc, Forall_app, Forall_cons in Hno. by destruct Hno as (_ & ? & _).
Qed.

(** What a session of a deployed client is. *)
Lemma client_session_run c sc local remote ctx w f rand terminal :
  deployed c sc remote f → f_username f ≠ [] →
  ∃ cl s, linked cl s ∧ cs_known s = ∅ ∧
    client_session c local remote ctx w f rand terminal =
    Some (let peer := server_peer (HSecretConfig (Start_New (users_of shhh c sc))) ctx in
          if decide (f_authenMode f = str "pap") then (pap peer f rand terminal (cl, Open s)).1
          else if decide (f_authenMode f = str "ascii") then (ascii peer f terminal (cl, Open s)).1
          else PrintedInvalidMode).
Proof.
  intros (Hc & Hs & Hk & Hne & addr & conn & Hres & Hdial & Hin & Herr) Hu.
  unfold client_session. rewrite (served_accept c sc local remote Hc Hs), Hk.
  unfold client_main, verifyFlags. rewrite !bool_decide_eq_false_2 by done. cbn [negb andb].
  cbn [NewClient foldl]. unfold SetClientDialer. rewrite Hres, Hdial. unfold client_crypter.
  eexists (newCrypter (f_secret f) (nc_local conn) (nc_remote conn) (nc_in conn) (nc_end conn)
    (nc_write_errs conn) false), _.
  split; [|split; [|reflexivity]]; [|done]. unfold linked. cbn. by rewrite Hin, Herr.
Qed.

(** The run of the PAP client. *)
Lemma configured_pap_run c sc u hash local remote ctx w f rand terminal password :
  deployed c sc remote f → configured c sc u hash →
  f_authenMode f = str "pap" → f_username f = User_Name u → f_username f ≠ [] →
  getPassword_flag f terminal = Some password → password ≠ [] → flags_fit f password →
  client_session c local remote ctx w f rand terminal =
  Some (if pap_encodable f then PrintedReply (verdict hash password) else Crash).
Proof.
  intros Hd Hc Hm Hu Hne Hp Hpn Hf.
  destruct (client_session_run c sc local remote ctx w f rand terminal Hd Hne) as (cl & s & Hl & Hk & ->).
  cbv zeta. rewrite decide_True by done. f_equal. eapply pap_run; try done.
  rewrite Hu. by apply configured_user.
Qed.

(** C1. The program from end to end: when the PAP client is run with a user
    name, a password and the key that the configuration has for its address,
    then the verdict it prints is a success if and only if the password matches
    the bcrypt hash the configuration gives the user, in its own entry or
    through its groups; with flags that cannot be encoded the client panics
    instead. *)
Theorem configured_pap_login c sc u hash local remote ctx w f rand terminal password :
  deployed c sc remote f → configured c sc u hash →
  f_authenMode f = str "pap" → f_username f = User_Name u → f_username f ≠ [] →
  getPassword_flag f terminal = Some password → password ≠ [] → flags_fit f password →
  client_session c local remote ctx w f rand terminal =
  Some (if pap_encodable f then PrintedReply (verdict hash password) else Crash).
Proof. apply configured_pap_run. Qed.

(** C33. The ASCII client never sends the password: whatever password is given
    or typed, the login succeeds if and only if the user NAME matches the hash
    of the user, and otherwise the client exits with an error. *)
Theorem ascii_client_sends_username c sc u hash local remote ctx w f rand terminal :
  deployed c sc remote f → configured c sc u hash →
  f_authenMode f = str "ascii" → f_username f = User_Name u →
  0 < len (f_username f) < 256 → isAllASCII (f_username f) = true →
  is_Some (getPassword_flag f terminal) →
  client_session c local remote ctx w f rand terminal =
  Some (if bcrypt_matches hash (f_username f)
        then PrintedReply (mkAuthenReply AuthenStatusPass x00 (str "login success") []) else Exit1).
Proof.
  intros Hd Hc Hm Hu Hl Ha Hp.
  assert (f_username f ≠ []) as Hne by (intros E; rewrite E in Hl; destruct Hl as [Hl _]; by vm_compute in Hl).
  destruct (client_session_run c sc local remote ctx w f rand terminal Hd Hne) as (cl & s & Hlk & Hk & ->).
  cbv zeta. rewrite decide_False by (by rewrite Hm). rewrite decide_True by done. f_equal.
  eapply ascii_run; try done. rewrite Hu. by apply configured_user.
Qed.

(** ** From the configuration to the authorization of a command *)

(** The last user of its name is in the scope of [sc]. *)
Definition in_scope (c : ServerConfig) (sc : SecretConfig) (u : User) : Prop :=
  (∃ pre post, ServerConfig_Users c = pre ++ u :: post ∧ Forall (λ u', User_Name u' ≠ User_Name u) post) ∧
  SecretConfig_Name sc ∈ User_Scopes u ∧ User_Name u ≠ [].

(** The commands of a user, then those of its groups. *)
Definition all_commands (u : User) : list Command :=
  User_Commands u ++ concat (Group_Commands <$> User_Groups u).

Lemma ReduceAll_commands u :
  User_Commands (ReduceAll u) = all_commands u ∧ User_Name (ReduceAll u) = User_Name u.
Proof.
  unfold ReduceAll, all_commands.
  assert (∀ gs u, let u' := foldl (λ u g,
    mkUser (User_Name u) (User_Scopes u) (User_Groups u)
      (User_Services u ++ Group_Services g) (User_Commands u ++ Group_Commands g)
      (User_Authenticator u) (User_Accounter u)) u gs in
    User_Commands u' = User_Commands u ++ concat (Group_Commands <$> gs) ∧ User_Name u' = User_Name u) as H; [|apply H].
  clear u. induction gs as [|g gs IH]; intros u; cbn [foldl]; [by rewrite app_nil_r|].
  destruct (IH (mkUser (User_Name u) (User_Scopes u) (User_Groups u)
      (User_Services u ++ Group_Services g) (User_Commands u ++ Group_Commands g)
      (User_Authenticator u) (User_Accounter u))) as [H1 H2]. cbv zeta in *. rewrite H1, H2. cbn.
  by rewrite app_assoc.
Qed.

Lemma ReduceAll_scopes u : User_Scopes (ReduceAll u) = User_Scopes u.
Proof.
  unfold ReduceAll. generalize (User_Groups u) as gs. intros gs. revert u.
  induction gs as [|g gs IH]; intros u; [done|]. cbn [foldl]. by rewrite IH.
Qed.

(** The user as it is handed to the authorizer of the scope of [sc]. *)
Definition localized (sc : SecretConfig) (u : User) : User :=
  ReduceAll (reduceAuthenticatorAccounterFromGroups (User_LocalizeToScope u (SecretConfig_Name sc))).

Lemma localized_fields sc u :
  User_Commands (localized sc u) = all_commands u ∧ User_Services (localized sc u) = all_services u ∧
  User_Name (localized sc u) = User_Name u ∧
  User_GetLocalizedScope (localized sc u) = str "scope=" ++ SecretConfig_Name sc.
Proof.
  unfold localized. rewrite reduce_groups.
  set (u' := set_AA _ _ _). destruct (ReduceAll_commands u') as [H1 H2].
  pose proof (ReduceAll_services u') as H3. split_and!; [exact H1|exact H3|exact H2|].
  unfold User_GetLocalizedScope. by rewrite ReduceAll_scopes.
Qed.

(** The accounter a configured user ends up with. *)
Definition accounter_of (u : User) : user_handler :=
  match first_set (User_Accounter u :: (Group_Accounter <$> User_Groups u)) with
  | Some a => if decide (Accounter_Type a = FILE) then HLocal else DefaultAccounter
  | None => DefaultAccounter
  end.

(** A user in scope is given the stringy authorizer, over all its commands and
    services, and its accounter. *)
Lemma in_scope_entry c sc u :
  in_scope c sc u → ∃ A, users_of shhh c sc !! User_Name u = Some A ∧
    AAA_Authorizer A = HStringy (localized sc u) ∧ AAA_Accounting A = accounter_of u.
Proof.
  intros ((pre & post & Hc & Hpost) & Hs & Hne).
  assert (∃ A, build_user (main_loader shhh) (SecretConfig_Name sc) u = Some A ∧
    AAA_Authorizer A = HStringy (localized sc u) ∧ AAA_Accounting A = accounter_of u) as (A & HA & HU).
  { unfold build_user, localized, accounter_of.
    assert (User_HasScope u (SecretConfig_Name sc) = true) as -> by by apply User_HasScope_spec.
    cbn [negb]. rewrite reduce_groups.
    cbn [User_LocalizeToScope User_Authenticator User_Accounter User_Groups set_AA User_Name].
    set (u' := set_AA _ _ _).
    assert (∀ o, o = Some [] ∨ (∃ h, o = Some [SetAAAAuthenticator h]) → ∃ A,
      match o with
      | None => None
      | Some o => Some (NewAAA
        match first_set (User_Accounter u :: (Group_Accounter <$> User_Groups u)) with
        | None => [SetAAAAuthorizer (HStringy (ReduceAll u'))] ++ o
        | Some a => match l_accounterTypes (ld (main_loader shhh)) !! Accounter_Type a with
                    | None => [SetAAAAuthorizer (HStringy (ReduceAll u'))] ++ o
                    | Some acf => ([SetAAAAuthorizer (HStringy (ReduceAll u'))] ++ o) ++ [SetAAAAccounter (acf (Accounter_Options a))]
                    end
        end)
      end = Some A ∧ AAA_Authorizer A = HStringy (ReduceAll u') ∧
      AAA_Accounting A = match first_set (User_Accounter u :: (Group_Accounter <$> User_Groups u)) with
        | Some a => if decide (Accounter_Type a = FILE) then HLocal else DefaultAccounter
        | None => DefaultAccounter
        end) as Hall.
    { intros o Ho. destruct (first_set (User_Accounter u :: _)) as [ac|]; [rewrite main_accounterTypes; case_decide|];
        destruct Ho as [->|[h ->]]; by eexists. }
    apply Hall. destruct (first_set (User_Authenticator u :: _)) as [a|]; [|by left].
    rewrite main_authenticatorTypes. case_decide; [|by left]. right.
    unfold Bcrypt_factory, BcryptAuthenticator_New, supportedOptions_validate, newSupportedOptions. cbn.
    rewrite bool_decide_eq_false_2; [by eexists|]. intros [_ Hk]. by case_decide. }
  exists A. split; [|done]. apply build_users_lookup. exists pre, u, post. split_and!; [done..|].
  eapply Forall_impl; [exact Hpost|]. by intros u' Hne' Heq.
Qed.

Lemma in_scope_authorizer c sc u :
  in_scope c sc u → ∃ A U, users_of shhh c sc !! User_Name u = Some A ∧ AAA_Authorizer A = HStringy U ∧
    User_Name U = User_Name u ∧ User_Commands U = all_commands u.
Proof.
  intros (A & HA & HU & _)%in_scope_entry. destruct (localized_fields sc u) as (H1 & _ & H2 & _).
  by exists A, (localized sc u).
Qed.

Definition command_reply (b : AuthorRequest) (u : User) : AuthorReply :=
  if command_evaluate b u
  then mkAuthorReply AuthorStatusPassAdd [] (str "authorization approved") []
  else mkAuthorReply AuthorStatusFail [] (str "not authorized") [].

Lemma answers_command c A U q b :
  AuthorRequest_UnmarshalBinary (Request_Body q) = Ok b → Header_Type (Request_Header q) = Authorize →
  c !! AuthorRequest_User b = Some A → AAA_Authorizer A = HStringy U →
  User_Name U = AuthorRequest_User b → command_based b = true →
  answers (Handle (Start_New c) q) (RAuthor (command_reply b U)) None.
Proof.
  intros Hb Hty HA HU Hn Hcb. unfold Start_New. cbn [Handle handler_Handler handler_Handle].
  apply answers_RegisterWriter. unfold Start_Handle. rewrite Hty, decide_False, decide_True by done.
  apply answers_record. unfold AuthorizeRequest_Handle, Unmarshal. cbn [UnmarshalBinary AuthorRequest_EncoderDecoder].
  rewrite Hb. unfold Provider_GetUser. rewrite HA, HU. cbn [user_Handle].
  unfold stringy_Handle, Unmarshal. cbn [UnmarshalBinary AuthorRequest_EncoderDecoder]. rewrite Hb.
  rewrite decide_False by (intros Hne; by apply Hne). rewrite Hcb.
  apply (answers_ext _ (command_Handle b U)); [done|].
  unfold command_Handle, command_reply. destruct (command_evaluate b U); apply answers_reply.
Qed.

(** The header of a request for authorization. *)
Definition author_header (minor flags : byte) (id : Z) : Header :=
  mkHeader (mkVersion MajorVersion minor) Authorize 1 id flags 0.

Lemma command_reply_sendable b U :
  ∃ p, reply_MarshalBinary (RAuthor (command_reply b U)) = Ok p ∧ len p <= MaxBodyLength ∧
    AuthorReply_fits (command_reply b U).
Proof.
  unfold command_reply. destruct (command_evaluate b U); eexists; (split; [vm_compute; reflexivity|]);
    (split; [vm_compute; discriminate|]); by repeat split.
Qed.

(** C15. The authorization of commands from end to end: the reply a client with
    the key of its config gets for a command of a user in scope is a success if
    and only if the first command entry that is not silent about it, among
    those of the user in the configuration and then those of its groups,
    permits it; otherwise it is a failure. Sessions are as before. *)
Theorem configured_command c sc u b body minor flags id cl s ctx :
  linked cl s → cs_known s !! id = None → 0 <= id < 4294967296 →
  minor = MinorVersionDefault ∨ minor = MinorVersionOne →
  in_scope c sc u → AuthorRequest_User b = User_Name u → command_based b = true →
  AuthorRequest_fits b → AuthorRequest_MarshalBinary b = Ok body → len body <= MaxBodyLength →
  ∃ h' rb cl' s' rep,
    exchange (HSecretConfig (Start_New (users_of shhh c sc))) ctx
      (mkPacket (Some (author_header minor flags id)) (Some body)) cl s =
      ((Ok (mkPacket (Some h') (Some rb)), cl'), Open s') ∧
    AuthorReply_UnmarshalBinary rb = Ok rep ∧ linked cl' s' ∧ cs_known s' = cs_known s ∧
    (AuthorReply_Status rep = AuthorStatusPassAdd ∨ AuthorReply_Status rep = AuthorStatusFail) ∧
    (AuthorReply_Status rep = AuthorStatusPassAdd ↔
     let args := AuthorRequest_Args b in
     ∃ pre cmd post, all_commands u = pre ++ cmd :: post ∧
       Forall (silent (Args_Command args) (Args_CommandArgs args)) pre ∧
       permits (Args_Command args) (Args_CommandArgs args) cmd).
Proof.
  intros Hl Hk Hid Hm Hu Hub Hcb Hf Hp Hlen.
  destruct (in_scope_authorizer c sc u Hu) as (A & U & HA & HU & Hn & Hcm).
  pose proof (codec_roundtrip b body [] Hf Hp) as Hun. rewrite app_nil_r in Hun.
  destruct (command_reply_sendable b U) as (rb & Hrb & Hlrb & Hfits).
  assert (header_valid (sized (author_header minor flags id) body)) as Hv.
  { split_and!; [by destruct Hm as [-> | ->]|done|done|done|done]. }
  assert (session_handler (Start_New (users_of shhh c sc)) (cs_known s) (author_header minor flags id)
    (Start_New (users_of shhh c sc))) as Hst by (unfold session_handler; cbn; by rewrite Hk).
  destruct (exchange_answered (Start_New (users_of shhh c sc)) ctx (author_header minor flags id) body cl s
    (Start_New (users_of shhh c sc)) (RAuthor (command_reply b U)) rb None Hl)
    as (h' & cl' & s' & He & _ & _ & _ & Hdec & Hl' & Hk');
    [by repeat split; cbn; lia|exact Hv|by exists 0|done|apply some_accepted_passes; right; left; split; [done|]; left; by exists b
    |exact Hst| |done|exact Hfits|exact Hrb|exact Hlrb|].
  { intros ctx'. by apply (answers_command _ A U _ b); rewrite ?Hub. }
  exists h', rb, cl', s', (command_reply b U). split_and!; [by rewrite exchange_embedded|exact Hdec|done| | |].
  - rewrite Hk'. by apply delete_id.
  - unfold command_reply. destruct (command_evaluate b U); auto.
  - cbv zeta. rewrite <- Hcm, <- command_evaluate_spec. unfold command_reply.
    destruct (command_evaluate b U); done.
Qed.
End Deployment.

(** ** Witnesses: the configuration of LoaderTheorems.v, whose user "cisco" has
    the password "cisco", and a dialler that connects at once. *)
#[local] Existing Instances y_Net y_Hash y_Regexp y_Platform y_Dialer.
#[local] Instance y_Dial : Dial := {|
  net_ResolveTCPAddr _ _ := Some (OtherAddr [] []);
  net_DialTCP _ _ _ := Some (mkNetconn (OtherAddr [] []) (OtherAddr [] []) [] EOF []);
|}.

Definition y_flags (mode : gostring) : client_flags :=
  mkFlags (str "cisco") [] 1 (str "tcp6") (str ":2046") [] [] (str "fooman") mode.

Lemma y_deployed mode : deployed y_shhh y_config y_secret y_remote (y_flags mode).
Proof.
  split; [by exists [], []|]. split.
  - split; [intros E; apply (f_equal (λ m, size m)) in E; vm_compute in E; discriminate E|].
    split_and!; [done..|]. exists [str "::"; str "10."]. split; [vm_compute; reflexivity|].
    exists (str "::2"), 5000. split; [done|]. exists (str "::"), (str "::").
    split_and!; [left|done|vm_compute; reflexivity].
  - split_and!; [done..|]. by do 2 eexists.
Qed.

Lemma y_configured : configured y_config y_secret y_user (str "cisco").
Proof.
  split; [by exists [], []|]. split; [left|]. eexists. split; [reflexivity|].
  split_and!; [done| |]; vm_compute; [discriminate|reflexivity].
Qed.

Lemma configured_pap_login_witness :
  client_session y_shhh y_config (OtherAddr [] []) y_remote ∅ (mkEnv [] []) (y_flags (str "pap")) 7
    (Some (str "wrong")) =
  Some (PrintedReply (mkAuthenReply AuthenStatusFail x00 (str "login failure") [])).
Proof.
  rewrite (configured_pap_login y_shhh y_config y_secret y_user (str "cisco") _ y_remote _ _
    (y_flags (str "pap")) 7 (Some (str "wrong")) (str "wrong"));
    [vm_compute; reflexivity|apply y_deployed|apply y_configured|reflexivity|reflexivity|discriminate|reflexivity|discriminate
    |repeat split; vm_compute; reflexivity].
Defined.

Lemma ascii_client_sends_username_witness :
  client_session y_shhh y_config (OtherAddr [] []) y_remote ∅ (mkEnv [] []) (y_flags (str "ascii")) 7
    (Some (str "wrong")) =
  Some (PrintedReply (mkAuthenReply AuthenStatusPass x00 (str "login success") [])).
Proof.
  rewrite (ascii_client_sends_username y_shhh y_config y_secret y_user (str "cisco") _ y_remote _ _
    (y_flags (str "ascii")) 7 (Some (str "wrong")));
    [vm_compute; reflexivity|apply y_deployed|apply y_configured|reflexivity|reflexivity|split; vm_compute; reflexivity
    |reflexivity|eexists; reflexivity].
Defined.

(** A user whose group permits one command. *)
Definition y_show : Command := mkCommand (str "show") [str "version"] PERMIT.
Definition y_operator : User :=
  mkUser (str "op") [str "localhost"] [mkGroup (str "ops") [] [y_show] None None] [] [] None None.
Definition y_ops_config : ServerConfig := mkServerConfig [y_secret] [y_operator] [] [].
Definition y_request : AuthorRequest :=
  mkAuthorRequest AuthenMethodTacacsPlus x01 AuthenTypeASCII AuthenServiceLogin (str "op") [] []
    [str "service=shell"; str "cmd=show"; str "cmd-arg=version"].
Definition y_request_bytes : list byte :=
  match AuthorRequest_MarshalBinary y_request with Ok b => b | _ => [] end.

Lemma configured_command_witness :
  ∃ h' rb cl' s' rep,
    exchange (HSecretConfig (Start_New (users_of y_shhh y_ops_config y_secret))) ∅
      (mkPacket (Some (author_header MinorVersionDefault x00 9)) (Some y_request_bytes)) z_client z_server =
      ((Ok (mkPacket (Some h') (Some rb)), cl'), Open s') ∧
    AuthorReply_UnmarshalBinary rb = Ok rep ∧ AuthorReply_Status rep = AuthorStatusPassAdd.
Proof.
  destruct (configured_command y_shhh y_ops_config y_secret y_operator y_request y_request_bytes
    MinorVersionDefault x00 9 z_client z_server ∅)
    as (h' & rb & cl' & s' & rep & He & Hr & _ & _ & _ & Hiff);
    [exact z_linked|reflexivity|split; [discriminate|reflexivity]|left; reflexivity| |reflexivity
    |vm_compute; reflexivity|repeat split; vm_compute; reflexivity|vm_compute; reflexivity
    |vm_compute; discriminate|].
  - split; [exists [], []; split; [reflexivity|constructor]|]. split; [left|discriminate].
  - exists h', rb, cl', s', rep. split; [exact He|]. split; [exact Hr|]. apply Hiff.
    exists [], y_show, []. split; [reflexivity|]. split; [constructor|]. split; [reflexivity|].
    right. split; [vm_compute; reflexivity|]. right. exists [], (str "version"), [].
    split; [vm_compute; reflexivity|]. split; [constructor|]. vm_compute. reflexivity.
Defined.
