(* ===== verification/ScenarioTheorems.v ===== *)
(** The server passes the scenarios of its own tests: every check of
    authen_mocks.go holds, over the network, for every session id. *)
From S2P Require Import Prelude.
From S2P Require Import GoStrings.
From S2P Require Import Buffer.
From S2P Require Import HeaderFields.
From S2P Require Import AuthenFields.
From S2P Require Import AuthorFields.
From S2P Require Import Header.
From S2P Require Import Codec.
From S2P Require Import Authenticate.
From S2P Require Import MD5.
From S2P Require Import Proxy.
From S2P Require Import Crypter.
From S2P Require Import Sessions.
From S2P Require Import Response.
From S2P Require Import Server.
From S2P Require Import Client.
From S2P Require Import ClientPrograms.
From S2P Require Import Config.
From S2P Require Import Stringy.
From S2P Require Import AAA.
From S2P Require Import Handlers.
From S2P Require Import SecretProviders.
From S2P Require Import Loader.
From S2P Require Import ConfigFiles.
From S2P Require Import System.
From S2P Require Import MainProgram.
From S2P Require Import Scenarios.
From S2P Require Import ConnTheorems.
From S2P Require Import ReplyTheorems.
From S2P Require Import HandlerTheorems.
From S2P Require Import EndToEnd.
From S2P Require Import SessionTheorems.
From S2P Require Import LoaderTheorems.
From S2P Require Import ClientTheorems.

(** ** The packets of the scenarios *)

(** A packet as it is built: the announced length is the one of the body. *)
Definition built_packet (hd : Header) (b : list byte) : Packet :=
  mkPacket (Some (set_Length hd (u32 (len b)))) (Some b).

Definition abort_body (flag : AuthenContinueFlag) : AuthenContinue :=
  mkAuthenContinue flag (str "Continue inside") (str "foo").
Definition text_body (text : gostring) : AuthenContinue := mkAuthenContinue x00 text [].
Definition start_body (service : AuthenService) : AuthenStart :=
  mkAuthenStart AuthenActionLogin PrivLvlUser AuthenTypeASCII service [] (str "tty0") (str "foo") [].

(** The bytes of a body that can be encoded. *)
Definition bytes_of {T} `{EncoderDecoder T} (v : T) : list byte :=
  match MarshalBinary v with Ok b => b | _ => [] end.

Lemma continue_packet_built seqNo id opts v b :
  NewAuthenContinue opts = v → MarshalBinary v = Ok b → 0 <= seqNo < 65536 →
  continue_packet seqNo id opts = Ok (built_packet (login_header MinorVersionDefault x00 id seqNo) b).
Proof.
  intros <- Hb Hs. unfold continue_packet, SetPacketBodyUnsafe. rewrite Hb.
  assert (u16 seqNo = seqNo) as E by by apply Z.mod_small.
  transitivity (Ok (built_packet (login_header MinorVersionDefault x00 id (u16 seqNo)) b)); [reflexivity|by rewrite E].
Qed.

Lemma start_packet_built rand :
  BuildASCIIStartPacket rand =
  Ok (built_packet (login_header MinorVersionDefault x00 (u32 rand) 1) (bytes_of (start_body AuthenServiceLogin))).
Proof. reflexivity. Qed.

(** ** Running them *)
Section Scenarios.
Context {HH : Hash} {RE : Regexp} {PL : Platform} {DL : Dialer}.

(** A step of a scenario that sends a packet and accepts the reply to it. *)
Definition accepts (id : Z) (q : Sequence) (p : turn_packet) (v : AuthenReply) : Prop :=
  seq_Packet q = built_packet (login_header MinorVersionDefault (tp_flags p) id (tp_seqNo p)) (tp_body p) ∧
  ∀ b, AuthenReply_UnmarshalBinary b = Ok v → seq_ValidateBody q b = Ok tt.

Lemma run_gets h ctx hd n body c s seqNo rep c' s' check seq :
  gets h ctx hd body c s seqNo rep c' s' →
  (∀ b, AuthenReply_UnmarshalBinary b = Ok rep → check b = Ok tt) →
  run_Seq (HSecretConfig h) ctx (step_of (mkPacket (Some (set_Length hd n)) (Some body)) check :: seq) c (Open s) =
  Ok tt :: run_Seq (HSecretConfig h) ctx seq c' (Open s').
Proof.
  intros (h' & b & He & _ & _ & _ & Hb) Hc. cbn [run_Seq step_of seq_Packet seq_ValidateBody].
  rewrite exchange_embedded, exchange_Length, He. cbn. by rewrite (Hc b).
Qed.

Lemma run_converses h ctx id c s ps vs c' s' seq :
  converses h ctx id c s ps vs c' s' → Forall3 (accepts id) seq ps vs →
  run_Seq (HSecretConfig h) ctx seq c (Open s) = (λ _, Ok tt) <$> seq.
Proof.
  intros Hc. revert seq. induction Hc as [|c s p ps v vs c1 s1 c' s' Hg _ IH]; intros seq Hf.
  - inversion Hf. reflexivity.
  - destruct seq as [|q seq]; [by inversion Hf|]. apply Forall3_cons_inv_l in Hf as (p' & ps' & v' & vs' & E1 & E2 & [Hq Hv] & Hf).
    injection E1 as <- <-. injection E2 as <- <-. rewrite fmap_cons, <- (IH seq Hf).
    destruct q as [qp qh qv qw]. cbn in Hq, Hv. subst qp.
    destruct Hg as (h' & b & He & _ & _ & _ & Hb). cbn [run_Seq seq_Packet seq_ValidateBody].
    rewrite exchange_embedded. unfold built_packet. rewrite exchange_Length, He. cbn. by rewrite (Hv b).
Qed.

Lemma expect_status_decoded want failure v b :
  AuthenReply_Status v = want → AuthenReply_UnmarshalBinary b = Ok v → expect_status want failure b = Ok tt.
Proof. intros Hs Hb. unfold expect_status, Unmarshal. cbn. rewrite Hb. cbn. by rewrite decide_False by auto. Qed.

(** ** What the machine makes of the bodies *)
Definition s_stopped : AuthenReply :=
  mkAuthenReply AuthenStatusFail x00 (str "ending per client request flag AuthenContinueFlagAbort") [].

Lemma machine_abort c st b a :
  AuthenContinue_UnmarshalBinary b = Ok a →
  AuthenContinueFlag_Has (AuthenContinue_Flags a) AuthenContinueFlagAbort = true →
  ascii_reply c st b = Some (s_stopped, None).
Proof.
  intros Ha Hf. unfold ascii_reply, ascii_classify. cbn [of_body Request_Body]. rewrite Ha, Hf. by destruct st.
Qed.

Lemma machine_username c b a :
  AuthenContinue_UnmarshalBinary b = Ok a →
  AuthenContinueFlag_Has (AuthenContinue_Flags a) AuthenContinueFlagAbort = false →
  AuthenContinue_UserMessage a ≠ [] →
  ascii_reply c WaitUser b = Some (password_reply, Some (WaitPassword (AuthenContinue_UserMessage a))).
Proof.
  intros Ha Hf Hm. unfold ascii_reply, ascii_classify. cbn [of_body Request_Body]. rewrite Ha, Hf.
  by destruct (AuthenContinue_UserMessage a).
Qed.

Lemma machine_password c user hash b a :
  bcrypt_user c user hash → AuthenContinue_UnmarshalBinary b = Ok a →
  AuthenContinueFlag_Has (AuthenContinue_Flags a) AuthenContinueFlagAbort = false →
  AuthenContinue_UserMessage a ≠ [] → len (AuthenContinue_UserMessage a) < 256 →
  ascii_reply c (WaitPassword user) b = Some (verdict hash (AuthenContinue_UserMessage a), None).
Proof.
  intros (A & ba & Hc & HA & Hne & Hh) Ha Hf Hm Hl.
  pose proof (GetPassword_continue (of_body b) a Ha Hl) as Hp.
  unfold ascii_reply, ascii_classify. cbn [of_body Request_Body]. rewrite Ha, Hf.
  destruct (AuthenContinue_UserMessage a) as [|x msg]; [done|]. cbn [ascii_next]. rewrite Hc, HA.
  cbn [login_verdict]. rewrite Hp, Hh.
  destruct (so_hash (ba_options ba)) as [|y h]; [done|]. rewrite len_cons. pose proof (len_nonneg h).
  destruct (Z.ltb_spec 0 (1 + len h)); [done|lia].
Qed.

(** ** The three shapes of the scenarios *)
Definition user_bytes : list byte := bytes_of (text_body (str "mr_uses_group")).
Definition password_bytes : list byte := bytes_of (text_body (str "password")).
Definition abort_bytes : list byte := bytes_of (abort_body AuthenContinueFlagAbort).

Lemma user_bytes_decode : AuthenContinue_UnmarshalBinary user_bytes = Ok (text_body (str "mr_uses_group")).
Proof. vm_compute. reflexivity. Qed.
Lemma password_bytes_decode : AuthenContinue_UnmarshalBinary password_bytes = Ok (text_body (str "password")).
Proof. vm_compute. reflexivity. Qed.
Lemma abort_bytes_decode : AuthenContinue_UnmarshalBinary abort_bytes = Ok (abort_body AuthenContinueFlagAbort).
Proof. vm_compute. reflexivity. Qed.

Lemma continue_in_order last n b a ps :
  AuthenContinue_UnmarshalBinary b = Ok a → last < n → Z.Odd n → n <= 253 → len b <= 64000 →
  in_order (n + 1) ps → in_order last (mkTurn x00 n b :: ps).
Proof. intros Ha ? ? ? ? ?. cbn. split_and!; try done.
  right. apply some_accepted_not_refused. left. split; [done|]. right; left. by exists a.
Qed.

Lemma start_scenario c ctx id service ps vs st seq cl s :
  service = AuthenServiceLogin ∨ service = AuthenServiceEnable →
  linked cl s → cs_known s = ∅ → 0 <= id < 4294967296 → in_order 2 ps →
  machine_run c (Some WaitUser) (tp_body <$> ps) = Some (vs, st) → Forall3 (accepts id) seq ps vs →
  run_Seq (HSecretConfig (Start_New c)) ctx
    (step_of (built_packet (login_header MinorVersionDefault x00 id 1) (bytes_of (start_body service))) expect_GetUser
     :: seq) cl (Open s) = Ok tt :: ((λ _, Ok tt) <$> seq).
Proof.
  intros Hserv Hl Hk Hid Hps Hr Hf.
  destruct (ascii_session_run c ctx x00 id (start_body service) (bytes_of (start_body service)) ps vs st cl s)
    as (cl' & s' & last & Hc & _); [done|by rewrite Hk|done|by repeat split| |done|done|by left|done|done|].
  { by destruct Hserv as [-> | ->]. }
  rewrite (run_converses _ _ _ _ _ _ _ _ _ (step_of _ expect_GetUser :: seq) Hc); [done|].
  constructor; [|done]. split; [done|].
  intros b. by apply expect_status_decoded.
Qed.

(** The steps of the scenarios, each with the reply it gets. *)
Definition user_step (id : Z) : Sequence :=
  step_of (built_packet (login_header MinorVersionDefault x00 id 3) user_bytes) expect_GetPass.
Definition password_step (id : Z) : Sequence :=
  step_of (built_packet (login_header MinorVersionDefault x00 id 5) password_bytes) expect_Pass.
Definition abort_step (id n : Z) : Sequence :=
  step_of (built_packet (login_header MinorVersionDefault x00 id n) abort_bytes) expect_Abort.

Lemma abort_accepted id n : accepts id (abort_step id n) (mkTurn x00 n abort_bytes) s_stopped.
Proof. split; [done|]. intros b. by apply expect_status_decoded. Qed.

Lemma user_accepted id : accepts id (user_step id) (mkTurn x00 3 user_bytes) password_reply.
Proof. split; [done|]. intros b. by apply expect_status_decoded. Qed.

Lemma password_accepted id hash :
  bcrypt_matches hash (str "password") = true →
  accepts id (password_step id) (mkTurn x00 5 password_bytes) (verdict hash (str "password")).
Proof. intros Hm. split; [done|]. intros b. apply expect_status_decoded. unfold verdict. by rewrite Hm. Qed.

Lemma machine_user c :
  ascii_reply c WaitUser user_bytes = Some (password_reply, Some (WaitPassword (str "mr_uses_group"))).
Proof. by rewrite (machine_username c _ _ user_bytes_decode). Qed.

Lemma machine_stop c st : ascii_reply c st abort_bytes = Some (s_stopped, None).
Proof. by apply (machine_abort c st _ _ abort_bytes_decode). Qed.

Ltac sent_in_order a := apply (continue_in_order _ _ _ _ _ a); [lia| |lia|vm_compute; discriminate|].

Lemma abort_scenario c ctx id n cl s :
  linked cl s → cs_known s = ∅ → 0 <= id < 4294967296 → 2 < n <= 253 → Z.Odd n →
  run_Seq (HSecretConfig (Start_New c)) ctx
    [step_of (built_packet (login_header MinorVersionDefault x00 id 1) (bytes_of (start_body AuthenServiceLogin)))
       expect_GetUser; abort_step id n] cl (Open s) = [Ok tt; Ok tt].
Proof.
  intros Hl Hk Hid Hn Hodd.
  apply (start_scenario c ctx id _ [mkTurn x00 n abort_bytes] [s_stopped] None); [by left|done..| | |].
  - sent_in_order abort_bytes_decode; done.
  - cbn. by rewrite machine_stop.
  - constructor; [apply abort_accepted|constructor].
Qed.

Lemma late_abort_scenario c ctx id n service cl s :
  service = AuthenServiceLogin ∨ service = AuthenServiceEnable →
  linked cl s → cs_known s = ∅ → 0 <= id < 4294967296 → 4 < n <= 253 → Z.Odd n →
  run_Seq (HSecretConfig (Start_New c)) ctx
    [step_of (built_packet (login_header MinorVersionDefault x00 id 1) (bytes_of (start_body service)))
       expect_GetUser; user_step id; abort_step id n] cl (Open s) = [Ok tt; Ok tt; Ok tt].
Proof.
  intros Hserv Hl Hk Hid Hn Hodd.
  apply (start_scenario c ctx id service [mkTurn x00 3 user_bytes; mkTurn x00 n abort_bytes]
    [password_reply; s_stopped] None); [done..| | |].
  - sent_in_order user_bytes_decode; [by exists 1|]. sent_in_order abort_bytes_decode; done.
  - cbn. by rewrite machine_user, machine_stop.
  - constructor; [apply user_accepted|]. constructor; [apply abort_accepted|constructor].
Qed.

Lemma login_scenario c ctx id hash cl s :
  bcrypt_user c (str "mr_uses_group") hash → bcrypt_matches hash (str "password") = true →
  linked cl s → cs_known s = ∅ → 0 <= id < 4294967296 →
  run_Seq (HSecretConfig (Start_New c)) ctx
    [step_of (built_packet (login_header MinorVersionDefault x00 id 1) (bytes_of (start_body AuthenServiceLogin)))
       expect_GetUser; user_step id; password_step id] cl (Open s) = [Ok tt; Ok tt; Ok tt].
Proof.
  intros Hu Hm Hl Hk Hid.
  apply (start_scenario c ctx id _ [mkTurn x00 3 user_bytes; mkTurn x00 5 password_bytes]
    [password_reply; verdict hash (str "password")] None); [by left|done..| | |].
  - sent_in_order user_bytes_decode; [by exists 1|]. sent_in_order password_bytes_decode; [by exists 2|done].
  - cbn [fmap list_fmap tp_body machine_run]. rewrite machine_user.
    by rewrite (machine_password c (str "mr_uses_group") hash _ _ Hu password_bytes_decode).
  - constructor; [apply user_accepted|]. constructor; [by apply password_accepted|constructor].
Qed.
End Scenarios.

(** ** The scenarios, built *)
Definition start_step (id : Z) (service : AuthenService) : Sequence :=
  step_of (built_packet (login_header MinorVersionDefault x00 id 1) (bytes_of (start_body service))) expect_GetUser.

Definition pap_body : AuthenStart :=
  mkAuthenStart AuthenActionLogin x0f AuthenTypePAP x00 (str "mr_uses_group") (str "tty0") (str "rem port")
    (str "password").
Definition pap_step (id : Z) : Sequence :=
  step_of (built_packet (login_header MinorVersionOne x00 id 1) (bytes_of pap_body)) expect_Pass.

Definition login_steps (id : Z) : list Sequence :=
  [start_step id AuthenServiceLogin; user_step id; password_step id].

Lemma authenticate_tests_built rand :
  ∃ tests, authenticate_tests rand = Ok tests ∧ Forall (λ t, test_Secret t = fooman) tests ∧
    let id i := u32 (rand i) in
    test_Seq <$> tests =
      [login_steps (id 0%nat); login_steps (id 1%nat); [pap_step (id 2%nat)];
       [start_step (id 3%nat) AuthenServiceLogin; abort_step (id 3%nat) 3];
       [start_step 12346 AuthenServiceEnable; user_step 12346; abort_step 12346 5];
       [start_step (id 4%nat) AuthenServiceLogin; user_step (id 4%nat); abort_step (id 4%nat) 5];
       [start_step (id 5%nat) AuthenServiceLogin; abort_step (id 5%nat) 3];
       [start_step (id 6%nat) AuthenServiceLogin; user_step (id 6%nat); abort_step (id 6%nat) 5];
       [start_step (id 7%nat) AuthenServiceLogin; user_step (id 7%nat); abort_step (id 7%nat) 7]].
Proof.
  eexists. split; [reflexivity|]. split; [repeat constructor|]. reflexivity.
Qed.

(** ** The server of the tests *)
Section Mocks.
Context (decode : decoder) {NT : Net} {HH : Hash} {RE : Regexp} {PL : Platform} {DL : Dialer}.

Lemma mock_loaded OpenFile b :
  OpenFile (str "/tmp/tacquito_accounting.log") = None → decode b zero_ServerConfig = (None, SampleConfig) →
  ∃ s, MockSecretProvider decode OpenFile (Contents b) = Some (Ok (main_loader mock_GetSecret, s)) ∧
    ∀ remote, Loader_Get (main_loader mock_GetSecret) s remote =
      loader_get (build (main_loader mock_GetSecret) SampleConfig) remote.
Proof.
  intros Ho Hd. unfold MockSecretProvider, NewLocalAccounter, SetLogSinkDefault. cbn [foldl]. rewrite Ho.
  cbn [la_sink]. unfold yaml_NewLocalConfig, YAML_Load, YAML_Unmarshal, file_New. cbn [fl_ServerConfig]. rewrite Hd.
  replace (len (ServerConfig_Secrets SampleConfig) <? 1) with false by reflexivity.
  replace (len (ServerConfig_Users SampleConfig) <? 1) with false by reflexivity.
  replace (NewLoader mock_options) with (Ok (main_loader mock_GetSecret)) by reflexivity.
  cbn [mbind outcome_bind fl_config fl_sending chan_send chan_recv updates_step].
  destruct (createPrefixFilters SampleConfig) as [deny allow]. eexists. split; [reflexivity|]. done.
Qed.

(** The user of the scenarios, and the network of its clients. *)
Lemma sample_user hash :
  hex_DecodeString sample_hash = Some hash → configured SampleConfig sample_localhost mr_uses_group hash.
Proof.
  intros Hh. split; [exists [], [mr_no_group; ms_commands_only]; split; [done|by repeat constructor]|].
  split; [left|]. exists sample_bcrypt. split_and!; [done..|exact Hh].
Qed.

Lemma sample_serves ip port n :
  json_Unmarshal_strings sample_prefixes = Some [any_network] →
  net_ParseCIDR any_network = Some n → IPNet_Contains n ip = true →
  serves mock_GetSecret SampleConfig (TCPAddr (Some ip) port) sample_localhost.
Proof.
  intros Hj Hn Hc. split; [|split_and!; [done..|]].
  - destruct (hex_DecodeString sample_hash) as [hash|] eqn:E; [|by vm_compute in E].
    destruct (configured_user mock_GetSecret _ _ _ _ (sample_user hash E)) as (A & _ & HA & _).
    intros Hu. rewrite Hu in HA. discriminate HA.
  - exists [any_network]. split; [exact Hj|]. exists ip, port. split; [done|].
    exists any_network, n. split_and!; [left|done..].
Qed.

(** C5. The server passes the tests of the repository: the provider that the
    tests build from the sample configuration comes up, every client from the
    network of that configuration is accepted, and each check of each of the nine
    login and abort scenarios holds, whatever session ids are drawn, whatever the
    hash function and for every bcrypt that takes "password" for the password of
    the sample hash. *)
Theorem authenticate_tests_pass OpenFile b rand local ip port n ctx w :
  OpenFile (str "/tmp/tacquito_accounting.log") = None → decode b zero_ServerConfig = (None, SampleConfig) →
  json_Unmarshal_strings sample_prefixes = Some [any_network] →
  net_ParseCIDR any_network = Some n → IPNet_Contains n ip = true →
  (∀ hash, hex_DecodeString sample_hash = Some hash → bcrypt_matches hash (str "password") = true) →
  ∃ l s tests,
    MockSecretProvider decode OpenFile (Contents b) = Some (Ok (l, s)) ∧
    authenticate_tests rand = Ok tests ∧ length tests = 9%nat ∧
    Forall (λ t, run_Test (Loader_Get l s) local (TCPAddr (Some ip) port) ctx w t =
                 Some ((λ _, Ok tt) <$> test_Seq t)) tests.
Proof.
  intros Ho Hd Hj Hn Hc Hb. destruct (mock_loaded OpenFile b Ho Hd) as (s & Hs & Hget).
  destruct (authenticate_tests_built rand) as (tests & Ht & Hsec & Hseq).
  exists (main_loader mock_GetSecret), s, tests. split; [exact Hs|]. split; [exact Ht|].
  split; [apply (f_equal length) in Hseq; by rewrite length_fmap in Hseq|].
  destruct (hex_DecodeString sample_hash) as [hash|] eqn:Eh; [|by vm_compute in Eh].
  specialize (Hb hash eq_refl).
  pose proof (configured_user mock_GetSecret _ _ _ _ (sample_user hash Eh)) as Hu.
  set (c := users_of mock_GetSecret SampleConfig sample_localhost) in *.
  assert (Forall (λ seq, ∀ cl st, linked cl st → cs_known st = ∅ →
    run_Seq (HSecretConfig (Start_New c)) ctx seq cl (Open st) = (λ _, Ok tt) <$> seq) (test_Seq <$> tests)) as Hall.
  { rewrite Hseq. assert (∀ i, 0 <= u32 (rand i) < 4294967296) as Hid by (intros i; by apply Z.mod_pos_bound).
    repeat apply Forall_cons_2; try (apply Forall_nil_2); intros cl st Hl Hk.
    - by apply (login_scenario c ctx _ hash).
    - by apply (login_scenario c ctx _ hash).
    - destruct (pap_exchange c hash ctx x00 (u32 (rand 2%nat)) pap_body (bytes_of pap_body) cl st)
        as (cl' & st' & Hg & _); [done|by rewrite Hk|apply Hid|by repeat split|done..|].
      cbn [fmap list_fmap]. eapply (run_gets _ _ _ _ _ _ _ _ _ _ _ expect_Pass []); [exact Hg|].
      intros r. apply expect_status_decoded. change (AuthenStart_Data pap_body) with (str "password").
      unfold verdict. by rewrite Hb.
    - apply (abort_scenario c ctx _ 3); [done..|lia|by exists 1].
    - apply (late_abort_scenario c ctx 12346 5 AuthenServiceEnable); [by right|done..|lia|by exists 2].
    - apply (late_abort_scenario c ctx _ 5 AuthenServiceLogin); [by left|done..|lia|by exists 2].
    - apply (abort_scenario c ctx _ 3); [done..|lia|by exists 1].
    - apply (late_abort_scenario c ctx _ 5 AuthenServiceLogin); [by left|done..|lia|by exists 2].
    - apply (late_abort_scenario c ctx _ 7 AuthenServiceLogin); [by left|done..|lia|by exists 3]. }
  rewrite Forall_fmap in Hall. rewrite Forall_forall in *. intros t Hin. unfold run_Test. rewrite Hget.
  rewrite (served_accept mock_GetSecret SampleConfig sample_localhost);
    [|by exists [], []|by eapply sample_serves]. f_equal.
  rewrite (Hsec t Hin). by apply (Hall t Hin).
Qed.
End Mocks.

(** ** Witness: a platform on which the sample hash belongs to "password", and
    networks that contain every address. *)
#[local] Instance n_Net : Net := {|
  IPNet := gostring;
  net_ParseCIDR s := Some s;
  IPNet_String n := n;
  IPNet_Contains n ip := true;
  net_ParseCIDR_String _ _ _ := eq_refl;
  net_LookupAddr _ := Some [];
  json_Unmarshal_strings s := if decide (s = sample_prefixes) then Some [any_network] else None;
|}.
#[local] Instance n_Platform : Platform := {|
  bcrypt_matches hash password :=
    bool_decide (Some hash = hex_DecodeString sample_hash) && bool_decide (password = str "password");
  json_Marshal a := None;
|}.
#[local] Existing Instances z_Hash z_Regexp z_Dialer.

Lemma authenticate_tests_pass_witness :
  ∃ l s tests,
    MockSecretProvider (λ b c, (None, SampleConfig)) (λ path, None) (Contents []) = Some (Ok (l, s)) ∧
    authenticate_tests (λ i, Z.of_nat i) = Ok tests ∧
    Forall (λ t, run_Test (Loader_Get l s) (OtherAddr [] []) (TCPAddr (Some (str "::1")) 50000) ∅ (mkEnv [] []) t =
                 Some ((λ _, Ok tt) <$> test_Seq t)) tests.
Proof.
  destruct (@authenticate_tests_pass (λ b c, (None, SampleConfig)) n_Net _ _ _ _ (λ path, None) [] (λ i, Z.of_nat i)
    (OtherAddr [] []) (str "::1") 50000 any_network ∅ (mkEnv [] []))
    as (l & s & tests & Hs & Ht & _ & Hall);
    [reflexivity|reflexivity|vm_compute; reflexivity|reflexivity|reflexivity| |].
  - intros hash Hh. apply andb_true_intro. split; apply bool_decide_eq_true; [symmetry; exact Hh|reflexivity].
  - exists l, s, tests. split; [exact Hs|]. split; [exact Ht|exact Hall].
Defined.
