(* ===== verification/GeneratorTheorems.v ===== *)
(** The generator of bcrypt hashes and the server agree: what the one prints,
    the other accepts, and nothing but the password it was printed for. *)
From S2P Require Import Prelude.
From S2P Require Import GoStrings.
From S2P Require Import AuthenFields.
From S2P Require Import Authenticate.
From S2P Require Import MD5.
From S2P Require Import Proxy.
From S2P Require Import Response.
From S2P Require Import ClientPrograms.
From S2P Require Import Config.
From S2P Require Import Stringy.
From S2P Require Import AAA.
From S2P Require Import Handlers.
From S2P Require Import SecretProviders.
From S2P Require Import Loader.
From S2P Require Import Generator.
From S2P Require Import EndToEnd.
From S2P Require Import LoaderTheorems.
From S2P Require Import ClientTheorems.

Section Generator.
Context {PL : Platform} {BC : Bcrypt}.

(** The run of each mode on lines that are typed. *)
Lemma bcrypt_run password rest out :
  generator_main (str "bcrypt") (mkConsole (Some password :: rest) out) =
  match GenerateFromPassword password DefaultCost with
  | None =>
    (None, mkConsole rest ((out ++ [Text prompt_password]) ++ [TextError (str "hash generation failed: ")]))
  | Some hash =>
    (Some tt, mkConsole rest ((out ++ [Text prompt_password]) ++
       [Text (str "bcrypt hex value: " ++ hex_EncodeToString hash)]))
  end.
Proof.
  unfold generator_main, program_bind at 1, generator_verifyFlags.
  rewrite decide_False by done. rewrite decide_True by done.
  unfold program_bind, generator_getPassword, program_bind. cbn.
  by destruct (GenerateFromPassword password DefaultCost).
Qed.

Lemma verify_run password hx rest out :
  generator_main (str "verify-bcrypt") (mkConsole (Some password :: Some hx :: rest) out) =
  let out := (out ++ [Text prompt_password]) ++ [Text prompt_hex] in
  match hex_DecodeString hx with
  | None => (None, mkConsole rest (out ++ [TextError (str "hash decode from hex failed: ")]))
  | Some hash =>
    if bcrypt_matches hash password
    then (Some tt, mkConsole rest (out ++ [Text (str "password validation success")]))
    else (None, mkConsole rest (out ++ [TextError (str "password validation failed: ")]))
  end.
Proof.
  unfold generator_main, program_bind at 1, generator_verifyFlags.
  rewrite !decide_False by done. rewrite decide_True by done.
  unfold program_bind, generator_getPassword, program_bind. cbn.
  destruct (hex_DecodeString hx) as [hash|]; [|done]. by destruct (bcrypt_matches hash password).
Qed.

(** The exit status: 0 for a hash that was made, for a password that was
    verified, and for a mode that does not exist. *)
Theorem generator_exit_status mode input :
  is_Some (generator_main mode (mkConsole input [])).1 ↔
  (∃ password rest, mode = str "bcrypt" ∧ input = Some password :: rest ∧
     is_Some (GenerateFromPassword password DefaultCost)) ∨
  (∃ password hx hash rest, mode = str "verify-bcrypt" ∧ input = Some password :: Some hx :: rest ∧
     hex_DecodeString hx = Some hash ∧ bcrypt_matches hash password = true) ∨
  (mode ≠ [] ∧ mode ≠ str "bcrypt" ∧ mode ≠ str "verify-bcrypt").
Proof.
  destruct (decide (mode = str "bcrypt")) as [->|Hb]; [|destruct (decide (mode = str "verify-bcrypt")) as [->|Hv]].
  - destruct input as [|[password|] rest].
    1,3: split; [by intros [? [=]]|intros [(?&?&_&[=]&_)|[(?&?&?&?&[=]&_)|(_&[]&_)]]; done].
    rewrite bcrypt_run. destruct (GenerateFromPassword password DefaultCost) as [hash|] eqn:E; cbn.
    + split; [intros _; left; exists password, rest; by rewrite E|done].
    + split; [by intros [? [=]]|]. intros [(?&?&_&[= <- <-]&H)|[(?&?&?&?&[=]&_)|(_&[]&_)]]; [|done].
      rewrite E in H. by destruct H.
  - destruct input as [|[password|] [|[hx|] rest]].
    1,2,4-7: split; [by intros [? [=]]|intros [(?&?&[=]&_)|[(?&?&?&?&_&[=]&_)|(_&_&[])]]; done].
    rewrite verify_run. cbv zeta. split.
    + destruct (hex_DecodeString hx) as [hash|] eqn:E; [|by intros [? [=]]].
      destruct (bcrypt_matches hash password) eqn:M; [|by intros [? [=]]].
      intros _. right; left. by exists password, hx, hash, rest.
    + intros [(?&?&[=]&_)|[(?&?&?&?&_&[= <- <- <-]&-> & ->)|(_&_&[])]]; done.
  - unfold generator_main, generator_verifyFlags, program_bind.
    destruct (decide (mode = [])) as [->|Hm].
    + split; [by intros [? [=]]|]. intros [(?&?&[=]&_)|[(?&?&?&?&[=]&_)|([]&_)]]; done.
    + cbn. rewrite !decide_False by done. split; [intros _; right; right; done|done].
Qed.
End Generator.

Section LogIn.
Context {NT : Net} {DI : Dial} {HH : Hash} {RE : Regexp} {PL : Platform} {DL : Dialer} {BC : Bcrypt}.
Context {BL : BcryptLaws} (shhh : getSecret).

(** The line [hx] is the option "hash" of the bcrypt authenticator of [u]. *)
Definition hash_set (c : ServerConfig) (sc : SecretConfig) (u : User) (hx : gostring) : Prop :=
  (∃ pre post, ServerConfig_Users c = pre ++ u :: post ∧ Forall (λ u', User_Name u' ≠ User_Name u) post) ∧
  SecretConfig_Name sc ∈ User_Scopes u ∧
  ∃ a, first_set (User_Authenticator u :: (Group_Authenticator <$> User_Groups u)) = Some a ∧
    Authenticator_Type a = BCRYPT ∧ Authenticator_Options a !! str "hash" = Some hx.

Lemma hash_set_configured c sc u hash :
  hash ≠ [] → hash_set c sc u (hex_EncodeToString hash) → configured c sc u hash.
Proof.
  intros Hne (Hu & Hs & a & Ha & Hty & Ho). split; [done|]. split; [done|]. exists a. unfold option_get.
  rewrite Ho. cbn [default from_option id]. split_and!; [done..| |apply hex_decode_encode].
  intros E. by apply Hne, hex_EncodeToString_nil.
Qed.

Lemma generated_not_empty password cost hash :
  GenerateFromPassword password cost = Some hash → hash ≠ [].
Proof using BL.
  intros Hg ->. apply generated_matches in Hg. by rewrite empty_hash_matches in Hg.
Qed.

(** C23. The hexadecimal line the generator prints for a password is a hash for
    the server: the generator itself verifies it, and a user whose entry, or
    first group with an authenticator, has it as the option "hash" logs in with
    that password; with another password exactly if bcrypt takes it for the
    same. *)
Theorem generated_hash_logs_in typed rest k :
  generator_main (str "bcrypt") (mkConsole (Some typed :: rest) []) = (Some tt, k) →
  ∃ hx hash, con_output k = [Text prompt_password; Text (str "bcrypt hex value: " ++ hx)] ∧
    bcrypt_matches hash typed = true ∧
    (generator_main (str "verify-bcrypt") (mkConsole [Some typed; Some hx] [])).1 = Some tt ∧
    (∀ c sc u local remote ctx w f rand terminal password,
       deployed shhh c sc remote f → hash_set c sc u hx →
       f_authenMode f = str "pap" → f_username f = User_Name u → f_username f ≠ [] →
       getPassword_flag f terminal = Some password → password ≠ [] → flags_fit f password →
       pap_encodable f = true →
       client_session shhh c local remote ctx w f rand terminal =
       Some (PrintedReply
         (if bcrypt_matches hash password
          then mkAuthenReply AuthenStatusPass x00 (str "login success") []
          else mkAuthenReply AuthenStatusFail x00 (str "login failure") []))).
Proof using BL.
  rewrite bcrypt_run. destruct (GenerateFromPassword typed DefaultCost) as [hash|] eqn:Hg; [|done].
  intros [= <-]. pose proof (generated_matches _ _ _ Hg) as Hm.
  exists (hex_EncodeToString hash), hash. split; [done|]. split; [done|]. split.
  - rewrite verify_run, hex_decode_encode. cbv zeta. by rewrite Hm.
  - intros c sc u local remote ctx w f rand terminal password Hd Hu Hmo Hn Hne Hp Hpn Hf He.
    rewrite (configured_pap_run shhh c sc u hash _ _ _ _ _ _ _ password); try done; [by rewrite He|].
    apply hash_set_configured; [by apply (generated_not_empty typed DefaultCost)|done].
Qed.
End LogIn.

(** ** Witness: a platform whose hashes are the passwords, and the configuration
    of LoaderTheorems.v, which has the hash of "cisco". *)
#[local] Existing Instances y_Net y_Hash y_Regexp y_Dialer y_Dial.
#[local] Instance gen_Platform : Platform := {|
  bcrypt_matches hash password := bool_decide (hash = password ∧ hash ≠ []);
  json_Marshal := @json_Marshal y_Platform;
|}.
#[local] Instance gen_Bcrypt : Bcrypt := λ password _,
  if decide (password = [] ∨ 72 < len password) then None else Some password.
#[local] Instance gen_Laws : BcryptLaws.
Proof.
  split; [|intros password; apply bool_decide_eq_false; naive_solver].
  intros password cost hash. unfold GenerateFromPassword, gen_Bcrypt.
  case_decide as H; [done|]. intros [= <-]. apply bool_decide_eq_true. naive_solver.
Qed.

Lemma generated_hash_logs_in_witness :
  generator_main (str "bcrypt") (mkConsole [Some (str "cisco")] []) =
    (Some tt, mkConsole [] [Text prompt_password; Text (str "bcrypt hex value: 636973636f")]) ∧
  client_session y_shhh y_config (OtherAddr [] []) y_remote ∅ (mkEnv [] []) (y_flags (str "pap")) 7
    (Some (str "cisco")) =
  Some (PrintedReply (mkAuthenReply AuthenStatusPass x00 (str "login success") [])).
Proof.
  assert (generator_main (str "bcrypt") (mkConsole [Some (str "cisco")] []) =
    (Some tt, mkConsole [] [Text prompt_password; Text (str "bcrypt hex value: 636973636f")])) as E
    by (vm_compute; reflexivity).
  split; [exact E|].
  destruct (generated_hash_logs_in y_shhh (str "cisco") [] _ E) as (hx & hash & Hout & Hm & _ & Hrun).
  assert (hx = str "636973636f") as -> by (vm_compute in Hout; by injection Hout).
  rewrite (Hrun y_config y_secret y_user _ _ _ _ (y_flags (str "pap")) 7 (Some (str "cisco")) (str "cisco"));
    [by rewrite Hm|apply y_deployed| |reflexivity|reflexivity|discriminate|reflexivity|discriminate
    |repeat split; vm_compute; reflexivity|vm_compute; reflexivity].
  split; [by exists [], []|]. split; [left|]. eexists. split; [reflexivity|]. split; [done|vm_compute; reflexivity].
Defined.
