(* ===== verification/DeploymentTheorems.v ===== *)
(** From the configuration to the other two parts of the protocol: what a
    session of a configured user is authorized for, and what becomes of its
    accounting records. *)
From S2P Require Import Prelude.
From S2P Require Import GoStrings.
From S2P Require Import Buffer.
From S2P Require Import HeaderFields.
From S2P Require Import AuthenFields.
From S2P Require Import AuthorFields.
From S2P Require Import Args.
From S2P Require Import Header.
From S2P Require Import Codec.
From S2P Require Import Authenticate.
From S2P Require Import Authorize.
From S2P Require Import Accounting.
From S2P Require Import MD5.
From S2P Require Import Proxy.
From S2P Require Import Crypt.
From S2P Require Import Crypter.
From S2P Require Import Sessions.
From S2P Require Import Response.
From S2P Require Import Server.
From S2P Require Import Client.
From S2P Require Import ClientPrograms.
From S2P Require Import Config.
From S2P Require Import Stringy.
From S2P Require Import AAA.
From S2P Require Import Handlers.
From S2P Require Import SecretProviders.
From S2P Require Import Loader.
From S2P Require Import ConnTheorems.
From S2P Require Import HandlerSafety.
From S2P Require Import ReplyTheorems.
From S2P Require Import HandlerTheorems.
From S2P Require Import EndToEnd.
From S2P Require Import AuthzTheorems.
From S2P Require Import LoaderTheorems.
From S2P Require Import ClientTheorems.

Section Deployment.
Context {NT : Net} {HH : Hash} {RE : Regexp} {PL : Platform} {DL : Dialer} (shhh : getSecret).

(** ** Sessions *)

(** What can be set for a user fits a reply. *)
Definition set_values (u : User) : list gostring :=
  (λ v, Arg_String (Value_String v)) <$> concat (Service_SetValues <$> all_services u).

Definition services_sendable (u : User) : Prop :=
  args_valid (set_values u) ∧ len (set_values u) < 256.

Definition session_reply (b : AuthorRequest) (u : User) : AuthorReply :=
  let '(args, status) := session_evaluate b u in
  if 0 <? len args then mkAuthorReply status args (str "authorization approved") []
  else mkAuthorReply AuthorStatusFail [] (str "not authorized") [].

Lemma answers_session c A U q b :
  AuthorRequest_UnmarshalBinary (Request_Body q) = Ok b → Header_Type (Request_Header q) = Authorize →
  c !! AuthorRequest_User b = Some A → AAA_Authorizer A = HStringy U →
  User_Name U = AuthorRequest_User b → command_based b = false →
  answers (Handle (Start_New c) q) (RAuthor (session_reply b U)) None.
Proof.
  intros Hb Hty HA HU Hn Hcb. unfold Start_New. cbn [Handle handler_Handler handler_Handle].
  apply answers_RegisterWriter. unfold Start_Handle. rewrite Hty, decide_False, decide_True by done.
  apply answers_record. unfold AuthorizeRequest_Handle, Unmarshal. cbn [UnmarshalBinary AuthorRequest_EncoderDecoder].
  rewrite Hb. unfold Provider_GetUser. rewrite HA, HU. cbn [user_Handle].
  unfold stringy_Handle, Unmarshal. cbn [UnmarshalBinary AuthorRequest_EncoderDecoder]. rewrite Hb.
  rewrite decide_False by (intros Hne; by apply Hne). rewrite Hcb.
  apply (answers_ext _ (session_Handle b U)); [done|].
  unfold session_Handle, session_reply. destruct (session_evaluate b U) as [args status].
  destruct (0 <? len args); apply answers_reply.
Qed.

Lemma session_status b u :
  (session_evaluate b u).2 = AuthorStatusPassAdd ∨ (session_evaluate b u).2 = AuthorStatusPassRepl.
Proof.
  unfold session_evaluate.
  assert (∀ st acc, st = AuthorStatusPassAdd ∨ st = AuthorStatusPassRepl →
    let r := evaluate_services (User_Services u)
      (Args_Args (AuthorRequest_Args b ++ [User_GetLocalizedScope u])) acc st in
    r.2 = AuthorStatusPassAdd ∨ r.2 = AuthorStatusPassRepl) as H; [|apply H; by left].
  induction (User_Services u) as [|s services IH]; intros st acc Hst; [exact Hst|].
  cbn [evaluate_services]. destruct (serviceMatcherModifier _ _) as [matched optional].
  apply IH. destruct optional; auto.
Qed.

(** The arguments of the reply are among the values that can be set. *)
Lemma session_args_submseteq b u U :
  User_Services U = all_services u → (session_evaluate b U).1 ⊆+ set_values u.
Proof.
  intros HU. apply NoDup_submseteq; [apply evaluate_services_NoDup|]. intros x.
  unfold session_evaluate. rewrite evaluate_services_elem, HU.
  intros [(a & Ha & _)|(s & v & Hs & _ & Hv & ->)]; [by apply elem_of_nil in Ha|].
  apply list_elem_of_fmap. exists v. split; [done|]. apply list_elem_of_In, in_concat.
  exists (Service_SetValues s). split; [|by apply list_elem_of_In].
  apply list_elem_of_In, list_elem_of_fmap. by exists s.
Qed.

Lemma session_reply_sendable b u U :
  User_Services U = all_services u → services_sendable u →
  ∃ p, reply_MarshalBinary (RAuthor (session_reply b U)) = Ok p ∧ len p <= MaxBodyLength ∧
    AuthorReply_fits (session_reply b U).
Proof.
  intros HU [Hv Hl]. pose proof (session_args_submseteq b u U HU) as Hsub.
  pose proof (session_status b U) as Hst. unfold session_reply.
  destruct (session_evaluate b U) as [args status]. cbn [fst snd] in *.
  destruct (0 <? len args).
  2: { eexists. split; [vm_compute; reflexivity|]. split; [vm_compute; discriminate|by repeat split]. }
  assert (len args < 256) as Hlen by (apply submseteq_length in Hsub; unfold len in *; lia).
  assert (args_valid args) as Hargs.
  { unfold args_valid in *. rewrite Forall_forall in *. intros x Hx. apply Hv. by eapply elem_of_submseteq. }
  set (r := mkAuthorReply status args (str "authorization approved") []).
  assert (AuthorReply_Validate r = Ok tt) as Hok.
  { unfold AuthorReply_Validate. apply bind_ok. exists tt. split; [|by apply args_valid_spec].
    subst r. by destruct Hst as [-> | ->]. }
  exists (match AuthorReply_MarshalBinary r with Ok p => p | _ => [] end).
  assert (AuthorReply_MarshalBinary r = Ok (match AuthorReply_MarshalBinary r with Ok p => p | _ => [] end)) as Hm.
  { unfold AuthorReply_MarshalBinary. by rewrite Hok. }
  split; [exact Hm|]. split; [|split_and!; [done|done|done]].
  unfold AuthorReply_MarshalBinary. rewrite Hok. cbn [mbind outcome_bind r AuthorReply_Status AuthorReply_Args
    AuthorReply_ServerMsg AuthorReply_Data]. unfold appendUint16. autorewrite with golen.
  rewrite len_concat. change (len (str "authorization approved")) with 22.
  assert (sumZ (len <$> args) <= 255 * len args) as Hsum.
  { clear -Hargs. induction Hargs as [|a args [_ Ha] _ IH]; [done|]. rewrite fmap_cons, sumZ_cons, len_cons. lia. }
  unfold MaxBodyLength. lia.
Qed.

(** C10. The authorization of sessions from end to end: the reply a client with
    the key of its config gets when a user in scope opens a session carries
    exactly the values of the services of the user and of its groups, in the
    configuration, that the arguments of the client and the scope select, each
    once and nothing else; it is a success if and only if there is one. *)
Theorem configured_session c sc u b body minor flags id cl s ctx :
  linked cl s → cs_known s !! id = None → 0 <= id < 4294967296 →
  minor = MinorVersionDefault ∨ minor = MinorVersionOne →
  in_scope c sc u → AuthorRequest_User b = User_Name u → command_based b = false → services_sendable u →
  AuthorRequest_fits b → AuthorRequest_MarshalBinary b = Ok body → len body <= MaxBodyLength →
  ∃ h' rb cl' s' rep,
    exchange (HSecretConfig (Start_New (users_of shhh c sc))) ctx
      (mkPacket (Some (author_header minor flags id)) (Some body)) cl s =
      ((Ok (mkPacket (Some h') (Some rb)), cl'), Open s') ∧
    AuthorReply_UnmarshalBinary rb = Ok rep ∧ linked cl' s' ∧ cs_known s' = cs_known s ∧
    NoDup (AuthorReply_Args rep) ∧
    (∀ x, x ∈ AuthorReply_Args rep ↔ ∃ sv v, sv ∈ all_services u ∧
       selected (Args_Args (AuthorRequest_Args b ++ [str "scope=" ++ SecretConfig_Name sc])) sv ∧
       v ∈ Service_SetValues sv ∧ x = Arg_String (Value_String v)) ∧
    ((AuthorReply_Status rep = AuthorStatusPassAdd ∨ AuthorReply_Status rep = AuthorStatusPassRepl) ↔
       AuthorReply_Args rep ≠ []) ∧
    (AuthorReply_Args rep = [] → AuthorReply_Status rep = AuthorStatusFail).
Proof.
  intros Hl Hk Hid Hm Hu Hub Hcb Hsv Hf Hp Hlen.
  destruct (in_scope_entry shhh c sc u Hu) as (A & HA & HU & _).
  destruct (localized_fields sc u) as (_ & HS & Hn & Hscope).
  pose proof (codec_roundtrip b body [] Hf Hp) as Hun. rewrite app_nil_r in Hun.
  destruct (session_reply_sendable b u (localized sc u) HS Hsv) as (rb & Hrb & Hlrb & Hfits).
  assert (header_valid (sized (author_header minor flags id) body)) as Hv.
  { split_and!; [by destruct Hm as [-> | ->]|done|done|done|done]. }
  assert (session_handler (Start_New (users_of shhh c sc)) (cs_known s) (author_header minor flags id)
    (Start_New (users_of shhh c sc))) as Hst by (unfold session_handler; cbn; by rewrite Hk).
  destruct (exchange_answered (Start_New (users_of shhh c sc)) ctx (author_header minor flags id) body cl s
    (Start_New (users_of shhh c sc)) (RAuthor (session_reply b (localized sc u))) rb None Hl)
    as (h' & cl' & s' & He & _ & _ & _ & Hdec & Hl' & Hk');
    [by repeat split; cbn; lia|exact Hv|by exists 0|done|apply some_accepted_passes; right; left; split; [done|]; left; by exists b
    |exact Hst| |done|exact Hfits|exact Hrb|exact Hlrb|].
  { intros ctx'. by apply (answers_session _ A (localized sc u) _ b); rewrite ?Hub. }
  exists h', rb, cl', s', (session_reply b (localized sc u)).
  split; [by rewrite exchange_embedded|]. split; [exact Hdec|]. split; [done|].
  split; [rewrite Hk'; by apply delete_id|].
  assert (AuthorReply_Args (session_reply b (localized sc u)) = (session_evaluate b (localized sc u)).1 ∧
    ((0 <? len (session_evaluate b (localized sc u)).1) = true →
       AuthorReply_Status (session_reply b (localized sc u)) = (session_evaluate b (localized sc u)).2) ∧
    ((0 <? len (session_evaluate b (localized sc u)).1) = false →
       AuthorReply_Status (session_reply b (localized sc u)) = AuthorStatusFail)) as (Hargs & Hs1 & Hs2).
  { unfold session_reply. destruct (session_evaluate b (localized sc u)) as [args st]. cbn [fst snd].
    destruct (Z.ltb_spec 0 (len args)); [done|]. split_and!; [|done|done].
    destruct args as [|x args]; [done|]. rewrite len_cons in *. pose proof (len_nonneg args). lia. }
  rewrite Hargs. split; [apply evaluate_services_NoDup|]. split; [|].
  - intros x. unfold session_evaluate. rewrite evaluate_services_elem, HS, Hscope. split.
    + by intros [(a & Ha%elem_of_nil & _)|?].
    + by right.
  - pose proof (session_status b (localized sc u)) as Hstat.
    destruct (session_evaluate b (localized sc u)).1 as [|x args] eqn:Ea.
    + rewrite Hs2 by done. split; [|done]. split; [by intros [?|?]|done].
    + rewrite Hs1 by (rewrite len_cons; apply Z.ltb_lt; pose proof (len_nonneg args); lia).
      split; [|done]. split; [done|]. intros _. exact Hstat.
Qed.

(** ** Accounting *)

(** What the server reads of a packet of a linked client, in its turn of an
    exchange. *)
Lemma exchange_read (h : handler) ctx hd body c s :
  linked c s → header_typed hd → header_valid (sized hd body) → Z.Odd (Header_SeqNo hd) →
  passes hd body →
  ∃ s1, (exchange h ctx (mkPacket (Some hd) (Some body)) c s).2 = serve_packet h ctx s1 ∧
    cs_env s1 = cs_env s ∧ cs_known s1 = cs_known s ∧
    crypter_read (cs_crypter s1) = (Ok (mkPacket (Some (sized hd body)) (Some body)), cs_crypter s).
Proof.
  intros (Hsec & Hpc & Hps & Hic & His & Hec & Hes) Ht Hv Hodd Hacc.
  destruct (crypter_write_sent c hd body Ht Hv Hacc Hec) as (w & Hw & Hread).
  exists (mkConn (arrive (cs_crypter s) w) (cs_known s) (cs_env s)). split; [|split_and!; [done|done|]].
  - unfold exchange, server_turn. rewrite Hw. cbn [snd]. do 2 f_equal. unfold sent. cbn.
    rewrite drop_app_length. cbn. by rewrite app_nil_r.
  - cbn [cs_crypter]. rewrite (Hread _ []); [|done|done|by cbn; rewrite His, app_nil_r].
    rewrite header_decoded_odd by done. f_equal. unfold arrive, set_in. cbn. rewrite <- His.
    by destruct (cs_crypter s).
Qed.

(** The effects of a turn that goes on are those of the handler. *)
Lemma serve_packet_env (h : handler) ctx s hd body c s' :
  crypter_read (cs_crypter s) = (Ok (mkPacket (Some hd) (Some body)), c) →
  cs_known s !! Header_SessionID hd = None → serve_packet h ctx s = Open s' →
  ∃ rctx resp, r_env resp = cs_env s ∧ cs_env s' = r_env (Handle h (mkRequest hd body rctx) resp).2.
Proof.
  intros Hread Hk Hs.
  destruct (serve_packet_cases h ctx s) as [(c' & e & He & _)|(hd' & body' & c' & Hread' & _ & Hc)]; [congruence|].
  rewrite Hread in Hread'. injection Hread' as <- <- <-. cbv zeta in Hc.
  destruct Hc as [(e & known & _ & He)|(state & st & known & Hg & -> & _ & [(r' & _ & He)|[_ He]])];
    [congruence..|].
  assert (state = None) as ->.
  { destruct (sessions_get_cases (cs_known s) hd)
      as [[_ [e E]]|[(_ & _ & E)|(sc & _ & Hsc & _)]]; congruence. }
  rewrite Hs in He. injection He as ->. cbn [cs_env from_option id default]. eexists _, _. split; [|reflexivity]. done.
Qed.

Definition acct_header (minor flags : byte) (id seqNo : Z) : Header :=
  mkHeader (mkVersion MajorVersion minor) Accounting seqNo id flags 0.

Lemma acct_flags_sendable flags seqNo :
  ∃ v p, acct_flags_reply flags seqNo = RAcct v ∧ reply_MarshalBinary (RAcct v) = Ok p ∧ len p <= MaxBodyLength ∧
    AcctReply_fits v.
Proof.
  unfold acct_flags_reply. repeat case_decide; repeat case_match; do 2 eexists;
    (split; [reflexivity|]); (split; [vm_compute; reflexivity|]); (split; [vm_compute; discriminate|]); by repeat split.
Qed.

(** C11. Accounting from end to end: when a client with the key of its config
    sends an accounting request of a user whose accounter, its own or that of
    its first group that has one, is the file, then the record is in the log of
    the server, after everything logged before, when the one reply arrives,
    which is a success exactly for the valid flags and sequence numbers. *)
Theorem configured_accounting c sc u b j body minor flags id seqNo cl s ctx :
  linked cl s → cs_known s !! id = None → 0 <= id < 4294967296 →
  minor = MinorVersionDefault ∨ minor = MinorVersionOne → Z.Odd seqNo → 1 <= seqNo <= 253 →
  in_scope c sc u → AcctRequest_User b = User_Name u → accounter_of u = HLocal → json_Marshal b = Some j →
  AcctRequest_fits b → AcctRequest_MarshalBinary b = Ok body → len body <= MaxBodyLength →
  ∃ h' rb cl' s' rep logged,
    exchange (HSecretConfig (Start_New (users_of shhh c sc))) ctx
      (mkPacket (Some (acct_header minor flags id seqNo)) (Some body)) cl s =
      ((Ok (mkPacket (Some h') (Some rb)), cl'), Open s') ∧
    AcctReply_UnmarshalBinary rb = Ok rep ∧ linked cl' s' ∧ cs_known s' = cs_known s ∧
    (env_events (cs_env s) ++ [EvRecord logged []; EvSink j]) `prefix_of` env_events (cs_env s') ∧
    (AcctReply_Status rep = AcctReplyStatusSuccess ∧ acct_accepted (AcctRequest_Flags b) seqNo ∨
     AcctReply_Status rep = AcctReplyStatusError ∧ ¬ acct_accepted (AcctRequest_Flags b) seqNo).
Proof.
  intros Hl Hk Hid Hm Hodd Hseq Hu Hub Hac Hj Hf Hp Hlen.
  destruct (in_scope_entry shhh c sc u Hu) as (A & HA & _ & HAc).
  pose proof (codec_roundtrip b body [] Hf Hp) as Hun. rewrite app_nil_r in Hun.
  set (hd := acct_header minor flags id seqNo). set (h := Start_New (users_of shhh c sc)).
  destruct (acct_flags_sendable (AcctRequest_Flags b) seqNo) as (v & rb & Ev & Hrb & Hlrb & Hfits).
  assert (∀ ctx' r, Handle h (mkRequest (sized hd body) body ctx') r =
    (response_RegisterWriter WResponseLogger ;;
     Record_request (mkRequest (sized hd body) body ctx') [] ;; sink_Printf j ;; reply_ (RAcct v)) r) as Hacct.
  { intros ctx' r. unfold h, Start_New. cbn [Handle handler_Handler handler_Handle].
    unfold mbind at 1 2, sm_bind at 1 2. cbn [response_RegisterWriter fst snd].
    rewrite <- Ev. change (Start_Handle ?c ?q ?r) with (Handle (HStart c) q r).
    exact (local_accounting (users_of shhh c sc) (mkRequest (sized hd body) body ctx') b A j Hun eq_refl
      ltac:(by rewrite Hub) ltac:(by rewrite HAc) Hj _). }
  assert (header_valid (sized hd body)) as Hv.
  { split_and!; [by destruct Hm as [-> | ->]|done|cbn; lia..|done]. }
  assert (session_handler h (cs_known s) hd h) as Hst by (unfold session_handler; cbn; by rewrite Hk).
  assert (passes hd body) as Hacc.
  { apply some_accepted_passes. right; right; split; [done|]. left. by exists b. }
  assert (header_typed hd) as Htyped by (repeat split; cbn; lia).
  destruct (exchange_answered h ctx hd body cl s h (RAcct v) rb None Hl)
    as (h' & cl' & s' & He & _ & _ & _ & Hdec & Hl' & Hk'); [done..|cbn; lia|done|done| |done|exact Hfits|exact Hrb|exact Hlrb|].
  { intros ctx'. eapply answers_ext; [apply Hacct|].
    apply answers_RegisterWriter, answers_record. intros r Hn. unfold mbind, sm_bind. cbn [sink_Printf].
    destruct r as [rc rn rh rw rx re]. cbn in Hn. subst rn. by do 2 eexists. }
  destruct (exchange_read h ctx hd body cl s Hl Htyped Hv Hodd Hacc) as (s1 & Hs1 & Henv & Hks & Hread).
  rewrite He in Hs1. cbn [snd] in Hs1. symmetry in Hs1.
  destruct (serve_packet_env h ctx s1 _ _ _ s' Hread) as (rctx & resp & Hre & Hse); [cbn; by rewrite Hks|done|].
  destruct (acct_flags_reply_spec (AcctRequest_Flags b) seqNo) as (v' & Ev' & Hst'). rewrite Ev in Ev'.
  injection Ev' as <-.
  assert (∃ e, (env_events (cs_env s) ++ [EvRecord e []; EvSink j]) `prefix_of` env_events (cs_env s')) as [e Hev].
  { rewrite Hse, Hacct. exists (Request_Fields (mkRequest (sized hd body) body rctx) [ContextConnRemoteAddr]). rewrite <- Henv, <- Hre.
    match goal with |- context [reply_ ?v] => etrans; [|apply (keeps_reply_ v)] end.
    cbn. by rewrite <- app_assoc. }
  exists h', rb, cl', s', v, e. split; [by unfold h in He; rewrite exchange_embedded|].
  split; [exact Hdec|]. split; [done|]. split; [rewrite Hk'; by apply delete_id|]. by split.
Qed.
End Deployment.

(** ** Witnesses: in the configuration of LoaderTheorems.v the records of
    "cisco" go to the file, and a user of a group may open a shell with
    privilege level 15. *)
#[local] Existing Instances y_Net y_Hash y_Regexp y_Platform y_Dialer.

Definition y_level : Value := mkValue (str "priv-lvl") [str "15"] false.
Definition y_shell : Service := mkService (str "shell") [] [y_level] false.
Definition y_admin : User :=
  mkUser (str "op") [str "localhost"] [mkGroup (str "ops") [y_shell] [] None None] [] [] None None.
Definition y_shell_config : ServerConfig := mkServerConfig [y_secret] [y_admin] [] [].
Definition y_login : AuthorRequest :=
  mkAuthorRequest AuthenMethodTacacsPlus x01 AuthenTypeASCII AuthenServiceLogin (str "op") [] []
    [str "service=shell"; str "cmd="].
Definition y_login_bytes : list byte :=
  match AuthorRequest_MarshalBinary y_login with Ok b => b | _ => [] end.

Lemma configured_session_witness :
  ∃ h' rb cl' s' rep,
    exchange (HSecretConfig (Start_New (users_of y_shhh y_shell_config y_secret))) ∅
      (mkPacket (Some (author_header MinorVersionDefault x00 9)) (Some y_login_bytes)) z_client z_server =
      ((Ok (mkPacket (Some h') (Some rb)), cl'), Open s') ∧
    AuthorReply_UnmarshalBinary rb = Ok rep ∧ str "priv-lvl=15" ∈ AuthorReply_Args rep.
Proof.
  destruct (configured_session y_shhh y_shell_config y_secret y_admin y_login y_login_bytes
    MinorVersionDefault x00 9 z_client z_server ∅)
    as (h' & rb & cl' & s' & rep & He & Hr & _ & _ & _ & Hiff & _);
    [exact z_linked|reflexivity|split; [discriminate|reflexivity]|left; reflexivity| |reflexivity
    |vm_compute; reflexivity| |repeat split; vm_compute; reflexivity|vm_compute; reflexivity
    |vm_compute; discriminate|].
  - split; [exists [], []; split; [reflexivity|constructor]|]. split; [left|discriminate].
  - split; [|vm_compute; reflexivity]. repeat constructor; vm_compute; [discriminate..].
  - exists h', rb, cl', s', rep. split; [exact He|]. split; [exact Hr|]. apply Hiff.
    exists y_shell, y_level. split; [left|]. split; [|split; [left|vm_compute; reflexivity]].
    split; [|constructor]. exists (str "service=shell"). split; [left|]. right. vm_compute. reflexivity.
Defined.

Definition y_record : AcctRequest :=
  mkAcctRequest AcctFlagStart AuthenMethodTacacsPlus x01 AuthenTypeASCII AuthenServiceLogin (str "cisco") [] []
    [str "service=shell"].
Definition y_record_bytes : list byte :=
  match AcctRequest_MarshalBinary y_record with Ok b => b | _ => [] end.

Lemma configured_accounting_witness :
  ∃ h' rb cl' s' rep logged,
    exchange (HSecretConfig (Start_New (users_of y_shhh y_config y_secret))) ∅
      (mkPacket (Some (acct_header MinorVersionDefault x00 9 1)) (Some y_record_bytes)) z_client z_server =
      ((Ok (mkPacket (Some h') (Some rb)), cl'), Open s') ∧
    AcctReply_UnmarshalBinary rb = Ok rep ∧ AcctReply_Status rep = AcctReplyStatusSuccess ∧
    [EvRecord logged []; EvSink (str "cisco")] `prefix_of` env_events (cs_env s').
Proof.
  destruct (configured_accounting y_shhh y_config y_secret y_user y_record (str "cisco") y_record_bytes
    MinorVersionDefault x00 9 1 z_client z_server ∅)
    as (h' & rb & cl' & s' & rep & logged & He & Hr & _ & _ & Hev & Hst);
    [exact z_linked|reflexivity|split; [discriminate|reflexivity]|left; reflexivity|exists 0; reflexivity
    |split; discriminate| |reflexivity|vm_compute; reflexivity|vm_compute; reflexivity
    |repeat split; vm_compute; reflexivity|vm_compute; reflexivity|vm_compute; discriminate|].
  - split; [exists [], []; split; [reflexivity|constructor]|]. split; [left|discriminate].
  - exists h', rb, cl', s', rep, logged. split; [exact He|]. split; [exact Hr|]. split; [|exact Hev].
    destruct Hst as [[Hs _]|[_ Hn]]; [exact Hs|]. destruct Hn. left. reflexivity.
Defined.
